(* ===== verification/_CoqProject ===== *)
-Q . S2P
Prelude.v
PyText.v
PyFloat.v
Signing.v
IpAddress.v
Redis.v
SchedulerLock.v
Models.v
Store.v
Session.v
Wp.v
Schema.v
Metadata.v
Migrations.v
SchemaProps.v
AgentPackage.v
Confined.v
Retry.v
TaskRepo.v
MetricRepo.v
ServerRepo.v
PyBase64.v
AgentAuth.v
AgentService.v
ServerService.v
UserRepo.v
AuthService.v
UserService.v
AlertRepo.v
AlertEngine.v
AlertService.v
TaskService.v
Scheduler.v
AgentOps.v
AgentRegister.v
TaskInv.v
TaskAggregate.v
TaskSteps.v
TaskScans.v
TaskCreation.v
TaskAdmin.v
TaskSafety.v
Samples.v
TaskProps.v
AlertInv.v
AlertSteps.v
AlertRound.v
AlertPairs.v
AlertSystem.v
AlertProps.v
SchedulerProps.v
AgentProps.v
AgentSigner.v
AgentClient.v
ClientProps.v
MonitorService.v
MonitorProps.v
Middleware.v
Schemas.v
Routes.v
Discovery.v
AgentWorker.v
AgentCollect.v
WorkerProps.v
AgentMain.v
AgentFlow.v
AgentSystem.v
ServerAdmin.v
AssetSync.v
UserOps.v
SampleUser.v
UserProps.v
MiddlewareProps.v
UserAdmin.v
Seed.v
SeedProps.v
System.v
SystemSim.v
Isolation.v
SystemSafety.v
