(* ===== verification/Prelude.v ===== *)
(** * Ops Monitor: a verification development

    A shallow embedding of the Python code of the platform: the backend
    (src/backend/app, with the migrations in src/backend/migrations) and the
    Linux agent (src/agent).  Definitions keep the names of the source; paths
    below are relative to src/, and to src/backend/app/ where they start with
    api, core, models, repositories, schemas, services, middleware or utils.

    ** The program

    Agents register at the backend with a bearer token, send heartbeats,
    metrics, assets and service states, and poll for tasks; they sign their
    requests with Ed25519.  Users manage servers, alert rules, tasks and
    accounts over the same HTTP interface.  Background jobs, one process at a
    time under a lock in Redis, refresh the status of the agents, evaluate the
    alert rules, watch time-outs, dispatch retries, fire scheduled tasks and
    archive metrics.  Everything lives in one relational database.

    ** The state and the effects

    - [Models]: a record per ORM class; [Store]: the database as a family of
      tables (finite map and next key) with unique constraints, foreign keys
      and soft deletion, and [integrity].
    - [Session]: the monad [M] of a SQLAlchemy session (view, durable database,
      number of clock readings; value or exception), the error codes and
      responses (exceptions/), and the generic repository
      (repositories/base.py).  [Env] gives the clock, the order of scans and the
      iteration order of sets; [EnvOk] is what is documented of them.
    - [Wp]: weakest preconditions, [NoCommit], [Atomic], [Preserves];
      [Confined]: which tables a computation writes.
    - [Schema], [Metadata], [Migrations]: schema changes, the ORM declarations
      and all migrations; [SchemaProps]: the migrations build the declared
      schema, the model of the store implements it, downgrades revert.

    ** The components of the backend

    - Tasks (services/task_service.py, repositories/task_repository.py,
      core/retry.py): [TaskService], [TaskRepo], [Retry].  [TaskInv]: the
      invariant of the three task tables; [TaskSteps], [TaskScans],
      [TaskCreation], [TaskAdmin]: the operations keep it; [TaskAggregate]: the
      status of a task; [TaskSafety]: the operations as a transition system;
      [TaskProps]: the theorems -- finished work is final, an execution is
      claimed at most once, attempts stay within the budget, and the effect of
      every operation.
    - Alerts (services/alert_engine.py, services/alert_service.py,
      repositories/alert_repository.py): [AlertEngine], [AlertService],
      [AlertRepo]; invariant [AlertInv], steps [AlertSteps], one round
      [AlertRound] and [AlertPairs], transition system [AlertSystem], theorems
      [AlertProps]: a round implements the state machine of every pair of rule
      and server, one active alert per pair, logs that are paths of the machine.
    - Agent protocol (api/v1/deps.py, core/signing.py, core/replay.py,
      services/agent_service.py, repositories/server_repository.py): [Signing],
      [AgentAuth], [AgentService], [ServerRepo]; lemmas [AgentOps],
      [AgentRegister]; theorems [AgentProps] (signatures and replays),
      [AgentFlow] (tokens, heartbeats, metrics, registration), [AssetSync].
    - Users (core/security.py, services/auth_service.py,
      services/user_service.py, repositories/user_repository.py): [UserRepo],
      [AuthService], [UserService]; [UserOps]; [UserProps], [UserAdmin].
    - Servers and monitoring (services/server_service.py,
      services/monitor_service.py, repositories/metric_repository.py,
      core/metrics.py): [ServerService], [MonitorService], [MetricRepo];
      [ServerAdmin], [MonitorProps].
    - Jobs (core/scheduler.py, core/scheduler_lock.py): [Scheduler],
      [SchedulerLock] over [Redis]; [SchedulerProps].
    - Discovery (services/discovery_service.py): [Discovery] over [IpAddress].
    - Packages (services/agent_package.py): [AgentPackage].
    - Seeding (core/seed.py): [Seed], [SeedProps].
    - HTTP (api/v1, middleware, schemas, utils): [Middleware], [Schemas],
      [Routes]; [MiddlewareProps].
    - The whole server: [System] is the step relation of everything that changes
      the database; [SystemSim]: every step is simulated by the abstract systems
      of tasks and of alerts; [Isolation]; [SystemSafety]: that refinement in
      every reachable state, access control of every route, isolation of the
      agents, bounds of the stored metrics.

    ** The agent

    [AgentSigner] (agent/signer.py), [AgentClient] (agent/reporter),
    [AgentWorker] (agent/worker.py, agent/executor, agent/errors.py),
    [AgentCollect] (agent/collector), [AgentMain] (agent/main.py,
    agent/config).  [ClientProps]: a request ends, and what retries do at the
    server; [WorkerProps]: only permitted commands, one report per task, and no
    report that the server retries; [AgentMain]: registration with back-off, and
    what the four loops ever send and start.  [AgentSystem] joins agent and
    server: the metrics of a healthy machine are stored, and a turn of the
    worker ends every execution it was given.

    [PyText], [PyFloat] and [PyBase64] are the parts of Python the code uses;
    [Samples] and [SampleUser] hold the concrete data of the witnesses.

    ** What is abstracted

    - Time is an integer number of microseconds.  A float is the rational it
      denotes, rounded to binary64 after every operation, without overflow and
      subnormals.  DECIMAL and DATETIME columns are exact; the session's time
      zone is UTC; texts compare by their bytes; the length of a column is
      enforced where a request can exceed it unchecked (the two log tables) and
      by the request models.  [upper] and [lower] are those of ASCII.
    - A write is visible to later queries of its session at once and its
      constraints are checked at the write.  Requests and jobs run one after the
      other: each is one transaction of [M], and the interleaving of two of them
      inside the database server is not modelled, except for the job lock, whose
      processes interleave step by step.  The source takes no row locks, so this
      matters: [TaskProps.overlapping_polls] shows what two polls do that read
      the same snapshot.
    - Parameters, each with its documented laws and an instance: Redis, Ed25519,
      bcrypt, PyJWT, the OAuth2 header of the framework, croniter, secrets,
      uuid4, random numbers, sockets, subprocesses, psutil and the operating
      system, the HTTP transport, and what the server does with indexes that
      foreign keys need.  Python's [ipaddress], [base64] and [hashlib.sha256]
      are modelled as far as the code uses them.
    - A response is given by the result of the service that it serialises.
    - The agent's threads interleave pass by pass, not within a request.

    ** Bounds and fuel

    The retry loop of the HTTP client runs with fuel [retry_max_count + 1],
    which [ClientProps.request_spec] shows to be enough.  The registration loop
    has none in the source; [AgentMain.registration_backoff] covers every number
    of attempts.  [Schema.upgrade_head] follows four revisions.  All other
    recursion is structural.

    ** Not modelled

    Logging and tracing (core/logging.py, core/tracing.py, agent/utils/logger.py:
    output only), the reading of settings from the environment and of YAML,
    connection handling (core/database.py), the response models (schemas/*Out:
    copies of fields), the timers and threads of APScheduler and of the agent,
    signals, the encodings of tar and gzip, Alembic's env.py, the Go agent, the
    front end, deployment files, benchmarks and tests. *)
From stdpp Require Export base gmap strings list pretty sorting.
From Stdlib Require Export ZArith Lia.

#[global] Open Scope string_scope.
#[global] Open Scope list_scope.
#[global] Open Scope Z_scope.

(** ** Record update

    A Python attribute assignment [obj.f = v] is written [r <| f := v |>].
    A record becomes updatable by one [Settable] instance that rebuilds it
    from its projections; the setter of a field is then derived on demand. *)

Class Settable (R : Type) := eta_expand : R → R.

Class Setter {R T : Type} (proj : R → T) := set_field : (T → T) → R → R.

Arguments set_field {R T} proj {_} f r.

Ltac derive_setter :=
  lazymatch goal with
  | |- @Setter ?R ?T ?p =>
    let f := fresh "f" in
    let r := fresh "r" in
    unfold Setter; intros f r;
    let R' := eval hnf in R in
    let e := eval hnf in (@eta_expand R' _ r) in
    lazymatch eval pattern (p r) in e with
    | ?g _ => exact (g (f (p r)))
    end
  end.

#[export] Hint Extern 1 (Setter _) => derive_setter : typeclass_instances.

Declare Scope py_scope.
Delimit Scope py_scope with py.
#[global] Open Scope py_scope.

Notation "r <| p := v |>" := (set_field p (λ _, v) r)
  (at level 1, left associativity, p at level 9, v at level 100,
   format "r  <| p  :=  v |>") : py_scope.

(** ** Python strings

    A [str] is the [string] of its UTF-8 bytes. *)

(** [bool(s)] for an optional string. *)
Definition py_truthy (o : option string) : bool :=
  match o with Some s => negb (String.eqb s "") | None => false end.

(** [a or b] on optional strings. *)
Definition py_or (a b : option string) : option string :=
  if py_truthy a then a else b.

(** [sub in s]. *)
Fixpoint py_contains (sub s : string) : bool :=
  String.prefix sub s ||
  match s with
  | EmptyString => false
  | String _ s' => py_contains sub s'
  end.

Definition ascii_lower (a : Ascii.ascii) : Ascii.ascii :=
  let n := Ascii.nat_of_ascii a in
  if (65 <=? n)%nat && (n <=? 90)%nat then Ascii.ascii_of_nat (n + 32) else a.

Definition ascii_upper (a : Ascii.ascii) : Ascii.ascii :=
  let n := Ascii.nat_of_ascii a in
  if (97 <=? n)%nat && (n <=? 122)%nat then Ascii.ascii_of_nat (n - 32) else a.

Definition byte (n : nat) : Ascii.ascii := Ascii.ascii_of_nat n.

(** [s.lower()], as far as its ASCII output goes: the ASCII letters, and the
    two other code points whose lower case contains an ASCII letter, the
    Kelvin sign (U+212A, bytes E2 84 AA, to [k]) and the dotted capital I
    (U+0130, bytes C4 B0, to [i] and U+0307, bytes CC 87).  Every other code
    point lower-cases to non-ASCII letters and is left as it is. *)
Fixpoint py_lower (s : string) : string :=
  match s with
  | EmptyString => EmptyString
  | String a s1 =>
    let other := String (ascii_lower a) (py_lower s1) in
    match s1 with
    | EmptyString => other
    | String b s2 =>
      if Ascii.eqb a (byte 196) && Ascii.eqb b (byte 176)
      then String (byte 105) (String (byte 204) (String (byte 135) (py_lower s2)))
      else
        match s2 with
        | EmptyString => other
        | String c s3 =>
          if Ascii.eqb a (byte 226) && Ascii.eqb b (byte 132) && Ascii.eqb c (byte 170)
          then String (byte 107) (py_lower s3)
          else other
        end
    end
  end.

(** [s.upper()] on ASCII letters; other code points are left as they are. *)
Fixpoint py_upper (s : string) : string :=
  match s with
  | EmptyString => EmptyString
  | String a s' => String (ascii_upper a) (py_upper s')
  end.

(** [str(n)] for an integer. *)
Definition py_str (n : Z) : string := pretty n.

(** [s[:n]]. *)
Definition py_take (n : nat) (s : string) : string := String.substring 0 n s.

Fixpoint py_ends_with (suffix s : string) : bool :=
  String.eqb suffix s ||
  match s with
  | EmptyString => false
  | String _ s' => py_ends_with suffix s'
  end.

(** ** Time

    A naive UTC [datetime] is the number of microseconds since the epoch; a
    [timedelta] is a number of microseconds. *)

Abbreviation datetime := Z (only parsing).
Abbreviation timedelta := Z (only parsing).

Definition seconds (n : Z) : timedelta := n * 1000000.
Definition days (n : Z) : timedelta := n * 86400 * 1000000.

(** The civil date of a day number (proleptic Gregorian calendar). *)
Definition civil_from_days (z0 : Z) : Z * Z * Z :=
  let z := z0 + 719468 in
  let era := z / 146097 in
  let doe := z mod 146097 in
  let yoe := (doe - doe / 1460 + doe / 36524 - doe / 146096) / 365 in
  let doy := doe - (365 * yoe + yoe / 4 - yoe / 100) in
  let mp := (5 * doy + 2) / 153 in
  let d := doy - (153 * mp + 2) / 5 + 1 in
  let m := if mp <? 10 then mp + 3 else mp - 9 in
  let y := yoe + era * 400 + (if m <=? 2 then 1 else 0) in
  (y, m, d).

(** [dt.date()], as a day number. *)
Definition py_date (t : datetime) : Z := t / (86400 * 1000000).

(** [f"{n:0wd}"] for a non-negative integer. *)
Definition zpad (w : nat) (n : Z) : string :=
  let s := py_str n in
  let missing := (w - String.length s)%nat in
  String.concat "" (replicate missing "0") +:+ s.

(** A lower-case hexadecimal digit. *)
Definition hex_digit (n : Z) : Ascii.ascii :=
  byte (Z.to_nat (if n <? 10 then 48 + n else 87 + n)).

(** [dt.isoformat()] of a naive datetime. *)
Definition py_isoformat (t : datetime) : string :=
  let us := t mod 1000000 in
  let sec := t / 1000000 in
  let sod := sec mod 86400 in
  let '(y, m, d) := civil_from_days (sec / 86400) in
  zpad 4 y +:+ "-" +:+ zpad 2 m +:+ "-" +:+ zpad 2 d +:+ "T" +:+
  zpad 2 (sod / 3600) +:+ ":" +:+ zpad 2 (sod / 60 mod 60) +:+ ":" +:+ zpad 2 (sod mod 60) +:+
  (if us =? 0 then "" else "." +:+ zpad 6 us).

Definition bytes_of (s : string) : list Z :=
  map (λ a, Z.of_nat (Ascii.nat_of_ascii a)) (String.list_ascii_of_string s).

(** [len(s)]: the number of code points of a UTF-8 string. *)
Definition py_len (s : string) : Z :=
  Z.of_nat (length (filter (λ b, ¬ (128 ≤ b < 192)) (bytes_of s))).

(** ** Partial updates

    The fields of a request model of which only those that were sent take
    effect ([model_dump(exclude_unset=True)]). *)

(** A field: absent, an explicit null, or a value. *)
Inductive field (A : Type) := Unset | Null | Given (a : A).
Arguments Unset {A}.
Arguments Null {A}.
Arguments Given {A} a.

Definition is_null {A} (f : field A) : bool := match f with Null => true | _ => false end.

(** A column that is not nullable keeps its value under a null; the null is an
    error of its own. *)
Definition set_required {A} (f : field A) (old : A) : A :=
  match f with Given a => a | _ => old end.

Definition set_nullable {A} (f : field A) (old : option A) : option A :=
  match f with Given a => Some a | Null => None | Unset => old end.

(** Membership in a list given by [++] and [::]. *)
Ltac list_in :=
  rewrite ?elem_of_app, ?elem_of_cons, ?elem_of_app, ?list_elem_of_singleton, ?elem_of_nil; tauto.

(** ** Sorting, as [ORDER BY] and [list.sort] do: stable, by a boolean order. *)
Section SortBy.
Context {A : Type} (le : A → A → bool).

Fixpoint insert_by (x : A) (l : list A) : list A :=
  match l with
  | [] => [x]
  | y :: l' => if le x y then x :: y :: l' else y :: insert_by x l'
  end.

Definition sort_by (l : list A) : list A := foldr insert_by [] l.

Lemma insert_by_perm (x : A) (l : list A) : insert_by x l ≡ₚ x :: l.
Proof.
  induction l as [|y l IH]; simpl; [done|].
  destruct (le x y); [done|]. rewrite IH. by rewrite Permutation_swap.
Qed.

Lemma sort_by_perm (l : list A) : sort_by l ≡ₚ l.
Proof. induction l as [|x l IH]; simpl; [done|]. by rewrite insert_by_perm, IH. Qed.

Lemma elem_of_sort_by (x : A) (l : list A) : x ∈ sort_by l ↔ x ∈ l.
Proof. by rewrite sort_by_perm. Qed.

Lemma insert_by_sorted (x : A) (l : list A) :
  (∀ a b, le a b = false → le b a = true) →
  Sorted (λ a b, le a b = true) l →
  Sorted (λ a b, le a b = true) (insert_by x l).
Proof.
  intros Htot. induction 1 as [|y l Hs IH Hd]; simpl; [by repeat constructor|].
  destruct (le x y) eqn:E; [by repeat constructor|].
  constructor; [done|]. destruct l as [|z l]; simpl; [constructor; auto|].
  destruct (le x z); constructor; auto. by inversion Hd.
Qed.

Lemma sort_by_sorted (l : list A) :
  (∀ a b, le a b = false → le b a = true) →
  Sorted (λ a b, le a b = true) (sort_by l).
Proof. intros Htot. induction l; simpl; auto using insert_by_sorted. Qed.
End SortBy.

Lemma insert_by_ext {A} (le le' : A → A → bool) (x : A) (l : list A) :
  (∀ y, y ∈ l → le x y = le' x y) → insert_by le x l = insert_by le' x l.
Proof.
  induction l as [|y l IH]; intros H; simpl; [done|].
  rewrite H by set_solver. destruct (le' x y); [done|]. f_equal. apply IH. set_solver.
Qed.

Lemma sort_by_ext {A} (le le' : A → A → bool) (l : list A) :
  (∀ x y, x ∈ l → y ∈ l → le x y = le' x y) → sort_by le l = sort_by le' l.
Proof.
  induction l as [|x l IH]; intros H; simpl; [done|].
  rewrite IH by (intros; apply H; set_solver). apply insert_by_ext.
  intros y Hy%elem_of_sort_by. apply H; set_solver.
Qed.

Example isoformat_example :
  py_isoformat (seconds 1700000000 + 4200) = "2023-11-14T22:13:20.004200".
Proof. vm_compute. reflexivity. Qed.

Example lower_example : py_lower "NETWORK ERROR 超时" = "network error 超时".
Proof. vm_compute. reflexivity. Qed.
