(* ===== verification/PyText.v ===== *)
(** * Texts and numbers

    Numbers within composite keys, and Python's conversion of strings to
    integers. *)
From S2P Require Import Prelude.

(** ** Composite keys

    Keys such as ["rule:server:metric"] are built from decimal numbers and a
    separator; the parts can be read back. *)

Fixpoint lacks (c : Ascii.ascii) (s : string) : bool :=
  match s with
  | EmptyString => true
  | String a s' => negb (Ascii.eqb a c) && lacks c s'
  end.

Lemma lacks_app c s t : lacks c (s +:+ t) = lacks c s && lacks c t.
Proof. induction s as [|a s IH]; simpl; [done|]. by rewrite IH, andb_assoc. Qed.

(** The first separator splits a string in one way. *)
Lemma split_at (c : Ascii.ascii) (s s' t t' : string) :
  lacks c s = true → lacks c s' = true →
  s +:+ String c t = s' +:+ String c t' → s = s' ∧ t = t'.
Proof.
  revert s'. induction s as [|a s IH]; intros [|a' s']; simpl.
  - by intros _ _ [=].
  - intros _ [Ha _]%andb_true_iff [= -> _]. by rewrite Ascii.eqb_refl in Ha.
  - intros [Ha _]%andb_true_iff _ [= <- _]. by rewrite Ascii.eqb_refl in Ha.
  - intros [_ Hs]%andb_true_iff [_ Hs']%andb_true_iff [= <- He].
    by destruct (IH s' Hs Hs' He) as [-> ->].
Qed.

Definition colon : Ascii.ascii := Ascii.ascii_of_nat 58.

Lemma pretty_char_lacks (n : N) : Ascii.eqb (pretty_N_char n) colon = false.
Proof. destruct n as [|p]; [done|]. do 4 (destruct p as [p|p|]; try done). Qed.

Lemma pretty_go_lacks (x : N) (s : string) : lacks colon s = true → lacks colon (pretty_N_go x s) = true.
Proof.
  revert s. induction (N.lt_wf_0 x) as [x _ IH]; intros s Hs.
  destruct (decide (0 < x)%N) as [Hx|Hx].
  - rewrite pretty_N_go_step by done. apply IH; [by apply N.div_lt|].
    simpl. by rewrite pretty_char_lacks.
  - assert (x = 0%N) as -> by lia. by rewrite pretty_N_go_0.
Qed.

Lemma py_str_lacks (n : Z) : lacks colon (py_str n) = true.
Proof.
  assert (∀ p : positive, lacks colon (pretty (N.pos p)) = true) as Hpos.
  { intros p. by apply pretty_go_lacks. }
  destruct n as [|p|p]; [done|apply Hpos|]. unfold py_str, pretty, pretty_Z. simpl.
  apply (Hpos p).
Qed.

Lemma py_str_inj (a b : Z) : py_str a = py_str b → a = b.
Proof. apply (inj (pretty : Z → string)). Qed.

(** [f"{a}:{s}"]. *)
Lemma numbered_inj (a b : Z) (s t : string) :
  py_str a +:+ ":" +:+ s = py_str b +:+ ":" +:+ t → a = b ∧ s = t.
Proof.
  intros He. destruct (split_at colon (py_str a) (py_str b) s t) as [Hab Hst];
    [apply py_str_lacks..|done|]. split; [by apply py_str_inj|done].
Qed.

(** ** [int(s)] on a string

    Python's decimal integers: white space around them, a sign, single
    underscores between the digits, at most 4300 digits. *)

Definition is_space (a : Ascii.ascii) : bool :=
  let n := Ascii.nat_of_ascii a in
  ((9 <=? n) && (n <=? 13) || (28 <=? n) && (n <=? 32))%nat.

(** The white space outside ASCII: U+0085 and U+00A0 in two bytes; U+1680,
    U+2000 to U+200A, U+2028, U+2029, U+202F, U+205F and U+3000 in three. *)
Definition is_space2 (a b : Ascii.ascii) : bool :=
  Ascii.eqb a (byte 194) && (Ascii.eqb b (byte 133) || Ascii.eqb b (byte 160)).

Definition is_space3 (a b c : Ascii.ascii) : bool :=
  let n := Ascii.nat_of_ascii c in
  if Ascii.eqb a (byte 225) then Ascii.eqb b (byte 154) && (n =? 128)%nat
  else if Ascii.eqb a (byte 226) then
    Ascii.eqb b (byte 128) &&
      ((128 <=? n) && (n <=? 138) || (n =? 168) || (n =? 169) || (n =? 175))%nat ||
    Ascii.eqb b (byte 129) && (n =? 159)%nat
  else Ascii.eqb a (byte 227) && Ascii.eqb b (byte 128) && (n =? 128)%nat.

(** [s.lstrip()]. *)
Fixpoint lstrip (s : string) : string :=
  match s with
  | String a s1 =>
    if is_space a then lstrip s1 else
    match s1 with
    | String b s2 =>
      if is_space2 a b then lstrip s2 else
      match s2 with
      | String c s3 => if is_space3 a b c then lstrip s3 else s
      | EmptyString => s
      end
    | EmptyString => s
    end
  | EmptyString => s
  end.

(** Only white space left? *)
Definition blank (s : string) : bool := String.eqb (lstrip s) EmptyString.

(** [s.strip()], of the same white space. *)
Fixpoint rstrip (s : string) : string :=
  match s with
  | EmptyString => EmptyString
  | String a s' => if blank s then EmptyString else String a (rstrip s')
  end.

Definition py_strip (s : string) : string := rstrip (lstrip s).

(** [s.split(c)] for a one-character separator. *)
Fixpoint py_split (c : Ascii.ascii) (s : string) : list string :=
  match s with
  | EmptyString => [EmptyString]
  | String a s' =>
    if Ascii.eqb a c then EmptyString :: py_split c s'
    else match py_split c s' with
         | [] => [String a EmptyString]
         | first :: rest => String a first :: rest
         end
  end.

(** [s.partition(c)]: the second part only if the separator is there. *)
Fixpoint py_partition (c : Ascii.ascii) (s : string) : string * option string :=
  match s with
  | EmptyString => (EmptyString, None)
  | String a s' =>
    if Ascii.eqb a c then (EmptyString, Some s')
    else let '(before, after) := py_partition c s' in (String a before, after)
  end.

Definition digit (a : Ascii.ascii) : option Z :=
  let n := Z.of_nat (Ascii.nat_of_ascii a) in
  if (48 <=? n) && (n <=? 57) then Some (n - 48) else None.

(** Digits, single underscores between them, then white space. *)
Fixpoint digits_value (s : string) (acc : Z) (count : nat) (after_digit : bool) : option Z :=
  if after_digit && blank s then (if (count <=? 4300)%nat then Some acc else None) else
  match s with
  | EmptyString => None
  | String a s' =>
    match digit a with
    | Some v => digits_value s' (10 * acc + v) (S count) true
    | None => if Ascii.eqb a (byte 95) && after_digit then digits_value s' acc count false else None
    end
  end.

(** [None] is a [ValueError]: not a decimal integer, or more than 4300 digits. *)
Definition py_int_of (s : string) : option Z :=
  match lstrip s with
  | String a s' =>
    if Ascii.eqb a (byte 45) then Z.opp <$> digits_value s' 0 0 false
    else if Ascii.eqb a (byte 43) then digits_value s' 0 0 false
    else digits_value (String a s') 0 0 false
  | EmptyString => None
  end.

Example py_int_examples :
  py_int_of " +1_700 " = Some 1700 ∧ py_int_of "1__0" = None ∧ py_int_of "-" = None ∧ py_int_of "12x" = None.
Proof. by vm_compute. Qed.

(** ** [int(str(n)) = n] *)

Definition ten_pow (n : nat) : Z := 10 ^ Z.of_nat n.

Lemma ten_pow_S n : ten_pow (S n) = 10 * ten_pow n.
Proof. unfold ten_pow. rewrite Nat2Z.inj_succ, Z.pow_succ_r; lia. Qed.

Lemma ten_pow_pos n : 0 < ten_pow n.
Proof. apply Z.pow_pos_nonneg; lia. Qed.

Lemma below_ten (P : N → Prop) : P 0%N → P 1%N → P 2%N → P 3%N → P 4%N → P 5%N → P 6%N → P 7%N →
  P 8%N → P 9%N → ∀ x, (x < 10)%N → P x.
Proof.
  intros ?????????? x Hx.
  assert (x = 0 ∨ x = 1 ∨ x = 2 ∨ x = 3 ∨ x = 4 ∨ x = 5 ∨ x = 6 ∨ x = 7 ∨ x = 8 ∨ x = 9)%N as Hc by lia.
  by destruct_or? Hc; subst.
Qed.

Lemma digits_value_digit c s acc count after : (c < 10)%N →
  digits_value (String (pretty_N_char c) s) acc count after =
  digits_value s (10 * acc + Z.of_N c) (S count) true.
Proof.
  revert c. apply (below_ten (λ c, digits_value (String (pretty_N_char c) s) acc count after =
    digits_value s (10 * acc + Z.of_N c) (S count) true)); destruct s as [|? []], after; reflexivity.
Qed.

Lemma digits_value_go x s acc count after : (0 < x)%N →
  ∃ len : nat, ten_pow len ≤ Z.of_N x ∧
    digits_value (pretty_N_go x s) acc count after =
    digits_value s (acc * ten_pow (S len) + Z.of_N x) (count + S len) true.
Proof.
  revert s acc count after. induction (N.lt_wf_0 x) as [x _ IH]; intros s acc count after Hx.
  rewrite pretty_N_go_step by done. destruct (decide (x < 10)%N) as [Hlt|Hge].
  - exists 0%nat. rewrite N.div_small, N.mod_small by done. rewrite pretty_N_go_0, digits_value_digit by done.
    rewrite ten_pow_S. change (ten_pow 0) with 1. split; [lia|]. f_equal; lia.
  - assert (0 < x / 10)%N as Hpos by (apply N.div_str_pos; lia).
    destruct (IH (x / 10)%N ltac:(by apply N.div_lt) (String (pretty_N_char (x mod 10)) s) acc count after Hpos)
      as (len & Hlen & ->).
    exists (S len). pose proof (N.div_mod x 10 ltac:(done)) as Hdm. pose proof (N.mod_lt x 10 ltac:(done)).
    assert (Z.of_N x = 10 * Z.of_N (x / 10) + Z.of_N (x mod 10)) as Hz.
    { rewrite Hdm at 1. by rewrite N2Z.inj_add, N2Z.inj_mul. }
    pose proof (N2Z.is_nonneg (x mod 10)).
    rewrite !ten_pow_S in *. clear Hdm. split; [rewrite Hz; lia|]. rewrite digits_value_digit by done. f_equal; [|lia].
    rewrite Hz. ring.
Qed.

Lemma lstrip_digits x s : (0 < x)%N → lstrip (pretty_N_go x s) = pretty_N_go x s ∧
  ∃ c s', (c < 10)%N ∧ pretty_N_go x s = String (pretty_N_char c) s'.
Proof.
  intros Hx. assert (∃ c s', (c < 10)%N ∧ pretty_N_go x s = String (pretty_N_char c) s') as (c & s' & Hc & Heq).
  { revert s. induction (N.lt_wf_0 x) as [x _ IH]; intros s. rewrite pretty_N_go_step by done.
    destruct (decide (x < 10)%N) as [Hlt|Hge].
    - rewrite N.div_small, N.mod_small, pretty_N_go_0 by done. by exists x, s.
    - apply IH; [by apply N.div_lt|]. apply N.div_str_pos; lia. }
  split; [|by exists c, s']. rewrite Heq. clear Heq. revert c Hc.
  apply (below_ten (λ c, lstrip (String (pretty_N_char c) s') = String (pretty_N_char c) s'));
    destruct s' as [|? []]; reflexivity.
Qed.

(** A decimal number of a 64-bit key reads back. *)
Lemma py_int_of_str (n : Z) : 0 ≤ n < 2 ^ 64 → py_int_of (py_str n) = Some n.
Proof.
  intros Hn. destruct n as [|p|p]; [reflexivity| |lia].
  change (py_str (Z.pos p)) with (pretty_N_go (N.pos p) EmptyString).
  destruct (lstrip_digits (N.pos p) EmptyString) as (Hstrip & c & s' & Hc & Heq); [lia|].
  destruct (digits_value_go (N.pos p) EmptyString 0 0 false) as (len & Hlen & Hval); [lia|].
  unfold py_int_of. rewrite Hstrip, Heq.
  assert (Ascii.eqb (pretty_N_char c) (byte 45) = false ∧ Ascii.eqb (pretty_N_char c) (byte 43) = false) as [-> ->].
  { revert c Hc Heq. intros c Hc _. revert c Hc.
    apply (below_ten (λ c, Ascii.eqb (pretty_N_char c) (byte 45) = false ∧
                           Ascii.eqb (pretty_N_char c) (byte 43) = false)); done. }
  rewrite <- Heq, Hval. cbn [digits_value andb blank lstrip String.eqb].
  assert (Z.of_nat len < 20) as Hl.
  { apply (Z.pow_lt_mono_r_iff 10); [lia..|]. unfold ten_pow in Hlen. simpl in Hn, Hlen |- *. lia. }
  rewrite (proj2 (Nat.leb_le _ _)) by lia. f_equal; lia.
Qed.
