(* ===== verification/PyFloat.v ===== *)
(** * Python floats

    A finite [float] is the rational number it denotes, so that Python's exact
    mixed comparisons (float with float, with int, with [Decimal]) are the
    comparisons of [Q].  Every float operation rounds its exact result to the
    nearest binary64 number ([fl]).  Overflow and subnormals are left out: the
    magnitudes of this program (percentages, loads, seconds) stay far from
    both. *)
From Stdlib Require Import QArith Qround.
From Stdlib Require Qcanon.
From S2P Require Import Prelude.

(** Nearest integer to [a / b] ([0 < b]), ties to even. *)
Definition round_half_even (a b : Z) : Z :=
  let q := a / b in
  let r := a mod b in
  match 2 * r ?= b with
  | Lt => q
  | Gt => q + 1
  | Eq => if Z.even q then q else q + 1
  end.

(** [m * 2^e] as a rational. *)
Definition dyadic (m e : Z) : Q :=
  if 0 <=? e then inject_Z (m * 2 ^ e) else Qred (m # Z.to_pos (2 ^ (- e))).

(** Nearest binary64 number to a rational: the significand has 53 bits. *)
Definition fl (x : Q) : Q :=
  let n := Z.abs (Qnum x) in
  let d := Z.pos (Qden x) in
  if n =? 0 then 0%Q else
    let e0 := Z.log2 n - Z.log2 d - 52 in
    let scaled e := if 0 <=? e then (n, d * 2 ^ e) else (n * 2 ^ (- e), d) in
    let e := let '(a, b) := scaled e0 in if a <? b * 2 ^ 52 then e0 - 1 else e0 in
    let '(a, b) := scaled e in
    dyadic (Z.sgn (Qnum x) * round_half_even a b) e.

(** [round(x, digits)]: the decimal nearest to the exact value of [x], ties to
    even, converted back to a float. *)
Definition py_round (x : Q) (digits : Z) : Q :=
  let s := 10 ^ digits in
  fl (round_half_even (Qnum x * s) (Z.pos (Qden x)) # Z.to_pos s).

(** [int(x)]: truncation. *)
Definition py_int (x : Q) : Z := Z.quot (Qnum x) (Z.pos (Qden x)).

(** [td.total_seconds()]. *)
Definition total_seconds (td : timedelta) : Q := fl (td # 1000000).

(** [x * n] and [x / n] for a float and an integer of at most 53 bits. *)
Definition fmul_int (x : Q) (n : Z) : Q := fl (x * inject_Z n).
Definition fdiv_int (x : Q) (n : Z) : Q := fl (x / inject_Z n).

(** Decidable comparisons on exact values. *)
Definition Qlt_bool (x y : Q) : bool := negb (Qle_bool y x).

(** ** [repr] *)

(** The number of decimal digits of a positive integer. *)
Definition digit_count (n : Z) : Z := Z.of_nat (String.length (py_str n)).

(** The position of the leading digit: [10 ^ p <= n / d < 10 ^ (p + 1)]. *)
Definition leading (n d : Z) : Z :=
  let p := digit_count n - digit_count d in
  let below := if 0 <=? p then n <? d * 10 ^ p else n * 10 ^ (- p) <? d in
  if below then p - 1 else p.

(** [n / d] rounded to [k] significant digits: the digits as an integer, and
    the position of the first. *)
Definition significant (k n d : Z) : Z * Z :=
  let p := leading n d in
  let e := k - 1 - p in
  let m := if 0 <=? e then round_half_even (n * 10 ^ e) d else round_half_even n (d * 10 ^ (- e)) in
  if m =? 10 ^ k then (10 ^ (k - 1), p + 1) else (m, p).

(** The value of digits [m] with the first at position [p], [k] of them. *)
Definition decimal (m k p : Z) : Q :=
  let e := p - (k - 1) in
  if 0 <=? e then inject_Z (m * 10 ^ e) else m # Z.to_pos (10 ^ (- e)).

(** The fewest digits that read back as the same float. *)
Fixpoint shortest (fuel : nat) (k : Z) (x : Q) : Z * Z * Z :=
  let '(m, p) := significant k (Qnum x) (Z.pos (Qden x)) in
  match fuel with
  | O => (m, k, p)
  | S fuel' => if Qeq_bool (fl (decimal m k p)) x then (m, k, p) else shortest fuel' (k + 1) x
  end.

Fixpoint zeros (n : nat) : string := match n with O => EmptyString | S n' => "0" +:+ zeros n' end.

(** [repr] of digits [ds], the first at position [p]. *)
Definition decimal_text (ds : string) (p : Z) : string :=
  let k := Z.of_nat (String.length ds) in
  let split (at_ : Z) := String.substring 0 (Z.to_nat at_) ds +:+ "." +:+
                         String.substring (Z.to_nat at_) (String.length ds) ds in
  if (p <? -4) || (16 <=? p) then
    (if k =? 1 then ds else split 1) +:+ "e" +:+ (if p <? 0 then "-" else "+") +:+ zpad 2 (Z.abs p)
  else if p <? 0 then "0." +:+ zeros (Z.to_nat (- p - 1)) +:+ ds
  else if k <=? p + 1 then ds +:+ zeros (Z.to_nat (p + 1 - k)) +:+ ".0"
  else split (p + 1).

(** [repr(x)] of a finite float other than [-0.0]. *)
Definition float_repr (x : Q) : string :=
  if Qeq_bool x 0 then "0.0" else
  let y := (Z.abs (Qnum x) # Qden x)%Q in
  let '(m, _, p) := shortest 16 1 y in
  (if Qnum x <? 0 then "-" else "") +:+ decimal_text (py_str m) p.

Example fl_tenth : fl (1 # 10) = (3602879701896397 # 36028797018963968)%Q.
Proof. vm_compute. reflexivity. Qed.

Example fl_third_int : fl (7 # 1) = inject_Z 7.
Proof. vm_compute. reflexivity. Qed.

Example float_repr_examples :
  float_repr <$> [fl (1 # 10); fl (1234 # 100); inject_Z 100; fl (1 # 3); fl (inject_Z 123456789012345680000);
    fl (1 # 100000); fl (-5 # 2); fl (inject_Z (10 ^ 15)); fl (9007199254740993 # 1); fl ((1#10) + (2#10)); fl (fl (1#10) + fl (2#10)); fl (1#10000) ] =
  ["0.1"; "12.34"; "100.0"; "0.3333333333333333"; "1.2345678901234568e+20"; "1e-05"; "-2.5"; "1000000000000000.0";
   "9007199254740992.0"; "0.3"; "0.30000000000000004"; "0.0001"].
Proof. vm_compute. reflexivity. Qed.

Example total_seconds_ms : py_int (fmul_int (total_seconds 1001000) 1000) = 1000.
Proof. vm_compute. reflexivity. Qed.

(** ** Rounding *)

Lemma round_half_even_nonneg a b : 0 <= a → 0 < b → 0 <= round_half_even a b.
Proof.
  intros Ha Hb. unfold round_half_even. pose proof (Z.div_pos a b Ha Hb).
  repeat case_match; lia.
Qed.

Lemma dyadic_nonneg m e : 0 <= m → (0 <= dyadic m e)%Q.
Proof.
  intros Hm. unfold dyadic. case_match.
  - unfold inject_Z, Qle. simpl. pose proof (Z.pow_nonneg 2 e ltac:(lia)). nia.
  - rewrite Qred_correct. unfold Qle. simpl. lia.
Qed.

Lemma fl_nonneg x : (0 <= x)%Q → (0 <= fl x)%Q.
Proof.
  intros Hx. unfold Qle in Hx. simpl in Hx. unfold fl.
  destruct (Z.abs (Qnum x) =? 0) eqn:Hn; [done|]. cbv zeta.
  match goal with |- context [dyadic _ ?x] => generalize x end.
  intros e. assert (0 <= Z.sgn (Qnum x)) as Hs by (apply Z.sgn_nonneg; lia).
  destruct (0 <=? e) eqn:He; apply dyadic_nonneg, Z.mul_nonneg_nonneg; try done;
    apply round_half_even_nonneg; try apply Z.mul_nonneg_nonneg; try apply Z.pow_nonneg; try lia.
Qed.

Lemma py_round_nonneg x k : (0 <= x)%Q → (0 <= py_round x k)%Q.
Proof.
  intros Hx. unfold py_round. apply fl_nonneg. unfold Qle in *. simpl in *.
  rewrite Z.mul_1_r in *. apply round_half_even_nonneg; [|lia].
  apply Z.mul_nonneg_nonneg; [done|]. by apply Z.pow_nonneg.
Qed.

Lemma fdiv_int_nonneg x n : (0 <= x)%Q → 0 < n → (0 <= fdiv_int x n)%Q.
Proof.
  intros Hx Hn. apply fl_nonneg. unfold Qdiv. apply Qmult_le_0_compat; [done|].
  apply Qinv_le_0_compat. unfold Qle, inject_Z. simpl. lia.
Qed.

Lemma round_half_even_1 a : round_half_even a 1 = a.
Proof. unfold round_half_even. by rewrite Z.mod_1_r, Z.div_1_r. Qed.

Lemma dyadic_scaled n k : 0 <= k → dyadic (n * 2 ^ k) (- k) = inject_Z n.
Proof.
  intros Hk. unfold dyadic. destruct (Z.leb_spec 0 (- k)) as [H|H].
  - assert (k = 0) as -> by lia. change (2 ^ 0) with 1. by rewrite !Z.mul_1_r.
  - rewrite Z.opp_involutive. assert (0 < 2 ^ k) by (apply Z.pow_pos_nonneg; lia).
    change (inject_Z n) with (n # 1)%Q. rewrite <- (proj2 (Qcanon.Qred_iff (n # 1))) by (simpl; apply Z.gcd_1_r).
    apply Qred_complete. unfold Qeq. simpl. rewrite Z2Pos.id by done. lia.
Qed.

(** Integers of at most 53 bits are floats. *)
Lemma fl_int n : 0 <= n < 2 ^ 53 → fl (inject_Z n) = inject_Z n.
Proof.
  intros [Hn Hlt]. unfold fl. cbn [Qnum Qden inject_Z]. destruct (Z.eqb_spec (Z.abs n) 0) as [H0|H0].
  { by assert (n = 0) as -> by lia. }
  rewrite Z.abs_eq by done. cbv zeta. change (Z.log2 (Z.pos 1)) with 0. rewrite Z.sub_0_r.
  pose proof (Z.log2_spec n ltac:(lia)) as [Hlo _]. assert (Z.log2 n < 53) as Hlog by (apply Z.log2_lt_pow2; lia).
  pose proof (Z.log2_nonneg n) as Hl0. assert (∃ k, 0 <= k ∧ Z.log2 n = 52 - k) as (k & Hk & Hlk) by (exists (52 - Z.log2 n); lia).
  rewrite !Hlk in *. replace (52 - k - 52) with (- k) by lia.
  assert (∀ e, e = - k → (if 0 <=? e then (n, 1 * 2 ^ e) else (n * 2 ^ (- e), 1)) = (n * 2 ^ k, 1)) as Hs.
  { intros e ->. destruct (Z.leb_spec 0 (- k)) as [H|H]; [|by rewrite Z.opp_involutive].
    assert (k = 0) as -> by lia. change (- 0) with 0. change (2 ^ 0) with 1. by rewrite !Z.mul_1_r. }
  rewrite (Hs (- k)) by done.
  assert (2 ^ 52 <= n * 2 ^ k) as Hbig.
  { replace 52 with (52 - k + k) by lia. rewrite Z.pow_add_r by lia. apply Z.mul_le_mono_nonneg_r; [|done]. apply Z.pow_nonneg. lia. }
  rewrite (proj2 (Z.ltb_ge _ _)) by lia. rewrite Hs by done.
  rewrite round_half_even_1, Z.sgn_pos, Z.mul_1_l by lia. apply dyadic_scaled. lia.
Qed.

(** Doubling an integer of at most 52 bits is exact. *)
Lemma double_int n : 0 <= n < 2 ^ 52 → fl (inject_Z n * 2) = inject_Z (2 * n).
Proof.
  intros Hn. change (inject_Z n * 2)%Q with (inject_Z (n * 2)). rewrite Z.mul_comm. apply fl_int. lia.
Qed.
