(* ===== verification/Signing.v ===== *)
(** * Request signing (backend/app/core/signing.py)

    The canonical string and the checks of public keys and signatures.
    Base64 is Python's [base64.b64decode], over [binascii.a2b_base64]; Ed25519
    is the [cryptography] package, a parameter.  SHA-256, which the digest of the
    body is, is modelled here too. *)
From S2P Require Import Prelude.

(** ** SHA-256

    [hashlib.sha256(...).hexdigest()]. *)

Definition w32 (x : Z) : Z := x mod 2 ^ 32.
Definition rotr (n x : Z) : Z :=
  Z.lor (Z.shiftr x n) (w32 (Z.shiftl x (32 - n))).
Definition not32 (x : Z) : Z := 2 ^ 32 - 1 - x.

(** The constants of the standard: the first 32 bits of the fractional parts
    of the cube roots of the first 64 primes, and of the square roots of the
    first 8. *)
Definition is_prime (p : Z) : bool :=
  forallb (λ q, negb (p mod q =? 0)) (seqZ 2 (p - 2)).

Definition primes_to_311 : list Z := List.filter is_prime (seqZ 2 310).

(** The integer cube root of a number below [2 ^ 108], bit by bit. *)
Definition cube_root (x : Z) : Z :=
  foldl (λ r bit, let r' := r + 2 ^ bit in if r' ^ 3 <=? x then r' else r) 0 (reverse (seqZ 0 36)).

Definition sha_k : list Z :=
  Eval vm_compute in map (λ p, w32 (cube_root (p * 2 ^ 96))) primes_to_311.

Definition sha_h0 : list Z :=
  Eval vm_compute in map (λ p, w32 (Z.sqrt (p * 2 ^ 64))) (take 8 primes_to_311).

(** [n] big-endian bytes of [x]. *)
Fixpoint be_bytes (n : nat) (x : Z) : list Z :=
  match n with
  | O => []
  | S n' => (Z.shiftr x (8 * Z.of_nat n')) mod 256 :: be_bytes n' x
  end.

Definition sha_pad (msg : list Z) : list Z :=
  let len := Z.of_nat (length msg) in
  msg ++ [128] ++ replicate (Z.to_nat ((55 - len) mod 64)) 0 ++ be_bytes 8 (8 * len).

Fixpoint words (l : list Z) : list Z :=
  match l with
  | a :: b :: c :: d :: l' => (a * 2 ^ 24 + b * 2 ^ 16 + c * 2 ^ 8 + d) :: words l'
  | _ => []
  end.

(** The message schedule, newest word first. *)
Fixpoint schedule (n : nat) (w : list Z) : list Z :=
  match n with
  | O => w
  | S n' =>
    let w2 := nth 1 w 0 in
    let w15 := nth 14 w 0 in
    let s0 := Z.lxor (Z.lxor (rotr 7 w15) (rotr 18 w15)) (Z.shiftr w15 3) in
    let s1 := Z.lxor (Z.lxor (rotr 17 w2) (rotr 19 w2)) (Z.shiftr w2 10) in
    schedule n' (w32 (nth 15 w 0 + s0 + nth 6 w 0 + s1) :: w)
  end.

Definition sha_round (st : list Z) (kw : Z * Z) : list Z :=
  match st with
  | [a; b; c; d; e; f; g; h] =>
    let s1 := Z.lxor (Z.lxor (rotr 6 e) (rotr 11 e)) (rotr 25 e) in
    let ch := Z.lxor (Z.land e f) (Z.land (not32 e) g) in
    let t1 := h + s1 + ch + fst kw + snd kw in
    let s0 := Z.lxor (Z.lxor (rotr 2 a) (rotr 13 a)) (rotr 22 a) in
    let maj := Z.lxor (Z.lxor (Z.land a b) (Z.land a c)) (Z.land b c) in
    [w32 (t1 + s0 + maj); a; b; c; w32 (d + t1); e; f; g]
  | _ => st
  end.

Definition sha_block (h : list Z) (block : list Z) : list Z :=
  let w := rev (schedule 48 (rev block)) in
  zip_with (λ x y, w32 (x + y)) h (fold_left sha_round (zip sha_k w) h).

Fixpoint sha_blocks (fuel : nat) (h : list Z) (ws : list Z) : list Z :=
  match fuel, ws with
  | S fuel', _ :: _ => sha_blocks fuel' (sha_block h (take 16 ws)) (drop 16 ws)
  | _, _ => h
  end.

Definition hex (l : list Z) : string :=
  String.string_of_list_ascii (flat_map (λ b, [hex_digit (b / 16); hex_digit (b mod 16)]) l).

Definition sha256_hex (s : string) : string :=
  let ws := words (sha_pad (bytes_of s)) in
  hex (flat_map (be_bytes 4) (sha_blocks (length ws) sha_h0 ws)).

Example sha256_abc :
  sha256_hex "abc" = "ba7816bf8f01cfea414140de5dae2223b00361a396177a9cb410ff61f20015ad".
Proof. vm_compute. reflexivity. Qed.

Example sha256_two_blocks :
  sha256_hex "abcdbcdecdefdefgefghfghighijhijkijkljklmklmnlmnomnopnopq"
  = "248d6a61d20638b8e5c026930c3e6039a33ce45964ff2167f6ecedd419db06c1".
Proof. vm_compute. reflexivity. Qed.

(** ** The signed request (backend/app/core/signing.py) *)

(** ** Base64 decoding *)

(** The value of a character of the alphabet. *)
Definition base64_value (a : Ascii.ascii) : option Z :=
  let n := Z.of_N (Ascii.N_of_ascii a) in
  if (65 <=? n) && (n <=? 90) then Some (n - 65)
  else if (97 <=? n) && (n <=? 122) then Some (n - 71)
  else if (48 <=? n) && (n <=? 57) then Some (n + 4)
  else if n =? 43 then Some 62
  else if n =? 47 then Some 63
  else None.

Definition is_pad (a : Ascii.ascii) : bool := Ascii.eqb a (byte 61).

Definition byte_of (z : Z) : Ascii.ascii := Ascii.ascii_of_N (Z.to_N (z mod 256)).

(** [binascii.a2b_base64(s, strict_mode=strict)]: [quad] characters of the
    present group of four have been read, [left] holds their pending bits,
    [pads] counts the padding since the last character. *)
Fixpoint a2b_base64 (strict : bool) (s : string) (quad : nat) (left pads : Z) (padding_started : bool)
    : option string :=
  match s with
  | EmptyString => if (quad =? 0)%nat then Some EmptyString else None
  | String a s' =>
    if is_pad a then
      if (2 <=? quad)%nat && (4 <=? Z.of_nat quad + (pads + 1)) then
        if strict && negb (String.eqb s' EmptyString) then None else Some EmptyString
      else a2b_base64 strict s' quad left (if (2 <=? quad)%nat then pads + 1 else pads) true
    else
      match base64_value a with
      | None => if strict then None else a2b_base64 strict s' quad left pads padding_started
      | Some v =>
        if strict && padding_started then None else
        match quad with
        | 0%nat => a2b_base64 strict s' 1 v 0 padding_started
        | 1%nat => String (byte_of (Z.lor (Z.shiftl left 2) (Z.shiftr v 4))) <$>
                   a2b_base64 strict s' 2 (Z.land v 15) 0 padding_started
        | 2%nat => String (byte_of (Z.lor (Z.shiftl left 4) (Z.shiftr v 2))) <$>
                   a2b_base64 strict s' 3 (Z.land v 3) 0 padding_started
        | _ => String (byte_of (Z.lor (Z.shiftl left 6) v)) <$>
               a2b_base64 strict s' 0 0 0 padding_started
        end
      end
  end.

Fixpoint is_ascii (s : string) : bool :=
  match s with
  | EmptyString => true
  | String a s' => (Ascii.N_of_ascii a <? 128)%N && is_ascii s'
  end.

(** [base64.b64decode(s, validate=strict)]; [None] is a [ValueError]: the
    string is not ASCII, starts with padding (strict mode), or is malformed. *)
Definition b64decode (strict : bool) (s : string) : option string :=
  if negb (is_ascii s) then None else
  match s with
  | String a _ => if strict && is_pad a then None else a2b_base64 strict s 0 0 0 false
  | EmptyString => Some EmptyString
  end.

Example b64decode_hello : b64decode true "aGVsbG8=" = Some "hello".
Proof. vm_compute. reflexivity. Qed.

Example b64decode_strict : b64decode true "aGVs bG8=" = None.
Proof. vm_compute. reflexivity. Qed.

Example b64decode_lenient : b64decode false "aGVs bG8=" = Some "hello".
Proof. vm_compute. reflexivity. Qed.

(** ** Ed25519 *)

(** [Ed25519PublicKey.from_public_bytes] accepts a key or raises [ValueError],
    and [verify] accepts a signature of a message or raises. *)
Class Ed25519 := {
  valid_key : string → bool;
  verify : string → string → string → bool
}.

Definition body_sha256 (body : string) : string := sha256_hex body.

Definition newline : string := String (byte 10) EmptyString.

Definition canonical_string (method path timestamp request_id body : string) : string :=
  py_upper method +:+ newline +:+ path +:+ newline +:+ timestamp +:+ newline +:+ request_id
  +:+ newline +:+ body_sha256 body.

Section Signing.
Context `{!Ed25519}.

Definition is_valid_public_key (public_key_b64 : string) : bool :=
  match b64decode true public_key_b64 with
  | Some bytes => valid_key bytes
  | None => false
  end.

Definition verify_signature (public_key_b64 signature_b64 canonical : string) : bool :=
  match b64decode false public_key_b64 with
  | None => false
  | Some key =>
    if negb (valid_key key) then false else
    match b64decode false signature_b64 with
    | Some signature => verify key signature canonical
    | None => false
    end
  end.
End Signing.
