(* ===== verification/IpAddress.v ===== *)
(** * IP addresses and networks

    The part of Python's [ipaddress] module the discovery uses: the texts of
    addresses and networks of both versions, the subnet relation and the hosts
    of a network.  [None] is the [ValueError] of an unreadable text. *)
From S2P Require Import Prelude.
From S2P Require Export PyText.

Definition dot : Ascii.ascii := byte 46.
Definition percent : Ascii.ascii := byte 37.
Definition slash : Ascii.ascii := byte 47.

Inductive version := V4 | V6.

#[export] Instance version_eq_dec : EqDecision version.
Proof. solve_decision. Defined.

Definition max_prefixlen (v : version) : Z := match v with V4 => 32 | V6 => 128 end.
Definition all_ones (v : version) : Z := 2 ^ max_prefixlen v - 1.

Record ip_address := IpAddress { ip_version : version; ip : Z; scope_id : option string }.

Record ip_network := IpNetwork {
  net_version : version;
  network_address : Z;
  net_scope : option string;
  prefixlen : Z
}.

(** ** Numbers in texts *)

Fixpoint string_forall (p : Ascii.ascii → bool) (s : string) : bool :=
  match s with
  | EmptyString => true
  | String a s' => p a && string_forall p s'
  end.

Definition is_empty (s : string) : bool := match s with EmptyString => true | _ => false end.

(** [s.isascii() and s.isdigit()]. *)
Definition all_digits (s : string) : bool :=
  negb (is_empty s) && string_forall (λ a, bool_decide (is_Some (digit a))) s.

Fixpoint dec_value (s : string) (acc : Z) : Z :=
  match s with
  | EmptyString => acc
  | String a s' => dec_value s' (10 * acc + default 0 (digit a))
  end.

Definition hex_value (a : Ascii.ascii) : option Z :=
  let n := Z.of_nat (Ascii.nat_of_ascii a) in
  if (48 <=? n) && (n <=? 57) then Some (n - 48)
  else if (97 <=? n) && (n <=? 102) then Some (n - 87)
  else if (65 <=? n) && (n <=? 70) then Some (n - 55)
  else None.

Fixpoint hex_number (s : string) (acc : Z) : option Z :=
  match s with
  | EmptyString => Some acc
  | String a s' => v ← hex_value a; hex_number s' (16 * acc + v)
  end.

(** ['%x' % x] for [0 <= x < 65536]. *)
Definition hextet_str (x : Z) : string :=
  let d (n : Z) (s : string) := String (hex_digit (Z.shiftr x (4 * n) mod 16)) s in
  if x <? 16 then d 0 EmptyString
  else if x <? 256 then d 1 (d 0 EmptyString)
  else if x <? 4096 then d 2 (d 1 (d 0 EmptyString))
  else d 3 (d 2 (d 1 (d 0 EmptyString))).

(** [sep.join(parts)]. *)
Fixpoint py_join (sep : Ascii.ascii) (parts : list string) : string :=
  match parts with
  | [] => EmptyString
  | [s] => s
  | s :: parts' => s +:+ String sep (py_join sep parts')
  end.

(** ** IPv4 *)

(** [_parse_octet]. *)
Definition parse_octet (s : string) : option Z :=
  if negb (all_digits s) then None
  else if (3 <? String.length s)%nat then None
  else if negb (String.eqb s "0") && bool_decide (String.get 0 s = Some (byte 48)) then None
  else let n := dec_value s 0 in if 255 <? n then None else Some n.

(** [IPv4Address._ip_int_from_string]. *)
Definition ipv4_int (s : string) : option Z :=
  match py_split dot s with
  | [a; b; c; d] =>
    a ← parse_octet a; b ← parse_octet b; c ← parse_octet c; d ← parse_octet d;
    Some (((a * 256 + b) * 256 + c) * 256 + d)
  | _ => None
  end.

(** [IPv4Address._string_from_ip_int]. *)
Definition ipv4_str (x : Z) : string :=
  py_join dot ((λ n, py_str (Z.shiftr x (8 * n) mod 256)) <$> [3; 2; 1; 0]).

(** ** IPv6 *)

(** [_parse_hextet]. *)
Definition parse_hextet (s : string) : option Z :=
  if is_empty s || (4 <? String.length s)%nat then None else hex_number s 0.

(** The indices from [i] at which the flag is set, the last one of the list
    excepted. *)
Fixpoint inner_empties (i : nat) (flags : list bool) : list nat :=
  match flags with
  | [] | [_] => []
  | b :: flags' => if b then i :: inner_empties (S i) flags' else inner_empties (S i) flags'
  end.

(** How many parts stand before and after the ['::'] and how many it skips,
    given which parts are empty. *)
Definition layout (empties : list bool) : option (nat * nat * nat) :=
  let n := length empties in
  let first := default false (head empties) in
  let final := default false (last empties) in
  match inner_empties 1 (tail empties) with
  | [] => if (n =? 8)%nat && negb first && negb final then Some (8, 0, 0)%nat else None
  | [skip_index] =>
    let parts_hi := if first then (skip_index - 1)%nat else skip_index in
    let parts_lo := if final then (n - skip_index - 2)%nat else (n - skip_index - 1)%nat in
    if first && negb (parts_hi =? 0)%nat then None
    else if final && negb (parts_lo =? 0)%nat then None
    else if (8 - (parts_hi + parts_lo) <? 1)%nat then None
    else Some (parts_hi, parts_lo, 8 - (parts_hi + parts_lo))%nat
  | _ => None
  end.

(** [ip_int <<= 16; ip_int |= hextet], repeatedly. *)
Fixpoint shift_in (parts : list string) (acc : Z) : option Z :=
  match parts with
  | [] => Some acc
  | s :: parts' => h ← parse_hextet s; shift_in parts' (Z.lor (Z.shiftl acc 16) h)
  end.

Definition from_parts (parts : list string) : option Z :=
  if (9 <? length parts)%nat then None else
  '(hi, lo, skipped) ← layout (is_empty <$> parts);
  high ← shift_in (take hi parts) 0;
  shift_in (drop (length parts - lo) parts) (Z.shiftl high (16 * Z.of_nat skipped)).

(** The IPv4-style suffix as two hextets. *)
Definition expand_suffix (parts : list string) : option (list string) :=
  match last parts with
  | Some suffix =>
    if lacks dot suffix then Some parts else
    v ← ipv4_int suffix;
    Some (removelast parts ++ [hextet_str (Z.land (Z.shiftr v 16) 65535); hextet_str (Z.land v 65535)])
  | None => Some parts
  end.

(** [IPv6Address._ip_int_from_string]. *)
Definition ipv6_int (s : string) : option Z :=
  let parts := py_split colon s in
  if (length parts <? 3)%nat then None else expand_suffix parts ≫= from_parts.

(** [_compress_hextets]: the first longest run of zeros. *)
Fixpoint zero_run (zeros : list bool) (index start len best_start best_len : nat) : nat * nat :=
  match zeros with
  | [] => (best_start, best_len)
  | true :: zeros' =>
    let start := if (len =? 0)%nat then index else start in
    if (best_len <? S len)%nat then zero_run zeros' (S index) start (S len) start (S len)
    else zero_run zeros' (S index) start (S len) best_start best_len
  | false :: zeros' => zero_run zeros' (S index) 0 0 best_start best_len
  end.

(** The run replaced by one empty part, and one more at either end. *)
Definition splice {A} (e : A) (start len : nat) (l : list A) : list A :=
  (if (start =? 0)%nat then [e] else []) ++ take start l ++ [e] ++ drop (start + len) l ++
  (if (start + len =? length l)%nat then [e] else []).

Definition compress_hextets (hextets : list string) : list string :=
  let '(start, len) := zero_run (String.eqb "0" <$> hextets) 0 0 0 0 0 in
  if (1 <? len)%nat then splice EmptyString start len hextets else hextets.

(** The [n] low hextets. *)
Fixpoint hextets (n : nat) (x : Z) : list Z :=
  match n with
  | O => []
  | S n' => hextets n' (x / 65536) ++ [x mod 65536]
  end.

(** [IPv6Address._string_from_ip_int]. *)
Definition ipv6_str (x : Z) : string := py_join colon (compress_hextets (hextet_str <$> hextets 8 x)).

(** ** Addresses *)

(** [IPv6Address]: the address and its scope. *)
Definition ipv6_address (s : string) : option (Z * option string) :=
  if negb (lacks slash s) then None else
  let '(addr, scope) := py_partition percent s in
  match scope with
  | None => x ← ipv6_int addr; Some (x, None)
  | Some z => if is_empty z || negb (lacks percent z) then None else x ← ipv6_int addr; Some (x, Some z)
  end.

(** [ipaddress.ip_address(s)]. *)
Definition ip_address_of (s : string) : option ip_address :=
  match (if lacks slash s then ipv4_int s else None) with
  | Some x => Some (IpAddress V4 x None)
  | None => '(x, scope) ← ipv6_address s; Some (IpAddress V6 x scope)
  end.

(** [str(address)]. *)
Definition ip_str (a : ip_address) : string :=
  match ip_version a with
  | V4 => ipv4_str (ip a)
  | V6 => ipv6_str (ip a) +:+ match scope_id a with Some z => String percent z | None => EmptyString end
  end.

(** ** Networks *)

(** [_ip_int_from_prefix]. *)
Definition netmask (v : version) (p : Z) : Z := Z.lxor (all_ones v) (Z.shiftr (all_ones v) p).

(** [_prefix_from_prefix_string]. *)
Definition prefix_from_prefix_string (v : version) (s : string) : option Z :=
  if all_digits s then let p := dec_value s 0 in if p <=? max_prefixlen v then Some p else None
  else None.

Definition bit_length (x : Z) : Z := if x =? 0 then 0 else Z.log2 x + 1.

(** [_count_righthand_zero_bits]. *)
Definition righthand_zeros (number bits : Z) : Z :=
  if number =? 0 then bits else Z.min bits (bit_length (Z.land (Z.lnot number) (number - 1))).

(** [_prefix_from_ip_int]. *)
Definition prefix_from_ip_int (v : version) (x : Z) : option Z :=
  let trailing := righthand_zeros x (max_prefixlen v) in
  let p := max_prefixlen v - trailing in
  if Z.shiftr x trailing =? 2 ^ p - 1 then Some p else None.

(** [_prefix_from_ip_string]: a netmask or a hostmask. *)
Definition prefix_from_ip_string (s : string) : option Z :=
  x ← ipv4_int s;
  match prefix_from_ip_int V4 x with
  | Some p => Some p
  | None => prefix_from_ip_int V4 (Z.lxor x (all_ones V4))
  end.

(** [_make_netmask]. *)
Definition make_prefixlen (v : version) (mask : option string) : option Z :=
  match mask with
  | None => Some (max_prefixlen v)
  | Some s =>
    match prefix_from_prefix_string v s with
    | Some p => Some p
    | None => match v with V4 => prefix_from_ip_string s | V6 => None end
    end
  end.

(** A network of an address: the host bits are cleared, and with them the
    scope. *)
Definition network_of (v : version) (x : Z) (scope : option string) (p : Z) : ip_network :=
  let masked := Z.land x (netmask v p) in
  IpNetwork v masked (if masked =? x then scope else None) p.

(** [ipaddress.ip_network(s, strict=False)]. *)
Definition ip_network_of (s : string) : option ip_network :=
  match py_split slash s with
  | [addr] | [addr; _] =>
    let mask := py_split slash s !! 1%nat in
    match (x ← ipv4_int addr; p ← make_prefixlen V4 mask; Some (network_of V4 x None p)) with
    | Some n => Some n
    | None => '(x, scope) ← ipv6_address addr; p ← make_prefixlen V6 mask; Some (network_of V6 x scope p)
    end
  | _ => None
  end.

Definition broadcast_address (n : ip_network) : Z :=
  Z.lor (network_address n) (Z.lxor (netmask (net_version n) (prefixlen n)) (all_ones (net_version n))).

(** [a.subnet_of(b)]; [None] is the [TypeError] of different versions.  Two
    addresses of different scopes are not equal. *)
Definition subnet_of (a b : ip_network) : option bool :=
  if bool_decide (net_version a = net_version b) then
    Some (((network_address b <? network_address a) ||
           (network_address b =? network_address a) && bool_decide (net_scope b = net_scope a)) &&
          (broadcast_address a <=? broadcast_address b))
  else None.

(** [n.hosts()]. *)
Definition hosts (n : ip_network) : list ip_address :=
  let v := net_version n in
  let first := network_address n in
  let final := broadcast_address n in
  let range a b := (λ x, IpAddress v x None) <$> seqZ a (b - a) in
  if prefixlen n =? max_prefixlen v then [IpAddress v first (net_scope n)]
  else if prefixlen n =? max_prefixlen v - 1 then range first (final + 1)
  else match v with V4 => range (first + 1) final | V6 => range (first + 1) (final + 1) end.

Example network_examples :
  (ip_str <$> (hosts <$> ip_network_of "10.0.0.5/30") ≫= head) = Some "10.0.0.5" ∧
  ip_network_of "10.0.0.5/30" = Some (IpNetwork V4 167772164 None 30) ∧
  ip_network_of "10.0.0.5/0.0.0.255" = Some (IpNetwork V4 167772160 None 24) ∧
  ip_network_of "10.0.0/8" = None ∧ ip_network_of "01.0.0.0/8" = None ∧
  (ip_str <$> default [] (hosts <$> ip_network_of "2001:db8::f/126")) =
    ["2001:db8::d"; "2001:db8::e"; "2001:db8::f"] ∧
  ip_address_of "::ffff:1.2.3.4" = Some (IpAddress V6 281470698652420 None) ∧
  ip_address_of "fe80::1%eth0" = Some (IpAddress V6 (65152 * 2 ^ 112 + 1) (Some "eth0")) ∧
  ip_address_of "1::2::3" = None ∧ ip_str (IpAddress V6 0 None) = "::" ∧
  ip_str (IpAddress V6 (2 ^ 112) None) = "1::".
Proof. by vm_compute. Qed.

(** ** Texts read back *)

Lemma py_split_cons sep s : ∃ f r, py_split sep s = f :: r.
Proof.
  induction s as [|a s (f & r & IH)]; simpl; [by eexists _, _|].
  destruct (Ascii.eqb a sep); [by eexists _, _|]. rewrite IH. by eexists _, _.
Qed.

Lemma string_app_nil s : s +:+ EmptyString = s.
Proof. induction s as [|a s IH]; [done|]. exact (f_equal (String a) IH). Qed.

(** The text before the first separator goes to the first part. *)
Lemma py_split_app sep s t f r :
  lacks sep s = true → py_split sep t = f :: r → py_split sep (s +:+ t) = (s +:+ f) :: r.
Proof.
  intros Hs Ht. induction s as [|a s IH]; simpl in *; [done|].
  apply andb_true_iff in Hs as [Ha Hs]. rewrite (IH Hs). by destruct (Ascii.eqb a sep).
Qed.

Lemma py_join_cons sep s s' parts : py_join sep (s :: s' :: parts) = s +:+ String sep (py_join sep (s' :: parts)).
Proof. done. Qed.

Lemma py_split_join sep parts :
  parts ≠ [] → Forall (λ s, lacks sep s = true) parts → py_split sep (py_join sep parts) = parts.
Proof.
  intros Hne Hf. induction Hf as [|s parts Hs Hf IH]; [done|]. clear Hne. destruct parts as [|s' parts].
  - pose proof (py_split_app sep s EmptyString EmptyString [] Hs eq_refl) as Hx. by rewrite string_app_nil in Hx.
  - rewrite py_join_cons. destruct (py_split_cons sep (py_join sep (s' :: parts))) as (f & r & Hfr).
    pose proof (py_split_app sep s (String sep (py_join sep (s' :: parts))) EmptyString (s' :: parts) Hs) as Hx.
    rewrite string_app_nil in Hx. apply Hx. simpl. rewrite Ascii.eqb_refl. f_equal. by apply IH.
Qed.

Lemma lacks_join c sep parts :
  Ascii.eqb sep c = false → Forall (λ s, lacks c s = true) parts → lacks c (py_join sep parts) = true.
Proof.
  intros Hc Hf. induction Hf as [|s parts Hs Hf IH]; [done|]. destruct parts as [|s' parts]; [done|].
  rewrite py_join_cons, lacks_app, Hs. cbn [lacks]. by rewrite Hc, IH.
Qed.

(** The parts of a text lack the separator. *)
Lemma join_split sep s : py_join sep (py_split sep s) = s.
Proof.
  induction s as [|a s IH]; simpl; [done|]. destruct (py_split_cons sep s) as (f & r & Hfr).
  destruct (Ascii.eqb_spec a sep) as [->|Hne].
  - rewrite Hfr in *. rewrite py_join_cons, IH. done.
  - rewrite Hfr in *. destruct r; [exact (f_equal (String a) IH)|]. rewrite py_join_cons in *. exact (f_equal (String a) IH).
Qed.

(** *** IPv4 *)

Lemma octet_table :
  forallb (λ n, bool_decide (parse_octet (py_str n) = Some n) &&
    lacks dot (py_str n) && lacks colon (py_str n) && lacks slash (py_str n)) (seqZ 0 256) = true.
Proof. vm_compute. reflexivity. Qed.

Lemma octet_str n : 0 <= n < 256 →
  parse_octet (py_str n) = Some n ∧ lacks dot (py_str n) = true ∧ lacks slash (py_str n) = true.
Proof.
  intros Hn. pose proof octet_table as Ht. rewrite forallb_forall in Ht.
  specialize (Ht n ltac:(apply list_elem_of_In, elem_of_seqZ; lia)).
  rewrite !andb_true_iff, bool_decide_eq_true in Ht. tauto.
Qed.

Lemma byte_bound x n : 0 <= Z.shiftr x n mod 256 < 256.
Proof. apply Z.mod_pos_bound. lia. Qed.

Lemma ipv4_roundtrip x : 0 <= x < 2 ^ 32 → ipv4_int (ipv4_str x) = Some x ∧ lacks slash (ipv4_str x) = true.
Proof.
  intros Hx. unfold ipv4_int, ipv4_str.
  set (o n := Z.shiftr x (8 * n) mod 256).
  assert (∀ n, parse_octet (py_str (o n)) = Some (o n) ∧ lacks dot (py_str (o n)) = true ∧ lacks slash (py_str (o n)) = true)
    as Ho by (intros n; apply octet_str, byte_bound).
  change ((λ n, py_str (Z.shiftr x (8 * n) mod 256)) <$> [3; 2; 1; 0])
    with [py_str (o 3); py_str (o 2); py_str (o 1); py_str (o 0)]. split.
  - rewrite py_split_join; [|done|].
    + rewrite !(proj1 (Ho _)). cbn. f_equal. unfold o. rewrite !Z.shiftr_div_pow2 by lia.
      change (2 ^ (8 * 0)) with 1. change (2 ^ (8 * 1)) with 256. change (2 ^ (8 * 2)) with 65536. change (2 ^ (8 * 3)) with 16777216.
      Z.div_mod_to_equations. lia.
    + repeat constructor; apply Ho.
  - apply lacks_join; [done|]. repeat constructor; apply Ho.
Qed.

(** *** IPv6 *)

Definition plain (a : Ascii.ascii) : bool :=
  negb (Ascii.eqb a colon) && negb (Ascii.eqb a dot) && negb (Ascii.eqb a slash) && negb (Ascii.eqb a percent).

Lemma hex_digit_table :
  forallb (λ n, bool_decide (hex_value (hex_digit n) = Some n) && plain (hex_digit n) &&
    Bool.eqb (Ascii.eqb (byte 48) (hex_digit n)) (n =? 0)) (seqZ 0 16) = true.
Proof. vm_compute. reflexivity. Qed.

Lemma hex_digit_facts n : 0 <= n < 16 →
  hex_value (hex_digit n) = Some n ∧ plain (hex_digit n) = true ∧ Ascii.eqb (byte 48) (hex_digit n) = (n =? 0).
Proof.
  intros Hn. pose proof hex_digit_table as Ht. rewrite forallb_forall in Ht.
  specialize (Ht n ltac:(apply list_elem_of_In, elem_of_seqZ; lia)).
  rewrite !andb_true_iff, bool_decide_eq_true in Ht. destruct Ht as [[? ?] ?]. split_and!; [done..|].
  by apply Bool.eqb_prop.
Qed.

Definition hex_text (ds : list Z) : string := foldr (λ d s, String (hex_digit d) s) EmptyString ds.

Lemma hex_text_facts ds acc :
  Forall (λ d, 0 <= d < 16) ds →
  hex_number (hex_text ds) acc = Some (foldl (λ a d, 16 * a + d) acc ds) ∧
  string_forall plain (hex_text ds) = true ∧ String.length (hex_text ds) = length ds.
Proof.
  intros Hd. revert acc. induction Hd as [|d ds Hd Hds IH]; intros acc; [done|].
  destruct (hex_digit_facts d Hd) as (Hv & Hp & _), (IH (16 * acc + d)) as (IH1 & IH2 & IH3).
  simpl. rewrite Hv, Hp, IH2, IH3. cbn. by rewrite IH1.
Qed.

(** The digits of a hextet, without leading zeros. *)
Definition hextet_digits (h : Z) : list Z :=
  let o k := h / 16 ^ k mod 16 in
  if h <? 16 then [o 0] else if h <? 256 then [o 1; o 0]
  else if h <? 4096 then [o 2; o 1; o 0] else [o 3; o 2; o 1; o 0].

Lemma hextet_str_digits h : hextet_str h = hex_text (hextet_digits h).
Proof.
  assert (∀ k, 0 <= k → Z.shiftr h (4 * k) mod 16 = h / 16 ^ k mod 16) as Ho.
  { intros k Hk. rewrite Z.shiftr_div_pow2 by lia. change 16 with (2 ^ 4). by rewrite <- Z.pow_mul_r by lia. }
  unfold hextet_str, hextet_digits. rewrite !Ho by lia. by repeat case_match.
Qed.

Lemma hextet_facts h : 0 <= h < 65536 →
  parse_hextet (hextet_str h) = Some h ∧ is_empty (hextet_str h) = false ∧
  String.eqb "0" (hextet_str h) = (h =? 0) ∧ string_forall plain (hextet_str h) = true.
Proof.
  intros Hh. rewrite hextet_str_digits.
  assert (Forall (λ d, 0 <= d < 16) (hextet_digits h)) as Hd.
  { unfold hextet_digits. repeat case_match; repeat constructor; apply Z.mod_pos_bound; lia. }
  destruct (hex_text_facts (hextet_digits h) 0 Hd) as (Hv & Hp & Hl).
  assert (foldl (λ a d, 16 * a + d) 0 (hextet_digits h) = h ∧ (length (hextet_digits h) ≤ 4)%nat ∧
    is_empty (hex_text (hextet_digits h)) = false) as (Hsum & Hlen & Hne).
  { unfold hextet_digits. change (16 ^ 0) with 1. change (16 ^ 1) with 16. change (16 ^ 2) with 256. change (16 ^ 3) with 4096.
    repeat case_match; simpl; (split_and!; [Z.div_mod_to_equations; lia|lia|done]). }
  split_and!; [|done| |done].
  - unfold parse_hextet. rewrite Hne, Hl, Hv, Hsum. by rewrite (proj2 (Nat.ltb_ge _ _)).
  - revert Hd. unfold hextet_digits. repeat case_match; intros Hd; simpl hex_text;
      inversion_clear Hd as [|? ? Hfirst _]; change "0" with (String (byte 48) EmptyString); cbn [String.eqb];
      rewrite (proj2 (proj2 (hex_digit_facts _ Hfirst))).
    + rewrite Z.div_1_r, Z.mod_small by lia. by destruct (h =? 0).
    + rewrite (proj2 (Z.eqb_neq h 0)) by lia. by destruct (_ =? 0).
    + rewrite (proj2 (Z.eqb_neq h 0)) by lia. by destruct (_ =? 0).
    + rewrite (proj2 (Z.eqb_neq h 0)) by lia. by destruct (_ =? 0).
Qed.

(** What the compressed form of eight parts with the given zeros must be read
    as: the parts before the run, those after it, and the length of the run. *)
Definition layout_ok (zeros : list bool) : bool :=
  let '(start, len) := zero_run zeros 0 0 0 0 0 in
  if (1 <? len)%nat then
    (start + len <=? 8)%nat && forallb (λ z, z) (take len (drop start zeros)) &&
    bool_decide (layout (splice true start len (replicate 8 false)) = Some (start, 8 - (start + len), len)%nat)
  else true.

Fixpoint vectors (n : nat) : list (list bool) :=
  match n with
  | O => [[]]
  | S n' => (cons true <$> vectors n') ++ (cons false <$> vectors n')
  end.

Lemma elem_of_vectors l : l ∈ vectors (length l).
Proof.
  induction l as [|[] l IH]; simpl; [by apply list_elem_of_here|..]; apply elem_of_app; [left|right];
    by apply list_elem_of_fmap_2.
Qed.

Lemma layout_table : forallb layout_ok (vectors 8) = true.
Proof. vm_compute. reflexivity. Qed.

Lemma lor_shift a h : 0 <= h < 65536 → Z.lor (Z.shiftl a 16) h = a * 65536 + h.
Proof.
  intros Hh. rewrite Z.shiftl_mul_pow2 by lia. change (2 ^ 16) with 65536.
  rewrite <- Z.add_lor_land. assert (Z.land (a * 65536) h = 0) as ->; [|lia].
  change 65536 with (2 ^ 16). rewrite <- Z.shiftl_mul_pow2 by lia. apply Z.bits_inj'. intros n Hn.
  rewrite Z.land_spec, Z.bits_0. destruct (Z.lt_ge_cases n 16).
  - by rewrite Z.shiftl_spec_low.
  - rewrite (Z.bits_above_log2 h n), andb_false_r; [done|lia|].
    destruct (decide (h = 0)) as [->|]; [simpl; lia|]. apply Z.log2_lt_pow2; [lia|].
    assert (2 ^ 16 <= 2 ^ n) by (by apply Z.pow_le_mono_r). lia.
Qed.

Definition in_hextet (h : Z) : Prop := 0 <= h < 65536.

Definition joined (acc : Z) (l : list Z) : Z := foldl (λ a h, a * 65536 + h) acc l.

Lemma shift_in_hextets l acc :
  Forall in_hextet l → shift_in (hextet_str <$> l) acc = Some (joined acc l).
Proof.
  intros Hl. revert acc. induction Hl as [|h l Hh Hl IH]; intros acc; [done|].
  simpl. rewrite (proj1 (hextet_facts h Hh)). simpl. by rewrite lor_shift, IH.
Qed.

Lemma joined_app acc l k : joined acc (l ++ k) = joined (joined acc l) k.
Proof. apply foldl_app. Qed.

Lemma joined_zeros acc l : Forall (λ h, h = 0) l → joined acc l = Z.shiftl acc (16 * Z.of_nat (length l)).
Proof.
  intros Hl. revert acc. induction Hl as [|h l -> Hl IH]; intros acc; simpl length.
  - simpl. by rewrite Z.shiftl_0_r.
  - simpl. change (foldl _ _ l) with (joined (acc * 65536 + 0) l). rewrite IH, Z.add_0_r.
    rewrite !Z.shiftl_mul_pow2 by lia. replace (16 * Z.of_nat (S (length l))) with (16 + 16 * Z.of_nat (length l)) by lia.
    rewrite Z.pow_add_r by lia. change (2 ^ 16) with 65536. ring.
Qed.

Lemma length_hextets n x : length (hextets n x) = n.
Proof. revert x. induction n as [|n IH]; intros x; [done|]. simpl. rewrite length_app, IH. simpl. lia. Qed.

Lemma hextets_range n x : Forall in_hextet (hextets n x).
Proof.
  revert x. induction n as [|n IH]; intros x; [constructor|]. simpl. apply Forall_app. split; [apply IH|].
  repeat constructor; apply Z.mod_pos_bound; lia.
Qed.

Lemma joined_hextets n x : 0 <= x < 65536 ^ Z.of_nat n → joined 0 (hextets n x) = x.
Proof.
  revert x. induction n as [|n IH]; intros x Hx.
  - simpl in Hx. unfold joined. simpl. lia.
  - simpl. rewrite joined_app, IH.
    + unfold joined. simpl. pose proof (Z.div_mod x 65536 ltac:(lia)). lia.
    + rewrite Nat2Z.inj_succ, Z.pow_succ_r in Hx by lia.
      split; [apply Z.div_pos; lia|]. apply Z.div_lt_upper_bound; lia.
Qed.

Lemma fmap_splice {A B} (f : A → B) e start len l : f <$> splice e start len l = splice (f e) start len (f <$> l).
Proof.
  unfold splice. rewrite !fmap_app, fmap_take, fmap_drop, length_fmap. by repeat case_match.
Qed.

(** The three pieces of eight parts around a run. *)
Lemma splice_pieces {A} (e : A) start len (l : list A) :
  length l = 8%nat → (start + len ≤ 8)%nat →
  take start (splice e start len l) = take start l ∧
  drop (length (splice e start len l) - (8 - (start + len))) (splice e start len l) = drop (start + len) l.
Proof.
  intros Hl Hs. unfold splice. split.
  - destruct (start =? 0)%nat eqn:H0; [apply Nat.eqb_eq in H0; by subst|]. cbn [app].
    apply take_app_length'. rewrite length_take. lia.
  - rewrite Hl. destruct (start + len =? 8)%nat eqn:H8.
    + apply Nat.eqb_eq in H8. rewrite H8, Nat.sub_diag, Nat.sub_0_r, drop_all. symmetry. apply drop_ge. lia.
    + rewrite app_nil_r, !app_assoc. apply drop_app_length'.
      rewrite !length_app, length_drop. lia.
Qed.

(** Parts of the text: empty, or the digits of a hextet. *)
Definition part_ok (s : string) : Prop := string_forall plain s = true.

Lemma part_lacks c s : part_ok s → plain c = false → lacks c s = true.
Proof.
  unfold part_ok. intros Hs Hc. induction s as [|a s IH]; simpl in *; [done|].
  apply andb_true_iff in Hs as [Ha Hs]. rewrite IH by done.
  destruct (Ascii.eqb_spec a c) as [->|]; [congruence|done].
Qed.

Lemma hextet_parts l : Forall in_hextet l → Forall part_ok (hextet_str <$> l).
Proof. intros Hl. apply Forall_fmap. eapply Forall_impl; [exact Hl|]. intros h Hh. apply hextet_facts, Hh. Qed.

Lemma splice_parts start len ss : Forall part_ok ss → Forall part_ok (splice EmptyString start len ss).
Proof.
  intros Hs. unfold splice. rewrite !Forall_app. split_and!.
  - case_match; by repeat constructor.
  - by apply Forall_take.
  - by repeat constructor.
  - by apply Forall_drop.
  - case_match; by repeat constructor.
Qed.

(** The parts of the compressed text are read back as the hextets. *)
Lemma compressed_parts l :
  Forall in_hextet l → length l = 8%nat →
  let parts := compress_hextets (hextet_str <$> l) in
  from_parts parts = Some (joined 0 l) ∧ Forall part_ok parts ∧ (3 ≤ length parts)%nat.
Proof.
  intros Hl Hlen. set (ss := hextet_str <$> l).
  assert (Forall part_ok ss) as Hparts by by apply hextet_parts.
  assert (length ss = 8%nat) as Hss by by unfold ss; rewrite length_fmap.
  assert (is_empty <$> ss = replicate 8 false) as Hempty.
  { unfold ss. rewrite <- Hlen, <- list_fmap_compose. clear -Hl. induction Hl as [|h l Hh Hl IH]; [done|]. simpl.
    f_equal; [|done]. apply hextet_facts, Hh. }
  assert (String.eqb "0" <$> ss = (λ h, h =? 0) <$> l) as Hzeros.
  { unfold ss. rewrite <- list_fmap_compose. apply Forall_fmap_ext_1. eapply Forall_impl; [exact Hl|]. intros h Hh.
    apply hextet_facts, Hh. }
  pose proof layout_table as Ht. rewrite forallb_forall in Ht. specialize (Ht (String.eqb "0" <$> ss)).
  assert (In (String.eqb "0" <$> ss) (vectors 8)) as Hin.
  { apply list_elem_of_In. rewrite <- Hss, <- (length_fmap (String.eqb "0") ss). apply elem_of_vectors. }
  specialize (Ht Hin). clear Hin. unfold layout_ok in Ht. cbv zeta. unfold compress_hextets.
  destruct (zero_run (String.eqb "0" <$> ss) 0 0 0 0 0) as [start len].
  destruct (1 <? len)%nat eqn:Hrun.
  - rewrite !andb_true_iff, bool_decide_eq_true in Ht. destruct Ht as [[Hend%Nat.leb_le Hz] Hlay]. apply Nat.ltb_lt in Hrun.
    destruct (splice_pieces EmptyString start len ss Hss Hend) as [Htake Hdrop].
    split_and!; [|by apply splice_parts|].
    + unfold from_parts. rewrite fmap_splice, Hempty. cbn [is_empty]. rewrite Hlay. cbn [mbind option_bind].
      rewrite Htake, Hdrop. unfold ss. rewrite <- fmap_take, <- fmap_drop.
      rewrite shift_in_hextets by (by apply Forall_take). cbn [mbind option_bind].
      assert ((9 <? length (splice EmptyString start len ss))%nat = false) as Hn.
      { apply Nat.ltb_ge. unfold splice. rewrite !length_app, length_take, length_drop. repeat case_match; simpl; lia. }
      fold ss. rewrite Hn. rewrite shift_in_hextets by (by apply Forall_drop). f_equal.
      assert (l = take start l ++ take len (drop start l) ++ drop (start + len) l) as Hsplit.
      { rewrite <- drop_drop. by rewrite !take_drop. }
      rewrite Hsplit at 3. rewrite !joined_app. f_equal.
      rewrite (joined_zeros _ (take len (drop start l))).
      * f_equal. f_equal. rewrite length_take, length_drop. lia.
      * rewrite Hzeros, <- fmap_drop, <- fmap_take in Hz. rewrite forallb_forall in Hz.
        apply Forall_forall. intros h Hh. apply Z.eqb_eq.
        apply (Hz (h =? 0)), list_elem_of_In. apply (list_elem_of_fmap_2 (λ h, h =? 0)), Hh.
    + unfold splice. rewrite !length_app, length_take, length_drop, Hss.
      destruct (Nat.eqb_spec start 0), (Nat.eqb_spec (start + len) 8); simpl; lia.
  - split_and!; [|done|lia]. unfold from_parts. rewrite Hempty, Hss. cbn [Nat.ltb Nat.leb].
    change (layout (replicate 8 false)) with (Some (8, 0, 0)%nat). cbn [mbind option_bind].
    rewrite take_ge, drop_ge by lia. unfold ss. rewrite shift_in_hextets by done. cbn [mbind option_bind]. simpl. by rewrite Z.shiftl_0_r.
Qed.

Lemma ipv6_roundtrip x : 0 <= x < 2 ^ 128 → ipv6_int (ipv6_str x) = Some x.
Proof.
  intros Hx. unfold ipv6_int, ipv6_str.
  destruct (compressed_parts (hextets 8 x) (hextets_range 8 x) (length_hextets 8 x)) as (Hfrom & Hparts & Hlen).
  set (parts := compress_hextets _) in *.
  assert (Forall (λ s, lacks colon s = true) parts) as Hc.
  { eapply Forall_impl; [exact Hparts|]. intros s Hs. by apply part_lacks. }
  rewrite py_split_join; [|by intros ->|done].
  rewrite (proj2 (Nat.ltb_ge _ _)) by done.
  assert (expand_suffix parts = Some parts) as ->.
  { unfold expand_suffix. destruct (last parts) as [s|] eqn:Hl; [|done].
    apply last_Some_elem_of in Hl. rewrite Forall_forall in Hparts.
    by rewrite (part_lacks dot s (Hparts s Hl)). }
  cbn [mbind option_bind]. rewrite Hfrom, joined_hextets; [done|]. exact Hx.
Qed.

(** *** Both versions *)

Lemma digits_lack_colon s : all_digits s = true → lacks colon s = true.
Proof.
  unfold all_digits. intros [_ Hs]%andb_true_iff. induction s as [|a s IH]; simpl in *; [done|].
  apply andb_true_iff in Hs as [Ha Hs]. rewrite IH by done. apply bool_decide_eq_true in Ha.
  destruct (Ascii.eqb_spec a colon) as [->|]; [|done]. destruct Ha as [v Hv]. vm_compute in Hv. discriminate.
Qed.

Lemma octet_lacks_colon s n : parse_octet s = Some n → lacks colon s = true.
Proof.
  unfold parse_octet. destruct (all_digits s) eqn:Hd; [|done]. intros _. by apply digits_lack_colon.
Qed.

(** No colon in an IPv4 text. *)
Lemma ipv4_lacks_colon s x : ipv4_int s = Some x → lacks colon s = true.
Proof.
  intros Hx. rewrite <- (join_split dot s). apply lacks_join; [done|]. unfold ipv4_int in Hx.
  destruct (py_split dot s) as [|a [|b [|c [|e [|]]]]]; try done.
  apply bind_Some in Hx as (xa & Ha & Hx). apply bind_Some in Hx as (xb & Hb & Hx).
  apply bind_Some in Hx as (xc & Hc & Hx). apply bind_Some in Hx as (xe & He & _).
  repeat constructor; by eapply octet_lacks_colon.
Qed.

Lemma join_has_sep sep parts : (2 ≤ length parts)%nat → lacks sep (py_join sep parts) = false.
Proof.
  destruct parts as [|s [|s' parts]]; simpl length; [lia|lia|]. intros _.
  rewrite py_join_cons, lacks_app. simpl. by rewrite Ascii.eqb_refl, andb_false_r.
Qed.

Lemma py_partition_app c s t : lacks c s = true → py_partition c (s +:+ String c t) = (s, Some t).
Proof.
  induction s as [|a s IH]; simpl; [by rewrite Ascii.eqb_refl|]. intros [Ha Hs]%andb_true_iff.
  destruct (Ascii.eqb a c); [done|]. by rewrite IH.
Qed.

Lemma py_partition_none c s : lacks c s = true → py_partition c s = (s, None).
Proof.
  induction s as [|a s IH]; simpl; [done|]. intros [Ha Hs]%andb_true_iff.
  destruct (Ascii.eqb a c); [done|]. by rewrite IH.
Qed.

Definition scope_ok (o : option string) : Prop :=
  match o with Some z => is_empty z = false ∧ lacks percent z = true ∧ lacks slash z = true | None => True end.

Definition address_ok (a : ip_address) : Prop :=
  0 <= ip a < 2 ^ max_prefixlen (ip_version a) ∧
  match ip_version a with V4 => scope_id a = None | V6 => scope_ok (scope_id a) end.

Lemma ipv6_str_facts x :
  lacks colon (ipv6_str x) = false ∧ lacks percent (ipv6_str x) = true ∧ lacks slash (ipv6_str x) = true.
Proof.
  unfold ipv6_str.
  destruct (compressed_parts (hextets 8 x) (hextets_range 8 x) (length_hextets 8 x)) as (_ & Hparts & Hlen).
  set (parts := compress_hextets _) in *. split_and!.
  - apply join_has_sep. lia.
  - apply lacks_join; [done|]. eapply Forall_impl; [exact Hparts|]. intros s Hs. by apply part_lacks.
  - apply lacks_join; [done|]. eapply Forall_impl; [exact Hparts|]. intros s Hs. by apply part_lacks.
Qed.

Definition scope_text (o : option string) : string :=
  match o with Some z => String percent z | None => EmptyString end.

(** The text of every address of either version, compressed or scoped, is
    read back as that address. *)
Lemma ip_str_read (a : ip_address) : address_ok a → ip_address_of (ip_str a) = Some a.
Proof.
  destruct a as [v x scope]. intros [Hx Hscope]. unfold ip_address_of, ip_str. simpl in *. destruct v.
  - destruct (ipv4_roundtrip x Hx) as [Hr Hs]. rewrite Hs, Hr. by subst.
  - destruct (ipv6_str_facts x) as (Hcolon & Hpercent & Hslash). fold (scope_text scope).
    assert (lacks slash (ipv6_str x +:+ scope_text scope) = true) as Hsl.
    { rewrite lacks_app, Hslash. destruct scope as [z|]; [|done]. by destruct Hscope as (_ & _ & ?). }
    assert (ipv4_int (ipv6_str x +:+ scope_text scope) = None) as ->.
    { destruct (ipv4_int _) as [y|] eqn:Hy; [|done]. apply ipv4_lacks_colon in Hy.
      by rewrite lacks_app, Hcolon in Hy. }
    rewrite Hsl. unfold ipv6_address. rewrite Hsl. cbn [negb]. destruct scope as [z|]; cbn [scope_text].
    + destruct Hscope as (Hz & Hzp & _). rewrite py_partition_app by done. rewrite Hz, Hzp. cbn [orb negb].
      by rewrite ipv6_roundtrip.
    + rewrite string_app_nil, py_partition_none by done. by rewrite ipv6_roundtrip.
Qed.

(** ** The range of a network *)

(** The network of [p] leading bits: the host bits of its address are zero. *)
Definition network_ok (n : ip_network) : Prop :=
  let v := net_version n in
  0 <= prefixlen n <= max_prefixlen v ∧ 0 <= network_address n < 2 ^ max_prefixlen v ∧
  network_address n mod 2 ^ (max_prefixlen v - prefixlen n) = 0 ∧
  match v with V4 => net_scope n = None | V6 => scope_ok (net_scope n) end.

(** Does the network contain the address? *)
Definition contains (n : ip_network) (a : ip_address) : Prop :=
  ip_version a = net_version n ∧ network_address n <= ip a <= broadcast_address n.

Lemma all_ones_ones v : all_ones v = Z.ones (max_prefixlen v).
Proof. unfold all_ones. rewrite Z.ones_equiv. lia. Qed.

Lemma max_prefixlen_pos v : 0 < max_prefixlen v.
Proof. by destruct v. Qed.

Lemma netmask_bits v p j : 0 <= p <= max_prefixlen v → 0 <= j →
  Z.testbit (netmask v p) j = (j <? max_prefixlen v) && negb (j <? max_prefixlen v - p).
Proof.
  intros Hp Hj. pose proof (max_prefixlen_pos v). unfold netmask.
  rewrite all_ones_ones, Z.lxor_spec, Z.shiftr_div_pow2, Z.ones_div_pow2 by lia.
  rewrite !Z.testbit_ones_nonneg by lia.
  destruct (Z.ltb_spec j (max_prefixlen v)), (Z.ltb_spec j (max_prefixlen v - p)); simpl; lia || done.
Qed.

Lemma hostmask_ones v p : 0 <= p <= max_prefixlen v →
  Z.lxor (netmask v p) (all_ones v) = Z.ones (max_prefixlen v - p).
Proof.
  intros Hp. pose proof (max_prefixlen_pos v). apply Z.bits_inj'. intros j Hj.
  rewrite Z.lxor_spec, netmask_bits, all_ones_ones, !Z.testbit_ones_nonneg by lia.
  destruct (Z.ltb_spec j (max_prefixlen v)), (Z.ltb_spec j (max_prefixlen v - p)); simpl; lia || done.
Qed.

Lemma testbit_above x n j : 0 <= x < 2 ^ n → n <= j → 0 <= n → Z.testbit x j = false.
Proof.
  intros Hx Hj Hn. destruct (decide (x = 0)) as [->|]; [apply Z.bits_0|].
  apply Z.bits_above_log2; [lia|]. apply Z.log2_lt_pow2; [lia|].
  assert (2 ^ n <= 2 ^ j) by (by apply Z.pow_le_mono_r). lia.
Qed.

Lemma masked_shift v p x : 0 <= p <= max_prefixlen v → 0 <= x < 2 ^ max_prefixlen v →
  Z.land x (netmask v p) = Z.shiftl (Z.shiftr x (max_prefixlen v - p)) (max_prefixlen v - p).
Proof.
  intros Hp Hx. pose proof (max_prefixlen_pos v). rewrite <- Z.ldiff_ones_r by lia. apply Z.bits_inj'. intros j Hj.
  rewrite Z.land_spec, Z.ldiff_spec, netmask_bits, Z.testbit_ones_nonneg by lia.
  destruct (Z.ltb_spec j (max_prefixlen v)); simpl; [done|].
  by rewrite (testbit_above x (max_prefixlen v)) by lia.
Qed.

Lemma network_of_ok v x scope p :
  0 <= p <= max_prefixlen v → 0 <= x < 2 ^ max_prefixlen v →
  match v with V4 => scope = None | V6 => scope_ok scope end → network_ok (network_of v x scope p).
Proof.
  intros Hp Hx Hs. unfold network_ok, network_of. simpl. rewrite masked_shift by done.
  set (k := max_prefixlen v - p). assert (0 <= k) by (unfold k; lia).
  rewrite Z.shiftl_mul_pow2, Z.shiftr_div_pow2 by done.
  assert (0 < 2 ^ k) by (by apply Z.pow_pos_nonneg).
  pose proof (Z.div_mod x (2 ^ k) ltac:(lia)). pose proof (Z.mod_pos_bound x (2 ^ k) ltac:(lia)).
  split_and!; [lia|lia|apply Z.mul_nonneg_nonneg; [apply Z.div_pos|]; lia|lia|apply Z.mod_mul; lia|].
  destruct v; case_match; done.
Qed.

(** The last address of a network. *)
Lemma broadcast_spec n : network_ok n →
  broadcast_address n = network_address n + 2 ^ (max_prefixlen (net_version n) - prefixlen n) - 1.
Proof.
  intros (Hp & Hx & Hm & _). unfold broadcast_address. rewrite hostmask_ones by done.
  rewrite <- Z.land_ones in Hm by lia.
  pose proof (Z.add_lor_land (network_address n) (Z.ones (max_prefixlen (net_version n) - prefixlen n))) as Hadd.
  rewrite Hm, Z.ones_equiv in Hadd. rewrite Z.ones_equiv. lia.
Qed.

Lemma aligned_bound a k m : 0 <= k <= m → 0 <= a < 2 ^ m → a mod 2 ^ k = 0 → a + 2 ^ k <= 2 ^ m.
Proof.
  intros Hk Ha Hmod. assert (0 < 2 ^ k) by (apply Z.pow_pos_nonneg; lia).
  pose proof (Z.div_mod a (2 ^ k) ltac:(lia)) as Hd. rewrite Hmod in Hd.
  replace m with (k + (m - k)) in * by lia. rewrite Z.pow_add_r in * by lia.
  assert (a / 2 ^ k < 2 ^ (m - k)) by (apply Z.div_lt_upper_bound; lia). nia.
Qed.

(** Every host is in the network, has a readable address, and the hosts are in
    ascending order. *)
Lemma hosts_facts n : network_ok n →
  Forall (λ a, contains n a ∧ address_ok a) (hosts n) ∧ StronglySorted (λ a b, ip a < ip b) (hosts n).
Proof.
  intros Hn. pose proof Hn as (Hp & Hx & Hm & Hs). pose proof (broadcast_spec n Hn) as Hb.
  pose proof (aligned_bound (network_address n) (max_prefixlen (net_version n) - prefixlen n)
    (max_prefixlen (net_version n)) ltac:(lia) Hx Hm) as Hlast.
  assert (0 < 2 ^ (max_prefixlen (net_version n) - prefixlen n)) by (apply Z.pow_pos_nonneg; lia).
  assert (∀ a b, network_address n <= a → b <= broadcast_address n + 1 →
    Forall (λ a, contains n a ∧ address_ok a) ((λ x, IpAddress (net_version n) x None) <$> seqZ a (b - a)) ∧
    StronglySorted (λ a b, ip a < ip b) ((λ x, IpAddress (net_version n) x None) <$> seqZ a (b - a))) as Hrange.
  { intros a b Ha Hbb. split.
    - apply Forall_fmap, Forall_forall. intros x Hin%elem_of_seqZ. unfold contains, address_ok. simpl.
      split; [split; [done|lia]|]. split; [lia|]. by destruct (net_version n).
    - generalize (b - a). intros len. clear. unfold seqZ. rewrite <- list_fmap_compose.
      generalize (Z.to_nat len). intros l. generalize 0%nat.
      induction l as [|l IH]; intros i; simpl; constructor; [apply IH|].
      apply Forall_fmap, Forall_forall. intros x Hx%elem_of_seq. simpl. lia. }
  unfold hosts. destruct (Z.eqb_spec (prefixlen n) (max_prefixlen (net_version n))) as [He|].
  - split; [|repeat constructor]. repeat constructor; simpl; try lia.
    destruct (net_version n); done.
  - destruct (_ =? _); [apply Hrange; lia|]. destruct (net_version n) eqn:Hv; rewrite <- Hv in *; apply Hrange; lia.
Qed.

(** ** What is read is in range *)

Lemma digit_range a v : digit a = Some v → 0 <= v <= 9.
Proof. unfold digit. case_match; [|done]. intros [= <-]. lia. Qed.

Lemma dec_value_nonneg s acc : 0 <= acc → 0 <= dec_value s acc.
Proof.
  revert acc. induction s as [|a s IH]; intros acc Hacc; [done|]. simpl. apply IH.
  destruct (digit a) as [v|] eqn:Hv; simpl; [apply digit_range in Hv; lia|lia].
Qed.

Lemma parse_octet_range s n : parse_octet s = Some n → 0 <= n < 256.
Proof.
  unfold parse_octet. pose proof (dec_value_nonneg s 0 ltac:(lia)).
  repeat case_match; try done. intros [= <-]. lia.
Qed.

Lemma ipv4_int_range s x : ipv4_int s = Some x → 0 <= x < 2 ^ 32.
Proof.
  unfold ipv4_int. destruct (py_split dot s) as [|a [|b [|c [|e [|]]]]]; try done. intros Hx.
  apply bind_Some in Hx as (xa & Ha%parse_octet_range & Hx). apply bind_Some in Hx as (xb & Hb%parse_octet_range & Hx).
  apply bind_Some in Hx as (xc & Hc%parse_octet_range & Hx). apply bind_Some in Hx as (xe & He%parse_octet_range & Hx).
  injection Hx as <-. lia.
Qed.

Lemma hex_value_range a v : hex_value a = Some v → 0 <= v < 16.
Proof. unfold hex_value. repeat case_match; try done; intros [= <-]; lia. Qed.

Lemma hex_number_range s acc x : 0 <= acc → hex_number s acc = Some x →
  0 <= x < (acc + 1) * 16 ^ Z.of_nat (String.length s).
Proof.
  revert acc. induction s as [|a s IH]; intros acc Hacc; simpl hex_number.
  - intros [= <-]. simpl. lia.
  - intros (v & Hv%hex_value_range & Hx)%bind_Some. apply IH in Hx; [|lia].
    simpl String.length. rewrite Nat2Z.inj_succ, Z.pow_succ_r by lia.
    assert (0 < 16 ^ Z.of_nat (String.length s)) by (apply Z.pow_pos_nonneg; lia). nia.
Qed.

Lemma parse_hextet_range s h : parse_hextet s = Some h → in_hextet h.
Proof.
  unfold parse_hextet. destruct (is_empty s); [done|]. simpl. destruct (Nat.ltb_spec 4 (String.length s)) as [|Hlen]; [done|].
  intros Hh%hex_number_range; [|lia]. assert (16 ^ Z.of_nat (String.length s) <= 16 ^ 4) by (apply Z.pow_le_mono_r; lia).
  change (16 ^ 4) with 65536 in *. unfold in_hextet. lia.
Qed.

Lemma shift_in_range parts acc x k : 0 <= acc < 65536 ^ k → 0 <= k → shift_in parts acc = Some x →
  0 <= x < 65536 ^ (k + Z.of_nat (length parts)).
Proof.
  revert acc k. induction parts as [|s parts IH]; intros acc k Hacc Hk; simpl shift_in.
  - intros [= <-]. simpl. by rewrite Z.add_0_r.
  - intros (h & Hh%parse_hextet_range & Hx)%bind_Some. rewrite lor_shift in Hx by done.
    apply (IH _ (Z.succ k)) in Hx; [|unfold in_hextet in *; rewrite Z.pow_succ_r by lia; lia|lia].
    simpl length. rewrite Nat2Z.inj_succ. replace (k + Z.succ (Z.of_nat (length parts))) with (Z.succ k + Z.of_nat (length parts)) by lia.
    done.
Qed.

Lemma layout_sum flags hi lo skipped : layout flags = Some (hi, lo, skipped) → (hi + lo + skipped = 8)%nat.
Proof.
  unfold layout. cbv zeta. destruct (inner_empties 1 (tail flags)) as [|i [|]]; [..|done].
  - destruct (_ && _); intros Hx; by simplify_eq.
  - generalize (if default false (head flags) then (i - 1)%nat else i).
    generalize (if default false (last flags) then (length flags - i - 2)%nat else (length flags - i - 1)%nat).
    intros b a. destruct (_ && _); [done|]. destruct (_ && _); [done|].
    destruct (Nat.ltb_spec (8 - (a + b)) 1); [done|]. intros Hx. simplify_eq. lia.
Qed.

Lemma from_parts_range parts x : from_parts parts = Some x → 0 <= x < 2 ^ 128.
Proof.
  unfold from_parts. case_match; [done|]. intros ([[hi lo] skipped] & Hlay%layout_sum & Hx)%bind_Some.
  apply bind_Some in Hx as (high & Hhigh & Hx).
  apply (shift_in_range _ _ _ 0) in Hhigh; [|lia|lia]. rewrite Z.add_0_l in Hhigh.
  assert (0 <= high < 65536 ^ Z.of_nat hi) as Hh.
  { split; [lia|]. eapply Z.lt_le_trans; [apply Hhigh|]. apply Z.pow_le_mono_r; [lia|]. rewrite length_take. lia. }
  apply (shift_in_range _ _ _ (Z.of_nat hi + Z.of_nat skipped)) in Hx; [|..|lia].
  - split; [lia|]. eapply Z.lt_le_trans; [apply Hx|]. change (2 ^ 128) with (65536 ^ 8). apply Z.pow_le_mono_r; [lia|].
    rewrite length_drop. lia.
  - rewrite Z.shiftl_mul_pow2 by lia. rewrite Z.pow_mul_r by lia. change (2 ^ 16) with 65536.
    rewrite Z.pow_add_r by lia. assert (0 < 65536 ^ Z.of_nat skipped) by (apply Z.pow_pos_nonneg; lia). nia.
Qed.

Lemma ipv6_int_range s x : ipv6_int s = Some x → 0 <= x < 2 ^ 128.
Proof.
  unfold ipv6_int. case_match; [done|]. intros (parts & _ & Hx)%bind_Some. by apply from_parts_range in Hx.
Qed.

Lemma py_partition_lacks c c' s before after :
  lacks c' s = true → py_partition c s = (before, Some after) → lacks c' after = true.
Proof.
  revert before. induction s as [|a s IH]; intros before; simpl; [done|]. intros [_ Hs]%andb_true_iff.
  destruct (Ascii.eqb a c); [by intros [= _ <-]|]. destruct (py_partition c s) as [b o].
  intros [= _ ->]. by apply (IH b).
Qed.

Lemma ipv6_address_range s x scope : ipv6_address s = Some (x, scope) → 0 <= x < 2 ^ 128 ∧ scope_ok scope.
Proof.
  unfold ipv6_address. destruct (lacks slash s) eqn:Hs; [|done]. cbn [negb].
  destruct (py_partition percent s) as [addr [z|]] eqn:Hp.
  - destruct (is_empty z || negb (lacks percent z)) eqn:Hz; [done|].
    intros (y & Hy%ipv6_int_range & [= <- <-])%bind_Some. split; [done|].
    apply orb_false_iff in Hz as [Hz1 Hz2%negb_false_iff]. split_and!; [done..|].
    exact (py_partition_lacks percent slash s addr z Hs Hp).
  - by intros (y & Hy%ipv6_int_range & [= <- <-])%bind_Some.
Qed.

Lemma prefix_from_ip_int_range v x p : prefix_from_ip_int v x = Some p → 0 <= p <= max_prefixlen v.
Proof.
  unfold prefix_from_ip_int, righthand_zeros, bit_length. case_match; [|done]. intros [= <-].
  pose proof (max_prefixlen_pos v).
  pose proof (Z.log2_nonneg (Z.land (Z.lnot x) (x - 1))). repeat case_match; lia.
Qed.

Lemma make_prefixlen_range v mask p : make_prefixlen v mask = Some p → 0 <= p <= max_prefixlen v.
Proof.
  pose proof (max_prefixlen_pos v). unfold make_prefixlen. destruct mask as [s|]; [|intros [= <-]; lia].
  destruct (prefix_from_prefix_string v s) as [q|] eqn:Hq.
  - intros [= <-]. unfold prefix_from_prefix_string in Hq. pose proof (dec_value_nonneg s 0 ltac:(lia)).
    repeat case_match; try done. injection Hq as <-. lia.
  - destruct v; [|done]. unfold prefix_from_ip_string. intros (x & _ & Hx)%bind_Some.
    destruct (prefix_from_ip_int V4 x) as [q|] eqn:Hp; [injection Hx as <-|]; by apply (prefix_from_ip_int_range V4) in Hx || apply (prefix_from_ip_int_range V4) in Hp.
Qed.

Lemma ip_network_of_ok s n : ip_network_of s = Some n → network_ok n.
Proof.
  assert (∀ addr mask,
    match (x ← ipv4_int addr; p ← make_prefixlen V4 mask; Some (network_of V4 x None p)) with
    | Some n => Some n
    | None => '(x, scope) ← ipv6_address addr; p ← make_prefixlen V6 mask; Some (network_of V6 x scope p)
    end = Some n → network_ok n) as Hcase.
  { intros addr mask. destruct (x ← ipv4_int addr; _) as [m|] eqn:H4.
    - apply bind_Some in H4 as (x & Hx%ipv4_int_range & H4). apply bind_Some in H4 as (p & Hp%make_prefixlen_range & [= <-]).
      intros [= <-]. by apply network_of_ok.
    - intros ([x scope] & Hx%ipv6_address_range & Hn)%bind_Some. apply bind_Some in Hn as (p & Hp%make_prefixlen_range & [= <-]).
      apply network_of_ok; [done|apply Hx..]. }
  unfold ip_network_of. destruct (py_split slash s) as [|a [|b [|]]]; try done; apply Hcase.
Qed.
