(* ===== verification/Redis.v ===== *)
(** * Redis

    What the program uses of its Redis server: keys with an expiry,
    [SET key value NX PX ttl], and the reads and deletes of a Lua script,
    which the server executes as one step.  The server is a parameter; its
    laws are the documented semantics of these commands, and [map_redis] is a
    server that satisfies them.  Times are in milliseconds. *)
From S2P Require Import Prelude.

Class Redis := {
  rstate : Type;
  (** The value of a key at a time, if it has one and is not expired. *)
  rget : rstate → Z → string → option string;
  (** [SET key value PX ttl] at a time. *)
  rset : rstate → Z → string → string → Z → rstate;
  (** [DEL key] at a time. *)
  rdel : rstate → Z → string → rstate
}.

Class RedisOk (R : Redis) : Prop := {
  rget_rset : ∀ (s : rstate) (t t' : Z) (k k' v : string) (ttl : Z), t ≤ t' →
    rget (rset s t k v ttl) t' k' =
    if String.eqb k k' then (if t' <? t + ttl then Some v else None) else rget s t' k';
  rget_rdel : ∀ (s : rstate) (t t' : Z) (k k' : string), t ≤ t' →
    rget (rdel s t k) t' k' = if String.eqb k k' then None else rget s t' k';
  (** A key without a value gets none by waiting, and a value does not change. *)
  rget_expired : ∀ (s : rstate) (t t' : Z) (k v : string), t ≤ t' →
    rget s t' k = Some v → rget s t k = Some v
}.

Section Commands.
Context `{R : Redis}.

(** [SET key value NX PX ttl]: was the key created? *)
Definition set_nx (s : rstate) (t : Z) (key value : string) (ttl : Z) : rstate * bool :=
  match rget s t key with
  | Some _ => (s, false)
  | None => (rset s t key value ttl, true)
  end.
End Commands.

(** What can go wrong with a command: nothing; it is lost and raises
    [RedisError]; or the server executes it and the answer is lost. *)
Inductive fault := NoFault | RequestLost | ReplyLost.

(** ** A server as a map from keys to values with their expiry *)

#[export] Instance map_redis : Redis := {|
  rstate := gmap string (string * Z);
  rget s t k := match s !! k with Some (v, e) => if t <? e then Some v else None | None => None end;
  rset s t k v ttl := <[k := (v, t + ttl)]> s;
  rdel s t k := delete k s
|}.

#[export] Instance map_redis_ok : RedisOk map_redis.
Proof.
  split; simpl.
  - intros s t t' k k' v ttl Ht. destruct (String.eqb_spec k k') as [->|Hne].
    + by rewrite lookup_insert_eq.
    + by rewrite lookup_insert_ne.
  - intros s t t' k k' Ht. destruct (String.eqb_spec k k') as [->|Hne].
    + by rewrite lookup_delete_eq.
    + by rewrite lookup_delete_ne.
  - intros s t t' k v Ht. destruct (s !! k) as [[v' e]|]; [|done].
    destruct (Z.ltb_spec t' e); [|done]. intros [= <-].
    by destruct (Z.ltb_spec t e); [|lia].
Qed.
