(* ===== verification/SchedulerLock.v ===== *)
(** * Job lock (backend/app/core/scheduler_lock.py)

    A job runs in the process that creates the job's key in Redis; the key
    holds the process's token and is removed by it, or expires. *)
From S2P Require Import Prelude.
From S2P Require Export Redis.

Section Lock.
Context `{R : Redis}.

Definition lock_key (job_name : string) : string := "sched:lock:" +:+ job_name.

(** [px=max(1, ttl_seconds) * 1000]. *)
Definition lock_px (ttl_seconds : Z) : Z := Z.max 1 ttl_seconds * 1000.

(** [_RELEASE_SCRIPT]: delete the key if it still holds the token. *)
Definition release_script (s : rstate) (now : Z) (key token : string) : rstate :=
  match rget s now key with
  | Some v => if String.eqb v token then rdel s now key else s
  | None => s
  end.

Definition _release (s : rstate) (now : Z) (key token : string) (f : fault) : rstate :=
  match f with
  | RequestLost => s
  | NoFault | ReplyLost => release_script s now key token
  end.

(** What entering the context yields: [True] without a lock, [True] with the
    lock (to be released on exit), or [False]. *)
Inductive entry := Unlocked | Acquired | Skipped.

Definition yields (e : entry) : bool := match e with Skipped => false | _ => true end.

Definition scheduler_lock (enabled : bool) (job_name token : string) (ttl_seconds : Z)
    (s : rstate) (now : Z) (f : fault) : rstate * entry :=
  if negb enabled then (s, Unlocked) else
  match f with
  | RequestLost => (s, Skipped)
  | ReplyLost => ((set_nx s now (lock_key job_name) token (lock_px ttl_seconds)).1, Skipped)
  | NoFault =>
    let '(s', acquired) := set_nx s now (lock_key job_name) token (lock_px ttl_seconds) in
    (s', if acquired then Acquired else Skipped)
  end.

(** [run_with_lock]: the job runs between two Redis commands, at times [t0]
    and [t1]; did it run? *)
Definition run_with_lock (enabled : bool) (job_name token : string) (ttl_seconds : Z)
    (fn : rstate → rstate) (s : rstate) (t0 t1 : Z) (f0 f1 : fault) : rstate * bool :=
  let '(s1, e) := scheduler_lock enabled job_name token ttl_seconds s t0 f0 in
  match e with
  | Skipped => (s1, false)
  | Unlocked => (fn s1, true)
  | Acquired => (_release (fn s1) t1 (lock_key job_name) token f1, true)
  end.
End Lock.

(** ** Several processes *)

Section Processes.
Context `{R : Redis} `{!RedisOk R} (job_name : string) (ttl_seconds : Z).

Abbreviation key := (lock_key job_name).
Abbreviation px := (lock_px ttl_seconds).

(** The processes that run the job, with their token and their time of
    acquisition; [used] are the tokens generated so far. *)
Record cluster := Cluster {
  redis : rstate;
  now : Z;
  running : gmap nat (string * Z);
  used : gset string
}.

(** [uuid4().hex] is a new token. *)
Inductive cluster_step : cluster → cluster → Prop :=
  | wait c t : now c ≤ t → cluster_step c (Cluster (redis c) t (running c) (used c))
  | other_client c s : (∀ t, now c ≤ t → rget s t key = rget (redis c) t key) →
      cluster_step c (Cluster s (now c) (running c) (used c))
  | start c p token f s e :
      running c !! p = None → token ∉ used c →
      scheduler_lock true job_name token ttl_seconds (redis c) (now c) f = (s, e) →
      cluster_step c (Cluster s (now c)
        (if yields e then <[p := (token, now c)]> (running c) else running c) ({[token]} ∪ used c))
  | finish c p token t0 f :
      running c !! p = Some (token, t0) →
      cluster_step c (Cluster (_release (redis c) (now c) key token f) (now c) (delete p (running c)) (used c))
  | crash c p : cluster_step c (Cluster (redis c) (now c) (delete p (running c)) (used c)).

Definition cluster_initial (c : cluster) : Prop :=
  running c = ∅ ∧ ∀ t, now c ≤ t → rget (redis c) t key = None.

Record cluster_inv (c : cluster) : Prop := {
  ci_holds : ∀ p token t0 t, running c !! p = Some (token, t0) → now c ≤ t → t < t0 + px →
    rget (redis c) t key = Some token;
  ci_used : ∀ p token t0, running c !! p = Some (token, t0) → token ∈ used c;
  ci_tokens : ∀ p q token t0 t1, running c !! p = Some (token, t0) →
    running c !! q = Some (token, t1) → p = q;
  ci_expiry : ∀ t v, now c ≤ t → rget (redis c) t key = Some v → t < now c + px
}.

Lemma lock_px_pos : 1000 ≤ px.
Proof. unfold lock_px. lia. Qed.

Lemma cluster_initial_inv c : cluster_initial c → cluster_inv c.
Proof.
  intros [Hr Hg]. split; intros *; rewrite ?Hr, ?lookup_empty; try done.
  intros Ht Hv. by rewrite Hg in Hv.
Qed.

Lemma run_released c p token t0 f q token' t1 t :
  cluster_inv c → running c !! p = Some (token, t0) → running c !! q = Some (token', t1) → q ≠ p →
  now c ≤ t → t < t1 + px → rget (_release (redis c) (now c) key token f) t key = Some token'.
Proof.
  intros HI Hp Hq Hne Ht Hlt. pose proof (ci_holds c HI q token' t1 t Hq Ht Hlt) as Hget.
  assert (rget (redis c) (now c) key = Some token') as Hnow by by eapply rget_expired.
  assert (token' ≠ token) as Htok.
  { intros ->. by apply Hne, (ci_tokens c HI q p token t1 t0). }
  unfold _release, release_script. rewrite Hnow. rewrite (proj2 (String.eqb_neq _ _) Htok).
  by destruct f.
Qed.

Lemma release_expiry c token f t v :
  cluster_inv c → now c ≤ t → rget (_release (redis c) (now c) key token f) t key = Some v →
  t < now c + px.
Proof.
  intros HI Ht. assert (rget (redis c) t key = Some v → t < now c + px) as Hold by by apply ci_expiry.
  unfold _release, release_script. destruct f; [|done|]; (destruct (rget (redis c) (now c) key) as [v'|];
    [|done]; destruct (String.eqb v' token); [|done]; rewrite rget_rdel by done; by rewrite String.eqb_refl).
Qed.

(** The state after a [SET NX]. *)
Lemma set_nx_get s t token t' v :
  t ≤ t' → rget (set_nx s t key token px).1 t' key = Some v →
  (rget s t key = None ∧ v = token ∧ t' < t + px) ∨ (rget s t key ≠ None ∧ rget s t' key = Some v).
Proof.
  intros Ht. unfold set_nx. destruct (rget s t key) as [v'|] eqn:Hg; simpl; [by right|].
  rewrite rget_rset, String.eqb_refl by done. destruct (Z.ltb_spec t' (t + px)); [|done].
  intros [= <-]. by left.
Qed.

Lemma set_nx_keep s t token t' v :
  t ≤ t' → rget s t' key = Some v → rget (set_nx s t key token px).1 t' key = Some v.
Proof.
  intros Ht Hg. unfold set_nx. by rewrite (rget_expired s t t' key v Ht Hg).
Qed.

Lemma scheduler_lock_cases token s t f s' e :
  scheduler_lock true job_name token ttl_seconds s t f = (s', e) →
  (yields e = false ∧ (s' = s ∨ s' = (set_nx s t key token px).1)) ∨
  (e = Acquired ∧ rget s t key = None ∧ s' = rset s t key token px).
Proof.
  unfold scheduler_lock, set_nx. simpl. destruct f, (rget s t key) as [v|] eqn:Hg; intros [= <- <-]; simpl; auto.
Qed.

Lemma cluster_start_inv c p token f s e :
  cluster_inv c → running c !! p = None → token ∉ used c →
  scheduler_lock true job_name token ttl_seconds (redis c) (now c) f = (s, e) →
  cluster_inv (Cluster s (now c)
    (if yields e then <[p := (token, now c)]> (running c) else running c) ({[token]} ∪ used c)).
Proof.
  intros HI Hp Hfresh Hlock. pose proof lock_px_pos as Hpx.
  destruct (scheduler_lock_cases _ _ _ _ _ _ Hlock) as [[-> Hs]|(-> & Hnone & ->)]; simpl.
  - split; simpl.
    + intros q tok t0 t Hq Ht Hlt. pose proof (ci_holds c HI q tok t0 t Hq Ht Hlt) as Hg.
      destruct Hs as [-> | ->]; [done|by apply set_nx_keep].
    + intros q tok t0 Hq%(ci_used c HI). set_solver.
    + apply HI.
    + intros t v Ht Hv. destruct Hs as [-> | ->]; [by eapply ci_expiry|].
      destruct (set_nx_get _ _ _ _ _ Ht Hv) as [(_ & _ & Hlt)|[_ Hold]]; [done|by eapply ci_expiry].
  - assert (∀ q tok t0, running c !! q = Some (tok, t0) → t0 + px ≤ now c) as Hlate.
    { intros q tok t0 Hq. apply Z.nlt_ge. intros Hlt.
      pose proof (ci_holds c HI q tok t0 (now c) Hq (Z.le_refl _) Hlt). congruence. }
    split; simpl.
    + intros q tok t0 t [[-> [= <- <-]]|[_ Hq]]%lookup_insert_Some Ht Hlt.
      * rewrite rget_rset, String.eqb_refl by done. by rewrite (proj2 (Z.ltb_lt _ _) Hlt).
      * specialize (Hlate _ _ _ Hq). lia.
    + intros q tok t0 [[-> [= <- <-]]|[_ Hq]]%lookup_insert_Some; [set_solver|].
      apply (ci_used c HI) in Hq. set_solver.
    + intros q q' tok t0 t1 [[-> [= <- <-]]|[_ Hq]]%lookup_insert_Some
        [[-> [= <-]]|[_ Hq']]%lookup_insert_Some; try done.
      * by apply (ci_used c HI) in Hq'.
      * by apply (ci_used c HI) in Hq.
      * by eapply ci_tokens.
    + intros t v Ht. rewrite rget_rset, String.eqb_refl by done.
      by destruct (Z.ltb_spec t (now c + px)).
Qed.

Lemma cluster_step_inv c c' : cluster_inv c → cluster_step c c' → cluster_inv c'.
Proof.
  intros HI Hstep. destruct Hstep as [c t Ht|c s Hs|c p token f s e Hp Hfresh Hlock|c p token t0 f Hp|c p].
  - split; simpl.
    + intros p token t0 t' Hp Ht'. apply (ci_holds c HI p token t0 t' Hp). lia.
    + apply HI.
    + apply HI.
    + intros t' v Ht' Hv. assert (t' < now c + px); [eapply ci_expiry; [done|lia|done]|lia].
  - split; simpl; try apply HI.
    + intros p token t0 t Hp Ht Hlt. rewrite Hs by done. by eapply ci_holds.
    + intros t v Ht. rewrite Hs by done. by apply HI.
  - by eapply cluster_start_inv.
  - split; simpl.
    + intros q tok t1 t [Hne Hq]%lookup_delete_Some Ht Hlt. by eapply run_released.
    + intros q tok t1 [_ Hq]%lookup_delete_Some. by eapply ci_used.
    + intros q q' tok t1 t2 [_ Hq]%lookup_delete_Some [_ Hq']%lookup_delete_Some. by eapply ci_tokens.
    + intros t v Ht. by apply release_expiry.
  - split; simpl; [|..|apply HI].
    + intros q tok t1 t [_ Hq]%lookup_delete_Some. by eapply ci_holds.
    + intros q tok t1 [_ Hq]%lookup_delete_Some. by eapply ci_used.
    + intros q q' tok t1 t2 [_ Hq]%lookup_delete_Some [_ Hq']%lookup_delete_Some. by eapply ci_tokens.
Qed.

Definition cluster_reachable (c : cluster) : Prop := ∃ c0, cluster_initial c0 ∧ rtc cluster_step c0 c.

Lemma cluster_reachable_inv c : cluster_reachable c → cluster_inv c.
Proof.
  intros (c0 & Hi%cluster_initial_inv & Hs). induction Hs as [|? ? ? Hstep _ IH]; [done|].
  by apply IH, (cluster_step_inv x).
Qed.

(** C9: of the processes that have run the job for less than the lock's
    lifetime there is at most one, whatever requests or replies Redis loses,
    whoever crashes, and whatever late processes release. *)
Theorem lock_exclusive (c : cluster) (p q : nat) (token token' : string) (t0 t1 : Z) :
  cluster_reachable c → running c !! p = Some (token, t0) → running c !! q = Some (token', t1) →
  now c < t0 + px → now c < t1 + px → p = q.
Proof.
  intros HI%cluster_reachable_inv Hp Hq Hlt0 Hlt1.
  pose proof (ci_holds c HI p token t0 (now c) Hp (Z.le_refl _) Hlt0) as Hg0.
  pose proof (ci_holds c HI q token' t1 (now c) Hq (Z.le_refl _) Hlt1) as Hg1.
  assert (token' = token) as -> by congruence. by eapply ci_tokens.
Qed.

(** The lock is never stuck: once its lifetime has passed, or its holder has
    released it in time, a process that asks for it gets it. *)
Theorem lock_available (c : cluster) (token : string) (t : Z) :
  cluster_reachable c →
  (now c + px ≤ t ∨
   ∃ p tok t0 c', running c' !! p = Some (tok, t0) ∧ cluster_reachable c' ∧ now c' < t0 + px ∧
     c = Cluster (_release (redis c') (now c') key tok NoFault) (now c') (delete p (running c')) (used c') ∧
     now c ≤ t) →
  (scheduler_lock true job_name token ttl_seconds (redis c) t NoFault).2 = Acquired.
Proof.
  intros HI%cluster_reachable_inv Hcase.
  assert (rget (redis c) t key = None) as Hnone.
  { destruct Hcase as [Hlate|(p & tok & t0 & c' & Hp & HI'%cluster_reachable_inv & Hlt & -> & Ht)].
    - destruct (rget (redis c) t key) as [v|] eqn:Hv; [|done]. pose proof lock_px_pos.
      assert (t < now c + px); [eapply ci_expiry; [done|lia|done]|lia].
    - simpl in *. unfold release_script.
      rewrite (ci_holds c' HI' p tok t0 (now c') Hp (Z.le_refl _) Hlt), String.eqb_refl.
      rewrite rget_rdel by done. by rewrite String.eqb_refl. }
  unfold scheduler_lock, set_nx. simpl. by rewrite Hnone.
Qed.
End Processes.

(** ** Instances *)

Definition demo_cluster0 : cluster := Cluster ∅ 0 ∅ ∅.
(** Process 1 takes the lock; process 2 is refused a second later. *)
Definition demo_cluster1 : cluster :=
  Cluster (<["sched:lock:alerts" := ("t1", 600000)]> ∅) 0 {[1%nat := ("t1", 0)]} {["t1"]}.
Definition demo_cluster2 : cluster := Cluster (redis demo_cluster1) 1000 (running demo_cluster1) (used demo_cluster1).

Lemma demo_cluster1_reachable : cluster_reachable "alerts" 600 demo_cluster1.
Proof.
  exists demo_cluster0. split; [by split|]. eapply rtc_l; [|apply rtc_refl].
  by apply (start "alerts" 600 demo_cluster0 1 "t1" NoFault _ Acquired).
Qed.

Lemma demo_cluster2_reachable : cluster_reachable "alerts" 600 demo_cluster2.
Proof.
  destruct demo_cluster1_reachable as (c0 & Hi & Hs). exists c0. split; [done|].
  eapply rtc_r; [exact Hs|]. by apply (wait "alerts" 600 demo_cluster1 1000).
Qed.

Lemma lock_exclusive_witness :
  ∃ q : nat, running demo_cluster2 !! q = Some ("t1", 0) ∧ 1%nat = q.
Proof.
  exists 1%nat. split; [reflexivity|].
  exact (lock_exclusive "alerts" 600 demo_cluster2 1 1 "t1" "t1" 0 0 demo_cluster2_reachable
    eq_refl eq_refl eq_refl eq_refl).
Defined.

Lemma lock_available_witness :
  (scheduler_lock true "alerts" "t2" 600 (redis demo_cluster1) 0 NoFault).2 = Skipped ∧
  (scheduler_lock true "alerts" "t2" 600 (redis demo_cluster2) 601000 NoFault).2 = Acquired ∧
  (scheduler_lock true "alerts" "t2" 600
     (_release (redis demo_cluster2) 1000 "sched:lock:alerts" "t1" NoFault) 2000 NoFault).2 = Acquired.
Proof.
  split; [reflexivity|]. split.
  - apply (lock_available "alerts" 600 demo_cluster2 "t2" 601000 demo_cluster2_reachable).
    left. by vm_compute.
  - apply (lock_available "alerts" 600
      (Cluster (_release (redis demo_cluster2) 1000 (lock_key "alerts") "t1" NoFault) 1000
        (delete 1%nat (running demo_cluster2)) (used demo_cluster2)) "t2" 2000).
    + destruct demo_cluster2_reachable as (c0 & Hi & Hs). exists c0. split; [done|].
      eapply rtc_r; [exact Hs|]. by apply (finish "alerts" 600 demo_cluster2 1 "t1" 0 NoFault).
    + right. exists 1%nat, "t1", 0, demo_cluster2. split_and!; [done|apply demo_cluster2_reachable|done|done|done].
Defined.
