(* ===== verification/Models.v ===== *)
(** * The tables (backend/app/models)

    One record per ORM class, one field per column the code reads or writes;
    [updated_at], which only the database server maintains, and relationship
    attributes are left out.  [Numeric] columns hold exact rationals: [Decimal]
    values and floats are both the number they denote. *)
From Stdlib Require Import QArith.
From S2P Require Import Prelude.

(** ** Tasks (backend/app/models/task.py)

    The status columns hold no other string than the ones the code writes, so
    they are inductive types; [task_status_str] and [exec_status_str] give the
    stored text. *)

Inductive task_status :=
  | T_CREATED | T_PENDING | T_RUNNING | T_SUCCESS | T_FAILED | T_TIMEOUT
  | T_CANCELLED | T_RETRYING | T_DEAD.

Inductive exec_status :=
  | E_PENDING | E_RUNNING | E_SUCCESS | E_FAILED | E_TIMEOUT | E_CANCELLED
  | E_RETRYING | E_DEAD.

#[export] Instance task_status_eq_dec : EqDecision task_status.
Proof. solve_decision. Defined.

#[export] Instance exec_status_eq_dec : EqDecision exec_status.
Proof. solve_decision. Defined.

Definition task_status_str (s : task_status) : string :=
  match s with
  | T_CREATED => "CREATED" | T_PENDING => "PENDING" | T_RUNNING => "RUNNING"
  | T_SUCCESS => "SUCCESS" | T_FAILED => "FAILED" | T_TIMEOUT => "TIMEOUT"
  | T_CANCELLED => "CANCELLED" | T_RETRYING => "RETRYING" | T_DEAD => "DEAD"
  end.

Definition exec_status_str (s : exec_status) : string :=
  match s with
  | E_PENDING => "PENDING" | E_RUNNING => "RUNNING" | E_SUCCESS => "SUCCESS"
  | E_FAILED => "FAILED" | E_TIMEOUT => "TIMEOUT" | E_CANCELLED => "CANCELLED"
  | E_RETRYING => "RETRYING" | E_DEAD => "DEAD"
  end.

(** [status in ("SUCCESS", "FAILED", "TIMEOUT", "CANCELLED", "DEAD")], the
    test the service repeats on tasks and on executions. *)
Definition task_terminal (s : task_status) : bool :=
  match s with
  | T_SUCCESS | T_FAILED | T_TIMEOUT | T_CANCELLED | T_DEAD => true
  | _ => false
  end.

Definition exec_terminal (s : exec_status) : bool :=
  match s with
  | E_SUCCESS | E_FAILED | E_TIMEOUT | E_CANCELLED | E_DEAD => true
  | _ => false
  end.

Module OpsTask.
Record OpsTask := Mk {
  id : Z;
  task_name : string;
  task_type : string;
  action : option string;
  service_name : option string;
  schedule_type : string;
  cron_expression : option string;
  status : task_status;
  created_by : Z;
  started_at : option datetime;
  finished_at : option datetime;
  timeout_seconds : Z;
  max_attempts : Z;
  attempt : Z;
  deadline_at : option datetime;
  idempotency_key : option string;
  confirmation_required : Z;
  confirmed_by : option Z;
  confirmed_at : option datetime;
  created_at : datetime
}.

#[global] Instance eta_OpsTask : Settable OpsTask := λ r,
  Mk (id r) (task_name r) (task_type r) (action r) (service_name r)
     (schedule_type r) (cron_expression r) (status r) (created_by r)
     (started_at r) (finished_at r) (timeout_seconds r) (max_attempts r)
     (attempt r) (deadline_at r) (idempotency_key r) (confirmation_required r)
     (confirmed_by r) (confirmed_at r) (created_at r).
End OpsTask.

Module OpsTaskTarget.
Record OpsTaskTarget := Mk {
  id : Z;
  task_id : Z;
  server_id : Z;
  target_status : string;
  created_at : datetime
}.

#[global] Instance eta_OpsTaskTarget : Settable OpsTaskTarget := λ r,
  Mk (id r) (task_id r) (server_id r) (target_status r) (created_at r).
End OpsTaskTarget.

Module OpsTaskExecution.
Record OpsTaskExecution := Mk {
  id : Z;
  task_id : Z;
  target_id : Z;
  server_id : Z;
  status : exec_status;
  attempt : Z;
  next_retry_at : option datetime;
  error_type : option string;
  exit_code : option Z;
  result_text : option string;
  error_message : option string;
  started_at : option datetime;
  finished_at : option datetime;
  duration_ms : option Z;
  created_at : datetime
}.

#[global] Instance eta_OpsTaskExecution : Settable OpsTaskExecution := λ r,
  Mk (id r) (task_id r) (target_id r) (server_id r) (status r) (attempt r)
     (next_retry_at r) (error_type r) (exit_code r) (result_text r)
     (error_message r) (started_at r) (finished_at r) (duration_ms r)
     (created_at r).
End OpsTaskExecution.

Module OpsTaskLog.
Record OpsTaskLog := Mk {
  id : Z;
  execution_id : Z;
  log_level : string;
  log_content : string;
  created_at : datetime
}.

#[global] Instance eta_OpsTaskLog : Settable OpsTaskLog := λ r,
  Mk (id r) (execution_id r) (log_level r) (log_content r) (created_at r).
End OpsTaskLog.

Abbreviation OpsTask := OpsTask.OpsTask.
Abbreviation OpsTaskTarget := OpsTaskTarget.OpsTaskTarget.
Abbreviation OpsTaskExecution := OpsTaskExecution.OpsTaskExecution.
Abbreviation OpsTaskLog := OpsTaskLog.OpsTaskLog.

Example setter_example (e : OpsTaskExecution) :
  (e <| OpsTaskExecution.status := E_DEAD |>).(OpsTaskExecution.attempt)
  = e.(OpsTaskExecution.attempt).
Proof. reflexivity. Qed.

(** ** Servers and their assets (backend/app/models/server.py)

    [OpsServerContainer] has no operation in the program. *)

Inductive agent_status := A_ONLINE | A_WARNING | A_OFFLINE | A_UNKNOWN.

#[export] Instance agent_status_eq_dec : EqDecision agent_status.
Proof. solve_decision. Defined.

Definition agent_status_str (s : agent_status) : string :=
  match s with
  | A_ONLINE => "ONLINE" | A_WARNING => "WARNING"
  | A_OFFLINE => "OFFLINE" | A_UNKNOWN => "UNKNOWN"
  end.

Module OpsServer.
Record OpsServer := Mk {
  id : Z;
  server_code : string;
  hostname : string;
  ip_address : string;
  ssh_port : Z;
  os_name : option string;
  os_version : option string;
  kernel_version : option string;
  architecture : option string;
  cpu_model : option string;
  cpu_cores : option Z;
  memory_total_bytes : option Z;
  disk_total_bytes : option Z;
  agent_version : option string;
  agent_status : agent_status;
  last_heartbeat_at : option datetime;
  registered_at : option datetime;
  status : Z;
  remark : option string;
  created_by : option Z;
  created_at : datetime;
  deleted_at : option datetime
}.

#[global] Instance eta_OpsServer : Settable OpsServer := λ r,
  Mk (id r) (server_code r) (hostname r) (ip_address r) (ssh_port r)
     (os_name r) (os_version r) (kernel_version r) (architecture r)
     (cpu_model r) (cpu_cores r) (memory_total_bytes r) (disk_total_bytes r)
     (agent_version r) (agent_status r) (last_heartbeat_at r)
     (registered_at r) (status r) (remark r) (created_by r) (created_at r)
     (deleted_at r).
End OpsServer.

Module OpsServerDisk.
Record OpsServerDisk := Mk {
  id : Z;
  server_id : Z;
  device_name : string;
  mount_point : option string;
  filesystem : option string;
  total_bytes : option Z;
  status : Z;
  created_at : datetime
}.

#[global] Instance eta_OpsServerDisk : Settable OpsServerDisk := λ r,
  Mk (id r) (server_id r) (device_name r) (mount_point r) (filesystem r)
     (total_bytes r) (status r) (created_at r).
End OpsServerDisk.

Module OpsServerNetwork.
Record OpsServerNetwork := Mk {
  id : Z;
  server_id : Z;
  interface_name : string;
  mac_address : option string;
  ip_address : option string;
  status : Z;
  created_at : datetime
}.

#[global] Instance eta_OpsServerNetwork : Settable OpsServerNetwork := λ r,
  Mk (id r) (server_id r) (interface_name r) (mac_address r) (ip_address r)
     (status r) (created_at r).
End OpsServerNetwork.

Module OpsAgentToken.
Record OpsAgentToken := Mk {
  id : Z;
  server_id : Z;
  token_name : string;
  token_prefix : string;
  token_hash : string;
  signing_public_key : option string;
  signing_algorithm : option string;
  key_registered_at : option datetime;
  status : Z;
  expires_at : option datetime;
  last_used_at : option datetime;
  created_at : datetime;
  revoked_at : option datetime
}.

#[global] Instance eta_OpsAgentToken : Settable OpsAgentToken := λ r,
  Mk (id r) (server_id r) (token_name r) (token_prefix r) (token_hash r)
     (signing_public_key r) (signing_algorithm r) (key_registered_at r)
     (status r) (expires_at r) (last_used_at r) (created_at r) (revoked_at r).
End OpsAgentToken.

Module OpsAgentHeartbeat.
Record OpsAgentHeartbeat := Mk {
  id : Z;
  server_id : Z;
  agent_version : option string;
  ip_address : option string;
  collected_at : datetime;
  received_at : datetime
}.

#[global] Instance eta_OpsAgentHeartbeat : Settable OpsAgentHeartbeat := λ r,
  Mk (id r) (server_id r) (agent_version r) (ip_address r) (collected_at r)
     (received_at r).
End OpsAgentHeartbeat.

Module OpsServerService.
Record OpsServerService := Mk {
  id : Z;
  server_id : Z;
  service_name : string;
  display_name : option string;
  service_type : string;
  is_whitelisted : Z;
  is_critical : Z;
  current_status : option string;
  last_checked_at : option datetime;
  status : Z;
  created_at : datetime
}.

#[global] Instance eta_OpsServerService : Settable OpsServerService := λ r,
  Mk (id r) (server_id r) (service_name r) (display_name r) (service_type r)
     (is_whitelisted r) (is_critical r) (current_status r) (last_checked_at r)
     (status r) (created_at r).
End OpsServerService.

Abbreviation OpsServer := OpsServer.OpsServer.
Abbreviation OpsServerDisk := OpsServerDisk.OpsServerDisk.
Abbreviation OpsServerNetwork := OpsServerNetwork.OpsServerNetwork.
Abbreviation OpsAgentToken := OpsAgentToken.OpsAgentToken.
Abbreviation OpsAgentHeartbeat := OpsAgentHeartbeat.OpsAgentHeartbeat.
Abbreviation OpsServerService := OpsServerService.OpsServerService.

(** ** Alerts (backend/app/models/alert.py) *)

Inductive alert_status := PENDING | FIRING | ACKNOWLEDGED | RESOLVED.

#[export] Instance alert_status_eq_dec : EqDecision alert_status.
Proof. solve_decision. Defined.

Definition alert_status_str (s : alert_status) : string :=
  match s with
  | PENDING => "PENDING" | FIRING => "FIRING"
  | ACKNOWLEDGED => "ACKNOWLEDGED" | RESOLVED => "RESOLVED"
  end.

Module AlertRule.
Record AlertRule := Mk {
  id : Z;
  rule_name : string;
  metric_type : string;
  target_type : string;
  severity : string;
  operator : string;
  threshold : option Q;
  duration_seconds : Z;
  recovery_threshold : option Q;
  enabled : Z;
  description : option string;
  created_by : option Z;
  created_at : datetime
}.

#[global] Instance eta_AlertRule : Settable AlertRule := λ r,
  Mk (id r) (rule_name r) (metric_type r) (target_type r) (severity r)
     (operator r) (threshold r) (duration_seconds r) (recovery_threshold r)
     (enabled r) (description r) (created_by r) (created_at r).
End AlertRule.

Module AlertEvent.
Record AlertEvent := Mk {
  id : Z;
  rule_id : Z;
  server_id : option Z;
  resource_type : string;
  resource_id : option Z;
  alert_key : string;
  metric_type : string;
  severity : string;
  status : alert_status;
  first_fired_at : option datetime;
  last_fired_at : option datetime;
  acknowledged_by : option Z;
  acknowledged_at : option datetime;
  resolved_at : option datetime;
  current_value : option Q;
  threshold_value : option Q;
  message : string;
  created_at : datetime
}.

#[global] Instance eta_AlertEvent : Settable AlertEvent := λ r,
  Mk (id r) (rule_id r) (server_id r) (resource_type r) (resource_id r)
     (alert_key r) (metric_type r) (severity r) (status r) (first_fired_at r)
     (last_fired_at r) (acknowledged_by r) (acknowledged_at r) (resolved_at r)
     (current_value r) (threshold_value r) (message r) (created_at r).

(** The computed column: [CASE WHEN status IN ('PENDING', 'FIRING',
    'ACKNOWLEDGED') THEN 1 ELSE NULL END]. *)
Definition is_active (e : AlertEvent) : option Z :=
  match status e with
  | PENDING | FIRING | ACKNOWLEDGED => Some 1
  | RESOLVED => None
  end.
End AlertEvent.

Module AlertEventLog.
Record AlertEventLog := Mk {
  id : Z;
  event_id : Z;
  old_status : option alert_status;
  new_status : alert_status;
  current_value : option Q;
  message : option string;
  operator_id : option Z;
  created_at : datetime
}.

#[global] Instance eta_AlertEventLog : Settable AlertEventLog := λ r,
  Mk (id r) (event_id r) (old_status r) (new_status r) (current_value r)
     (message r) (operator_id r) (created_at r).
End AlertEventLog.

Abbreviation AlertRule := AlertRule.AlertRule.
Abbreviation AlertEvent := AlertEvent.AlertEvent.
Abbreviation AlertEventLog := AlertEventLog.AlertEventLog.

(** ** Metrics (backend/app/models/metric.py)

    The raw server metrics and their daily archive; the disk, network,
    container and process tables of the file have no operation. *)

Module MonitorServerMetric.
Record MonitorServerMetric := Mk {
  id : Z;
  server_id : Z;
  collected_at : datetime;
  cpu_usage : option Q;
  memory_usage : option Q;
  memory_used_bytes : option Z;
  disk_usage : option Q;
  network_in_bytes : option Z;
  network_out_bytes : option Z;
  load_1m : option Q;
  load_5m : option Q;
  load_15m : option Q;
  tcp_connections : option Z;
  uptime_seconds : option Z;
  created_at : datetime
}.

#[global] Instance eta_MonitorServerMetric : Settable MonitorServerMetric := λ r,
  Mk (id r) (server_id r) (collected_at r) (cpu_usage r) (memory_usage r)
     (memory_used_bytes r) (disk_usage r) (network_in_bytes r)
     (network_out_bytes r) (load_1m r) (load_5m r) (load_15m r)
     (tcp_connections r) (uptime_seconds r) (created_at r).
End MonitorServerMetric.

Module MonitorServerMetricDaily.
Record MonitorServerMetricDaily := Mk {
  id : Z;
  server_id : Z;
  metric_date : Z;
  cpu_usage_avg : option Q;
  cpu_usage_max : option Q;
  memory_usage_avg : option Q;
  memory_usage_max : option Q;
  disk_usage_avg : option Q;
  disk_usage_max : option Q;
  load_1m_avg : option Q;
  load_1m_max : option Q;
  tcp_connections_avg : option Q;
  tcp_connections_max : option Q;
  sample_count : Z;
  created_at : datetime
}.

#[global] Instance eta_MonitorServerMetricDaily : Settable MonitorServerMetricDaily := λ r,
  Mk (id r) (server_id r) (metric_date r) (cpu_usage_avg r) (cpu_usage_max r)
     (memory_usage_avg r) (memory_usage_max r) (disk_usage_avg r)
     (disk_usage_max r) (load_1m_avg r) (load_1m_max r)
     (tcp_connections_avg r) (tcp_connections_max r) (sample_count r)
     (created_at r).
End MonitorServerMetricDaily.

Abbreviation MonitorServerMetric := MonitorServerMetric.MonitorServerMetric.
Abbreviation MonitorServerMetricDaily := MonitorServerMetricDaily.MonitorServerMetricDaily.

(** ** Users, roles, permissions and audit (backend/app/models/user.py, audit.py)

    The association rows [SysUserRole] and [SysRolePermission] get a surrogate
    [id]; their primary keys are uniqueness constraints of the store. *)

Module SysUser.
Record SysUser := Mk {
  id : Z;
  username : string;
  password_hash : string;
  nickname : option string;
  email : option string;
  phone : option string;
  status : Z;
  last_login_at : option datetime;
  last_login_ip : option string;
  created_at : datetime;
  deleted_at : option datetime
}.

#[global] Instance eta_SysUser : Settable SysUser := λ r,
  Mk (id r) (username r) (password_hash r) (nickname r) (email r) (phone r)
     (status r) (last_login_at r) (last_login_ip r) (created_at r)
     (deleted_at r).
End SysUser.

Module SysRole.
Record SysRole := Mk {
  id : Z;
  role_code : string;
  role_name : string;
  description : option string;
  status : Z;
  created_at : datetime
}.

#[global] Instance eta_SysRole : Settable SysRole := λ r,
  Mk (id r) (role_code r) (role_name r) (description r) (status r)
     (created_at r).
End SysRole.

Module SysUserRole.
Record SysUserRole := Mk {
  id : Z;
  user_id : Z;
  role_id : Z;
  created_at : datetime
}.

#[global] Instance eta_SysUserRole : Settable SysUserRole := λ r,
  Mk (id r) (user_id r) (role_id r) (created_at r).
End SysUserRole.

Module SysLoginLog.
Record SysLoginLog := Mk {
  id : Z;
  user_id : option Z;
  username : string;
  login_ip : option string;
  user_agent : option string;
  login_status : string;
  failure_reason : option string;
  request_id : option string;
  created_at : datetime
}.

#[global] Instance eta_SysLoginLog : Settable SysLoginLog := λ r,
  Mk (id r) (user_id r) (username r) (login_ip r) (user_agent r)
     (login_status r) (failure_reason r) (request_id r) (created_at r).
End SysLoginLog.

Module SysPermission.
Record SysPermission := Mk {
  id : Z;
  permission_code : string;
  permission_name : string;
  permission_type : string;
  path : option string;
  method : option string;
  parent_id : option Z;
  status : Z;
  created_at : datetime
}.

#[global] Instance eta_SysPermission : Settable SysPermission := λ r,
  Mk (id r) (permission_code r) (permission_name r) (permission_type r) (path r) (method r)
     (parent_id r) (status r) (created_at r).
End SysPermission.

Module SysRolePermission.
Record SysRolePermission := Mk {
  id : Z;
  role_id : Z;
  permission_id : Z;
  created_at : datetime
}.

#[global] Instance eta_SysRolePermission : Settable SysRolePermission := λ r,
  Mk (id r) (role_id r) (permission_id r) (created_at r).
End SysRolePermission.

Module SysOperationLog.
Record SysOperationLog := Mk {
  id : Z;
  user_id : option Z;
  username : option string;
  module : string;
  operation : string;
  http_method : option string;
  request_path : option string;
  target_type : option string;
  target_id : option Z;
  server_id : option Z;
  request_ip : option string;
  request_id : option string;
  request_params : option (list (string * string));
  result_status : string;
  error_message : option string;
  duration_ms : option Z;
  created_at : datetime
}.

#[global] Instance eta_SysOperationLog : Settable SysOperationLog := λ r,
  Mk (id r) (user_id r) (username r) (module r) (operation r) (http_method r) (request_path r)
     (target_type r) (target_id r) (server_id r) (request_ip r) (request_id r) (request_params r)
     (result_status r) (error_message r) (duration_ms r) (created_at r).
End SysOperationLog.

Abbreviation SysUser := SysUser.SysUser.
Abbreviation SysRole := SysRole.SysRole.
Abbreviation SysUserRole := SysUserRole.SysUserRole.
Abbreviation SysLoginLog := SysLoginLog.SysLoginLog.
Abbreviation SysPermission := SysPermission.SysPermission.
Abbreviation SysRolePermission := SysRolePermission.SysRolePermission.
Abbreviation SysOperationLog := SysOperationLog.SysOperationLog.
