(* ===== verification/Store.v ===== *)
(** * The database

    The tables the program keeps, with the constraints its ORM classes
    declare.  A table is a finite map from primary keys to rows and the next
    auto-increment key; the database is a family of tables, indexed by the
    table name.  The database server itself is not source code: what is taken
    from the source is each table's row type, its unique constraints, its
    foreign keys and its soft-delete column. *)
From S2P Require Import Prelude.
From S2P Require Export Models.

Inductive tname :=
  | TTask | TTarget | TExec | TTaskLog
  | TServer | TToken | THeartbeat | TService | TDisk | TNetwork
  | TMetric | TMetricDaily
  | TRule | TEvent | TEventLog
  | TUser | TRole | TUserRole | TLoginLog
  | TPermission | TRolePermission | TOperationLog.

#[export] Instance tname_eq_dec : EqDecision tname.
Proof. solve_decision. Defined.

Definition row (k : tname) : Type :=
  match k with
  | TTask => OpsTask | TTarget => OpsTaskTarget
  | TExec => OpsTaskExecution | TTaskLog => OpsTaskLog
  | TServer => OpsServer | TToken => OpsAgentToken
  | THeartbeat => OpsAgentHeartbeat | TService => OpsServerService
  | TDisk => OpsServerDisk | TNetwork => OpsServerNetwork
  | TMetric => MonitorServerMetric | TMetricDaily => MonitorServerMetricDaily
  | TRule => AlertRule | TEvent => AlertEvent | TEventLog => AlertEventLog
  | TUser => SysUser | TRole => SysRole | TUserRole => SysUserRole
  | TLoginLog => SysLoginLog
  | TPermission => SysPermission | TRolePermission => SysRolePermission
  | TOperationLog => SysOperationLog
  end.

Record table (A : Type) := Table { rows : gmap Z A; next_id : Z }.
Arguments Table {A} rows next_id.
Arguments rows {A} t.
Arguments next_id {A} t.

Definition db : Type := ∀ k : tname, table (row k).

Definition empty_db : db := λ _, Table ∅ 1.

Definition set_table (k : tname) (t : table (row k)) (d : db) : db := λ k',
  match decide (k = k') with
  | left e => eq_rect k (λ k, table (row k)) t k' e
  | right _ => d k'
  end.

(** Write row [r] under key [i]. *)
Definition put_row (k : tname) (i : Z) (r : row k) (d : db) : db :=
  set_table k (Table (<[i := r]> (rows (d k))) (next_id (d k))) d.

(** Insert row [r] under the next key. *)
Definition add_row (k : tname) (r : row k) (d : db) : db :=
  set_table k (Table (<[next_id (d k) := r]> (rows (d k))) (next_id (d k) + 1)) d.

(** Keep the rows that satisfy [p]. *)
Definition filter_rows (k : tname) (p : Z → row k → bool) (d : db) : db :=
  set_table k
    (Table (filter (λ '(i, r), p i r = true) (rows (d k))) (next_id (d k))) d.

(** A new row as the server stores it: the generated key, and
    [CURRENT_TIMESTAMP] in the column that defaults to it. *)
Definition fresh_row (k : tname) (i : Z) (now : datetime) : row k → row k :=
  match k with
  | TTask => λ r, r <| OpsTask.id := i |> <| OpsTask.created_at := now |>
  | TTarget => λ r, r <| OpsTaskTarget.id := i |> <| OpsTaskTarget.created_at := now |>
  | TExec => λ r, r <| OpsTaskExecution.id := i |> <| OpsTaskExecution.created_at := now |>
  | TTaskLog => λ r, r <| OpsTaskLog.id := i |> <| OpsTaskLog.created_at := now |>
  | TServer => λ r, r <| OpsServer.id := i |> <| OpsServer.created_at := now |>
  | TToken => λ r, r <| OpsAgentToken.id := i |> <| OpsAgentToken.created_at := now |>
  | THeartbeat => λ r, r <| OpsAgentHeartbeat.id := i |> <| OpsAgentHeartbeat.received_at := now |>
  | TService => λ r, r <| OpsServerService.id := i |> <| OpsServerService.created_at := now |>
  | TDisk => λ r, r <| OpsServerDisk.id := i |> <| OpsServerDisk.created_at := now |>
  | TNetwork => λ r, r <| OpsServerNetwork.id := i |> <| OpsServerNetwork.created_at := now |>
  | TMetric => λ r, r <| MonitorServerMetric.id := i |> <| MonitorServerMetric.created_at := now |>
  | TMetricDaily => λ r, r <| MonitorServerMetricDaily.id := i |>
                           <| MonitorServerMetricDaily.created_at := now |>
  | TRule => λ r, r <| AlertRule.id := i |> <| AlertRule.created_at := now |>
  | TEvent => λ r, r <| AlertEvent.id := i |> <| AlertEvent.created_at := now |>
  | TEventLog => λ r, r <| AlertEventLog.id := i |> <| AlertEventLog.created_at := now |>
  | TUser => λ r, r <| SysUser.id := i |> <| SysUser.created_at := now |>
  | TRole => λ r, r <| SysRole.id := i |> <| SysRole.created_at := now |>
  | TUserRole => λ r, r <| SysUserRole.id := i |> <| SysUserRole.created_at := now |>
  | TLoginLog => λ r, r <| SysLoginLog.id := i |> <| SysLoginLog.created_at := now |>
  | TPermission => λ r, r <| SysPermission.id := i |> <| SysPermission.created_at := now |>
  | TRolePermission => λ r, r <| SysRolePermission.id := i |> <| SysRolePermission.created_at := now |>
  | TOperationLog => λ r, r <| SysOperationLog.id := i |> <| SysOperationLog.created_at := now |>
  end.

(** SQL equality on a nullable column: NULL is equal to nothing. *)
Definition sql_eq {A} `{EqDecision A} (a b : option A) : bool :=
  match a, b with
  | Some x, Some y => bool_decide (x = y)
  | _, _ => false
  end.

(** Do two rows violate one of the table's unique constraints? *)
Definition unique_conflict (k : tname) : row k → row k → bool :=
  match k with
  | TTask => λ a b, sql_eq (OpsTask.idempotency_key a) (OpsTask.idempotency_key b)
  | TTarget => λ a b,
      bool_decide (OpsTaskTarget.task_id a = OpsTaskTarget.task_id b)
      && bool_decide (OpsTaskTarget.server_id a = OpsTaskTarget.server_id b)
  | TExec => λ a b,
      bool_decide (OpsTaskExecution.task_id a = OpsTaskExecution.task_id b)
      && bool_decide (OpsTaskExecution.target_id a = OpsTaskExecution.target_id b)
      && bool_decide (OpsTaskExecution.attempt a = OpsTaskExecution.attempt b)
  | TServer => λ a b,
      bool_decide (OpsServer.server_code a = OpsServer.server_code b)
      || (bool_decide (OpsServer.ip_address a = OpsServer.ip_address b)
          && bool_decide (OpsServer.ssh_port a = OpsServer.ssh_port b))
  | TToken => λ a b, bool_decide (OpsAgentToken.token_hash a = OpsAgentToken.token_hash b)
  | TService => λ a b,
      bool_decide (OpsServerService.server_id a = OpsServerService.server_id b)
      && bool_decide (OpsServerService.service_name a = OpsServerService.service_name b)
  | TDisk => λ a b,
      bool_decide (OpsServerDisk.server_id a = OpsServerDisk.server_id b)
      && bool_decide (OpsServerDisk.device_name a = OpsServerDisk.device_name b)
      && sql_eq (OpsServerDisk.mount_point a) (OpsServerDisk.mount_point b)
  | TNetwork => λ a b,
      bool_decide (OpsServerNetwork.server_id a = OpsServerNetwork.server_id b)
      && bool_decide (OpsServerNetwork.interface_name a = OpsServerNetwork.interface_name b)
  | TMetricDaily => λ a b,
      bool_decide (MonitorServerMetricDaily.server_id a = MonitorServerMetricDaily.server_id b)
      && bool_decide (MonitorServerMetricDaily.metric_date a = MonitorServerMetricDaily.metric_date b)
  | TEvent => λ a b,
      bool_decide (AlertEvent.alert_key a = AlertEvent.alert_key b)
      && sql_eq (AlertEvent.is_active a) (AlertEvent.is_active b)
  | TUser => λ a b,
      bool_decide (SysUser.username a = SysUser.username b)
      || sql_eq (SysUser.email a) (SysUser.email b)
  | TRole => λ a b, bool_decide (SysRole.role_code a = SysRole.role_code b)
  | TUserRole => λ a b,
      bool_decide (SysUserRole.user_id a = SysUserRole.user_id b)
      && bool_decide (SysUserRole.role_id a = SysUserRole.role_id b)
  | TPermission => λ a b,
      bool_decide (SysPermission.permission_code a = SysPermission.permission_code b)
  | TRolePermission => λ a b,
      bool_decide (SysRolePermission.role_id a = SysRolePermission.role_id b)
      && bool_decide (SysRolePermission.permission_id a = SysRolePermission.permission_id b)
  | TTaskLog | THeartbeat | TMetric | TRule | TEventLog | TLoginLog | TOperationLog => λ _ _, false
  end.

(** The foreign keys of a row: the tables and keys it refers to. *)
Definition opt_ref (k : tname) (o : option Z) : list (tname * Z) :=
  match o with Some i => [(k, i)] | None => [] end.

Definition refs (k : tname) : row k → list (tname * Z) :=
  match k with
  | TTask => λ r, (TUser, OpsTask.created_by r) :: opt_ref TUser (OpsTask.confirmed_by r)
  | TTarget => λ r, [(TTask, OpsTaskTarget.task_id r); (TServer, OpsTaskTarget.server_id r)]
  | TExec => λ r, [(TTask, OpsTaskExecution.task_id r); (TTarget, OpsTaskExecution.target_id r);
                   (TServer, OpsTaskExecution.server_id r)]
  | TTaskLog => λ r, [(TExec, OpsTaskLog.execution_id r)]
  | TServer => λ r, opt_ref TUser (OpsServer.created_by r)
  | TToken => λ r, [(TServer, OpsAgentToken.server_id r)]
  | THeartbeat => λ r, [(TServer, OpsAgentHeartbeat.server_id r)]
  | TService => λ r, [(TServer, OpsServerService.server_id r)]
  | TDisk => λ r, [(TServer, OpsServerDisk.server_id r)]
  | TNetwork => λ r, [(TServer, OpsServerNetwork.server_id r)]
  | TMetric => λ r, [(TServer, MonitorServerMetric.server_id r)]
  | TMetricDaily => λ r, [(TServer, MonitorServerMetricDaily.server_id r)]
  | TRule => λ r, opt_ref TUser (AlertRule.created_by r)
  | TEvent => λ r, (TRule, AlertEvent.rule_id r) :: opt_ref TServer (AlertEvent.server_id r)
                   ++ opt_ref TUser (AlertEvent.acknowledged_by r)
  | TEventLog => λ r, (TEvent, AlertEventLog.event_id r) :: opt_ref TUser (AlertEventLog.operator_id r)
  | TUserRole => λ r, [(TUser, SysUserRole.user_id r); (TRole, SysUserRole.role_id r)]
  | TLoginLog => λ r, opt_ref TUser (SysLoginLog.user_id r)
  | TPermission => λ r, opt_ref TPermission (SysPermission.parent_id r)
  | TRolePermission => λ r, [(TRole, SysRolePermission.role_id r);
                             (TPermission, SysRolePermission.permission_id r)]
  | TOperationLog => λ r, opt_ref TUser (SysOperationLog.user_id r)
                          ++ opt_ref TServer (SysOperationLog.server_id r)
  | TUser | TRole => λ _, []
  end.

(** Is there a row of table [k] with key [i]? *)
Definition has_row (d : db) (k : tname) (i : Z) : bool :=
  match rows (d k) !! i with Some _ => true | None => false end.

(** Do the row's foreign keys point to existing rows? *)
Definition fk_ok (k : tname) (d : db) (r : row k) : bool :=
  forallb (λ '(k', i), has_row d k' i) (refs k r).

Definition any_row (d : db) (k : tname) (p : row k → bool) : bool :=
  bool_decide (filter (λ '(_, r), p r = true) (rows (d k)) ≠ ∅).

Definition all_tables : list tname :=
  [TTask; TTarget; TExec; TTaskLog; TServer; TToken; THeartbeat; TService; TDisk;
   TNetwork; TMetric; TMetricDaily; TRule; TEvent; TEventLog; TUser; TRole;
   TUserRole; TLoginLog; TPermission; TRolePermission; TOperationLog].

(** Is the row with key [i] the target of a foreign key? *)
Definition referenced (k : tname) (d : db) (i : Z) : bool :=
  existsb (λ k', any_row d k' (λ r,
    existsb (λ '(k2, j), bool_decide (k2 = k) && (j =? i)) (refs k' r))) all_tables.

(** May row [r] be stored under key [i]? *)
Definition admissible (k : tname) (i : Z) (r : row k) (d : db) : bool :=
  fk_ok k d r &&
  bool_decide (filter (λ '(j, r'), j ≠ i ∧ unique_conflict k r r' = true) (rows (d k)) = ∅).

(** Every stored row satisfies the constraints, and the generated keys are new. *)
Definition integrity (d : db) : Prop :=
  (∀ k i r, rows (d k) !! i = Some r → admissible k i r d = true) ∧
  (∀ k i r, rows (d k) !! i = Some r → i < next_id (d k)).

(** [deleted_at IS NULL], for the two tables with a soft-delete column. *)
Definition alive (k : tname) : row k → bool :=
  match k with
  | TServer => λ r, match OpsServer.deleted_at r with None => true | Some _ => false end
  | TUser => λ r, match SysUser.deleted_at r with None => true | Some _ => false end
  | _ => λ _, true
  end.

(** The assignment [instance.deleted_at = now], where the column exists
    ([_has_soft_delete]). *)
Definition set_deleted_at (k : tname) : option (datetime → row k → row k) :=
  match k with
  | TServer => Some (λ now r, r <| OpsServer.deleted_at := Some now |>)
  | TUser => Some (λ now r, r <| SysUser.deleted_at := Some now |>)
  | _ => None
  end.

(** ** Reading back a written table *)

Lemma set_table_eq (k : tname) (t : table (row k)) (d : db) : set_table k t d k = t.
Proof.
  unfold set_table. destruct (decide (k = k)) as [e|]; [|done].
  by rewrite (proof_irrel e eq_refl).
Qed.

Lemma set_table_ne (k k' : tname) (t : table (row k)) (d : db) :
  k ≠ k' → set_table k t d k' = d k'.
Proof. intros Hne. unfold set_table. by destruct (decide (k = k')). Qed.

Lemma rows_put_row (k : tname) (i : Z) (r : row k) (d : db) :
  rows (put_row k i r d k) = <[i := r]> (rows (d k)).
Proof. unfold put_row. by rewrite set_table_eq. Qed.

Lemma rows_add_row (k : tname) (r : row k) (d : db) :
  rows (add_row k r d k) = <[next_id (d k) := r]> (rows (d k)).
Proof. unfold add_row. by rewrite set_table_eq. Qed.

Lemma rows_filter_rows (k : tname) (p : Z → row k → bool) (d : db) :
  rows (filter_rows k p d k) = filter (λ '(i, r), p i r = true) (rows (d k)).
Proof. unfold filter_rows. by rewrite set_table_eq. Qed.

Lemma next_put_row (k : tname) (i : Z) (r : row k) (d : db) :
  next_id (put_row k i r d k) = next_id (d k).
Proof. unfold put_row. by rewrite set_table_eq. Qed.

Lemma next_add_row (k : tname) (r : row k) (d : db) :
  next_id (add_row k r d k) = next_id (d k) + 1.
Proof. unfold add_row. by rewrite set_table_eq. Qed.

Lemma next_filter_rows (k : tname) (p : Z → row k → bool) (d : db) :
  next_id (filter_rows k p d k) = next_id (d k).
Proof. unfold filter_rows. by rewrite set_table_eq. Qed.

Lemma put_row_ne (k k' : tname) (i : Z) (r : row k) (d : db) :
  k ≠ k' → put_row k i r d k' = d k'.
Proof. apply set_table_ne. Qed.

Lemma add_row_ne (k k' : tname) (r : row k) (d : db) :
  k ≠ k' → add_row k r d k' = d k'.
Proof. apply set_table_ne. Qed.

Lemma filter_rows_ne (k k' : tname) (p : Z → row k → bool) (d : db) :
  k ≠ k' → filter_rows k p d k' = d k'.
Proof. apply set_table_ne. Qed.

Lemma table_add_row (k : tname) (r : row k) (d : db) :
  add_row k r d k = Table (<[next_id (d k) := r]> (rows (d k))) (next_id (d k) + 1).
Proof. apply set_table_eq. Qed.

Create Rewrite HintDb store.

#[export] Hint Rewrite rows_put_row rows_add_row rows_filter_rows
  next_put_row next_add_row next_filter_rows : store.
#[export] Hint Rewrite put_row_ne add_row_ne filter_rows_ne
  using discriminate : store.

Lemma has_row_true (d : db) (k : tname) (i : Z) :
  has_row d k i = true ↔ is_Some (rows (d k) !! i).
Proof.
  unfold has_row. destruct (rows (d k) !! i); split; (done || by intros []).
Qed.

Lemma any_row_false (d : db) (k : tname) (p : row k → bool) :
  any_row d k p = false ↔ ∀ i r, rows (d k) !! i = Some r → p r = false.
Proof.
  unfold any_row. rewrite bool_decide_eq_false.
  split; intros H.
  - intros i r Hr. apply not_true_is_false. intros Hp. apply H. intros He.
    rewrite map_empty_filter in He. by apply (He i r).
  - intros Hne. apply Hne, map_empty_filter. intros i r Hr. simpl.
    by rewrite (H i r Hr).
Qed.

(** ** The constraints are an invariant of every write *)

Lemma elem_of_all_tables (k : tname) : k ∈ all_tables.
Proof. apply (bool_decide_unpack _). by destruct k. Qed.

Lemma unique_conflict_sym (k : tname) (a b : row k) :
  unique_conflict k a b = unique_conflict k b a.
Proof.
  assert (∀ A `{EqDecision A} (x y : A), bool_decide (x = y) = bool_decide (y = x)) as HB.
  { intros. by apply bool_decide_ext. }
  assert (∀ A `{EqDecision A} (x y : option A), sql_eq x y = sql_eq y x) as HS.
  { intros A ? [x|] [y|]; simpl; auto. }
  destruct k; simpl; try done; repeat (f_equal; auto).
Qed.

Lemma admissible_spec (k : tname) (i : Z) (r : row k) (d : db) :
  admissible k i r d = true ↔
  (∀ k' j, (k', j) ∈ refs k r → is_Some (rows (d k') !! j)) ∧
  (∀ j r', rows (d k) !! j = Some r' → j ≠ i → unique_conflict k r r' = false).
Proof.
  unfold admissible, fk_ok. rewrite andb_true_iff, forallb_forall, bool_decide_eq_true.
  rewrite map_empty_filter. split; intros [H1 H2]; split.
  - intros k' j Hin%list_elem_of_In. by apply has_row_true, (H1 _ Hin).
  - intros j r' Hr Hj. apply not_true_is_false. intros Hc. by apply (H2 j r' Hr).
  - intros [k' j] Hin%list_elem_of_In. by apply has_row_true, H1.
  - intros j r' Hr [Hj Hc]. by rewrite (H2 j r' Hr Hj) in Hc.
Qed.

Lemma referenced_false (k : tname) (d : db) (i : Z) :
  referenced k d i = false ↔
  ∀ k' j r, rows (d k') !! j = Some r → (k, i) ∉ refs k' r.
Proof.
  unfold referenced. rewrite <- not_true_iff_false, existsb_exists. split.
  - intros Hn k' j r Hr Hin. apply Hn. exists k'. split; [apply list_elem_of_In, elem_of_all_tables|].
    apply not_false_is_true. rewrite any_row_false. intros Hf. specialize (Hf j r Hr).
    rewrite <- not_true_iff_false, existsb_exists in Hf. apply Hf.
    exists (k, i). rewrite <- list_elem_of_In. split; [done|].
    by rewrite bool_decide_true, Z.eqb_refl.
  - intros Hf (k' & _ & Ha). revert Ha. apply not_true_iff_false, any_row_false.
    intros j r Hr. apply not_true_iff_false. rewrite existsb_exists.
    intros ([k2 j2] & Hin%list_elem_of_In & [Hk%bool_decide_eq_true Hj%Z.eqb_eq]%andb_true_iff).
    subst. by apply (Hf k' j r Hr).
Qed.

(** Two tables: the written one, or any other. *)
Ltac table_cases k k' :=
  destruct (decide (k = k')) as [<-|?]; autorewrite with store;
  [|rewrite ?put_row_ne, ?add_row_ne, ?filter_rows_ne by done].

Lemma is_Some_put_row k i r d k' j :
  is_Some (rows (d k') !! j) → is_Some (rows (put_row k i r d k') !! j).
Proof.
  intros Hs. table_cases k k'; [|done].
  destruct (decide (i = j)) as [->|]; by simplify_map_eq.
Qed.

Lemma integrity_put_row k i r0 r d :
  integrity d → rows (d k) !! i = Some r0 → admissible k i r d = true →
  integrity (put_row k i r d).
Proof.
  intros [HA HN] Hr0 [Hf Hu]%admissible_spec. split.
  - intros k' j r' Hr'. apply admissible_spec.
    assert ((∀ k2 j2, (k2, j2) ∈ refs k' r' → is_Some (rows (d k2) !! j2))) as Hrefs.
    { revert Hr'. table_cases k k'.
      - intros [[-> ->]|[? Hr']]%lookup_insert_Some; [done|].
        by apply (proj1 (admissible_spec _ _ _ _) (HA _ _ _ Hr')).
      - intros Hr'. by apply (proj1 (admissible_spec _ _ _ _) (HA _ _ _ Hr')). }
    split; [intros; by apply is_Some_put_row, Hrefs|].
    revert Hr'. table_cases k k'.
    + intros [[-> ->]|[? Hr']]%lookup_insert_Some j2 r2
        [[-> ->]|[? Hr2]]%lookup_insert_Some Hj; try done.
      * by apply (Hu _ _ Hr2).
      * rewrite unique_conflict_sym. by apply (Hu _ _ Hr').
      * by apply (proj2 (proj1 (admissible_spec _ _ _ _) (HA _ _ _ Hr')) _ _ Hr2).
    + intros Hr' j2 r2. apply (proj2 (proj1 (admissible_spec _ _ _ _) (HA _ _ _ Hr'))).
  - intros k' j r'. table_cases k k'; [|apply HN].
    intros [[-> ->]|[? Hr']]%lookup_insert_Some; by eapply HN.
Qed.

Lemma integrity_add_row k r d :
  integrity d → admissible k (next_id (d k)) r d = true → integrity (add_row k r d).
Proof.
  intros [HA HN] [Hf Hu]%admissible_spec.
  assert (∀ k' j, is_Some (rows (d k') !! j) → is_Some (rows (add_row k r d k') !! j)) as HS.
  { intros k' j Hs. table_cases k k'; [|done].
    destruct (decide (next_id (d k) = j)) as [<-|]; by simplify_map_eq. }
  split.
  - intros k' j r' Hr'. apply admissible_spec. split.
    + intros k2 j2 Hin. apply HS. revert Hr'. table_cases k k'.
      * intros [[<- <-]|[? Hr']]%lookup_insert_Some; [by apply Hf|].
        by apply (proj1 (admissible_spec _ _ _ _) (HA _ _ _ Hr')).
      * intros Hr'. by apply (proj1 (admissible_spec _ _ _ _) (HA _ _ _ Hr')).
    + revert Hr'. table_cases k k'.
      * intros [[<- <-]|[? Hr']]%lookup_insert_Some j2 r2
          [[<- <-]|[? Hr2]]%lookup_insert_Some Hj; try done.
        -- by apply (Hu _ _ Hr2).
        -- rewrite unique_conflict_sym. by apply (Hu _ _ Hr').
        -- by apply (proj2 (proj1 (admissible_spec _ _ _ _) (HA _ _ _ Hr')) _ _ Hr2).
      * intros Hr' j2 r2. apply (proj2 (proj1 (admissible_spec _ _ _ _) (HA _ _ _ Hr'))).
  - intros k' j r'. table_cases k k'; [|apply HN].
    intros [[<- <-]|[? Hr']]%lookup_insert_Some; [lia|]. specialize (HN _ _ _ Hr'). lia.
Qed.

Lemma rows_filter_rows_Some k p d k' j r :
  rows (filter_rows k p d k') !! j = Some r → rows (d k') !! j = Some r.
Proof. table_cases k k'; [|done]. by intros [? _]%map_lookup_filter_Some. Qed.

Lemma integrity_filter_rows k p d :
  integrity d →
  (∀ i r, rows (d k) !! i = Some r → p i r = false → referenced k d i = false) →
  integrity (filter_rows k p d).
Proof.
  intros [HA HN] Hp. split.
  - intros k' j r' Hr'%rows_filter_rows_Some.
    destruct (proj1 (admissible_spec _ _ _ _) (HA _ _ _ Hr')) as [Hf Hu].
    apply admissible_spec. split.
    + intros k2 j2 Hin. destruct (Hf _ _ Hin) as [r2 Hr2]. table_cases k k2; [|by eauto].
      exists r2. apply map_lookup_filter_Some. split; [done|].
      apply not_false_is_true. intros Hfalse.
      by apply (proj1 (referenced_false _ _ _) (Hp _ _ Hr2 Hfalse) _ _ _ Hr').
    + intros j2 r2 Hr2%rows_filter_rows_Some. by apply Hu.
  - intros k' j r' Hr'%rows_filter_rows_Some. table_cases k k'; by eapply HN.
Qed.

Lemma integrity_empty : integrity empty_db.
Proof. split; intros k i r; simpl; by rewrite lookup_empty. Qed.

Lemma integrity_refs k i r d k' j :
  integrity d → rows (d k) !! i = Some r → (k', j) ∈ refs k r → is_Some (rows (d k') !! j).
Proof.
  intros [HA _] Hr. exact (proj1 (proj1 (admissible_spec _ _ _ _) (HA k i r Hr)) k' j).
Qed.

Lemma integrity_unique k i j r r' d :
  integrity d → rows (d k) !! i = Some r → rows (d k) !! j = Some r' →
  unique_conflict k r r' = true → i = j.
Proof.
  intros [HA _] Hr Hr' Hc. destruct (decide (i = j)) as [|Hne]; [done|].
  destruct (proj1 (admissible_spec _ _ _ _) (HA _ _ _ Hr)) as [_ Hu].
  rewrite (Hu j r') in Hc; done.
Qed.

Lemma integrity_key k i r d : integrity d → rows (d k) !! i = Some r → i < next_id (d k).
Proof. intros [_ HN]. apply HN. Qed.
Arguments integrity_key k {i r d}.

Lemma same_row (k : tname) (d : db) (i : Z) (r r' : row k) :
  rows (d k) !! i = Some r → rows (d k) !! i = Some r' → r = r'.
Proof. congruence. Qed.
Arguments same_row k {d i r r'}.
