(* ===== verification/Session.v ===== *)
(** * Sessions, effects and the generic repository

    Every service method runs in a SQLAlchemy session: it reads and writes its
    own view of the database, [commit] makes that view durable, and a session
    closed without commit is rolled back.  The monad [M] is this effect: a
    state with the session's view ([work]), the durable database and the
    number of clock readings so far, and a result that is a value or a raised
    exception.

    Objects are references: an ORM object is the primary key of its row, an
    attribute read reads the row in the session's view and an attribute write
    changes it there, so that two references to one row are the same object,
    as in SQLAlchemy's identity map.  Writes are visible to the session's
    later queries at once; the source turns autoflush off, but flushes before
    every query whose condition reads a column it has changed.  Constraint
    violations are raised at the write. *)
From S2P Require Import Prelude.
From S2P Require Export Store.

(** ** Exceptions (backend/app/exceptions) *)

Inductive ErrorCode :=
  | OK
  | BAD_REQUEST | INVALID_TIMESTAMP | TASK_ACTION_INVALID
  | UNAUTHORIZED | INVALID_CREDENTIALS | ACCOUNT_DISABLED | AGENT_UNAUTHORIZED
  | AGENT_SIGNATURE_INVALID | AGENT_REQUEST_REPLAYED | AGENT_SIGNATURE_MISSING
  | AGENT_TIMESTAMP_INVALID
  | FORBIDDEN | SERVICE_NOT_WHITELISTED
  | NOT_FOUND | USER_NOT_FOUND | ROLE_NOT_FOUND | SERVER_NOT_FOUND
  | RULE_NOT_FOUND | ALERT_EVENT_NOT_FOUND | TASK_NOT_FOUND
  | TASK_EXECUTION_NOT_FOUND | SERVER_SERVICE_NOT_FOUND
  | CONFLICT | USERNAME_EXISTS | EMAIL_EXISTS | SERVER_CODE_EXISTS
  | SERVER_IP_EXISTS | RULE_NAME_EXISTS
  | INTERNAL_ERROR.

Definition error_code (c : ErrorCode) : Z :=
  match c with
  | OK => 0
  | BAD_REQUEST => 40000 | INVALID_TIMESTAMP => 40001
  | TASK_ACTION_INVALID => 40002
  | UNAUTHORIZED => 40100 | INVALID_CREDENTIALS => 40101
  | ACCOUNT_DISABLED => 40102 | AGENT_UNAUTHORIZED => 40103
  | AGENT_SIGNATURE_INVALID => 40104 | AGENT_REQUEST_REPLAYED => 40105
  | AGENT_SIGNATURE_MISSING => 40106 | AGENT_TIMESTAMP_INVALID => 40107
  | FORBIDDEN => 40300 | SERVICE_NOT_WHITELISTED => 40301
  | NOT_FOUND => 40400 | USER_NOT_FOUND => 40401 | ROLE_NOT_FOUND => 40402
  | SERVER_NOT_FOUND => 40403 | RULE_NOT_FOUND => 40404
  | ALERT_EVENT_NOT_FOUND => 40405 | TASK_NOT_FOUND => 40406
  | TASK_EXECUTION_NOT_FOUND => 40407 | SERVER_SERVICE_NOT_FOUND => 40408
  | CONFLICT => 40900 | USERNAME_EXISTS => 40901 | EMAIL_EXISTS => 40902
  | SERVER_CODE_EXISTS => 40903 | SERVER_IP_EXISTS => 40904
  | RULE_NAME_EXISTS => 40905
  | INTERNAL_ERROR => 50000
  end.

(** What a handler can raise: a business exception with its code, message and
    HTTP status; the framework's [HTTPException] and [RequestValidationError];
    a constraint violation of the database, a text that is too long for its
    column; an attribute access on a row that
    is gone; Python's [KeyError], [ValueError] and [TypeError]. *)
Inductive exc :=
  | AppException (code : ErrorCode) (message : string) (http_status : Z)
  | HTTPException (status_code : Z)
  | RequestValidationError
  | IntegrityError
  | DataError
  | ObjectDeletedError
  | KeyError
  | ValueError
  | TypeError.

(** [_HTTP_STATUS_TO_CODE.get(status, ErrorCode.BAD_REQUEST)]. *)
Definition http_status_to_code (status : Z) : ErrorCode :=
  if status =? 401 then UNAUTHORIZED
  else if status =? 403 then FORBIDDEN
  else if status =? 404 then NOT_FOUND
  else if status =? 409 then CONFLICT
  else if status =? 500 then INTERNAL_ERROR
  else BAD_REQUEST.

(** [register_exception_handlers]: the HTTP status and the body's [code] of
    the response to a raised exception. *)
Definition error_response (e : exc) : Z * Z :=
  match e with
  | AppException c _ h => (h, error_code c)
  | HTTPException status => (status, error_code (http_status_to_code status))
  | RequestValidationError => (400, error_code BAD_REQUEST)
  | IntegrityError | DataError | ObjectDeletedError | KeyError | ValueError | TypeError =>
    (500, error_code INTERNAL_ERROR)
  end.

Inductive outcome (A : Type) :=
  | Ok (a : A)
  | Raise (e : exc).
Arguments Ok {A} a.
Arguments Raise {A} e.

(** ** The environment

    What the program takes from the outside: the [n]-th reading of the clock,
    the order in which the database returns the rows of an unordered query,
    and the order in which Python iterates over a [set] of integers. *)
Class Env := {
  clock : nat → datetime;
  scan : ∀ {A : Type}, gmap Z A → list (Z * A);
  set_iter : list Z → list Z
}.

Class EnvOk (E : Env) : Prop := {
  scan_perm : ∀ (A : Type) (m : gmap Z A), scan m ≡ₚ map_to_list m;
  set_iter_nodup : ∀ l : list Z, NoDup (set_iter l);
  set_iter_elem : ∀ (l : list Z) (x : Z), x ∈ set_iter l ↔ x ∈ l
}.

(** ** The monad *)

Record session := Session { work : db; durable : db; ticks : nat }.

Definition M (A : Type) : Type := session → outcome A * session.

#[export] Instance M_ret : MRet M := λ A a s, (Ok a, s).

#[export] Instance M_bind : MBind M := λ A B f m s,
  match m s with
  | (Ok a, s') => f a s'
  | (Raise e, s') => (Raise e, s')
  end.

Definition raise {A} (e : exc) : M A := λ s, (Raise e, s).

Definition app_error {A} (c : ErrorCode) (msg : string) (http : Z) : M A :=
  raise (AppException c msg http).

Definition when (b : bool) (m : M unit) : M unit := if b then m else mret ().

(** [for x in l: acc = f(acc, x)]. *)
Fixpoint fold_loop {A B} (f : B → A → M B) (acc : B) (l : list A) : M B :=
  match l with
  | [] => mret acc
  | x :: l' => acc' ← f acc x; fold_loop f acc' l'
  end.

(** [for x in l: f(x)]. *)
Definition for_each {A} (f : A → M unit) (l : list A) : M unit :=
  fold_loop (λ _ x, f x) () l.

(** [[f(x) for x in l]]. *)
Definition map_loop {A B} (f : A → M B) (l : list A) : M (list B) :=
  fold_loop (λ acc x, y ← f x; mret (acc ++ [y])) [] l.

(** [VARCHAR(n)] in strict mode, for the columns that take unchecked text. *)
Definition fits (n : Z) (o : option string) : bool :=
  match o with Some s => py_len s <=? n | None => true end.

Definition checked (ok : bool) : M unit := if ok then mret () else raise DataError.

Definition set_work (d : db) (s : session) : session :=
  Session d (durable s) (ticks s).

Definition tick (s : session) : session :=
  Session (work s) (durable s) (S (ticks s)).

(** [db.commit()]. *)
Definition commit : M unit := λ s,
  (Ok (), Session (work s) (work s) (ticks s)).

Definition get_work : M db := λ s, (Ok (work s), s).

Definition write (d : db) : M unit := λ s, (Ok (), set_work d s).

(** One request or job in a fresh session: what it returns, and the database
    it leaves behind. *)
Definition run {A} (m : M A) (d : db) (n : nat) : outcome A * db * nat :=
  let '(o, s) := m (Session d d n) in (o, durable s, ticks s).

Section Effects.
Context `{E : Env}.

(** [_utcnow()]. *)
Definition utcnow : M datetime := λ s, (Ok (clock (ticks s)), tick s).

(** The keys of the rows of [k] that satisfy [p], in scan order. *)
Definition matching (k : tname) (p : row k → bool) (d : db) : list Z :=
  (filter (λ '(i, r), p r = true) (scan (rows (d k)))).*1.

(** ** [BaseRepository] (backend/app/repositories/base.py) *)

(** Attribute access on the object [i] of table [k]. *)
Definition obj (k : tname) (i : Z) : M (row k) := λ s,
  match rows (work s k) !! i with
  | Some r => (Ok r, s)
  | None => (Raise ObjectDeletedError, s)
  end.

(** Attribute writes on the object [i], flushed. *)
Definition assign (k : tname) (i : Z) (f : row k → row k) : M unit :=
  r ← obj k i;
  d ← get_work;
  if admissible k i (f r) d then write (put_row k i (f r) d)
  else raise IntegrityError.

(** [_apply_soft_delete] and [_build_conditions] on a query: the keys of the
    live rows that satisfy [p]. *)
Definition select_where (k : tname) (p : row k → bool) : M (list Z) :=
  d ← get_work; mret (matching k (λ r, alive k r && p r) d).

(** [get]. *)
Definition get (k : tname) (i : Z) : M (option Z) :=
  d ← get_work;
  mret (match rows (d k) !! i with
        | Some r => if alive k r then Some i else None
        | None => None
        end).

(** [get_by]: the first match. *)
Definition get_by (k : tname) (p : row k → bool) : M (option Z) :=
  l ← select_where k p; mret (head l).

(** [list_all]. *)
Definition list_all (k : tname) (p : row k → bool) : M (list Z) := select_where k p.

(** [count]. *)
Definition count (k : tname) (p : row k → bool) : M Z :=
  l ← select_where k p; mret (Z.of_nat (length l)).

(** [ORDER BY]: a stable sort of the keys by a comparison of their rows. *)
Definition order_by (k : tname) (le : row k → row k → bool) (l : list Z) : M (list Z) :=
  d ← get_work;
  let key_le (i j : Z) : bool :=
    match rows (d k) !! i, rows (d k) !! j with
    | Some x, Some y => le x y
    | _, _ => true
    end in
  mret (sort_by key_le l).

(** [OFFSET (page - 1) * page_size LIMIT page_size]. *)
Definition paginate (page page_size : Z) (l : list Z) : list Z :=
  take (Z.to_nat page_size) (drop (Z.to_nat ((page - 1) * page_size)) l).

(** [list]: the total number of matches and one page of them. *)
Definition list_page (k : tname) (page page_size : Z) (le : row k → row k → bool)
    (p : row k → bool) : M (Z * list Z) :=
  l ← select_where k p;
  sorted ← order_by k le l;
  mret (Z.of_nat (length l), paginate page page_size sorted).

(** [create]: insert and flush; the key is generated. *)
Definition create (k : tname) (r : row k) : M Z :=
  now ← utcnow;
  d ← get_work;
  let i := next_id (d k) in
  let r' := fresh_row k i now r in
  if admissible k i r' d then write (add_row k r' d);; mret i
  else raise IntegrityError.

(** [create_many]. *)
Definition create_many (k : tname) (l : list (row k)) : M (list Z) :=
  map_loop (create k) l.

(** [update]: the keyword arguments are the function [f]. *)
Definition update (k : tname) (i : Z) (f : row k → row k) : M unit := assign k i f.

(** [delete]. *)
Definition delete_row (k : tname) (i : Z) : M unit :=
  _ ← obj k i;
  d ← get_work;
  if referenced k d i then raise IntegrityError
  else write (filter_rows k (λ j _, negb (j =? i)) d).

(** [delete(Model).where(p)]: the number of rows removed. *)
Definition delete_where (k : tname) (p : row k → bool) : M Z :=
  d ← get_work;
  let doomed := matching k p d in
  if existsb (referenced k d) doomed then raise IntegrityError
  else write (filter_rows k (λ _ r, negb (p r)) d);; mret (Z.of_nat (length doomed)).

(** [delete(Model).where(Model.id.in_(ids))]. *)
Definition delete_ids (k : tname) (ids : list Z) : M Z :=
  d ← get_work;
  let doomed := filter (λ i, has_row d k i = true) (remove_dups ids) in
  if existsb (referenced k d) doomed then raise IntegrityError
  else write (filter_rows k (λ i _, negb (bool_decide (i ∈ ids))) d);;
       mret (Z.of_nat (length doomed)).

(** [soft_delete]: only for the tables with a [deleted_at] column. *)
Definition soft_delete (k : tname) (i : Z) : M unit :=
  match set_deleted_at k with
  | Some f => now ← utcnow; assign k i (f now)
  | None => raise ValueError
  end.

End Effects.
