(* ===== verification/Wp.v ===== *)
(** * Reasoning about sessions

    [wp m Q E s]: run from session [s], [m] either returns a value and a
    session that satisfy [Q], or raises an exception with a session that
    satisfies [E].  One rule per primitive; [wp_step] applies the rule of the
    command at the head.  [NoCommit] and [Atomic] are the transaction
    disciplines, inferred by type class search. *)
From S2P Require Import Prelude.
From S2P Require Export Session.

Definition wp {A} (m : M A) (Q : A → session → Prop) (E : exc → session → Prop)
    (s : session) : Prop :=
  match m s with
  | (Ok a, s') => Q a s'
  | (Raise e, s') => E e s'
  end.

(** Exceptions allowed, and exceptions excluded. *)
Definition any_exc (e : exc) (s : session) : Prop := True.
Definition no_exc (e : exc) (s : session) : Prop := False.

(** The computation only reads or writes the session's view. *)
Class NoCommit {A} (m : M A) : Prop := no_commit : ∀ s, durable (m s).2 = durable s.

(** An exception leaves the durable database as it was. *)
Class Atomic {A} (m : M A) : Prop :=
  atomic : ∀ s e s', m s = (Raise e, s') → durable s' = durable s.

Lemma wp_mono {A} (m : M A) (Q Q' : A → session → Prop) (E E' : exc → session → Prop) s :
  wp m Q E s → (∀ a s', Q a s' → Q' a s') → (∀ e s', E e s' → E' e s') → wp m Q' E' s.
Proof. unfold wp. destruct (m s) as [[a|e] s']; auto. Qed.

Lemma wp_ret {A} (a : A) (Q : A → session → Prop) E s : Q a s → wp (mret a) Q E s.
Proof. done. Qed.

Lemma wp_raise {A} e (Q : A → session → Prop) (E : exc → session → Prop) s :
  E e s → wp (raise e) Q E s.
Proof. done. Qed.

Lemma wp_app_error {A} c msg h (Q : A → session → Prop) (E : exc → session → Prop) s :
  E (AppException c msg h) s → wp (app_error c msg h) Q E s.
Proof. done. Qed.

Lemma wp_bind {A B} (m : M A) (f : A → M B) (Q : B → session → Prop) E s :
  wp m (λ a s', wp (f a) Q E s') E s → wp (m ≫= f) Q E s.
Proof. unfold wp, mbind, M_bind. by destruct (m s) as [[a|e] s']. Qed.

Lemma wp_commit (Q : () → session → Prop) E s :
  Q () (Session (work s) (work s) (ticks s)) → wp commit Q E s.
Proof. done. Qed.

Lemma wp_get_work (Q : db → session → Prop) E s : Q (work s) s → wp get_work Q E s.
Proof. done. Qed.

Lemma wp_write d (Q : () → session → Prop) E s :
  Q () (set_work d s) → wp (write d) Q E s.
Proof. done. Qed.

(** Loops: [I rest acc s] holds when [rest] is still to be visited. *)
Lemma wp_fold_loop {A B} (I : list A → B → session → Prop) (f : B → A → M B) l acc
    (Q : B → session → Prop) E s :
  I l acc s →
  (∀ x l' acc s, I (x :: l') acc s → wp (f acc x) (λ acc' s', I l' acc' s') E s) →
  (∀ acc s, I [] acc s → Q acc s) →
  wp (fold_loop f acc l) Q E s.
Proof.
  intros HI Hstep Hdone. revert acc s HI.
  induction l as [|x l IH]; intros acc s HI; simpl; [by apply wp_ret, Hdone|].
  apply wp_bind. eapply wp_mono; [by apply Hstep| |done]. intros acc' s'. apply IH.
Qed.

Section EffectRules.
Context `{Env}.

Lemma wp_utcnow (Q : Z → session → Prop) E s :
  Q (clock (ticks s)) (tick s) → wp utcnow Q E s.
Proof. done. Qed.

Lemma wp_obj k i (Q : row k → session → Prop) E s :
  (∀ r, rows (work s k) !! i = Some r → Q r s) →
  (rows (work s k) !! i = None → E ObjectDeletedError s) →
  wp (obj k i) Q E s.
Proof. intros HQ HE. unfold wp, obj. destruct (rows (work s k) !! i) eqn:Hr; auto. Qed.

Lemma wp_obj_ok k i r (Q : row k → session → Prop) E s :
  rows (work s k) !! i = Some r → Q r s → wp (obj k i) Q E s.
Proof. intros Hr HQ. unfold wp, obj. by rewrite Hr. Qed.

Lemma wp_assign k i f (Q : () → session → Prop) E s :
  (∀ r, rows (work s k) !! i = Some r → admissible k i (f r) (work s) = true →
        Q () (set_work (put_row k i (f r) (work s)) s)) →
  (rows (work s k) !! i = None → E ObjectDeletedError s) →
  (∀ r, rows (work s k) !! i = Some r → admissible k i (f r) (work s) = false →
        E IntegrityError s) →
  wp (assign k i f) Q E s.
Proof.
  intros HQ HE HI. unfold assign. apply wp_bind, wp_obj; [|done].
  intros r Hr. apply wp_bind, wp_get_work.
  destruct (admissible k i (f r) (work s)) eqn:Ha; [by apply wp_write, HQ|].
  by apply wp_raise, (HI r).
Qed.

Lemma wp_create k r (Q : Z → session → Prop) E s :
  (let i := next_id (work s k) in
   let r' := fresh_row k i (clock (ticks s)) r in
   (admissible k i r' (work s) = true → Q i (set_work (add_row k r' (work s)) (tick s))) ∧
   (admissible k i r' (work s) = false → E IntegrityError (tick s))) →
  wp (create k r) Q E s.
Proof.
  intros [HQ HE]. unfold create. apply wp_bind, wp_utcnow, wp_bind, wp_get_work. simpl.
  destruct (admissible _ _ _ _); [|by apply wp_raise, HE].
  by apply wp_bind, wp_write, wp_ret, HQ.
Qed.

Lemma wp_select_where k p (Q : list Z → session → Prop) E s :
  Q (matching k (λ r, alive k r && p r) (work s)) s → wp (select_where k p) Q E s.
Proof. done. Qed.

Lemma wp_get k i (Q : option Z → session → Prop) E s :
  (∀ r, rows (work s k) !! i = Some r → alive k r = true → Q (Some i) s) →
  ((∀ r, rows (work s k) !! i = Some r → alive k r = false) → Q None s) →
  wp (get k i) Q E s.
Proof.
  intros HS HN. unfold get. apply wp_bind, wp_get_work, wp_ret.
  destruct (rows (work s k) !! i) as [r|] eqn:Hr; [|by apply HN; intros ? [=]].
  destruct (alive k r) eqn:Ha; [by apply (HS r)|]. apply HN. by intros ? [= <-].
Qed.

Lemma wp_delete_where k p (Q : Z → session → Prop) E s :
  (let doomed := matching k p (work s) in
   (existsb (referenced k (work s)) doomed = false →
    Q (Z.of_nat (length doomed)) (set_work (filter_rows k (λ _ r, negb (p r)) (work s)) s)) ∧
   (existsb (referenced k (work s)) doomed = true → E IntegrityError s)) →
  wp (delete_where k p) Q E s.
Proof.
  intros [HQ HE]. unfold delete_where. apply wp_bind, wp_get_work. simpl.
  destruct (existsb _ _); [by apply wp_raise, HE|].
  by apply wp_bind, wp_write, wp_ret, HQ.
Qed.

Lemma wp_delete_ids k ids (Q : Z → session → Prop) E s :
  (let doomed := filter (λ i, has_row (work s) k i = true) (remove_dups ids) in
   (existsb (referenced k (work s)) doomed = false →
    Q (Z.of_nat (length doomed))
      (set_work (filter_rows k (λ i _, negb (bool_decide (i ∈ ids))) (work s)) s)) ∧
   (existsb (referenced k (work s)) doomed = true → E IntegrityError s)) →
  wp (delete_ids k ids) Q E s.
Proof.
  intros [HQ HE]. unfold delete_ids. apply wp_bind, wp_get_work. simpl.
  destruct (existsb _ _); [by apply wp_raise, HE|].
  by apply wp_bind, wp_write, wp_ret, HQ.
Qed.

(** ** What the queries return *)

Context `{!EnvOk _}.

Lemma elem_of_matching k p d i :
  i ∈ matching k p d ↔ ∃ r, rows (d k) !! i = Some r ∧ p r = true.
Proof.
  unfold matching. rewrite list_elem_of_fmap. split.
  - intros ([j r] & -> & [Hp Hin]%list_elem_of_filter). exists r. split; [|done].
    rewrite (scan_perm _ _) in Hin. by apply elem_of_map_to_list in Hin.
  - intros (r & Hr & Hp). exists (i, r). split; [done|].
    apply list_elem_of_filter. split; [done|].
    rewrite (scan_perm _ _). by apply elem_of_map_to_list.
Qed.

Lemma matching_nodup k p d : NoDup (matching k p d).
Proof.
  unfold matching. rewrite (scan_perm _ _).
  apply NoDup_fmap_fst.
  - intros i r r' [_ H1%elem_of_map_to_list]%list_elem_of_filter
      [_ H2%elem_of_map_to_list]%list_elem_of_filter. congruence.
  - apply NoDup_filter, NoDup_map_to_list.
Qed.
End EffectRules.

(** ** Transaction disciplines *)

#[export] Instance no_commit_ret {A} (a : A) : NoCommit (mret a : M A).
Proof. by intros s. Qed.

#[export] Instance no_commit_raise {A} e : NoCommit (raise e : M A).
Proof. by intros s. Qed.

#[export] Instance no_commit_app_error {A} c msg h : NoCommit (app_error c msg h : M A).
Proof. by intros s. Qed.

#[export] Instance no_commit_bind {A B} (m : M A) (f : A → M B) :
  NoCommit m → (∀ a, NoCommit (f a)) → NoCommit (m ≫= f).
Proof.
  intros Hm Hf s. unfold mbind, M_bind. specialize (Hm s).
  destruct (m s) as [[a|e] s']; simpl in *; [|done]. by rewrite (Hf a s').
Qed.

#[export] Instance no_commit_fold_loop {A B} (f : B → A → M B) acc l :
  (∀ b a, NoCommit (f b a)) → NoCommit (fold_loop f acc l).
Proof.
  intros Hf. revert acc. induction l as [|x l IH]; intros acc; simpl; apply _.
Qed.

#[export] Instance no_commit_for_each {A} (f : A → M unit) l :
  (∀ a, NoCommit (f a)) → NoCommit (for_each f l).
Proof. intros Hf. unfold for_each. apply _. Qed.

#[export] Instance no_commit_map_loop {A B} (f : A → M B) l :
  (∀ a, NoCommit (f a)) → NoCommit (map_loop f l).
Proof. intros Hf. unfold map_loop. apply _. Qed.

#[export] Instance no_commit_if {A} (b : bool) (m1 m2 : M A) :
  NoCommit m1 → NoCommit m2 → NoCommit (if b then m1 else m2).
Proof. by destruct b. Qed.

#[export] Instance no_commit_when (b : bool) (m : M unit) :
  NoCommit m → NoCommit (when b m).
Proof. intros. unfold when. apply _. Qed.

#[export] Instance no_commit_get_work : NoCommit get_work.
Proof. by intros s. Qed.

#[export] Instance no_commit_write d : NoCommit (write d).
Proof. by intros s. Qed.

#[export] Hint Extern 2 (NoCommit (match ?x with _ => _ end)) =>
  destruct x : typeclass_instances.

#[export] Instance atomic_no_commit {A} (m : M A) : NoCommit m → Atomic m | 10.
Proof. intros Hm s e s' Hs. specialize (Hm s). by rewrite Hs in Hm. Qed.

#[export] Instance atomic_commit : Atomic commit.
Proof. by intros s e s'. Qed.

(** A committed transaction only returns afterwards. *)
#[export] Instance atomic_commit_ret {A} (a : A) : Atomic (commit ;; mret a).
Proof. by intros s e s'. Qed.

#[export] Instance atomic_bind {A B} (m : M A) (f : A → M B) :
  NoCommit m → (∀ a, Atomic (f a)) → Atomic (m ≫= f).
Proof.
  intros Hm Hf s e s'. unfold mbind, M_bind. specialize (Hm s).
  destruct (m s) as [[a|e'] s1]; simpl in *.
  - intros Hs. by rewrite (Hf a s1 e s' Hs).
  - by intros [= -> <-].
Qed.

#[export] Instance atomic_if {A} (b : bool) (m1 m2 : M A) :
  Atomic m1 → Atomic m2 → Atomic (if b then m1 else m2).
Proof. by destruct b. Qed.

#[export] Hint Extern 2 (Atomic (match ?x with _ => _ end)) =>
  destruct x : typeclass_instances.

Lemma run_atomic {A} (m : M A) (d d' : db) (n n' : nat) e :
  Atomic m → run m d n = (Raise e, d', n') → d' = d.
Proof.
  intros Hm. unfold run. destruct (m _) as [o s'] eqn:Hs. intros [= -> <- <-].
  by rewrite (Hm _ _ _ Hs).
Qed.

Lemma run_no_commit {A} (m : M A) (d d' : db) (n n' : nat) o :
  NoCommit m → run m d n = (o, d', n') → d' = d.
Proof.
  intros Hm. unfold run. specialize (Hm (Session d d n)).
  destruct (m _) as [o' s']. by intros [= -> <- <-].
Qed.

(** From a triple to the result of a request. *)
Lemma run_total {A} (m : M A) (Q : A → session → Prop) d n :
  wp m Q no_exc (Session d d n) →
  ∃ a s', run m d n = (Ok a, durable s', ticks s') ∧ Q a s'.
Proof.
  unfold wp, run. destruct (m _) as [[a|e] s']; [|done]. intros HQ. by exists a, s'.
Qed.

(** A request that is refused before it changes anything. *)
Lemma run_refused {A} (m : M A) d n e :
  wp m (λ _ _, False) (λ e' s', e' = e ∧ s' = Session d d n) (Session d d n) →
  run m d n = (Raise e, d, n).
Proof. unfold wp, run. destruct (m _) as [[a|e'] s']; [done|]. by intros [-> ->]. Qed.

Lemma run_ok {A} (m : M A) (Q : A → session → Prop) d n a d' n' :
  wp m Q any_exc (Session d d n) → run m d n = (Ok a, d', n') →
  ∃ s', durable s' = d' ∧ ticks s' = n' ∧ Q a s'.
Proof.
  unfold wp, run. destruct (m _) as [[a'|e] s']; intros HQ [=]. subst. by exists s'.
Qed.

Section Primitives.
Context `{Env}.

#[export] Instance no_commit_utcnow : NoCommit utcnow.
Proof. by intros s. Qed.

#[export] Instance no_commit_obj k i : NoCommit (obj k i).
Proof. intros s. unfold obj. by destruct (rows _ !! i). Qed.

#[export] Instance no_commit_assign k i f : NoCommit (assign k i f).
Proof. unfold assign. apply _. Qed.

#[export] Instance no_commit_select_where k p : NoCommit (select_where k p).
Proof. unfold select_where. apply _. Qed.

#[export] Instance no_commit_get k i : NoCommit (get k i).
Proof. unfold get. apply _. Qed.

#[export] Instance no_commit_get_by k p : NoCommit (get_by k p).
Proof. unfold get_by. apply _. Qed.

#[export] Instance no_commit_list_all k p : NoCommit (list_all k p).
Proof. unfold list_all. apply _. Qed.

#[export] Instance no_commit_count k p : NoCommit (count k p).
Proof. unfold count. apply _. Qed.

#[export] Instance no_commit_order_by k le l : NoCommit (order_by k le l).
Proof. unfold order_by. apply _. Qed.

#[export] Instance no_commit_list_page k pg sz le p : NoCommit (list_page k pg sz le p).
Proof. unfold list_page. apply _. Qed.

#[export] Instance no_commit_create k r : NoCommit (create k r).
Proof. unfold create. apply _. Qed.

#[export] Instance no_commit_create_many k l : NoCommit (create_many k l).
Proof. unfold create_many. apply _. Qed.

#[export] Instance no_commit_update k i f : NoCommit (update k i f).
Proof. unfold update. apply _. Qed.

#[export] Instance no_commit_delete_row k i : NoCommit (delete_row k i).
Proof. unfold delete_row. apply _. Qed.

#[export] Instance no_commit_delete_where k p : NoCommit (delete_where k p).
Proof. unfold delete_where. apply _. Qed.

#[export] Instance no_commit_delete_ids k ids : NoCommit (delete_ids k ids).
Proof. unfold delete_ids. apply _. Qed.

#[export] Instance no_commit_soft_delete k i : NoCommit (soft_delete k i).
Proof. unfold soft_delete. apply _. Qed.
End Primitives.

(** [row k] and the record it stands for are only convertible. *)
#[export] Hint Extern 1 (NoCommit (obj ?k ?i)) => exact (no_commit_obj k i) : typeclass_instances.

(** ** Invariants of the database

    [Preserves I m]: if both views of a session satisfy [I] they do so after
    [m], however [m] ends.  Structure and reads are handled once and for all;
    what a write needs depends on [I]. *)
Definition both (I : db → Prop) (s : session) : Prop := I (work s) ∧ I (durable s).

Class Preserves (I : db → Prop) {A} (m : M A) : Prop := preserves : ∀ s, both I s → both I (m s).2.

Section Preserving.
Context (I : db → Prop).

#[export] Instance preserves_ret {A} (a : A) : Preserves I (mret a : M A).
Proof. by intros s. Qed.

#[export] Instance preserves_raise {A} e : Preserves I (raise e : M A).
Proof. by intros s. Qed.

#[export] Instance preserves_app_error {A} c msg h : Preserves I (app_error c msg h : M A).
Proof. by intros s. Qed.

#[export] Instance preserves_bind {A B} (m : M A) (f : A → M B) :
  Preserves I m → (∀ a, Preserves I (f a)) → Preserves I (m ≫= f).
Proof.
  intros Hm Hf s Hs. unfold mbind, M_bind. specialize (Hm s Hs).
  destruct (m s) as [[a|e] s']; simpl in *; [by apply Hf|done].
Qed.

#[export] Instance preserves_fold_loop {A B} (f : B → A → M B) acc l :
  (∀ b a, Preserves I (f b a)) → Preserves I (fold_loop f acc l).
Proof. intros Hf. revert acc. induction l as [|x l IH]; intros acc; simpl; apply _. Qed.

#[export] Instance preserves_for_each {A} (f : A → M unit) l :
  (∀ a, Preserves I (f a)) → Preserves I (for_each f l).
Proof. intros Hf. unfold for_each. apply _. Qed.

(** A loop over elements of which something is known. *)
Lemma preserves_fold_loop_in {A B} (f : B → A → M B) acc l :
  (∀ b a, a ∈ l → Preserves I (f b a)) → Preserves I (fold_loop f acc l).
Proof.
  revert acc. induction l as [|a l IH]; intros acc Hf; simpl; [apply _|].
  apply preserves_bind; [apply Hf; list_in|]. intros acc'. apply IH. intros b x Hx. apply Hf. list_in.
Qed.

Lemma preserves_for_each_in {A} (f : A → M unit) l :
  (∀ a, a ∈ l → Preserves I (f a)) → Preserves I (for_each f l).
Proof. intros Hf. apply preserves_fold_loop_in. intros _ a. apply Hf. Qed.

#[export] Instance preserves_map_loop {A B} (f : A → M B) l :
  (∀ a, Preserves I (f a)) → Preserves I (map_loop f l).
Proof. intros Hf. unfold map_loop. apply _. Qed.

#[export] Instance preserves_if {A} (b : bool) (m1 m2 : M A) :
  Preserves I m1 → Preserves I m2 → Preserves I (if b then m1 else m2).
Proof. by destruct b. Qed.

#[export] Instance preserves_when (b : bool) (m : M unit) : Preserves I m → Preserves I (when b m).
Proof. intros. unfold when. apply _. Qed.

#[export] Instance preserves_commit : Preserves I commit.
Proof. by intros s [Hw _]. Qed.

#[export] Instance preserves_get_work : Preserves I get_work.
Proof. by intros s. Qed.

Context `{Env}.

#[export] Instance preserves_utcnow : Preserves I utcnow.
Proof. by intros s. Qed.

#[export] Instance preserves_obj k i : Preserves I (obj k i).
Proof. intros s Hs. unfold obj. by destruct (rows _ !! i). Qed.

#[export] Instance preserves_select_where k p : Preserves I (select_where k p).
Proof. unfold select_where. apply _. Qed.

#[export] Instance preserves_get k i : Preserves I (get k i).
Proof. unfold get. apply _. Qed.

#[export] Instance preserves_get_by k p : Preserves I (get_by k p).
Proof. unfold get_by. apply _. Qed.

#[export] Instance preserves_list_all k p : Preserves I (list_all k p).
Proof. unfold list_all. apply _. Qed.

#[export] Instance preserves_count k p : Preserves I (count k p).
Proof. unfold count. apply _. Qed.

#[export] Instance preserves_order_by k le l : Preserves I (order_by k le l).
Proof. unfold order_by. apply _. Qed.

#[export] Instance preserves_list_page k pg sz le p : Preserves I (list_page k pg sz le p).
Proof. unfold list_page. apply _. Qed.

(** A bind whose second part relies on what the first one returns. *)
Lemma preserves_bind_post {A B} (R : A → Prop) (m : M A) (f : A → M B) :
  (∀ s, both I s → wp m (λ a s', R a ∧ both I s') (λ _ s', both I s') s) →
  (∀ a, R a → Preserves I (f a)) → Preserves I (m ≫= f).
Proof.
  intros Hm Hf s Hs. unfold mbind, M_bind. specialize (Hm s Hs). unfold wp in Hm.
  destruct (m s) as [[a|e] s']; simpl in *; [destruct Hm as [HR Hs']; by apply (Hf a)|done].
Qed.

(** The writes. *)
Lemma preserves_assign k i f :
  (∀ d r, I d → rows (d k) !! i = Some r → admissible k i (f r) d = true → I (put_row k i (f r) d)) →
  Preserves I (assign k i f).
Proof.
  intros HP s [Hw Hd]. unfold assign, obj, get_work, write, raise, mbind, M_bind.
  destruct (rows (work s k) !! i) as [r|] eqn:Hr; [|done].
  destruct (admissible k i (f r) (work s)) eqn:Ha; [|done]. split; [by apply HP|done].
Qed.

Lemma preserves_create k r :
  (∀ d now, I d → let r' := fresh_row k (next_id (d k)) now r in
     admissible k (next_id (d k)) r' d = true → I (add_row k r' d)) →
  Preserves I (create k r).
Proof.
  intros HP s [Hw Hd]. unfold create, utcnow, get_work, write, raise, mret, M_ret, mbind, M_bind.
  simpl. destruct (admissible k _ _ (work s)) eqn:Ha; [|done]. split; [by apply HP|done].
Qed.

Lemma preserves_delete_row k i :
  (∀ d, I d → referenced k d i = false → I (filter_rows k (λ j _, negb (j =? i)) d)) →
  Preserves I (delete_row k i).
Proof.
  intros HP s [Hw Hd]. unfold delete_row, obj, get_work, write, raise, mbind, M_bind.
  destruct (rows (work s k) !! i); [|done].
  destruct (referenced k (work s) i) eqn:Hr; [done|]. split; [by apply HP|done].
Qed.

Lemma preserves_delete_ids k ids :
  (∀ d, I d → existsb (referenced k d) (filter (λ i, has_row d k i = true) (remove_dups ids)) = false →
     I (filter_rows k (λ i _, negb (bool_decide (i ∈ ids))) d)) →
  Preserves I (delete_ids k ids).
Proof.
  intros HP s [Hw Hd]. unfold delete_ids, get_work, write, raise, mret, M_ret, mbind, M_bind.
  destruct (existsb _ _) eqn:He; [done|]. split; [by apply HP|done].
Qed.

Lemma preserves_delete_where k p :
  (∀ d, I d → existsb (referenced k d) (matching k p d) = false → I (filter_rows k (λ _ r, negb (p r)) d)) →
  Preserves I (delete_where k p).
Proof.
  intros HP s [Hw Hd]. unfold delete_where, get_work, write, raise, mret, M_ret, mbind, M_bind.
  destruct (existsb _ _) eqn:He; [done|]. split; [by apply HP|done].
Qed.

Lemma preserves_soft_delete k i :
  (∀ f, Preserves I (assign k i f)) → Preserves I (soft_delete k i).
Proof. intros Ha. unfold soft_delete. destruct (set_deleted_at k); apply _. Qed.

(** The database after a run. *)
Lemma run_preserves {A} (m : M A) d n : Preserves I m → I d → I (run m d n).1.2.
Proof.
  intros Hm HI. destruct (Hm (Session d d n)) as [_ H1]; [done|].
  unfold run. by destruct (m _) as [o s'].
Qed.
End Preserving.

#[export] Hint Extern 1 (Preserves _ (obj ?k ?i)) => exact (preserves_obj _ k i) : typeclass_instances.
#[export] Hint Extern 2 (Preserves _ (match ?x with _ => _ end)) => destruct x : typeclass_instances.

(** No computation leaves a view that violates a constraint of the schema. *)
Abbreviation sane := (both integrity).
Abbreviation Sound := (Preserves integrity).

Section SoundPrimitives.
Context `{Env}.

#[export] Instance sound_assign k i f : Sound (assign k i f).
Proof. apply preserves_assign. intros. by eapply integrity_put_row. Qed.

#[export] Instance sound_create k r : Sound (create k r).
Proof. apply preserves_create. intros. by apply integrity_add_row. Qed.

#[export] Instance sound_create_many k l : Sound (create_many k l).
Proof. unfold create_many. apply _. Qed.

#[export] Instance sound_update k i f : Sound (update k i f).
Proof. unfold update. apply _. Qed.

#[export] Instance sound_delete_row k i : Sound (delete_row k i).
Proof.
  apply preserves_delete_row. intros d HI Hr. apply integrity_filter_rows; [done|].
  intros j r0 _ Hj. apply negb_false_iff, Z.eqb_eq in Hj. by subst.
Qed.

(** No row that a bulk delete removes is referenced. *)
Lemma existsb_referenced k d ids i : existsb (referenced k d) ids = false → i ∈ ids → referenced k d i = false.
Proof.
  intros He Hi. apply not_true_is_false. intros Ht. apply not_true_iff_false in He. apply He.
  apply existsb_exists. exists i. split; [by apply list_elem_of_In|done].
Qed.

#[export] Instance sound_delete_ids k ids : Sound (delete_ids k ids).
Proof.
  apply preserves_delete_ids. intros d HI He. apply integrity_filter_rows; [done|]. intros i r Hr Hi.
  apply negb_false_iff, bool_decide_eq_true in Hi. apply (existsb_referenced _ _ _ _ He), list_elem_of_filter.
  split; [by apply has_row_true|]. by apply elem_of_remove_dups.
Qed.

#[export] Instance sound_soft_delete k i : Sound (soft_delete k i).
Proof. apply preserves_soft_delete, _. Qed.

#[export] Instance sound_delete_where `{!EnvOk _} k p : Sound (delete_where k p).
Proof.
  apply preserves_delete_where. intros d HI He. apply integrity_filter_rows; [done|]. intros i r Hr Hi%negb_false_iff.
  apply (existsb_referenced _ _ _ _ He), elem_of_matching. by exists r.
Qed.

(** An assignment that keeps the constrained columns cannot fail. *)
Definition same_keys (k : tname) (r r' : row k) : Prop :=
  refs k r' = refs k r ∧ ∀ r2, unique_conflict k r' r2 = unique_conflict k r r2.

Lemma admissible_same_keys k i r r' d :
  integrity d → rows (d k) !! i = Some r → same_keys k r r' → admissible k i r' d = true.
Proof.
  intros [HA _] Hr [Hrefs Hu]. apply admissible_spec.
  rewrite Hrefs. setoid_rewrite Hu. by apply admissible_spec, HA.
Qed.

Lemma wp_assign_ok k i r f (Q : () → session → Prop) E s :
  integrity (work s) → rows (work s k) !! i = Some r → same_keys k r (f r) →
  (integrity (put_row k i (f r) (work s)) →
   Q () (set_work (put_row k i (f r) (work s)) s)) →
  wp (assign k i f) Q E s.
Proof.
  intros HI Hr Hk HQ. pose proof (admissible_same_keys _ _ _ _ _ HI Hr Hk) as Ha.
  apply wp_assign.
  - intros r' Hr' _. assert (r' = r) as -> by congruence.
    by eapply HQ, integrity_put_row.
  - intros Hn. congruence.
  - intros r' Hr' Hn. assert (r' = r) as -> by congruence. congruence.
Qed.
(** An insertion whose row satisfies the constraints. *)
Lemma wp_create_ok k r (Q : Z → session → Prop) E s :
  let i := next_id (work s k) in
  let r' := fresh_row k i (clock (ticks s)) r in
  integrity (work s) → admissible k i r' (work s) = true →
  (integrity (add_row k r' (work s)) → Q i (set_work (add_row k r' (work s)) (tick s))) →
  wp (create k r) Q E s.
Proof.
  intros i r' HI Ha HQ. apply wp_create. split.
  2: { intros Hf. change (admissible k i r' (work s) = false) in Hf. congruence. }
  intros _. by apply HQ, integrity_add_row.
Qed.
End SoundPrimitives.

(** Reading the rows of a list of keys. *)
Definition rows_of (k : tname) (ids : list Z) (d : db) : list (row k) :=
  omap (λ i, rows (d k) !! i) ids.

Lemma wp_map_obj k ids (Q : list (row k) → session → Prop) E s :
  (∀ i, i ∈ ids → is_Some (rows (work s k) !! i)) →
  Q (rows_of k ids (work s)) s → wp (map_loop (obj k) ids) Q E s.
Proof.
  intros Hin HQ. unfold map_loop.
  apply (wp_fold_loop (λ rest acc s', s' = s ∧ (∀ i, i ∈ rest → is_Some (rows (work s k) !! i)) ∧
                         acc ++ rows_of k rest (work s) = rows_of k ids (work s))).
  - done.
  - intros i rest acc s' (-> & Hr & Hacc). apply wp_bind, wp_obj.
    + intros r Hi. apply wp_ret. split_and!; [done|set_solver|].
      rewrite <- Hacc, <- app_assoc. f_equal. simpl. by rewrite Hi.
    + intros Hn. destruct (Hr i) as [r Hx]; [set_solver|]. congruence.
  - intros acc s' (-> & _ & Hacc). by rewrite app_nil_r in Hacc; subst.
Qed.

(** A query ordered by the primary key. *)
Lemma wp_order_by_id k (key : row k → Z) l (Q : list Z → session → Prop) E s :
  (∀ i, i ∈ l → ∃ r, rows (work s k) !! i = Some r ∧ key r = i) →
  Q (sort_by Z.leb l) s → wp (order_by k (λ a b, key a <=? key b) l) Q E s.
Proof.
  intros Hk HQ. unfold order_by. apply wp_bind, wp_get_work, wp_ret.
  rewrite (sort_by_ext _ Z.leb); [done|]. intros x y Hx Hy.
  destruct (Hk x Hx) as (r & -> & <-), (Hk y Hy) as (r' & -> & <-). done.
Qed.

Lemma rows_of_cons k i r ids d :
  rows (d k) !! i = Some r → rows_of k (i :: ids) d = r :: rows_of k ids d.
Proof. intros Hr. unfold rows_of. simpl. by rewrite Hr. Qed.

Lemma rows_of_keys k (key : row k → Z) ids (d : db) :
  (∀ i, i ∈ ids → ∃ r, rows (d k) !! i = Some r ∧ key r = i) → key <$> rows_of k ids d = ids.
Proof.
  induction ids as [|i ids IH]; intros Hk; [done|].
  destruct (Hk i) as (r & Hr & Hi); [list_in|]. rewrite (rows_of_cons k i r) by done.
  rewrite fmap_cons, Hi, IH; [done|]. intros j Hj. apply Hk. list_in.
Qed.

Lemma elem_of_rows_of k ids d r : r ∈ rows_of k ids d ↔ ∃ i, i ∈ ids ∧ rows (d k) !! i = Some r.
Proof. apply list_elem_of_omap. Qed.

#[export] Typeclasses Opaque raise app_error when fold_loop for_each map_loop commit get_work
  write utcnow obj assign select_where get get_by list_all count order_by list_page create
  create_many update delete_row delete_ids delete_where soft_delete.

(** ** Stepping *)

Ltac wp_step :=
  lazymatch goal with
  | |- wp (_ ≫= _) _ _ _ => apply wp_bind
  | |- wp (mret _) _ _ _ => apply wp_ret
  | |- wp (raise _) _ _ _ => apply wp_raise
  | |- wp (app_error _ _ _) _ _ _ => apply wp_app_error
  | |- wp commit _ _ _ => apply wp_commit
  | |- wp get_work _ _ _ => apply wp_get_work
  | |- wp (write _) _ _ _ => apply wp_write
  | |- wp utcnow _ _ _ => apply wp_utcnow
  | |- wp (obj ?k _) _ _ _ => apply (wp_obj k); [intros ?r ?Hr|intros ?Hr]
  | |- wp (update _ _ _) _ _ _ => unfold update
  | |- wp (assign ?k _ _) _ _ _ =>
    apply (wp_assign k); [intros ?r ?Hr ?Ha|intros ?Hr|intros ?r ?Hr ?Ha]
  | |- wp (create ?k _) _ _ _ => apply (wp_create k); simpl; split; intros ?Ha
  | |- wp (get ?k _) _ _ _ => apply (wp_get k); [intros ?r ?Hr ?Ha|intros ?Hr]
  | |- wp (select_where _ _) _ _ _ => apply wp_select_where
  | |- wp (list_all _ _) _ _ _ => apply wp_select_where
  | |- wp (get_by _ _) _ _ _ => unfold get_by
  | |- wp (delete_where _ _) _ _ _ => apply wp_delete_where; simpl; split; intros ?Ha
  | |- wp (delete_ids _ _) _ _ _ => apply wp_delete_ids; simpl; split; intros ?Ha
  | |- wp (when ?b _) _ _ _ => unfold when
  | |- wp (if ?b then _ else _) _ _ _ => destruct b eqn:?
  | |- wp (match ?x with _ => _ end) _ _ _ => destruct x eqn:?
  | |- wp (let '_ := ?x in _) _ _ _ => destruct x eqn:?
  end.

(** Step, and close the exception branches that [E] allows. *)
Ltac wp_auto := repeat (wp_step; try exact I); simpl in *.
