(* ===== verification/Schema.v ===== *)
(** * Database schemas and schema changes

    The vocabulary of the ORM classes (backend/app/models) and of the
    migrations (backend/migrations/versions): columns, tables with their
    constraints and indexes, the declaration of a mapped class, and the
    operations of Alembic's [op] with their effect on a schema.

    Alembic, SQLAlchemy and MySQL are not source code: what is taken of them is
    that a statement changes the schema as it says, or fails if the names it
    uses are wrong.  Whether the server refuses to drop an index that a foreign
    key needs, as InnoDB does, is a parameter. *)
From S2P Require Import Prelude.

(** ** Columns *)

Inductive sql_type :=
  | BIGINT (unsigned : bool) | INTEGER (unsigned : bool) | SMALLINT (unsigned : bool) | TINYINT
  | VARCHAR (length : Z) | CHAR (length : Z) | TEXT | MEDIUMTEXT | JSON
  | DATE | DATETIME (fsp : Z) | NUMERIC (precision scale : Z).

Inductive column_option :=
  | Autoincrement
  | Nullable (b : bool)
  | PrimaryKey
  | ServerDefault (sql : string)
  | Computed (sql : string)
  | ForeignKey (table column : string) (name : string)
  | Comment (text : string).

Record column := ColumnMk {
  col_type : sql_type;
  nullable : bool;
  autoincrement : bool;
  server_default : option string;
  computed : option string;
  col_comment : option string
}.

#[export] Instance sql_type_eq_dec : EqDecision sql_type.
Proof. solve_decision. Defined.

#[export] Instance column_eq_dec : EqDecision column.
Proof. solve_decision. Defined.

(** Later options win; a column is nullable unless it says otherwise. *)
Definition with_option (c : column) (o : column_option) : column :=
  match o with
  | Autoincrement => ColumnMk (col_type c) (nullable c) true (server_default c) (computed c) (col_comment c)
  | Nullable b => ColumnMk (col_type c) b (autoincrement c) (server_default c) (computed c) (col_comment c)
  | PrimaryKey => ColumnMk (col_type c) false (autoincrement c) (server_default c) (computed c) (col_comment c)
  | ServerDefault s => ColumnMk (col_type c) (nullable c) (autoincrement c) (Some s) (computed c) (col_comment c)
  | Computed s => ColumnMk (col_type c) (nullable c) (autoincrement c) (server_default c) (Some s) (col_comment c)
  | ForeignKey _ _ _ => c
  | Comment s => ColumnMk (col_type c) (nullable c) (autoincrement c) (server_default c) (computed c) (Some s)
  end.

Definition make_column (ty : sql_type) (null : bool) (opts : list column_option) : column :=
  foldl with_option (ColumnMk ty null false None None None) opts.

(** ** Tables *)

Record foreign_key := FK { fk_columns : list string; fk_table : string; fk_target : list string }.

#[export] Instance foreign_key_eq_dec : EqDecision foreign_key.
Proof. solve_decision. Defined.

(** The constraints and indexes by name. *)
Record table_schema := TableSchema {
  columns : gmap string column;
  primary_key : list string;
  uniques : gmap string (list string);
  foreign_keys : gmap string foreign_key;
  indexes : gmap string (list string);
  table_comment : option string
}.

#[export] Instance table_schema_eq_dec : EqDecision table_schema.
Proof. solve_decision. Defined.

Definition schema : Type := gmap string table_schema.

(** ** Mapped classes *)

(** What a class body declares: [__table_args__] and [mapped_column]s, whose
    column is nullable if its annotation is [Mapped[... | None]]. *)
Inductive declared :=
  | Mapped (name : string) (optional : bool) (ty : sql_type) (opts : list column_option)
  | Unique (name : string) (cols : list string)
  | Index (name : string) (cols : list string).

(** [__tablename__], the comment and the body. *)
Record declaration := Declaration { tablename : string; tablecomment : string; class_body : list declared }.

Definition is_pk (o : column_option) : bool := match o with PrimaryKey => true | _ => false end.

Definition fks_of (column : string) (opts : list column_option) : list (string * foreign_key) :=
  omap (λ o, match o with ForeignKey t c name => Some (name, FK [column] t [c]) | _ => None end) opts.

(** The [Table] that the class is mapped to. *)
Definition table_of (d : declaration) : table_schema :=
  let b := class_body d in
  TableSchema
    (list_to_map (omap (λ x, match x with
       | Mapped n optional ty opts => Some (n, make_column ty optional opts) | _ => None end) b))
    (omap (λ x, match x with
       | Mapped n _ _ opts => if existsb is_pk opts then Some n else None | _ => None end) b)
    (list_to_map (omap (λ x, match x with Unique n cols => Some (n, cols) | _ => None end) b))
    (list_to_map (flat_map (λ x, match x with Mapped n _ _ opts => fks_of n opts | _ => [] end) b))
    (list_to_map (omap (λ x, match x with Index n cols => Some (n, cols) | _ => None end) b))
    (Some (tablecomment d)).

(** [Base.metadata]. *)
Definition metadata_of (ds : list declaration) : schema := list_to_map ((λ d, (tablename d, table_of d)) <$> ds).

(** ** Schema changes *)

Inductive table_item :=
  | Column (name : string) (ty : sql_type) (opts : list column_option)
  | ForeignKeyConstraint (cols : list string) (table : string) (target : list string) (name : string)
  | PrimaryKeyConstraint (cols : list string)
  | UniqueConstraint (cols : list string) (name : string).

Inductive ddl :=
  | create_table (name : string) (items : list table_item) (comment : string)
  | drop_table (name : string)
  | create_index (name table : string) (cols : list string)
  | drop_index (name table : string)
  | add_column (table name : string) (ty : sql_type) (opts : list column_option)
  | drop_column (table name : string)
  | alter_comment (table name : string) (comment existing_comment : string)
  | create_unique_constraint (name table : string) (cols : list string)
  | drop_unique_constraint (name table : string).

Definition new_table (items : list table_item) (comment : string) : table_schema :=
  TableSchema
    (list_to_map (omap (λ x, match x with
       | Column n ty opts => Some (n, make_column ty true opts) | _ => None end) items))
    (default [] (head (omap (λ x, match x with PrimaryKeyConstraint cols => Some cols | _ => None end) items)))
    (list_to_map (omap (λ x, match x with UniqueConstraint cols n => Some (n, cols) | _ => None end) items))
    (list_to_map (omap (λ x, match x with
       | ForeignKeyConstraint cols t target n => Some (n, FK cols t target) | _ => None end) items))
    ∅ (Some comment).

Definition has_columns (t : table_schema) (cols : list string) : bool :=
  forallb (λ c, bool_decide (is_Some (columns t !! c))) cols.

(** The names of unique constraints and indexes share one space. *)
Definition index_name_free (t : table_schema) (name : string) : bool :=
  bool_decide (uniques t !! name = None) && bool_decide (indexes t !! name = None).

Definition names_of (items : list table_item) : list string :=
  omap (λ x, match x with Column n _ _ => Some n | _ => None end) items.

(** A foreign key refers to columns of an existing table, or of its own. *)
Definition fk_sound (s : schema) (name : string) (t : table_schema) (f : foreign_key) : bool :=
  has_columns t (fk_columns f) &&
  match (if String.eqb (fk_table f) name then Some t else s !! fk_table f) with
  | Some target => has_columns target (fk_target f)
  | None => false
  end.

Definition sound_table (s : schema) (name : string) (t : table_schema) : bool :=
  has_columns t (primary_key t) &&
  forallb (λ '(_, cols), has_columns t cols) (map_to_list (uniques t)) &&
  forallb (λ '(_, f), fk_sound s name t f) (map_to_list (foreign_keys t)).

(** Does another table refer to this one? *)
Definition is_target (s : schema) (name : string) : bool :=
  existsb (λ '(n, t), negb (String.eqb n name) &&
    existsb (λ '(_, f), String.eqb (fk_table f) name) (map_to_list (foreign_keys t))) (map_to_list s).

Definition uses (cols : list string) (c : string) : bool := bool_decide (c ∈ cols).

Definition column_in_use (t : table_schema) (c : string) : bool :=
  uses (primary_key t) c ||
  existsb (λ '(_, cols), uses cols c) (map_to_list (uniques t)) ||
  existsb (λ '(_, cols), uses cols c) (map_to_list (indexes t)) ||
  existsb (λ '(_, f), uses (fk_columns f) c) (map_to_list (foreign_keys t)).

(** A foreign key needs an index that starts with its columns. *)
Definition covered (t : table_schema) (f : foreign_key) : bool :=
  existsb (λ cols, bool_decide (fk_columns f `prefix_of` cols))
    (primary_key t :: (map_to_list (uniques t)).*2 ++ (map_to_list (indexes t)).*2).

(** Every foreign key that [t] covers is still covered in [t']. *)
Definition still_covered (t t' : table_schema) : bool :=
  forallb (λ '(_, f), negb (covered t f) || covered t' f) (map_to_list (foreign_keys t)).

Definition set_uniques (t : table_schema) (u : gmap string (list string)) : table_schema :=
  TableSchema (columns t) (primary_key t) u (foreign_keys t) (indexes t) (table_comment t).
Definition set_indexes (t : table_schema) (i : gmap string (list string)) : table_schema :=
  TableSchema (columns t) (primary_key t) (uniques t) (foreign_keys t) i (table_comment t).
Definition set_columns (t : table_schema) (c : gmap string column) : table_schema :=
  TableSchema c (primary_key t) (uniques t) (foreign_keys t) (indexes t) (table_comment t).

Definition guard_some {A} (b : bool) (a : A) : option A := if b then Some a else None.

Section Statements.
(** Does the server keep indexes that a foreign key needs? *)
Context (keeps_fk_indexes : bool).

(** The change of one table by a statement on it. *)
Definition alter (t : table_schema) (op : ddl) : option table_schema :=
  match op with
  | create_index n _ cols =>
    guard_some (index_name_free t n && has_columns t cols) (set_indexes t (<[n := cols]> (indexes t)))
  | drop_index n _ =>
    let t' := set_indexes t (delete n (indexes t)) in
    guard_some (bool_decide (is_Some (indexes t !! n)) && (negb keeps_fk_indexes || still_covered t t')) t'
  | add_column _ n ty opts =>
    guard_some (bool_decide (columns t !! n = None)) (set_columns t (<[n := make_column ty true opts]> (columns t)))
  | drop_column _ n =>
    guard_some (bool_decide (is_Some (columns t !! n)) && negb (column_in_use t n)) (set_columns t (delete n (columns t)))
  | alter_comment _ n text _ =>
    match columns t !! n with
    | Some c => Some (set_columns t (<[n := with_option c (Comment text)]> (columns t)))
    | None => None
    end
  | create_unique_constraint n _ cols =>
    guard_some (index_name_free t n && has_columns t cols) (set_uniques t (<[n := cols]> (uniques t)))
  | drop_unique_constraint n _ =>
    let t' := set_uniques t (delete n (uniques t)) in
    guard_some (bool_decide (is_Some (uniques t !! n)) && (negb keeps_fk_indexes || still_covered t t')) t'
  | create_table _ _ _ | drop_table _ => None
  end.

Definition altered_table (op : ddl) : string :=
  match op with
  | create_table n _ _ | drop_table n => n
  | create_index _ t _ | drop_index _ t | add_column t _ _ _ | drop_column t _ | alter_comment t _ _ _
  | create_unique_constraint _ t _ | drop_unique_constraint _ t => t
  end.

(** One statement; [None]: the server refuses it. *)
Definition run_ddl (s : schema) (op : ddl) : option schema :=
  match op with
  | create_table n items comment =>
    let t := new_table items comment in
    guard_some (bool_decide (s !! n = None) && bool_decide (NoDup (names_of items)) && sound_table s n t) (<[n := t]> s)
  | drop_table n => guard_some (bool_decide (is_Some (s !! n)) && negb (is_target s n)) (delete n s)
  | _ =>
    t ← s !! altered_table op;
    t' ← alter t op;
    Some (<[altered_table op := t']> s)
  end.

Fixpoint run_script (s : schema) (ops : list ddl) : option schema :=
  match ops with
  | [] => Some s
  | op :: ops' => s' ← run_ddl s op; run_script s' ops'
  end.

(** ** Revisions *)

Record migration := Migration {
  revision : string;
  down_revision : option string;
  upgrade : list ddl;
  downgrade : list ddl
}.

Definition find_next (history : list migration) (current : option string) : option migration :=
  find (λ m, bool_decide (down_revision m = current)) history.

(** [alembic upgrade head], at most [fuel] revisions: the new schema and the
    revision it is at. *)
Fixpoint upgrade_head (fuel : nat) (history : list migration) (current : option string) (s : schema)
    : option (option string * schema) :=
  match find_next history current with
  | None => Some (current, s)
  | Some m =>
    match fuel with
    | O => None
    | S fuel' => s' ← run_script s (upgrade m); upgrade_head fuel' history (Some (revision m)) s'
    end
  end.
End Statements.
