(* ===== verification/Metadata.v ===== *)
(** * The mapped classes as tables (backend/app/models)

    The declarations of the ORM classes, from which SQLAlchemy builds
    [Base.metadata].  Python-side defaults and relationships do not show in the
    schema. *)
From S2P Require Import Prelude.
From S2P Require Export Schema.

(** ** models/user.py *)

Definition sys_user : declaration :=
  Declaration "sys_user" "系统用户表"
   [
    Unique "uk_sys_user_username" ["username"];
    Unique "uk_sys_user_email" ["email"];
    Index "idx_sys_user_status" ["status"];
    Index "idx_sys_user_deleted_at" ["deleted_at"];
    Mapped "id" false (BIGINT true) [PrimaryKey; Autoincrement; Comment "用户ID"];
    Mapped "username" false (VARCHAR 64) [Comment "登录用户名"];
    Mapped "password_hash" false (VARCHAR 255) [Comment "密码哈希"];
    Mapped "nickname" true (VARCHAR 64) [Comment "用户昵称"];
    Mapped "email" true (VARCHAR 128) [Comment "邮箱"];
    Mapped "phone" true (VARCHAR 32) [Comment "手机号"];
    Mapped "status" false TINYINT [ServerDefault "1"; Comment "状态：0禁用，1启用"];
    Mapped "last_login_at" true (DATETIME 3) [Comment "最后登录时间"];
    Mapped "last_login_ip" true (VARCHAR 64) [Comment "最后登录IP"];
    Mapped "created_at" false (DATETIME 3) [ServerDefault "CURRENT_TIMESTAMP(3)"];
    Mapped "updated_at" false (DATETIME 3) [ServerDefault "CURRENT_TIMESTAMP(3) ON UPDATE CURRENT_TIMESTAMP(3)"];
    Mapped "deleted_at" true (DATETIME 3) [Comment "软删除时间"]
   ].

Definition sys_role : declaration :=
  Declaration "sys_role" "系统角色表"
   [
    Unique "uk_sys_role_code" ["role_code"];
    Index "idx_sys_role_status" ["status"];
    Mapped "id" false (BIGINT true) [PrimaryKey; Autoincrement; Comment "角色ID"];
    Mapped "role_code" false (VARCHAR 64) [Comment "角色编码"];
    Mapped "role_name" false (VARCHAR 64) [Comment "角色名称"];
    Mapped "description" true (VARCHAR 255) [Comment "角色描述"];
    Mapped "status" false TINYINT [ServerDefault "1"; Comment "状态：0禁用，1启用"];
    Mapped "created_at" false (DATETIME 3) [ServerDefault "CURRENT_TIMESTAMP(3)"];
    Mapped "updated_at" false (DATETIME 3) [ServerDefault "CURRENT_TIMESTAMP(3) ON UPDATE CURRENT_TIMESTAMP(3)"]
   ].

Definition sys_permission : declaration :=
  Declaration "sys_permission" "系统权限表"
   [
    Unique "uk_sys_permission_code" ["permission_code"];
    Index "idx_sys_permission_parent_id" ["parent_id"];
    Index "idx_sys_permission_type_status" ["permission_type"; "status"];
    Mapped "id" false (BIGINT true) [PrimaryKey; Autoincrement; Comment "权限ID"];
    Mapped "permission_code" false (VARCHAR 128) [Comment "权限编码"];
    Mapped "permission_name" false (VARCHAR 128) [Comment "权限名称"];
    Mapped "permission_type" false (VARCHAR 16) [Comment "权限类型：MENU/API/BUTTON"];
    Mapped "path" true (VARCHAR 255) [Comment "前端路由或接口路径"];
    Mapped "method" true (VARCHAR 16) [Comment "HTTP方法"];
    Mapped "parent_id" true (BIGINT true) [ForeignKey "sys_permission" "id" "fk_sys_permission_parent";
      Comment "父权限ID"];
    Mapped "status" false TINYINT [ServerDefault "1"; Comment "状态：0禁用，1启用"];
    Mapped "created_at" false (DATETIME 3) [ServerDefault "CURRENT_TIMESTAMP(3)"];
    Mapped "updated_at" false (DATETIME 3) [ServerDefault "CURRENT_TIMESTAMP(3) ON UPDATE CURRENT_TIMESTAMP(3)"]
   ].

Definition sys_user_role : declaration :=
  Declaration "sys_user_role" "用户角色关联表"
   [
    Index "idx_sys_user_role_role_id" ["role_id"];
    Mapped "user_id" false (BIGINT true) [ForeignKey "sys_user" "id" "fk_sys_user_role_user"; PrimaryKey;
      Comment "用户ID"];
    Mapped "role_id" false (BIGINT true) [ForeignKey "sys_role" "id" "fk_sys_user_role_role"; PrimaryKey;
      Comment "角色ID"];
    Mapped "created_at" false (DATETIME 3) [ServerDefault "CURRENT_TIMESTAMP(3)"]
   ].

Definition sys_role_permission : declaration :=
  Declaration "sys_role_permission" "角色权限关联表"
   [
    Index "idx_sys_role_permission_permission_id" ["permission_id"];
    Mapped "role_id" false (BIGINT true) [ForeignKey "sys_role" "id" "fk_sys_role_permission_role"; PrimaryKey;
      Comment "角色ID"];
    Mapped "permission_id" false (BIGINT true) [ForeignKey "sys_permission" "id" "fk_sys_role_permission_permission";
      PrimaryKey; Comment "权限ID"];
    Mapped "created_at" false (DATETIME 3) [ServerDefault "CURRENT_TIMESTAMP(3)"]
   ].

(** ** models/server.py *)

Definition ops_server : declaration :=
  Declaration "ops_server" "服务器资产表"
   [
    Unique "uk_ops_server_code" ["server_code"];
    Unique "uk_ops_server_ip_port" ["ip_address"; "ssh_port"];
    Index "fk_ops_server_created_by" ["created_by"];
    Index "idx_ops_server_agent_status" ["agent_status"];
    Index "idx_ops_server_hostname" ["hostname"];
    Index "idx_ops_server_last_heartbeat" ["last_heartbeat_at"];
    Index "idx_ops_server_status" ["status"];
    Mapped "id" false (BIGINT true) [PrimaryKey; Autoincrement; Comment "服务器ID"];
    Mapped "server_code" false (VARCHAR 64) [Comment "服务器唯一编码"];
    Mapped "hostname" false (VARCHAR 128) [Comment "主机名"];
    Mapped "ip_address" false (VARCHAR 64) [Comment "服务器IP地址"];
    Mapped "ssh_port" false (SMALLINT true) [ServerDefault "22"; Comment "SSH端口"];
    Mapped "os_name" true (VARCHAR 128) [Comment "操作系统名称"];
    Mapped "os_version" true (VARCHAR 128) [Comment "操作系统版本"];
    Mapped "kernel_version" true (VARCHAR 128) [Comment "内核版本"];
    Mapped "architecture" true (VARCHAR 32) [Comment "系统架构"];
    Mapped "cpu_model" true (VARCHAR 255) [Comment "CPU型号"];
    Mapped "cpu_cores" true (INTEGER true) [Comment "CPU逻辑核心数"];
    Mapped "memory_total_bytes" true (BIGINT true) [Comment "内存总量，单位：字节"];
    Mapped "disk_total_bytes" true (BIGINT true) [Comment "磁盘总量，单位：字节"];
    Mapped "agent_version" true (VARCHAR 32) [Comment "Agent版本"];
    Mapped "agent_status" false (VARCHAR 16) [ServerDefault "'OFFLINE'";
      Comment "Agent状态：ONLINE/WARNING/OFFLINE/UNKNOWN"];
    Mapped "last_heartbeat_at" true (DATETIME 3) [Comment "最后心跳时间"];
    Mapped "registered_at" true (DATETIME 3) [Comment "Agent注册时间"];
    Mapped "status" false TINYINT [ServerDefault "1"; Comment "资产状态：0停用，1启用"];
    Mapped "remark" true (VARCHAR 500) [Comment "备注"];
    Mapped "created_by" true (BIGINT true) [ForeignKey "sys_user" "id" "fk_ops_server_created_by"; Comment "创建人"];
    Mapped "created_at" false (DATETIME 3) [ServerDefault "CURRENT_TIMESTAMP(3)"];
    Mapped "updated_at" false (DATETIME 3) [ServerDefault "CURRENT_TIMESTAMP(3) ON UPDATE CURRENT_TIMESTAMP(3)"];
    Mapped "deleted_at" true (DATETIME 3) [Comment "软删除时间"]
   ].

Definition ops_server_disk : declaration :=
  Declaration "ops_server_disk" "服务器磁盘资产表"
   [
    Unique "uk_ops_server_disk" ["server_id"; "device_name"; "mount_point"];
    Index "idx_ops_server_disk_server_id" ["server_id"];
    Mapped "id" false (BIGINT true) [PrimaryKey; Autoincrement; Comment "磁盘资产ID"];
    Mapped "server_id" false (BIGINT true) [ForeignKey "ops_server" "id" "fk_ops_server_disk_server"; Comment "服务器ID"];
    Mapped "device_name" false (VARCHAR 128) [Comment "设备名称"];
    Mapped "mount_point" true (VARCHAR 255) [Comment "挂载点"];
    Mapped "filesystem" true (VARCHAR 64) [Comment "文件系统"];
    Mapped "total_bytes" true (BIGINT true) [Comment "磁盘总量，单位：字节"];
    Mapped "status" false TINYINT [ServerDefault "1"; Comment "状态：0停用，1启用"];
    Mapped "created_at" false (DATETIME 3) [ServerDefault "CURRENT_TIMESTAMP(3)"];
    Mapped "updated_at" false (DATETIME 3) [ServerDefault "CURRENT_TIMESTAMP(3) ON UPDATE CURRENT_TIMESTAMP(3)"]
   ].

Definition ops_server_network : declaration :=
  Declaration "ops_server_network" "服务器网卡资产表"
   [
    Unique "uk_ops_server_network_interface" ["server_id"; "interface_name"];
    Index "idx_ops_server_network_server_id" ["server_id"];
    Mapped "id" false (BIGINT true) [PrimaryKey; Autoincrement; Comment "网卡资产ID"];
    Mapped "server_id" false (BIGINT true) [ForeignKey "ops_server" "id" "fk_ops_server_network_server";
      Comment "服务器ID"];
    Mapped "interface_name" false (VARCHAR 128) [Comment "网卡名称"];
    Mapped "mac_address" true (VARCHAR 64) [Comment "MAC地址"];
    Mapped "ip_address" true (VARCHAR 64) [Comment "网卡IP地址"];
    Mapped "status" false TINYINT [ServerDefault "1"; Comment "状态：0停用，1启用"];
    Mapped "created_at" false (DATETIME 3) [ServerDefault "CURRENT_TIMESTAMP(3)"];
    Mapped "updated_at" false (DATETIME 3) [ServerDefault "CURRENT_TIMESTAMP(3) ON UPDATE CURRENT_TIMESTAMP(3)"]
   ].

Definition ops_agent_token : declaration :=
  Declaration "ops_agent_token" "Agent鉴权Token表"
   [
    Unique "uk_ops_agent_token_hash" ["token_hash"];
    Index "idx_ops_agent_token_server_status" ["server_id"; "status"];
    Mapped "id" false (BIGINT true) [PrimaryKey; Autoincrement; Comment "Token记录ID"];
    Mapped "server_id" false (BIGINT true) [ForeignKey "ops_server" "id" "fk_ops_agent_token_server"; Comment "服务器ID"];
    Mapped "token_name" false (VARCHAR 64) [Comment "Token名称"];
    Mapped "token_prefix" false (VARCHAR 16) [Comment "Token前缀，用于识别"];
    Mapped "token_hash" false (CHAR 64) [Comment "Token哈希，不保存明文"];
    Mapped "signing_public_key" true (VARCHAR 128) [Comment "Ed25519 公钥（base64），用于请求签名"];
    Mapped "signing_algorithm" true (VARCHAR 16) [ServerDefault "'ed25519'"; Comment "签名算法"];
    Mapped "key_registered_at" true (DATETIME 3) [Comment "公钥注册时间"];
    Mapped "status" false TINYINT [ServerDefault "1"; Comment "状态：0撤销，1有效"];
    Mapped "expires_at" true (DATETIME 3) [Comment "过期时间"];
    Mapped "last_used_at" true (DATETIME 3) [Comment "最后使用时间"];
    Mapped "created_at" false (DATETIME 3) [ServerDefault "CURRENT_TIMESTAMP(3)"];
    Mapped "revoked_at" true (DATETIME 3) [Comment "撤销时间"]
   ].

Definition ops_agent_heartbeat : declaration :=
  Declaration "ops_agent_heartbeat" "Agent心跳历史表"
   [
    Index "idx_ops_agent_heartbeat_received_at" ["received_at"];
    Index "idx_ops_agent_heartbeat_server_time" ["server_id"; "collected_at"];
    Mapped "id" false (BIGINT true) [PrimaryKey; Autoincrement; Comment "心跳记录ID"];
    Mapped "server_id" false (BIGINT true) [ForeignKey "ops_server" "id" "fk_ops_agent_heartbeat_server";
      Comment "服务器ID"];
    Mapped "agent_version" true (VARCHAR 32) [Comment "Agent版本"];
    Mapped "ip_address" true (VARCHAR 64) [Comment "Agent上报IP"];
    Mapped "collected_at" false (DATETIME 3) [Comment "心跳时间"];
    Mapped "received_at" false (DATETIME 3) [ServerDefault "CURRENT_TIMESTAMP(3)"; Comment "服务端接收时间"];
    Mapped "created_at" false (DATETIME 3) [ServerDefault "CURRENT_TIMESTAMP(3)"]
   ].

Definition ops_server_service : declaration :=
  Declaration "ops_server_service" "服务器服务资产表"
   [
    Unique "uk_ops_server_service" ["server_id"; "service_name"];
    Index "idx_ops_server_service_status" ["server_id"; "current_status"];
    Index "idx_ops_server_service_critical" ["is_critical"; "current_status"];
    Mapped "id" false (BIGINT true) [PrimaryKey; Autoincrement; Comment "服务资产ID"];
    Mapped "server_id" false (BIGINT true) [ForeignKey "ops_server" "id" "fk_ops_server_service_server";
      Comment "服务器ID"];
    Mapped "service_name" false (VARCHAR 64) [Comment "systemd服务名称"];
    Mapped "display_name" true (VARCHAR 128) [Comment "展示名称"];
    Mapped "service_type" false (VARCHAR 32) [ServerDefault "'SYSTEMD'"; Comment "SYSTEMD/DOCKER/CUSTOM"];
    Mapped "is_whitelisted" false TINYINT [ServerDefault "1"; Comment "是否允许执行受控操作"];
    Mapped "is_critical" false TINYINT [ServerDefault "0"; Comment "是否为关键服务"];
    Mapped "current_status" true (VARCHAR 32) [Comment "RUNNING/STOPPED/FAILED/UNKNOWN"];
    Mapped "last_checked_at" true (DATETIME 3) [Comment "最后检查时间"];
    Mapped "status" false TINYINT [ServerDefault "1"; Comment "状态：0停用，1启用"];
    Mapped "created_at" false (DATETIME 3) [ServerDefault "CURRENT_TIMESTAMP(3)"];
    Mapped "updated_at" false (DATETIME 3) [ServerDefault "CURRENT_TIMESTAMP(3) ON UPDATE CURRENT_TIMESTAMP(3)"]
   ].

Definition ops_server_container : declaration :=
  Declaration "ops_server_container" "Docker容器资产表"
   [
    Unique "uk_ops_server_container" ["server_id"; "container_id"];
    Index "idx_ops_server_container_status" ["server_id"; "container_status"];
    Index "idx_ops_server_container_critical" ["is_critical"; "container_status"];
    Mapped "id" false (BIGINT true) [PrimaryKey; Autoincrement; Comment "容器资产ID"];
    Mapped "server_id" false (BIGINT true) [ForeignKey "ops_server" "id" "fk_ops_server_container_server";
      Comment "服务器ID"];
    Mapped "container_id" false (VARCHAR 128) [Comment "容器ID"];
    Mapped "container_name" false (VARCHAR 255) [Comment "容器名称"];
    Mapped "image_name" true (VARCHAR 255) [Comment "镜像名称"];
    Mapped "container_status" true (VARCHAR 32) [Comment "RUNNING/STOPPED/PAUSED/EXITED"];
    Mapped "restart_count" true (INTEGER true) [Comment "重启次数"];
    Mapped "container_created_at" true (DATETIME 3) [Comment "容器创建时间"];
    Mapped "is_critical" false TINYINT [ServerDefault "0"; Comment "是否为关键容器"];
    Mapped "last_seen_at" true (DATETIME 3) [Comment "最后发现时间"];
    Mapped "status" false TINYINT [ServerDefault "1"; Comment "状态：0停用，1启用"];
    Mapped "created_at" false (DATETIME 3) [ServerDefault "CURRENT_TIMESTAMP(3)"];
    Mapped "updated_at" false (DATETIME 3) [ServerDefault "CURRENT_TIMESTAMP(3) ON UPDATE CURRENT_TIMESTAMP(3)"]
   ].

(** ** models/metric.py *)

Definition monitor_server_metric : declaration :=
  Declaration "monitor_server_metric" "服务器监控指标表"
   [
    Index "idx_monitor_server_metric_collected_at" ["collected_at"];
    Index "idx_monitor_server_metric_server_time" ["server_id"; "collected_at"];
    Mapped "id" false (BIGINT true) [PrimaryKey; Autoincrement; Comment "指标记录ID"];
    Mapped "server_id" false (BIGINT true) [ForeignKey "ops_server" "id" "fk_monitor_server_metric_server";
      Comment "服务器ID"];
    Mapped "collected_at" false (DATETIME 3) [Comment "采集时间"];
    Mapped "cpu_usage" true (NUMERIC 5 2) [Comment "CPU使用率，百分比"];
    Mapped "memory_usage" true (NUMERIC 5 2) [Comment "内存使用率，百分比"];
    Mapped "memory_used_bytes" true (BIGINT true) [Comment "已使用内存，单位：字节"];
    Mapped "disk_usage" true (NUMERIC 5 2) [Comment "整体磁盘使用率，百分比"];
    Mapped "network_in_bytes" true (BIGINT true) [Comment "累计入站字节数"];
    Mapped "network_out_bytes" true (BIGINT true) [Comment "累计出站字节数"];
    Mapped "load_1m" true (NUMERIC 10 2) [Comment "1分钟Load"];
    Mapped "load_5m" true (NUMERIC 10 2) [Comment "5分钟Load"];
    Mapped "load_15m" true (NUMERIC 10 2) [Comment "15分钟Load"];
    Mapped "tcp_connections" true (INTEGER true) [Comment "TCP连接数"];
    Mapped "uptime_seconds" true (BIGINT true) [Comment "系统运行时长，单位：秒"];
    Mapped "created_at" false (DATETIME 3) [ServerDefault "CURRENT_TIMESTAMP(3)"]
   ].

Definition monitor_server_metric_daily : declaration :=
  Declaration "monitor_server_metric_daily" "服务器指标日聚合（长期归档）"
   [
    Unique "uk_metric_daily_server_date" ["server_id"; "metric_date"];
    Index "idx_metric_daily_date" ["metric_date"];
    Mapped "id" false (BIGINT true) [PrimaryKey; Autoincrement; Comment "聚合记录ID"];
    Mapped "server_id" false (BIGINT true) [ForeignKey "ops_server" "id" "fk_metric_daily_server"; Comment "服务器ID"];
    Mapped "metric_date" false DATE [Comment "统计日期"];
    Mapped "cpu_usage_avg" true (NUMERIC 12 4) [Comment "CPU 使用率均值"];
    Mapped "cpu_usage_max" true (NUMERIC 12 4) [Comment "CPU 使用率峰值"];
    Mapped "memory_usage_avg" true (NUMERIC 12 4) [Comment "内存使用率均值"];
    Mapped "memory_usage_max" true (NUMERIC 12 4) [Comment "内存使用率峰值"];
    Mapped "disk_usage_avg" true (NUMERIC 12 4) [Comment "磁盘使用率均值"];
    Mapped "disk_usage_max" true (NUMERIC 12 4) [Comment "磁盘使用率峰值"];
    Mapped "load_1m_avg" true (NUMERIC 12 4) [Comment "1分钟Load均值"];
    Mapped "load_1m_max" true (NUMERIC 12 4) [Comment "1分钟Load峰值"];
    Mapped "tcp_connections_avg" true (NUMERIC 12 4) [Comment "TCP连接数均值"];
    Mapped "tcp_connections_max" true (NUMERIC 12 4) [Comment "TCP连接数峰值"];
    Mapped "sample_count" false (INTEGER true) [Comment "参与聚合的原始样本数"];
    Mapped "created_at" false (DATETIME 3) [ServerDefault "CURRENT_TIMESTAMP(3)"; Comment "创建时间"];
    Mapped "updated_at" false (DATETIME 3) [ServerDefault "CURRENT_TIMESTAMP(3) ON UPDATE CURRENT_TIMESTAMP(3)";
      Comment "更新时间"]
   ].

Definition monitor_disk_metric : declaration :=
  Declaration "monitor_disk_metric" "磁盘监控指标表"
   [
    Index "idx_monitor_disk_metric_disk_time" ["disk_id"; "collected_at"];
    Index "idx_monitor_disk_metric_server_time" ["server_id"; "collected_at"];
    Mapped "id" false (BIGINT true) [PrimaryKey; Autoincrement; Comment "磁盘指标记录ID"];
    Mapped "disk_id" false (BIGINT true) [ForeignKey "ops_server_disk" "id" "fk_monitor_disk_metric_disk";
      Comment "磁盘资产ID"];
    Mapped "server_id" false (BIGINT true) [ForeignKey "ops_server" "id" "fk_monitor_disk_metric_server";
      Comment "服务器ID"];
    Mapped "collected_at" false (DATETIME 3) [Comment "采集时间"];
    Mapped "used_bytes" true (BIGINT true) [Comment "已使用容量，单位：字节"];
    Mapped "total_bytes" true (BIGINT true) [Comment "总容量，单位：字节"];
    Mapped "usage_percent" true (NUMERIC 5 2) [Comment "使用率，百分比"];
    Mapped "read_bytes" true (BIGINT true) [Comment "累计读取字节数"];
    Mapped "write_bytes" true (BIGINT true) [Comment "累计写入字节数"];
    Mapped "created_at" false (DATETIME 3) [ServerDefault "CURRENT_TIMESTAMP(3)"]
   ].

Definition monitor_network_metric : declaration :=
  Declaration "monitor_network_metric" "网卡监控指标表"
   [
    Index "idx_monitor_network_metric_network_time" ["network_id"; "collected_at"];
    Index "idx_monitor_network_metric_server_time" ["server_id"; "collected_at"];
    Mapped "id" false (BIGINT true) [PrimaryKey; Autoincrement; Comment "网卡指标记录ID"];
    Mapped "network_id" false (BIGINT true) [ForeignKey "ops_server_network" "id" "fk_monitor_network_metric_network";
      Comment "网卡资产ID"];
    Mapped "server_id" false (BIGINT true) [ForeignKey "ops_server" "id" "fk_monitor_network_metric_server";
      Comment "服务器ID"];
    Mapped "collected_at" false (DATETIME 3) [Comment "采集时间"];
    Mapped "bytes_received" true (BIGINT true) [Comment "累计接收字节数"];
    Mapped "bytes_sent" true (BIGINT true) [Comment "累计发送字节数"];
    Mapped "packets_received" true (BIGINT true) [Comment "累计接收数据包数"];
    Mapped "packets_sent" true (BIGINT true) [Comment "累计发送数据包数"];
    Mapped "errors_received" true (INTEGER true) [Comment "接收错误数"];
    Mapped "errors_sent" true (INTEGER true) [Comment "发送错误数"];
    Mapped "created_at" false (DATETIME 3) [ServerDefault "CURRENT_TIMESTAMP(3)"]
   ].

Definition monitor_container_metric : declaration :=
  Declaration "monitor_container_metric" "Docker容器监控指标表"
   [
    Index "idx_monitor_container_metric_asset_time" ["container_asset_id"; "collected_at"];
    Index "idx_monitor_container_metric_server_time" ["server_id"; "collected_at"];
    Mapped "id" false (BIGINT true) [PrimaryKey; Autoincrement; Comment "容器指标记录ID"];
    Mapped "container_asset_id" false (BIGINT true) [ForeignKey "ops_server_container" "id"
      "fk_monitor_container_metric_asset"; Comment "容器资产ID"];
    Mapped "server_id" false (BIGINT true) [ForeignKey "ops_server" "id" "fk_monitor_container_metric_server";
      Comment "服务器ID"];
    Mapped "container_id" false (VARCHAR 128) [Comment "容器ID快照"];
    Mapped "container_status" true (VARCHAR 32) [Comment "RUNNING/STOPPED/PAUSED/EXITED"];
    Mapped "cpu_usage" true (NUMERIC 7 3) [Comment "CPU使用率"];
    Mapped "memory_usage" true (NUMERIC 7 3) [Comment "内存使用率"];
    Mapped "memory_used_bytes" true (BIGINT true) [Comment "容器已使用内存"];
    Mapped "network_in_bytes" true (BIGINT true) [Comment "累计入站字节数"];
    Mapped "network_out_bytes" true (BIGINT true) [Comment "累计出站字节数"];
    Mapped "restart_count" true (INTEGER true) [Comment "重启次数"];
    Mapped "collected_at" false (DATETIME 3) [Comment "采集时间"];
    Mapped "created_at" false (DATETIME 3) [ServerDefault "CURRENT_TIMESTAMP(3)"]
   ].

Definition monitor_process_snapshot : declaration :=
  Declaration "monitor_process_snapshot" "服务器进程快照表"
   [
    Index "idx_monitor_process_snapshot_server_time" ["server_id"; "collected_at"];
    Index "idx_monitor_process_snapshot_server_pid_time" ["server_id"; "process_pid"; "collected_at"];
    Mapped "id" false (BIGINT true) [PrimaryKey; Autoincrement; Comment "进程快照记录ID"];
    Mapped "server_id" false (BIGINT true) [ForeignKey "ops_server" "id" "fk_monitor_process_snapshot_server";
      Comment "服务器ID"];
    Mapped "process_pid" false (INTEGER true) [Comment "进程PID"];
    Mapped "process_name" true (VARCHAR 255) [Comment "进程名称"];
    Mapped "username" true (VARCHAR 128) [Comment "进程所属用户"];
    Mapped "cpu_percent" true (NUMERIC 7 3) [Comment "进程CPU使用率"];
    Mapped "memory_percent" true (NUMERIC 7 3) [Comment "进程内存使用率"];
    Mapped "memory_bytes" true (BIGINT true) [Comment "进程内存占用"];
    Mapped "process_status" true (VARCHAR 32) [Comment "进程状态"];
    Mapped "command_line" true TEXT [Comment "命令行，注意脱敏"];
    Mapped "collected_at" false (DATETIME 3) [Comment "采集时间"];
    Mapped "created_at" false (DATETIME 3) [ServerDefault "CURRENT_TIMESTAMP(3)"]
   ].

(** ** models/alert.py *)

Definition alert_rule : declaration :=
  Declaration "alert_rule" "告警规则表"
   [
    Index "fk_alert_rule_created_by" ["created_by"];
    Index "idx_alert_rule_metric_enabled" ["metric_type"; "enabled"];
    Index "idx_alert_rule_target_enabled" ["target_type"; "enabled"];
    Mapped "id" false (BIGINT true) [PrimaryKey; Autoincrement; Comment "告警规则ID"];
    Mapped "rule_name" false (VARCHAR 128) [Comment "规则名称"];
    Mapped "metric_type" false (VARCHAR 64) [Comment "CPU/MEMORY/DISK/LOAD/AGENT/SERVICE/CONTAINER"];
    Mapped "target_type" false (VARCHAR 32) [ServerDefault "'SERVER'"; Comment "SERVER/DISK/CONTAINER/SERVICE"];
    Mapped "severity" false (VARCHAR 16) [Comment "WARNING/CRITICAL"];
    Mapped "operator" false (VARCHAR 8) [Comment "GT/GTE/LT/LTE/EQ"];
    Mapped "threshold" true (NUMERIC 12 4) [Comment "数值阈值"];
    Mapped "duration_seconds" false (INTEGER true) [ServerDefault "0"; Comment "持续异常时间，单位：秒"];
    Mapped "recovery_threshold" true (NUMERIC 12 4) [Comment "恢复阈值，可为空"];
    Mapped "enabled" false TINYINT [ServerDefault "1"; Comment "是否启用"];
    Mapped "description" true (VARCHAR 500) [Comment "规则描述"];
    Mapped "created_by" true (BIGINT true) [ForeignKey "sys_user" "id" "fk_alert_rule_created_by"; Comment "创建人"];
    Mapped "created_at" false (DATETIME 3) [ServerDefault "CURRENT_TIMESTAMP(3)"];
    Mapped "updated_at" false (DATETIME 3) [ServerDefault "CURRENT_TIMESTAMP(3) ON UPDATE CURRENT_TIMESTAMP(3)"]
   ].

Definition alert_event : declaration :=
  Declaration "alert_event" "告警事件表"
   [
    Unique "uk_alert_event_active_key" ["alert_key"; "is_active"];
    Index "fk_alert_event_acknowledged_by" ["acknowledged_by"];
    Index "idx_alert_event_rule_id" ["rule_id"];
    Index "idx_alert_event_server_status" ["server_id"; "status"];
    Index "idx_alert_event_status_time" ["status"; "created_at"];
    Mapped "id" false (BIGINT true) [PrimaryKey; Autoincrement; Comment "告警事件ID"];
    Mapped "rule_id" false (BIGINT true) [ForeignKey "alert_rule" "id" "fk_alert_event_rule"; Comment "告警规则ID"];
    Mapped "server_id" true (BIGINT true) [ForeignKey "ops_server" "id" "fk_alert_event_server"; Comment "服务器ID"];
    Mapped "resource_type" false (VARCHAR 32) [ServerDefault "'SERVER'"; Comment "资源类型"];
    Mapped "resource_id" true (BIGINT true) [Comment "资源ID"];
    Mapped "alert_key" false (VARCHAR 255) [Comment "告警指纹，用于活动告警去重"];
    Mapped "metric_type" false (VARCHAR 64) [Comment "指标类型"];
    Mapped "severity" false (VARCHAR 16) [Comment "WARNING/CRITICAL"];
    Mapped "status" false (VARCHAR 24) [ServerDefault "'PENDING'"; Comment "PENDING/FIRING/ACKNOWLEDGED/RESOLVED"];
    Mapped "is_active" true TINYINT
      [Computed "CASE WHEN status IN ('PENDING', 'FIRING', 'ACKNOWLEDGED') THEN 1 ELSE NULL END";
      Comment "活动告警标记，用于唯一约束"];
    Mapped "first_fired_at" true (DATETIME 3) [Comment "首次触发时间"];
    Mapped "last_fired_at" true (DATETIME 3) [Comment "最近触发时间"];
    Mapped "acknowledged_by" true (BIGINT true) [ForeignKey "sys_user" "id" "fk_alert_event_acknowledged_by";
      Comment "确认人"];
    Mapped "acknowledged_at" true (DATETIME 3) [Comment "确认时间"];
    Mapped "resolved_at" true (DATETIME 3) [Comment "恢复时间"];
    Mapped "current_value" true (NUMERIC 12 4) [Comment "当前指标值"];
    Mapped "threshold_value" true (NUMERIC 12 4) [Comment "触发阈值"];
    Mapped "message" false (VARCHAR 500) [Comment "告警消息"];
    Mapped "created_at" false (DATETIME 3) [ServerDefault "CURRENT_TIMESTAMP(3)"];
    Mapped "updated_at" false (DATETIME 3) [ServerDefault "CURRENT_TIMESTAMP(3) ON UPDATE CURRENT_TIMESTAMP(3)"]
   ].

Definition alert_event_log : declaration :=
  Declaration "alert_event_log" "告警状态变化日志表"
   [
    Index "fk_alert_event_log_operator" ["operator_id"];
    Index "idx_alert_event_log_event_time" ["event_id"; "created_at"];
    Mapped "id" false (BIGINT true) [PrimaryKey; Autoincrement; Comment "告警事件日志ID"];
    Mapped "event_id" false (BIGINT true) [ForeignKey "alert_event" "id" "fk_alert_event_log_event"; Comment "告警事件ID"];
    Mapped "old_status" true (VARCHAR 24) [Comment "原状态"];
    Mapped "new_status" false (VARCHAR 24) [Comment "新状态"];
    Mapped "current_value" true (NUMERIC 12 4) [Comment "事件值"];
    Mapped "message" true (VARCHAR 500) [Comment "状态变化说明"];
    Mapped "operator_id" true (BIGINT true) [ForeignKey "sys_user" "id" "fk_alert_event_log_operator";
      Comment "操作人，系统操作可为空"];
    Mapped "created_at" false (DATETIME 3) [ServerDefault "CURRENT_TIMESTAMP(3)"]
   ].

(** ** models/task.py *)

Definition ops_task : declaration :=
  Declaration "ops_task" "运维任务表"
   [
    Unique "uk_ops_task_idempotency" ["idempotency_key"];
    Index "fk_ops_task_confirmed_by" ["confirmed_by"];
    Index "idx_ops_task_creator_time" ["created_by"; "created_at"];
    Index "idx_ops_task_schedule" ["schedule_type"; "status"];
    Index "idx_ops_task_status" ["status"];
    Mapped "id" false (BIGINT true) [PrimaryKey; Autoincrement; Comment "任务ID"];
    Mapped "task_name" false (VARCHAR 128) [Comment "任务名称"];
    Mapped "task_type" false (VARCHAR 32) [Comment "SERVICE_CHECK/SERVICE_ACTION/SHELL_LIMITED"];
    Mapped "action" true (VARCHAR 32) [Comment "STATUS/START/STOP/RESTART"];
    Mapped "service_name" true (VARCHAR 64) [Comment "经过白名单校验的服务名称"];
    Mapped "schedule_type" false (VARCHAR 16) [ServerDefault "'ONCE'"; Comment "ONCE/CRON"];
    Mapped "cron_expression" true (VARCHAR 128) [Comment "Cron表达式"];
    Mapped "status" false (VARCHAR 24) [ServerDefault "'CREATED'";
      Comment "CREATED/PENDING/RUNNING/SUCCESS/FAILED/TIMEOUT/CANCELLED"];
    Mapped "created_by" false (BIGINT true) [ForeignKey "sys_user" "id" "fk_ops_task_created_by"; Comment "创建人"];
    Mapped "started_at" true (DATETIME 3) [Comment "开始时间"];
    Mapped "finished_at" true (DATETIME 3) [Comment "结束时间"];
    Mapped "timeout_seconds" false (INTEGER true) [ServerDefault "300"; Comment "超时时间，单位：秒"];
    Mapped "max_attempts" false (INTEGER true) [ServerDefault "3"; Comment "最大尝试次数"];
    Mapped "attempt" false (INTEGER true) [ServerDefault "0"; Comment "当前/最近尝试编号"];
    Mapped "deadline_at" true (DATETIME 3) [Comment "任务整体截止时间"];
    Mapped "idempotency_key" true (VARCHAR 128) [Comment "幂等键，防止重复创建"];
    Mapped "confirmation_required" false TINYINT [ServerDefault "0"; Comment "是否需要二次确认"];
    Mapped "confirmed_by" true (BIGINT true) [ForeignKey "sys_user" "id" "fk_ops_task_confirmed_by"; Comment "确认人"];
    Mapped "confirmed_at" true (DATETIME 3) [Comment "确认时间"];
    Mapped "created_at" false (DATETIME 3) [ServerDefault "CURRENT_TIMESTAMP(3)"];
    Mapped "updated_at" false (DATETIME 3) [ServerDefault "CURRENT_TIMESTAMP(3) ON UPDATE CURRENT_TIMESTAMP(3)"]
   ].

Definition ops_task_target : declaration :=
  Declaration "ops_task_target" "任务目标服务器表"
   [
    Unique "uk_ops_task_target" ["task_id"; "server_id"];
    Index "idx_ops_task_target_server_id" ["server_id"];
    Index "idx_ops_task_target_status" ["target_status"];
    Mapped "id" false (BIGINT true) [PrimaryKey; Autoincrement; Comment "任务目标ID"];
    Mapped "task_id" false (BIGINT true) [ForeignKey "ops_task" "id" "fk_ops_task_target_task"; Comment "任务ID"];
    Mapped "server_id" false (BIGINT true) [ForeignKey "ops_server" "id" "fk_ops_task_target_server";
      Comment "目标服务器ID"];
    Mapped "target_status" false (VARCHAR 24) [ServerDefault "'PENDING'";
      Comment "PENDING/RUNNING/SUCCESS/FAILED/TIMEOUT/CANCELLED"];
    Mapped "created_at" false (DATETIME 3) [ServerDefault "CURRENT_TIMESTAMP(3)"]
   ].

Definition ops_task_execution : declaration :=
  Declaration "ops_task_execution" "任务执行记录表"
   [
    Unique "uk_ops_task_execution_target" ["task_id"; "target_id"; "attempt"];
    Index "fk_ops_task_execution_target" ["target_id"];
    Index "idx_ops_task_execution_server_time" ["server_id"; "created_at"];
    Index "idx_ops_task_execution_task_status" ["task_id"; "status"];
    Index "idx_ops_task_execution_retry" ["status"; "next_retry_at"];
    Mapped "id" false (BIGINT true) [PrimaryKey; Autoincrement; Comment "任务执行记录ID"];
    Mapped "task_id" false (BIGINT true) [ForeignKey "ops_task" "id" "fk_ops_task_execution_task"; Comment "任务ID"];
    Mapped "target_id" false (BIGINT true) [ForeignKey "ops_task_target" "id" "fk_ops_task_execution_target";
      Comment "任务目标ID"];
    Mapped "server_id" false (BIGINT true) [ForeignKey "ops_server" "id" "fk_ops_task_execution_server";
      Comment "服务器ID"];
    Mapped "status" false (VARCHAR 24) [ServerDefault "'PENDING'";
      Comment "PENDING/RUNNING/SUCCESS/FAILED/TIMEOUT/CANCELLED/RETRYING/DEAD"];
    Mapped "attempt" false (INTEGER true) [ServerDefault "1"; Comment "尝试编号"];
    Mapped "next_retry_at" true (DATETIME 3) [Comment "下次重试时间"];
    Mapped "error_type" true (VARCHAR 32) [Comment "标准化错误类型"];
    Mapped "exit_code" true (INTEGER false) [Comment "进程退出码"];
    Mapped "result_text" true MEDIUMTEXT [Comment "执行结果"];
    Mapped "error_message" true TEXT [Comment "错误信息"];
    Mapped "started_at" true (DATETIME 3) [Comment "开始时间"];
    Mapped "finished_at" true (DATETIME 3) [Comment "结束时间"];
    Mapped "duration_ms" true (BIGINT true) [Comment "执行耗时，单位：毫秒"];
    Mapped "created_at" false (DATETIME 3) [ServerDefault "CURRENT_TIMESTAMP(3)"];
    Mapped "updated_at" false (DATETIME 3) [ServerDefault "CURRENT_TIMESTAMP(3) ON UPDATE CURRENT_TIMESTAMP(3)"]
   ].

Definition ops_task_log : declaration :=
  Declaration "ops_task_log" "任务执行日志表"
   [
    Index "idx_ops_task_log_execution_time" ["execution_id"; "created_at"];
    Mapped "id" false (BIGINT true) [PrimaryKey; Autoincrement; Comment "任务日志ID"];
    Mapped "execution_id" false (BIGINT true) [ForeignKey "ops_task_execution" "id" "fk_ops_task_log_execution";
      Comment "任务执行记录ID"];
    Mapped "log_level" false (VARCHAR 16) [ServerDefault "'INFO'"; Comment "DEBUG/INFO/WARN/ERROR"];
    Mapped "log_content" false MEDIUMTEXT [Comment "日志内容"];
    Mapped "created_at" false (DATETIME 3) [ServerDefault "CURRENT_TIMESTAMP(3)"]
   ].

(** ** models/audit.py *)

Definition sys_login_log : declaration :=
  Declaration "sys_login_log" "用户登录日志表"
   [
    Index "idx_sys_login_log_status_time" ["login_status"; "created_at"];
    Index "idx_sys_login_log_user_time" ["user_id"; "created_at"];
    Index "idx_sys_login_log_username_time" ["username"; "created_at"];
    Mapped "id" false (BIGINT true) [PrimaryKey; Autoincrement; Comment "登录日志ID"];
    Mapped "user_id" true (BIGINT true) [ForeignKey "sys_user" "id" "fk_sys_login_log_user"; Comment "用户ID，登录失败时可为空"];
    Mapped "username" false (VARCHAR 64) [Comment "登录用户名"];
    Mapped "login_ip" true (VARCHAR 64) [Comment "登录IP"];
    Mapped "user_agent" true (VARCHAR 500) [Comment "浏览器User-Agent"];
    Mapped "login_status" false (VARCHAR 16) [Comment "SUCCESS/FAILED/LOCKED"];
    Mapped "failure_reason" true (VARCHAR 255) [Comment "失败原因"];
    Mapped "request_id" true (VARCHAR 64) [Comment "请求ID"];
    Mapped "created_at" false (DATETIME 3) [ServerDefault "CURRENT_TIMESTAMP(3)"]
   ].

Definition sys_operation_log : declaration :=
  Declaration "sys_operation_log" "系统操作审计日志表"
   [
    Index "idx_sys_operation_log_created_at" ["created_at"];
    Index "idx_sys_operation_log_module_time" ["module"; "created_at"];
    Index "idx_sys_operation_log_server_time" ["server_id"; "created_at"];
    Index "idx_sys_operation_log_status_time" ["result_status"; "created_at"];
    Index "idx_sys_operation_log_user_time" ["user_id"; "created_at"];
    Mapped "id" false (BIGINT true) [PrimaryKey; Autoincrement; Comment "操作日志ID"];
    Mapped "user_id" true (BIGINT true) [ForeignKey "sys_user" "id" "fk_sys_operation_log_user"; Comment "操作用户ID"];
    Mapped "username" true (VARCHAR 64) [Comment "操作用户名快照"];
    Mapped "module" false (VARCHAR 64) [Comment "操作模块"];
    Mapped "operation" false (VARCHAR 64) [Comment "操作类型"];
    Mapped "http_method" true (VARCHAR 16) [Comment "HTTP方法"];
    Mapped "request_path" true (VARCHAR 255) [Comment "请求路径"];
    Mapped "target_type" true (VARCHAR 32) [Comment "目标类型"];
    Mapped "target_id" true (BIGINT true) [Comment "目标ID"];
    Mapped "server_id" true (BIGINT true) [ForeignKey "ops_server" "id" "fk_sys_operation_log_server";
      Comment "目标服务器ID"];
    Mapped "request_ip" true (VARCHAR 64) [Comment "请求IP"];
    Mapped "request_id" true (VARCHAR 64) [Comment "请求ID"];
    Mapped "request_params" true JSON [Comment "请求参数，禁止记录密码和Token"];
    Mapped "result_status" false (VARCHAR 24) [Comment "SUCCESS/FAILED"];
    Mapped "error_message" true TEXT [Comment "错误信息"];
    Mapped "duration_ms" true (BIGINT true) [Comment "请求耗时，单位：毫秒"];
    Mapped "created_at" false (DATETIME 3) [ServerDefault "CURRENT_TIMESTAMP(3)"]
   ].

Definition mapped_classes : list declaration := [sys_user; sys_role; sys_permission; sys_user_role;
  sys_role_permission; ops_server; ops_server_disk; ops_server_network; ops_agent_token; ops_agent_heartbeat;
  ops_server_service; ops_server_container; monitor_server_metric; monitor_server_metric_daily; monitor_disk_metric;
  monitor_network_metric; monitor_container_metric; monitor_process_snapshot; alert_rule; alert_event;
  alert_event_log; ops_task; ops_task_target; ops_task_execution; ops_task_log; sys_login_log; sys_operation_log].

Definition metadata : schema := metadata_of mapped_classes.
