(* ===== verification/Migrations.v ===== *)
(** * The migrations (backend/migrations/versions)

    One module per revision, with the statements of its [upgrade] and
    [downgrade]; the statements of the first upgrade are grouped by table. *)
From S2P Require Import Prelude.
From S2P Require Export Schema.

Module initial_baseline.
Definition sys_permission : list ddl :=
  [
   create_table "sys_permission"
     [
      Column "id" (BIGINT true) [Autoincrement; Nullable false; Comment "权限ID"];
      Column "permission_code" (VARCHAR 128) [Nullable false; Comment "权限编码"];
      Column "permission_name" (VARCHAR 128) [Nullable false; Comment "权限名称"];
      Column "permission_type" (VARCHAR 16) [Nullable false; Comment "权限类型：MENU/API/BUTTON"];
      Column "path" (VARCHAR 255) [Nullable true; Comment "前端路由或接口路径"];
      Column "method" (VARCHAR 16) [Nullable true; Comment "HTTP方法"];
      Column "parent_id" (BIGINT true) [Nullable true; Comment "父权限ID"];
      Column "status" TINYINT [ServerDefault "1"; Nullable false; Comment "状态：0禁用，1启用"];
      Column "created_at" (DATETIME 3) [ServerDefault "CURRENT_TIMESTAMP(3)"; Nullable false];
      Column "updated_at" (DATETIME 3) [ServerDefault "CURRENT_TIMESTAMP(3) ON UPDATE CURRENT_TIMESTAMP(3)";
        Nullable false];
      ForeignKeyConstraint ["parent_id"] "sys_permission" ["id"] "fk_sys_permission_parent";
      PrimaryKeyConstraint ["id"];
      UniqueConstraint ["permission_code"] "uk_sys_permission_code"
     ] "系统权限表";
   create_index "idx_sys_permission_parent_id" "sys_permission" ["parent_id"];
   create_index "idx_sys_permission_type_status" "sys_permission" ["permission_type"; "status"]
  ].

Definition sys_role : list ddl :=
  [
   create_table "sys_role"
     [
      Column "id" (BIGINT true) [Autoincrement; Nullable false; Comment "角色ID"];
      Column "role_code" (VARCHAR 64) [Nullable false; Comment "角色编码"];
      Column "role_name" (VARCHAR 64) [Nullable false; Comment "角色名称"];
      Column "description" (VARCHAR 255) [Nullable true; Comment "角色描述"];
      Column "status" TINYINT [ServerDefault "1"; Nullable false; Comment "状态：0禁用，1启用"];
      Column "created_at" (DATETIME 3) [ServerDefault "CURRENT_TIMESTAMP(3)"; Nullable false];
      Column "updated_at" (DATETIME 3) [ServerDefault "CURRENT_TIMESTAMP(3) ON UPDATE CURRENT_TIMESTAMP(3)";
        Nullable false];
      PrimaryKeyConstraint ["id"];
      UniqueConstraint ["role_code"] "uk_sys_role_code"
     ] "系统角色表";
   create_index "idx_sys_role_status" "sys_role" ["status"]
  ].

Definition sys_user : list ddl :=
  [
   create_table "sys_user"
     [
      Column "id" (BIGINT true) [Autoincrement; Nullable false; Comment "用户ID"];
      Column "username" (VARCHAR 64) [Nullable false; Comment "登录用户名"];
      Column "password_hash" (VARCHAR 255) [Nullable false; Comment "密码哈希"];
      Column "nickname" (VARCHAR 64) [Nullable true; Comment "用户昵称"];
      Column "email" (VARCHAR 128) [Nullable true; Comment "邮箱"];
      Column "phone" (VARCHAR 32) [Nullable true; Comment "手机号"];
      Column "status" TINYINT [ServerDefault "1"; Nullable false; Comment "状态：0禁用，1启用"];
      Column "last_login_at" (DATETIME 3) [Nullable true; Comment "最后登录时间"];
      Column "last_login_ip" (VARCHAR 64) [Nullable true; Comment "最后登录IP"];
      Column "created_at" (DATETIME 3) [ServerDefault "CURRENT_TIMESTAMP(3)"; Nullable false];
      Column "updated_at" (DATETIME 3) [ServerDefault "CURRENT_TIMESTAMP(3) ON UPDATE CURRENT_TIMESTAMP(3)";
        Nullable false];
      Column "deleted_at" (DATETIME 3) [Nullable true; Comment "软删除时间"];
      PrimaryKeyConstraint ["id"];
      UniqueConstraint ["email"] "uk_sys_user_email";
      UniqueConstraint ["username"] "uk_sys_user_username"
     ] "系统用户表";
   create_index "idx_sys_user_deleted_at" "sys_user" ["deleted_at"];
   create_index "idx_sys_user_status" "sys_user" ["status"]
  ].

Definition alert_rule : list ddl :=
  [
   create_table "alert_rule"
     [
      Column "id" (BIGINT true) [Autoincrement; Nullable false; Comment "告警规则ID"];
      Column "rule_name" (VARCHAR 128) [Nullable false; Comment "规则名称"];
      Column "metric_type" (VARCHAR 64) [Nullable false; Comment "CPU/MEMORY/DISK/LOAD/AGENT/SERVICE/CONTAINER"];
      Column "target_type" (VARCHAR 32) [ServerDefault "'SERVER'"; Nullable false;
        Comment "SERVER/DISK/CONTAINER/SERVICE"];
      Column "severity" (VARCHAR 16) [Nullable false; Comment "WARNING/CRITICAL"];
      Column "operator" (VARCHAR 8) [Nullable false; Comment "GT/GTE/LT/LTE/EQ"];
      Column "threshold" (NUMERIC 12 4) [Nullable true; Comment "数值阈值"];
      Column "duration_seconds" (INTEGER true) [ServerDefault "0"; Nullable false; Comment "持续异常时间，单位：秒"];
      Column "recovery_threshold" (NUMERIC 12 4) [Nullable true; Comment "恢复阈值，可为空"];
      Column "enabled" TINYINT [ServerDefault "1"; Nullable false; Comment "是否启用"];
      Column "description" (VARCHAR 500) [Nullable true; Comment "规则描述"];
      Column "created_by" (BIGINT true) [Nullable true; Comment "创建人"];
      Column "created_at" (DATETIME 3) [ServerDefault "CURRENT_TIMESTAMP(3)"; Nullable false];
      Column "updated_at" (DATETIME 3) [ServerDefault "CURRENT_TIMESTAMP(3) ON UPDATE CURRENT_TIMESTAMP(3)";
        Nullable false];
      ForeignKeyConstraint ["created_by"] "sys_user" ["id"] "fk_alert_rule_created_by";
      PrimaryKeyConstraint ["id"]
     ] "告警规则表";
   create_index "fk_alert_rule_created_by" "alert_rule" ["created_by"];
   create_index "idx_alert_rule_metric_enabled" "alert_rule" ["metric_type"; "enabled"];
   create_index "idx_alert_rule_target_enabled" "alert_rule" ["target_type"; "enabled"]
  ].

Definition ops_server : list ddl :=
  [
   create_table "ops_server"
     [
      Column "id" (BIGINT true) [Autoincrement; Nullable false; Comment "服务器ID"];
      Column "server_code" (VARCHAR 64) [Nullable false; Comment "服务器唯一编码"];
      Column "hostname" (VARCHAR 128) [Nullable false; Comment "主机名"];
      Column "ip_address" (VARCHAR 64) [Nullable false; Comment "服务器IP地址"];
      Column "ssh_port" (SMALLINT true) [ServerDefault "22"; Nullable false; Comment "SSH端口"];
      Column "os_name" (VARCHAR 128) [Nullable true; Comment "操作系统名称"];
      Column "os_version" (VARCHAR 128) [Nullable true; Comment "操作系统版本"];
      Column "kernel_version" (VARCHAR 128) [Nullable true; Comment "内核版本"];
      Column "architecture" (VARCHAR 32) [Nullable true; Comment "系统架构"];
      Column "cpu_model" (VARCHAR 255) [Nullable true; Comment "CPU型号"];
      Column "cpu_cores" (INTEGER true) [Nullable true; Comment "CPU逻辑核心数"];
      Column "memory_total_bytes" (BIGINT true) [Nullable true; Comment "内存总量，单位：字节"];
      Column "disk_total_bytes" (BIGINT true) [Nullable true; Comment "磁盘总量，单位：字节"];
      Column "agent_version" (VARCHAR 32) [Nullable true; Comment "Agent版本"];
      Column "agent_status" (VARCHAR 16) [ServerDefault "'OFFLINE'"; Nullable false;
        Comment "Agent状态：ONLINE/WARNING/OFFLINE/UNKNOWN"];
      Column "last_heartbeat_at" (DATETIME 3) [Nullable true; Comment "最后心跳时间"];
      Column "registered_at" (DATETIME 3) [Nullable true; Comment "Agent注册时间"];
      Column "status" TINYINT [ServerDefault "1"; Nullable false; Comment "资产状态：0停用，1启用"];
      Column "remark" (VARCHAR 500) [Nullable true; Comment "备注"];
      Column "created_by" (BIGINT true) [Nullable true; Comment "创建人"];
      Column "created_at" (DATETIME 3) [ServerDefault "CURRENT_TIMESTAMP(3)"; Nullable false];
      Column "updated_at" (DATETIME 3) [ServerDefault "CURRENT_TIMESTAMP(3) ON UPDATE CURRENT_TIMESTAMP(3)";
        Nullable false];
      Column "deleted_at" (DATETIME 3) [Nullable true; Comment "软删除时间"];
      ForeignKeyConstraint ["created_by"] "sys_user" ["id"] "fk_ops_server_created_by";
      PrimaryKeyConstraint ["id"];
      UniqueConstraint ["ip_address"; "ssh_port"] "uk_ops_server_ip_port";
      UniqueConstraint ["server_code"] "uk_ops_server_code"
     ] "服务器资产表";
   create_index "fk_ops_server_created_by" "ops_server" ["created_by"];
   create_index "idx_ops_server_agent_status" "ops_server" ["agent_status"];
   create_index "idx_ops_server_hostname" "ops_server" ["hostname"];
   create_index "idx_ops_server_last_heartbeat" "ops_server" ["last_heartbeat_at"];
   create_index "idx_ops_server_status" "ops_server" ["status"]
  ].

Definition ops_task : list ddl :=
  [
   create_table "ops_task"
     [
      Column "id" (BIGINT true) [Autoincrement; Nullable false; Comment "任务ID"];
      Column "task_name" (VARCHAR 128) [Nullable false; Comment "任务名称"];
      Column "task_type" (VARCHAR 32) [Nullable false; Comment "SERVICE_CHECK/SERVICE_ACTION/SHELL_LIMITED"];
      Column "action" (VARCHAR 32) [Nullable true; Comment "STATUS/START/STOP/RESTART"];
      Column "service_name" (VARCHAR 64) [Nullable true; Comment "经过白名单校验的服务名称"];
      Column "schedule_type" (VARCHAR 16) [ServerDefault "'ONCE'"; Nullable false; Comment "ONCE/CRON"];
      Column "cron_expression" (VARCHAR 128) [Nullable true; Comment "Cron表达式"];
      Column "status" (VARCHAR 24) [ServerDefault "'CREATED'"; Nullable false;
        Comment "CREATED/PENDING/RUNNING/SUCCESS/FAILED/TIMEOUT/CANCELLED"];
      Column "created_by" (BIGINT true) [Nullable false; Comment "创建人"];
      Column "started_at" (DATETIME 3) [Nullable true; Comment "开始时间"];
      Column "finished_at" (DATETIME 3) [Nullable true; Comment "结束时间"];
      Column "timeout_seconds" (INTEGER true) [ServerDefault "300"; Nullable false; Comment "超时时间，单位：秒"];
      Column "confirmation_required" TINYINT [ServerDefault "0"; Nullable false; Comment "是否需要二次确认"];
      Column "confirmed_by" (BIGINT true) [Nullable true; Comment "确认人"];
      Column "confirmed_at" (DATETIME 3) [Nullable true; Comment "确认时间"];
      Column "created_at" (DATETIME 3) [ServerDefault "CURRENT_TIMESTAMP(3)"; Nullable false];
      Column "updated_at" (DATETIME 3) [ServerDefault "CURRENT_TIMESTAMP(3) ON UPDATE CURRENT_TIMESTAMP(3)";
        Nullable false];
      ForeignKeyConstraint ["confirmed_by"] "sys_user" ["id"] "fk_ops_task_confirmed_by";
      ForeignKeyConstraint ["created_by"] "sys_user" ["id"] "fk_ops_task_created_by";
      PrimaryKeyConstraint ["id"]
     ] "运维任务表";
   create_index "fk_ops_task_confirmed_by" "ops_task" ["confirmed_by"];
   create_index "idx_ops_task_creator_time" "ops_task" ["created_by"; "created_at"];
   create_index "idx_ops_task_schedule" "ops_task" ["schedule_type"; "status"];
   create_index "idx_ops_task_status" "ops_task" ["status"]
  ].

Definition sys_login_log : list ddl :=
  [
   create_table "sys_login_log"
     [
      Column "id" (BIGINT true) [Autoincrement; Nullable false; Comment "登录日志ID"];
      Column "user_id" (BIGINT true) [Nullable true; Comment "用户ID，登录失败时可为空"];
      Column "username" (VARCHAR 64) [Nullable false; Comment "登录用户名"];
      Column "login_ip" (VARCHAR 64) [Nullable true; Comment "登录IP"];
      Column "user_agent" (VARCHAR 500) [Nullable true; Comment "浏览器User-Agent"];
      Column "login_status" (VARCHAR 16) [Nullable false; Comment "SUCCESS/FAILED/LOCKED"];
      Column "failure_reason" (VARCHAR 255) [Nullable true; Comment "失败原因"];
      Column "request_id" (VARCHAR 64) [Nullable true; Comment "请求ID"];
      Column "created_at" (DATETIME 3) [ServerDefault "CURRENT_TIMESTAMP(3)"; Nullable false];
      ForeignKeyConstraint ["user_id"] "sys_user" ["id"] "fk_sys_login_log_user";
      PrimaryKeyConstraint ["id"]
     ] "用户登录日志表";
   create_index "idx_sys_login_log_status_time" "sys_login_log" ["login_status"; "created_at"];
   create_index "idx_sys_login_log_user_time" "sys_login_log" ["user_id"; "created_at"];
   create_index "idx_sys_login_log_username_time" "sys_login_log" ["username"; "created_at"]
  ].

Definition sys_role_permission : list ddl :=
  [
   create_table "sys_role_permission"
     [
      Column "role_id" (BIGINT true) [Nullable false; Comment "角色ID"];
      Column "permission_id" (BIGINT true) [Nullable false; Comment "权限ID"];
      Column "created_at" (DATETIME 3) [ServerDefault "CURRENT_TIMESTAMP(3)"; Nullable false];
      ForeignKeyConstraint ["permission_id"] "sys_permission" ["id"] "fk_sys_role_permission_permission";
      ForeignKeyConstraint ["role_id"] "sys_role" ["id"] "fk_sys_role_permission_role";
      PrimaryKeyConstraint ["role_id"; "permission_id"]
     ] "角色权限关联表";
   create_index "idx_sys_role_permission_permission_id" "sys_role_permission" ["permission_id"]
  ].

Definition sys_user_role : list ddl :=
  [
   create_table "sys_user_role"
     [
      Column "user_id" (BIGINT true) [Nullable false; Comment "用户ID"];
      Column "role_id" (BIGINT true) [Nullable false; Comment "角色ID"];
      Column "created_at" (DATETIME 3) [ServerDefault "CURRENT_TIMESTAMP(3)"; Nullable false];
      ForeignKeyConstraint ["role_id"] "sys_role" ["id"] "fk_sys_user_role_role";
      ForeignKeyConstraint ["user_id"] "sys_user" ["id"] "fk_sys_user_role_user";
      PrimaryKeyConstraint ["user_id"; "role_id"]
     ] "用户角色关联表";
   create_index "idx_sys_user_role_role_id" "sys_user_role" ["role_id"]
  ].

Definition alert_event : list ddl :=
  [
   create_table "alert_event"
     [
      Column "id" (BIGINT true) [Autoincrement; Nullable false; Comment "告警事件ID"];
      Column "rule_id" (BIGINT true) [Nullable false; Comment "告警规则ID"];
      Column "server_id" (BIGINT true) [Nullable true; Comment "服务器ID"];
      Column "resource_type" (VARCHAR 32) [ServerDefault "'SERVER'"; Nullable false; Comment "资源类型"];
      Column "resource_id" (BIGINT true) [Nullable true; Comment "资源ID"];
      Column "alert_key" (VARCHAR 255) [Nullable false; Comment "告警指纹，用于活动告警去重"];
      Column "metric_type" (VARCHAR 64) [Nullable false; Comment "指标类型"];
      Column "severity" (VARCHAR 16) [Nullable false; Comment "WARNING/CRITICAL"];
      Column "status" (VARCHAR 24) [ServerDefault "'PENDING'"; Nullable false;
        Comment "PENDING/FIRING/ACKNOWLEDGED/RESOLVED"];
      Column "is_active" TINYINT
        [Computed "CASE WHEN status IN ('PENDING', 'FIRING', 'ACKNOWLEDGED') THEN 1 ELSE NULL END"; Nullable true;
        Comment "活动告警标记，用于唯一约束"];
      Column "first_fired_at" (DATETIME 3) [Nullable true; Comment "首次触发时间"];
      Column "last_fired_at" (DATETIME 3) [Nullable true; Comment "最近触发时间"];
      Column "acknowledged_by" (BIGINT true) [Nullable true; Comment "确认人"];
      Column "acknowledged_at" (DATETIME 3) [Nullable true; Comment "确认时间"];
      Column "resolved_at" (DATETIME 3) [Nullable true; Comment "恢复时间"];
      Column "current_value" (NUMERIC 12 4) [Nullable true; Comment "当前指标值"];
      Column "threshold_value" (NUMERIC 12 4) [Nullable true; Comment "触发阈值"];
      Column "message" (VARCHAR 500) [Nullable false; Comment "告警消息"];
      Column "created_at" (DATETIME 3) [ServerDefault "CURRENT_TIMESTAMP(3)"; Nullable false];
      Column "updated_at" (DATETIME 3) [ServerDefault "CURRENT_TIMESTAMP(3) ON UPDATE CURRENT_TIMESTAMP(3)";
        Nullable false];
      ForeignKeyConstraint ["acknowledged_by"] "sys_user" ["id"] "fk_alert_event_acknowledged_by";
      ForeignKeyConstraint ["rule_id"] "alert_rule" ["id"] "fk_alert_event_rule";
      ForeignKeyConstraint ["server_id"] "ops_server" ["id"] "fk_alert_event_server";
      PrimaryKeyConstraint ["id"];
      UniqueConstraint ["alert_key"; "is_active"] "uk_alert_event_active_key"
     ] "告警事件表";
   create_index "fk_alert_event_acknowledged_by" "alert_event" ["acknowledged_by"];
   create_index "idx_alert_event_rule_id" "alert_event" ["rule_id"];
   create_index "idx_alert_event_server_status" "alert_event" ["server_id"; "status"];
   create_index "idx_alert_event_status_time" "alert_event" ["status"; "created_at"]
  ].

Definition monitor_process_snapshot : list ddl :=
  [
   create_table "monitor_process_snapshot"
     [
      Column "id" (BIGINT true) [Autoincrement; Nullable false; Comment "进程快照记录ID"];
      Column "server_id" (BIGINT true) [Nullable false; Comment "服务器ID"];
      Column "process_pid" (INTEGER true) [Nullable false; Comment "进程PID"];
      Column "process_name" (VARCHAR 255) [Nullable true; Comment "进程名称"];
      Column "username" (VARCHAR 128) [Nullable true; Comment "进程所属用户"];
      Column "cpu_percent" (NUMERIC 7 3) [Nullable true; Comment "进程CPU使用率"];
      Column "memory_percent" (NUMERIC 7 3) [Nullable true; Comment "进程内存使用率"];
      Column "memory_bytes" (BIGINT true) [Nullable true; Comment "进程内存占用"];
      Column "process_status" (VARCHAR 32) [Nullable true; Comment "进程状态"];
      Column "command_line" TEXT [Nullable true; Comment "命令行，注意脱敏"];
      Column "collected_at" (DATETIME 3) [Nullable false; Comment "采集时间"];
      Column "created_at" (DATETIME 3) [ServerDefault "CURRENT_TIMESTAMP(3)"; Nullable false];
      ForeignKeyConstraint ["server_id"] "ops_server" ["id"] "fk_monitor_process_snapshot_server";
      PrimaryKeyConstraint ["id"]
     ] "服务器进程快照表";
   create_index "idx_monitor_process_snapshot_server_pid_time" "monitor_process_snapshot" ["server_id"; "process_pid";
     "collected_at"];
   create_index "idx_monitor_process_snapshot_server_time" "monitor_process_snapshot" ["server_id"; "collected_at"]
  ].

Definition monitor_server_metric : list ddl :=
  [
   create_table "monitor_server_metric"
     [
      Column "id" (BIGINT true) [Autoincrement; Nullable false; Comment "指标记录ID"];
      Column "server_id" (BIGINT true) [Nullable false; Comment "服务器ID"];
      Column "collected_at" (DATETIME 3) [Nullable false; Comment "采集时间"];
      Column "cpu_usage" (NUMERIC 5 2) [Nullable true; Comment "CPU使用率，百分比"];
      Column "memory_usage" (NUMERIC 5 2) [Nullable true; Comment "内存使用率，百分比"];
      Column "memory_used_bytes" (BIGINT true) [Nullable true; Comment "已使用内存，单位：字节"];
      Column "disk_usage" (NUMERIC 5 2) [Nullable true; Comment "整体磁盘使用率，百分比"];
      Column "network_in_bytes" (BIGINT true) [Nullable true; Comment "累计入站字节数"];
      Column "network_out_bytes" (BIGINT true) [Nullable true; Comment "累计出站字节数"];
      Column "load_1m" (NUMERIC 10 2) [Nullable true; Comment "1分钟Load"];
      Column "load_5m" (NUMERIC 10 2) [Nullable true; Comment "5分钟Load"];
      Column "load_15m" (NUMERIC 10 2) [Nullable true; Comment "15分钟Load"];
      Column "tcp_connections" (INTEGER true) [Nullable true; Comment "TCP连接数"];
      Column "uptime_seconds" (BIGINT true) [Nullable true; Comment "系统运行时长，单位：秒"];
      Column "created_at" (DATETIME 3) [ServerDefault "CURRENT_TIMESTAMP(3)"; Nullable false];
      ForeignKeyConstraint ["server_id"] "ops_server" ["id"] "fk_monitor_server_metric_server";
      PrimaryKeyConstraint ["id"]
     ] "服务器监控指标表";
   create_index "idx_monitor_server_metric_collected_at" "monitor_server_metric" ["collected_at"];
   create_index "idx_monitor_server_metric_server_time" "monitor_server_metric" ["server_id"; "collected_at"]
  ].

Definition ops_agent_heartbeat : list ddl :=
  [
   create_table "ops_agent_heartbeat"
     [
      Column "id" (BIGINT true) [Autoincrement; Nullable false; Comment "心跳记录ID"];
      Column "server_id" (BIGINT true) [Nullable false; Comment "服务器ID"];
      Column "agent_version" (VARCHAR 32) [Nullable true; Comment "Agent版本"];
      Column "ip_address" (VARCHAR 64) [Nullable true; Comment "Agent上报IP"];
      Column "collected_at" (DATETIME 3) [Nullable false; Comment "心跳时间"];
      Column "received_at" (DATETIME 3) [ServerDefault "CURRENT_TIMESTAMP(3)"; Nullable false; Comment "服务端接收时间"];
      Column "created_at" (DATETIME 3) [ServerDefault "CURRENT_TIMESTAMP(3)"; Nullable false];
      ForeignKeyConstraint ["server_id"] "ops_server" ["id"] "fk_ops_agent_heartbeat_server";
      PrimaryKeyConstraint ["id"]
     ] "Agent心跳历史表";
   create_index "idx_ops_agent_heartbeat_received_at" "ops_agent_heartbeat" ["received_at"];
   create_index "idx_ops_agent_heartbeat_server_time" "ops_agent_heartbeat" ["server_id"; "collected_at"]
  ].

Definition ops_agent_token : list ddl :=
  [
   create_table "ops_agent_token"
     [
      Column "id" (BIGINT true) [Autoincrement; Nullable false; Comment "Token记录ID"];
      Column "server_id" (BIGINT true) [Nullable false; Comment "服务器ID"];
      Column "token_name" (VARCHAR 64) [Nullable false; Comment "Token名称"];
      Column "token_prefix" (VARCHAR 16) [Nullable false; Comment "Token前缀，用于识别"];
      Column "token_hash" (CHAR 64) [Nullable false; Comment "Token哈希，不保存明文"];
      Column "status" TINYINT [ServerDefault "1"; Nullable false; Comment "状态：0撤销，1有效"];
      Column "expires_at" (DATETIME 3) [Nullable true; Comment "过期时间"];
      Column "last_used_at" (DATETIME 3) [Nullable true; Comment "最后使用时间"];
      Column "created_at" (DATETIME 3) [ServerDefault "CURRENT_TIMESTAMP(3)"; Nullable false];
      Column "revoked_at" (DATETIME 3) [Nullable true; Comment "撤销时间"];
      ForeignKeyConstraint ["server_id"] "ops_server" ["id"] "fk_ops_agent_token_server";
      PrimaryKeyConstraint ["id"];
      UniqueConstraint ["token_hash"] "uk_ops_agent_token_hash"
     ] "Agent鉴权Token表";
   create_index "idx_ops_agent_token_server_status" "ops_agent_token" ["server_id"; "status"]
  ].

Definition ops_server_container : list ddl :=
  [
   create_table "ops_server_container"
     [
      Column "id" (BIGINT true) [Autoincrement; Nullable false; Comment "容器资产ID"];
      Column "server_id" (BIGINT true) [Nullable false; Comment "服务器ID"];
      Column "container_id" (VARCHAR 128) [Nullable false; Comment "容器ID"];
      Column "container_name" (VARCHAR 255) [Nullable false; Comment "容器名称"];
      Column "image_name" (VARCHAR 255) [Nullable true; Comment "镜像名称"];
      Column "container_status" (VARCHAR 32) [Nullable true; Comment "RUNNING/STOPPED/PAUSED/EXITED"];
      Column "restart_count" (INTEGER true) [Nullable true; Comment "重启次数"];
      Column "container_created_at" (DATETIME 3) [Nullable true; Comment "容器创建时间"];
      Column "is_critical" TINYINT [ServerDefault "0"; Nullable false; Comment "是否为关键容器"];
      Column "last_seen_at" (DATETIME 3) [Nullable true; Comment "最后发现时间"];
      Column "status" TINYINT [ServerDefault "1"; Nullable false; Comment "状态：0停用，1启用"];
      Column "created_at" (DATETIME 3) [ServerDefault "CURRENT_TIMESTAMP(3)"; Nullable false];
      Column "updated_at" (DATETIME 3) [ServerDefault "CURRENT_TIMESTAMP(3) ON UPDATE CURRENT_TIMESTAMP(3)";
        Nullable false];
      ForeignKeyConstraint ["server_id"] "ops_server" ["id"] "fk_ops_server_container_server";
      PrimaryKeyConstraint ["id"];
      UniqueConstraint ["server_id"; "container_id"] "uk_ops_server_container"
     ] "Docker容器资产表";
   create_index "idx_ops_server_container_critical" "ops_server_container" ["is_critical"; "container_status"];
   create_index "idx_ops_server_container_status" "ops_server_container" ["server_id"; "container_status"]
  ].

Definition ops_server_disk : list ddl :=
  [
   create_table "ops_server_disk"
     [
      Column "id" (BIGINT true) [Autoincrement; Nullable false; Comment "磁盘资产ID"];
      Column "server_id" (BIGINT true) [Nullable false; Comment "服务器ID"];
      Column "device_name" (VARCHAR 128) [Nullable false; Comment "设备名称"];
      Column "mount_point" (VARCHAR 255) [Nullable true; Comment "挂载点"];
      Column "filesystem" (VARCHAR 64) [Nullable true; Comment "文件系统"];
      Column "total_bytes" (BIGINT true) [Nullable true; Comment "磁盘总量，单位：字节"];
      Column "status" TINYINT [ServerDefault "1"; Nullable false; Comment "状态：0停用，1启用"];
      Column "created_at" (DATETIME 3) [ServerDefault "CURRENT_TIMESTAMP(3)"; Nullable false];
      Column "updated_at" (DATETIME 3) [ServerDefault "CURRENT_TIMESTAMP(3) ON UPDATE CURRENT_TIMESTAMP(3)";
        Nullable false];
      ForeignKeyConstraint ["server_id"] "ops_server" ["id"] "fk_ops_server_disk_server";
      PrimaryKeyConstraint ["id"];
      UniqueConstraint ["server_id"; "device_name"; "mount_point"] "uk_ops_server_disk"
     ] "服务器磁盘资产表";
   create_index "idx_ops_server_disk_server_id" "ops_server_disk" ["server_id"]
  ].

Definition ops_server_network : list ddl :=
  [
   create_table "ops_server_network"
     [
      Column "id" (BIGINT true) [Autoincrement; Nullable false; Comment "网卡资产ID"];
      Column "server_id" (BIGINT true) [Nullable false; Comment "服务器ID"];
      Column "interface_name" (VARCHAR 128) [Nullable false; Comment "网卡名称"];
      Column "mac_address" (VARCHAR 64) [Nullable true; Comment "MAC地址"];
      Column "ip_address" (VARCHAR 64) [Nullable true; Comment "网卡IP地址"];
      Column "status" TINYINT [ServerDefault "1"; Nullable false; Comment "状态：0停用，1启用"];
      Column "created_at" (DATETIME 3) [ServerDefault "CURRENT_TIMESTAMP(3)"; Nullable false];
      Column "updated_at" (DATETIME 3) [ServerDefault "CURRENT_TIMESTAMP(3) ON UPDATE CURRENT_TIMESTAMP(3)";
        Nullable false];
      ForeignKeyConstraint ["server_id"] "ops_server" ["id"] "fk_ops_server_network_server";
      PrimaryKeyConstraint ["id"];
      UniqueConstraint ["server_id"; "interface_name"] "uk_ops_server_network_interface"
     ] "服务器网卡资产表";
   create_index "idx_ops_server_network_server_id" "ops_server_network" ["server_id"]
  ].

Definition ops_server_service : list ddl :=
  [
   create_table "ops_server_service"
     [
      Column "id" (BIGINT true) [Autoincrement; Nullable false; Comment "服务资产ID"];
      Column "server_id" (BIGINT true) [Nullable false; Comment "服务器ID"];
      Column "service_name" (VARCHAR 64) [Nullable false; Comment "systemd服务名称"];
      Column "display_name" (VARCHAR 128) [Nullable true; Comment "展示名称"];
      Column "service_type" (VARCHAR 32) [ServerDefault "'SYSTEMD'"; Nullable false; Comment "SYSTEMD/DOCKER/CUSTOM"];
      Column "is_whitelisted" TINYINT [ServerDefault "1"; Nullable false; Comment "是否允许执行受控操作"];
      Column "is_critical" TINYINT [ServerDefault "0"; Nullable false; Comment "是否为关键服务"];
      Column "current_status" (VARCHAR 32) [Nullable true; Comment "RUNNING/STOPPED/FAILED/UNKNOWN"];
      Column "last_checked_at" (DATETIME 3) [Nullable true; Comment "最后检查时间"];
      Column "status" TINYINT [ServerDefault "1"; Nullable false; Comment "状态：0停用，1启用"];
      Column "created_at" (DATETIME 3) [ServerDefault "CURRENT_TIMESTAMP(3)"; Nullable false];
      Column "updated_at" (DATETIME 3) [ServerDefault "CURRENT_TIMESTAMP(3) ON UPDATE CURRENT_TIMESTAMP(3)";
        Nullable false];
      ForeignKeyConstraint ["server_id"] "ops_server" ["id"] "fk_ops_server_service_server";
      PrimaryKeyConstraint ["id"];
      UniqueConstraint ["server_id"; "service_name"] "uk_ops_server_service"
     ] "服务器服务资产表";
   create_index "idx_ops_server_service_critical" "ops_server_service" ["is_critical"; "current_status"];
   create_index "idx_ops_server_service_status" "ops_server_service" ["server_id"; "current_status"]
  ].

Definition ops_task_target : list ddl :=
  [
   create_table "ops_task_target"
     [
      Column "id" (BIGINT true) [Autoincrement; Nullable false; Comment "任务目标ID"];
      Column "task_id" (BIGINT true) [Nullable false; Comment "任务ID"];
      Column "server_id" (BIGINT true) [Nullable false; Comment "目标服务器ID"];
      Column "target_status" (VARCHAR 24) [ServerDefault "'PENDING'"; Nullable false;
        Comment "PENDING/RUNNING/SUCCESS/FAILED/TIMEOUT/CANCELLED"];
      Column "created_at" (DATETIME 3) [ServerDefault "CURRENT_TIMESTAMP(3)"; Nullable false];
      ForeignKeyConstraint ["server_id"] "ops_server" ["id"] "fk_ops_task_target_server";
      ForeignKeyConstraint ["task_id"] "ops_task" ["id"] "fk_ops_task_target_task";
      PrimaryKeyConstraint ["id"];
      UniqueConstraint ["task_id"; "server_id"] "uk_ops_task_target"
     ] "任务目标服务器表";
   create_index "idx_ops_task_target_server_id" "ops_task_target" ["server_id"];
   create_index "idx_ops_task_target_status" "ops_task_target" ["target_status"]
  ].

Definition sys_operation_log : list ddl :=
  [
   create_table "sys_operation_log"
     [
      Column "id" (BIGINT true) [Autoincrement; Nullable false; Comment "操作日志ID"];
      Column "user_id" (BIGINT true) [Nullable true; Comment "操作用户ID"];
      Column "username" (VARCHAR 64) [Nullable true; Comment "操作用户名快照"];
      Column "module" (VARCHAR 64) [Nullable false; Comment "操作模块"];
      Column "operation" (VARCHAR 64) [Nullable false; Comment "操作类型"];
      Column "http_method" (VARCHAR 16) [Nullable true; Comment "HTTP方法"];
      Column "request_path" (VARCHAR 255) [Nullable true; Comment "请求路径"];
      Column "target_type" (VARCHAR 32) [Nullable true; Comment "目标类型"];
      Column "target_id" (BIGINT true) [Nullable true; Comment "目标ID"];
      Column "server_id" (BIGINT true) [Nullable true; Comment "目标服务器ID"];
      Column "request_ip" (VARCHAR 64) [Nullable true; Comment "请求IP"];
      Column "request_id" (VARCHAR 64) [Nullable true; Comment "请求ID"];
      Column "request_params" JSON [Nullable true; Comment "请求参数，禁止记录密码和Token"];
      Column "result_status" (VARCHAR 24) [Nullable false; Comment "SUCCESS/FAILED"];
      Column "error_message" TEXT [Nullable true; Comment "错误信息"];
      Column "duration_ms" (BIGINT true) [Nullable true; Comment "请求耗时，单位：毫秒"];
      Column "created_at" (DATETIME 3) [ServerDefault "CURRENT_TIMESTAMP(3)"; Nullable false];
      ForeignKeyConstraint ["server_id"] "ops_server" ["id"] "fk_sys_operation_log_server";
      ForeignKeyConstraint ["user_id"] "sys_user" ["id"] "fk_sys_operation_log_user";
      PrimaryKeyConstraint ["id"]
     ] "系统操作审计日志表";
   create_index "idx_sys_operation_log_created_at" "sys_operation_log" ["created_at"];
   create_index "idx_sys_operation_log_module_time" "sys_operation_log" ["module"; "created_at"];
   create_index "idx_sys_operation_log_server_time" "sys_operation_log" ["server_id"; "created_at"];
   create_index "idx_sys_operation_log_status_time" "sys_operation_log" ["result_status"; "created_at"];
   create_index "idx_sys_operation_log_user_time" "sys_operation_log" ["user_id"; "created_at"]
  ].

Definition alert_event_log : list ddl :=
  [
   create_table "alert_event_log"
     [
      Column "id" (BIGINT true) [Autoincrement; Nullable false; Comment "告警事件日志ID"];
      Column "event_id" (BIGINT true) [Nullable false; Comment "告警事件ID"];
      Column "old_status" (VARCHAR 24) [Nullable true; Comment "原状态"];
      Column "new_status" (VARCHAR 24) [Nullable false; Comment "新状态"];
      Column "current_value" (NUMERIC 12 4) [Nullable true; Comment "事件值"];
      Column "message" (VARCHAR 500) [Nullable true; Comment "状态变化说明"];
      Column "operator_id" (BIGINT true) [Nullable true; Comment "操作人，系统操作可为空"];
      Column "created_at" (DATETIME 3) [ServerDefault "CURRENT_TIMESTAMP(3)"; Nullable false];
      ForeignKeyConstraint ["event_id"] "alert_event" ["id"] "fk_alert_event_log_event";
      ForeignKeyConstraint ["operator_id"] "sys_user" ["id"] "fk_alert_event_log_operator";
      PrimaryKeyConstraint ["id"]
     ] "告警状态变化日志表";
   create_index "fk_alert_event_log_operator" "alert_event_log" ["operator_id"];
   create_index "idx_alert_event_log_event_time" "alert_event_log" ["event_id"; "created_at"]
  ].

Definition monitor_container_metric : list ddl :=
  [
   create_table "monitor_container_metric"
     [
      Column "id" (BIGINT true) [Autoincrement; Nullable false; Comment "容器指标记录ID"];
      Column "container_asset_id" (BIGINT true) [Nullable false; Comment "容器资产ID"];
      Column "server_id" (BIGINT true) [Nullable false; Comment "服务器ID"];
      Column "container_id" (VARCHAR 128) [Nullable false; Comment "容器ID快照"];
      Column "container_status" (VARCHAR 32) [Nullable true; Comment "RUNNING/STOPPED/PAUSED/EXITED"];
      Column "cpu_usage" (NUMERIC 7 3) [Nullable true; Comment "CPU使用率"];
      Column "memory_usage" (NUMERIC 7 3) [Nullable true; Comment "内存使用率"];
      Column "memory_used_bytes" (BIGINT true) [Nullable true; Comment "容器已使用内存"];
      Column "network_in_bytes" (BIGINT true) [Nullable true; Comment "累计入站字节数"];
      Column "network_out_bytes" (BIGINT true) [Nullable true; Comment "累计出站字节数"];
      Column "restart_count" (INTEGER true) [Nullable true; Comment "重启次数"];
      Column "collected_at" (DATETIME 3) [Nullable false; Comment "采集时间"];
      Column "created_at" (DATETIME 3) [ServerDefault "CURRENT_TIMESTAMP(3)"; Nullable false];
      ForeignKeyConstraint ["container_asset_id"] "ops_server_container" ["id"] "fk_monitor_container_metric_asset";
      ForeignKeyConstraint ["server_id"] "ops_server" ["id"] "fk_monitor_container_metric_server";
      PrimaryKeyConstraint ["id"]
     ] "Docker容器监控指标表";
   create_index "idx_monitor_container_metric_asset_time" "monitor_container_metric" ["container_asset_id";
     "collected_at"];
   create_index "idx_monitor_container_metric_server_time" "monitor_container_metric" ["server_id"; "collected_at"]
  ].

Definition monitor_disk_metric : list ddl :=
  [
   create_table "monitor_disk_metric"
     [
      Column "id" (BIGINT true) [Autoincrement; Nullable false; Comment "磁盘指标记录ID"];
      Column "disk_id" (BIGINT true) [Nullable false; Comment "磁盘资产ID"];
      Column "server_id" (BIGINT true) [Nullable false; Comment "服务器ID"];
      Column "collected_at" (DATETIME 3) [Nullable false; Comment "采集时间"];
      Column "used_bytes" (BIGINT true) [Nullable true; Comment "已使用容量，单位：字节"];
      Column "total_bytes" (BIGINT true) [Nullable true; Comment "总容量，单位：字节"];
      Column "usage_percent" (NUMERIC 5 2) [Nullable true; Comment "使用率，百分比"];
      Column "read_bytes" (BIGINT true) [Nullable true; Comment "累计读取字节数"];
      Column "write_bytes" (BIGINT true) [Nullable true; Comment "累计写入字节数"];
      Column "created_at" (DATETIME 3) [ServerDefault "CURRENT_TIMESTAMP(3)"; Nullable false];
      ForeignKeyConstraint ["disk_id"] "ops_server_disk" ["id"] "fk_monitor_disk_metric_disk";
      ForeignKeyConstraint ["server_id"] "ops_server" ["id"] "fk_monitor_disk_metric_server";
      PrimaryKeyConstraint ["id"]
     ] "磁盘监控指标表";
   create_index "idx_monitor_disk_metric_disk_time" "monitor_disk_metric" ["disk_id"; "collected_at"];
   create_index "idx_monitor_disk_metric_server_time" "monitor_disk_metric" ["server_id"; "collected_at"]
  ].

Definition monitor_network_metric : list ddl :=
  [
   create_table "monitor_network_metric"
     [
      Column "id" (BIGINT true) [Autoincrement; Nullable false; Comment "网卡指标记录ID"];
      Column "network_id" (BIGINT true) [Nullable false; Comment "网卡资产ID"];
      Column "server_id" (BIGINT true) [Nullable false; Comment "服务器ID"];
      Column "collected_at" (DATETIME 3) [Nullable false; Comment "采集时间"];
      Column "bytes_received" (BIGINT true) [Nullable true; Comment "累计接收字节数"];
      Column "bytes_sent" (BIGINT true) [Nullable true; Comment "累计发送字节数"];
      Column "packets_received" (BIGINT true) [Nullable true; Comment "累计接收数据包数"];
      Column "packets_sent" (BIGINT true) [Nullable true; Comment "累计发送数据包数"];
      Column "errors_received" (INTEGER true) [Nullable true; Comment "接收错误数"];
      Column "errors_sent" (INTEGER true) [Nullable true; Comment "发送错误数"];
      Column "created_at" (DATETIME 3) [ServerDefault "CURRENT_TIMESTAMP(3)"; Nullable false];
      ForeignKeyConstraint ["network_id"] "ops_server_network" ["id"] "fk_monitor_network_metric_network";
      ForeignKeyConstraint ["server_id"] "ops_server" ["id"] "fk_monitor_network_metric_server";
      PrimaryKeyConstraint ["id"]
     ] "网卡监控指标表";
   create_index "idx_monitor_network_metric_network_time" "monitor_network_metric" ["network_id"; "collected_at"];
   create_index "idx_monitor_network_metric_server_time" "monitor_network_metric" ["server_id"; "collected_at"]
  ].

Definition ops_task_execution : list ddl :=
  [
   create_table "ops_task_execution"
     [
      Column "id" (BIGINT true) [Autoincrement; Nullable false; Comment "任务执行记录ID"];
      Column "task_id" (BIGINT true) [Nullable false; Comment "任务ID"];
      Column "target_id" (BIGINT true) [Nullable false; Comment "任务目标ID"];
      Column "server_id" (BIGINT true) [Nullable false; Comment "服务器ID"];
      Column "status" (VARCHAR 24) [ServerDefault "'PENDING'"; Nullable false;
        Comment "PENDING/RUNNING/SUCCESS/FAILED/TIMEOUT/CANCELLED"];
      Column "exit_code" (INTEGER false) [Nullable true; Comment "进程退出码"];
      Column "result_text" MEDIUMTEXT [Nullable true; Comment "执行结果"];
      Column "error_message" TEXT [Nullable true; Comment "错误信息"];
      Column "started_at" (DATETIME 3) [Nullable true; Comment "开始时间"];
      Column "finished_at" (DATETIME 3) [Nullable true; Comment "结束时间"];
      Column "duration_ms" (BIGINT true) [Nullable true; Comment "执行耗时，单位：毫秒"];
      Column "created_at" (DATETIME 3) [ServerDefault "CURRENT_TIMESTAMP(3)"; Nullable false];
      Column "updated_at" (DATETIME 3) [ServerDefault "CURRENT_TIMESTAMP(3) ON UPDATE CURRENT_TIMESTAMP(3)";
        Nullable false];
      ForeignKeyConstraint ["server_id"] "ops_server" ["id"] "fk_ops_task_execution_server";
      ForeignKeyConstraint ["target_id"] "ops_task_target" ["id"] "fk_ops_task_execution_target";
      ForeignKeyConstraint ["task_id"] "ops_task" ["id"] "fk_ops_task_execution_task";
      PrimaryKeyConstraint ["id"];
      UniqueConstraint ["task_id"; "target_id"] "uk_ops_task_execution_target"
     ] "任务执行记录表";
   create_index "fk_ops_task_execution_target" "ops_task_execution" ["target_id"];
   create_index "idx_ops_task_execution_server_time" "ops_task_execution" ["server_id"; "created_at"];
   create_index "idx_ops_task_execution_task_status" "ops_task_execution" ["task_id"; "status"]
  ].

Definition ops_task_log : list ddl :=
  [
   create_table "ops_task_log"
     [
      Column "id" (BIGINT true) [Autoincrement; Nullable false; Comment "任务日志ID"];
      Column "execution_id" (BIGINT true) [Nullable false; Comment "任务执行记录ID"];
      Column "log_level" (VARCHAR 16) [ServerDefault "'INFO'"; Nullable false; Comment "DEBUG/INFO/WARN/ERROR"];
      Column "log_content" MEDIUMTEXT [Nullable false; Comment "日志内容"];
      Column "created_at" (DATETIME 3) [ServerDefault "CURRENT_TIMESTAMP(3)"; Nullable false];
      ForeignKeyConstraint ["execution_id"] "ops_task_execution" ["id"] "fk_ops_task_log_execution";
      PrimaryKeyConstraint ["id"]
     ] "任务执行日志表";
   create_index "idx_ops_task_log_execution_time" "ops_task_log" ["execution_id"; "created_at"]
  ].

Definition upgrade : list ddl := sys_permission ++ sys_role ++ sys_user ++ alert_rule ++ ops_server ++ ops_task ++
  sys_login_log ++ sys_role_permission ++ sys_user_role ++ alert_event ++ monitor_process_snapshot ++
  monitor_server_metric ++ ops_agent_heartbeat ++ ops_agent_token ++ ops_server_container ++ ops_server_disk ++
  ops_server_network ++ ops_server_service ++ ops_task_target ++ sys_operation_log ++ alert_event_log ++
  monitor_container_metric ++ monitor_disk_metric ++ monitor_network_metric ++ ops_task_execution ++ ops_task_log.

Definition downgrade : list ddl :=
  [
   drop_index "idx_ops_task_log_execution_time" "ops_task_log";
   drop_table "ops_task_log";
   drop_index "idx_ops_task_execution_task_status" "ops_task_execution";
   drop_index "idx_ops_task_execution_server_time" "ops_task_execution";
   drop_index "fk_ops_task_execution_target" "ops_task_execution";
   drop_table "ops_task_execution";
   drop_index "idx_monitor_network_metric_server_time" "monitor_network_metric";
   drop_index "idx_monitor_network_metric_network_time" "monitor_network_metric";
   drop_table "monitor_network_metric";
   drop_index "idx_monitor_disk_metric_server_time" "monitor_disk_metric";
   drop_index "idx_monitor_disk_metric_disk_time" "monitor_disk_metric";
   drop_table "monitor_disk_metric";
   drop_index "idx_monitor_container_metric_server_time" "monitor_container_metric";
   drop_index "idx_monitor_container_metric_asset_time" "monitor_container_metric";
   drop_table "monitor_container_metric";
   drop_index "idx_alert_event_log_event_time" "alert_event_log";
   drop_index "fk_alert_event_log_operator" "alert_event_log";
   drop_table "alert_event_log";
   drop_index "idx_sys_operation_log_user_time" "sys_operation_log";
   drop_index "idx_sys_operation_log_status_time" "sys_operation_log";
   drop_index "idx_sys_operation_log_server_time" "sys_operation_log";
   drop_index "idx_sys_operation_log_module_time" "sys_operation_log";
   drop_index "idx_sys_operation_log_created_at" "sys_operation_log";
   drop_table "sys_operation_log";
   drop_index "idx_ops_task_target_status" "ops_task_target";
   drop_index "idx_ops_task_target_server_id" "ops_task_target";
   drop_table "ops_task_target";
   drop_index "idx_ops_server_service_status" "ops_server_service";
   drop_index "idx_ops_server_service_critical" "ops_server_service";
   drop_table "ops_server_service";
   drop_index "idx_ops_server_network_server_id" "ops_server_network";
   drop_table "ops_server_network";
   drop_index "idx_ops_server_disk_server_id" "ops_server_disk";
   drop_table "ops_server_disk";
   drop_index "idx_ops_server_container_status" "ops_server_container";
   drop_index "idx_ops_server_container_critical" "ops_server_container";
   drop_table "ops_server_container";
   drop_index "idx_ops_agent_token_server_status" "ops_agent_token";
   drop_table "ops_agent_token";
   drop_index "idx_ops_agent_heartbeat_server_time" "ops_agent_heartbeat";
   drop_index "idx_ops_agent_heartbeat_received_at" "ops_agent_heartbeat";
   drop_table "ops_agent_heartbeat";
   drop_index "idx_monitor_server_metric_server_time" "monitor_server_metric";
   drop_index "idx_monitor_server_metric_collected_at" "monitor_server_metric";
   drop_table "monitor_server_metric";
   drop_index "idx_monitor_process_snapshot_server_time" "monitor_process_snapshot";
   drop_index "idx_monitor_process_snapshot_server_pid_time" "monitor_process_snapshot";
   drop_table "monitor_process_snapshot";
   drop_index "idx_alert_event_status_time" "alert_event";
   drop_index "idx_alert_event_server_status" "alert_event";
   drop_index "idx_alert_event_rule_id" "alert_event";
   drop_index "fk_alert_event_acknowledged_by" "alert_event";
   drop_table "alert_event";
   drop_index "idx_sys_user_role_role_id" "sys_user_role";
   drop_table "sys_user_role";
   drop_index "idx_sys_role_permission_permission_id" "sys_role_permission";
   drop_table "sys_role_permission";
   drop_index "idx_sys_login_log_username_time" "sys_login_log";
   drop_index "idx_sys_login_log_user_time" "sys_login_log";
   drop_index "idx_sys_login_log_status_time" "sys_login_log";
   drop_table "sys_login_log";
   drop_index "idx_ops_task_status" "ops_task";
   drop_index "idx_ops_task_schedule" "ops_task";
   drop_index "idx_ops_task_creator_time" "ops_task";
   drop_index "fk_ops_task_confirmed_by" "ops_task";
   drop_table "ops_task";
   drop_index "idx_ops_server_status" "ops_server";
   drop_index "idx_ops_server_last_heartbeat" "ops_server";
   drop_index "idx_ops_server_hostname" "ops_server";
   drop_index "idx_ops_server_agent_status" "ops_server";
   drop_index "fk_ops_server_created_by" "ops_server";
   drop_table "ops_server";
   drop_index "idx_alert_rule_target_enabled" "alert_rule";
   drop_index "idx_alert_rule_metric_enabled" "alert_rule";
   drop_index "fk_alert_rule_created_by" "alert_rule";
   drop_table "alert_rule";
   drop_index "idx_sys_user_status" "sys_user";
   drop_index "idx_sys_user_deleted_at" "sys_user";
   drop_table "sys_user";
   drop_index "idx_sys_role_status" "sys_role";
   drop_table "sys_role";
   drop_index "idx_sys_permission_type_status" "sys_permission";
   drop_index "idx_sys_permission_parent_id" "sys_permission";
   drop_table "sys_permission"
  ].

Definition migration : migration := Migration "096f952de48e" None upgrade downgrade.
End initial_baseline.

Module task_retry_and_idempotency.
Definition upgrade : list ddl :=
  [
   add_column "ops_task" "max_attempts" (INTEGER true) [ServerDefault "3"; Nullable false; Comment "最大尝试次数"];
   add_column "ops_task" "attempt" (INTEGER true) [ServerDefault "0"; Nullable false; Comment "当前/最近尝试编号"];
   add_column "ops_task" "deadline_at" (DATETIME 3) [Nullable true; Comment "任务整体截止时间"];
   add_column "ops_task" "idempotency_key" (VARCHAR 128) [Nullable true; Comment "幂等键，防止重复创建"];
   create_unique_constraint "uk_ops_task_idempotency" "ops_task" ["idempotency_key"];
   add_column "ops_task_execution" "attempt" (INTEGER true) [ServerDefault "1"; Nullable false; Comment "尝试编号"];
   add_column "ops_task_execution" "next_retry_at" (DATETIME 3) [Nullable true; Comment "下次重试时间"];
   add_column "ops_task_execution" "error_type" (VARCHAR 32) [Nullable true; Comment "标准化错误类型"];
   alter_comment "ops_task_execution" "status" "PENDING/RUNNING/SUCCESS/FAILED/TIMEOUT/CANCELLED/RETRYING/DEAD"
     "PENDING/RUNNING/SUCCESS/FAILED/TIMEOUT/CANCELLED";
   drop_unique_constraint "uk_ops_task_execution_target" "ops_task_execution";
   create_unique_constraint "uk_ops_task_execution_target" "ops_task_execution" ["task_id"; "target_id"; "attempt"];
   create_index "idx_ops_task_execution_retry" "ops_task_execution" ["status"; "next_retry_at"]
  ].

Definition downgrade : list ddl :=
  [
   drop_index "idx_ops_task_execution_retry" "ops_task_execution";
   drop_unique_constraint "uk_ops_task_execution_target" "ops_task_execution";
   create_unique_constraint "uk_ops_task_execution_target" "ops_task_execution" ["task_id"; "target_id"];
   alter_comment "ops_task_execution" "status" "PENDING/RUNNING/SUCCESS/FAILED/TIMEOUT/CANCELLED"
     "PENDING/RUNNING/SUCCESS/FAILED/TIMEOUT/CANCELLED/RETRYING/DEAD";
   drop_column "ops_task_execution" "error_type";
   drop_column "ops_task_execution" "next_retry_at";
   drop_column "ops_task_execution" "attempt";
   drop_unique_constraint "uk_ops_task_idempotency" "ops_task";
   drop_column "ops_task" "idempotency_key";
   drop_column "ops_task" "deadline_at";
   drop_column "ops_task" "attempt";
   drop_column "ops_task" "max_attempts"
  ].

Definition migration : migration := Migration "b1805a5af57f" (Some "096f952de48e") upgrade downgrade.
End task_retry_and_idempotency.

Module agent_request_signing.
Definition upgrade : list ddl :=
  [
   add_column "ops_agent_token" "signing_public_key" (VARCHAR 128) [Nullable true;
     Comment "Ed25519 公钥（base64），用于请求签名"];
   add_column "ops_agent_token" "signing_algorithm" (VARCHAR 16) [ServerDefault "'ed25519'"; Nullable true;
     Comment "签名算法"];
   add_column "ops_agent_token" "key_registered_at" (DATETIME 3) [Nullable true; Comment "公钥注册时间"]
  ].

Definition downgrade : list ddl :=
  [
   drop_column "ops_agent_token" "key_registered_at";
   drop_column "ops_agent_token" "signing_algorithm";
   drop_column "ops_agent_token" "signing_public_key"
  ].

Definition migration : migration := Migration "7aa13a973276" (Some "b1805a5af57f") upgrade downgrade.
End agent_request_signing.

Module metric_daily_archive.
Definition monitor_server_metric_daily : list ddl :=
  [
   create_table "monitor_server_metric_daily"
     [
      Column "id" (BIGINT true) [Autoincrement; Nullable false; Comment "聚合记录ID"];
      Column "server_id" (BIGINT true) [Nullable false; Comment "服务器ID"];
      Column "metric_date" DATE [Nullable false; Comment "统计日期"];
      Column "cpu_usage_avg" (NUMERIC 12 4) [Nullable true; Comment "CPU 使用率均值"];
      Column "cpu_usage_max" (NUMERIC 12 4) [Nullable true; Comment "CPU 使用率峰值"];
      Column "memory_usage_avg" (NUMERIC 12 4) [Nullable true; Comment "内存使用率均值"];
      Column "memory_usage_max" (NUMERIC 12 4) [Nullable true; Comment "内存使用率峰值"];
      Column "disk_usage_avg" (NUMERIC 12 4) [Nullable true; Comment "磁盘使用率均值"];
      Column "disk_usage_max" (NUMERIC 12 4) [Nullable true; Comment "磁盘使用率峰值"];
      Column "load_1m_avg" (NUMERIC 12 4) [Nullable true; Comment "1分钟Load均值"];
      Column "load_1m_max" (NUMERIC 12 4) [Nullable true; Comment "1分钟Load峰值"];
      Column "tcp_connections_avg" (NUMERIC 12 4) [Nullable true; Comment "TCP连接数均值"];
      Column "tcp_connections_max" (NUMERIC 12 4) [Nullable true; Comment "TCP连接数峰值"];
      Column "sample_count" (INTEGER true) [Nullable false; Comment "参与聚合的原始样本数"];
      Column "created_at" (DATETIME 3) [ServerDefault "CURRENT_TIMESTAMP(3)"; Nullable false; Comment "创建时间"];
      Column "updated_at" (DATETIME 3) [ServerDefault "CURRENT_TIMESTAMP(3) ON UPDATE CURRENT_TIMESTAMP(3)";
        Nullable false; Comment "更新时间"];
      ForeignKeyConstraint ["server_id"] "ops_server" ["id"] "fk_metric_daily_server";
      PrimaryKeyConstraint ["id"];
      UniqueConstraint ["server_id"; "metric_date"] "uk_metric_daily_server_date"
     ] "服务器指标日聚合（长期归档）";
   create_index "idx_metric_daily_date" "monitor_server_metric_daily" ["metric_date"]
  ].

Definition upgrade : list ddl := monitor_server_metric_daily.

Definition downgrade : list ddl :=
  [
   drop_index "idx_metric_daily_date" "monitor_server_metric_daily";
   drop_table "monitor_server_metric_daily"
  ].

Definition migration : migration := Migration "4f50bb136572" (Some "7aa13a973276") upgrade downgrade.
End metric_daily_archive.

(** The revision files, as a directory lists them: in no particular order. *)
Definition versions : list migration :=
  [initial_baseline.migration; metric_daily_archive.migration; agent_request_signing.migration;
   task_retry_and_idempotency.migration].
