(* ===== verification/SchemaProps.v ===== *)
(** * The schema of the migrations, of the ORM classes and of the store

    The migrations build exactly the tables the ORM classes declare; each can
    be undone, up to what the server allows; and the constraints that the model
    of the database enforces ([Store.unique_conflict], [Store.refs]) are those
    of that schema, whose columns hold the fields of the model's rows. *)
From Stdlib Require Import QArith.
From S2P Require Import Prelude.
From S2P Require Export Store Migrations.
From S2P Require Metadata.
Abbreviation metadata := Metadata.metadata.

(** ** The rows of the store as rows of the schema *)

(** The table of a family of rows. *)
Definition table_name (k : tname) : string :=
  match k with
  | TTask => "ops_task"
  | TTarget => "ops_task_target"
  | TExec => "ops_task_execution"
  | TTaskLog => "ops_task_log"
  | TServer => "ops_server"
  | TToken => "ops_agent_token"
  | THeartbeat => "ops_agent_heartbeat"
  | TService => "ops_server_service"
  | TDisk => "ops_server_disk"
  | TNetwork => "ops_server_network"
  | TMetric => "monitor_server_metric"
  | TMetricDaily => "monitor_server_metric_daily"
  | TRule => "alert_rule"
  | TEvent => "alert_event"
  | TEventLog => "alert_event_log"
  | TUser => "sys_user"
  | TRole => "sys_role"
  | TUserRole => "sys_user_role"
  | TLoginLog => "sys_login_log"
  | TPermission => "sys_permission"
  | TRolePermission => "sys_role_permission"
  | TOperationLog => "sys_operation_log"
  end.

(** The value of a column that is not NULL. *)
Inductive value :=
  | Int (n : Z) | Text (s : string) | Number (q : Q) | Time (t : datetime) | Day (d : Z)
  | Document (params : list (string * string)).

(** SQL equality of two columns: NULL is equal to nothing. *)
Definition value_eqb (a b : option value) : bool :=
  match a, b with
  | Some (Int x), Some (Int y) | Some (Time x), Some (Time y) | Some (Day x), Some (Day y) => x =? y
  | Some (Text x), Some (Text y) => String.eqb x y
  | Some (Number x), Some (Number y) => Qeq_bool x y
  | Some (Document x), Some (Document y) => bool_decide (x = y)
  | _, _ => false
  end.

(** The columns of a row, with NULL as [None].  The association classes have no
    [id]: that of the model is the row's number. *)
Definition fields (k : tname) : row k → list (string * option value) :=
  match k with
  | TTask => λ r,
      [("id", Some (Int (OpsTask.id r))); ("task_name", Some (Text (OpsTask.task_name r)));
       ("task_type", Some (Text (OpsTask.task_type r))); ("action", Text <$> OpsTask.action r);
       ("service_name", Text <$> OpsTask.service_name r); ("schedule_type", Some (Text (OpsTask.schedule_type r)));
       ("cron_expression", Text <$> OpsTask.cron_expression r);
       ("status", Some (Text (task_status_str (OpsTask.status r))));
       ("created_by", Some (Int (OpsTask.created_by r))); ("started_at", Time <$> OpsTask.started_at r);
       ("finished_at", Time <$> OpsTask.finished_at r); ("timeout_seconds", Some (Int (OpsTask.timeout_seconds r)));
       ("max_attempts", Some (Int (OpsTask.max_attempts r))); ("attempt", Some (Int (OpsTask.attempt r)));
       ("deadline_at", Time <$> OpsTask.deadline_at r); ("idempotency_key", Text <$> OpsTask.idempotency_key r);
       ("confirmation_required", Some (Int (OpsTask.confirmation_required r)));
       ("confirmed_by", Int <$> OpsTask.confirmed_by r); ("confirmed_at", Time <$> OpsTask.confirmed_at r);
       ("created_at", Some (Time (OpsTask.created_at r)))]
  | TTarget => λ r,
      [("id", Some (Int (OpsTaskTarget.id r))); ("task_id", Some (Int (OpsTaskTarget.task_id r)));
       ("server_id", Some (Int (OpsTaskTarget.server_id r)));
       ("target_status", Some (Text (OpsTaskTarget.target_status r)));
       ("created_at", Some (Time (OpsTaskTarget.created_at r)))]
  | TExec => λ r,
      [("id", Some (Int (OpsTaskExecution.id r))); ("task_id", Some (Int (OpsTaskExecution.task_id r)));
       ("target_id", Some (Int (OpsTaskExecution.target_id r)));
       ("server_id", Some (Int (OpsTaskExecution.server_id r)));
       ("status", Some (Text (exec_status_str (OpsTaskExecution.status r))));
       ("attempt", Some (Int (OpsTaskExecution.attempt r)));
       ("next_retry_at", Time <$> OpsTaskExecution.next_retry_at r);
       ("error_type", Text <$> OpsTaskExecution.error_type r); ("exit_code", Int <$> OpsTaskExecution.exit_code r);
       ("result_text", Text <$> OpsTaskExecution.result_text r);
       ("error_message", Text <$> OpsTaskExecution.error_message r);
       ("started_at", Time <$> OpsTaskExecution.started_at r);
       ("finished_at", Time <$> OpsTaskExecution.finished_at r);
       ("duration_ms", Int <$> OpsTaskExecution.duration_ms r);
       ("created_at", Some (Time (OpsTaskExecution.created_at r)))]
  | TTaskLog => λ r,
      [("id", Some (Int (OpsTaskLog.id r))); ("execution_id", Some (Int (OpsTaskLog.execution_id r)));
       ("log_level", Some (Text (OpsTaskLog.log_level r))); ("log_content", Some (Text (OpsTaskLog.log_content r)));
       ("created_at", Some (Time (OpsTaskLog.created_at r)))]
  | TServer => λ r,
      [("id", Some (Int (OpsServer.id r))); ("server_code", Some (Text (OpsServer.server_code r)));
       ("hostname", Some (Text (OpsServer.hostname r))); ("ip_address", Some (Text (OpsServer.ip_address r)));
       ("ssh_port", Some (Int (OpsServer.ssh_port r))); ("os_name", Text <$> OpsServer.os_name r);
       ("os_version", Text <$> OpsServer.os_version r); ("kernel_version", Text <$> OpsServer.kernel_version r);
       ("architecture", Text <$> OpsServer.architecture r); ("cpu_model", Text <$> OpsServer.cpu_model r);
       ("cpu_cores", Int <$> OpsServer.cpu_cores r); ("memory_total_bytes", Int <$> OpsServer.memory_total_bytes r);
       ("disk_total_bytes", Int <$> OpsServer.disk_total_bytes r);
       ("agent_version", Text <$> OpsServer.agent_version r);
       ("agent_status", Some (Text (agent_status_str (OpsServer.agent_status r))));
       ("last_heartbeat_at", Time <$> OpsServer.last_heartbeat_at r);
       ("registered_at", Time <$> OpsServer.registered_at r); ("status", Some (Int (OpsServer.status r)));
       ("remark", Text <$> OpsServer.remark r); ("created_by", Int <$> OpsServer.created_by r);
       ("created_at", Some (Time (OpsServer.created_at r))); ("deleted_at", Time <$> OpsServer.deleted_at r)]
  | TToken => λ r,
      [("id", Some (Int (OpsAgentToken.id r))); ("server_id", Some (Int (OpsAgentToken.server_id r)));
       ("token_name", Some (Text (OpsAgentToken.token_name r)));
       ("token_prefix", Some (Text (OpsAgentToken.token_prefix r)));
       ("token_hash", Some (Text (OpsAgentToken.token_hash r)));
       ("signing_public_key", Text <$> OpsAgentToken.signing_public_key r);
       ("signing_algorithm", Text <$> OpsAgentToken.signing_algorithm r);
       ("key_registered_at", Time <$> OpsAgentToken.key_registered_at r);
       ("status", Some (Int (OpsAgentToken.status r))); ("expires_at", Time <$> OpsAgentToken.expires_at r);
       ("last_used_at", Time <$> OpsAgentToken.last_used_at r);
       ("created_at", Some (Time (OpsAgentToken.created_at r)));
       ("revoked_at", Time <$> OpsAgentToken.revoked_at r)]
  | THeartbeat => λ r,
      [("id", Some (Int (OpsAgentHeartbeat.id r))); ("server_id", Some (Int (OpsAgentHeartbeat.server_id r)));
       ("agent_version", Text <$> OpsAgentHeartbeat.agent_version r);
       ("ip_address", Text <$> OpsAgentHeartbeat.ip_address r);
       ("collected_at", Some (Time (OpsAgentHeartbeat.collected_at r)));
       ("received_at", Some (Time (OpsAgentHeartbeat.received_at r)))]
  | TService => λ r,
      [("id", Some (Int (OpsServerService.id r))); ("server_id", Some (Int (OpsServerService.server_id r)));
       ("service_name", Some (Text (OpsServerService.service_name r)));
       ("display_name", Text <$> OpsServerService.display_name r);
       ("service_type", Some (Text (OpsServerService.service_type r)));
       ("is_whitelisted", Some (Int (OpsServerService.is_whitelisted r)));
       ("is_critical", Some (Int (OpsServerService.is_critical r)));
       ("current_status", Text <$> OpsServerService.current_status r);
       ("last_checked_at", Time <$> OpsServerService.last_checked_at r);
       ("status", Some (Int (OpsServerService.status r)));
       ("created_at", Some (Time (OpsServerService.created_at r)))]
  | TDisk => λ r,
      [("id", Some (Int (OpsServerDisk.id r))); ("server_id", Some (Int (OpsServerDisk.server_id r)));
       ("device_name", Some (Text (OpsServerDisk.device_name r)));
       ("mount_point", Text <$> OpsServerDisk.mount_point r); ("filesystem", Text <$> OpsServerDisk.filesystem r);
       ("total_bytes", Int <$> OpsServerDisk.total_bytes r); ("status", Some (Int (OpsServerDisk.status r)));
       ("created_at", Some (Time (OpsServerDisk.created_at r)))]
  | TNetwork => λ r,
      [("id", Some (Int (OpsServerNetwork.id r))); ("server_id", Some (Int (OpsServerNetwork.server_id r)));
       ("interface_name", Some (Text (OpsServerNetwork.interface_name r)));
       ("mac_address", Text <$> OpsServerNetwork.mac_address r);
       ("ip_address", Text <$> OpsServerNetwork.ip_address r); ("status", Some (Int (OpsServerNetwork.status r)));
       ("created_at", Some (Time (OpsServerNetwork.created_at r)))]
  | TMetric => λ r,
      [("id", Some (Int (MonitorServerMetric.id r))); ("server_id", Some (Int (MonitorServerMetric.server_id r)));
       ("collected_at", Some (Time (MonitorServerMetric.collected_at r)));
       ("cpu_usage", Number <$> MonitorServerMetric.cpu_usage r);
       ("memory_usage", Number <$> MonitorServerMetric.memory_usage r);
       ("memory_used_bytes", Int <$> MonitorServerMetric.memory_used_bytes r);
       ("disk_usage", Number <$> MonitorServerMetric.disk_usage r);
       ("network_in_bytes", Int <$> MonitorServerMetric.network_in_bytes r);
       ("network_out_bytes", Int <$> MonitorServerMetric.network_out_bytes r);
       ("load_1m", Number <$> MonitorServerMetric.load_1m r); ("load_5m", Number <$> MonitorServerMetric.load_5m r);
       ("load_15m", Number <$> MonitorServerMetric.load_15m r);
       ("tcp_connections", Int <$> MonitorServerMetric.tcp_connections r);
       ("uptime_seconds", Int <$> MonitorServerMetric.uptime_seconds r);
       ("created_at", Some (Time (MonitorServerMetric.created_at r)))]
  | TMetricDaily => λ r,
      [("id", Some (Int (MonitorServerMetricDaily.id r)));
       ("server_id", Some (Int (MonitorServerMetricDaily.server_id r)));
       ("metric_date", Some (Day (MonitorServerMetricDaily.metric_date r)));
       ("cpu_usage_avg", Number <$> MonitorServerMetricDaily.cpu_usage_avg r);
       ("cpu_usage_max", Number <$> MonitorServerMetricDaily.cpu_usage_max r);
       ("memory_usage_avg", Number <$> MonitorServerMetricDaily.memory_usage_avg r);
       ("memory_usage_max", Number <$> MonitorServerMetricDaily.memory_usage_max r);
       ("disk_usage_avg", Number <$> MonitorServerMetricDaily.disk_usage_avg r);
       ("disk_usage_max", Number <$> MonitorServerMetricDaily.disk_usage_max r);
       ("load_1m_avg", Number <$> MonitorServerMetricDaily.load_1m_avg r);
       ("load_1m_max", Number <$> MonitorServerMetricDaily.load_1m_max r);
       ("tcp_connections_avg", Number <$> MonitorServerMetricDaily.tcp_connections_avg r);
       ("tcp_connections_max", Number <$> MonitorServerMetricDaily.tcp_connections_max r);
       ("sample_count", Some (Int (MonitorServerMetricDaily.sample_count r)));
       ("created_at", Some (Time (MonitorServerMetricDaily.created_at r)))]
  | TRule => λ r,
      [("id", Some (Int (AlertRule.id r))); ("rule_name", Some (Text (AlertRule.rule_name r)));
       ("metric_type", Some (Text (AlertRule.metric_type r)));
       ("target_type", Some (Text (AlertRule.target_type r))); ("severity", Some (Text (AlertRule.severity r)));
       ("operator", Some (Text (AlertRule.operator r))); ("threshold", Number <$> AlertRule.threshold r);
       ("duration_seconds", Some (Int (AlertRule.duration_seconds r)));
       ("recovery_threshold", Number <$> AlertRule.recovery_threshold r);
       ("enabled", Some (Int (AlertRule.enabled r))); ("description", Text <$> AlertRule.description r);
       ("created_by", Int <$> AlertRule.created_by r); ("created_at", Some (Time (AlertRule.created_at r)))]
  | TEvent => λ r,
      [("id", Some (Int (AlertEvent.id r))); ("rule_id", Some (Int (AlertEvent.rule_id r)));
       ("server_id", Int <$> AlertEvent.server_id r); ("resource_type", Some (Text (AlertEvent.resource_type r)));
       ("resource_id", Int <$> AlertEvent.resource_id r); ("alert_key", Some (Text (AlertEvent.alert_key r)));
       ("metric_type", Some (Text (AlertEvent.metric_type r))); ("severity", Some (Text (AlertEvent.severity r)));
       ("status", Some (Text (alert_status_str (AlertEvent.status r))));
       ("first_fired_at", Time <$> AlertEvent.first_fired_at r);
       ("last_fired_at", Time <$> AlertEvent.last_fired_at r);
       ("acknowledged_by", Int <$> AlertEvent.acknowledged_by r);
       ("acknowledged_at", Time <$> AlertEvent.acknowledged_at r);
       ("resolved_at", Time <$> AlertEvent.resolved_at r); ("current_value", Number <$> AlertEvent.current_value r);
       ("threshold_value", Number <$> AlertEvent.threshold_value r);
       ("message", Some (Text (AlertEvent.message r))); ("created_at", Some (Time (AlertEvent.created_at r)));
       ("is_active", Int <$> AlertEvent.is_active r)]
  | TEventLog => λ r,
      [("id", Some (Int (AlertEventLog.id r))); ("event_id", Some (Int (AlertEventLog.event_id r)));
       ("old_status", (Text ∘ alert_status_str) <$> AlertEventLog.old_status r);
       ("new_status", Some (Text (alert_status_str (AlertEventLog.new_status r))));
       ("current_value", Number <$> AlertEventLog.current_value r); ("message", Text <$> AlertEventLog.message r);
       ("operator_id", Int <$> AlertEventLog.operator_id r);
       ("created_at", Some (Time (AlertEventLog.created_at r)))]
  | TUser => λ r,
      [("id", Some (Int (SysUser.id r))); ("username", Some (Text (SysUser.username r)));
       ("password_hash", Some (Text (SysUser.password_hash r))); ("nickname", Text <$> SysUser.nickname r);
       ("email", Text <$> SysUser.email r); ("phone", Text <$> SysUser.phone r);
       ("status", Some (Int (SysUser.status r))); ("last_login_at", Time <$> SysUser.last_login_at r);
       ("last_login_ip", Text <$> SysUser.last_login_ip r); ("created_at", Some (Time (SysUser.created_at r)));
       ("deleted_at", Time <$> SysUser.deleted_at r)]
  | TRole => λ r,
      [("id", Some (Int (SysRole.id r))); ("role_code", Some (Text (SysRole.role_code r)));
       ("role_name", Some (Text (SysRole.role_name r))); ("description", Text <$> SysRole.description r);
       ("status", Some (Int (SysRole.status r))); ("created_at", Some (Time (SysRole.created_at r)))]
  | TUserRole => λ r,
      [("user_id", Some (Int (SysUserRole.user_id r))); ("role_id", Some (Int (SysUserRole.role_id r)));
       ("created_at", Some (Time (SysUserRole.created_at r)))]
  | TLoginLog => λ r,
      [("id", Some (Int (SysLoginLog.id r))); ("user_id", Int <$> SysLoginLog.user_id r);
       ("username", Some (Text (SysLoginLog.username r))); ("login_ip", Text <$> SysLoginLog.login_ip r);
       ("user_agent", Text <$> SysLoginLog.user_agent r);
       ("login_status", Some (Text (SysLoginLog.login_status r)));
       ("failure_reason", Text <$> SysLoginLog.failure_reason r); ("request_id", Text <$> SysLoginLog.request_id r);
       ("created_at", Some (Time (SysLoginLog.created_at r)))]
  | TPermission => λ r,
      [("id", Some (Int (SysPermission.id r))); ("permission_code", Some (Text (SysPermission.permission_code r)));
       ("permission_name", Some (Text (SysPermission.permission_name r)));
       ("permission_type", Some (Text (SysPermission.permission_type r))); ("path", Text <$> SysPermission.path r);
       ("method", Text <$> SysPermission.method r); ("parent_id", Int <$> SysPermission.parent_id r);
       ("status", Some (Int (SysPermission.status r))); ("created_at", Some (Time (SysPermission.created_at r)))]
  | TRolePermission => λ r,
      [("role_id", Some (Int (SysRolePermission.role_id r)));
       ("permission_id", Some (Int (SysRolePermission.permission_id r)));
       ("created_at", Some (Time (SysRolePermission.created_at r)))]
  | TOperationLog => λ r,
      [("id", Some (Int (SysOperationLog.id r))); ("user_id", Int <$> SysOperationLog.user_id r);
       ("username", Text <$> SysOperationLog.username r); ("module", Some (Text (SysOperationLog.module r)));
       ("operation", Some (Text (SysOperationLog.operation r)));
       ("http_method", Text <$> SysOperationLog.http_method r);
       ("request_path", Text <$> SysOperationLog.request_path r);
       ("target_type", Text <$> SysOperationLog.target_type r); ("target_id", Int <$> SysOperationLog.target_id r);
       ("server_id", Int <$> SysOperationLog.server_id r); ("request_ip", Text <$> SysOperationLog.request_ip r);
       ("request_id", Text <$> SysOperationLog.request_id r);
       ("request_params", Document <$> SysOperationLog.request_params r);
       ("result_status", Some (Text (SysOperationLog.result_status r)));
       ("error_message", Text <$> SysOperationLog.error_message r);
       ("duration_ms", Int <$> SysOperationLog.duration_ms r);
       ("created_at", Some (Time (SysOperationLog.created_at r)))]
  end.

(** Does a column of this type hold the value? *)
Definition of_type (ty : sql_type) (v : value) : bool :=
  match ty, v with
  | (BIGINT _ | INTEGER _ | SMALLINT _ | TINYINT), Int _ => true
  | (VARCHAR _ | CHAR _ | TEXT | MEDIUMTEXT), Text _ => true
  | DATE, Day _ | DATETIME _, Time _ | NUMERIC _ _, Number _ | JSON, Document _ => true
  | _, _ => false
  end.

Fixpoint field_of (c : string) (l : list (string * option value)) : option value :=
  match l with
  | [] => None
  | (n, v) :: l' => if String.eqb n c then v else field_of c l'
  end.

(** ** The constraints of the schema, on rows of the store *)

Definition table_of_rows (k : tname) : option table_schema := metadata !! table_name k.

(** The sets of columns whose values identify a row: the unique constraints,
    and the primary key of the association tables. *)
Definition keys (k : tname) : list (list string) :=
  match table_of_rows k with
  | Some t => (map_to_list (uniques t)).*2 ++
              (if bool_decide (primary_key t = ["id"]) then [] else [primary_key t])
  | None => []
  end.

Definition same_key {k} (a b : row k) (cols : list string) : bool :=
  forallb (λ c, value_eqb (field_of c (fields k a)) (field_of c (fields k b))) cols.

Definition rows_of_table (name : string) : option tname := find (λ k, String.eqb (table_name k) name) all_tables.

(** Where a foreign key of a row points to. *)
Definition points_to {k} (r : row k) (f : foreign_key) : option (tname * Z) :=
  match fk_columns f, fk_target f, rows_of_table (fk_table f) with
  | [c], ["id"], Some k' => match field_of c (fields k r) with Some (Int i) => Some (k', i) | _ => None end
  | _, _, _ => None
  end.

Definition fk_list (k : tname) : list foreign_key :=
  match table_of_rows k with Some t => (map_to_list (foreign_keys t)).*2 | None => [] end.

Definition single_key (f : foreign_key) : bool :=
  bool_decide (length (fk_columns f) = 1%nat) && bool_decide (fk_target f = ["id"]) &&
  bool_decide (is_Some (rows_of_table (fk_table f))).

(** The column of a field and whether it holds the field's value. *)
Definition column_of (k : tname) (c : string) : option column := t ← table_of_rows k; columns t !! c.

Definition well_typed (k : tname) (p : string * option value) : bool :=
  match column_of k p.1 with
  | Some col => match p.2 with Some v => of_type (col_type col) v | None => nullable col end
  | None => false
  end.

(** The columns only the database server writes and nothing reads. *)
Definition server_side (k : tname) (c : string) : bool :=
  String.eqb c "updated_at" || (bool_decide (k = THeartbeat) && String.eqb c "created_at").

(** ** Proofs *)

Lemma bool_decide_Z (x y : Z) : bool_decide (x = y) = (x =? y).
Proof. case_bool_decide as H; symmetry; [by apply Z.eqb_eq|by apply Z.eqb_neq]. Qed.

Lemma bool_decide_string (x y : string) : bool_decide (x = y) = String.eqb x y.
Proof. case_bool_decide as H; symmetry; [by apply String.eqb_eq|by apply String.eqb_neq]. Qed.

(** Evaluates a closed subterm in place. *)
Ltac evaluate t := let v := eval vm_compute in t in change t with v.

Lemma well_typed_rows (k : tname) (r : row k) : Forall (λ p, well_typed k p = true) (fields k r).
Proof.
  destruct k; cbn [fields]; repeat (apply List.Forall_cons || apply List.Forall_nil);
    try match goal with |- well_typed _ (_, fmap _ ?o) = true => destruct o end;
    vm_compute; reflexivity.
Qed.

Lemma columns_modelled (k : tname) (r : row k) (c : string) :
  is_Some (column_of k c) → c ∈ (fields k r).*1 ∨ server_side k c = true.
Proof.
  assert (match table_of_rows k with
    | Some t => forallb (λ c, bool_decide (c ∈ (fields k r).*1) || server_side k c) (map_to_list (columns t)).*1
    | None => true end = true) as Hall by (destruct k; vm_compute; reflexivity).
  unfold column_of. destruct (table_of_rows k) as [t|]; [|by intros []]. intros [col Hcol]. rewrite forallb_forall in Hall.
  specialize (Hall c). apply orb_true_iff in Hall as [Hall|Hall].
  - left. by apply bool_decide_eq_true in Hall.
  - by right.
  - apply list_elem_of_In, list_elem_of_fmap. exists (c, col). split; [done|]. by apply elem_of_map_to_list.
Qed.

Lemma value_eqb_text (x y : option string) : value_eqb (Text <$> x) (Text <$> y) = sql_eq x y.
Proof. destruct x, y; cbn; by rewrite ?bool_decide_string. Qed.

Lemma value_eqb_int (x y : option Z) : value_eqb (Int <$> x) (Int <$> y) = sql_eq x y.
Proof. destruct x, y; cbn; by rewrite ?bool_decide_Z. Qed.

(** The store and the schema agree on what a duplicate is. *)
Lemma conflict_keys (k : tname) (a b : row k) : unique_conflict k a b = existsb (same_key a b) (keys k).
Proof.
  destruct k; match goal with |- context [keys ?k] => evaluate (keys k) end;
    cbv [unique_conflict existsb same_key forallb fields field_of String.eqb Ascii.eqb Bool.eqb]; try reflexivity;
    rewrite ?bool_decide_Z, ?bool_decide_string, ?value_eqb_text, ?value_eqb_int;
    cbn [value_eqb]; rewrite ?andb_true_r, ?orb_false_r, ?andb_assoc; try reflexivity.
  all: apply orb_comm.
Qed.

(** The foreign keys of the schema are single columns that refer to the [id] of
    a table of the store. *)
Lemma fk_single (k : tname) : forallb single_key (fk_list k) = true.
Proof. destruct k; vm_compute; reflexivity. Qed.

(** Equal up to the order, for lists of at most [n] elements. *)
Ltac permute n :=
  match n with
  | O => reflexivity
  | S ?m => first [ reflexivity | apply perm_skip; permute m
                  | etransitivity; [apply Permutation_cons_append|]; cbn [app]; permute m ]
  end.

(** A row refers to what the foreign keys of its table say. *)
Lemma refs_of_fks (k : tname) (r : row k) : refs k r ≡ₚ omap (points_to r) (fk_list k).
Proof.
  destruct k; match goal with |- context [fk_list ?k] => evaluate (fk_list k) end;
    cbv [refs omap list_omap points_to fk_columns fk_target fk_table field_of fields String.eqb Ascii.eqb Bool.eqb];
    repeat match goal with |- context [rows_of_table ?n] => evaluate (rows_of_table n) end;
    repeat match goal with |- context [Int <$> ?o] => destruct o; cbn [fmap option_fmap option_map] end;
    cbn [fmap option_fmap option_map opt_ref app]; permute 5%nat.
Qed.

(** ** The theorems *)

(** C39: the migrations, run in the order of their [down_revision] links on an empty
    database, build exactly the tables, columns, keys and indexes that the ORM
    classes declare, comments included, whether or not the server keeps the
    indexes of foreign keys. *)
Theorem migrations_build_metadata (keeps_fk_indexes : bool) :
  upgrade_head keeps_fk_indexes 4 versions None ∅ = Some (Some "4f50bb136572", metadata).
Proof. destruct keeps_fk_indexes; apply (bool_decide_unpack _); vm_compute; reflexivity. Qed.


(** The revisions, oldest first. *)
Definition history : list migration :=
  [initial_baseline.migration; task_retry_and_idempotency.migration; agent_request_signing.migration;
   metric_daily_archive.migration].

(** The schema after the first [n] revisions. *)
Definition schema_after (n : nat) : option schema := run_script false ∅ (flat_map upgrade (take n history)).

(** What is checked of the [n]-th revision. *)
Definition reverts (n : nat) : bool :=
  match history !! n, schema_after n, schema_after (S n) with
  | Some m, Some s, Some s' =>
    bool_decide (run_script false s' (downgrade m) = Some s) &&
    bool_decide (run_script true s' (downgrade m) = if (n =? 0)%nat then None else Some s)
  | _, _, _ => false
  end.

Lemma all_revert : forallb reverts [0; 1; 2; 3]%nat = true.
Proof. vm_compute. reflexivity. Qed.

(** Each downgrade takes the schema back to what it was before the upgrade.
    On a server that keeps the indexes foreign keys need this holds for all
    revisions but the first, whose downgrade is refused at its first
    statement. *)
Theorem downgrade_reverts (n : nat) (m : migration) :
  history !! n = Some m →
  ∃ s s', schema_after n = Some s ∧ schema_after (S n) = Some s' ∧
    run_script false s' (downgrade m) = Some s ∧
    run_script true s' (downgrade m) = (if (n =? 0)%nat then None else Some s).
Proof.
  intros Hm. assert (n < length history)%nat as Hn by (by eapply lookup_lt_Some).
  pose proof all_revert as Hall. rewrite forallb_forall in Hall. specialize (Hall n).
  assert (reverts n = true) as Hr by (apply Hall; simpl in *; lia).
  unfold reverts in Hr. rewrite Hm in Hr.
  destruct (schema_after n) as [s|]; [|done]. destruct (schema_after (S n)) as [s'|]; [|done].
  apply andb_true_iff in Hr as [H1 H2]. exists s, s'. by split_and!; [..|apply bool_decide_eq_true in H1|apply bool_decide_eq_true in H2].
Qed.

(** The refused statement of the first downgrade drops the index that the
    foreign key of the task log needs. *)
Example first_downgrade_refused :
  head (downgrade initial_baseline.migration) = Some (drop_index "idx_ops_task_log_execution_time" "ops_task_log") ∧
  (s ← schema_after 1; run_ddl true s (drop_index "idx_ops_task_log_execution_time" "ops_task_log")) = None ∧
  is_Some (s ← schema_after 1; run_ddl false s (drop_index "idx_ops_task_log_execution_time" "ops_task_log")).
Proof. split; [reflexivity|]. split; [vm_compute; reflexivity|]. apply (bool_decide_unpack _). vm_compute. reflexivity. Qed.

Lemma downgrade_reverts_witness :
  ∃ s s', schema_after 0 = Some s ∧ schema_after 1 = Some s' ∧
    run_script false s' (downgrade initial_baseline.migration) = Some s ∧
    run_script true s' (downgrade initial_baseline.migration) = None.
Proof. exact (downgrade_reverts 0 initial_baseline.migration eq_refl). Defined.
