(* ===== verification/AgentPackage.v ===== *)
(** * The agent package (backend/app/services/agent_package.py,
    the download routes of api/v1/agent.py)

    Which files of the server end up in the archive that anybody can download.
    A file system is a map from absolute paths to files and directories; an
    archive is the list of its members. *)
From S2P Require Import Prelude.
From S2P Require Export Session PyText.

Definition path : Type := list string.

Inductive node := File (content : string) | Dir.

Definition file_system : Type := gmap path node.

(** A member: its name and content; a directory has none. *)
Record member := Member { arcname : string; content : option string }.

(** ** Paths *)

(** ["/".join(parts)]. *)
Fixpoint slashed (p : path) : string :=
  match p with
  | [] => EmptyString
  | [s] => s
  | s :: p' => s +:+ "/" +:+ slashed p'
  end.

(** [Path(s)] for an absolute path. *)
Definition path_of (s : string) : path :=
  filter (λ part, part ≠ EmptyString ∧ part ≠ ".") (py_split (byte 47) s).

(** Paths are ordered by their parts. *)
Fixpoint path_leb (p q : path) : bool :=
  match p, q with
  | [], _ => true
  | _ :: _, [] => false
  | a :: p', b :: q' =>
    match String.compare a b with Lt => true | Gt => false | Eq => path_leb p' q' end
  end.

(** What is left of [p] below [source]. *)
Fixpoint relative_to (source p : path) : option path :=
  match source, p with
  | [], _ => Some p
  | a :: source', b :: p' => if String.eqb a b then relative_to source' p' else None
  | _ :: _, [] => None
  end.

Section FileSystem.
Context (fs : file_system).

Definition is_file (p : path) : bool := match fs !! p with Some (File _) => true | _ => false end.
Definition is_dir (p : path) : bool := match fs !! p with Some Dir => true | _ => false end.

(** [sorted(source.rglob("*"))]: the paths below [source], relative to it. *)
Definition rglob (source : path) : list path :=
  sort_by path_leb (omap (λ '(p, _), match relative_to source p with
                                     | Some [] | None => None
                                     | Some rel => Some rel
                                     end) (map_to_list fs)).

(** [sorted(directory.glob(prefix + "*"))]: the names. *)
Definition glob (directory : path) (prefix : string) : list string :=
  omap (λ rel, match rel with [name] => if String.prefix prefix name then Some name else None | _ => None end)
    (rglob directory).

Definition read_text (p : path) : string := match fs !! p with Some (File c) => c | _ => EmptyString end.

(** [tar.add(path, arcname=name)]: a directory with everything below it. *)
Definition tar_add (p : path) (name : string) : list member :=
  match fs !! p with
  | Some (File c) => [Member name (Some c)]
  | Some Dir =>
    Member name None ::
    ((λ rel, Member (name +:+ "/" +:+ slashed rel)
        match fs !! (p ++ rel) with Some (File c) => Some c | _ => None end) <$> rglob p)
  | None => []
  end.

(** ** The builder *)

Definition RUNTIME_PYTHON : string := "python".
Definition RUNTIME_GO : string := "go".
Definition EXCLUDE_PARTS : list string := [".venv"; "__pycache__"; "tests"; ".pytest_cache"; ".git"].
Definition EXCLUDE_FILES : list string := ["config.yaml"].
Definition DEFAULT_VERSION : string := "1.0.0".
Definition PACKAGE_PREFIX : string := "ops-agent".

Definition normalize_runtime (runtime : option string) : string :=
  match runtime with
  | Some r => if bool_decide (r ∈ [RUNTIME_PYTHON; RUNTIME_GO]) then r else RUNTIME_PYTHON
  | None => RUNTIME_PYTHON
  end.

(** [settings.AGENT_BUNDLE_DIR], and the root of the repository. *)
Context (AGENT_BUNDLE_DIR : string) (repository : path).

Definition bundle_root : path :=
  let configured := py_strip AGENT_BUNDLE_DIR in
  if negb (String.eqb configured EmptyString) && is_dir (path_of configured) then path_of configured
  else repository.

Definition _agent_dir (root : path) (runtime : string) : path :=
  root ++ [if String.eqb runtime RUNTIME_GO then "agent-go" else "agent"].

Definition _systemd_name (runtime : string) : string :=
  if String.eqb runtime RUNTIME_GO then "server-agent-go.service" else "server-agent.service".

Definition _systemd_file (root : path) (runtime : string) : path :=
  root ++ ["deploy"; "systemd"; _systemd_name runtime].

Definition agent_version (root : path) (runtime : string) : string :=
  let version_file := _agent_dir root (normalize_runtime (Some runtime)) ++ ["VERSION"] in
  if is_file version_file then
    let v := py_strip (read_text version_file) in
    if String.eqb v EmptyString then DEFAULT_VERSION else v
  else DEFAULT_VERSION.

(** [inl] is an [AgentPackageError]. *)
Definition read_install_script (runtime : string) : string + string :=
  let p := _agent_dir bundle_root (normalize_runtime (Some runtime)) ++ ["install.sh"] in
  if negb (is_file p) then inl ("未找到安装脚本: /" +:+ slashed p) else inr (read_text p).

(** Is the file of [_add_tree] left out?  The parts of the whole path count. *)
Definition excluded (p : path) : bool :=
  existsb (λ part, bool_decide (part ∈ EXCLUDE_PARTS)) p ||
  bool_decide (default EmptyString (last p) ∈ EXCLUDE_FILES).

Definition _add_tree (source : path) (name : string) : list member :=
  omap (λ rel,
    if excluded (source ++ rel) then None else
    match fs !! (source ++ rel) with
    | Some (File c) => Some (Member (name +:+ "/" +:+ slashed rel) (Some c))
    | _ => None
    end) (rglob source).

Definition newline : string := String (byte 10) EmptyString.

Definition common_head (install_script : path) (version : string) : list member :=
  tar_add install_script (PACKAGE_PREFIX +:+ "/install.sh") ++
  [Member (PACKAGE_PREFIX +:+ "/VERSION") (Some (version +:+ newline))].

Definition systemd_member (systemd_file : path) : list member :=
  tar_add systemd_file (PACKAGE_PREFIX +:+ "/deploy/systemd/" +:+ default EmptyString (last systemd_file)).

Definition _build_python_package (agent_dir systemd_file install_script : path) (version : string) : list member :=
  common_head install_script version ++
  _add_tree agent_dir (PACKAGE_PREFIX +:+ "/agent") ++
  systemd_member systemd_file.

Definition _build_go_package (agent_dir systemd_file install_script : path) (version : string)
    : string + list member :=
  let dist_dir := agent_dir ++ ["dist"] in
  let binaries := glob dist_dir "ops-agent-" in
  if negb (is_dir dist_dir) || (length binaries =? 0)%nat then
    inl ("Go Agent 二进制缺失: /" +:+ slashed dist_dir +:+
         "。请先运行 agent-go/scripts/build.sh 或从 Release 下载。")
  else
    let example := agent_dir ++ ["config"; "config.yaml.example"] in
    inr (common_head install_script version ++
         (if is_file example then tar_add example (PACKAGE_PREFIX +:+ "/config/config.yaml.example") else []) ++
         concat ((λ b, tar_add (dist_dir ++ [b]) (PACKAGE_PREFIX +:+ "/dist/" +:+ b)) <$> binaries) ++
         systemd_member systemd_file).

Definition build_agent_package (runtime : string) : string + (list member * string) :=
  let runtime := normalize_runtime (Some runtime) in
  let root := bundle_root in
  let agent_dir := _agent_dir root runtime in
  let systemd_file := _systemd_file root runtime in
  let install_script := agent_dir ++ ["install.sh"] in
  if negb (is_dir agent_dir) || negb (is_file systemd_file) || negb (is_file install_script) then
    inl ("Agent 包不完整（runtime=" +:+ runtime +:+ "），请检查目录: /" +:+ slashed root)
  else
    let version := agent_version root runtime in
    let filename := PACKAGE_PREFIX +:+ "-" +:+ runtime +:+ "-" +:+ version +:+ ".tar.gz" in
    if String.eqb runtime RUNTIME_GO then
      match _build_go_package agent_dir systemd_file install_script version with
      | inl e => inl e
      | inr members => inr (members, filename)
      end
    else inr (_build_python_package agent_dir systemd_file install_script version, filename).

(** ** The routes, open to everybody *)

Definition not_found {A} (r : string + A) : outcome A :=
  match r with
  | inl message => Raise (AppException NOT_FOUND message 404)
  | inr a => Ok a
  end.

Definition download_agent_package (runtime : string) : outcome (list member * string) :=
  not_found (build_agent_package (normalize_runtime (Some runtime))).

Definition get_install_script (runtime : string) : outcome string :=
  not_found (read_install_script (normalize_runtime (Some runtime))).
End FileSystem.

(** ** What is in the package *)

Lemma relative_to_iff source p rel : relative_to source p = Some rel ↔ p = source ++ rel.
Proof.
  revert p. induction source as [|a source IH]; intros p; simpl; [split; [by intros [= ->]|by intros ->]|].
  destruct p as [|b p]; [by split|]. destruct (String.eqb_spec a b) as [->|Hne].
  - rewrite IH. split; [by intros ->|by intros [= ->]].
  - split; [done|]. by intros [= ? _].
Qed.

Lemma last_below (dir rel : path) : rel ≠ [] → last (dir ++ rel) = last rel.
Proof. intros Hne. rewrite last_app. destruct (last rel) eqn:Hl; [done|]. by apply last_None in Hl. Qed.

Section Contents.
Context (fs : file_system) (AGENT_BUNDLE_DIR : string) (repository : path).

Lemma elem_of_rglob source rel : rel ∈ rglob fs source ↔ rel ≠ [] ∧ is_Some (fs !! (source ++ rel)).
Proof.
  unfold rglob. rewrite elem_of_sort_by, list_elem_of_omap. split.
  - intros ([p n] & Hin%elem_of_map_to_list & Hrel). destruct (relative_to source p) as [[|a r]|] eqn:Hr; try done.
    injection Hrel as <-. apply relative_to_iff in Hr as ->. split; [done|]. by exists n.
  - intros [Hne [n Hn]]. exists (source ++ rel, n). split; [by apply elem_of_map_to_list|].
    rewrite (proj2 (relative_to_iff source (source ++ rel) rel)) by done. by destruct rel.
Qed.

(** Is the file part of the package? *)
Definition packaged (dir rel : path) (c : string) : Prop :=
  rel ≠ [] ∧ fs !! (dir ++ rel) = Some (File c) ∧
  (∀ part, part ∈ dir ++ rel → part ∉ EXCLUDE_PARTS) ∧ last rel ≠ Some "config.yaml".

Lemma excluded_false p : p ≠ [] →
  excluded p = false ↔ (∀ part, part ∈ p → part ∉ EXCLUDE_PARTS) ∧ last p ≠ Some "config.yaml".
Proof.
  intros Hne. unfold excluded. rewrite orb_false_iff, bool_decide_eq_false.
  assert (existsb (λ part, bool_decide (part ∈ EXCLUDE_PARTS)) p = false ↔ ∀ part, part ∈ p → part ∉ EXCLUDE_PARTS) as ->.
  { rewrite <- not_true_iff_false, existsb_exists. split.
    - intros Hn part Hp Hin. apply Hn. exists part. split; [by apply list_elem_of_In|by apply bool_decide_eq_true].
    - intros Ha (part & Hp%list_elem_of_In & Hin%bool_decide_eq_true). by apply (Ha part). }
  apply and_iff_compat_l. unfold EXCLUDE_FILES. rewrite list_elem_of_singleton.
  destruct (last p) as [x|] eqn:Hl; simpl; [|by apply last_None in Hl]. split; congruence.
Qed.

Lemma elem_of_add_tree dir name m :
  m ∈ _add_tree fs dir name ↔ ∃ rel c, packaged dir rel c ∧ m = Member (name +:+ "/" +:+ slashed rel) (Some c).
Proof.
  unfold _add_tree. rewrite list_elem_of_omap. split.
  - intros (rel & [Hne _]%elem_of_rglob & Hm). destruct (excluded (dir ++ rel)) eqn:Hex; [done|].
    destruct (fs !! (dir ++ rel)) as [[c|]|] eqn:Hf; try done. injection Hm as <-. exists rel, c. split; [|done].
    apply excluded_false in Hex as [Hparts Hlast]; [|by intros [_ ?]%app_eq_nil].
    rewrite last_below in Hlast by done. by split_and!.
  - intros (rel & c & (Hne & Hf & Hparts & Hlast) & ->). exists rel. split; [apply elem_of_rglob; split; [done|by eexists]|].
    assert (excluded (dir ++ rel) = false) as ->; [|by rewrite Hf].
    apply excluded_false; [by intros [_ ?]%app_eq_nil|]. by rewrite last_below.
Qed.

Lemma tar_add_file p name c : fs !! p = Some (File c) → tar_add fs p name = [Member name (Some c)].
Proof. intros Hp. unfold tar_add. by rewrite Hp. Qed.

Lemma is_file_iff p : is_file fs p = true ↔ ∃ c, fs !! p = Some (File c).
Proof. unfold is_file. destruct (fs !! p) as [[c|]|]; split; try done; [by exists c|by intros (? & [=])|by intros (? & [=])]. Qed.

(** The archive for Python agents exists exactly if the agent's directory,
    the installation script and the unit file do.  It holds these two, the
    version and exactly the files below the agent's directory that are not
    named config.yaml and have no virtual environment, cache, test or Git
    directory anywhere on their path. *)
Theorem python_package_spec :
  let build := build_agent_package fs AGENT_BUNDLE_DIR repository RUNTIME_PYTHON in
  let root := bundle_root fs AGENT_BUNDLE_DIR repository in
  let dir := root ++ ["agent"] in
  let unit_file := root ++ ["deploy"; "systemd"; "server-agent.service"] in
  let version := agent_version fs root RUNTIME_PYTHON in
  ((∃ r, build = inr r) ↔
     is_dir fs dir = true ∧ is_file fs unit_file = true ∧ is_file fs (dir ++ ["install.sh"]) = true) ∧
  ∀ members filename, build = inr (members, filename) →
    filename = "ops-agent-python-" +:+ version +:+ ".tar.gz" ∧
    ∀ m, m ∈ members ↔
      m = Member "ops-agent/install.sh" (Some (read_text fs (dir ++ ["install.sh"]))) ∨
      m = Member "ops-agent/VERSION" (Some (version +:+ newline)) ∨
      m = Member "ops-agent/deploy/systemd/server-agent.service" (Some (read_text fs unit_file)) ∨
      ∃ rel c, packaged dir rel c ∧ m = Member ("ops-agent/agent/" +:+ slashed rel) (Some c).
Proof.
  intros build root dir unit_file version.
  assert (build = if negb (is_dir fs dir) || negb (is_file fs unit_file) || negb (is_file fs (dir ++ ["install.sh"])) then
      inl ("Agent 包不完整（runtime=python），请检查目录: /" +:+ slashed root)
    else inr (_build_python_package fs dir unit_file (dir ++ ["install.sh"]) version,
              "ops-agent-python-" +:+ version +:+ ".tar.gz")) as Hbuild by done.
  clearbody build. subst build. split.
  - destruct (is_dir fs dir), (is_file fs unit_file), (is_file fs (dir ++ ["install.sh"])); simpl;
      (split; [intros [r Hr]|intros (? & ? & ?)]; try done; by eexists).
  - intros members filename. destruct (is_dir fs dir); [|done].
    destruct (is_file fs unit_file) eqn:Hunit; [|done].
    destruct (is_file fs (dir ++ ["install.sh"])) eqn:Hinstall; [|done]. cbn [negb orb].
    intros [= <- <-]. split; [done|]. intros m.
    apply is_file_iff in Hunit as [u Hu], Hinstall as [i Hi]. unfold _build_python_package, common_head, systemd_member.
    rewrite (tar_add_file _ _ i Hi), (tar_add_file _ _ u Hu). unfold read_text. rewrite Hu, Hi.
    assert (last unit_file = Some "server-agent.service") as -> by (unfold unit_file; by rewrite last_app).
    rewrite !elem_of_app, !list_elem_of_singleton, elem_of_add_tree. cbn [default from_option id].
    change (PACKAGE_PREFIX +:+ "/agent") with "ops-agent/agent".
    split; [intros [[H|H]|[(rel & c & H1 & H2)|H]]|intros [H|[H|[H|(rel & c & H1 & H2)]]]]; eauto 10.
Qed.
End Contents.

(** ** Instances *)

(** A deployment whose agent has been run from its own directory: its
    configuration and its signing key lie beside the code. *)
Definition demo_fs : file_system :=
  list_to_map [
    (["srv"; "agent"], Dir); (["srv"; "agent"; "install.sh"], File "#!/bin/sh");
    (["srv"; "agent"; "VERSION"], File ("1.2.0" +:+ newline)); (["srv"; "agent"; "main.py"], File "code");
    (["srv"; "agent"; "tests"], Dir); (["srv"; "agent"; "tests"; "test_main.py"], File "test");
    (["srv"; "agent"; "config"], Dir); (["srv"; "agent"; "config"; "config.yaml"], File "token");
    (["srv"; "agent"; "config"; "agent_ed25519.key"], File "private key");
    (["srv"; "deploy"; "systemd"; "server-agent.service"], File "unit")].

(** The configuration is left out, the private key is not. *)
Example private_key_packaged :
  match download_agent_package demo_fs EmptyString ["srv"] "python" with
  | Ok (members, filename) =>
    filename = "ops-agent-python-1.2.0.tar.gz" ∧
    (arcname <$> members) =
      ["ops-agent/install.sh"; "ops-agent/VERSION"; "ops-agent/agent/VERSION";
       "ops-agent/agent/config/agent_ed25519.key"; "ops-agent/agent/install.sh"; "ops-agent/agent/main.py";
       "ops-agent/deploy/systemd/server-agent.service"]
  | Raise _ => False
  end.
Proof. by vm_compute. Qed.

(** Below a directory called tests the package holds no code. *)
Example nothing_packaged :
  match download_agent_package (kmap (cons "tests") demo_fs) EmptyString ["tests"; "srv"] "ruby" with
  | Ok (members, _) =>
    (arcname <$> members) = ["ops-agent/install.sh"; "ops-agent/VERSION"; "ops-agent/deploy/systemd/server-agent.service"]
  | Raise _ => False
  end.
Proof. by vm_compute. Qed.

Example missing_binaries :
  match download_agent_package demo_fs EmptyString ["srv"] "go" with Raise e => (error_response e).1 = 404 | Ok _ => False end.
Proof. by vm_compute. Qed.
