(* ===== verification/Confined.v ===== *)
(** * Confined computations

    [Confined ks m]: the computation only writes the tables in [ks], and every
    row keeps carrying its key; it is what lets the invariants of one part of
    the database survive the operations of another.  [all_rows k P]: every row
    of a table satisfies [P].  Both are invariants in the sense of
    [Wp.Preserves], and inferred by type class search. *)
From S2P Require Import Prelude.
From S2P Require Export Wp.

(** The [id] column. *)
Definition row_id (k : tname) : row k → Z :=
  match k with
  | TTask => OpsTask.id | TTarget => OpsTaskTarget.id | TExec => OpsTaskExecution.id
  | TTaskLog => OpsTaskLog.id | TServer => OpsServer.id | TToken => OpsAgentToken.id
  | THeartbeat => OpsAgentHeartbeat.id | TService => OpsServerService.id
  | TDisk => OpsServerDisk.id | TNetwork => OpsServerNetwork.id
  | TMetric => MonitorServerMetric.id | TMetricDaily => MonitorServerMetricDaily.id
  | TRule => AlertRule.id | TEvent => AlertEvent.id | TEventLog => AlertEventLog.id
  | TUser => SysUser.id | TRole => SysRole.id | TUserRole => SysUserRole.id
  | TLoginLog => SysLoginLog.id | TPermission => SysPermission.id
  | TRolePermission => SysRolePermission.id | TOperationLog => SysOperationLog.id
  end.

(** Every row carries its key. *)
Definition keyed (d : db) : Prop := ∀ k i r, rows (d k) !! i = Some r → row_id k r = i.

Lemma row_id_fresh k i now r : row_id k (fresh_row k i now r) = i.
Proof. by destruct k. Qed.

Lemma keyed_put_row k i r0 r d :
  keyed d → rows (d k) !! i = Some r0 → row_id k r = row_id k r0 → keyed (put_row k i r d).
Proof.
  intros HK Hr0 Hid k' j r'. table_cases k k'; [|apply HK].
  intros [[<- <-]|[_ Hr]]%lookup_insert_Some; [rewrite Hid; by apply HK|by apply HK].
Qed.

Lemma keyed_add_row k r d : keyed d → row_id k r = next_id (d k) → keyed (add_row k r d).
Proof.
  intros HK Hid k' j r'. table_cases k k'; [|apply HK].
  intros [[<- <-]|[_ Hr]]%lookup_insert_Some; [done|by apply HK].
Qed.

Lemma keyed_filter_rows k p d : keyed d → keyed (filter_rows k p d).
Proof. intros HK k' j r' Hr%rows_filter_rows_Some. by apply HK. Qed.

(** The database is keyed, and agrees with [d0] outside [ks]. *)
Definition within (ks : list tname) (d0 d : db) : Prop :=
  keyed d ∧ ∀ k, k ∉ ks → d k = d0 k.

Lemma within_step ks d0 d d' k :
  k ∈ ks → within ks d0 d → keyed d' → (∀ k', k ≠ k' → d' k' = d k') → within ks d0 d'.
Proof.
  intros Hk [HK Ho] HK' Hd'. split; [done|]. intros k' Hk'. rewrite Hd'; [by apply Ho|]. intros ->. by apply Hk'.
Qed.

Abbreviation Confined ks m := (∀ d0, Preserves (within ks d0) m).

Section Writes.
Context (ks : list tname) (d0 : db) `{Env}.

Lemma within_assign k i f :
  k ∈ ks → (∀ r, row_id k (f r) = row_id k r) → Preserves (within ks d0) (assign k i f).
Proof.
  intros Hk Hf. apply preserves_assign. intros d r HI Hr _.
  apply (within_step ks d0 d _ k); [done..| |by intros; apply put_row_ne].
  eapply keyed_put_row; [apply HI|done|apply Hf].
Qed.

Lemma within_create k r : k ∈ ks → Preserves (within ks d0) (create k r).
Proof.
  intros Hk. apply preserves_create. intros d now HI r' _.
  apply (within_step ks d0 d _ k); [done..| |by intros; apply add_row_ne].
  apply keyed_add_row; [apply HI|apply row_id_fresh].
Qed.

Lemma within_create_many k l : k ∈ ks → Preserves (within ks d0) (create_many k l).
Proof. intros Hk. unfold create_many. apply preserves_map_loop. intros r. by apply within_create. Qed.

Lemma within_filter_rows k p d : k ∈ ks → within ks d0 d → within ks d0 (filter_rows k p d).
Proof.
  intros Hk HI. apply (within_step ks d0 d _ k); [done..|apply keyed_filter_rows, HI|by intros; apply filter_rows_ne].
Qed.

Lemma within_delete_row k i : k ∈ ks → Preserves (within ks d0) (delete_row k i).
Proof. intros Hk. apply preserves_delete_row. intros. by apply within_filter_rows. Qed.

Lemma within_delete_where k p : k ∈ ks → Preserves (within ks d0) (delete_where k p).
Proof. intros Hk. apply preserves_delete_where. intros. by apply within_filter_rows. Qed.

Lemma within_delete_ids k ids : k ∈ ks → Preserves (within ks d0) (delete_ids k ids).
Proof. intros Hk. apply preserves_delete_ids. intros. by apply within_filter_rows. Qed.

Lemma within_soft_delete k i : k ∈ ks → Preserves (within ks d0) (soft_delete k i).
Proof.
  intros Hk. unfold soft_delete. destruct k; simpl; try apply _;
    (apply preserves_bind; [apply _|intros now; by apply within_assign]).
Qed.
End Writes.

#[export] Typeclasses Opaque raise app_error when fold_loop for_each map_loop commit get_work
  write utcnow obj assign select_where get get_by list_all count order_by list_page create
  create_many update delete_row delete_ids delete_where soft_delete.

Ltac listed := apply (bool_decide_unpack _); vm_compute; exact I.
(** Functions on rows that keep the key. *)
Create Rewrite HintDb row_ids.
Ltac keeps_id := intros ?; first [reflexivity|cbn; autorewrite with row_ids; repeat case_match; reflexivity].

#[export] Hint Extern 1 (Preserves (within _ _) (assign _ _ _)) =>
  apply within_assign; [listed|keeps_id] : typeclass_instances.
#[export] Hint Extern 1 (Preserves (within _ _) (update _ _ _)) =>
  apply within_assign; [listed|keeps_id] : typeclass_instances.
#[export] Hint Extern 1 (Preserves (within _ _) (create _ _)) => apply within_create; listed : typeclass_instances.
#[export] Hint Extern 1 (Preserves (within _ _) (create_many _ _)) => apply within_create_many; listed : typeclass_instances.
#[export] Hint Extern 1 (Preserves (within _ _) (delete_row _ _)) => apply within_delete_row; listed : typeclass_instances.
#[export] Hint Extern 1 (Preserves (within _ _) (delete_where _ _)) => apply within_delete_where; listed : typeclass_instances.
#[export] Hint Extern 1 (Preserves (within _ _) (delete_ids _ _)) => apply within_delete_ids; listed : typeclass_instances.
#[export] Hint Extern 1 (Preserves (within _ _) (soft_delete _ _)) => apply within_soft_delete; listed : typeclass_instances.

(** A named operation is opened; the primitives and the structure stay. *)
Ltac head_of t := lazymatch t with ?f _ => head_of f | _ => t end.

Ltac open_operation :=
  lazymatch goal with
  | |- Preserves _ ?m =>
    let h := head_of m in
    lazymatch h with
    | @mbind => fail | @mret => fail | @raise => fail | @app_error => fail | @when => fail
    | @fold_loop => fail | @for_each => fail | @map_loop => fail
    | commit => fail | get_work => fail | write => fail | @utcnow => fail
    | @obj => fail | @assign => fail | @update => fail | @create => fail | @create_many => fail
    | @delete_row => fail | @delete_where => fail | @delete_ids => fail | @soft_delete => fail
    | _ => unfold h
    end
  end.

#[export] Hint Extern 8 (Preserves _ _) => open_operation : typeclass_instances.

(** The database after a run. *)
Lemma run_confined ks {A} (m : M A) d n :
  Confined ks m → keyed d → keyed (run m d n).1.2 ∧ ∀ k, k ∉ ks → (run m d n).1.2 k = d k.
Proof. intros Hm HK. by apply (run_preserves (within ks d)). Qed.

(** ** Invariants of the rows of one table *)

Definition all_rows (k : tname) (P : row k → Prop) (d : db) : Prop := ∀ i r, rows (d k) !! i = Some r → P r.

Section AllRows.
Context (k : tname) (P : row k → Prop) `{Env}.

Lemma all_rows_filter k' p d : all_rows k P d → all_rows k P (filter_rows k' p d).
Proof. intros HP i r Hr%rows_filter_rows_Some. by apply (HP i). Qed.

Lemma all_rows_assign i f : (∀ r, P r → P (f r)) → Preserves (all_rows k P) (assign k i f).
Proof.
  intros Hf. apply preserves_assign. intros d r HP Hr _ j r'. autorewrite with store.
  intros [[<- <-]|[_ Hj]]%lookup_insert_Some; [by eapply Hf, HP|by apply (HP j)].
Qed.

Lemma all_rows_assign_ne k' i f : k' ≠ k → Preserves (all_rows k P) (assign k' i f).
Proof. intros Hk. apply preserves_assign. intros d r HP _ _ j r'. rewrite put_row_ne by done. apply HP. Qed.

Lemma all_rows_create r : (∀ i now, P (fresh_row k i now r)) → Preserves (all_rows k P) (create k r).
Proof.
  intros Hr. apply preserves_create. intros d now HP r' _ j r''. autorewrite with store.
  intros [[<- <-]|[_ Hj]]%lookup_insert_Some; [apply Hr|by apply (HP j)].
Qed.

Lemma all_rows_create_ne k' r : k' ≠ k → Preserves (all_rows k P) (create k' r).
Proof. intros Hk. apply preserves_create. intros d now HP r' _ j r''. rewrite add_row_ne by done. apply HP. Qed.

Lemma all_rows_create_many l :
  Forall (λ r, ∀ i now, P (fresh_row k i now r)) l → Preserves (all_rows k P) (create_many k l).
Proof.
  intros Hl. unfold create_many, map_loop.
  enough (∀ acc, Preserves (all_rows k P) (fold_loop (λ acc r, y ← create k r; mret (acc ++ [y])) acc l)) by auto.
  induction Hl as [|r l Hr Hl IH]; intros acc; simpl.
  - apply _.
  - apply preserves_bind; [|intros; apply IH]. apply preserves_bind; [by apply all_rows_create|apply _].
Qed.

Lemma all_rows_create_many_ne k' l : k' ≠ k → Preserves (all_rows k P) (create_many k' l).
Proof. intros Hk. unfold create_many. apply preserves_map_loop. intros r. by apply all_rows_create_ne. Qed.

Lemma all_rows_delete_row k' i : Preserves (all_rows k P) (delete_row k' i).
Proof. apply preserves_delete_row. intros. by apply all_rows_filter. Qed.

Lemma all_rows_delete_where k' p : Preserves (all_rows k P) (delete_where k' p).
Proof. apply preserves_delete_where. intros. by apply all_rows_filter. Qed.

Lemma all_rows_delete_ids k' ids : Preserves (all_rows k P) (delete_ids k' ids).
Proof. apply preserves_delete_ids. intros. by apply all_rows_filter. Qed.
End AllRows.

#[export] Hint Extern 1 (Preserves (all_rows _ _) (delete_row _ _)) => apply all_rows_delete_row : typeclass_instances.
#[export] Hint Extern 1 (Preserves (all_rows _ _) (delete_where _ _)) => apply all_rows_delete_where : typeclass_instances.
#[export] Hint Extern 1 (Preserves (all_rows _ _) (delete_ids _ _)) => apply all_rows_delete_ids : typeclass_instances.
#[export] Hint Extern 1 (Preserves (all_rows _ _) (assign _ _ _)) => apply all_rows_assign_ne; discriminate : typeclass_instances.
#[export] Hint Extern 1 (Preserves (all_rows _ _) (update _ _ _)) => apply all_rows_assign_ne; discriminate : typeclass_instances.
#[export] Hint Extern 1 (Preserves (all_rows _ _) (soft_delete _ _)) =>
  apply preserves_soft_delete; intros ?; apply all_rows_assign_ne; discriminate : typeclass_instances.
#[export] Hint Extern 1 (Preserves (all_rows _ _) (create _ _)) => apply all_rows_create_ne; discriminate : typeclass_instances.
#[export] Hint Extern 1 (Preserves (all_rows _ _) (create_many _ _)) => apply all_rows_create_many_ne; discriminate : typeclass_instances.

(** ** Deletion from tables no foreign key refers to *)

Lemma existsb_false {A} (p : A → bool) (l : list A) :
  (∀ x, x ∈ l → p x = false) → existsb p l = false.
Proof.
  intros Hp. apply not_true_is_false. rewrite existsb_exists.
  intros (x & Hx%list_elem_of_In & Ht). by rewrite Hp in Ht.
Qed.

(** No foreign key refers to a table. *)
Lemma unreferenced k d i : (∀ k' r, Forall (λ x, x.1 ≠ k) (refs k' r)) → referenced k d i = false.
Proof.
  intros Hf. apply referenced_false. intros k' j r _ Hin.
  pose proof (proj1 (Forall_forall _ _) (Hf k' r) _ Hin). done.
Qed.

Ltac solve_unreferenced :=
  apply unreferenced; intros [] r; simpl; unfold opt_ref; repeat case_match; repeat constructor; discriminate.

Lemma wp_delete_where_free `{Env} `{!EnvOk _} k p (Q : Z → session → Prop) Ex s :
  (∀ d i, referenced k d i = false) → integrity (work s) →
  (let d' := filter_rows k (λ _ r, negb (p r)) (work s) in
   integrity d' → Q (Z.of_nat (length (matching k p (work s)))) (set_work d' s)) →
  wp (delete_where k p) Q Ex s.
Proof.
  intros Hf HI HQ. apply wp_delete_where. cbv zeta. rewrite existsb_false by (intros; apply Hf).
  split; [|done]. intros _. apply HQ. by apply integrity_filter_rows.
Qed.
