(* ===== verification/Retry.v ===== *)
(** * Retry policy (backend/app/core/retry.py)

    Error classification and back-off of the server's task-level retries. *)
From S2P Require Import Prelude.

Definition RETRYABLE_ERROR_TYPES : list string :=
  ["NETWORK_ERROR"; "AGENT_OFFLINE"; "AGENT_TIMEOUT"; "SERVER_5XX"].

Definition NON_RETRYABLE_ERROR_TYPES : list string :=
  ["INVALID_ARGUMENT"; "PERMISSION_DENIED"; "COMMAND_NOT_FOUND";
   "SERVICE_NOT_WHITELISTED"; "TASK_ACTION_INVALID"].

Definition CONDITIONAL_ERROR_TYPES : list string :=
  ["AGENT_EXECUTION_TIMEOUT"; "SERVICE_UNHEALTHY"; "DEPENDENCY_UNAVAILABLE";
   "RESOURCE_EXHAUSTED"].

Definition UNKNOWN_ERROR_TYPE : string := "UNKNOWN".

Definition BACKOFF_SECONDS : list Z := [5; 10; 30; 60].

(** The inference from the message, for a report without an error type. *)
Definition infer_error (error_message : option string) : string :=
  let text := py_lower (default "" error_message) in
  if py_contains "timeout" text || py_contains "超时" text then "AGENT_TIMEOUT"
  else if existsb (λ token, py_contains token text)
            ["network"; "connection"; "refused"; "unreachable"]
          || py_contains "网络" text then "NETWORK_ERROR"
  else if py_contains "offline" text || py_contains "离线" text then "AGENT_OFFLINE"
  else UNKNOWN_ERROR_TYPE.

Definition classify_error (error_type error_message : option string) : string :=
  match error_type with
  | Some t => if py_truthy error_type then t else infer_error error_message
  | None => infer_error error_message
  end.

Definition is_retryable (error_type error_message : option string) : bool :=
  bool_decide (classify_error error_type error_message ∈ RETRYABLE_ERROR_TYPES).

Definition backoff_seconds (attempt : Z) : Z :=
  let index := Z.max 0 (Z.min (attempt - 1) (Z.of_nat (length BACKOFF_SECONDS) - 1)) in
  nth (Z.to_nat index) BACKOFF_SECONDS 0.

(** The words that make a message retryable. *)
Definition retryable_tokens : list string :=
  ["timeout"; "超时"; "network"; "connection"; "refused"; "unreachable"; "网络";
   "offline"; "离线"].

Lemma infer_error_unknown (m : option string) :
  infer_error m = UNKNOWN_ERROR_TYPE ↔
  ∀ w, w ∈ retryable_tokens → py_contains w (py_lower (default "" m)) = false.
Proof.
  unfold infer_error, retryable_tokens. simpl.
  set (text := py_lower (default "" m)). generalize text. clear text. intros text.
  split.
  - intros Hu w Hw. apply not_true_is_false. intros Hc. revert Hu.
    repeat setoid_rewrite elem_of_cons in Hw. rewrite elem_of_nil in Hw.
    destruct_or? Hw; subst; try done; rewrite Hc; simpl;
      repeat (rewrite ?orb_true_r; simpl); repeat (case_match; try done); discriminate.
  - intros Hf. repeat (rewrite Hf; [|set_solver]; simpl). done.
Qed.

Lemma infer_error_cases (m : option string) :
  infer_error m = UNKNOWN_ERROR_TYPE ∨ infer_error m ∈ RETRYABLE_ERROR_TYPES.
Proof.
  unfold infer_error. repeat case_match; [right|right|right|by left];
  by apply (bool_decide_unpack _).
Qed.

(** An error type that the agent names decides alone; without one the
    message decides, and a message without any of the known words is not
    retried. *)
Theorem is_retryable_spec (error_type error_message : option string) :
  is_retryable error_type error_message = true ↔
  if py_truthy error_type then ∃ t, error_type = Some t ∧ t ∈ RETRYABLE_ERROR_TYPES
  else ∃ w, w ∈ retryable_tokens ∧
            py_contains w (py_lower (default "" error_message)) = true.
Proof.
  unfold is_retryable, classify_error. rewrite bool_decide_eq_true.
  assert (infer_error error_message ∈ RETRYABLE_ERROR_TYPES ↔
    ∃ w, w ∈ retryable_tokens ∧ py_contains w (py_lower (default "" error_message)) = true) as HI.
  { destruct (infer_error_cases error_message) as [Hu|Hr].
    - rewrite Hu. split; [by intros Hx; apply (bool_decide_pack _) in Hx|].
      intros (w & Hw & Hc). rewrite infer_error_unknown in Hu. by rewrite (Hu w Hw) in Hc.
    - split; [|done]. intros _.
      destruct (decide (Exists (λ w, py_contains w (py_lower (default "" error_message)) = true)
                          retryable_tokens)) as [He|Hn].
      { by apply Exists_exists in He. }
      rewrite Exists_exists in Hn.
      assert (infer_error error_message = UNKNOWN_ERROR_TYPE) as Hu.
      { apply infer_error_unknown. intros w Hw. apply not_true_is_false. eauto. }
      rewrite Hu in Hr. by apply (bool_decide_pack _) in Hr. }
  destruct error_type as [t|]; [|done]. destruct (py_truthy (Some t)); [|done].
  split; [by exists t|]. by intros (t' & [= ->] & Ht).
Qed.

(** The back-off is one of the listed delays, the [attempt]-th for the first
    attempts and the last one from then on, and never decreases. *)
Theorem backoff_seconds_spec (a b : Z) :
  (backoff_seconds a ∈ BACKOFF_SECONDS) ∧
  (1 ≤ a ≤ 4 → BACKOFF_SECONDS !! Z.to_nat (a - 1) = Some (backoff_seconds a)) ∧
  (4 ≤ a → backoff_seconds a = 60) ∧
  (a ≤ b → backoff_seconds a ≤ backoff_seconds b).
Proof.
  assert (∀ c, c ≤ 1 ∧ backoff_seconds c = 5 ∨ c = 2 ∧ backoff_seconds c = 10 ∨
               c = 3 ∧ backoff_seconds c = 30 ∨ 4 ≤ c ∧ backoff_seconds c = 60) as Hc.
  { intros c. unfold backoff_seconds. simpl.
    destruct (decide (c ≤ 1)); [left; by replace (Z.max 0 _) with 0 by lia|].
    destruct (decide (c = 2)) as [->|]; [by right; left|].
    destruct (decide (c = 3)) as [->|]; [by right; right; left|].
    do 3 right. split; [lia|]. by replace (Z.max 0 _) with 3 by lia. }
  split_and!.
  - destruct (Hc a) as [[_ ->]|[[_ ->]|[[_ ->]|[_ ->]]]]; by apply (bool_decide_unpack _).
  - intros Ha. destruct (Hc a) as [[? ->]|[[-> ->]|[[-> ->]|[? ->]]]]; try done.
    + by replace a with 1 by lia.
    + by replace a with 4 by lia.
  - intros Ha. destruct (Hc a) as [?|[?|[?|?]]]; lia.
  - intros Hab. destruct (Hc a) as [?|[?|[?|?]]], (Hc b) as [?|[?|[?|?]]]; lia.
Qed.

Lemma backoff_seconds_spec_witness :
  BACKOFF_SECONDS !! 1%nat = Some 10 ∧ backoff_seconds 9 = 60 ∧ backoff_seconds 2 ≤ backoff_seconds 9.
Proof.
  split_and!.
  - apply (backoff_seconds_spec 2 2). lia.
  - apply (backoff_seconds_spec 9 9). lia.
  - apply (backoff_seconds_spec 2 9). lia.
Defined.

(** The error types of the agent's own failures are final on the server. *)
Lemma non_retryable_final (t : string) (m : option string) :
  t ∈ NON_RETRYABLE_ERROR_TYPES ++ CONDITIONAL_ERROR_TYPES → is_retryable (Some t) m = false.
Proof.
  unfold NON_RETRYABLE_ERROR_TYPES, CONDITIONAL_ERROR_TYPES. simpl.
  repeat setoid_rewrite elem_of_cons. rewrite elem_of_nil.
  intros Ht. by destruct_or? Ht; subst.
Qed.
