(* ===== verification/TaskRepo.v ===== *)
(** * Task repositories (backend/app/repositories/task_repository.py)

    Tasks, targets, executions and logs.  A repository method that takes an
    ORM object takes its key here. *)
From Stdlib Require Import QArith.
From S2P Require Import Prelude PyFloat.
From S2P Require Export Wp.
#[local] Open Scope Z_scope.

(** [finished_at IS NOT NULL AND finished_at < cutoff]. *)
Definition finished_before (finished_at : option datetime) (cutoff : datetime) : bool :=
  match finished_at with Some t => t <? cutoff | None => false end.

(** [int((finished_at - started_at).total_seconds() * 1000)]. *)
Definition elapsed_ms (started_at finished_at : datetime) : Z :=
  py_int (fmul_int (total_seconds (finished_at - started_at)) 1000).

(** The assignment of [duration_ms] once [finished_at] is set. *)
Definition set_duration (now : datetime) (e : OpsTaskExecution) : OpsTaskExecution :=
  match OpsTaskExecution.started_at e with
  | Some t => e <| OpsTaskExecution.duration_ms := Some (elapsed_ms t now) |>
  | None => e
  end.

Module TaskRepository.
Section Ops.
Context `{E : Env}.

Definition list_tasks (page page_size : Z) (status task_type : option string) : M (Z * list Z) :=
  list_page TTask page page_size (λ a b, OpsTask.id b <=? OpsTask.id a) (λ r,
    match status with
    | Some s => negb (py_truthy status) || String.eqb (task_status_str (OpsTask.status r)) s
    | None => true
    end &&
    match task_type with
    | Some t => negb (py_truthy task_type) || String.eqb (OpsTask.task_type r) t
    | None => true
    end).

Definition cron_pending (r : OpsTask) : bool :=
  String.eqb (OpsTask.schedule_type r) "CRON" &&
  bool_decide (OpsTask.status r ∈ [T_PENDING; T_CREATED]).

Definition list_pending_cron : M (list Z) := select_where TTask cron_pending.

Definition get_by_idempotency_key (key : string) : M (option Z) :=
  if String.eqb key "" then mret None
  else get_by TTask (λ r, bool_decide (OpsTask.idempotency_key r = Some key)).

(** The rows the clean-up selects: finished one-shot tasks without executions. *)
Definition removable_task (d : db) (cutoff : datetime) (task : OpsTask) : bool :=
  String.eqb (OpsTask.schedule_type task) "ONCE" &&
  task_terminal (OpsTask.status task) &&
  finished_before (OpsTask.finished_at task) cutoff &&
  negb (any_row d TExec (λ e, OpsTaskExecution.task_id e =? OpsTask.id task)).

Definition delete_finished_tasks_before (cutoff : datetime) : M Z :=
  d ← get_work;
  task_ids ← select_where TTask (removable_task d cutoff);
  match task_ids with
  | [] => mret 0
  | _ =>
    _ ← delete_where TTarget (λ t, bool_decide (OpsTaskTarget.task_id t ∈ task_ids));
    delete_ids TTask task_ids
  end.

Definition count_by_status : M (list (string * Z)) :=
  d ← get_work;
  mret (map (λ st, (task_status_str st,
                    Z.of_nat (length (matching TTask (λ r, bool_decide (OpsTask.status r = st)) d))))
          [T_CREATED; T_PENDING; T_RUNNING; T_SUCCESS; T_FAILED; T_TIMEOUT;
           T_CANCELLED; T_RETRYING; T_DEAD]).
End Ops.
End TaskRepository.

Module TaskTargetRepository.
Section Ops.
Context `{E : Env}.

Definition create_targets (task_id : Z) (server_ids : list Z) : M (list Z) :=
  create_many TTarget
    (map (λ sid, OpsTaskTarget.Mk 0 task_id sid "PENDING" 0) (set_iter server_ids)).

Definition list_by_task (task_id : Z) : M (list Z) :=
  list_all TTarget (λ t, OpsTaskTarget.task_id t =? task_id).
End Ops.
End TaskTargetRepository.

(** [OpsTaskExecution(task_id=..., target_id=..., server_id=..., attempt=...)]. *)
Definition new_execution (task_id target_id server_id attempt : Z) : OpsTaskExecution :=
  OpsTaskExecution.Mk 0 task_id target_id server_id E_PENDING attempt None None None None
    None None None None 0.

Module TaskExecutionRepository.
Section Ops.
Context `{E : Env}.

Definition create_executions (task_id : Z) (targets : list Z) : M (list Z) :=
  executions ← map_loop (λ t,
    r ← obj TTarget t;
    mret (new_execution task_id t (OpsTaskTarget.server_id r) 1)) targets;
  create_many TExec executions.

Definition create_execution (task_id target_id server_id attempt : Z) : M Z :=
  create TExec (new_execution task_id target_id server_id attempt).

Definition due_retry (now : datetime) (e : OpsTaskExecution) : bool :=
  bool_decide (OpsTaskExecution.status e = E_RETRYING) &&
  match OpsTaskExecution.next_retry_at e with Some t => t <=? now | None => false end.

Definition list_due_retries (now : datetime) (limit : nat) : M (list Z) :=
  l ← select_where TExec (due_retry now);
  sorted ← order_by TExec (λ a b,
    default 0 (OpsTaskExecution.next_retry_at a) <=? default 0 (OpsTaskExecution.next_retry_at b)) l;
  mret (take limit sorted).

(** The [WHERE] clause of the claim: a pending execution for this server
    whose task is PENDING or RUNNING. *)
Definition claimable (d : db) (server_id : Z) (e : OpsTaskExecution) : bool :=
  (OpsTaskExecution.server_id e =? server_id) &&
  bool_decide (OpsTaskExecution.status e = E_PENDING) &&
  match rows (d TTask) !! OpsTaskExecution.task_id e with
  | Some t => bool_decide (OpsTask.status t ∈ [T_PENDING; T_RUNNING])
  | None => false
  end.

Definition fetch_pending_by_server (server_id : Z) : M (list Z) :=
  d ← get_work;
  l ← select_where TExec (claimable d server_id);
  sorted ← order_by TExec (λ a b, OpsTaskExecution.id a <=? OpsTaskExecution.id b) l;
  mret (take 10 sorted).

Definition mark_running (execution : Z) : M unit :=
  now ← utcnow;
  assign TExec execution (λ e,
    e <| OpsTaskExecution.status := E_RUNNING |>
      <| OpsTaskExecution.started_at := Some now |>).

Definition finish (execution : Z) (status : exec_status) (exit_code : option Z)
    (result_text error_message error_type : option string) : M unit :=
  now ← utcnow;
  assign TExec execution (λ e,
    set_duration now
      ((match error_type with
        | Some _ => e <| OpsTaskExecution.error_type := error_type |>
        | None => e
        end)
         <| OpsTaskExecution.status := status |>
         <| OpsTaskExecution.exit_code := exit_code |>
         <| OpsTaskExecution.result_text := result_text |>
         <| OpsTaskExecution.error_message := error_message |>
         <| OpsTaskExecution.finished_at := Some now |>)).

Definition mark_retrying (execution : Z) (error_type : string) (error_message : option string)
    (next_retry_at : datetime) : M unit :=
  now ← utcnow;
  assign TExec execution (λ e,
    set_duration now
      (e <| OpsTaskExecution.status := E_RETRYING |>
         <| OpsTaskExecution.error_type := Some error_type |>
         <| OpsTaskExecution.error_message := error_message |>
         <| OpsTaskExecution.next_retry_at := Some next_retry_at |>
         <| OpsTaskExecution.finished_at := Some now |>)).

Definition mark_dead (execution : Z) (error_type : string) (error_message : option string) : M unit :=
  now ← utcnow;
  assign TExec execution (λ e,
    set_duration now
      (e <| OpsTaskExecution.status := E_DEAD |>
         <| OpsTaskExecution.error_type := Some error_type |>
         <| OpsTaskExecution.error_message := error_message |>
         <| OpsTaskExecution.next_retry_at := None |>
         <| OpsTaskExecution.finished_at := Some now |>)).

Definition list_by_task (task_id : Z) : M (list Z) :=
  list_all TExec (λ e, OpsTaskExecution.task_id e =? task_id).

Definition expired_history (cutoff : datetime) (e : OpsTaskExecution) : bool :=
  exec_terminal (OpsTaskExecution.status e) &&
  finished_before (OpsTaskExecution.finished_at e) cutoff.

Definition delete_terminal_before (cutoff : datetime) : M Z :=
  ids ← select_where TExec (expired_history cutoff);
  match ids with
  | [] => mret 0
  | _ =>
    _ ← delete_where TTaskLog (λ l, bool_decide (OpsTaskLog.execution_id l ∈ ids));
    delete_ids TExec ids
  end.

Definition is_expired (execution timeout_seconds : Z) : M bool :=
  e ← obj TExec execution;
  match OpsTaskExecution.status e, OpsTaskExecution.started_at e with
  | E_RUNNING, Some started =>
    now ← utcnow;
    mret (started <? now - seconds timeout_seconds)
  | _, _ => mret false
  end.

Definition mark_timeout (execution timeout_seconds : Z) : M unit :=
  now ← utcnow;
  assign TExec execution (λ e,
    e <| OpsTaskExecution.status := E_TIMEOUT |>
      <| OpsTaskExecution.finished_at := Some now |>
      <| OpsTaskExecution.error_message :=
           Some ("执行超时（" +:+ py_str timeout_seconds +:+ "s）") |>).
End Ops.
End TaskExecutionRepository.

Module TaskLogRepository.
Section Ops.
Context `{E : Env}.

Definition record (execution_id : Z) (content level : string) : M Z :=
  create TTaskLog (OpsTaskLog.Mk 0 execution_id level content 0).

Definition list_by_execution (execution_id : Z) : M (list Z) :=
  l ← select_where TTaskLog (λ r, OpsTaskLog.execution_id r =? execution_id);
  order_by TTaskLog (λ a b, OpsTaskLog.id a <=? OpsTaskLog.id b) l.
End Ops.
End TaskLogRepository.
