(* ===== verification/MetricRepo.v ===== *)
(** * Metric repository (backend/app/repositories/metric_repository.py)

    [AVG] and [MAX] of SQL skip NULL and are NULL on an empty group; the exact
    average stands for MySQL's decimal one. *)
From Stdlib Require Import QArith.
From S2P Require Import Prelude.
From S2P Require Export PyFloat Wp.

(** ** Aggregates and operations *)

Section Aggregates.

Definition present {A B} (f : A → option B) (l : list A) : list B := omap f l.

Definition sql_avg (l : list Q) : option Q :=
  match l with
  | [] => None
  | _ => Some (Qred (foldr Qplus 0%Q l / inject_Z (Z.of_nat (length l))))
  end.

Definition q_max (x y : Q) : Q := if Qle_bool x y then y else x.
Definition q_min (x y : Q) : Q := if Qle_bool x y then x else y.

Definition sql_extreme (pick : Q → Q → Q) (l : list Q) : option Q :=
  match l with
  | [] => None
  | x :: l' => Some (foldl pick x l')
  end.

Definition sql_max : list Q → option Q := sql_extreme q_max.
Definition sql_min : list Q → option Q := sql_extreme q_min.

(** [round(x, 2)] of a [Decimal]: half to even. *)
Definition decimal_round2 (x : Q) : Q :=
  Qred (round_half_even (Qnum x * 100) (Z.pos (Qden x)) # 100).
End Aggregates.

Module MetricRepository.
Section Ops.
Context `{E : Env}.

Definition record (metric : MonitorServerMetric) : M Z := create TMetric metric.

Definition newest_first (a b : MonitorServerMetric) : bool :=
  MonitorServerMetric.collected_at b <=? MonitorServerMetric.collected_at a.

Definition of_server (server_id : Z) (m : MonitorServerMetric) : bool :=
  MonitorServerMetric.server_id m =? server_id.

Definition get_latest (server_id : Z) : M (option Z) :=
  l ← select_where TMetric (of_server server_id);
  sorted ← order_by TMetric newest_first l;
  mret (head sorted).

Definition between (server_id : Z) (start stop : datetime) (m : MonitorServerMetric) : bool :=
  of_server server_id m && (start <=? MonitorServerMetric.collected_at m) &&
  (MonitorServerMetric.collected_at m <=? stop).

Definition get_history (server_id : Z) (start stop : datetime) (page page_size : Z) : M (Z * list Z) :=
  list_page TMetric page page_size newest_first (between server_id start stop).

(** One row of the summary: AVG, MAX and MIN of a column. *)
Record column_summary := ColumnSummary { avg : option Q; max : option Q; min : option Q }.

Definition summarise (f : MonitorServerMetric → option Q) (l : list MonitorServerMetric) : column_summary :=
  let v := present f l in ColumnSummary (sql_avg v) (sql_max v) (sql_min v).

Definition to_q (o : option Z) : option Q := inject_Z <$> o.

(** [SUMMARY_NUMERIC_FIELDS]. *)
Definition numeric_fields : list (string * (MonitorServerMetric → option Q)) :=
  [("cpu_usage", MonitorServerMetric.cpu_usage);
   ("memory_usage", MonitorServerMetric.memory_usage);
   ("disk_usage", MonitorServerMetric.disk_usage);
   ("load_1m", MonitorServerMetric.load_1m);
   ("load_5m", MonitorServerMetric.load_5m);
   ("load_15m", MonitorServerMetric.load_15m);
   ("tcp_connections", λ m, to_q (MonitorServerMetric.tcp_connections m))].

Record summary_row := SummaryRow {
  bucket : datetime;
  columns : list (string * column_summary);
  network_in_max : option Q;
  network_out_max : option Q
}.

(** [FROM_UNIXTIME(FLOOR(UNIX_TIMESTAMP(collected_at) / n) * n)]. *)
Definition bucket_of (bucket_seconds : Z) (m : MonitorServerMetric) : datetime :=
  let width := seconds bucket_seconds in
  MonitorServerMetric.collected_at m / width * width.

Definition get_summary (server_id : Z) (start stop : datetime) (bucket_seconds : Z)
    : M (list summary_row) :=
  ids ← select_where TMetric (between server_id start stop);
  ms ← map_loop (obj TMetric) ids;
  let buckets := sort_by Z.leb (remove_dups (bucket_of bucket_seconds <$> ms)) in
  mret ((λ b,
    let group := filter (λ m, bucket_of bucket_seconds m = b) ms in
    SummaryRow b ((λ '(name, f), (name, summarise f group)) <$> numeric_fields)
      (sql_max (present (λ m, to_q (MonitorServerMetric.network_in_bytes m)) group))
      (sql_max (present (λ m, to_q (MonitorServerMetric.network_out_bytes m)) group))) <$> buckets).

(** Is [m] a latest metric of its server? *)
Definition is_latest (d : db) (m : MonitorServerMetric) : bool :=
  negb (any_row d TMetric (λ m',
    (MonitorServerMetric.server_id m' =? MonitorServerMetric.server_id m) &&
    (MonitorServerMetric.collected_at m <? MonitorServerMetric.collected_at m'))).

Definition get_server_usage_avg : M (option Q * option Q * option Q) :=
  d ← get_work;
  ms ← map_loop (obj TMetric) (matching TMetric (is_latest d) d);
  let average f := decimal_round2 <$> sql_avg (present f ms) in
  mret (average MonitorServerMetric.cpu_usage, average MonitorServerMetric.memory_usage,
        average MonitorServerMetric.disk_usage).

(** The dictionary from servers to their latest metric: of several rows with
    the same time, the last one returned. *)
Definition get_latest_map (server_ids : list Z) : M (gmap Z Z) :=
  match server_ids with
  | [] => mret ∅
  | _ =>
    d ← get_work;
    ids ← select_where TMetric
      (λ m, bool_decide (MonitorServerMetric.server_id m ∈ server_ids) && is_latest d m);
    fold_loop (λ acc i, m ← obj TMetric i; mret (<[MonitorServerMetric.server_id m := i]> acc)) ∅ ids
  end.

Definition delete_older_than (retention_days : Z) : M Z :=
  now ← utcnow;
  delete_where TMetric (λ m, MonitorServerMetric.collected_at m <? now - days retention_days).

(** The values of one (server, day) group. *)
Definition daily_row (server_id day : Z) (group : list MonitorServerMetric) : MonitorServerMetricDaily :=
  let average f := sql_avg (present f group) in
  let largest f := sql_max (present f group) in
  let tcp m := to_q (MonitorServerMetric.tcp_connections m) in
  MonitorServerMetricDaily.Mk 0 server_id day
    (average MonitorServerMetric.cpu_usage) (largest MonitorServerMetric.cpu_usage)
    (average MonitorServerMetric.memory_usage) (largest MonitorServerMetric.memory_usage)
    (average MonitorServerMetric.disk_usage) (largest MonitorServerMetric.disk_usage)
    (average MonitorServerMetric.load_1m) (largest MonitorServerMetric.load_1m)
    (average tcp) (largest tcp) (Z.of_nat (length group)) 0.

(** [INSERT ... ON DUPLICATE KEY UPDATE]: every column but the key. *)
Definition upsert_daily (values : MonitorServerMetricDaily) : M unit :=
  existing ← select_where TMetricDaily (λ r,
    (MonitorServerMetricDaily.server_id r =? MonitorServerMetricDaily.server_id values) &&
    (MonitorServerMetricDaily.metric_date r =? MonitorServerMetricDaily.metric_date values));
  match head existing with
  | Some i =>
    assign TMetricDaily i (λ r,
      values <| MonitorServerMetricDaily.id := MonitorServerMetricDaily.id r |>
             <| MonitorServerMetricDaily.created_at := MonitorServerMetricDaily.created_at r |>)
  | None => _ ← create TMetricDaily values; mret ()
  end.

Definition group_key (m : MonitorServerMetric) : Z * Z :=
  (MonitorServerMetric.server_id m, py_date (MonitorServerMetric.collected_at m)).

Definition aggregate_daily (cutoff : datetime) : M Z :=
  ids ← select_where TMetric (λ m, MonitorServerMetric.collected_at m <? cutoff);
  ms ← map_loop (obj TMetric) ids;
  let groups := remove_dups (group_key <$> ms) in
  fold_loop (λ written '(server_id, day),
    upsert_daily (daily_row server_id day (filter (λ m, group_key m = (server_id, day)) ms));;
    mret (written + 1)) 0 groups.

Definition delete_daily_before (retention_days : Z) : M Z :=
  now ← utcnow;
  delete_where TMetricDaily (λ r,
    MonitorServerMetricDaily.metric_date r <? py_date (now - days retention_days)).
End Ops.
End MetricRepository.

(** ** The newest metrics

    What [MetricRepository.get_latest_map] finds: for every server one metric
    that no other metric of the server is younger than. *)

(** [o] is a newest metric of the server, or it has none. *)
Definition newest (d : db) (server_id : Z) (o : option Z) : Prop :=
  match o with
  | Some m => ∃ x, rows (d TMetric) !! m = Some x ∧ MonitorServerMetric.server_id x = server_id ∧
      ∀ m' x', rows (d TMetric) !! m' = Some x' → MonitorServerMetric.server_id x' = server_id →
        MonitorServerMetric.collected_at x' <= MonitorServerMetric.collected_at x
  | None => ∀ m x, rows (d TMetric) !! m = Some x → MonitorServerMetric.server_id x ≠ server_id
  end.

(** [latest] maps every listed server that has a metric to a newest one. *)
Definition newest_map (d : db) (servers : list Z) (latest : gmap Z Z) : Prop :=
  ∀ j, j ∈ servers → newest d j (latest !! j).

Section Newest.
Context `{E : Env} `{!EnvOk E}.

Lemma any_row_true d k p : any_row d k p = true ↔ ∃ i r, rows (d k) !! i = Some r ∧ p r = true.
Proof.
  split.
  - intros Ha. destruct (matching k p d) as [|i l] eqn:Hm.
    + exfalso. apply not_false_iff_true in Ha. apply Ha, any_row_false. intros i r Hr.
      apply not_true_is_false. intros Hp. apply (not_elem_of_nil i). rewrite <- Hm.
      apply elem_of_matching. by exists r.
    + destruct (proj1 (elem_of_matching k p d i)) as (r & Hr & Hp); [rewrite Hm; list_in|]. by exists i, r.
  - intros (i & r & Hr & Hp). apply not_false_is_true. rewrite any_row_false. intros Hf.
    by rewrite (Hf i r Hr) in Hp.
Qed.

Lemma is_latest_spec d x :
  MetricRepository.is_latest d x = true ↔
  ∀ m' x', rows (d TMetric) !! m' = Some x' → MonitorServerMetric.server_id x' = MonitorServerMetric.server_id x →
    MonitorServerMetric.collected_at x' <= MonitorServerMetric.collected_at x.
Proof.
  unfold MetricRepository.is_latest. rewrite negb_true_iff, any_row_false. split.
  - intros Hf m' x' Hx' Hs. specialize (Hf m' x' Hx').
    apply andb_false_iff in Hf as [Hf|Hf]; [by apply Z.eqb_neq in Hf|by apply Z.ltb_ge].
  - intros Hle m' x' Hx'. destruct (_ =? _) eqn:Hs; [|done]. apply Z.eqb_eq in Hs. simpl.
    by apply Z.ltb_ge, (Hle m').
Qed.

(** A server with metrics has a newest one. *)
Lemma newest_exists d j m0 x0 :
  rows (d TMetric) !! m0 = Some x0 → MonitorServerMetric.server_id x0 = j →
  ∃ m x, rows (d TMetric) !! m = Some x ∧ MonitorServerMetric.server_id x = j ∧
         MetricRepository.is_latest d x = true.
Proof.
  intros H0 Hs0. set (ids := matching TMetric (MetricRepository.of_server j) d).
  assert (∀ l, l ≠ [] → (∀ i, i ∈ l → i ∈ ids) →
    ∃ m x, rows (d TMetric) !! m = Some x ∧ MonitorServerMetric.server_id x = j ∧
      ∀ i y, i ∈ l → rows (d TMetric) !! i = Some y →
        MonitorServerMetric.collected_at y <= MonitorServerMetric.collected_at x) as Hmax.
  { induction l as [|i l IH]; [done|]. intros _ Hin.
    assert (i ∈ ids) as Hi by (apply Hin; list_in).
    apply elem_of_matching in Hi as (y & Hy & Hys%Z.eqb_eq).
    destruct l as [|i' l'].
    - exists i, y. split_and!; [done..|]. intros i2 y2 ->%list_elem_of_singleton Hy2.
      by rewrite (same_row TMetric Hy Hy2).
    - destruct IH as (m & x & Hx & Hxs & Hxm); [done|intros x Hx; apply Hin, elem_of_cons; by right|].
      destruct (Z.le_gt_cases (MonitorServerMetric.collected_at y) (MonitorServerMetric.collected_at x)) as [Hc|Hc].
      + exists m, x. split_and!; [done..|]. intros i2 y2 [->|Hi2]%elem_of_cons Hy2; [|by eapply Hxm].
        by rewrite <- (same_row TMetric Hy Hy2).
      + exists i, y. split_and!; [done..|]. intros i2 y2 [->|Hi2]%elem_of_cons Hy2.
        * by rewrite (same_row TMetric Hy Hy2).
        * specialize (Hxm i2 y2 Hi2 Hy2). lia. }
  destruct (Hmax ids) as (m & x & Hx & Hxs & Hxm); [|done|].
  - intros Hnil. apply (not_elem_of_nil m0). rewrite <- Hnil. apply elem_of_matching. exists x0.
    split; [done|]. by apply Z.eqb_eq.
  - exists m, x. split_and!; [done..|]. apply is_latest_spec. intros m' x' Hx' Hs'.
    apply (Hxm m' x'); [|done]. apply elem_of_matching. exists x'. split; [done|].
    apply Z.eqb_eq. congruence.
Qed.

Lemma wp_latest_map servers (Q : gmap Z Z → session → Prop) Ex s :
  (∀ latest, newest_map (work s) servers latest → Q latest s) →
  wp (MetricRepository.get_latest_map servers) Q Ex s.
Proof.
  intros HQ. unfold MetricRepository.get_latest_map.
  destruct servers as [|j0 l0] eqn:Hservers.
  { apply wp_ret, HQ. intros j Hj. by apply elem_of_nil in Hj. }
  rewrite <- Hservers in *. clear Hservers j0 l0.
  apply wp_bind, wp_get_work, wp_bind, wp_select_where.
  match goal with |- context [matching TMetric ?p (work s)] => set (ids := matching TMetric p (work s)) end.
  assert (∀ m, m ∈ ids ↔ ∃ x, rows (work s TMetric) !! m = Some x ∧
    MonitorServerMetric.server_id x ∈ servers ∧ MetricRepository.is_latest (work s) x = true) as Hids.
  { intros m. etransitivity; [apply elem_of_matching|]. apply exist_proper. intros x. simpl.
    by rewrite andb_true_iff, bool_decide_eq_true. }
  clearbody ids.
  apply (wp_fold_loop (λ rest acc s', s' = s ∧ ∃ dn, ids = dn ++ rest ∧ ∀ j,
    match acc !! j with
    | Some m => m ∈ dn ∧ ∃ x, rows (work s TMetric) !! m = Some x ∧ MonitorServerMetric.server_id x = j
    | None => ∀ m x, m ∈ dn → rows (work s TMetric) !! m = Some x → MonitorServerMetric.server_id x ≠ j
    end)).
  - split; [done|]. exists []. split; [done|]. intros j. rewrite lookup_empty. intros m x Hm. by apply elem_of_nil in Hm.
  - intros m rest acc s' (-> & dn & Hsplit & Hacc).
    destruct (proj1 (Hids m)) as (x & Hx & _); [rewrite Hsplit; list_in|].
    apply wp_bind, (wp_obj_ok TMetric m x); [done|]. apply wp_ret. split; [done|].
    exists (dn ++ [m]). split; [by rewrite <- app_assoc|]. intros j.
    destruct (decide (MonitorServerMetric.server_id x = j)) as [<-|Hne].
    + rewrite lookup_insert_eq. split; [list_in|]. by exists x.
    + rewrite lookup_insert_ne by done. specialize (Hacc j). destruct (acc !! j) as [m'|].
      * destruct Hacc as [Hin Hex]. split; [list_in|done].
      * intros m' x' [Hin| ->%list_elem_of_singleton]%elem_of_app Hx'; [by eapply Hacc|].
        by rewrite <- (same_row TMetric Hx Hx').
  - intros acc s' (-> & dn & Hsplit & Hacc). rewrite app_nil_r in Hsplit. subst dn.
    apply HQ. intros j Hj. specialize (Hacc j). destruct (acc !! j) as [m|].
    + destruct Hacc as (Hin & x & Hx & Hs). exists x. split_and!; [done..|].
      destruct (proj1 (Hids m) Hin) as (x' & Hx' & _ & Hlatest).
      rewrite <- (same_row TMetric Hx Hx') in Hlatest. rewrite is_latest_spec, Hs in Hlatest. done.
    + intros m x Hx Hs. destruct (newest_exists (work s) j m x Hx Hs) as (m' & x' & Hx' & Hs' & Hl).
      apply (Hacc m' x'); [|done..]. apply Hids. exists x'. split_and!; [done|by rewrite Hs'|done].
Qed.
End Newest.
