(* ===== verification/ServerRepo.v ===== *)
(** * Server and agent repositories (backend/app/repositories/server_repository.py)

    Servers, agent tokens, heartbeats, service, disk and network assets. *)
From S2P Require Import Prelude.
From S2P Require Export Signing Wp.

(** What a registration reports about the machine ([RegisterRequest]). *)
Module RegisterRequest.
Record RegisterRequest := Mk {
  server_code : string;
  token : string;
  hostname : string;
  os_name : option string;
  os_version : option string;
  kernel_version : option string;
  architecture : option string;
  cpu_model : option string;
  cpu_cores : option Z;
  memory_total_bytes : option Z;
  disk_total_bytes : option Z;
  agent_version : option string;
  signing_public_key : option string
}.
End RegisterRequest.
Abbreviation RegisterRequest := RegisterRequest.RegisterRequest.

(** [data[field]] if it is not None, the present value otherwise. *)
Definition or_keep {A} (new old : option A) : option A :=
  match new with Some _ => new | None => old end.

(** [secrets.token_urlsafe(32)]: the [n]-th random token. *)
Class Secrets := token_urlsafe : nat → string.

Definition _hash_token (token : string) : string := sha256_hex token.

Module ServerRepository.
Section Ops.
Context `{E : Env}.

Definition get_by_server_code (server_code : string) : M (option Z) :=
  get_by TServer (λ s, String.eqb (OpsServer.server_code s) server_code).

Definition get_by_ip_port (ip_address : string) (ssh_port : Z) : M (option Z) :=
  get_by TServer (λ s, String.eqb (OpsServer.ip_address s) ip_address &&
                       (OpsServer.ssh_port s =? ssh_port)).

Definition set_system_info (data : RegisterRequest) (s : OpsServer) : OpsServer :=
  s <| OpsServer.hostname := RegisterRequest.hostname data |>
    <| OpsServer.os_name := or_keep (RegisterRequest.os_name data) (OpsServer.os_name s) |>
    <| OpsServer.os_version := or_keep (RegisterRequest.os_version data) (OpsServer.os_version s) |>
    <| OpsServer.kernel_version :=
         or_keep (RegisterRequest.kernel_version data) (OpsServer.kernel_version s) |>
    <| OpsServer.architecture :=
         or_keep (RegisterRequest.architecture data) (OpsServer.architecture s) |>
    <| OpsServer.cpu_model := or_keep (RegisterRequest.cpu_model data) (OpsServer.cpu_model s) |>
    <| OpsServer.cpu_cores := or_keep (RegisterRequest.cpu_cores data) (OpsServer.cpu_cores s) |>
    <| OpsServer.memory_total_bytes :=
         or_keep (RegisterRequest.memory_total_bytes data) (OpsServer.memory_total_bytes s) |>
    <| OpsServer.disk_total_bytes :=
         or_keep (RegisterRequest.disk_total_bytes data) (OpsServer.disk_total_bytes s) |>
    <| OpsServer.agent_version :=
         or_keep (RegisterRequest.agent_version data) (OpsServer.agent_version s) |>.

Definition register_server (server : Z) (data : RegisterRequest) : M unit :=
  now1 ← utcnow;
  now2 ← utcnow;
  assign TServer server (λ s,
    (set_system_info data s)
      <| OpsServer.registered_at := Some now1 |>
      <| OpsServer.last_heartbeat_at := Some now2 |>
      <| OpsServer.agent_status := A_ONLINE |>).

Definition update_last_heartbeat (server : Z) (ip agent_version : option string) : M unit :=
  now ← utcnow;
  assign TServer server (λ s,
    s <| OpsServer.last_heartbeat_at := Some now |>
      <| OpsServer.ip_address :=
           match ip with
           | Some a => if py_truthy ip then a else OpsServer.ip_address s
           | None => OpsServer.ip_address s
           end |>
      <| OpsServer.agent_version :=
           if py_truthy agent_version then agent_version else OpsServer.agent_version s |>
      <| OpsServer.agent_status := A_ONLINE |>).

(** The [CASE] expression; a comparison with NULL is not true. *)
Definition heartbeat_status (now : datetime) (last_heartbeat_at : option datetime) : agent_status :=
  match last_heartbeat_at with
  | Some t =>
    if now - seconds 30 <=? t then A_ONLINE
    else if now - seconds 90 <=? t then A_WARNING
    else A_OFFLINE
  | None => A_OFFLINE
  end.

Definition enabled (s : OpsServer) : bool := alive TServer s && (OpsServer.status s =? 1).

Definition refresh_agent_statuses : M Z :=
  now ← utcnow;
  d ← get_work;
  let affected := matching TServer enabled d in
  for_each (λ i, assign TServer i (λ s,
    s <| OpsServer.agent_status := heartbeat_status now (OpsServer.last_heartbeat_at s) |>)) affected;;
  mret (Z.of_nat (length affected)).

Record status_counts := StatusCounts {
  ONLINE : Z; WARNING : Z; OFFLINE : Z; UNKNOWN : Z; total : Z
}.

Definition get_status_counts : M status_counts :=
  d ← get_work;
  let n st := Z.of_nat (length
    (matching TServer (λ s, enabled s && bool_decide (OpsServer.agent_status s = st)) d)) in
  mret (StatusCounts (n A_ONLINE) (n A_WARNING) (n A_OFFLINE) (n A_UNKNOWN)
          (n A_ONLINE + n A_WARNING + n A_OFFLINE + n A_UNKNOWN)).

Definition list_active : M (list Z) := list_all TServer (λ s, OpsServer.status s =? 1).
End Ops.
End ServerRepository.

Module AgentTokenRepository.
Section Ops.
Context `{E : Env} `{!Secrets}.

(** The row for a new plaintext token: only its hash is stored. *)
Definition new_token (server_id : Z) (token_name : option string) (plaintext : string) : OpsAgentToken :=
  OpsAgentToken.Mk 0 server_id (default "default" (py_or token_name (Some "default")))
    (py_take 8 plaintext) (_hash_token plaintext) None (Some "ed25519") None 1 None None 0 None.

Definition create_token (server_id : Z) (token_name : option string) (n : nat) : M (Z * string) :=
  let plaintext := token_urlsafe n in
  token ← create TToken (new_token server_id token_name plaintext);
  mret (token, plaintext).

Definition get_by_token_hash (token_hash : string) : M (option Z) :=
  get_by TToken (λ t, String.eqb (OpsAgentToken.token_hash t) token_hash).

Definition authenticate (plaintext : string) : M (option Z) :=
  found ← get_by_token_hash (_hash_token plaintext);
  match found with
  | None => mret None
  | Some token =>
    t ← obj TToken token;
    if negb (OpsAgentToken.status t =? 1) then mret None else
    expired ← match OpsAgentToken.expires_at t with
              | Some expires_at => now ← utcnow; mret (expires_at <? now)
              | None => mret false
              end;
    if (expired : bool) then mret None else
    mret (match OpsAgentToken.revoked_at t with Some _ => None | None => Some token end)
  end.

Definition revoke (token : Z) : M unit :=
  now ← utcnow;
  assign TToken token (λ t,
    t <| OpsAgentToken.status := 0 |> <| OpsAgentToken.revoked_at := Some now |>).

Definition update_last_used (token : Z) : M unit :=
  now ← utcnow;
  assign TToken token (λ t, t <| OpsAgentToken.last_used_at := Some now |>).
End Ops.
End AgentTokenRepository.

Module HeartbeatRepository.
Section Ops.
Context `{E : Env}.

Definition record (server_id : Z) (agent_version ip_address : option string)
    (collected_at : option datetime) : M Z :=
  at_ ← match collected_at with Some t => mret t | None => utcnow end;
  create THeartbeat (OpsAgentHeartbeat.Mk 0 server_id agent_version ip_address at_ 0).
End Ops.
End HeartbeatRepository.

Module ServiceRepository.
Section Ops.
Context `{E : Env}.

Definition by_name (server_id : Z) (service_name : string) (s : OpsServerService) : bool :=
  (OpsServerService.server_id s =? server_id) &&
  String.eqb (OpsServerService.service_name s) service_name.

Definition upsert_status (server_id : Z) (service_name current_status : string) : M Z :=
  existing ← select_where TService (by_name server_id service_name);
  now ← utcnow;
  match head existing with
  | Some service =>
    assign TService service (λ s,
      s <| OpsServerService.current_status := Some current_status |>
        <| OpsServerService.last_checked_at := Some now |>);;
    mret service
  | None =>
    create TService
      (OpsServerService.Mk 0 server_id service_name (Some service_name) "SYSTEMD" 1 0
         (Some current_status) (Some now) 1 0)
  end.

Definition get_by_server_service (server_id : Z) (service_name : string) : M (option Z) :=
  get_by TService (by_name server_id service_name).

Definition list_by_server (server_id : Z) : M (list Z) :=
  list_all TService (λ s, OpsServerService.server_id s =? server_id).

Definition set_whitelist (service : Z) (is_whitelisted : Z) : M unit :=
  assign TService service (λ s, s <| OpsServerService.is_whitelisted := is_whitelisted |>).
End Ops.
End ServiceRepository.

Module DiskRepository.
Section Ops.
Context `{E : Env}.

Definition by_device (server_id : Z) (device_name : string) (mount_point : option string)
    (s : OpsServerDisk) : bool :=
  (OpsServerDisk.server_id s =? server_id) &&
  String.eqb (OpsServerDisk.device_name s) device_name &&
  bool_decide (OpsServerDisk.mount_point s = mount_point).

Definition upsert (server_id : Z) (device_name : string) (mount_point filesystem : option string)
    (total_bytes : option Z) : M Z :=
  existing ← select_where TDisk (by_device server_id device_name mount_point);
  match head existing with
  | Some disk =>
    assign TDisk disk (λ s,
      s <| OpsServerDisk.filesystem := py_or filesystem (OpsServerDisk.filesystem s) |>
        <| OpsServerDisk.total_bytes := or_keep total_bytes (OpsServerDisk.total_bytes s) |>);;
    mret disk
  | None =>
    create TDisk (OpsServerDisk.Mk 0 server_id device_name mount_point filesystem total_bytes 1 0)
  end.

Definition delete_missing (server_id : Z) (present_keys : list (string * option string)) : M unit :=
  disks ← list_all TDisk (λ s, OpsServerDisk.server_id s =? server_id);
  for_each (λ disk,
    s ← obj TDisk disk;
    when (negb (bool_decide ((OpsServerDisk.device_name s, OpsServerDisk.mount_point s) ∈ present_keys)))
      (delete_row TDisk disk)) disks.
End Ops.
End DiskRepository.

Module NetworkRepository.
Section Ops.
Context `{E : Env}.

Definition by_interface (server_id : Z) (interface_name : string) (s : OpsServerNetwork) : bool :=
  (OpsServerNetwork.server_id s =? server_id) &&
  String.eqb (OpsServerNetwork.interface_name s) interface_name.

Definition upsert (server_id : Z) (interface_name : string)
    (mac_address ip_address : option string) : M Z :=
  existing ← select_where TNetwork (by_interface server_id interface_name);
  match head existing with
  | Some network =>
    assign TNetwork network (λ s,
      s <| OpsServerNetwork.mac_address := py_or mac_address (OpsServerNetwork.mac_address s) |>
        <| OpsServerNetwork.ip_address := py_or ip_address (OpsServerNetwork.ip_address s) |>);;
    mret network
  | None =>
    create TNetwork (OpsServerNetwork.Mk 0 server_id interface_name mac_address ip_address 1 0)
  end.
End Ops.
End NetworkRepository.
