(* ===== verification/PyBase64.v ===== *)
(** * Base64 encoding

    Python's [base64.b64encode], which the agent applies to its public key and
    its signatures, and the fact that both decoders of [Signing] invert it. *)
From S2P Require Import Prelude.
From S2P Require Export Signing.

(** The character of a six-bit value. *)
Definition base64_char (v : Z) : Ascii.ascii :=
  Ascii.ascii_of_N (Z.to_N (if v <? 26 then v + 65
                  else if v <? 52 then v + 71
                  else if v <? 62 then v - 4
                  else if v =? 62 then 43 else 47)).

Definition byte_value (a : Ascii.ascii) : Z := Z.of_N (Ascii.N_of_ascii a).

(** The four sextets of a group of three bytes. *)
Definition sextet0 (a : Ascii.ascii) : Z := Z.shiftr (byte_value a) 2.
Definition sextet1 (a b : Ascii.ascii) : Z := Z.lor (Z.shiftl (Z.land (byte_value a) 3) 4) (Z.shiftr (byte_value b) 4).
Definition sextet2 (b c : Ascii.ascii) : Z := Z.lor (Z.shiftl (Z.land (byte_value b) 15) 2) (Z.shiftr (byte_value c) 6).
Definition sextet3 (c : Ascii.ascii) : Z := Z.land (byte_value c) 63.

Definition pad : Ascii.ascii := byte 61.

(** [base64.b64encode(s)]. *)
Fixpoint b64encode (s : string) : string :=
  match s with
  | EmptyString => EmptyString
  | String a EmptyString =>
    String (base64_char (sextet0 a)) (String (base64_char (sextet1 a Ascii.zero))
      (String pad (String pad EmptyString)))
  | String a (String b EmptyString) =>
    String (base64_char (sextet0 a)) (String (base64_char (sextet1 a b))
      (String (base64_char (sextet2 b Ascii.zero)) (String pad EmptyString)))
  | String a (String b (String c s')) =>
    String (base64_char (sextet0 a)) (String (base64_char (sextet1 a b))
      (String (base64_char (sextet2 b c)) (String (base64_char (sextet3 c)) (b64encode s'))))
  end.

Example b64encode_hello : b64encode "hello" = "aGVsbG8=".
Proof. vm_compute. reflexivity. Qed.

(** ** What holds of every byte, checked byte by byte *)

Definition all_bytes : list Ascii.ascii := byte <$> seq 0 256.

Lemma elem_of_all_bytes (a : Ascii.ascii) : a ∈ all_bytes.
Proof.
  apply list_elem_of_fmap. exists (Ascii.nat_of_ascii a). split.
  - unfold byte. by rewrite Ascii.ascii_nat_embedding.
  - apply elem_of_seq. pose proof (Ascii.nat_ascii_bounded a). lia.
Qed.

Lemma each_byte (p : Ascii.ascii → bool) : forallb p all_bytes = true → ∀ a, p a = true.
Proof. intros Hp a. rewrite forallb_forall in Hp. apply Hp, list_elem_of_In, elem_of_all_bytes. Qed.

Lemma each_byte2 (p : Ascii.ascii → Ascii.ascii → bool) :
  forallb (λ a, forallb (p a) all_bytes) all_bytes = true → ∀ a b, p a b = true.
Proof. intros Hp a. apply each_byte. exact (each_byte _ Hp a). Qed.

(** A character of the alphabet decodes to its value and is neither padding
    nor outside ASCII. *)
Definition good_char (v : Z) : bool :=
  bool_decide (base64_value (base64_char v) = Some v) && negb (is_pad (base64_char v)) &&
  (Ascii.N_of_ascii (base64_char v) <? 128)%N.

Lemma sextet_chars (a b : Ascii.ascii) :
  good_char (sextet0 a) && good_char (sextet1 a b) && good_char (sextet2 a b) && good_char (sextet3 a) = true.
Proof. revert a b. apply each_byte2. vm_compute. reflexivity. Qed.

(** The decoder's shifts undo the encoder's. *)
Lemma sextet_bytes (a b : Ascii.ascii) :
  Ascii.eqb (byte_of (Z.lor (Z.shiftl (sextet0 a) 2) (Z.shiftr (sextet1 a b) 4))) a &&
  (Z.land (sextet1 a b) 15 =? Z.shiftr (byte_value b) 4) &&
  Ascii.eqb (byte_of (Z.lor (Z.shiftl (Z.shiftr (byte_value a) 4) 4) (Z.shiftr (sextet2 a b) 2))) a &&
  (Z.land (sextet2 a b) 3 =? Z.shiftr (byte_value b) 6) &&
  Ascii.eqb (byte_of (Z.lor (Z.shiftl (Z.shiftr (byte_value a) 6) 6) (sextet3 a))) a = true.
Proof. revert a b. apply each_byte2. vm_compute. reflexivity. Qed.

Lemma sextets_good (a b c : Ascii.ascii) :
  good_char (sextet0 a) = true ∧ good_char (sextet1 a b) = true ∧
  good_char (sextet2 b c) = true ∧ good_char (sextet3 c) = true.
Proof.
  pose proof (sextet_chars a b) as H1. pose proof (sextet_chars b c) as H2. pose proof (sextet_chars c c) as H3.
  rewrite !andb_true_iff in *. tauto.
Qed.

Lemma sextets_decode (a b c : Ascii.ascii) :
  byte_of (Z.lor (Z.shiftl (sextet0 a) 2) (Z.shiftr (sextet1 a b) 4)) = a ∧
  byte_of (Z.lor (Z.shiftl (Z.land (sextet1 a b) 15) 4) (Z.shiftr (sextet2 b c) 2)) = b ∧
  byte_of (Z.lor (Z.shiftl (Z.land (sextet2 b c) 3) 6) (sextet3 c)) = c.
Proof.
  pose proof (sextet_bytes a b) as H1. pose proof (sextet_bytes b c) as H2. pose proof (sextet_bytes c c) as H3.
  rewrite !andb_true_iff in *.
  destruct H1 as [[[[H1%Ascii.eqb_eq ->%Z.eqb_eq] _] _] _].
  destruct H2 as [[[[_ _] H2%Ascii.eqb_eq] ->%Z.eqb_eq] _].
  destruct H3 as [_ H3%Ascii.eqb_eq]. done.
Qed.

(** ** The round trip *)

Section Decoding.
Context (strict : bool).

Lemma a2b_char (v : Z) (s : string) (quad : nat) (left pads : Z) :
  good_char v = true →
  a2b_base64 strict (String (base64_char v) s) quad left pads false =
    match quad with
    | 0%nat => a2b_base64 strict s 1 v 0 false
    | 1%nat => String (byte_of (Z.lor (Z.shiftl left 2) (Z.shiftr v 4))) <$> a2b_base64 strict s 2 (Z.land v 15) 0 false
    | 2%nat => String (byte_of (Z.lor (Z.shiftl left 4) (Z.shiftr v 2))) <$> a2b_base64 strict s 3 (Z.land v 3) 0 false
    | _ => String (byte_of (Z.lor (Z.shiftl left 6) v)) <$> a2b_base64 strict s 0 0 0 false
    end.
Proof.
  unfold good_char. rewrite !andb_true_iff, negb_true_iff, bool_decide_eq_true.
  intros [[Hv Hp] _]. simpl. by rewrite Hp, Hv, andb_false_r.
Qed.

(** One, two and three bytes at the end of the input, and a full group. *)
Lemma a2b_encode_1 (a : Ascii.ascii) : a2b_base64 strict (b64encode (String a EmptyString)) 0 0 0 false = Some (String a EmptyString).
Proof.
  destruct (sextets_good a Ascii.zero Ascii.zero) as (H0 & H1 & _ & _).
  destruct (sextets_decode a Ascii.zero Ascii.zero) as (D0 & _ & _).
  unfold b64encode. rewrite a2b_char, a2b_char by done. rewrite D0. simpl. by rewrite andb_false_r.
Qed.

Lemma a2b_encode_2 (a b : Ascii.ascii) :
  a2b_base64 strict (b64encode (String a (String b EmptyString))) 0 0 0 false = Some (String a (String b EmptyString)).
Proof.
  destruct (sextets_good a b Ascii.zero) as (H0 & H1 & H2 & _).
  destruct (sextets_decode a b Ascii.zero) as (D0 & D1 & _).
  unfold b64encode. rewrite !a2b_char by done. rewrite D0, D1. simpl. by rewrite andb_false_r.
Qed.

Lemma a2b_encode_3 (a b c : Ascii.ascii) (s : string) :
  a2b_base64 strict (b64encode (String a (String b (String c s)))) 0 0 0 false =
  (λ t, String a (String b (String c t))) <$> a2b_base64 strict (b64encode s) 0 0 0 false.
Proof.
  destruct (sextets_good a b c) as (H0 & H1 & H2 & H3).
  destruct (sextets_decode a b c) as (D0 & D1 & D2).
  cbn [b64encode]. rewrite !a2b_char by done. rewrite D0, D1, D2. by destruct (a2b_base64 _ _ _ _ _ _).
Qed.

Fixpoint a2b_encode (s : string) : a2b_base64 strict (b64encode s) 0 0 0 false = Some s.
Proof.
  destruct s as [|a [|b [|c s]]]; [done|apply a2b_encode_1|apply a2b_encode_2|].
  by rewrite a2b_encode_3, a2b_encode.
Qed.
End Decoding.

Lemma good_char_ascii (v : Z) : good_char v = true → (Ascii.N_of_ascii (base64_char v) <? 128)%N = true.
Proof. unfold good_char. rewrite !andb_true_iff. tauto. Qed.

Lemma good_char_pad (v : Z) : good_char v = true → is_pad (base64_char v) = false.
Proof. unfold good_char. rewrite !andb_true_iff, negb_true_iff. tauto. Qed.

Fixpoint is_ascii_encode (s : string) : is_ascii (b64encode s) = true.
Proof.
  destruct s as [|a [|b [|c s]]]; [done|..]; cbn [b64encode is_ascii];
    rewrite !good_char_ascii by first [apply (sextets_good a Ascii.zero Ascii.zero)|apply (sextets_good a b Ascii.zero)|apply (sextets_good a b c)]; [done..|].
  by rewrite is_ascii_encode.
Qed.

(** Base64 is decoded to what was encoded, with validation and without. *)
Lemma b64_roundtrip (strict : bool) (s : string) : b64decode strict (b64encode s) = Some s.
Proof.
  unfold b64decode. rewrite is_ascii_encode. cbn [negb].
  pose proof (a2b_encode strict s) as H. destruct s as [|a [|b [|c s]]]; [done|..]; cbn [b64encode] in *;
    by rewrite good_char_pad, andb_false_r by apply (sextets_good a Ascii.zero Ascii.zero).
Qed.

Lemma b64encode_empty (s : string) : b64encode s = EmptyString → s = EmptyString.
Proof. by destruct s as [|a [|b [|c s]]]. Qed.
