(* ===== verification/AgentAuth.v ===== *)
(** * Agent authentication (backend/app/api/v1/deps.py, core/replay.py)

    The bearer token selects the token row and its server; the four signature
    headers, if all present, are checked against the token's public key, the
    clock and the cache of request ids. *)
From S2P Require Import Prelude.
From S2P Require Export PyText Signing Redis ServerRepo.

(** The settings of backend/app/core/config.py this part reads. *)
Record settings := Settings {
  AGENT_REQUIRE_SIGNATURE : bool;
  AGENT_SIGNATURE_MAX_SKEW : Z
}.

(** ** Requests *)

Record request := Request { method : string; path : string; body : string }.

Record signature_headers := Headers {
  x_agent_id : option string;
  x_timestamp : option string;
  x_request_id : option string;
  x_signature : option string
}.

(** The outside of one verification: the wall clock (microseconds), Redis with
    its own clock (milliseconds), and what happens to the command. *)
Record outside `{Redis} := Outside { wall : Z; cache : rstate; cache_time : Z; cache_fault : fault }.
Arguments Outside {_}.

Section Verify.
Context `{!Ed25519} `{R : Redis}.

Definition replay_key (server_id : Z) (request_id : string) : string :=
  "agent:sig:" +:+ py_str server_id +:+ ":" +:+ request_id.

(** [is_replayed]; [None] is a [RedisError].  Redis refuses a lifetime that is
    not positive. *)
Definition is_replayed (server_id : Z) (request_id : string) (ttl_seconds : Z)
    (s : rstate) (t : Z) (f : fault) : rstate * option bool :=
  if ttl_seconds <=? 0 then (s, None) else
  match f with
  | RequestLost => (s, None)
  | ReplyLost => ((set_nx s t (replay_key server_id request_id) "1" (ttl_seconds * 1000)).1, None)
  | NoFault =>
    let '(s', created) := set_nx s t (replay_key server_id request_id) "1" (ttl_seconds * 1000) in
    (s', Some (negb created))
  end.

(** [int(time.time())]. *)
Definition int_time (wall : Z) : Z := wall / 1000000.

Definition unauthorized (c : ErrorCode) (msg : string) : outcome () := Raise (AppException c msg 401).

Definition _verify_agent_signature (cfg : settings) (req : request) (token_record : OpsAgentToken)
    (server : OpsServer) (h : signature_headers) (o : outside) : rstate * outcome () :=
  let same r := (cache o, r) in
  match x_agent_id h, x_timestamp h, x_request_id h, x_signature h with
  | Some agent_id, Some timestamp, Some request_id, Some signature =>
    if negb (String.eqb agent_id (OpsServer.server_code server))
    then same (unauthorized AGENT_SIGNATURE_INVALID "Agent 标识与凭证不匹配") else
    match py_int_of timestamp with
    | None => same (unauthorized AGENT_TIMESTAMP_INVALID "时间戳非法")
    | Some ts =>
      if AGENT_SIGNATURE_MAX_SKEW cfg <? Z.abs (int_time (wall o) - ts)
      then same (unauthorized AGENT_TIMESTAMP_INVALID "时间戳超出允许范围") else
      if negb (py_truthy (OpsAgentToken.signing_public_key token_record)) then
        if AGENT_REQUIRE_SIGNATURE cfg
        then same (unauthorized AGENT_SIGNATURE_INVALID "未注册签名公钥")
        else same (Ok ())
      else
      let public_key := default EmptyString (OpsAgentToken.signing_public_key token_record) in
      let canonical := canonical_string (method req) (path req) timestamp request_id (body req) in
      if negb (verify_signature public_key signature canonical)
      then same (unauthorized AGENT_SIGNATURE_INVALID "请求签名无效") else
      let '(cache', replayed) :=
        is_replayed (OpsServer.id server) request_id (AGENT_SIGNATURE_MAX_SKEW cfg * 2)
          (cache o) (cache_time o) (cache_fault o) in
      match replayed with
      | None =>
        if AGENT_REQUIRE_SIGNATURE cfg
        then (cache', Raise (AppException AGENT_SIGNATURE_INVALID "重放校验服务不可用" 503))
        else (cache', Ok ())
      | Some true => (cache', unauthorized AGENT_REQUEST_REPLAYED "请求已重放")
      | Some false => (cache', Ok ())
      end
    end
  | _, _, _, _ =>
    if AGENT_REQUIRE_SIGNATURE cfg
    then same (unauthorized AGENT_SIGNATURE_MISSING "缺少请求签名")
    else same (Ok ())
  end.

Context `{E : Env} `{!Secrets}.

(** The token row and the active server of a bearer token. *)
Definition find_agent (token : string) : M (Z * Z) :=
  found ← AgentTokenRepository.authenticate token;
  match found with
  | None => app_error AGENT_UNAUTHORIZED "Agent 凭证无效" 401
  | Some token_record =>
    t ← obj TToken token_record;
    server ← get TServer (OpsAgentToken.server_id t);
    match server with
    | None => app_error SERVER_NOT_FOUND "服务器不存在或已停用" 404
    | Some server =>
      s ← obj TServer server;
      if negb (OpsServer.status s =? 1) then app_error SERVER_NOT_FOUND "服务器不存在或已停用" 404
      else mret (token_record, server)
    end
  end.

(** [_resolve_agent]: [get_agent_server] returns the second component,
    [get_agent_token] the first. *)
Definition _resolve_agent (cfg : settings) (req : request) (token : string) (h : signature_headers)
    (o : outside) (s : session) : rstate * outcome (Z * Z) * session :=
  match find_agent token s with
  | (Raise e, s') => (cache o, Raise e, s')
  | (Ok (token_record, server), s') =>
    match rows (work s' TToken) !! token_record, rows (work s' TServer) !! server with
    | Some t, Some sv =>
      match _verify_agent_signature cfg req t sv h o with
      | (c, Ok ()) => (c, Ok (token_record, server), s')
      | (c, Raise e) => (c, Raise e, s')
      end
    | _, _ => (cache o, Raise ObjectDeletedError, s')
    end
  end.

Definition get_agent_server (cfg : settings) (req : request) (token : string) (h : signature_headers)
    (o : outside) (s : session) : rstate * outcome Z * session :=
  match _resolve_agent cfg req token h o s with
  | (c, Ok (_, server), s') => (c, Ok server, s')
  | (c, Raise e, s') => (c, Raise e, s')
  end.

Definition get_agent_token (cfg : settings) (req : request) (token : string) (h : signature_headers)
    (o : outside) (s : session) : rstate * outcome Z * session :=
  match _resolve_agent cfg req token h o s with
  | (c, Ok (token_record, _), s') => (c, Ok token_record, s')
  | (c, Raise e, s') => (c, Raise e, s')
  end.
End Verify.
