(* ===== verification/AgentService.v ===== *)
(** * Agent protocol (backend/app/services/agent_service.py, schemas/agent.py)

    Registration, key rotation, heartbeats, metrics, assets and services. *)
From Stdlib Require Import QArith.
From S2P Require Import Prelude.
From S2P Require Export Signing MetricRepo ServerRepo.

(** A [datetime] of a request: local time, and the offset of its zone if it has
    one. *)
Record wire_time := WireTime { local : datetime; utcoffset : option timedelta }.

Module HeartbeatRequest.
Record HeartbeatRequest := Mk {
  server_id : option Z;
  agent_version : option string;
  timestamp : option wire_time
}.
End HeartbeatRequest.
Abbreviation HeartbeatRequest := HeartbeatRequest.HeartbeatRequest.

Module MetricsRequest.
Record MetricsRequest := Mk {
  server_id : option Z;
  timestamp : wire_time;
  cpu_usage : option Q;
  memory_usage : option Q;
  memory_used_bytes : option Z;
  disk_usage : option Q;
  network_in_bytes : option Z;
  network_out_bytes : option Z;
  load_1m : option Q;
  load_5m : option Q;
  load_15m : option Q;
  tcp_connections : option Z;
  uptime_seconds : option Z
}.
End MetricsRequest.
Abbreviation MetricsRequest := MetricsRequest.MetricsRequest.

Module DiskAsset.
Record DiskAsset := Mk {
  device_name : string;
  mount_point : option string;
  filesystem : option string;
  total_bytes : option Z
}.
End DiskAsset.
Abbreviation DiskAsset := DiskAsset.DiskAsset.

Module NetworkAsset.
Record NetworkAsset := Mk {
  interface_name : string;
  mac_address : option string;
  ip_address : option string
}.
End NetworkAsset.
Abbreviation NetworkAsset := NetworkAsset.NetworkAsset.

Module AssetsRequest.
Record AssetsRequest := Mk {
  server_id : option Z;
  disks : list DiskAsset;
  networks : list NetworkAsset
}.
End AssetsRequest.
Abbreviation AssetsRequest := AssetsRequest.AssetsRequest.

Module ServicesRequest.
Record ServicesRequest := Mk {
  server_id : option Z;
  (** Names with their current status. *)
  services : list (string * string)
}.
End ServicesRequest.
Abbreviation ServicesRequest := ServicesRequest.ServicesRequest.

Definition MAX_TIME_SKEW_SECONDS : Z := 300.

(** [dt.astimezone(UTC).replace(tzinfo=None)], or [dt] itself if it is naive. *)
Definition _normalize_utc (dt : wire_time) : datetime :=
  match utcoffset dt with
  | Some offset => local dt - offset
  | None => local dt
  end.

Section Service.
Context `{E : Env} `{!Ed25519} `{!Secrets}.

Definition _assert_server_match (server : Z) (server_id : option Z) : M unit :=
  s ← obj TServer server;
  match server_id with
  | Some i => if negb (i =? OpsServer.id s)
              then app_error AGENT_UNAUTHORIZED "服务器 ID 与凭证不匹配" 401 else mret ()
  | None => mret ()
  end.

(** [abs((now - t).total_seconds()) > 300], in microseconds. *)
Definition _validate_timestamp (collected_at : wire_time) : M datetime :=
  now ← utcnow;
  let normalized := _normalize_utc collected_at in
  if seconds MAX_TIME_SKEW_SECONDS <? Z.abs (now - normalized)
  then app_error INVALID_TIMESTAMP "采集时间非法" 400
  else mret normalized.

Definition set_signing_key (token : Z) (public_key : string) : M unit :=
  now ← utcnow;
  update TToken token (λ t,
    t <| OpsAgentToken.signing_public_key := Some public_key |>
      <| OpsAgentToken.signing_algorithm := Some "ed25519" |>
      <| OpsAgentToken.key_registered_at := Some now |>).

(** The key of a registration, if it is to be stored. *)
Definition registered_key (data : RegisterRequest) (t : OpsAgentToken) : option string :=
  match RegisterRequest.signing_public_key data with
  | Some key =>
    if py_truthy (Some key) && is_valid_public_key key &&
       negb (bool_decide (Some key = OpsAgentToken.signing_public_key t))
    then Some key else None
  | None => None
  end.

(** The answer's [server_id]; its [agent_status] is "ONLINE". *)
Definition register (data : RegisterRequest) (ip : option string) : M Z :=
  found ← AgentTokenRepository.authenticate (RegisterRequest.token data);
  match found with
  | None => app_error AGENT_UNAUTHORIZED "Agent 凭证无效" 401
  | Some token =>
    t ← obj TToken token;
    found_server ← get TServer (OpsAgentToken.server_id t);
    match found_server with
    | None => app_error SERVER_NOT_FOUND "服务器不存在或已停用" 404
    | Some server =>
      s ← obj TServer server;
      if negb (OpsServer.status s =? 1)
      then app_error SERVER_NOT_FOUND "服务器不存在或已停用" 404 else
      if negb (String.eqb (OpsServer.server_code s) (RegisterRequest.server_code data))
      then app_error AGENT_UNAUTHORIZED "服务器编码与凭证不匹配" 401 else
      ServerRepository.register_server server data;;
      match ip with
      | Some a => when (py_truthy ip) (assign TServer server (λ s, s <| OpsServer.ip_address := a |>))
      | None => mret ()
      end;;
      _ ← HeartbeatRepository.record (OpsServer.id s) (RegisterRequest.agent_version data) ip None;
      match registered_key data t with
      | Some key => set_signing_key token key
      | None => mret ()
      end;;
      AgentTokenRepository.update_last_used token;;
      commit;;
      mret (OpsServer.id s)
    end
  end.

Definition rotate_signing_key (token : Z) (public_key : string) : M unit :=
  if negb (is_valid_public_key public_key)
  then app_error BAD_REQUEST "签名公钥格式非法" 400
  else
    set_signing_key token public_key;;
    commit.

(** [{server_id, received_at}]. *)
Definition heartbeat (server : Z) (data : HeartbeatRequest) (ip : option string) : M (Z * string) :=
  _assert_server_match server (HeartbeatRequest.server_id data);;
  ServerRepository.update_last_heartbeat server ip (HeartbeatRequest.agent_version data);;
  s ← obj TServer server;
  at_ ← match HeartbeatRequest.timestamp data with
        | Some t => mret (_normalize_utc t)
        | None => utcnow
        end;
  _ ← HeartbeatRepository.record (OpsServer.id s) (HeartbeatRequest.agent_version data) ip (Some at_);
  commit;;
  now ← utcnow;
  mret (OpsServer.id s, py_isoformat now).

Definition new_metric (server_id : Z) (collected_at : datetime) (data : MetricsRequest) : MonitorServerMetric :=
  MonitorServerMetric.Mk 0 server_id collected_at
    (MetricsRequest.cpu_usage data) (MetricsRequest.memory_usage data)
    (MetricsRequest.memory_used_bytes data) (MetricsRequest.disk_usage data)
    (MetricsRequest.network_in_bytes data) (MetricsRequest.network_out_bytes data)
    (MetricsRequest.load_1m data) (MetricsRequest.load_5m data) (MetricsRequest.load_15m data)
    (MetricsRequest.tcp_connections data) (MetricsRequest.uptime_seconds data) 0.

Definition ingest_metrics (server : Z) (data : MetricsRequest) : M (Z * string) :=
  _assert_server_match server (MetricsRequest.server_id data);;
  collected_at ← _validate_timestamp (MetricsRequest.timestamp data);
  s ← obj TServer server;
  _ ← MetricRepository.record (new_metric (OpsServer.id s) collected_at data);
  commit;;
  now ← utcnow;
  mret (OpsServer.id s, py_isoformat now).

Definition disk_key (d : DiskAsset) : string * option string :=
  (DiskAsset.device_name d, DiskAsset.mount_point d).

Definition sync_assets (server : Z) (data : AssetsRequest) : M (Z * string) :=
  _assert_server_match server (AssetsRequest.server_id data);;
  s ← obj TServer server;
  let sid := OpsServer.id s in
  for_each (λ disk,
    _ ← DiskRepository.upsert sid (DiskAsset.device_name disk) (DiskAsset.mount_point disk)
          (DiskAsset.filesystem disk) (DiskAsset.total_bytes disk);
    mret ()) (AssetsRequest.disks data);;
  DiskRepository.delete_missing sid (disk_key <$> AssetsRequest.disks data);;
  for_each (λ net,
    _ ← NetworkRepository.upsert sid (NetworkAsset.interface_name net)
          (NetworkAsset.mac_address net) (NetworkAsset.ip_address net);
    mret ()) (AssetsRequest.networks data);;
  networks ← list_all TNetwork (λ n, OpsServerNetwork.server_id n =? sid);
  for_each (λ network,
    n ← obj TNetwork network;
    when (negb (bool_decide (OpsServerNetwork.interface_name n ∈
                             (NetworkAsset.interface_name <$> AssetsRequest.networks data))))
      (delete_row TNetwork network)) networks;;
  commit;;
  now ← utcnow;
  mret (sid, py_isoformat now).

Definition sync_services (server : Z) (data : ServicesRequest) : M (Z * string) :=
  _assert_server_match server (ServicesRequest.server_id data);;
  s ← obj TServer server;
  for_each (λ '(service_name, current_status),
    _ ← ServiceRepository.upsert_status (OpsServer.id s) service_name current_status;
    mret ()) (ServicesRequest.services data);;
  commit;;
  now ← utcnow;
  mret (OpsServer.id s, py_isoformat now).
End Service.
