(* ===== verification/ServerService.v ===== *)
(** * Server administration (backend/app/services/server_service.py, schemas/server.py)

    Creating servers, issuing agent tokens, the service whitelist. *)
From S2P Require Import Prelude.
From S2P Require Export ServerRepo.

Module ServerCreate.
Record ServerCreate := Mk {
  server_code : string;
  hostname : string;
  ip_address : string;
  ssh_port : Z;
  remark : option string
}.
End ServerCreate.
Abbreviation ServerCreate := ServerCreate.ServerCreate.

Module AgentTokenResponse.
Record AgentTokenResponse := Mk {
  id : Z;
  token_name : string;
  token_prefix : string;
  token : string;
  created_at : datetime
}.
End AgentTokenResponse.
Abbreviation AgentTokenResponse := AgentTokenResponse.AgentTokenResponse.

Section Service.
Context `{E : Env} `{!Secrets}.

Definition new_server (data : ServerCreate) (created_by : option Z) : OpsServer :=
  OpsServer.Mk 0 (ServerCreate.server_code data) (ServerCreate.hostname data)
    (ServerCreate.ip_address data) (ServerCreate.ssh_port data)
    None None None None None None None None None A_OFFLINE None None 1 (ServerCreate.remark data)
    created_by 0 None.

Definition create_server (data : ServerCreate) (created_by : option Z) : M Z :=
  by_code ← ServerRepository.get_by_server_code (ServerCreate.server_code data);
  match by_code with
  | Some _ => app_error SERVER_CODE_EXISTS "服务器编码已存在" 409
  | None =>
    by_ip ← ServerRepository.get_by_ip_port (ServerCreate.ip_address data) (ServerCreate.ssh_port data);
    match by_ip with
    | Some _ => app_error SERVER_IP_EXISTS "IP 与端口已被占用" 409
    | None =>
      server ← create TServer (new_server data created_by);
      commit;;
      mret server
    end
  end.

(** Newest key first. *)
Definition newest_server (a b : OpsServer) : bool := OpsServer.id b <=? OpsServer.id a.

Definition list_servers (page page_size : Z) (agent_status : option string) : M (Z * list Z) :=
  list_page TServer page page_size newest_server (λ s,
    match agent_status with
    | Some a => negb (py_truthy agent_status) || String.eqb (agent_status_str (OpsServer.agent_status s)) a
    | None => true
    end).

Definition get_server (server_id : Z) : M Z :=
  server ← get TServer server_id;
  match server with
  | None => app_error SERVER_NOT_FOUND "服务器不存在" 404
  | Some i => mret i
  end.

(** The [n]-th secret is drawn. *)
Definition generate_agent_token (server_id : Z) (token_name : option string) (n : nat) : M AgentTokenResponse :=
  server ← get_server server_id;
  s ← obj TServer server;
  '(token, plaintext) ← AgentTokenRepository.create_token (OpsServer.id s) token_name n;
  commit;;
  t ← obj TToken token;
  mret (AgentTokenResponse.Mk (OpsAgentToken.id t) (OpsAgentToken.token_name t) (OpsAgentToken.token_prefix t)
          plaintext (OpsAgentToken.created_at t)).

Definition list_services (server_id : Z) : M (list Z) :=
  _ ← get_server server_id;
  ServiceRepository.list_by_server server_id.

Definition update_service_whitelist (server_id service_id is_whitelisted : Z) : M Z :=
  _ ← get_server server_id;
  service ← get TService service_id;
  match service with
  | None => app_error SERVER_NOT_FOUND "服务不存在" 404
  | Some i =>
    s ← obj TService i;
    if negb (OpsServerService.server_id s =? server_id)
    then app_error SERVER_NOT_FOUND "服务不存在" 404
    else
      ServiceRepository.set_whitelist i is_whitelisted;;
      commit;;
      mret i
  end.
End Service.
