(* ===== verification/UserRepo.v ===== *)
(** * User repositories (backend/app/repositories/user_repository.py, audit_repository.py)

    Users and their roles, roles and their permissions, the login log. *)
From S2P Require Import Prelude.
From S2P Require Export Wp.

Module UserRepository.
Section Ops.
Context `{E : Env}.

Definition get_by_username (username : string) : M (option Z) :=
  get_by TUser (λ u, String.eqb (SysUser.username u) username).

Definition get_by_email (email : string) : M (option Z) :=
  get_by TUser (λ u, bool_decide (SysUser.email u = Some email)).

Definition update_last_login (user : Z) (ip : option string) : M unit :=
  now ← utcnow;
  assign TUser user (λ u,
    u <| SysUser.last_login_at := Some now |>
      <| SysUser.last_login_ip := py_or ip (SysUser.last_login_ip u) |>).

(** The association rows of a user. *)
Definition role_links (user_id : Z) : M (list Z) :=
  d ← get_work; mret (matching TUserRole (λ l, SysUserRole.user_id l =? user_id) d).

Definition get_role_ids (user_id : Z) : M (list Z) :=
  links ← role_links user_id;
  rows ← map_loop (obj TUserRole) links;
  mret (SysUserRole.role_id <$> rows).

(** The join with the roles. *)
Definition get_roles_by_user (user_id : Z) : M (list Z) :=
  ids ← get_role_ids user_id;
  d ← get_work;
  mret (filter (λ i, has_row d TRole i = true) ids).

Definition set_roles (user_id : Z) (role_ids : list Z) : M unit :=
  _ ← delete_where TUserRole (λ l, SysUserRole.user_id l =? user_id);
  for_each (λ role_id, _ ← create TUserRole (SysUserRole.Mk 0 user_id role_id 0); mret ())
    (set_iter role_ids).
End Ops.
End UserRepository.

Module RoleRepository.
Section Ops.
Context `{E : Env}.

Definition get_by_code (role_code : string) : M (option Z) :=
  get_by TRole (λ r, String.eqb (SysRole.role_code r) role_code).

Definition get_permission_ids (role_id : Z) : M (list Z) :=
  d ← get_work;
  rows ← map_loop (obj TRolePermission)
           (matching TRolePermission (λ l, SysRolePermission.role_id l =? role_id) d);
  mret (SysRolePermission.permission_id <$> rows).

Definition set_permissions (role_id : Z) (permission_ids : list Z) : M unit :=
  _ ← delete_where TRolePermission (λ l, SysRolePermission.role_id l =? role_id);
  for_each (λ permission_id,
    _ ← create TRolePermission (SysRolePermission.Mk 0 role_id permission_id 0); mret ())
    (set_iter permission_ids).
End Ops.
End RoleRepository.

Module PermissionRepository.
Section Ops.
Context `{E : Env}.

Definition get_by_code (permission_code : string) : M (option Z) :=
  get_by TPermission (λ p, String.eqb (SysPermission.permission_code p) permission_code).

Definition list_tree : M (list Z) :=
  ids ← select_where TPermission (λ p, SysPermission.status p =? 1);
  order_by TPermission (λ a b, SysPermission.id a <=? SysPermission.id b) ids.

(** The join of the role's links with the enabled permissions. *)
Definition get_codes_by_role (role_id : Z) : M (list string) :=
  ids ← RoleRepository.get_permission_ids role_id;
  d ← get_work;
  mret (omap (λ i, p ← rows (d TPermission) !! i;
                   if SysPermission.status p =? 1 then Some (SysPermission.permission_code p) else None) ids).
End Ops.
End PermissionRepository.

Module LoginLogRepository.
Section Ops.
Context `{E : Env}.

(** The lengths of the columns that come from the request. *)
Definition login_log_fits (username : string) (login_ip user_agent request_id : option string) : bool :=
  fits 64 (Some username) && fits 64 login_ip && fits 500 user_agent && fits 64 request_id.

Definition create_login_log (username login_status : string) (user_id : option Z)
    (login_ip user_agent failure_reason request_id : option string) : M Z :=
  checked (login_log_fits username login_ip user_agent request_id);;
  create TLoginLog (SysLoginLog.Mk 0 user_id username login_ip user_agent login_status failure_reason
                      request_id 0).
End Ops.
End LoginLogRepository.
