(* ===== verification/AuthService.v ===== *)
(** * Login and authorisation
    (backend/app/core/security.py, services/auth_service.py, api/v1/deps.py) *)
From S2P Require Import Prelude.
From S2P Require Export PyText Session UserRepo.

(** ** Passwords and access tokens (backend/app/core/security.py)

    bcrypt is passlib's, the token format PyJWT's: both are parameters, with
    their documented round trips. *)

Class Passwords := {
  (** The [n]-th hash that is made; each has its own salt. *)
  bcrypt_hash : nat → string → string;
  bcrypt_verify : string → string → bool
}.

Class PasswordsOk (P : Passwords) : Prop :=
  verify_hash : ∀ n password, bcrypt_verify password (bcrypt_hash n password) = true.

(** The claims of a token; times are in seconds, as PyJWT encodes them. *)
Record claims := Claims { sub : option string; iat : Z; exp : Z }.

Class Jwt := {
  jwt_encode : string → claims → string;
  (** [None] is an [InvalidTokenError]; the time is in microseconds. *)
  jwt_decode : string → datetime → string → option claims
}.

(** PyJWT refuses a token at the second it expires, and one issued in the
    future. *)
Definition claims_valid (c : claims) (now : datetime) : bool :=
  (now <? seconds (exp c)) && (seconds (iat c) <=? now).

Class JwtOk (J : Jwt) : Prop :=
  jwt_roundtrip : ∀ key now c, is_Some (sub c) →
    jwt_decode key now (jwt_encode key c) = if claims_valid c now then Some c else None.

(** The settings of backend/app/core/config.py this part reads. *)
Record jwt_settings := JwtSettings { JWT_SECRET_KEY : string; JWT_EXPIRE_MINUTES : Z }.

Section Security.
Context `{E : Env} `{!Passwords} `{!Jwt} (cfg : jwt_settings).

Definition hash_password (n : nat) (password : string) : string := bcrypt_hash n password.

Definition verify_password (plain_password hashed_password : string) : bool :=
  bcrypt_verify plain_password hashed_password.

Definition create_access_token (user_id : Z) : M string :=
  now ← utcnow;
  mret (jwt_encode (JWT_SECRET_KEY cfg)
          (Claims (Some (py_str user_id)) (now / 1000000)
             ((now + seconds (60 * JWT_EXPIRE_MINUTES cfg)) / 1000000))).

Definition invalid_token {A} : M A := app_error UNAUTHORIZED "Token 无效或已过期" 401.

Definition decode_access_token (token : string) : M Z :=
  now ← utcnow;
  match jwt_decode (JWT_SECRET_KEY cfg) now token with
  | None => invalid_token
  | Some payload =>
    match sub payload with
    | None => invalid_token
    | Some s => match py_int_of s with Some i => mret i | None => invalid_token end
    end
  end.
End Security.

(** ** The service and the dependencies of routes *)

Record TokenResponse := TokenResponseMk { access_token : string; token_type : string; expires_in : Z }.

Section Auth.
Context `{E : Env} `{!Passwords} `{!Jwt} (cfg : jwt_settings).

(** [verify_password(password, user.password_hash)] for the user found, if any. *)
Definition check_password (user : option Z) (password : string) : M (option Z) :=
  match user with
  | None => mret None
  | Some i => u ← obj TUser i; mret (if verify_password password (SysUser.password_hash u) then Some i else None)
  end.

Definition login (username password : string) (ip user_agent request_id : option string) : M TokenResponse :=
  found ← UserRepository.get_by_username username;
  checked ← check_password found password;
  match checked with
  | None =>
    _ ← LoginLogRepository.create_login_log username "FAILED" None ip user_agent
          (Some "用户名或密码错误") request_id;
    commit;;
    app_error INVALID_CREDENTIALS "用户名或密码错误" 401
  | Some user =>
    u ← obj TUser user;
    if negb (SysUser.status u =? 1) then
      _ ← LoginLogRepository.create_login_log username "FAILED" (Some (SysUser.id u)) ip user_agent
            (Some "账号已禁用") request_id;
      commit;;
      app_error ACCOUNT_DISABLED "账号已禁用" 401
    else
      UserRepository.update_last_login user ip;;
      token ← create_access_token cfg (SysUser.id u);
      _ ← LoginLogRepository.create_login_log username "SUCCESS" (Some (SysUser.id u)) ip user_agent
            None request_id;
      commit;;
      mret (TokenResponseMk token "bearer" (JWT_EXPIRE_MINUTES cfg * 60))
  end.

Definition get_current_user (token : string) : M Z :=
  user_id ← decode_access_token cfg token;
  user ← get TUser user_id;
  match user with
  | None => app_error UNAUTHORIZED "用户不存在或已被删除" 401
  | Some i =>
    u ← obj TUser i;
    if negb (SysUser.status u =? 1) then app_error ACCOUNT_DISABLED "账号已禁用" 401 else mret i
  end.

Definition get_current_roles (current_user : Z) : M (list string) :=
  u ← obj TUser current_user;
  roles ← UserRepository.get_roles_by_user (SysUser.id u);
  rows ← map_loop (obj TRole) roles;
  mret (SysRole.role_code <$> rows).

(** The dependency of a route: the user, if it has one of the roles. *)
Definition require_roles (role_codes : list string) (token : string) : M Z :=
  current_user ← get_current_user token;
  user_roles ← get_current_roles current_user;
  if bool_decide (Exists (λ r, r ∈ user_roles) role_codes) then mret current_user
  else app_error FORBIDDEN "无权限执行该操作" 403.
End Auth.
