(* ===== verification/UserService.v ===== *)
(** * User administration (backend/app/services/user_service.py, schemas/user.py) *)
From S2P Require Import Prelude.
From S2P Require Export AuthService UserRepo.

Module UserCreate.
Record UserCreate := Mk {
  username : string;
  password : string;
  nickname : option string;
  email : option string;
  phone : option string;
  role_ids : list Z
}.
End UserCreate.
Abbreviation UserCreate := UserCreate.UserCreate.

Module UserUpdate.
Record UserUpdate := Mk {
  password : field string;
  nickname : field string;
  email : field string;
  phone : field string;
  status : field Z;
  role_ids : field (list Z)
}.
End UserUpdate.
Abbreviation UserUpdate := UserUpdate.UserUpdate.

(** [values.pop(..., None)] and [values.get(...)]. *)
Definition given {A} (f : field A) : option A := match f with Given a => Some a | _ => None end.

Section Service.
Context `{E : Env} `{!Passwords}.

Definition _validate_roles (role_ids : list Z) : M unit :=
  for_each (λ role_id,
    role ← get TRole role_id;
    match role with
    | None => app_error ROLE_NOT_FOUND ("角色不存在: " +:+ py_str role_id) 404
    | Some _ => mret ()
    end) (set_iter role_ids).

Definition new_user (n : nat) (data : UserCreate) : SysUser :=
  SysUser.Mk 0 (UserCreate.username data) (hash_password n (UserCreate.password data))
    (UserCreate.nickname data) (UserCreate.email data) (UserCreate.phone data) 1 None None 0 None.

(** [if data.email and self.user_repo.get_by_email(data.email)]. *)
Definition email_owner (email : option string) : M (option Z) :=
  match email with
  | Some e => if py_truthy email then UserRepository.get_by_email e else mret None
  | None => mret None
  end.

(** The [n]-th password hash is made. *)
Definition create_user (data : UserCreate) (n : nat) : M Z :=
  same_name ← UserRepository.get_by_username (UserCreate.username data);
  match same_name with
  | Some _ => app_error USERNAME_EXISTS "用户名已存在" 409
  | None =>
    same_email ← email_owner (UserCreate.email data);
    match same_email with
    | Some _ => app_error EMAIL_EXISTS "邮箱已被使用" 409
    | None =>
      _validate_roles (UserCreate.role_ids data);;
      user ← create TUser (new_user n data);
      u ← obj TUser user;
      when (negb (bool_decide (UserCreate.role_ids data = [])))
        (UserRepository.set_roles (SysUser.id u) (UserCreate.role_ids data));;
      commit;;
      mret user
    end
  end.

Definition list_users (page page_size : Z) (username : option string) (status : option Z) : M (Z * list Z) :=
  list_page TUser page page_size (λ a b, SysUser.id b <=? SysUser.id a) (λ u,
    match username with
    | Some n => negb (py_truthy username) || String.eqb (SysUser.username u) n
    | None => true
    end &&
    match status with Some st => SysUser.status u =? st | None => true end).

Definition get_user (user_id : Z) : M Z :=
  user ← get TUser user_id;
  match user with
  | None => app_error USER_NOT_FOUND "用户不存在" 404
  | Some i => mret i
  end.

(** The password that replaces the present one, if any. *)
Definition new_password (data : UserUpdate) : option string :=
  match given (UserUpdate.password data) with
  | Some p => if py_truthy (Some p) then Some p else None
  | None => None
  end.

(** [setattr] for every value left. *)
Definition apply_user_update (n : nat) (data : UserUpdate) (u : SysUser) : SysUser :=
  u <| SysUser.password_hash :=
         match new_password data with Some p => hash_password n p | None => SysUser.password_hash u end |>
    <| SysUser.nickname := set_nullable (UserUpdate.nickname data) (SysUser.nickname u) |>
    <| SysUser.email := set_nullable (UserUpdate.email data) (SysUser.email u) |>
    <| SysUser.phone := set_nullable (UserUpdate.phone data) (SysUser.phone u) |>
    <| SysUser.status := set_required (UserUpdate.status data) (SysUser.status u) |>.

(** The new address, if it belongs to another user. *)
Definition taken_email (user_id : Z) (data : UserUpdate) (u : SysUser) : M bool :=
  match given (UserUpdate.email data) with
  | Some email =>
    if py_truthy (Some email) && negb (bool_decide (Some email = SysUser.email u)) then
      existing ← UserRepository.get_by_email email;
      match existing with
      | Some i => e ← obj TUser i; mret (negb (SysUser.id e =? user_id))
      | None => mret false
      end
    else mret false
  | None => mret false
  end.

Definition update_user (user_id : Z) (data : UserUpdate) (n : nat) : M Z :=
  user ← get_user user_id;
  u ← obj TUser user;
  taken ← taken_email user_id data u;
  if (taken : bool) then app_error EMAIL_EXISTS "邮箱已被使用" 409 else
  match given (UserUpdate.role_ids data) with
  | Some role_ids => _validate_roles role_ids
  | None => mret ()
  end;;
  (* a null status violates the column's NOT NULL *)
  (if is_null (UserUpdate.status data) then raise IntegrityError
   else update TUser user (apply_user_update n data));;
  match given (UserUpdate.role_ids data) with
  | Some role_ids => UserRepository.set_roles (SysUser.id u) role_ids
  | None => mret ()
  end;;
  commit;;
  mret user.

Definition delete_user (user_id : Z) : M unit :=
  user ← get_user user_id;
  soft_delete TUser user;;
  commit.
End Service.
