(* ===== verification/AlertRepo.v ===== *)
(** * Alert repositories (backend/app/repositories/alert_repository.py) *)
From Stdlib Require Import QArith.
From S2P Require Import Prelude.
From S2P Require Export PyFloat Wp.

Module AlertRuleRepository.
Section Ops.
Context `{E : Env}.

Definition get_enabled : M (list Z) := list_all TRule (λ r, AlertRule.enabled r =? 1).

Definition get_by_name (rule_name : string) : M (option Z) :=
  get_by TRule (λ r, String.eqb (AlertRule.rule_name r) rule_name).
End Ops.
End AlertRuleRepository.

Definition active (e : AlertEvent) : bool :=
  match AlertEvent.is_active e with Some _ => true | None => false end.

Module AlertEventRepository.
Section Ops.
Context `{E : Env}.

Definition active_with_key (alert_key : string) (e : AlertEvent) : bool :=
  String.eqb (AlertEvent.alert_key e) alert_key && active e.

Definition get_active_by_alert_key (alert_key : string) : M (option Z) :=
  get_by TEvent (active_with_key alert_key).

(** [ORDER BY last_fired_at DESC, id DESC]: MySQL sorts NULL last here. *)
Definition latest_first (a b : AlertEvent) : bool :=
  match AlertEvent.last_fired_at a, AlertEvent.last_fired_at b with
  | Some x, Some y => (y <? x) || ((y =? x) && (AlertEvent.id b <=? AlertEvent.id a))
  | Some _, None => true
  | None, Some _ => false
  | None, None => AlertEvent.id b <=? AlertEvent.id a
  end.

Definition list_events (page page_size : Z) (status severity : option string)
    (server_id : option Z) (is_active : option bool) : M (Z * list Z) :=
  list_page TEvent page page_size latest_first (λ e,
    (if py_truthy status then bool_decide (status = Some (alert_status_str (AlertEvent.status e))) else true) &&
    (if py_truthy severity then bool_decide (severity = Some (AlertEvent.severity e)) else true) &&
    match server_id with Some _ => sql_eq (AlertEvent.server_id e) server_id | None => true end &&
    match is_active with Some b => Bool.eqb b (active e) | None => true end).

Definition count_active : M Z := count TEvent active.

(** A dictionary of counts: WARNING and CRITICAL are always present. *)
Definition count_active_by_severity : M (gmap string Z) :=
  ids ← select_where TEvent active;
  es ← map_loop (obj TEvent) ids;
  mret (foldl (λ counts sev,
    <[sev := Z.of_nat (length (filter (λ e, AlertEvent.severity e = sev) es))]> counts)
    (<["WARNING" := 0]> (<["CRITICAL" := 0]> ∅)) (AlertEvent.severity <$> es)).
End Ops.
End AlertEventRepository.

Module AlertEventLogRepository.
Section Ops.
Context `{E : Env}.

Definition record (event_id : Z) (old_status : option alert_status) (new_status : alert_status)
    (current_value : option Q) (message : string) (operator_id : option Z) : M Z :=
  create TEventLog
    (AlertEventLog.Mk 0 event_id old_status new_status current_value (Some message) operator_id 0).
End Ops.
End AlertEventLogRepository.
