(* ===== verification/AlertEngine.v ===== *)
(** * Alert engine (backend/app/services/alert_engine.py)

    One round compares the latest metric of every active server with every
    enabled rule and moves the active event of the pair through its states. *)
From Stdlib Require Import QArith.
From S2P Require Import Prelude.
From S2P Require Export MetricRepo AlertRepo ServerRepo.

(** [METRIC_FIELD_MAP] and [getattr]. *)
Definition metric_field (metric_type : string) : option (MonitorServerMetric → option Q) :=
  if String.eqb metric_type "CPU" then Some MonitorServerMetric.cpu_usage
  else if String.eqb metric_type "MEMORY" then Some MonitorServerMetric.memory_usage
  else if String.eqb metric_type "DISK" then Some MonitorServerMetric.disk_usage
  else if String.eqb metric_type "LOAD" then Some MonitorServerMetric.load_1m
  else None.

Definition _get_value (rule : AlertRule) (server : OpsServer) (metric : option MonitorServerMetric)
    (now : datetime) : option Q :=
  if String.eqb (AlertRule.metric_type rule) "AGENT" then
    last ← OpsServer.last_heartbeat_at server;
    Some (total_seconds (now - last))
  else
    field ← metric_field (AlertRule.metric_type rule);
    m ← metric;
    value ← field m;
    Some (fl value).

(** [server.cpu_cores or 1]. *)
Definition cores (server : OpsServer) : Z :=
  match OpsServer.cpu_cores server with
  | Some n => if n =? 0 then 1 else n
  | None => 1
  end.

Definition _effective_threshold (rule : AlertRule) (server : OpsServer) : option Q :=
  match AlertRule.threshold rule with
  | None => None
  | Some threshold =>
    if String.eqb (AlertRule.metric_type rule) "LOAD"
    then Some (py_round (fmul_int (fl threshold) (cores server)) 4)
    else Some (fl threshold)
  end.

Definition _compare (value : Q) (operator : string) (threshold : option Q) : bool :=
  match threshold with
  | None => false
  | Some t =>
    if String.eqb operator "GTE" then Qle_bool t value
    else if String.eqb operator "LT" then Qlt_bool value t
    else if String.eqb operator "LTE" then Qle_bool value t
    else if String.eqb operator "EQ" then Qeq_bool value t
    else Qlt_bool t value
  end.

(** The comparison without a recovery threshold is with the [Decimal]
    [rule.threshold], not with the effective threshold. *)
Definition _is_recovered (rule : AlertRule) (value : Q) : bool :=
  match AlertRule.recovery_threshold rule with
  | Some r => Qle_bool value (fl r)
  | None => negb (_compare value (AlertRule.operator rule) (AlertRule.threshold rule))
  end.

Definition alert_key_of (rule_id server_id : Z) (metric_type : string) : string :=
  py_str rule_id +:+ ":" +:+ py_str server_id +:+ ":" +:+ metric_type.

Definition _alert_key (rule : AlertRule) (server : OpsServer) : string :=
  alert_key_of (AlertRule.id rule) (OpsServer.id server) (AlertRule.metric_type rule).

(** [f"{value:.2f}"], and [str(None)]. *)
Definition fixed2 (x : Q) : string :=
  let n := Z.abs (round_half_even (Qnum x * 100) (Z.pos (Qden x))) in
  (if Qnum x <? 0 then "-" else EmptyString) +:+ py_str (n / 100) +:+ "." +:+ zpad 2 (n mod 100).

Definition _fmt (value : option Q) : string :=
  match value with Some x => fixed2 x | None => "None" end.

Section Engine.
Context `{E : Env}.

Definition _transition (event : Z) (new_status : alert_status) (value : Q) (message : string) : M unit :=
  e ← obj TEvent event;
  assign TEvent event (λ e,
    e <| AlertEvent.status := new_status |> <| AlertEvent.current_value := Some value |>);;
  _ ← AlertEventLogRepository.record event (Some (AlertEvent.status e)) new_status (Some value) message None;
  mret ().

(** The row of a new event. *)
Definition new_event (rule : AlertRule) (server : OpsServer) (value : Q) (threshold : option Q)
    (now : datetime) : AlertEvent :=
  AlertEvent.Mk 0 (AlertRule.id rule) (Some (OpsServer.id server)) (AlertRule.target_type rule)
    (Some (OpsServer.id server)) (_alert_key rule server) (AlertRule.metric_type rule)
    (AlertRule.severity rule) PENDING (Some now) (Some now) None None None (Some value) threshold
    (AlertRule.rule_name rule +:+ " 触发：当前值 " +:+ _fmt (Some value) +:+ "，阈值 " +:+ _fmt threshold) 0.

(** [True] if a new event was created. *)
Definition _handle_violation (rule : AlertRule) (server : OpsServer) (value : Q)
    (threshold : option Q) (now : datetime) : M bool :=
  found ← AlertEventRepository.get_active_by_alert_key (_alert_key rule server);
  match found with
  | None =>
    event ← create TEvent (new_event rule server value threshold now);
    _ ← AlertEventLogRepository.record event None PENDING (Some value) "检测到异常，进入待确认" None;
    mret true
  | Some event =>
    assign TEvent event (λ e,
      e <| AlertEvent.last_fired_at := Some now |> <| AlertEvent.current_value := Some value |>);;
    e ← obj TEvent event;
    (if bool_decide (AlertEvent.status e = PENDING) then
       match AlertEvent.first_fired_at e with
       | None => raise TypeError
       | Some first =>
         when (Qle_bool (inject_Z (AlertRule.duration_seconds rule)) (total_seconds (now - first)))
           (_transition event FIRING value "达到持续异常时长，触发告警")
       end
     else mret ());;
    mret false
  end.

Definition _handle_recovery (rule : AlertRule) (server : OpsServer) (value : Q) (now : datetime) : M unit :=
  found ← AlertEventRepository.get_active_by_alert_key (_alert_key rule server);
  match found with
  | Some event =>
    when (_is_recovered rule value)
      (assign TEvent event (λ e, e <| AlertEvent.resolved_at := Some now |>);;
       _transition event RESOLVED value "指标恢复正常，告警解除")
  | None => mret ()
  end.

(** The body of the two loops: the new value of [created]. *)
Definition evaluate_pair (latest_map : gmap Z Z) (now : datetime) (created : Z) (pair : Z * Z) : M Z :=
  rule ← obj TRule pair.1;
  server ← obj TServer pair.2;
  metric ← match latest_map !! pair.2 with
           | Some m => x ← obj TMetric m; mret (Some x)
           | None => mret None
           end;
  match _get_value rule server metric now with
  | None => mret created
  | Some value =>
    let threshold := _effective_threshold rule server in
    if _compare value (AlertRule.operator rule) threshold then
      is_new ← _handle_violation rule server value threshold now;
      mret (if (is_new : bool) then created + 1 else created)
    else _handle_recovery rule server value now;; mret created
  end.

Definition evaluate_all : M Z :=
  rules ← AlertRuleRepository.get_enabled;
  servers ← ServerRepository.list_active;
  match rules, servers with
  | [], _ | _, [] => mret 0
  | _, _ =>
    latest_map ← MetricRepository.get_latest_map servers;
    now ← utcnow;
    created ← fold_loop (λ created rule,
      fold_loop (λ created server, evaluate_pair latest_map now created (rule, server)) created servers)
      0 rules;
    commit;;
    mret created
  end.
End Engine.
