(* ===== verification/AlertService.v ===== *)
(** * Alert centre (backend/app/services/alert_service.py, schemas/alert.py)

    Rules and manual operations on events. *)
From Stdlib Require Import QArith.
From S2P Require Import Prelude.
From S2P Require Export AlertRepo ServerRepo.

Module RuleCreate.
Record RuleCreate := Mk {
  rule_name : string;
  metric_type : string;
  severity : string;
  operator : string;
  threshold : option Q;
  duration_seconds : Z;
  recovery_threshold : option Q;
  enabled : Z;
  description : option string
}.
End RuleCreate.
Abbreviation RuleCreate := RuleCreate.RuleCreate.

Module RuleUpdate.
Record RuleUpdate := Mk {
  rule_name : field string;
  metric_type : field string;
  severity : field string;
  operator : field string;
  threshold : field Q;
  duration_seconds : field Z;
  recovery_threshold : field Q;
  enabled : field Z;
  description : field string
}.

(** A null for a column that is not nullable. *)
Definition violates_not_null (u : RuleUpdate) : bool :=
  is_null (rule_name u) || is_null (metric_type u) || is_null (severity u) || is_null (operator u) ||
  is_null (duration_seconds u) || is_null (enabled u).
End RuleUpdate.
Abbreviation RuleUpdate := RuleUpdate.RuleUpdate.

Definition upper_field (f : field string) : field string :=
  match f with Given s => Given (py_upper s) | _ => f end.

(** [setattr] for every field that was given. *)
Definition apply_update (u : RuleUpdate) (r : AlertRule) : AlertRule :=
  r <| AlertRule.rule_name := set_required (RuleUpdate.rule_name u) (AlertRule.rule_name r) |>
    <| AlertRule.metric_type :=
         set_required (upper_field (RuleUpdate.metric_type u)) (AlertRule.metric_type r) |>
    <| AlertRule.severity := set_required (upper_field (RuleUpdate.severity u)) (AlertRule.severity r) |>
    <| AlertRule.operator := set_required (upper_field (RuleUpdate.operator u)) (AlertRule.operator r) |>
    <| AlertRule.threshold := set_nullable (RuleUpdate.threshold u) (AlertRule.threshold r) |>
    <| AlertRule.duration_seconds :=
         set_required (RuleUpdate.duration_seconds u) (AlertRule.duration_seconds r) |>
    <| AlertRule.recovery_threshold :=
         set_nullable (RuleUpdate.recovery_threshold u) (AlertRule.recovery_threshold r) |>
    <| AlertRule.enabled := set_required (RuleUpdate.enabled u) (AlertRule.enabled r) |>
    <| AlertRule.description := set_nullable (RuleUpdate.description u) (AlertRule.description r) |>.

(** [_event_dict]: the event with its rule's name and its server's host name. *)
Record event_dict := EventDict {
  event : AlertEvent;
  event_rule_name : option string;
  server_hostname : option string
}.

Section Service.
Context `{E : Env}.

Definition list_rules : M (list Z) := list_all TRule (λ _, true).

Definition get_rule (rule_id : Z) : M Z :=
  rule ← get TRule rule_id;
  match rule with
  | None => app_error RULE_NOT_FOUND "告警规则不存在" 404
  | Some rule => mret rule
  end.

Definition new_rule (data : RuleCreate) (created_by : option Z) : AlertRule :=
  AlertRule.Mk 0 (RuleCreate.rule_name data) (py_upper (RuleCreate.metric_type data)) "SERVER"
    (py_upper (RuleCreate.severity data)) (py_upper (RuleCreate.operator data))
    (RuleCreate.threshold data) (RuleCreate.duration_seconds data)
    (RuleCreate.recovery_threshold data) (RuleCreate.enabled data) (RuleCreate.description data)
    created_by 0.

Definition create_rule (data : RuleCreate) (created_by : option Z) : M Z :=
  existing ← AlertRuleRepository.get_by_name (RuleCreate.rule_name data);
  match existing with
  | Some _ => app_error RULE_NAME_EXISTS "规则名称已存在" 409
  | None =>
    rule ← create TRule (new_rule data created_by);
    commit;;
    mret rule
  end.

Definition update_rule (rule_id : Z) (data : RuleUpdate) : M Z :=
  rule ← get_rule rule_id;
  r ← obj TRule rule;
  match RuleUpdate.rule_name data with
  | Given name =>
    if negb (String.eqb name EmptyString) && negb (String.eqb name (AlertRule.rule_name r)) then
      existing ← AlertRuleRepository.get_by_name name;
      match existing with
      | Some other => if negb (other =? rule_id) then app_error RULE_NAME_EXISTS "规则名称已存在" 409 else mret ()
      | None => mret ()
      end
    else mret ()
  | _ => mret ()
  end;;
  (if RuleUpdate.violates_not_null data then raise IntegrityError
   else update TRule rule (apply_update data));;
  commit;;
  mret rule.

Definition delete_rule (rule_id : Z) : M unit :=
  rule ← get_rule rule_id;
  delete_row TRule rule;;
  commit.

Definition _event_dict (i : Z) : M event_dict :=
  e ← obj TEvent i;
  name ← (if AlertEvent.rule_id e =? 0 then mret None else
          rule ← get TRule (AlertEvent.rule_id e);
          match rule with
          | Some rule => r ← obj TRule rule; mret (Some (AlertRule.rule_name r))
          | None => mret None
          end);
  host ← match AlertEvent.server_id e with
         | None => mret None
         | Some server_id =>
           if server_id =? 0 then mret None else
           server ← get TServer server_id;
           match server with
           | Some server => s ← obj TServer server; mret (Some (OpsServer.hostname s))
           | None => mret None
           end
         end;
  mret (EventDict e name host).

Definition list_events (page page_size : Z) (status severity : option string)
    (server_id : option Z) (is_active : option bool) : M (Z * list event_dict) :=
  found ← AlertEventRepository.list_events page page_size status severity server_id is_active;
  items ← map_loop _event_dict found.2;
  mret (found.1, items).

Definition _get_event_or_404 (event_id : Z) : M Z :=
  event ← get TEvent event_id;
  match event with
  | None => app_error ALERT_EVENT_NOT_FOUND "告警事件不存在" 404
  | Some event => mret event
  end.

Definition get_event (event_id : Z) : M (event_dict * list AlertEventLog) :=
  event ← _get_event_or_404 event_id;
  ids ← select_where TEventLog (λ l, AlertEventLog.event_id l =? event_id);
  sorted ← order_by TEventLog (λ a b, AlertEventLog.id a <=? AlertEventLog.id b) ids;
  e ← _event_dict event;
  logs ← map_loop (obj TEventLog) sorted;
  mret (e, logs).

Definition acknowledge (event_id : Z) (operator_id : option Z) : M event_dict :=
  event ← _get_event_or_404 event_id;
  e ← obj TEvent event;
  if bool_decide (AlertEvent.status e = RESOLVED)
  then app_error BAD_REQUEST "已恢复的告警无需确认" 400
  else
    now ← utcnow;
    assign TEvent event (λ e,
      e <| AlertEvent.status := ACKNOWLEDGED |>
        <| AlertEvent.acknowledged_by := operator_id |>
        <| AlertEvent.acknowledged_at := Some now |>);;
    _ ← AlertEventLogRepository.record event (Some (AlertEvent.status e)) ACKNOWLEDGED
      (AlertEvent.current_value e) "人工确认告警" operator_id;
    commit;;
    _event_dict event.

Definition resolve (event_id : Z) (operator_id : option Z) : M event_dict :=
  event ← _get_event_or_404 event_id;
  e ← obj TEvent event;
  if bool_decide (AlertEvent.status e = RESOLVED)
  then app_error BAD_REQUEST "告警已恢复" 400
  else
    now ← utcnow;
    assign TEvent event (λ e,
      e <| AlertEvent.status := RESOLVED |> <| AlertEvent.resolved_at := Some now |>);;
    _ ← AlertEventLogRepository.record event (Some (AlertEvent.status e)) RESOLVED
      (AlertEvent.current_value e) "人工恢复告警" operator_id;
    commit;;
    _event_dict event.

Definition count_active : M Z := AlertEventRepository.count_active.
End Service.
