(* ===== verification/TaskService.v ===== *)
(** * Task service (backend/app/services/task_service.py)

    Creation, confirmation, cancellation, distribution to agents, result
    reports, and the scheduler's scans.  One definition per method, one
    transaction each. *)
From S2P Require Import Prelude.
From S2P Require Export Retry TaskRepo ServerRepo.

Definition TASK_TYPE_ACTION : list (string * option string) :=
  [("SERVICE_CHECK", Some "STATUS"); ("SERVICE_ACTION", None); ("SERVICE_LOG", Some "LOGS")].

Definition CONFIRM_REQUIRED_ACTIONS : list string := ["START"; "STOP"; "RESTART"].

Module TaskCreate.
Record TaskCreate := Mk {
  task_name : string;
  task_type : string;
  action : option string;
  service_name : option string;
  server_ids : list Z;
  schedule_type : string;
  cron_expression : option string;
  timeout_seconds : Z;
  max_attempts : Z;
  confirmation_required : option bool
}.

(** The field constraints of the request model. *)
Definition valid (d : TaskCreate) : bool :=
  (1 <=? py_len (task_name d)) && (py_len (task_name d) <=? 128) &&
  match service_name d with Some s => py_len s <=? 64 | None => true end &&
  (1 <=? Z.of_nat (length (server_ids d))) &&
  match cron_expression d with Some s => py_len s <=? 128 | None => true end &&
  (10 <=? timeout_seconds d) && (timeout_seconds d <=? 3600) &&
  (1 <=? max_attempts d) && (max_attempts d <=? 10).
End TaskCreate.
Abbreviation TaskCreate := TaskCreate.TaskCreate.

(** [croniter(expression, base).get_next(datetime)], None when it raises. *)
Class Cron := croniter_next : string → datetime → option datetime.

(** [TASK_TYPE_ACTION[task_type]]. *)
Definition lookup_action (task_type : string) : option (option string) :=
  snd <$> find (λ p, String.eqb (fst p) task_type) TASK_TYPE_ACTION.

Definition _normalize_action (data : TaskCreate) : M string :=
  match lookup_action (TaskCreate.task_type data) with
  | None => raise KeyError
  | Some (Some allowed) =>
    if bool_decide (TaskCreate.action data ∈ [None; Some allowed]) then mret allowed
    else app_error TASK_ACTION_INVALID
           (TaskCreate.task_type data +:+ " 仅支持 " +:+ allowed) 400
  | Some None =>
    match TaskCreate.action data with
    | Some a =>
      if bool_decide (a ∈ ["START"; "STOP"; "RESTART"]) then mret a
      else app_error TASK_ACTION_INVALID "SERVICE_ACTION 需指定 START/STOP/RESTART" 400
    | None => app_error TASK_ACTION_INVALID "SERVICE_ACTION 需指定 START/STOP/RESTART" 400
    end
  end.

(** ** The status of a task from its executions *)

(** One step of the loop that keeps, per target, the execution with the
    highest attempt. *)
Definition latest_step (latest : gmap Z OpsTaskExecution) (e : OpsTaskExecution) :
    gmap Z OpsTaskExecution :=
  match latest !! OpsTaskExecution.target_id e with
  | None => <[OpsTaskExecution.target_id e := e]> latest
  | Some current =>
    if OpsTaskExecution.attempt current <? OpsTaskExecution.attempt e
    then <[OpsTaskExecution.target_id e := e]> latest
    else latest
  end.

Definition latest_executions (es : list OpsTaskExecution) : gmap Z OpsTaskExecution :=
  foldl latest_step ∅ es.

Definition latest_statuses (es : list OpsTaskExecution) : list exec_status :=
  (λ p, OpsTaskExecution.status (snd p)) <$> map_to_list (latest_executions es).

Definition summary_status (statuses : list exec_status) : task_status :=
  let any_in l := existsb (λ s, bool_decide (s ∈ l)) statuses in
  if any_in [E_RETRYING] then T_RETRYING
  else if any_in [E_PENDING; E_RUNNING] then T_RUNNING
  else if any_in [E_DEAD] then T_DEAD
  else if any_in [E_FAILED; E_TIMEOUT] then T_FAILED
  else if forallb (λ s, bool_decide (s = E_SUCCESS)) statuses then T_SUCCESS
  else if forallb (λ s, bool_decide (s = E_CANCELLED)) statuses then T_CANCELLED
  else if any_in [E_SUCCESS] then T_SUCCESS else T_FAILED.

Section Service.
Context `{E : Env} `{!Cron}.
Import TaskRepository TaskExecutionRepository TaskTargetRepository TaskLogRepository.

Definition _aggregate_task_status (task : Z) : M unit :=
  executions ← TaskExecutionRepository.list_by_task task;
  match executions with
  | [] => assign TTask task (λ t, t <| OpsTask.status := T_PENDING |>)
  | _ =>
    es ← map_loop (obj TExec) executions;
    let status := summary_status (latest_statuses es) in
    if task_terminal status then
      now ← utcnow;
      assign TTask task (λ t,
        t <| OpsTask.status := status |> <| OpsTask.finished_at := Some now |>)
    else assign TTask task (λ t, t <| OpsTask.status := status |>)
  end.

(** Is there retry budget left: attempts, and the task's deadline? *)
Definition _can_retry (task execution : Z) : M bool :=
  e ← obj TExec execution;
  t ← obj TTask task;
  if OpsTask.max_attempts t <=? OpsTaskExecution.attempt e then mret false else
  match OpsTask.deadline_at t with
  | Some deadline => now ← utcnow; mret (negb (deadline <=? now))
  | None => mret true
  end.

(** ** Creation, confirmation, lists *)

Definition _validate_servers (server_ids : list Z) : M (list Z) :=
  fold_loop (λ servers sid,
    server ← get TServer sid;
    match server with
    | None => app_error SERVER_NOT_FOUND ("服务器不存在: " +:+ py_str sid) 404
    | Some s => mret (servers ++ [s])
    end) [] (set_iter server_ids).

Definition _validate_service_whitelist (servers : list Z) (service_name : option string)
    (action : string) : M unit :=
  if bool_decide (action ∈ ["STATUS"; "LOGS"]) then mret () else
  match service_name with
  | Some name =>
    if negb (py_truthy service_name) then app_error BAD_REQUEST "缺少目标服务" 400 else
    for_each (λ server,
      s ← obj TServer server;
      let refuse : M unit := app_error SERVICE_NOT_WHITELISTED
        (OpsServer.hostname s +:+ " 上的服务 " +:+ name +:+ " 不允许受控操作") 403 in
      service ← ServiceRepository.get_by_server_service server name;
      match service with
      | None => refuse
      | Some sv =>
        r ← obj TService sv;
        if negb (OpsServerService.is_whitelisted r =? 1) then refuse else mret ()
      end) servers
  | None => app_error BAD_REQUEST "缺少目标服务" 400
  end.

Definition confirm_required (data : TaskCreate) (action : string) : bool :=
  match TaskCreate.confirmation_required data with
  | Some b => b
  | None => bool_decide (action ∈ CONFIRM_REQUIRED_ACTIONS)
  end.

Definition new_task (data : TaskCreate) (action : string) (creator_id : Z)
    (idempotency_key : option string) (now : datetime) : OpsTask :=
  let confirm := confirm_required data action in
  {| OpsTask.id := 0;
     OpsTask.task_name := TaskCreate.task_name data;
     OpsTask.task_type := TaskCreate.task_type data;
     OpsTask.action := Some action;
     OpsTask.service_name := TaskCreate.service_name data;
     OpsTask.schedule_type := TaskCreate.schedule_type data;
     OpsTask.cron_expression := TaskCreate.cron_expression data;
     OpsTask.status :=
       if String.eqb (TaskCreate.schedule_type data) "CRON" || confirm then T_CREATED else T_PENDING;
     OpsTask.created_by := creator_id;
     OpsTask.started_at := None;
     OpsTask.finished_at := None;
     OpsTask.timeout_seconds := TaskCreate.timeout_seconds data;
     OpsTask.max_attempts := TaskCreate.max_attempts data;
     OpsTask.attempt := 0;
     OpsTask.deadline_at :=
       Some (now + seconds (TaskCreate.timeout_seconds data * TaskCreate.max_attempts data));
     OpsTask.idempotency_key := idempotency_key;
     OpsTask.confirmation_required := if confirm then 1 else 0;
     OpsTask.confirmed_by := None;
     OpsTask.confirmed_at := None;
     OpsTask.created_at := 0 |}.

Definition create_task (data : TaskCreate) (creator_id : Z) (idempotency_key : option string) : M Z :=
  existing ← match idempotency_key with
             | Some key => if py_truthy idempotency_key then get_by_idempotency_key key else mret None
             | None => mret None
             end;
  match (existing : option Z) with
  | Some task => mret task
  | None =>
    action ← _normalize_action data;
    servers ← _validate_servers (TaskCreate.server_ids data);
    _validate_service_whitelist servers (TaskCreate.service_name data) action;;
    now ← utcnow;
    task ← create TTask (new_task data action creator_id idempotency_key now);
    targets ← create_targets task servers;
    when (String.eqb (TaskCreate.schedule_type data) "ONCE")
      (_ ← create_executions task targets; mret ());;
    commit;;
    mret task
  end.

Definition list_tasks (page page_size : Z) (status task_type : option string) : M (Z * list Z) :=
  TaskRepository.list_tasks page page_size status task_type.

Definition get_task_entity (task_id : Z) : M Z :=
  task ← get TTask task_id;
  match task with
  | None => app_error TASK_NOT_FOUND "任务不存在" 404
  | Some t => mret t
  end.

Definition confirm_task (task_id operator_id : Z) : M Z :=
  task ← get_task_entity task_id;
  t ← obj TTask task;
  if negb (bool_decide (OpsTask.status t = T_CREATED))
  then app_error BAD_REQUEST "任务当前无需确认" 400 else
  now ← utcnow;
  assign TTask task (λ t,
    t <| OpsTask.status := T_PENDING |>
      <| OpsTask.confirmed_by := Some operator_id |>
      <| OpsTask.confirmed_at := Some now |>);;
  commit;;
  mret task.

Record execution_detail := ExecutionDetail {
  detail_row : OpsTaskExecution;
  server_hostname : option string;
  detail_logs : list string
}.

Definition get_task_detail (task_id : Z) : M (Z * list execution_detail) :=
  task ← get_task_entity task_id;
  executions ← TaskExecutionRepository.list_by_task task_id;
  d ← get_work;
  execution_list ← map_loop (λ i,
    e ← obj TExec i;
    logs ← list_by_execution i;
    contents ← map_loop (λ l, r ← obj TTaskLog l; mret (OpsTaskLog.log_content r)) logs;
    mret (ExecutionDetail e
            (OpsServer.hostname <$> rows (d TServer) !! OpsTaskExecution.server_id e)
            contents)) executions;
  mret (task, execution_list).

Definition cancel_task (task_id : Z) : M Z :=
  task ← get_task_entity task_id;
  t ← obj TTask task;
  if task_terminal (OpsTask.status t) then app_error BAD_REQUEST "任务已结束，无法取消" 400 else
  executions ← TaskExecutionRepository.list_by_task task;
  for_each (λ execution,
    e ← obj TExec execution;
    when (bool_decide (OpsTaskExecution.status e = E_PENDING))
      (finish execution E_CANCELLED None None (Some "任务被取消") None)) executions;;
  _aggregate_task_status task;;
  commit;;
  mret task.

(** ** Distribution and reports *)

Record claim := Claim {
  claim_execution_id : Z;
  claim_task_id : Z;
  claim_action : option string;
  claim_service_name : option string;
  claim_timeout_seconds : Z
}.

(** Hand out one pending execution. *)
Definition claim_one (result : list claim) (execution : Z) : M (list claim) :=
  e ← obj TExec execution;
  let task := OpsTaskExecution.task_id e in
  mark_running execution;;
  t ← obj TTask task;
  started ← match OpsTask.started_at t with Some s => mret s | None => utcnow end;
  assign TTask task (λ t,
    t <| OpsTask.status := T_RUNNING |> <| OpsTask.started_at := Some started |>);;
  mret (result ++ [Claim execution task (OpsTask.action t) (OpsTask.service_name t)
                     (OpsTask.timeout_seconds t)]).

Definition fetch_pending (server : Z) : M (list claim) :=
  executions ← fetch_pending_by_server server;
  result ← fold_loop claim_one [] executions;
  commit;;
  mret result.

(** The body of a failed report: retry, give up, or fail. *)
Definition report_failure (task execution : Z) (exit_code : option Z)
    (error_message error_type : option string) : M unit :=
  let failed_type := classify_error error_type error_message in
  budget ← (if is_retryable error_type error_message then _can_retry task execution else mret false);
  if (budget : bool) then
    now ← utcnow;
    e ← obj TExec execution;
    let next_retry_at := now + seconds (backoff_seconds (OpsTaskExecution.attempt e)) in
    mark_retrying execution failed_type error_message next_retry_at;;
    _ ← record execution
      ("第 " +:+ py_str (OpsTaskExecution.attempt e) +:+ " 次执行失败（" +:+ failed_type +:+
       "），计划 " +:+ py_isoformat next_retry_at +:+ " 重试") "ERROR";
    mret ()
  else if is_retryable error_type error_message then
    mark_dead execution failed_type (py_or error_message (Some "重试预算耗尽"));;
    _ ← record execution ("执行失败且不可再重试（" +:+ failed_type +:+ "）") "ERROR";
    mret ()
  else
    finish execution E_FAILED exit_code None error_message (Some failed_type);;
    _ ← record execution (default "执行失败" (py_or error_message (Some "执行失败"))) "ERROR";
    mret ().

Definition report_result (server execution_id : Z) (status : string) (exit_code : option Z)
    (result_text error_message error_type logs : option string) : M Z :=
  found ← get TExec execution_id;
  let not_found : M Z := app_error TASK_EXECUTION_NOT_FOUND "执行记录不存在" 404 in
  match found with
  | None => not_found
  | Some execution =>
    e ← obj TExec execution;
    if negb (OpsTaskExecution.server_id e =? server) then not_found
    else if exec_terminal (OpsTaskExecution.status e) then mret execution else
    task ← get_task_entity (OpsTaskExecution.task_id e);
    (if String.eqb status "SUCCESS" then
       finish execution E_SUCCESS exit_code result_text None None;;
       _ ← record execution
         (default "执行成功" (py_or logs (py_or result_text (Some "执行成功")))) "INFO";
       mret ()
     else report_failure task execution exit_code error_message error_type);;
    _aggregate_task_status task;;
    commit;;
    mret execution
  end.

(** ** Scheduler scans *)

(** Time out the expired executions of one task. *)
Definition scan_task (total task : Z) : M Z :=
  t ← obj TTask task;
  executions ← TaskExecutionRepository.list_by_task task;
  expired ← fold_loop (λ expired i,
    b ← is_expired i (OpsTask.timeout_seconds t);
    mret (if (b : bool) then expired ++ [i] else expired)) [] executions;
  for_each (λ i, mark_timeout i (OpsTask.timeout_seconds t)) expired;;
  when (negb (bool_decide (expired = []))) (_aggregate_task_status task);;
  mret (total + Z.of_nat (length expired)).

Definition scan_timeouts : M Z :=
  tasks ← list_all TTask (λ t, bool_decide (OpsTask.status t = T_RUNNING));
  total ← fold_loop scan_task 0 tasks;
  commit;;
  mret total.

(** Turn one due execution into the next attempt. *)
Definition dispatch_one (created execution : Z) : M Z :=
  e ← obj TExec execution;
  task ← get_task_entity (OpsTaskExecution.task_id e);
  t ← obj TTask task;
  if task_terminal (OpsTask.status t) then
    finish execution E_FAILED None None (OpsTaskExecution.error_message e)
      (OpsTaskExecution.error_type e);;
    mret created
  else
    budget ← _can_retry task execution;
    if negb budget then
      mark_dead execution
        (default UNKNOWN_ERROR_TYPE (py_or (OpsTaskExecution.error_type e) (Some UNKNOWN_ERROR_TYPE)))
        (py_or (OpsTaskExecution.error_message e) (Some "重试预算耗尽"));;
      _ ← record execution "重试预算耗尽，任务终止" "ERROR";
      _aggregate_task_status task;;
      mret created
    else
      let next_attempt := OpsTaskExecution.attempt e + 1 in
      finish execution E_FAILED None None (OpsTaskExecution.error_message e)
        (OpsTaskExecution.error_type e);;
      _ ← create_execution task (OpsTaskExecution.target_id e) (OpsTaskExecution.server_id e)
            next_attempt;
      assign TTask task (λ t, t <| OpsTask.attempt := next_attempt |>);;
      target ← get TTarget (OpsTaskExecution.target_id e);
      match target with
      | Some i => assign TTarget i (λ r, r <| OpsTaskTarget.target_status := "PENDING" |>)
      | None => mret ()
      end;;
      _ ← record execution ("已创建第 " +:+ py_str next_attempt +:+ " 次尝试") "INFO";
      _aggregate_task_status task;;
      mret (created + 1).

Definition dispatch_retries (limit : nat) : M Z :=
  now ← utcnow;
  due ← list_due_retries now limit;
  created ← fold_loop dispatch_one 0 due;
  commit;;
  mret created.

Definition cleanup_history (retention_days : Z) : M (Z * Z) :=
  now ← utcnow;
  let cutoff := now - days retention_days in
  executions ← delete_terminal_before cutoff;
  tasks ← delete_finished_tasks_before cutoff;
  commit;;
  mret (executions, tasks).

(** Fire one CRON task if its next time has come. *)
Definition fire_one (now : datetime) (fired task : Z) : M Z :=
  t ← obj TTask task;
  match OpsTask.cron_expression t with
  | Some expression =>
    if negb (String.eqb (OpsTask.schedule_type t) "CRON") ||
       negb (py_truthy (OpsTask.cron_expression t)) then mret fired else
    match croniter_next expression (OpsTask.created_at t) with
    | None => mret fired
    | Some next_time =>
      if next_time <=? now then
        targets ← TaskTargetRepository.list_by_task task;
        _ ← create_executions task targets;
        assign TTask task (λ t,
          t <| OpsTask.status := T_RUNNING |>
            <| OpsTask.started_at := Some (default now (OpsTask.started_at t)) |>);;
        mret (fired + 1)
      else mret fired
    end
  | None => mret fired
  end.

Definition fire_due_cron : M Z :=
  now ← utcnow;
  tasks ← list_pending_cron;
  fired ← fold_loop (fire_one now) 0 tasks;
  commit;;
  mret fired.
End Service.
