(* ===== verification/Scheduler.v ===== *)
(** * Background jobs (backend/app/core/scheduler.py)

    Every job opens a session of its own, runs one operation and swallows its
    exceptions; what it did not commit is rolled back.  The jobs run under the
    distributed lock.  Timers and threads are APScheduler's: a job is due when
    its interval has passed, unless it was added paused. *)
From Stdlib Require Import QArith.
From S2P Require Import Prelude.
From S2P Require Export SchedulerLock TaskService AlertEngine MetricRepo ServerRepo.

(** The settings of backend/app/core/config.py the jobs read. *)
Record job_settings := JobSettings {
  SCHEDULER_LOCK_ENABLED : bool;
  SCHEDULER_LOCK_TTL_SECONDS : Z;
  AGENT_STATUS_REFRESH_SECONDS : Z;
  ALERT_EVALUATE_INTERVAL_SECONDS : Z;
  METRIC_RETENTION_DAYS : Z;
  METRIC_AGG_RETENTION_DAYS : Z;
  METRIC_CLEANUP_ENABLED : bool;
  TASK_RETENTION_DAYS : Z;
  TASK_CLEANUP_ENABLED : bool
}.

Definition default_job_settings : job_settings :=
  JobSettings true 600 30 10 7 180 true 30 true.

Section Jobs.
Context `{E : Env} `{!Cron} (cfg : job_settings).

(** ** The bodies *)

Definition _cleanup_old_task_executions : M unit :=
  when (TASK_CLEANUP_ENABLED cfg) (_ ← cleanup_history (TASK_RETENTION_DAYS cfg); mret ()).

Definition _scan_task_timeouts : M unit := _ ← scan_timeouts; mret ().

(** The limit is the default of [dispatch_retries]. *)
Definition _dispatch_task_retries : M unit := _ ← dispatch_retries 50; mret ().

Definition _fire_due_cron_tasks : M unit := _ ← fire_due_cron; mret ().

Definition _evaluate_alerts : M unit := _ ← evaluate_all; mret ().

Definition _refresh_agent_statuses : M unit :=
  _ ← ServerRepository.refresh_agent_statuses; commit.

Definition _cleanup_old_metrics : M unit :=
  when (METRIC_CLEANUP_ENABLED cfg) (
    now ← utcnow;
    let cutoff := now - days (METRIC_RETENTION_DAYS cfg) in
    _ ← MetricRepository.aggregate_daily cutoff;
    _ ← MetricRepository.delete_older_than (METRIC_RETENTION_DAYS cfg);
    _ ← MetricRepository.delete_daily_before (METRIC_AGG_RETENTION_DAYS cfg);
    commit).

(** ** Running a job *)

(** [try: ... except Exception: log; finally: db.close()]. *)
Definition run_job (body : M unit) (d : db) (n : nat) : db * nat :=
  let '(_, d', n') := run body d n in (d', n').

(** [_locked]: what is left of Redis and of the database. *)
Definition _locked `{R : Redis} (job_name token : string) (body : M unit) (s : rstate) (t0 t1 : Z)
    (f0 f1 : fault) (d : db) (n : nat) : rstate * (db * nat) :=
  let '(s', ran) := run_with_lock (SCHEDULER_LOCK_ENABLED cfg) job_name token
                      (SCHEDULER_LOCK_TTL_SECONDS cfg) (λ s, s) s t0 t1 f0 f1 in
  (s', if ran : bool then run_job body d n else (d, n)).

(** ** The job table *)

Record job := Job {
  job_id : string;
  body : M unit;
  interval_seconds : Z;
  (** [next_run_time=None]. *)
  added_paused : bool
}.

(** Every job has [max_instances=1] and [coalesce=True]. *)
Definition job_table : list job :=
  [Job "refresh_agent_status" _refresh_agent_statuses (AGENT_STATUS_REFRESH_SECONDS cfg) false;
   Job "cleanup_old_metrics" _cleanup_old_metrics (24 * 3600) true;
   Job "cleanup_old_task_executions" _cleanup_old_task_executions (24 * 3600) true;
   Job "evaluate_alerts" _evaluate_alerts (ALERT_EVALUATE_INTERVAL_SECONDS cfg) false;
   Job "scan_task_timeouts" _scan_task_timeouts 30 false;
   Job "dispatch_task_retries" _dispatch_task_retries 5 false;
   Job "fire_due_cron_tasks" _fire_due_cron_tasks 30 false].

(** The global [_scheduler]. *)
Definition setup_scheduler (scheduler : option (list job)) : option (list job) :=
  match scheduler with Some _ => scheduler | None => Some job_table end.

Definition shutdown_scheduler (scheduler : option (list job)) : option (list job) := None.
End Jobs.
