(* ===== verification/AgentOps.v ===== *)
(** * The operations of the agent protocol

    What authentication, registration, heartbeats and uploads do to a database
    that satisfies its constraints. *)
From Stdlib Require Import QArith.
From S2P Require Import Prelude.
From S2P Require Export AgentAuth AgentService.

Abbreviation servers d := (rows (d TServer)).
Abbreviation tokens d := (rows (d TToken)).

(** May the token be used at this time? *)
Definition token_usable (t : OpsAgentToken) (now : datetime) : bool :=
  (OpsAgentToken.status t =? 1) &&
  match OpsAgentToken.expires_at t with Some e => now <=? e | None => true end &&
  match OpsAgentToken.revoked_at t with Some _ => false | None => true end.

(** Nothing but the tables in [ks] changed. *)
Definition only_in (ks : list tname) (d d' : db) : Prop := ∀ k, k ∉ ks → d' k = d k.

Lemma only_ne (k k' : tname) : k' ∉ [k] → k ≠ k'.
Proof. intros Hk ->. apply Hk. list_in. Qed.

Lemma only_other (k k' : tname) : k ≠ k' → k' ∉ [k].
Proof. by intros Hne ->%list_elem_of_singleton. Qed.

(** A request that is refused without a change; the clock may have been read. *)
Lemma run_raises {A} (m : M A) d n e :
  wp m (λ _ _, False) (λ e' s', e' = e ∧ durable s' = d) (Session d d n) →
  ∃ n', run m d n = (Raise e, d, n').
Proof.
  unfold wp, run. destruct (m _) as [[a|e'] s']; [done|]. intros [-> <-]. by exists (ticks s').
Qed.

(** A row that is not stored cannot be the one with the next key. *)
Lemma row_not_next k d i r : integrity d → rows (d k) !! i = Some r → i ≠ next_id (d k).
Proof. intros HI Hr ->. apply (integrity_key k HI) in Hr. by destruct (Z.lt_irrefl _ Hr). Qed.

Section Ops.
Context `{E : Env} `{!EnvOk E} `{!Ed25519} `{!Secrets}.

(** The row a unique column selects. *)
Lemma wp_get_by_unique k (p : row k → bool) (Q : option Z → session → Prop) Ex s :
  (∀ i r, rows (work s k) !! i = Some r → alive k r = true → p r = true → Q (Some i) s) →
  ((∀ i r, rows (work s k) !! i = Some r → alive k r = true → p r = false) → Q None s) →
  wp (get_by k p) Q Ex s.
Proof.
  intros HS HN. unfold get_by. apply wp_bind, wp_select_where, wp_ret.
  set (ids := matching k _ (work s)).
  assert (∀ i, i ∈ ids ↔ ∃ r, rows (work s k) !! i = Some r ∧ alive k r = true ∧ p r = true) as Hids.
  { intros i. etransitivity; [apply elem_of_matching|]. apply exist_proper. intros r.
    by rewrite andb_true_iff. }
  clearbody ids. destruct ids as [|i ids].
  - apply HN. intros i r Hr Ha. apply not_true_is_false. intros Hp.
    apply (not_elem_of_nil i), Hids. eauto.
  - destruct (proj1 (Hids i)) as (r & Hr & Ha & Hp); [list_in|]. by apply (HS i r).
Qed.

Lemma wp_authenticate token (Q : option Z → session → Prop) Ex s :
  integrity (work s) →
  (∀ i t n, tokens (work s) !! i = Some t → OpsAgentToken.token_hash t = _hash_token token →
     token_usable t (clock (ticks s)) = true → Q (Some i) (Session (work s) (durable s) n)) →
  (∀ n, (∀ i t, tokens (work s) !! i = Some t → OpsAgentToken.token_hash t = _hash_token token →
           token_usable t (clock (ticks s)) = false) → Q None (Session (work s) (durable s) n)) →
  wp (AgentTokenRepository.authenticate token) Q Ex s.
Proof.
  intros HI HS HN. destruct s as [w du n0]. cbn [work durable ticks] in *.
  unfold AgentTokenRepository.authenticate, AgentTokenRepository.get_by_token_hash.
  apply wp_bind, wp_get_by_unique; cbn [work].
  - intros i t Ht _ Hh%String.eqb_eq. apply wp_bind, (wp_obj_ok TToken i t); [done|].
    assert (∀ n, token_usable t (clock n0) = false → Q None (Session w du n)) as Hno.
    { intros n Hu. apply HN. intros j t' Ht' Hh'.
      assert (j = i) as ->; [|by rewrite <- (same_row TToken Ht Ht')].
      apply (integrity_unique TToken j i t' t w HI Ht' Ht). simpl. apply bool_decide_eq_true. congruence. }
    specialize (HS i t). unfold token_usable in *.
    destruct (OpsAgentToken.status t =? 1) eqn:Hst; simpl; [|by apply wp_ret, Hno].
    apply wp_bind. destruct (OpsAgentToken.expires_at t) as [e|].
    + apply wp_bind, wp_utcnow, wp_ret. cbn [tick work durable ticks].
      rewrite Z.ltb_antisym. destruct (clock n0 <=? e); simpl in *; [|by apply wp_ret, Hno].
      apply wp_ret. destruct (OpsAgentToken.revoked_at t); [by apply Hno|by apply HS].
    + apply wp_ret, wp_ret. destruct (OpsAgentToken.revoked_at t); [by apply Hno|by apply HS].
  - intros Hn. apply wp_ret, HN. intros i t Ht Hh. exfalso.
    specialize (Hn i t Ht eq_refl). apply String.eqb_neq in Hn. done.
Qed.

(** ** Authentication *)

Lemma wp_find_agent token (Q : Z * Z → session → Prop) (Ex : exc → session → Prop) s :
  integrity (work s) →
  (∀ i t sv n, tokens (work s) !! i = Some t → OpsAgentToken.token_hash t = _hash_token token →
     token_usable t (clock (ticks s)) = true →
     servers (work s) !! OpsAgentToken.server_id t = Some sv →
     if ServerRepository.enabled sv then Q (i, OpsAgentToken.server_id t) (Session (work s) (durable s) n)
     else Ex (AppException SERVER_NOT_FOUND "服务器不存在或已停用" 404) (Session (work s) (durable s) n)) →
  (∀ n, (∀ i t, tokens (work s) !! i = Some t → OpsAgentToken.token_hash t = _hash_token token →
           token_usable t (clock (ticks s)) = false) →
     Ex (AppException AGENT_UNAUTHORIZED "Agent 凭证无效" 401) (Session (work s) (durable s) n)) →
  wp (find_agent token) Q Ex s.
Proof.
  intros HI HS HN. unfold find_agent. apply wp_bind, wp_authenticate; [done|..].
  - intros i t n Ht Hh Hu. apply wp_bind, (wp_obj_ok TToken i t); [done|].
    destruct (integrity_refs TToken i t (work s) TServer (OpsAgentToken.server_id t) HI Ht) as [sv Hsv];
      [simpl; list_in|].
    specialize (HS i t sv n Ht Hh Hu Hsv). unfold ServerRepository.enabled in HS.
    apply wp_bind, (wp_get TServer); cbn [work].
    + intros sv' Hsv' Ha. pose proof (same_row TServer Hsv Hsv') as <-. rewrite Ha in HS. simpl in HS.
      apply wp_bind, (wp_obj_ok TServer _ sv); [done|].
      by destruct (OpsServer.status sv =? 1); [apply wp_ret|apply wp_app_error].
    + intros Ha. rewrite (Ha sv Hsv) in HS. by apply wp_app_error.
  - intros n Hn. by apply wp_app_error, HN.
Qed.

(** ** Server rows *)

(** No other server has this address and port. *)
Definition address_free (d : db) (i : Z) (ip : string) (port : Z) : Prop :=
  ∀ j sv, servers d !! j = Some sv → j ≠ i →
    ¬ (OpsServer.ip_address sv = ip ∧ OpsServer.ssh_port sv = port).

#[export] Instance address_free_dec d i ip port : Decision (address_free d i ip port).
Proof.
  refine (cast_if (decide (map_Forall (λ j sv, j ≠ i →
    ¬ (OpsServer.ip_address sv = ip ∧ OpsServer.ssh_port sv = port)) (servers d)))).
  - abstract (intros j sv; apply m).
  - abstract (intros Hf; apply n; intros j sv; apply Hf).
Defined.

Lemma admissible_server d i sv sv' :
  integrity d → servers d !! i = Some sv →
  OpsServer.server_code sv' = OpsServer.server_code sv → OpsServer.ssh_port sv' = OpsServer.ssh_port sv →
  OpsServer.created_by sv' = OpsServer.created_by sv →
  admissible TServer i sv' d = bool_decide (address_free d i (OpsServer.ip_address sv') (OpsServer.ssh_port sv)).
Proof.
  intros HI Hsv Hc Hp Hu.
  pose proof (proj1 (admissible_spec TServer i sv d) (proj1 HI TServer i sv Hsv)) as [Hrefs Huniq].
  apply eq_true_iff_eq. rewrite admissible_spec, bool_decide_eq_true. split.
  - intros [_ Hx] j svj Hj Hne [Hip Hport]. specialize (Hx j svj Hj Hne). simpl in Hx.
    apply orb_false_iff in Hx as [_ Hx]. rewrite Hp, Hport, Hip in Hx.
    by rewrite !bool_decide_true in Hx by done.
  - intros Hfree. split; [by simpl; rewrite Hu|]. intros j svj Hj Hne. simpl.
    specialize (Huniq j svj Hj Hne). simpl in Huniq. rewrite Hc.
    apply orb_false_iff in Huniq as [-> _]. simpl. apply andb_false_iff.
    specialize (Hfree j svj Hj Hne). rewrite Hp.
    destruct (decide (OpsServer.ip_address sv' = OpsServer.ip_address svj)) as [He|He];
      [right|left]; apply bool_decide_eq_false; [|done].
    intros Hx. apply Hfree. split; [by symmetry|done].
Qed.

(** Writing a server row, with the one constraint that can fail. *)
Lemma wp_put_server i sv f (Q : () → session → Prop) (Ex : exc → session → Prop) s :
  integrity (work s) → servers (work s) !! i = Some sv →
  OpsServer.server_code (f sv) = OpsServer.server_code sv → OpsServer.ssh_port (f sv) = OpsServer.ssh_port sv →
  OpsServer.created_by (f sv) = OpsServer.created_by sv →
  (address_free (work s) i (OpsServer.ip_address (f sv)) (OpsServer.ssh_port sv) →
   integrity (put_row TServer i (f sv) (work s)) →
   Q () (set_work (put_row TServer i (f sv) (work s)) s)) →
  (¬ address_free (work s) i (OpsServer.ip_address (f sv)) (OpsServer.ssh_port sv) → Ex IntegrityError s) →
  wp (assign TServer i f) Q Ex s.
Proof.
  intros HI Hsv Hc Hp Hu HQ HE. pose proof (admissible_server _ _ _ _ HI Hsv Hc Hp Hu) as Hadm.
  apply (wp_assign TServer).
  - intros r Hr Ha. pose proof (same_row TServer Hsv Hr) as <-. rewrite Hadm in Ha.
    apply bool_decide_eq_true in Ha. apply HQ; [done|]. eapply integrity_put_row; [done..|].
    rewrite Hadm. by apply bool_decide_eq_true.
  - intros Hn. by pose proof (eq_trans (eq_sym Hsv) Hn).
  - intros r Hr Ha. pose proof (same_row TServer Hsv Hr) as <-. rewrite Hadm in Ha.
    apply bool_decide_eq_false in Ha. by apply HE.
Qed.

(** A row with one foreign key, to a server. *)
Lemma wp_create_for_server k r i (Q : Z → session → Prop) Ex s :
  integrity (work s) → is_Some (servers (work s) !! i) →
  (∀ j now, refs k (fresh_row k j now r) = [(TServer, i)]) → (∀ a b, unique_conflict k a b = false) →
  (∀ now, let j := next_id (work s k) in
   integrity (add_row k (fresh_row k j now r) (work s)) →
   Q j (set_work (add_row k (fresh_row k j now r) (work s)) (tick s))) →
  wp (create k r) Q Ex s.
Proof.
  intros HI Hi Hrefs Hu HQ. apply wp_create_ok; [done|..|by apply HQ].
  apply admissible_spec. rewrite Hrefs. split; [|intros; apply Hu].
  by intros k' j [= -> ->]%list_elem_of_singleton.
Qed.

(** The server's row after a heartbeat. *)
Definition beaten (now : datetime) (ip agent_version : option string) (sv : OpsServer) : OpsServer :=
  sv <| OpsServer.last_heartbeat_at := Some now |>
     <| OpsServer.ip_address :=
          match ip with
          | Some a => if py_truthy ip then a else OpsServer.ip_address sv
          | None => OpsServer.ip_address sv
          end |>
     <| OpsServer.agent_version :=
          if py_truthy agent_version then agent_version else OpsServer.agent_version sv |>
     <| OpsServer.agent_status := A_ONLINE |>.

Lemma wp_server_match i sv server_id (Q : () → session → Prop) (Ex : exc → session → Prop) s :
  servers (work s) !! i = Some sv → OpsServer.id sv = i →
  (server_id = None ∨ server_id = Some i → Q () s) →
  (server_id ≠ None → server_id ≠ Some i →
   Ex (AppException AGENT_UNAUTHORIZED "服务器 ID 与凭证不匹配" 401) s) →
  wp (_assert_server_match i server_id) Q Ex s.
Proof.
  intros Hsv Hid HQ HE. unfold _assert_server_match. apply wp_bind, (wp_obj_ok TServer i sv); [done|].
  rewrite Hid. destruct server_id as [j|]; [|by apply wp_ret, HQ; left].
  destruct (Z.eqb_spec j i) as [->|Hne]; simpl; [by apply wp_ret, HQ; right|].
  apply wp_app_error, HE; [done|congruence].
Qed.

Lemma wp_update_last_heartbeat i sv ip ver (Q : () → session → Prop) (Ex : exc → session → Prop) s :
  integrity (work s) → servers (work s) !! i = Some sv →
  (let sv' := beaten (clock (ticks s)) ip ver sv in
   (address_free (work s) i (OpsServer.ip_address sv') (OpsServer.ssh_port sv) →
    integrity (put_row TServer i sv' (work s)) → Q () (set_work (put_row TServer i sv' (work s)) (tick s))) ∧
   (¬ address_free (work s) i (OpsServer.ip_address sv') (OpsServer.ssh_port sv) →
    Ex IntegrityError (tick s))) →
  wp (ServerRepository.update_last_heartbeat i ip ver) Q Ex s.
Proof.
  intros HI Hsv [HQ HE]. unfold ServerRepository.update_last_heartbeat. apply wp_bind, wp_utcnow.
  by apply (wp_put_server i sv).
Qed.

(** The heartbeat row of a request. *)
Definition heartbeat_row (i : Z) (ver ip : option string) (at_ : datetime) : OpsAgentHeartbeat :=
  OpsAgentHeartbeat.Mk 0 i ver ip at_ 0.

Lemma wp_record_heartbeat i ver ip at_ (Q : Z → session → Prop) Ex s :
  integrity (work s) → is_Some (servers (work s) !! i) →
  (∀ now, let j := next_id (work s THeartbeat) in
   let r := fresh_row THeartbeat j now (heartbeat_row i ver ip at_) in
   integrity (add_row THeartbeat r (work s)) → Q j (set_work (add_row THeartbeat r (work s)) (tick s))) →
  wp (HeartbeatRepository.record i ver ip (Some at_)) Q Ex s.
Proof.
  intros HI Hi HQ. unfold HeartbeatRepository.record. apply wp_bind, wp_ret.
  by apply (wp_create_for_server THeartbeat _ i).
Qed.

(** What an accepted heartbeat leaves behind. *)
Record beat (i : Z) (sv : OpsServer) (data : HeartbeatRequest) (ip : option string) (n : nat) (d d' : db)
    : Prop := {
  beat_server : servers d' = <[i := beaten (clock n) ip (HeartbeatRequest.agent_version data) sv]> (servers d);
  beat_row : ∃ now, let j := next_id (d THeartbeat) in
    rows (d' THeartbeat) = <[j := fresh_row THeartbeat j now
      (heartbeat_row i (HeartbeatRequest.agent_version data) ip
        (match HeartbeatRequest.timestamp data with Some t => _normalize_utc t | None => clock (S n) end))]>
      (rows (d THeartbeat));
  beat_only : only_in [TServer; THeartbeat] d d';
  beat_integrity : integrity d'
}.

Lemma wp_heartbeat i sv data ip (Q : Z * string → session → Prop) (Ex : exc → session → Prop) s :
  integrity (work s) → servers (work s) !! i = Some sv → OpsServer.id sv = i →
  HeartbeatRequest.server_id data = None ∨ HeartbeatRequest.server_id data = Some i →
  (let ip' := OpsServer.ip_address (beaten (clock (ticks s)) ip (HeartbeatRequest.agent_version data) sv) in
   (address_free (work s) i ip' (OpsServer.ssh_port sv) →
    ∀ d' n m, beat i sv data ip (ticks s) (work s) d' → Q (i, py_isoformat (clock m)) (Session d' d' n)) ∧
   (¬ address_free (work s) i ip' (OpsServer.ssh_port sv) → Ex IntegrityError (tick s))) →
  wp (heartbeat i data ip) Q Ex s.
Proof.
  intros HI Hsv Hid Hm [HQ HE]. unfold heartbeat.
  apply wp_bind, (wp_server_match i sv); [done|done| |by intros ? ?; destruct Hm]. intros _.
  apply wp_bind, (wp_update_last_heartbeat i sv); [done|done|]. split; [|done]. intros Hfree HI1.
  set (sv' := beaten _ _ _ _) in *. set (d1 := put_row TServer i sv' (work s)) in *.
  assert (servers d1 = <[i := sv']> (servers (work s))) as Hs1 by (unfold d1; by autorewrite with store).
  assert (servers d1 !! i = Some sv') as Hsv' by (rewrite Hs1; apply lookup_insert_eq).
  apply wp_bind, (wp_obj_ok TServer i sv'); [done|]. apply wp_bind.
  assert (∀ at_ s1, work s1 = d1 → at_ = match HeartbeatRequest.timestamp data with
                       | Some t => _normalize_utc t | None => clock (S (ticks s)) end →
    wp (_ ← HeartbeatRepository.record (OpsServer.id sv') (HeartbeatRequest.agent_version data) ip (Some at_);
        commit;; now ← utcnow; mret (OpsServer.id sv', py_isoformat now)) Q Ex s1) as Hrest.
  { intros at_ s1 Hw Hat. change (OpsServer.id sv') with (OpsServer.id sv). rewrite Hid.
    apply wp_bind, wp_record_heartbeat; [by rewrite Hw|rewrite Hw; by exists sv'|].
    intros now j r HI2. apply wp_bind, wp_commit, wp_bind, wp_utcnow, wp_ret. cbn [work set_work tick durable ticks].
    apply HQ; [done|]. subst at_. unfold r, j in *. rewrite Hw in *. split; cbn [durable].
    - rewrite add_row_ne by done. done.
    - exists now. assert (d1 THeartbeat = work s THeartbeat) as Hh by by apply put_row_ne.
      cbv zeta. by rewrite rows_add_row, Hh.
    - intros k Hk. unfold d1. rewrite add_row_ne, put_row_ne; [done|..]; intros <-; apply Hk; list_in.
    - done. }
  destruct (HeartbeatRequest.timestamp data) as [t|]; [by apply wp_ret, Hrest|by apply wp_utcnow, Hrest].
Qed.

(** ** Metrics *)

Lemma wp_ingest_metrics i sv data (Q : Z * string → session → Prop) (Ex : exc → session → Prop) s :
  integrity (work s) → servers (work s) !! i = Some sv → OpsServer.id sv = i →
  MetricsRequest.server_id data = None ∨ MetricsRequest.server_id data = Some i →
  (let at_ := _normalize_utc (MetricsRequest.timestamp data) in
   (Z.abs (clock (ticks s) - at_) ≤ seconds MAX_TIME_SKEW_SECONDS →
    ∀ d' n m now, let j := next_id (work s TMetric) in
      rows (d' TMetric) = <[j := fresh_row TMetric j now (new_metric i at_ data)]> (rows (work s TMetric)) →
      only_in [TMetric] (work s) d' → integrity d' →
      Q (i, py_isoformat (clock m)) (Session d' d' n)) ∧
   (seconds MAX_TIME_SKEW_SECONDS < Z.abs (clock (ticks s) - at_) →
    Ex (AppException INVALID_TIMESTAMP "采集时间非法" 400) (tick s))) →
  wp (ingest_metrics i data) Q Ex s.
Proof.
  intros HI Hsv Hid Hm [HQ HE]. unfold ingest_metrics, _validate_timestamp, MetricRepository.record.
  apply wp_bind, (wp_server_match i sv); [done|done| |by intros ? ?; destruct Hm]. intros _.
  apply wp_bind, wp_bind, wp_utcnow.
  destruct (Z.ltb_spec (seconds MAX_TIME_SKEW_SECONDS)
    (Z.abs (clock (ticks s) - _normalize_utc (MetricsRequest.timestamp data)))) as [Hlt|Hle];
    [by apply wp_app_error, HE|]. apply wp_ret.
  apply wp_bind, (wp_obj_ok TServer i sv); [done|]. rewrite Hid.
  apply wp_bind, (wp_create_for_server TMetric _ i); [done|by exists sv|done|done|].
  intros now j HI2. apply wp_bind, wp_commit, wp_bind, wp_utcnow, wp_ret. cbn [work set_work tick durable ticks] in *.
  apply (HQ Hle _ _ _ now); [by autorewrite with store| |done].
  intros k Hk. apply add_row_ne. intros <-. apply Hk. list_in.
Qed.
End Ops.
