(* ===== verification/AgentRegister.v ===== *)
(** * Registration

    What a registration with a usable token does to the server, the token and
    the heartbeat history. *)
From Stdlib Require Import QArith.
From S2P Require Import Prelude.
From S2P Require Export AgentOps.

(** The server's row with what the registration reports. *)
Definition registered_row (data : RegisterRequest) (now1 now2 : datetime) (sv : OpsServer) : OpsServer :=
  (ServerRepository.set_system_info data sv)
      <| OpsServer.registered_at := Some now1 |>
      <| OpsServer.last_heartbeat_at := Some now2 |>
      <| OpsServer.agent_status := A_ONLINE |>.

(** [if ip: server.ip_address = ip]. *)
Definition set_address (ip : option string) (sv : OpsServer) : OpsServer :=
  match ip with
  | Some a => if py_truthy ip then sv <| OpsServer.ip_address := a |> else sv
  | None => sv
  end.

Definition registered_server (data : RegisterRequest) (ip : option string) (now1 now2 : datetime)
    (sv : OpsServer) : OpsServer := set_address ip (registered_row data now1 now2 sv).

Section Register.
Context `{E : Env} `{!EnvOk E} `{!Ed25519} `{!Secrets}.

(** The token's row after a registration. *)
Definition registered_token (data : RegisterRequest) (now1 now2 : datetime) (t : OpsAgentToken) : OpsAgentToken :=
  let t1 := match registered_key data t with
            | Some key => t <| OpsAgentToken.signing_public_key := Some key |>
                            <| OpsAgentToken.signing_algorithm := Some "ed25519" |>
                            <| OpsAgentToken.key_registered_at := Some now1 |>
            | None => t
            end in
  t1 <| OpsAgentToken.last_used_at := Some now2 |>.

Record registered (i j : Z) (t : OpsAgentToken) (sv : OpsServer) (data : RegisterRequest)
    (ip : option string) (d d' : db) : Prop := {
  reg_server : ∃ now1 now2, servers d' = <[j := registered_server data ip now1 now2 sv]> (servers d);
  reg_token : ∃ now1 now2, tokens d' = <[i := registered_token data now1 now2 t]> (tokens d);
  reg_heartbeat : ∃ at_ now, let k := next_id (d THeartbeat) in
    rows (d' THeartbeat) = <[k := fresh_row THeartbeat k now
      (heartbeat_row j (RegisterRequest.agent_version data) ip at_)]> (rows (d THeartbeat));
  reg_only : only_in [TServer; TToken; THeartbeat] d d';
  reg_integrity : integrity d'
}.

(** The address the server will have. *)
Definition new_address (ip : option string) (sv : OpsServer) : string :=
  match ip with
  | Some a => if py_truthy ip then a else OpsServer.ip_address sv
  | None => OpsServer.ip_address sv
  end.

Lemma wp_put_token i t f (Q : () → session → Prop) Ex s :
  integrity (work s) → tokens (work s) !! i = Some t →
  OpsAgentToken.server_id (f t) = OpsAgentToken.server_id t →
  OpsAgentToken.token_hash (f t) = OpsAgentToken.token_hash t →
  (integrity (put_row TToken i (f t) (work s)) → Q () (set_work (put_row TToken i (f t) (work s)) s)) →
  wp (assign TToken i f) Q Ex s.
Proof.
  intros HI Ht Hs Hh HQ. apply (wp_assign_ok TToken i t); [done..| |done].
  split; simpl; [by rewrite Hs|]. intros r2. by rewrite Hh.
Qed.

(** The end of a registration: the key, the time of use, the commit. *)
Lemma wp_register_token i j t data (Q : Z → session → Prop) Ex s :
  integrity (work s) → tokens (work s) !! i = Some t →
  (∀ now1 now2 n d', integrity d' → tokens d' = <[i := registered_token data now1 now2 t]> (tokens (work s)) →
     (∀ k, k ≠ TToken → d' k = work s k) → Q j (Session d' d' n)) →
  wp (match registered_key data t with
      | Some key => set_signing_key i key
      | None => mret ()
      end;;
      AgentTokenRepository.update_last_used i;; commit;; mret j) Q Ex s.
Proof.
  intros HI Ht HQ. unfold registered_token in HQ. apply wp_bind.
  destruct (registered_key data t) as [key|].
  - unfold set_signing_key, update. apply wp_bind, wp_utcnow, (wp_put_token i t); [done..|].
    intros HI1. cbn [work set_work tick ticks durable].
    set (t1 := t <| _ := _ |> <| _ := _ |> <| _ := _ |>). set (d1 := put_row TToken i _ (work s)).
    assert (tokens d1 = <[i := t1]> (tokens (work s))) as Ht1 by (unfold d1; by autorewrite with store).
    unfold AgentTokenRepository.update_last_used.
    apply wp_bind, wp_bind, wp_utcnow, (wp_put_token i t1); [done|etransitivity; [exact (f_equal (lookup i) Ht1)|apply lookup_insert_eq]|done..|].
    intros HI2. apply wp_bind, wp_commit, wp_ret. cbn [work set_work tick ticks durable].
    eapply (HQ (clock (ticks s)) (clock (S (ticks s)))); [done|..].
    + rewrite rows_put_row. etransitivity; [exact (f_equal (insert i _) Ht1)|apply insert_insert_eq].
    + intros k Hk. unfold d1. by rewrite !put_row_ne.
  - apply wp_ret. unfold AgentTokenRepository.update_last_used.
    apply wp_bind, wp_bind, wp_utcnow, (wp_put_token i t); [done..|].
    intros HI1. apply wp_bind, wp_commit, wp_ret. cbn [work set_work tick ticks durable].
    eapply (HQ 0 (clock (ticks s))); [done|by autorewrite with store|].
    intros k Hk. by apply put_row_ne.
Qed.

Lemma wp_register_row j sv data (Q : () → session → Prop) (Ex : exc → session → Prop) s :
  integrity (work s) → servers (work s) !! j = Some sv →
  (let sv1 := registered_row data (clock (ticks s)) (clock (S (ticks s))) sv in
   integrity (put_row TServer j sv1 (work s)) → Q () (set_work (put_row TServer j sv1 (work s)) (tick (tick s)))) →
  wp (ServerRepository.register_server j data) Q Ex s.
Proof.
  intros HI Hsv HQ. unfold ServerRepository.register_server. apply wp_bind, wp_utcnow, wp_bind, wp_utcnow.
  apply (wp_put_server j sv); [done..| |].
  - by intros _.
  - intros Hno. exfalso. apply Hno. intros j' sv' Hj' Hne [Hip Hport].
    apply Hne. apply (integrity_unique TServer j' j sv' sv (work s) HI Hj' Hsv). simpl.
    rewrite (bool_decide_true (OpsServer.ip_address sv' = _)) by done.
    rewrite (bool_decide_true (OpsServer.ssh_port sv' = _)) by done. apply orb_true_r.
Qed.

Lemma wp_set_address j sv ip (Q : () → session → Prop) (Ex : exc → session → Prop) s :
  integrity (work s) → servers (work s) !! j = Some sv →
  (¬ address_free (work s) j (new_address ip sv) (OpsServer.ssh_port sv) → Ex IntegrityError s) →
  (∀ d', address_free (work s) j (new_address ip sv) (OpsServer.ssh_port sv) → integrity d' →
     servers d' = <[j := set_address ip sv]> (servers (work s)) → (∀ k, k ≠ TServer → d' k = work s k) →
     Q () (set_work d' s)) →
  wp (match ip with
      | Some a => when (py_truthy ip) (assign TServer j (λ s, s <| OpsServer.ip_address := a |>))
      | None => mret ()
      end) Q Ex s.
Proof.
  intros HI Hsv HE HQ.
  assert (new_address ip sv = OpsServer.ip_address sv → set_address ip sv = sv → Q () s) as Hsame.
  { intros Hna Hsa. destruct s as [w du n]. cbn [work] in *. apply (HQ w); [|done|by rewrite Hsa, insert_id|done].
    rewrite Hna. intros j' sv' Hj' Hne [Hip Hport]. apply Hne.
    apply (integrity_unique TServer j' j sv' sv w HI Hj' Hsv). simpl.
    rewrite (bool_decide_true (OpsServer.ip_address sv' = _)) by done.
    rewrite (bool_decide_true (OpsServer.ssh_port sv' = _)) by done. apply orb_true_r. }
  unfold new_address, set_address in *. destruct ip as [a|]; [|by apply wp_ret, Hsame]. unfold when.
  destruct (py_truthy (Some a)); [|by apply wp_ret, Hsame].
  apply (wp_put_server j sv); [done..| |done]. intros Hfree HI2. apply HQ; [done|done|..].
  - by autorewrite with store.
  - intros k Hk. by apply put_row_ne.
Qed.

(** The server row and the heartbeat of a registration. *)
Lemma wp_register_server j sv data ip rest (Q : Z → session → Prop) (Ex : exc → session → Prop) s :
  integrity (work s) → servers (work s) !! j = Some sv → OpsServer.id sv = j →
  (¬ address_free (work s) j (new_address ip sv) (OpsServer.ssh_port sv) →
   ∀ s', durable s' = durable s → Ex IntegrityError s') →
  (∀ d1 n now1 now2 at_ now, address_free (work s) j (new_address ip sv) (OpsServer.ssh_port sv) →
     integrity d1 → servers d1 = <[j := registered_server data ip now1 now2 sv]> (servers (work s)) →
     (let k := next_id (work s THeartbeat) in
      rows (d1 THeartbeat) = <[k := fresh_row THeartbeat k now
        (heartbeat_row j (RegisterRequest.agent_version data) ip at_)]> (rows (work s THeartbeat))) →
     only_in [TServer; THeartbeat] (work s) d1 → wp rest Q Ex (Session d1 (durable s) n)) →
  wp (ServerRepository.register_server j data;;
      match ip with
      | Some a => when (py_truthy ip) (assign TServer j (λ s, s <| OpsServer.ip_address := a |>))
      | None => mret ()
      end;;
      _ ← HeartbeatRepository.record (OpsServer.id sv) (RegisterRequest.agent_version data) ip None;
      rest) Q Ex s.
Proof.
  intros HI Hsv Hid HE HQ. rewrite Hid.
  apply wp_bind, (wp_register_row j sv); [done|done|]. intros sv1 HI1.
  assert (OpsServer.ssh_port sv1 = OpsServer.ssh_port sv) as Hport by done.
  assert (new_address ip sv1 = new_address ip sv) as Haddr by done.
  assert (registered_server data ip (clock (ticks s)) (clock (S (ticks s))) sv = set_address ip sv1) as Hreg by done.
  clearbody sv1. set (d1 := put_row TServer j sv1 (work s)) in *.
  assert (servers d1 = <[j := sv1]> (servers (work s))) as Hs1 by (unfold d1; by autorewrite with store).
  assert (∀ k, k ≠ TServer → d1 k = work s k) as Ho1 by (intros k Hk; by apply put_row_ne).
  clearbody d1.
  assert (address_free d1 j (new_address ip sv) (OpsServer.ssh_port sv) ↔
          address_free (work s) j (new_address ip sv) (OpsServer.ssh_port sv)) as Hfree.
  { unfold address_free. rewrite Hs1. split; intros Hf j' sv' Hj' Hne; apply (Hf j' sv'); try done;
      [by rewrite lookup_insert_ne|by rewrite lookup_insert_ne in Hj']. }
  apply wp_bind, (wp_set_address j sv1); cbn [work set_work tick durable ticks].
  - done.
  - etransitivity; [exact (f_equal (lookup j) Hs1)|apply lookup_insert_eq].
  - rewrite Haddr, Hport. intros Hno. apply HE; [|done]. intros Hf. by apply Hno, Hfree.
  - rewrite Haddr, Hport. intros d2 Hf%Hfree HI2 Hs2 Ho2.
    assert (servers d2 = <[j := set_address ip sv1]> (servers (work s))) as Hs2'.
    { etransitivity; [exact Hs2|]. etransitivity; [exact (f_equal (insert j _) Hs1)|apply insert_insert_eq]. }
    unfold HeartbeatRepository.record. apply wp_bind, wp_bind, wp_utcnow.
    apply (wp_create_for_server THeartbeat _ j); [exact HI2| |done|done|].
    { cbn [work set_work tick]. exists (set_address ip sv1). etransitivity; [exact (f_equal (lookup j) Hs2')|apply lookup_insert_eq]. }
    intros now k HI3. cbn [work set_work tick durable ticks] in *.
    eapply (HQ _ _ (clock (ticks s)) (clock (S (ticks s))) (clock (S (S (ticks s)))) now); [done|done|..].
    + rewrite add_row_ne by done. by rewrite Hreg.
    + unfold k. cbv zeta. rewrite rows_add_row. by rewrite Ho2, Ho1.
    + intros k' Hk'. rewrite add_row_ne by (intros <-; apply Hk'; list_in).
      assert (k' ≠ TServer) by (intros ->; apply Hk'; list_in). by rewrite Ho2, Ho1.
Qed.

(** A registration with a usable token. *)
Lemma wp_register data ip (Q : Z → session → Prop) (Ex : exc → session → Prop) s :
  integrity (work s) →
  (∀ n, (∀ i t, tokens (work s) !! i = Some t →
           OpsAgentToken.token_hash t = _hash_token (RegisterRequest.token data) →
           token_usable t (clock (ticks s)) = false) →
     Ex (AppException AGENT_UNAUTHORIZED "Agent 凭证无效" 401) (Session (work s) (durable s) n)) →
  (∀ i t sv, tokens (work s) !! i = Some t →
     OpsAgentToken.token_hash t = _hash_token (RegisterRequest.token data) →
     token_usable t (clock (ticks s)) = true →
     servers (work s) !! OpsAgentToken.server_id t = Some sv →
     let j := OpsAgentToken.server_id t in
     OpsServer.id sv = j ∧
     if ServerRepository.enabled sv then
       if String.eqb (OpsServer.server_code sv) (RegisterRequest.server_code data) then
         (¬ address_free (work s) j (new_address ip sv) (OpsServer.ssh_port sv) →
          ∀ s', durable s' = durable s → Ex IntegrityError s') ∧
         (∀ d' n, address_free (work s) j (new_address ip sv) (OpsServer.ssh_port sv) →
            registered i j t sv data ip (work s) d' → Q j (Session d' d' n))
       else ∀ n, Ex (AppException AGENT_UNAUTHORIZED "服务器编码与凭证不匹配" 401) (Session (work s) (durable s) n)
     else ∀ n, Ex (AppException SERVER_NOT_FOUND "服务器不存在或已停用" 404) (Session (work s) (durable s) n)) →
  wp (register data ip) Q Ex s.
Proof.
  intros HI HN HS. unfold register. apply wp_bind, wp_authenticate; [done|..].
  2: { intros n Hn. by apply wp_app_error, HN. }
  intros i t n Ht Hh Hu. apply wp_bind, (wp_obj_ok TToken i t); [done|].
  destruct (integrity_refs TToken i t (work s) TServer (OpsAgentToken.server_id t) HI Ht) as [sv Hsv];
    [simpl; list_in|].
  destruct (HS i t sv Ht Hh Hu Hsv) as [Hid Hcase]. clear HS HN. unfold ServerRepository.enabled in Hcase.
  set (j := OpsAgentToken.server_id t) in *.
  apply wp_bind, (wp_get TServer); cbn [work].
  2: { intros Ha. rewrite (Ha sv Hsv) in Hcase. by apply wp_app_error. }
  intros sv' Hsv' Ha. pose proof (same_row TServer Hsv Hsv') as <-. rewrite Ha in Hcase. simpl in Hcase.
  apply wp_bind, (wp_obj_ok TServer j sv); [done|].
  destruct (OpsServer.status sv =? 1); simpl; [|by apply wp_app_error].
  destruct (String.eqb (OpsServer.server_code sv) (RegisterRequest.server_code data)); simpl;
    [|by apply wp_app_error].
  destruct Hcase as [HE HQ].
  apply (wp_register_server j sv); [done|done|done|done|]. cbn [work durable].
  intros d1 n1 now1 now2 at_ now Hfree HI1 Hs1 Hb1 Ho1. rewrite Hid.
  assert (d1 TToken = work s TToken) as Htok by (apply Ho1; list_in || (intros Hin; rewrite !elem_of_cons, elem_of_nil in Hin; by destruct_or? Hin)).
  apply (wp_register_token i j t); [done|by cbn [work]; rewrite Htok|]. cbn [work].
  intros now3 now4 n2 d2 HI2 Ht2 Ho2. apply HQ; [done|]. split.
  - exists now1, now2. by rewrite Ho2.
  - exists now3, now4. by rewrite Ht2, Htok.
  - exists at_, now. by rewrite Ho2.
  - intros k Hk. rewrite Ho2 by (intros ->; apply Hk; list_in). apply Ho1.
    intros Hin. apply Hk. revert Hin. rewrite !elem_of_cons. tauto.
  - done.
Qed.
End Register.
