(* ===== verification/TaskInv.v ===== *)
(** * Invariants of the task tables

    [task_inv] is what the task service keeps true of tasks, targets and
    executions between transactions; [evolves] is what holds between the database
    before and after any number of operations.
    Each kind of write preserves both under a local condition. *)
From S2P Require Import Prelude.
From S2P Require Export TaskService.

(** The executions of [d]. *)
Abbreviation execs d := (rows (d TExec)).
Abbreviation tasks d := (rows (d TTask)).
Abbreviation targets d := (rows (d TTarget)).

Definition cron_waiting (t : OpsTask) : Prop :=
  OpsTask.schedule_type t = "CRON" ∧ OpsTask.status t ∈ [T_CREATED; T_PENDING].

(** [x] is the CRON task that is being fired, if any. *)
Record task_inv (x : option Z) (d : db) : Prop := TaskInv {
  inv_integrity : integrity d;
  inv_task_id : ∀ i t, tasks d !! i = Some t → OpsTask.id t = i;
  inv_exec_id : ∀ i e, execs d !! i = Some e → OpsTaskExecution.id e = i;
  inv_target : ∀ i e, execs d !! i = Some e →
    ∃ t, targets d !! OpsTaskExecution.target_id e = Some t ∧
         OpsTaskTarget.task_id t = OpsTaskExecution.task_id e ∧
         OpsTaskTarget.server_id t = OpsTaskExecution.server_id e;
  inv_budget : ∀ i t, tasks d !! i = Some t → 1 ≤ OpsTask.max_attempts t;
  inv_attempt : ∀ i e t, execs d !! i = Some e → tasks d !! OpsTaskExecution.task_id e = Some t →
    1 ≤ OpsTaskExecution.attempt e ≤ OpsTask.max_attempts t;
  inv_live : ∀ i j e e', execs d !! i = Some e → execs d !! j = Some e' →
    OpsTaskExecution.target_id e = OpsTaskExecution.target_id e' →
    OpsTaskExecution.attempt e < OpsTaskExecution.attempt e' →
    exec_terminal (OpsTaskExecution.status e) = true;
  inv_done : ∀ i e t, execs d !! i = Some e → tasks d !! OpsTaskExecution.task_id e = Some t →
    task_terminal (OpsTask.status t) = true → exec_terminal (OpsTaskExecution.status e) = true;
  inv_cron : ∀ i e t, execs d !! i = Some e → tasks d !! OpsTaskExecution.task_id e = Some t →
    x ≠ Some (OpsTaskExecution.task_id e) → ¬ cron_waiting t
}.
Arguments inv_integrity {x d}.
Arguments inv_task_id {x d}.
Arguments inv_exec_id {x d}.
Arguments inv_target {x d}.
Arguments inv_budget {x d}.
Arguments inv_attempt {x d}.
Arguments inv_live {x d}.
Arguments inv_done {x d}.
Arguments inv_cron {x d}.

(** The columns of an execution that never change. *)
Definition exec_core (e : OpsTaskExecution) : Z * Z * Z * Z * Z :=
  (OpsTaskExecution.id e, OpsTaskExecution.task_id e, OpsTaskExecution.target_id e,
   OpsTaskExecution.server_id e, OpsTaskExecution.attempt e).

(** How the rows evolve: the identity of an execution never changes, a started
    execution is never pending again, finished rows stay as they are until they
    are removed, and keys are not reused. *)
Record evolves (d0 d : db) : Prop := Evolves {
  evolves_exec_next : next_id (d0 TExec) ≤ next_id (d TExec);
  evolves_task_next : next_id (d0 TTask) ≤ next_id (d TTask);
  evolves_core : ∀ i e e', execs d0 !! i = Some e → execs d !! i = Some e' →
    exec_core e' = exec_core e;
  evolves_started : ∀ i e e', execs d0 !! i = Some e → OpsTaskExecution.status e ≠ E_PENDING →
    execs d !! i = Some e' → OpsTaskExecution.status e' ≠ E_PENDING;
  evolves_exec : ∀ i e e', execs d0 !! i = Some e → exec_terminal (OpsTaskExecution.status e) = true →
    execs d !! i = Some e' → e' = e;
  evolves_task : ∀ i t t', tasks d0 !! i = Some t → task_terminal (OpsTask.status t) = true →
    tasks d !! i = Some t' → t' = t;
  evolves_exec_keys : ∀ i, i < next_id (d0 TExec) → execs d0 !! i = None → execs d !! i = None;
  evolves_task_keys : ∀ i, i < next_id (d0 TTask) → tasks d0 !! i = None → tasks d !! i = None
}.

Lemma evolves_refl (d : db) : evolves d d.
Proof. split; intros; simplify_eq; done || lia. Qed.

Lemma evolves_trans (d1 d2 d3 : db) : evolves d1 d2 → evolves d2 d3 → integrity d1 → evolves d1 d3.
Proof.
  intros [n1 m1 c1 s1 e1 t1 k1 l1] [n2 m2 c2 s2 e2 t2 k2 l2] [_ HK].
  assert (∀ i e e', execs d1 !! i = Some e → execs d3 !! i = Some e' →
                    ∃ e0, execs d2 !! i = Some e0) as Hmid.
  { intros i e e' He He'. pose proof (HK TExec _ _ He).
    destruct (execs d2 !! i) as [e0|] eqn:E0; [by exists e0|]. rewrite k2 in He'; [done|lia|done]. }
  split; [lia|lia|..].
  - intros i e e' He He'. destruct (Hmid _ _ _ He He') as [e0 E0].
    transitivity (exec_core e0); eauto.
  - intros i e e' He Hs He'. destruct (Hmid _ _ _ He He') as [e0 E0]. eauto.
  - intros i e e' He Ht He'. destruct (Hmid _ _ _ He He') as [e0 E0].
    pose proof (e1 _ _ _ He Ht E0); subst. by apply (e2 _ _ _ E0).
  - intros i e e' He Ht He'. pose proof (HK TTask _ _ He).
    destruct (tasks d2 !! i) as [e0|] eqn:E0; [|rewrite l2 in He'; [done|lia|done]].
    pose proof (t1 _ _ _ He Ht E0); subst. by apply (t2 _ _ _ E0).
  - intros i Hi Hn. apply k2; [lia|]. by apply k1.
  - intros i Hi Hn. apply l2; [lia|]. by apply l1.
Qed.

(** The state of a transaction that started on [d0]. *)
Definition good (x : option Z) (d0 d : db) : Prop :=
  integrity d0 ∧ task_inv x d ∧ evolves d0 d.

Lemma good_refl (d : db) : task_inv None d → good None d d.
Proof. intros HI. split_and!; [apply HI|done|apply evolves_refl]. Qed.

(** ** Removing rows, and writing to other tables *)

Definition shrinks (d d' : db) (k : tname) : Prop :=
  rows (d' k) ⊆ rows (d k) ∧ next_id (d' k) = next_id (d k).

Lemma good_shrink x d0 d d' :
  good x d0 d → integrity d' →
  shrinks d d' TTask → shrinks d d' TTarget → shrinks d d' TExec → good x d0 d'.
Proof.
  intros [HI0 [[HI Hti Hei Htg Hb Hat Hlv Hdn Hcr] HF]] HI' [Ht Hnt] [Hg _] [He Hne].
  assert (∀ i t, tasks d' !! i = Some t → tasks d !! i = Some t) as Ht'.
  { intros i t Hl. exact (lookup_weaken _ _ _ _ Hl Ht). }
  assert (∀ i t, execs d' !! i = Some t → execs d !! i = Some t) as He'.
  { intros i t Hl. exact (lookup_weaken _ _ _ _ Hl He). }
  split_and!; [done|split; eauto|].
  - intros i e Hi. destruct (Htg i e (He' _ _ Hi)) as (t & Hx & ?).
    exists t. split; [|done].
    assert (is_Some (targets d' !! OpsTaskExecution.target_id e)) as [t' Ht2].
    { apply (integrity_refs TExec i e d' TTarget); [done..|simpl; set_solver]. }
    assert (Some t' = Some t) as [= ->]; [|exact Ht2].
    rewrite <- Hx. symmetry. exact (lookup_weaken _ _ _ _ Ht2 Hg).
  - destruct HF as [n1 m1 c1 s1 e1 t1 k1 l1]. split; [lia|lia|eauto|eauto|eauto|eauto|..].
    + intros i Hi Hn. by eapply lookup_weaken_None; [apply k1|].
    + intros i Hi Hn. by eapply lookup_weaken_None; [apply l1|].
Qed.

Lemma shrinks_refl d d' k : d' k = d k → shrinks d d' k.
Proof. unfold shrinks. intros ->. by split. Qed.

Lemma shrinks_filter k p d k' : shrinks d (filter_rows k p d) k'.
Proof.
  destruct (decide (k = k')) as [<-|].
  - split; autorewrite with store; [|done]. apply map_filter_subseteq.
  - apply shrinks_refl. by apply filter_rows_ne.
Qed.

(** The tables whose rows the invariant constrains. *)
Definition core_table (k : tname) : bool := bool_decide (k ∈ [TTask; TTarget; TExec]).

Lemma good_other x d0 d d' :
  good x d0 d → integrity d' → (∀ k, core_table k = true → d' k = d k) → good x d0 d'.
Proof. intros HG HI Hk. eapply good_shrink; [done..| | |]; by apply shrinks_refl, Hk. Qed.

(** ** Changing a row *)

Lemma good_put_exec x d0 d i e e' :
  good x d0 d → execs d !! i = Some e → exec_terminal (OpsTaskExecution.status e) = false →
  exec_core e' = exec_core e → OpsTaskExecution.status e' ≠ E_PENDING →
  integrity (put_row TExec i e' d) →
  good x d0 (put_row TExec i e' d).
Proof.
  intros [HI0 [[HI Hti Hei Htg Hb Hat Hlv Hdn Hcr] HF]] He Hlive Hcore Hstart HI'. pose proof Hcore as Hcore'.
  injection Hcore as Eid Etask Etarget Eserver Eattempt.
  assert (∀ j e2, execs (put_row TExec i e' d) !! j = Some e2 →
    ∃ e1, execs d !! j = Some e1 ∧ exec_core e2 = exec_core e1 ∧
          (exec_terminal (OpsTaskExecution.status e1) = true →
           exec_terminal (OpsTaskExecution.status e2) = true)) as Hold.
  { intros j e2. autorewrite with store. intros [[<- <-]|[? Hj]]%lookup_insert_Some.
    - exists e. unfold exec_core. split_and!; [done|congruence|congruence].
    - by exists e2. }
  split_and!; [done|split|]; autorewrite with store; try done.
  - intros j e2 Hj. destruct (Hold _ _ Hj) as (e1 & H1 & [=] & _). rewrite <- (Hei _ _ H1). congruence.
  - intros j e2 Hj. destruct (Hold _ _ Hj) as (e1 & H1 & [= _ -> -> -> _] & _). eauto.
  - intros j e2 t Hj. destruct (Hold _ _ Hj) as (e1 & H1 & [= _ -> _ _ ->] & _). eauto.
  - intros j1 j2 e1 e2 H1 H2. destruct (Hold _ _ H1) as (f1 & F1 & [= _ _ -> _ ->] & Ht).
    destruct (Hold _ _ H2) as (f2 & F2 & [= _ _ -> _ ->] & _). eauto.
  - intros j e2 t Hj. destruct (Hold _ _ Hj) as (e1 & H1 & [= _ -> _ _ _] & Ht). eauto.
  - intros j e2 t Hj. destruct (Hold _ _ Hj) as (e1 & H1 & [= _ -> _ _ _] & Ht). eauto.
  - destruct HF as [n1 m1 c1 s1 e1 t1 k1 l1]. split; autorewrite with store; try done.
    + intros j e1' e2 H1. intros [[<- <-]|[? Hj]]%lookup_insert_Some; [|by eapply c1].
      rewrite Hcore'. by eapply c1.
    + intros j e1' e2 H1 Ht. intros [[<- <-]|[? Hj]]%lookup_insert_Some; [done|by eapply s1].
    + intros j e1' e2 H1 Ht. intros [[<- <-]|[? Hj]]%lookup_insert_Some; [|by eapply e1].
      rewrite (e1 _ _ _ H1 Ht He) in Hlive. congruence.
    + intros j Hj Hn. rewrite lookup_insert_ne; [by apply k1|].
      intros ->. rewrite k1 in He; done.
Qed.

Lemma good_put_task x x' d0 d i t t' :
  good x d0 d → tasks d !! i = Some t → task_terminal (OpsTask.status t) = false →
  OpsTask.id t' = OpsTask.id t → OpsTask.max_attempts t' = OpsTask.max_attempts t →
  (task_terminal (OpsTask.status t') = true →
   ∀ j e, execs d !! j = Some e → OpsTaskExecution.task_id e = i →
          exec_terminal (OpsTaskExecution.status e) = true) →
  (x = x' ∨ x = Some i) →
  (x' ≠ Some i → cron_waiting t' →
   ∀ j e, execs d !! j = Some e → OpsTaskExecution.task_id e ≠ i) →
  integrity (put_row TTask i t' d) →
  good x' d0 (put_row TTask i t' d).
Proof.
  intros [HI0 [[HI Hti Hei Htg Hb Hat Hlv Hdn Hcr] HF]] Ht Hlive Eid Emax Hdone Hx Hcron HI'.
  split_and!; [done|split|]; autorewrite with store; try done.
  - intros j t2 [[<- <-]|[? Hj]]%lookup_insert_Some; [|by eauto]. rewrite Eid. by apply Hti.
  - intros j t2 [[<- <-]|[? Hj]]%lookup_insert_Some; [|by eauto]. rewrite Emax. by eapply Hb.
  - intros j e t2 He [[-> <-]|[? Hj]]%lookup_insert_Some; [|by eauto]. rewrite Emax. by eapply Hat.
  - intros j e t2 He [[? <-]|[? Hj]]%lookup_insert_Some Hterm; [|by eauto]. by eapply Hdone.
  - intros j e t2 He [[? <-]|[? Hj]]%lookup_insert_Some Hne Hw.
    + eapply Hcron; try done; congruence.
    + eapply Hcr; try done. destruct Hx; congruence.
  - destruct HF as [n1 m1 c1 s1 e1 t1 k1 l1]. split; autorewrite with store; try done.
    + intros j t2 t3 H1 Hterm. intros [[<- <-]|[? Hj]]%lookup_insert_Some; [|by eapply t1].
      rewrite (t1 _ _ _ H1 Hterm Ht) in Hlive. congruence.
    + intros j Hj Hn. rewrite lookup_insert_ne; [by apply l1|].
      intros ->. rewrite l1 in Ht; done.
Qed.

Lemma good_put_target x d0 d i t t' :
  good x d0 d → targets d !! i = Some t →
  OpsTaskTarget.task_id t' = OpsTaskTarget.task_id t →
  OpsTaskTarget.server_id t' = OpsTaskTarget.server_id t →
  integrity (put_row TTarget i t' d) → good x d0 (put_row TTarget i t' d).
Proof.
  intros [HI0 [[HI Hti Hei Htg Hb Hat Hlv Hdn Hcr] HF]] Ht Etask Eserver HI'.
  split_and!; [done|split|]; autorewrite with store; try done.
  - intros j e He. destruct (Htg j e He) as (t2 & H2 & H3 & H4).
    destruct (decide (i = OpsTaskExecution.target_id e)) as [->|].
    + exists t'. rewrite lookup_insert_eq. split_and!; [done|congruence..].
    + exists t2. by rewrite lookup_insert_ne.
  - destruct HF as [n1 m1 c1 s1 e1 t1 k1 l1]. by split; autorewrite with store.
Qed.

(** ** Adding a row *)

Lemma next_fresh d k : integrity d → rows (d k) !! next_id (d k) = None.
Proof.
  intros [_ HK]. apply eq_None_not_Some. intros [r Hr]. specialize (HK _ _ _ Hr). lia.
Qed.

Lemma good_add_exec x d0 d e g t :
  good x d0 d → integrity (add_row TExec e d) →
  OpsTaskExecution.id e = next_id (d TExec) →
  targets d !! OpsTaskExecution.target_id e = Some g →
  OpsTaskTarget.task_id g = OpsTaskExecution.task_id e →
  OpsTaskTarget.server_id g = OpsTaskExecution.server_id e →
  tasks d !! OpsTaskExecution.task_id e = Some t →
  1 ≤ OpsTaskExecution.attempt e ≤ OpsTask.max_attempts t →
  task_terminal (OpsTask.status t) = false →
  (x ≠ Some (OpsTaskExecution.task_id e) → ¬ cron_waiting t) →
  (∀ j e', execs d !! j = Some e' →
     OpsTaskExecution.target_id e' = OpsTaskExecution.target_id e →
     exec_terminal (OpsTaskExecution.status e') = true ∧
     OpsTaskExecution.attempt e' < OpsTaskExecution.attempt e) →
  good x d0 (add_row TExec e d).
Proof.
  intros [HI0 [[HI Hti Hei Htg Hb Hat Hlv Hdn Hcr] HF]] HI' Eid Hg Egt Egs Ht Hatt Hterm Hw Hprev.
  pose proof (next_fresh d TExec HI) as Hfresh.
  split_and!; [done|split|]; autorewrite with store; try done.
  - intros j e2 [[<- <-]|[? Hj]]%lookup_insert_Some; eauto.
  - intros j e2 [[<- <-]|[? Hj]]%lookup_insert_Some; eauto.
  - intros j e2 t2 [[<- <-]|[? Hj]]%lookup_insert_Some H2; [|by eauto]. congruence.
  - intros j1 j2 e1 e2 [[<- <-]|[? H1]]%lookup_insert_Some [[<- <-]|[? H2]]%lookup_insert_Some Etg Hlt;
      [lia| |naive_solver|by eauto].
    destruct (Hprev _ _ H2 (eq_sym Etg)). lia.
  - intros j e2 t2 [[<- <-]|[? Hj]]%lookup_insert_Some H2; [|by eauto]. congruence.
  - intros j e2 t2 [[<- <-]|[? Hj]]%lookup_insert_Some H2; [|by eauto].
    intros Hx. rewrite Ht in H2. injection H2 as <-. by apply Hw.
  - destruct HF as [n1 m1 c1 s1 e1 t1 k1 l1]. split; autorewrite with store; try done; [lia|..].
    + intros j e2 e3 H1 [[<- <-]|[? Hj]]%lookup_insert_Some; [|by eapply c1].
      pose proof (proj2 HI0 TExec _ _ H1). lia.
    + intros j e2 e3 H1 Htm [[<- <-]|[? Hj]]%lookup_insert_Some; [|by eapply s1].
      pose proof (proj2 HI0 TExec _ _ H1). lia.
    + intros j e2 e3 H1 Htm [[<- <-]|[? Hj]]%lookup_insert_Some; [|by eapply e1].
      pose proof (proj2 HI0 TExec _ _ H1). lia.
    + intros j Hj Hn. rewrite lookup_insert_ne; [by apply k1|lia].
Qed.

Lemma good_add_task x d0 d t :
  good x d0 d → integrity (add_row TTask t d) → OpsTask.id t = next_id (d TTask) →
  1 ≤ OpsTask.max_attempts t → task_terminal (OpsTask.status t) = false →
  good x d0 (add_row TTask t d).
Proof.
  intros [HI0 [[HI Hti Hei Htg Hb Hat Hlv Hdn Hcr] HF]] HI' Eid Hmax Hterm.
  assert (∀ j e, execs d !! j = Some e → OpsTaskExecution.task_id e ≠ next_id (d TTask)) as Hne.
  { intros j e He Hx. assert (is_Some (tasks d !! OpsTaskExecution.task_id e)) as [t' Ht'].
    { apply (integrity_refs TExec j e d TTask); [done..|simpl; set_solver]. }
    pose proof (proj2 HI TTask _ _ Ht'). lia. }
  split_and!; [done|split|]; autorewrite with store; try done.
  - intros j t2 [[<- <-]|[? Hj]]%lookup_insert_Some; eauto.
  - intros j t2 [[<- <-]|[? Hj]]%lookup_insert_Some; [done|by eauto].
  - intros j e t2 He [[Hx _]|[? Hj]]%lookup_insert_Some; [by destruct (Hne _ _ He)|by eauto].
  - intros j e t2 He [[Hx _]|[? Hj]]%lookup_insert_Some; [by destruct (Hne _ _ He)|by eauto].
  - intros j e t2 He [[Hx _]|[? Hj]]%lookup_insert_Some; [by destruct (Hne _ _ He)|by eauto].
  - destruct HF as [n1 m1 c1 s1 e1 t1 k1 l1]. split; autorewrite with store; try done; [lia|..].
    + intros j e2 e3 H1 Htm [[<- <-]|[? Hj]]%lookup_insert_Some; [|by eapply t1].
      pose proof (proj2 HI0 TTask _ _ H1). lia.
    + intros j Hj Hn. rewrite lookup_insert_ne; [by apply l1|lia].
Qed.

Lemma good_add_target x d0 d t :
  good x d0 d → integrity (add_row TTarget t d) → good x d0 (add_row TTarget t d).
Proof.
  intros [HI0 [[HI Hti Hei Htg Hb Hat Hlv Hdn Hcr] HF]] HI'.
  split_and!; [done|split|]; autorewrite with store; try done.
  - intros j e He. destruct (Htg j e He) as (t2 & H2 & H3). exists t2. split; [|done].
    rewrite lookup_insert_ne; [done|]. intros Hx.
    pose proof (proj2 HI TTarget _ _ H2). lia.
  - destruct HF as [n1 m1 c1 s1 e1 t1 k1 l1]. by split; autorewrite with store.
Qed.

(** The executions of one target: an unfinished one is the last attempt. *)
Lemma live_is_latest x d i j e e' :
  task_inv x d → execs d !! i = Some e → execs d !! j = Some e' →
  OpsTaskExecution.target_id e' = OpsTaskExecution.target_id e →
  exec_terminal (OpsTaskExecution.status e) = false →
  i = j ∨ OpsTaskExecution.attempt e' < OpsTaskExecution.attempt e.
Proof.
  intros Hinv He He' Htg Hlive.
  destruct (Z.lt_trichotomy (OpsTaskExecution.attempt e) (OpsTaskExecution.attempt e'))
    as [Hlt|[Heq|Hgt]]; [|left|by right].
  - rewrite (inv_live Hinv _ _ _ _ He He' (eq_sym Htg) Hlt) in Hlive. done.
  - apply (integrity_unique TExec i j e e' d); [apply Hinv|done..|]. simpl.
    destruct (inv_target Hinv _ _ He) as (g & Hg & Hgt & _).
    destruct (inv_target Hinv _ _ He') as (g' & Hg' & Hgt' & _).
    rewrite Htg, Hg in Hg'. injection Hg' as <-.
    rewrite !bool_decide_true; [done|congruence..].
Qed.
