(* ===== verification/TaskAggregate.v ===== *)
(** * The status of a task as a function of its executions

    What [_aggregate_task_status] computes, independently of the order in
    which the database returns the executions. *)
From S2P Require Import Prelude.
From S2P Require Export TaskInv.

(** [e] is the last attempt on its target. *)
Definition is_latest (es : list OpsTaskExecution) (e : OpsTaskExecution) : Prop :=
  e ∈ es ∧ ∀ e', e' ∈ es → OpsTaskExecution.target_id e' = OpsTaskExecution.target_id e →
                 OpsTaskExecution.attempt e' ≤ OpsTaskExecution.attempt e.

(** No two executions are the same attempt on the same target. *)
Definition attempts_distinct (es : list OpsTaskExecution) : Prop :=
  ∀ e e', e ∈ es → e' ∈ es → OpsTaskExecution.target_id e = OpsTaskExecution.target_id e' →
          OpsTaskExecution.attempt e = OpsTaskExecution.attempt e' → e = e'.

Lemma latest_executions_app es e :
  latest_executions (es ++ [e]) = latest_step (latest_executions es) e.
Proof. unfold latest_executions. by rewrite foldl_app. Qed.

(** What the dictionary holds for target [g] after the executions [es]. *)
Definition latest_for (es : list OpsTaskExecution) (g : Z) (o : option OpsTaskExecution) : Prop :=
  match o with
  | Some e => is_latest es e ∧ OpsTaskExecution.target_id e = g
  | None => ∀ e, e ∈ es → OpsTaskExecution.target_id e ≠ g
  end.

Lemma latest_for_app es e g o :
  latest_for es g o →
  (OpsTaskExecution.target_id e = g →
   ∃ c, o = Some c ∧ OpsTaskExecution.attempt e ≤ OpsTaskExecution.attempt c) →
  latest_for (es ++ [e]) g o.
Proof.
  intros Ho He. destruct o as [c|]; simpl in *.
  - destruct Ho as [[Hin Hmax] Hc]. split; [|done]. split; [set_solver|].
    intros e' [He'| ->%list_elem_of_singleton]%elem_of_app Htg; [by apply Hmax|].
    destruct He as (c' & [= <-] & ?); [congruence|done].
  - intros e' [He'| ->%list_elem_of_singleton]%elem_of_app; [by apply Ho|].
    intros Hg. by destruct (He Hg) as (? & ? & _).
Qed.

Lemma latest_for_new es e o :
  latest_for es (OpsTaskExecution.target_id e) o →
  (∀ c, o = Some c → OpsTaskExecution.attempt c < OpsTaskExecution.attempt e) →
  latest_for (es ++ [e]) (OpsTaskExecution.target_id e) (Some e).
Proof.
  intros Ho Hlt. split; [|done]. split; [set_solver|].
  intros e' [He'| ->%list_elem_of_singleton]%elem_of_app Htg; [|lia].
  destruct o as [c|]; simpl in Ho; [|by destruct (Ho e')].
  destruct Ho as [[_ Hmax] Hc]. specialize (Hlt c eq_refl).
  specialize (Hmax e' He'). rewrite Hc in Hmax. specialize (Hmax Htg). lia.
Qed.

Lemma latest_executions_spec es g : latest_for es g (latest_executions es !! g).
Proof.
  revert g. induction es as [|e es IH] using rev_ind; intros g.
  { unfold latest_executions. simpl. rewrite lookup_empty. intros e He. by apply elem_of_nil in He. }
  rewrite latest_executions_app. unfold latest_step.
  pose proof (IH (OpsTaskExecution.target_id e)) as He.
  destruct (latest_executions es !! OpsTaskExecution.target_id e) as [c|] eqn:Hc;
    [destruct (OpsTaskExecution.attempt c <? OpsTaskExecution.attempt e) eqn:Hlt|].
  - apply Z.ltb_lt in Hlt. destruct (decide (OpsTaskExecution.target_id e = g)) as [<-|Hne].
    + rewrite lookup_insert_eq. eapply latest_for_new; [done|]. by intros ? [= <-].
    + rewrite lookup_insert_ne by done. by apply latest_for_app.
  - apply Z.ltb_ge in Hlt. apply latest_for_app; [done|]. intros <-. by exists c.
  - destruct (decide (OpsTaskExecution.target_id e = g)) as [<-|Hne].
    + rewrite lookup_insert_eq. by eapply latest_for_new.
    + rewrite lookup_insert_ne by done. by apply latest_for_app.
Qed.

Lemma elem_of_latest_statuses es st :
  st ∈ latest_statuses es ↔
  ∃ g e, latest_executions es !! g = Some e ∧ OpsTaskExecution.status e = st.
Proof.
  unfold latest_statuses. rewrite list_elem_of_fmap. split.
  - intros ([g e] & -> & Hin%elem_of_map_to_list). by exists g, e.
  - intros (g & e & Hg & <-). exists (g, e). split; [done|]. by apply elem_of_map_to_list.
Qed.

(** Under distinct attempts, the statuses that count are those of the last
    attempts. *)
Lemma elem_of_latest_statuses_distinct es st :
  attempts_distinct es →
  st ∈ latest_statuses es ↔ ∃ e, is_latest es e ∧ OpsTaskExecution.status e = st.
Proof.
  intros Hd. rewrite elem_of_latest_statuses. split.
  - intros (g & e & Hg & <-). exists e. split; [|done].
    pose proof (latest_executions_spec es g) as Hs. rewrite Hg in Hs. apply Hs.
  - intros (e & [Hin Hmax] & <-). exists (OpsTaskExecution.target_id e).
    pose proof (latest_executions_spec es (OpsTaskExecution.target_id e)) as Hs.
    destruct (latest_executions es !! _) as [c|]; [|by destruct (Hs e)].
    destruct Hs as [[Hc Hcmax] Hct]. exists c. split; [done|]. f_equal.
    apply Hd; [done..|]. specialize (Hmax c Hc Hct). specialize (Hcmax e Hin (eq_sym Hct)). lia.
Qed.

(** ** The priority of the statuses *)

Lemma existsb_in (l ss : list exec_status) :
  existsb (λ s, bool_decide (s ∈ l)) ss = true ↔ ∃ s, s ∈ ss ∧ s ∈ l.
Proof.
  rewrite existsb_exists. split; intros (s & Hs & Hl); exists s;
    rewrite ?bool_decide_eq_true, ?list_elem_of_In in *; done.
Qed.

Lemma existsb_in_ext (l ss ss' : list exec_status) :
  (∀ s, s ∈ ss ↔ s ∈ ss') →
  existsb (λ s, bool_decide (s ∈ l)) ss = existsb (λ s, bool_decide (s ∈ l)) ss'.
Proof. intros Hs. apply eq_true_iff_eq. rewrite !existsb_in. by setoid_rewrite Hs. Qed.

Lemma forallb_is (x : exec_status) (ss : list exec_status) :
  forallb (λ s, bool_decide (s = x)) ss = true ↔ ∀ s, s ∈ ss → s = x.
Proof.
  rewrite forallb_forall. split; intros H s Hs; specialize (H s);
    rewrite ?bool_decide_eq_true, ?list_elem_of_In in *; auto.
Qed.

(** Only the set of statuses matters. *)
Lemma summary_status_ext (ss ss' : list exec_status) :
  (∀ s, s ∈ ss ↔ s ∈ ss') → summary_status ss = summary_status ss'.
Proof.
  intros Hs. unfold summary_status. rewrite !(existsb_in_ext _ _ _ Hs).
  assert (∀ x, forallb (λ s, bool_decide (s = x)) ss = forallb (λ s, bool_decide (s = x)) ss') as Hx.
  { intros x. apply eq_true_iff_eq. rewrite !forallb_is. by setoid_rewrite Hs. }
  by rewrite !Hx.
Qed.

(** The table behind the chain of tests, on a non-empty collection. *)
Lemma summary_status_cases (ss : list exec_status) (r : task_status) :
  ss ≠ [] → summary_status ss = r →
  match r with
  | T_RETRYING => (E_RETRYING ∈ ss)
  | T_RUNNING => (E_RETRYING ∉ ss) ∧ ((E_PENDING ∈ ss) ∨ (E_RUNNING ∈ ss))
  | T_DEAD => ((E_RETRYING ∉ ss) ∧ (E_PENDING ∉ ss) ∧ (E_RUNNING ∉ ss)) ∧ (E_DEAD ∈ ss)
  | T_FAILED => ((E_RETRYING ∉ ss) ∧ (E_PENDING ∉ ss) ∧ (E_RUNNING ∉ ss)) ∧ (E_DEAD ∉ ss) ∧
                ((E_FAILED ∈ ss) ∨ (E_TIMEOUT ∈ ss))
  | T_SUCCESS => ((E_RETRYING ∉ ss) ∧ (E_PENDING ∉ ss) ∧ (E_RUNNING ∉ ss)) ∧ (E_DEAD ∉ ss) ∧
                 ((E_FAILED ∉ ss) ∧ (E_TIMEOUT ∉ ss)) ∧ (E_SUCCESS ∈ ss)
  | T_CANCELLED => (∀ s, s ∈ ss → s = E_CANCELLED)
  | T_CREATED | T_PENDING | T_TIMEOUT => False
  end.
Proof.
  intros Hne <-. unfold summary_status.
  assert (∀ l : list exec_status,
    existsb (λ s, bool_decide (s ∈ l)) ss = false → ∀ s, s ∈ l → s ∉ ss) as Hno.
  { intros l Hf s Hl Hs. apply not_true_iff_false in Hf. apply Hf, existsb_in. eauto. }
  destruct (existsb _ ss) eqn:E1 at 1.
  { apply existsb_in in E1 as (s & Hs & ->%list_elem_of_singleton). done. }
  assert (E_RETRYING ∉ ss) as Hr by (apply (Hno _ E1); set_solver).
  destruct (existsb (λ s, bool_decide (s ∈ [E_PENDING; E_RUNNING])) ss) eqn:E2.
  { apply existsb_in in E2 as (s & Hs & Hl). split; [done|]. set_solver. }
  assert (E_PENDING ∉ ss) as Hp by (apply (Hno _ E2); set_solver).
  assert (E_RUNNING ∉ ss) as Hru by (apply (Hno _ E2); set_solver).
  destruct (existsb (λ s, bool_decide (s ∈ [E_DEAD])) ss) eqn:E3.
  { apply existsb_in in E3 as (s & Hs & ->%list_elem_of_singleton). done. }
  assert (E_DEAD ∉ ss) as Hd by (apply (Hno _ E3); set_solver).
  destruct (existsb (λ s, bool_decide (s ∈ [E_FAILED; E_TIMEOUT])) ss) eqn:E4.
  { apply existsb_in in E4 as (s & Hs & Hl). split_and!; [done..|]. set_solver. }
  assert (E_FAILED ∉ ss) as Hf by (apply (Hno _ E4); set_solver).
  assert (E_TIMEOUT ∉ ss) as Ht by (apply (Hno _ E4); set_solver).
  destruct ss as [|s0 ss]; [done|].
  destruct (forallb (λ s, bool_decide (s = E_SUCCESS)) (s0 :: ss)) eqn:E5.
  { rewrite forallb_is in E5. assert (s0 = E_SUCCESS) by (apply E5; set_solver).
    subst. split_and!; [done..|]. set_solver. }
  destruct (forallb (λ s, bool_decide (s = E_CANCELLED)) (s0 :: ss)) eqn:E6.
  { by rewrite forallb_is in E6. }
  destruct (existsb (λ s, bool_decide (s ∈ [E_SUCCESS])) (s0 :: ss)) eqn:E7.
  { apply existsb_in in E7 as (s & Hs & ->%list_elem_of_singleton). done. }
  exfalso. apply not_true_iff_false in E6. apply E6, forallb_is. intros s Hs.
  assert (E_SUCCESS ∉ s0 :: ss) as Hsu by (apply (Hno _ E7); set_solver).
  by destruct s.
Qed.

Lemma summary_status_terminal (ss : list exec_status) :
  ss ≠ [] → task_terminal (summary_status ss) = true →
  ∀ s, s ∈ ss → exec_terminal s = true.
Proof.
  intros Hne Hterm s Hs. pose proof (summary_status_cases ss _ Hne eq_refl) as Hc.
  destruct (summary_status ss); try done; destruct s; naive_solver.
Qed.

Lemma summary_status_not_waiting (ss : list exec_status) :
  summary_status ss ∉ [T_CREATED; T_PENDING].
Proof.
  unfold summary_status. intros Hin.
  repeat case_match; by apply (bool_decide_pack _) in Hin.
Qed.

Lemma latest_statuses_ne es : es ≠ [] → latest_statuses es ≠ [].
Proof.
  destruct es as [|e es]; [done|]. intros _ Hnil.
  pose proof (latest_executions_spec (e :: es) (OpsTaskExecution.target_id e)) as Hs.
  destruct (latest_executions (e :: es) !! _) as [c|] eqn:Hc; [|by destruct (Hs e); [set_solver|]].
  assert (OpsTaskExecution.status c ∈ latest_statuses (e :: es)) as Hin.
  { apply elem_of_latest_statuses. eauto. }
  rewrite Hnil in Hin. by apply elem_of_nil in Hin.
Qed.

(** C17: the status given to a task.  Only the last attempt on each target
    counts, and the statuses of those are ranked RETRYING, then live, then
    DEAD, then FAILED or TIMEOUT, then SUCCESS, then CANCELLED: a past failure
    never hides a later result, and the order of the rows does not matter. *)
Theorem aggregate_status_spec (es : list OpsTaskExecution) :
  es ≠ [] → attempts_distinct es →
  let status := summary_status (latest_statuses es) in
  let has st := ∃ e, is_latest es e ∧ OpsTaskExecution.status e = st in
  let live := has E_RETRYING ∨ has E_PENDING ∨ has E_RUNNING in
  (status = T_RETRYING ↔ has E_RETRYING) ∧
  (status = T_RUNNING ↔ ¬ has E_RETRYING ∧ (has E_PENDING ∨ has E_RUNNING)) ∧
  (status = T_DEAD ↔ ¬ live ∧ has E_DEAD) ∧
  (status = T_FAILED ↔ ¬ live ∧ ¬ has E_DEAD ∧ (has E_FAILED ∨ has E_TIMEOUT)) ∧
  (status = T_SUCCESS ↔
     ¬ live ∧ ¬ has E_DEAD ∧ ¬ (has E_FAILED ∨ has E_TIMEOUT) ∧ has E_SUCCESS) ∧
  (status = T_CANCELLED ↔ ∀ e, is_latest es e → OpsTaskExecution.status e = E_CANCELLED).
Proof.
  intros Hne Hd. simpl. setoid_rewrite <- (elem_of_latest_statuses_distinct es _ Hd).
  assert ((∀ e, is_latest es e → OpsTaskExecution.status e = E_CANCELLED) ↔
          ∀ s, s ∈ latest_statuses es → s = E_CANCELLED) as ->.
  { setoid_rewrite elem_of_latest_statuses_distinct; [|done]. naive_solver. }
  pose proof (latest_statuses_ne es Hne) as Hss.
  generalize dependent (latest_statuses es). intros ss Hss.
  pose proof (summary_status_cases ss _ Hss eq_refl) as Hc.
  assert ((∀ s, s ∈ ss → s = E_CANCELLED) ↔
          ¬ (E_RETRYING ∈ ss) ∧ ¬ (E_PENDING ∈ ss) ∧ ¬ (E_RUNNING ∈ ss) ∧ ¬ (E_DEAD ∈ ss) ∧
          ¬ (E_FAILED ∈ ss) ∧ ¬ (E_TIMEOUT ∈ ss) ∧ ¬ (E_SUCCESS ∈ ss)) as HA.
  { split; [intros HA; split_and!; by intros ?%HA|].
    intros (? & ? & ? & ? & ? & ? & ?) []; done. }
  destruct (summary_status ss); try done; rewrite HA in *; clear - Hc;
    repeat match goal with |- _ ∧ _ => split end;
    (split; [intros Heq; first [discriminate Heq|tauto]|intros; first [reflexivity|exfalso; tauto]]).
Qed.

(** A first attempt failed, the second one on the same target succeeded. *)
Definition sample_attempts : list OpsTaskExecution :=
  [(new_execution 1 5 1 2) <| OpsTaskExecution.status := E_SUCCESS |>;
   (new_execution 1 5 1 1) <| OpsTaskExecution.status := E_FAILED |>;
   (new_execution 1 6 2 1) <| OpsTaskExecution.status := E_SUCCESS |>].

Lemma aggregate_status_spec_witness :
  summary_status (latest_statuses sample_attempts) = T_SUCCESS ∧
  ¬ (∃ e, is_latest sample_attempts e ∧ OpsTaskExecution.status e = E_DEAD).
Proof.
  assert (attempts_distinct sample_attempts) as Hd.
  { intros e e' He He'. unfold sample_attempts in He, He'.
    repeat setoid_rewrite elem_of_cons in He. repeat setoid_rewrite elem_of_cons in He'.
    rewrite elem_of_nil in He, He'.
    destruct_or? He; destruct_or? He'; subst; try done; simpl; lia. }
  assert (sample_attempts ≠ []) as Hne by done.
  pose proof (aggregate_status_spec sample_attempts Hne Hd) as (_ & _ & _ & _ & Hs & _).
  assert (summary_status (latest_statuses sample_attempts) = T_SUCCESS) as Hst by (vm_compute; reflexivity).
  split; [done|]. apply Hs in Hst. by destruct Hst as (_ & Hdead & _).
Defined.
