(* ===== verification/TaskSteps.v ===== *)
(** * The steps of the task operations

    What the building blocks of the task service do to a database that
    satisfies the invariant: none of them fails, and each keeps it. *)
From S2P Require Import Prelude.
From S2P Require Export TaskAggregate.

(** ** Single writes *)

(** The executions of a task, and the status they give it. *)
Definition task_executions `{Env} (d : db) (task : Z) : list OpsTaskExecution :=
  rows_of TExec (matching TExec (λ e, OpsTaskExecution.task_id e =? task) d) d.

Definition aggregated `{Env} (d : db) (task : Z) : task_status :=
  match task_executions d task with
  | [] => T_PENDING
  | es => summary_status (latest_statuses es)
  end.

(** The task's row after the aggregation. *)
Definition aggregate_row (status : task_status) (now : datetime) (t : OpsTask) : OpsTask :=
  if task_terminal status
  then t <| OpsTask.status := status |> <| OpsTask.finished_at := Some now |>
  else t <| OpsTask.status := status |>.

(** Nothing but [k] changed. *)
Definition only (k : tname) (d d' : db) : Prop := ∀ k', k' ≠ k → d' k' = d k'.

Lemma same_keys_exec e e' : exec_core e' = exec_core e → same_keys TExec e e'.
Proof.
  intros [= Eid Et Eg Es Ea]. split; simpl; [by rewrite Et, Eg, Es|].
  intros r2. by rewrite Et, Eg, Ea.
Qed.

Lemma set_duration_core now e : exec_core (set_duration now e) = exec_core e.
Proof. unfold set_duration. by destruct (OpsTaskExecution.started_at e). Qed.

Lemma set_duration_status now e :
  OpsTaskExecution.status (set_duration now e) = OpsTaskExecution.status e.
Proof. unfold set_duration. by destruct (OpsTaskExecution.started_at e). Qed.

Section Steps.
Context `{E : Env} `{!EnvOk E}.

Lemma elem_of_task_executions d task e :
  e ∈ task_executions d task ↔
  ∃ i, execs d !! i = Some e ∧ OpsTaskExecution.task_id e = task.
Proof.
  etransitivity; [exact (elem_of_rows_of TExec _ d e)|].
  setoid_rewrite elem_of_matching. split.
  - intros (i & (e' & He' & Ht%Z.eqb_eq) & He). exists i. split; [done|].
    by rewrite <- (same_row TExec He' He).
  - intros (i & He & Ht). exists i. split; [|done]. exists e. split; [done|]. by apply Z.eqb_eq.
Qed.

Lemma task_executions_distinct x d task :
  task_inv x d → attempts_distinct (task_executions d task).
Proof.
  intros Hinv e e' (i & He & Ht)%elem_of_task_executions (j & He' & Ht')%elem_of_task_executions Hg Ha.
  assert (i = j) as ->; [|exact (same_row TExec He He')].
  apply (integrity_unique TExec i j e e' d); [apply Hinv|done..|]. simpl.
  rewrite !bool_decide_true; [done|congruence..].
Qed.

(** An aggregation that ends the task finds only finished executions. *)
Lemma aggregated_terminal x d task :
  task_inv x d → task_terminal (aggregated d task) = true →
  ∀ j e, execs d !! j = Some e → OpsTaskExecution.task_id e = task →
         exec_terminal (OpsTaskExecution.status e) = true.
Proof.
  intros Hinv Hterm j e He Ht. apply not_false_is_true. intros Hlive.
  assert (e ∈ task_executions d task) as Hin by (apply elem_of_task_executions; eauto).
  unfold aggregated in Hterm. destruct (task_executions d task) as [|e0 es] eqn:Hes; [done|].
  rewrite <- Hes in *. clear Hes e0 es.
  apply not_true_iff_false in Hlive. apply Hlive.
  apply (summary_status_terminal (latest_statuses (task_executions d task))); [|done|].
  - apply latest_statuses_ne. intros Hn. rewrite Hn in Hin. by apply elem_of_nil in Hin.
  - apply elem_of_latest_statuses_distinct; [by eapply task_executions_distinct|].
    exists e. split; [|done]. split; [done|].
    intros e' (i & He' & _)%elem_of_task_executions Htg.
    apply not_true_iff_false in Hlive.
    destruct (live_is_latest _ _ _ _ _ _ Hinv He He' Htg Hlive) as [<-|]; [|lia].
    by rewrite (same_row TExec He He').
Qed.

Lemma aggregated_waiting d task t now :
  cron_waiting (aggregate_row (aggregated d task) now t) →
  ∀ j e, execs d !! j = Some e → OpsTaskExecution.task_id e ≠ task.
Proof.
  intros [_ Hw] j e He Ht.
  assert (e ∈ task_executions d task) as Hin by (apply elem_of_task_executions; eauto).
  revert Hw. unfold aggregated. destruct (task_executions d task) as [|e0 es]; [by apply elem_of_nil in Hin|].
  intros Hw. apply (summary_status_not_waiting (latest_statuses (e0 :: es))).
  revert Hw. unfold aggregate_row. by destruct (task_terminal _).
Qed.

(** ** Writes *)

Lemma wp_put_exec x d0 i e f (Q : () → session → Prop) Ex s :
  good x d0 (work s) → execs (work s) !! i = Some e →
  exec_terminal (OpsTaskExecution.status e) = false → exec_core (f e) = exec_core e →
  OpsTaskExecution.status (f e) ≠ E_PENDING →
  (good x d0 (put_row TExec i (f e) (work s)) → Q () (set_work (put_row TExec i (f e) (work s)) s)) →
  wp (assign TExec i f) Q Ex s.
Proof.
  intros HG He Hlive Hcore Hstart HQ. apply (wp_assign_ok TExec i e); [apply HG|done|by apply same_keys_exec|].
  intros HI. by apply HQ, (good_put_exec _ _ _ _ e).
Qed.

Lemma wp_put_task x x' d0 i t f (Q : () → session → Prop) Ex s :
  good x d0 (work s) → tasks (work s) !! i = Some t →
  task_terminal (OpsTask.status t) = false → same_keys TTask t (f t) →
  OpsTask.id (f t) = OpsTask.id t → OpsTask.max_attempts (f t) = OpsTask.max_attempts t →
  (task_terminal (OpsTask.status (f t)) = true →
   ∀ j e, execs (work s) !! j = Some e → OpsTaskExecution.task_id e = i →
          exec_terminal (OpsTaskExecution.status e) = true) →
  (x = x' ∨ x = Some i) →
  (x' ≠ Some i → cron_waiting (f t) →
   ∀ j e, execs (work s) !! j = Some e → OpsTaskExecution.task_id e ≠ i) →
  (good x' d0 (put_row TTask i (f t) (work s)) → Q () (set_work (put_row TTask i (f t) (work s)) s)) →
  wp (assign TTask i f) Q Ex s.
Proof.
  intros HG Ht Hlive Hkeys Hid Hmax Hdone Hx Hcron HQ.
  apply (wp_assign_ok TTask i t); [apply HG|done..|].
  intros HI. by apply HQ, (good_put_task x _ _ _ _ t).
Qed.

Lemma wp_aggregate x d0 task t (Q : () → session → Prop) Ex s :
  good x d0 (work s) → tasks (work s) !! task = Some t →
  task_terminal (OpsTask.status t) = false → (x = None ∨ x = Some task) →
  (let status := aggregated (work s) task in
   let d' := put_row TTask task (aggregate_row status (clock (ticks s)) t) (work s) in
   good None d0 d' → Q () (set_work d' (if task_terminal status then tick s else s))) →
  wp (_aggregate_task_status task) Q Ex s.
Proof.
  intros HG Ht Hlive Hx HQ. pose proof HG as (_ & Hinv & _).
  pose proof (aggregated_terminal _ _ task Hinv) as Hterm.
  pose proof (aggregated_waiting (work s) task t (clock (ticks s))) as Hwait.
  simpl in HQ. unfold _aggregate_task_status, TaskExecutionRepository.list_by_task.
  wp_step. apply wp_select_where.
  match goal with |- context [matching TExec ?p (work s)] =>
    change (matching TExec p (work s))
      with (matching TExec (λ e, OpsTaskExecution.task_id e =? task) (work s)) end.
  assert (∀ i, i ∈ matching TExec (λ e, OpsTaskExecution.task_id e =? task) (work s) →
               is_Some (execs (work s) !! i)) as Hsome.
  { intros i (e & He & _)%elem_of_matching. by exists e. }
  destruct (matching TExec (λ e, OpsTaskExecution.task_id e =? task) (work s)) as [|i0 ids] eqn:Hm.
  - assert (aggregated (work s) task = T_PENDING) as Hagg.
    { unfold aggregated, task_executions. by rewrite Hm. }
    rewrite Hagg in *. apply (wp_put_task x None d0 task t); done.
  - apply wp_bind, (wp_map_obj TExec); [done|].
    assert (summary_status (latest_statuses (rows_of TExec (i0 :: ids) (work s)))
            = aggregated (work s) task) as Hagg.
    { unfold aggregated, task_executions. rewrite Hm. destruct (Hsome i0) as [e0 He0]; [set_solver|].
      by rewrite (rows_of_cons TExec _ _ _ _ He0). }
    rewrite Hagg. clear Hagg Hm Hsome. unfold aggregate_row in *.
    destruct (task_terminal (aggregated (work s) task)) eqn:Hts.
    + wp_step. apply wp_utcnow.
      apply (wp_put_task x None d0 task t); first [done|by intros _|by intros _; apply Hterm].
    + apply (wp_put_task x None d0 task t); first [done|by intros _|simpl; by rewrite Hts].
Qed.

(** ** New rows *)

Lemma wp_record x d0 i content level (Q : Z → session → Prop) Ex s :
  good x d0 (work s) → is_Some (execs (work s) !! i) →
  (∀ d' l, good x d0 d' → only TTaskLog (work s) d' → Q l (set_work d' (tick s))) →
  wp (TaskLogRepository.record i content level) Q Ex s.
Proof.
  intros HG Hi HQ. pose proof HG as (_ & Hinv & _). apply wp_create_ok; [apply Hinv|..].
  - apply admissible_spec. simpl. split; [|done].
    by intros k' j [= -> ->]%list_elem_of_singleton.
  - intros HI. apply HQ.
    + eapply good_other; [done..|]. intros k Hk. apply add_row_ne. by intros <-.
    + intros k Hk. by apply add_row_ne.
Qed.

Lemma wp_create_execution x d0 task t target g server attempt (Q : Z → session → Prop) Ex s :
  good x d0 (work s) → tasks (work s) !! task = Some t → targets (work s) !! target = Some g →
  OpsTaskTarget.task_id g = task → OpsTaskTarget.server_id g = server →
  1 ≤ attempt ≤ OpsTask.max_attempts t → task_terminal (OpsTask.status t) = false →
  (x ≠ Some task → ¬ cron_waiting t) →
  (∀ j e, execs (work s) !! j = Some e → OpsTaskExecution.target_id e = target →
          exec_terminal (OpsTaskExecution.status e) = true ∧ OpsTaskExecution.attempt e < attempt) →
  (∀ now, let i := next_id (work s TExec) in
   let e := fresh_row TExec i now (new_execution task target server attempt) in
   good x d0 (add_row TExec e (work s)) → Q i (set_work (add_row TExec e (work s)) (tick s))) →
  wp (TaskExecutionRepository.create_execution task target server attempt) Q Ex s.
Proof.
  intros HG Ht Hg Hgt Hgs Hatt Hterm Hw Hprev HQ. pose proof HG as (_ & Hinv & _).
  apply wp_create_ok; [apply Hinv|..].
  - apply admissible_spec. simpl. split.
    + assert (is_Some (rows (work s TServer) !! server)) as Hs.
      { apply (integrity_refs TTarget target g (work s) TServer);
          [apply Hinv|done|simpl; rewrite Hgs; set_solver]. }
      intros k' j Hin. repeat setoid_rewrite elem_of_cons in Hin. rewrite elem_of_nil in Hin.
      destruct_or? Hin; simplify_eq; by eauto.
    + intros j e He _. apply not_true_is_false. intros [[_ Hx]%andb_true_iff Hy]%andb_true_iff.
      apply bool_decide_eq_true in Hx, Hy.
      destruct (Hprev _ _ He (eq_sym Hx)) as [_ Hlt]. lia.
  - intros HI. apply (HQ (clock (ticks s))). by eapply good_add_exec.
Qed.
End Steps.

(** ** Operations on one execution *)

(** The retry budget of execution [e] of task [t] at time [now]. *)
Definition budget_left (t : OpsTask) (e : OpsTaskExecution) (now : datetime) : bool :=
  (OpsTaskExecution.attempt e <? OpsTask.max_attempts t) &&
  match OpsTask.deadline_at t with Some deadline => now <? deadline | None => true end.

(** The state after an execution was replaced by [e'] and something was logged. *)
Record exec_moved (i : Z) (e' : OpsTaskExecution) (d d' : db) : Prop := ExecMoved {
  moved_execs : execs d' = <[i := e']> (execs d);
  moved_next : next_id (d' TExec) = next_id (d TExec);
  moved_tasks : d' TTask = d TTask;
  moved_targets : d' TTarget = d TTarget
}.

Lemma exec_moved_put i e' d : exec_moved i e' d (put_row TExec i e' d).
Proof. by split; autorewrite with store. Qed.

Lemma exec_moved_log i e' d d' d'' :
  exec_moved i e' d d' → only TTaskLog d' d'' → exec_moved i e' d d''.
Proof. intros [H1 H2 H3 H4] Ho. by split; rewrite Ho. Qed.

(** The row updates of the repository keep the identity of the execution. *)
Ltac exec_row_tac :=
  intros; split;
  [rewrite ?set_duration_core; try case_match; reflexivity
  |rewrite ?set_duration_status; try case_match; simpl; congruence].

Section Ops.
Context `{E : Env} `{!EnvOk E}.

Lemma wp_move_exec x d0 i e g (Q : () → session → Prop) Ex s :
  good x d0 (work s) → execs (work s) !! i = Some e →
  exec_terminal (OpsTaskExecution.status e) = false →
  (∀ now, exec_core (g now e) = exec_core e ∧ OpsTaskExecution.status (g now e) ≠ E_PENDING) →
  (let d' := put_row TExec i (g (clock (ticks s)) e) (work s) in
   good x d0 d' → Q () (set_work d' (tick s))) →
  wp (now ← utcnow; assign TExec i (g now)) Q Ex s.
Proof.
  intros HG He Hlive Hg HQ. apply wp_bind, wp_utcnow.
  destruct (Hg (clock (ticks s))) as [H1 H2]. by apply (wp_put_exec x d0 i e).
Qed.

Lemma wp_can_retry task i t e (Q : bool → session → Prop) Ex s :
  execs (work s) !! i = Some e → tasks (work s) !! task = Some t →
  (∀ n, (ticks s ≤ n)%nat →
     Q (budget_left t e (clock (ticks s))) (Session (work s) (durable s) n)) →
  wp (_can_retry task i) Q Ex s.
Proof.
  intros He Ht HQ. unfold _can_retry, budget_left in *. apply wp_bind, (wp_obj_ok TExec _ _ _ _ _ He), wp_bind, (wp_obj_ok TTask _ _ _ _ _ Ht).
  destruct (Z.leb_spec (OpsTask.max_attempts t) (OpsTaskExecution.attempt e)) as [Hle|Hlt].
  { wp_step. rewrite (proj2 (Z.ltb_ge _ _) Hle) in HQ. destruct s. by apply HQ. }
  rewrite (proj2 (Z.ltb_lt _ _) Hlt) in HQ. simpl in HQ.
  destruct (OpsTask.deadline_at t) as [deadline|].
  - wp_step. apply wp_utcnow. wp_step. rewrite <- Z.ltb_antisym. apply HQ. simpl. lia.
  - wp_step. destruct s. by apply HQ.
Qed.

(** What a failed report makes of an execution. *)
Definition failure_row (t : OpsTask) (e e' : OpsTaskExecution) (now : datetime) (n : nat)
    (error_type error_message : option string) : Prop :=
  exec_core e' = exec_core e ∧
  OpsTaskExecution.error_type e' = Some (classify_error error_type error_message) ∧
  if is_retryable error_type error_message then
    if budget_left t e now then
      OpsTaskExecution.status e' = E_RETRYING ∧
      ∃ k, (n ≤ k)%nat ∧ OpsTaskExecution.next_retry_at e' =
        Some (clock k + seconds (backoff_seconds (OpsTaskExecution.attempt e)))
    else OpsTaskExecution.status e' = E_DEAD ∧ OpsTaskExecution.next_retry_at e' = None
  else OpsTaskExecution.status e' = E_FAILED.

Lemma set_duration_fields now e :
  OpsTaskExecution.error_type (set_duration now e) = OpsTaskExecution.error_type e ∧
  OpsTaskExecution.next_retry_at (set_duration now e) = OpsTaskExecution.next_retry_at e.
Proof. unfold set_duration. by destruct (OpsTaskExecution.started_at e). Qed.

Lemma wp_report_failure d0 task i t e exit_code error_message error_type
    (Q : () → session → Prop) Ex s :
  good None d0 (work s) → execs (work s) !! i = Some e → tasks (work s) !! task = Some t →
  exec_terminal (OpsTaskExecution.status e) = false →
  (∀ e' d' n, good None d0 d' → exec_moved i e' (work s) d' →
     failure_row t e e' (clock (ticks s)) (ticks s) error_type error_message →
     Q () (Session d' (durable s) n)) →
  wp (report_failure task i exit_code error_message error_type) Q Ex s.
Proof.
  intros HG He Ht Hlive HQ. unfold report_failure, failure_row in *.
  destruct (is_retryable error_type error_message).
  - apply wp_bind, (wp_can_retry _ _ t e); [done..|]. intros n Hn.
    destruct (budget_left t e (clock (ticks s))).
    + wp_step. apply wp_utcnow. apply wp_bind, (wp_obj_ok TExec i e); [done|].
      wp_step. apply (wp_move_exec None d0 i e); [done..|exec_row_tac|]. intros d' HG'.
      wp_step. apply (wp_record None d0); [done|by eexists; simpl; autorewrite with store; apply lookup_insert_eq|].
      intros d'' l HG'' Ho. wp_step. eapply HQ; [done| |].
      * eapply exec_moved_log; [apply exec_moved_put|exact Ho].
      * split_and!; [by rewrite set_duration_core|by etransitivity; [apply set_duration_fields|]|..].
        -- by rewrite set_duration_status.
        -- exists n. split; [lia|]. by etransitivity; [apply set_duration_fields|].
    + wp_step. apply (wp_move_exec None d0 i e); [done..|exec_row_tac|]. intros d' HG'.
      wp_step. apply (wp_record None d0); [done|by eexists; simpl; autorewrite with store; apply lookup_insert_eq|].
      intros d'' l HG'' Ho. wp_step. eapply HQ; [done| |].
      * eapply exec_moved_log; [apply exec_moved_put|exact Ho].
      * split_and!; [by rewrite set_duration_core|by etransitivity; [apply set_duration_fields|]|..].
        -- by rewrite set_duration_status.
        -- by etransitivity; [apply set_duration_fields|].
  - wp_step. wp_step. simpl.
    wp_step. apply (wp_move_exec None d0 i e); [done..|exec_row_tac|]. intros d' HG'.
    wp_step. apply (wp_record None d0); [done|by eexists; simpl; autorewrite with store; apply lookup_insert_eq|].
    intros d'' l HG'' Ho. wp_step. eapply HQ; [done| |].
    + eapply exec_moved_log; [apply exec_moved_put|exact Ho].
    + split_and!; [by rewrite set_duration_core|by etransitivity; [apply set_duration_fields|]|].
      by rewrite set_duration_status.
Qed.

(** ** Reports *)

Lemma aggregated_ext d d' task : d' TExec = d TExec → aggregated d' task = aggregated d task.
Proof. intros Hd. unfold aggregated, task_executions, rows_of, matching. by rewrite Hd. Qed.

(** What a report makes of an execution. *)
Definition report_row (t : OpsTask) (e e' : OpsTaskExecution) (now : datetime) (n : nat)
    (status : string) (exit_code : option Z)
    (result_text error_type error_message : option string) : Prop :=
  if String.eqb status "SUCCESS" then
    exec_core e' = exec_core e ∧ OpsTaskExecution.status e' = E_SUCCESS ∧
    OpsTaskExecution.exit_code e' = exit_code ∧ OpsTaskExecution.result_text e' = result_text
  else failure_row t e e' now n error_type error_message.

(** The database after the execution [i] of [task] became [e'] and the task was
    aggregated. *)
Record settled (i : Z) (e' : OpsTaskExecution) (task : Z) (t : OpsTask) (d d' : db) : Prop := Settled {
  settled_execs : execs d' = <[i := e']> (execs d);
  settled_task : ∃ now, tasks d' = <[task := aggregate_row (aggregated d' task) now t]> (tasks d);
  settled_targets : targets d' = targets d
}.

Lemma task_of_exec x d i e :
  task_inv x d → execs d !! i = Some e →
  ∃ t, tasks d !! OpsTaskExecution.task_id e = Some t.
Proof.
  intros Hinv He. assert (is_Some (tasks d !! OpsTaskExecution.task_id e)) as [t Ht].
  { apply (integrity_refs TExec i e d TTask); [apply Hinv|done|simpl; set_solver]. }
  by exists t.
Qed.

Lemma live_task x d i e t :
  task_inv x d → execs d !! i = Some e → tasks d !! OpsTaskExecution.task_id e = Some t →
  exec_terminal (OpsTaskExecution.status e) = false → task_terminal (OpsTask.status t) = false.
Proof.
  intros Hinv He Ht Hlive. apply not_true_is_false. intros Hterm.
  by rewrite (inv_done Hinv _ _ _ He Ht Hterm) in Hlive.
Qed.

Lemma wp_get_task_entity task t (Q : Z → session → Prop) Ex s :
  tasks (work s) !! task = Some t → Q task s → wp (get_task_entity task) Q Ex s.
Proof.
  intros Ht HQ. unfold get_task_entity. apply wp_bind, (wp_get TTask).
  - intros _ _ _. by apply wp_ret.
  - intros Hn. by specialize (Hn t Ht).
Qed.

Lemma wp_report_body d0 i e task t status exit_code result_text error_message error_type logs
    (Q : () → session → Prop) Ex s :
  good None d0 (work s) → execs (work s) !! i = Some e → tasks (work s) !! task = Some t →
  exec_terminal (OpsTaskExecution.status e) = false →
  (∀ e' d' n, good None d0 d' → exec_moved i e' (work s) d' →
     report_row t e e' (clock (ticks s)) (ticks s) status exit_code result_text error_type error_message →
     Q () (Session d' (durable s) n)) →
  wp (if String.eqb status "SUCCESS" then
        TaskExecutionRepository.finish i E_SUCCESS exit_code result_text None None;;
        _ ← TaskLogRepository.record i
          (default "执行成功" (py_or logs (py_or result_text (Some "执行成功")))) "INFO";
        mret ()
      else report_failure task i exit_code error_message error_type) Q Ex s.
Proof.
  intros HG He Ht Hlive HQ. unfold report_row in *. destruct (String.eqb status "SUCCESS").
  - wp_step. apply (wp_move_exec None d0 i e); [done..|exec_row_tac|]. intros d' HG'.
    wp_step. apply (wp_record None d0); [done|by eexists; simpl; autorewrite with store; apply lookup_insert_eq|].
    intros d'' l HG'' Ho. wp_step. eapply HQ; [done| |].
    + eapply exec_moved_log; [apply exec_moved_put|exact Ho].
    + rewrite set_duration_core, set_duration_status. split_and!; [done|done|..];
        unfold set_duration; by case_match.
  - by eapply wp_report_failure.
Qed.

Lemma wp_report_result d0 server i e t status exit_code result_text error_message error_type logs
    (Q : Z → session → Prop) Ex s :
  good None d0 (work s) → execs (work s) !! i = Some e → OpsTaskExecution.server_id e = server →
  tasks (work s) !! OpsTaskExecution.task_id e = Some t →
  exec_terminal (OpsTaskExecution.status e) = false →
  (∀ e' d' n, good None d0 d' → settled i e' (OpsTaskExecution.task_id e) t (work s) d' →
     report_row t e e' (clock (ticks s)) (ticks s) status exit_code result_text error_type error_message →
     Q i (Session d' d' n)) →
  wp (report_result server i status exit_code result_text error_message error_type logs) Q Ex s.
Proof.
  intros HG He Hs Ht Hlive HQ. pose proof HG as (_ & Hinv & _).
  pose proof (live_task _ _ _ _ _ Hinv He Ht Hlive) as Hopen.
  unfold report_result. apply wp_bind, (wp_get TExec); [|by intros Hn; specialize (Hn e He)].
  intros _ _ _. apply wp_bind, (wp_obj_ok TExec i e); [done|].
  rewrite Hs, Z.eqb_refl, Hlive. simpl. apply wp_bind, (wp_get_task_entity _ t); [done|].
  apply wp_bind, (wp_report_body d0 i e _ t); [done..|]. intros e' d1 n HG1 Hmoved Hrow.
  apply wp_bind, (wp_aggregate None d0 _ t); [done|simpl; by rewrite (moved_tasks _ _ _ _ Hmoved)|done|by left|].
  intros st d2 HG2. apply wp_bind, wp_commit, wp_ret.
  assert (settled i e' (OpsTaskExecution.task_id e) t (work s) d2) as Hset.
  { split.
    - unfold d2. cbn [work]. autorewrite with store. apply Hmoved.
    - exists (clock n). rewrite (aggregated_ext d1 d2) by (unfold d2; by autorewrite with store).
      unfold d2. cbn [work ticks]. autorewrite with store. f_equal. f_equal. apply Hmoved.
    - unfold d2. cbn [work]. autorewrite with store. f_equal. apply Hmoved. }
  simpl. destruct (task_terminal st); simpl; by apply (HQ e').
Qed.

(** ** Claims *)

(** The executions that [fetch_pending] claims, in order. *)
Definition claim_ids (d : db) (server : Z) : list Z :=
  take 10 (sort_by Z.leb (matching TExec (TaskExecutionRepository.claimable d server) d)).

(** [e] was handed out. *)
Definition handed_out (e e' : OpsTaskExecution) : Prop :=
  ∃ now, e' = e <| OpsTaskExecution.status := E_RUNNING |>
                <| OpsTaskExecution.started_at := Some now |>.

(** [t] has a running execution. *)
Definition started (t t' : OpsTask) : Prop :=
  ∃ now, t' = t <| OpsTask.status := T_RUNNING |>
                <| OpsTask.started_at := Some (default now (OpsTask.started_at t)) |>.

Definition claim_of (d : db) (c : claim) : Prop :=
  ∃ e t, execs d !! claim_execution_id c = Some e ∧
         tasks d !! OpsTaskExecution.task_id e = Some t ∧
         c = Claim (claim_execution_id c) (OpsTaskExecution.task_id e) (OpsTask.action t)
               (OpsTask.service_name t) (OpsTask.timeout_seconds t).

(** Part of the way through the claims: [ids] are handed out. *)
Record claimed (ids : list Z) (d d' : db) : Prop := Claimed {
  claimed_exec : ∀ i, i ∈ ids →
    ∃ e e', execs d !! i = Some e ∧ execs d' !! i = Some e' ∧ handed_out e e';
  claimed_other : ∀ i, i ∉ ids → execs d' !! i = execs d !! i;
  claimed_task : ∀ j t', tasks d' !! j = Some t' →
    ∃ t, tasks d !! j = Some t ∧
         (t' = t ∨ OpsTask.status t ∈ [T_PENDING; T_RUNNING] ∧ started t t');
  claimed_run : ∀ i e, i ∈ ids → execs d !! i = Some e →
    ∃ t', tasks d' !! OpsTaskExecution.task_id e = Some t' ∧ OpsTask.status t' = T_RUNNING;
  claimed_keep : ∀ j, is_Some (tasks d !! j) → is_Some (tasks d' !! j)
}.

Lemma claimable_spec d server e :
  TaskExecutionRepository.claimable d server e = true ↔
  OpsTaskExecution.server_id e = server ∧ OpsTaskExecution.status e = E_PENDING ∧
  ∃ t, tasks d !! OpsTaskExecution.task_id e = Some t ∧ OpsTask.status t ∈ [T_PENDING; T_RUNNING].
Proof.
  unfold TaskExecutionRepository.claimable.
  rewrite !andb_true_iff, Z.eqb_eq, bool_decide_eq_true.
  destruct (tasks d !! OpsTaskExecution.task_id e) as [t|].
  - rewrite bool_decide_eq_true. naive_solver.
  - naive_solver.
Qed.

Lemma started_idem t t' t'' : started t t' → started t' t'' → started t t''.
Proof. intros [n1 ->] [n2 ->]. exists n1. reflexivity. Qed.

(** One more execution handed out: the execution is running, and its task is. *)
Lemma claimed_snoc ids d0 (d d' : db) i e e' t0 t' :
  claimed ids d0 d → i ∉ ids → execs d0 !! i = Some e → handed_out e e' →
  tasks d0 !! OpsTaskExecution.task_id e = Some t0 → OpsTask.status t0 ∈ [T_PENDING; T_RUNNING] → started t0 t' →
  execs d' = <[i := e']> (execs d) → tasks d' = <[OpsTaskExecution.task_id e := t']> (tasks d) →
  OpsTask.status t' = T_RUNNING → claimed (ids ++ [i]) d0 d'.
Proof.
  intros [C1 C2 C3 C4 C5] Hi He0 Hout Ht0 Hst0 Hs He Ht Hrun. split; rewrite ?He, ?Ht.
  - intros j [Hj| ->%list_elem_of_singleton]%elem_of_app.
    + rewrite lookup_insert_ne by set_solver. by apply C1.
    + exists e, e'. by rewrite lookup_insert_eq.
  - intros j Hj. rewrite lookup_insert_ne by set_solver. apply C2. set_solver.
  - intros j tj [[<- <-]|[? Hj]]%lookup_insert_Some; [|by apply C3].
    exists t0. split; [done|]. by right.
  - intros j ej [Hj| ->%list_elem_of_singleton]%elem_of_app Hej.
    + destruct (decide (OpsTaskExecution.task_id e = OpsTaskExecution.task_id ej)) as [<-|].
      * exists t'. by rewrite lookup_insert_eq.
      * rewrite lookup_insert_ne by done. by apply (C4 j).
    + rewrite <- (same_row TExec He0 Hej). exists t'. by rewrite lookup_insert_eq.
  - intros j Hj. apply lookup_insert_is_Some. destruct (decide (OpsTaskExecution.task_id e = j));
      [by left|right; split; [done|by apply C5]].
Qed.

Lemma wp_claim_one d0 server ids acc i (Q : list claim → session → Prop) Ex s :
  good None d0 (work s) → claimed ids d0 (work s) → i ∉ ids →
  (∃ e, execs d0 !! i = Some e ∧ TaskExecutionRepository.claimable d0 server e = true) →
  (∀ c d' n, good None d0 d' → claimed (ids ++ [i]) d0 d' → claim_of d0 c →
     claim_execution_id c = i → Q (acc ++ [c]) (Session d' (durable s) n)) →
  wp (claim_one acc i) Q Ex s.
Proof.
  intros HG Hc Hi (e & He0 & (_ & Hp & t0 & Ht0 & Hst0)%claimable_spec) HQ.
  assert (execs (work s) !! i = Some e) as He.
  { etransitivity; [apply (claimed_other _ _ _ Hc i Hi)|done]. }
  destruct (claimed_keep _ _ _ Hc (OpsTaskExecution.task_id e)) as [t Ht]; [by eauto|].
  destruct (claimed_task _ _ _ Hc _ _ Ht) as (t1 & Ht1 & Hstep).
  rewrite <- (same_row TTask Ht0 Ht1) in Hstep. clear t1 Ht1.
  assert (OpsTask.status t ∈ [T_PENDING; T_RUNNING]) as Hst.
  { destruct Hstep as [->|[_ [? ->]]]; [done|]. simpl. set_solver. }
  assert (OpsTask.action t = OpsTask.action t0 ∧ OpsTask.service_name t = OpsTask.service_name t0 ∧
          OpsTask.timeout_seconds t = OpsTask.timeout_seconds t0) as (Ha1 & Ha2 & Ha3).
  { by destruct Hstep as [->|[_ [? ->]]]. }
  assert (task_terminal (OpsTask.status t) = false) as Hopen.
  { by destruct (OpsTask.status t); try done; apply (bool_decide_pack _) in Hst. }
  unfold claim_one. apply wp_bind, (wp_obj_ok TExec i e); [done|].
  apply wp_bind, (wp_move_exec None d0 i e); [done|done|by rewrite Hp|exec_row_tac|].
  intros d1 HG1. apply wp_bind, (wp_obj_ok TTask (OpsTaskExecution.task_id e) t).
  { unfold d1. cbn [work set_work]. by autorewrite with store. }
  assert (∀ started_at n,
    (∃ now, started_at = default now (OpsTask.started_at t)) →
    wp (assign TTask (OpsTaskExecution.task_id e) (λ t,
          t <| OpsTask.status := T_RUNNING |> <| OpsTask.started_at := Some started_at |>);;
        mret (acc ++ [Claim i (OpsTaskExecution.task_id e) (OpsTask.action t)
                        (OpsTask.service_name t) (OpsTask.timeout_seconds t)]))
       Q Ex (Session d1 (durable s) n)) as Hrest.
  { intros started_at n [now ->].
    apply wp_bind, (wp_put_task None None d0 _ t); try done;
      [by left|by intros _ [_ Hx]; apply (bool_decide_pack _) in Hx|].
    intros HG2. apply wp_ret. apply HQ; [done| |exists e, t0; by rewrite Ha1, Ha2, Ha3|done].
    unfold d1. eapply (claimed_snoc _ _ _ _ _ e _ t0); [done|done|done|by eexists|done|done| |..];
      cbn [work]; autorewrite with store; [|done|done|done].
    destruct Hstep as [->|[_ Hs]]; [by exists now|]. eapply started_idem; [done|]. by exists now. }
  destruct (OpsTask.started_at t) as [st|] eqn:Hsa.
  - apply wp_bind, wp_ret. apply Hrest. by exists st.
  - apply wp_bind, wp_utcnow. apply (Hrest _ (S (S (ticks s)))). by eexists.
Qed.

Lemma wp_fetch_pending d0 server (Q : list claim → session → Prop) Ex s :
  task_inv None d0 → work s = d0 →
  (∀ cs d' n, good None d0 d' → claimed (claim_execution_id <$> cs) d0 d' →
     Forall (claim_of d0) cs → claim_execution_id <$> cs = claim_ids d0 server →
     Q cs (Session d' d' n)) →
  wp (fetch_pending server) Q Ex s.
Proof.
  intros Hinv Hw HQ. unfold fetch_pending, TaskExecutionRepository.fetch_pending_by_server.
  set (ids := claim_ids d0 server).
  assert (∀ i, i ∈ ids → ∃ e, execs d0 !! i = Some e ∧
                              TaskExecutionRepository.claimable d0 server e = true) as Hids.
  { intros i Hi. unfold ids, claim_ids in Hi. apply elem_of_take in Hi as (n & Hn & _).
    apply list_elem_of_lookup_2, elem_of_sort_by, elem_of_matching in Hn. done. }
  apply wp_bind, wp_bind, wp_get_work, wp_bind, wp_select_where, wp_bind.
  rewrite Hw. apply (wp_order_by_id TExec OpsTaskExecution.id).
  { intros i (e & He & _)%elem_of_matching. exists e. rewrite Hw. split; [done|].
    by apply (inv_exec_id Hinv). }
  apply wp_ret, wp_bind.
  apply (wp_fold_loop (λ rest acc s',
    good None d0 (work s') ∧ (claim_execution_id <$> acc) ++ rest = ids ∧
    claimed (claim_execution_id <$> acc) d0 (work s') ∧ Forall (claim_of d0) acc)).
  - rewrite Hw. split_and!; [by apply good_refl|done| |done].
    split; set_solver.
  - intros i rest acc s' (HG & Hsplit & Hcl & Hall).
    assert (NoDup ids) as Hnd.
    { unfold ids, claim_ids. eapply sublist_NoDup; [|apply sublist_take].
      rewrite sort_by_perm. apply matching_nodup. }
    apply (wp_claim_one d0 server (claim_execution_id <$> acc)); [done|done| | |].
    + rewrite <- Hsplit in Hnd. apply NoDup_app in Hnd as (_ & Hnd & _). set_solver.
    + apply Hids. rewrite <- Hsplit. set_solver.
    + intros c d' n HG' Hcl' Hc <-. cbn [work]. rewrite fmap_app. simpl.
      split_and!; [done|by rewrite <- app_assoc|done|].
      apply Forall_app. by split; [|constructor].
  - intros acc s' (HG & Hsplit & Hcl & Hall). rewrite app_nil_r in Hsplit.
    apply wp_bind, wp_commit, wp_ret. by apply HQ.
Qed.
End Ops.
