(* ===== verification/TaskScans.v ===== *)
(** * The scheduler's scans

    What the time-out scan, the cron scan, the history clean-up and the retry
    dispatch do to a database that satisfies the invariant. *)
From S2P Require Import Prelude.
From S2P Require Export TaskSteps.

(** ** Time-outs, due cron tasks and history *)

(** ** Time-outs *)

(** Is the execution past its task's time-out at [now]? *)
Definition expired_at (timeout_seconds : Z) (now : datetime) (e : OpsTaskExecution) : bool :=
  match OpsTaskExecution.status e, OpsTaskExecution.started_at e with
  | E_RUNNING, Some started => started <? now - seconds timeout_seconds
  | _, _ => false
  end.

Definition timeout_row (timeout_seconds : Z) (now : datetime) (e : OpsTaskExecution) : OpsTaskExecution :=
  e <| OpsTaskExecution.status := E_TIMEOUT |>
    <| OpsTaskExecution.finished_at := Some now |>
    <| OpsTaskExecution.error_message := Some ("执行超时（" +:+ py_str timeout_seconds +:+ "s）") |>.

Section Scans.
Context `{E : Env} `{!EnvOk E}.

(** [e] was looked at by the scan at a clock reading not before the [n]-th. *)
Definition scanned (timeout_seconds : Z) (n : nat) (e e' : OpsTaskExecution) : Prop :=
  ∃ k k', (n ≤ k)%nat ∧ (n ≤ k')%nat ∧
    e' = if expired_at timeout_seconds (clock k) e
         then timeout_row timeout_seconds (clock k') e else e.

Lemma wp_is_expired i e timeout_seconds (Q : bool → session → Prop) Ex s :
  execs (work s) !! i = Some e →
  (∀ n, (ticks s ≤ n)%nat →
     Q (expired_at timeout_seconds (clock (ticks s)) e) (Session (work s) (durable s) n)) →
  wp (TaskExecutionRepository.is_expired i timeout_seconds) Q Ex s.
Proof.
  intros He HQ. unfold TaskExecutionRepository.is_expired, expired_at in *.
  apply wp_bind, (wp_obj_ok TExec i e); [done|].
  destruct (OpsTaskExecution.status e); try (apply wp_ret; destruct s; by apply HQ).
  destruct (OpsTaskExecution.started_at e); [|apply wp_ret; destruct s; by apply HQ].
  apply wp_bind, wp_utcnow, wp_ret, HQ. simpl. lia.
Qed.

(** The list of expired executions. *)
Lemma wp_expired ids timeout_seconds (Q : list Z → session → Prop) Ex s :
  NoDup ids → (∀ i, i ∈ ids → is_Some (execs (work s) !! i)) →
  (∀ expired n, (ticks s ≤ n)%nat → expired ⊆ ids → NoDup expired →
     (∀ i e, i ∈ ids → execs (work s) !! i = Some e →
        ∃ k, (ticks s ≤ k)%nat ∧
             (i ∈ expired ↔ expired_at timeout_seconds (clock k) e = true)) →
     Q expired (Session (work s) (durable s) n)) →
  wp (fold_loop (λ expired i,
        b ← TaskExecutionRepository.is_expired i timeout_seconds;
        mret (if (b : bool) then expired ++ [i] else expired)) [] ids) Q Ex s.
Proof.
  intros Hnd Hin HQ.
  apply (wp_fold_loop (λ rest acc s', ∃ done n, ids = done ++ rest ∧ (ticks s ≤ n)%nat ∧
    s' = Session (work s) (durable s) n ∧ acc `sublist_of` done ∧
    (∀ i e, i ∈ done → execs (work s) !! i = Some e →
        ∃ k, (ticks s ≤ k)%nat ∧ (i ∈ acc ↔ expired_at timeout_seconds (clock k) e = true)))).
  - exists [], (ticks s). destruct s. split_and!; [done|done|done|done|set_solver].
  - intros i rest acc s' (dn & n & Hids & Hn & -> & Hsub & Hacc).
    destruct (Hin i) as [e He]; [set_solver|].
    assert (i ∉ acc) as Hi.
    { rewrite Hids in Hnd. apply NoDup_app in Hnd as (_ & Hnd & _).
      intros Hx. apply (Hnd i); [|set_solver]. by eapply elem_of_submseteq, sublist_submseteq. }
    apply wp_bind, (wp_is_expired i e); [done|]. intros n' Hn'. apply wp_ret. simpl in *.
    exists (dn ++ [i]), n'. split_and!; [by rewrite <- app_assoc|lia|done| |].
    + destruct (expired_at _ _ e); [by apply sublist_app|].
      by apply sublist_inserts_r.
    + intros j e' [Hj| ->%list_elem_of_singleton]%elem_of_app He'.
      * destruct (Hacc j e' Hj He') as (k & Hk & Hiff). exists k. split; [done|].
        rewrite <- Hiff. destruct (expired_at _ _ e); [|done].
        rewrite elem_of_app, list_elem_of_singleton. split; [|by left].
        intros [?| ->]; [done|]. exfalso. rewrite Hids in Hnd.
        apply NoDup_app in Hnd as (_ & Hnd & _). apply (Hnd i); [done|set_solver].
      * exists n. split; [done|]. rewrite <- (same_row TExec He He').
        destruct (expired_at _ _ e); [|by split].
        split; [done|]. set_solver.
  - intros acc s' (dn & n & Hids & Hn & -> & Hsub & Hacc).
    rewrite app_nil_r in Hids. subst dn. apply HQ; [done| | |done].
    + intros i Hi. by eapply elem_of_submseteq, sublist_submseteq.
    + by eapply sublist_NoDup.
Qed.

(** Marking them. *)
Lemma wp_mark_all d0 expired timeout_seconds (Q : () → session → Prop) Ex s :
  good None d0 (work s) → NoDup expired →
  (∀ i, i ∈ expired → ∃ e, execs (work s) !! i = Some e ∧ OpsTaskExecution.status e = E_RUNNING) →
  (∀ d' n, (ticks s ≤ n)%nat → good None d0 d' → only TExec (work s) d' →
     (∀ i, i ∉ expired → execs d' !! i = execs (work s) !! i) →
     (∀ i e, i ∈ expired → execs (work s) !! i = Some e →
        ∃ k, (ticks s ≤ k)%nat ∧ execs d' !! i = Some (timeout_row timeout_seconds (clock k) e)) →
     Q () (Session d' (durable s) n)) →
  wp (for_each (λ i, TaskExecutionRepository.mark_timeout i timeout_seconds) expired) Q Ex s.
Proof.
  intros HG Hnd Hrun HQ.
  apply (wp_fold_loop (λ rest _ s', ∃ dn n, expired = dn ++ rest ∧ (ticks s ≤ n)%nat ∧
    durable s' = durable s ∧ ticks s' = n ∧ good None d0 (work s') ∧ only TExec (work s) (work s') ∧
    (∀ i, i ∉ dn → execs (work s') !! i = execs (work s) !! i) ∧
    (∀ i e, i ∈ dn → execs (work s) !! i = Some e →
        ∃ k, (ticks s ≤ k)%nat ∧
             execs (work s') !! i = Some (timeout_row timeout_seconds (clock k) e)))).
  - exists [], (ticks s). split_and!; try done. set_solver.
  - intros i rest _ s' (dn & n & Hids & Hn & Hd & Ht & HG' & Ho & Hno & Hyes).
    destruct (Hrun i) as (e & He & Hst); [set_solver|].
    assert (i ∉ dn) as Hi.
    { rewrite Hids in Hnd. apply NoDup_app in Hnd as (_ & Hnd & _). set_solver. }
    assert (execs (work s') !! i = Some e) as He'.
    { etransitivity; [by apply Hno|done]. }
    apply (wp_move_exec None d0 i e _ _ _ _ HG' He'); [by rewrite Hst|exec_row_tac|].
    intros d' HG''. exists (dn ++ [i]), (S n). unfold d'. cbn [work set_work durable ticks tick].
    split_and!; [by rewrite <- app_assoc|lia|done|by rewrite Ht|done|..].
    + intros k Hk. rewrite put_row_ne by done. by apply Ho.
    + intros j Hj. autorewrite with store. rewrite lookup_insert_ne by set_solver.
      apply Hno. set_solver.
    + intros j ej [Hj| ->%list_elem_of_singleton]%elem_of_app Hej; autorewrite with store.
      * rewrite lookup_insert_ne by set_solver. by apply Hyes.
      * rewrite <- (same_row TExec He Hej). exists (ticks s'). split; [lia|].
        by rewrite lookup_insert_eq.
  - intros [] s' (dn & n & Hids & Hn & Hd & Ht & HG' & Ho & Hno & Hyes).
    rewrite app_nil_r in Hids. subst dn. destruct s' as [d' du n']. simpl in *. subst.
    by apply HQ.
Qed.

(** One task. *)
Lemma wp_scan_task d0 total task t (Q : Z → session → Prop) Ex s :
  good None d0 (work s) → tasks (work s) !! task = Some t →
  task_terminal (OpsTask.status t) = false →
  (∀ r d' n, (ticks s ≤ n)%nat → good None d0 d' →
     (∀ j, j ≠ task → tasks d' !! j = tasks (work s) !! j) →
     (∀ i e, execs (work s) !! i = Some e → OpsTaskExecution.task_id e = task →
        ∃ e', execs d' !! i = Some e' ∧ scanned (OpsTask.timeout_seconds t) (ticks s) e e') →
     (∀ i, (∀ e, execs (work s) !! i = Some e → OpsTaskExecution.task_id e ≠ task) →
        execs d' !! i = execs (work s) !! i) →
     Q r (Session d' (durable s) n)) →
  wp (scan_task total task) Q Ex s.
Proof.
  intros HG Ht Hopen HQ. unfold scan_task.
  apply wp_bind, (wp_obj_ok TTask task t); [done|]. apply wp_bind, wp_select_where.
  match goal with |- context [matching TExec ?p (work s)] =>
    change (matching TExec p (work s))
      with (matching TExec (λ e, OpsTaskExecution.task_id e =? task) (work s)) end.
  set (ids := matching TExec _ (work s)).
  assert (∀ i, i ∈ ids ↔ ∃ e, execs (work s) !! i = Some e ∧ OpsTaskExecution.task_id e = task) as Hids.
  { intros i. etransitivity; [apply elem_of_matching|]. by setoid_rewrite Z.eqb_eq. }
  apply wp_bind, wp_expired; [apply matching_nodup|by intros i (e & He & _)%Hids; exists e|].
  intros expired n Hn Hsub Hnd Hexp. apply wp_bind, (wp_mark_all d0); [done|done| |].
  { intros i Hi. destruct (proj1 (Hids i) (Hsub i Hi)) as (e & He & _). exists e. split; [done|].
    destruct (Hexp i e (Hsub i Hi) He) as (k & _ & Hk). apply Hk in Hi. unfold expired_at in Hi.
    by destruct (OpsTaskExecution.status e). }
  cbn [work ticks durable]. intros d' n' Hn' HG' Ho Hno Hyes.
  assert (∀ i e, execs (work s) !! i = Some e → OpsTaskExecution.task_id e = task →
    ∃ e', execs d' !! i = Some e' ∧ scanned (OpsTask.timeout_seconds t) (ticks s) e e') as Hrows.
  { intros i e He Het. assert (i ∈ ids) as Hi by (apply Hids; eauto).
    destruct (Hexp i e Hi He) as (k & Hk & Hiff). destruct (decide (i ∈ expired)) as [Hx|Hx].
    - destruct (Hyes i e Hx He) as (k' & Hk' & He'). eexists. split; [done|].
      exists k, k'. split_and!; [done|lia|]. by rewrite (proj1 Hiff Hx).
    - exists e. split; [by etransitivity; [apply Hno|]|]. exists k, k. split_and!; [done..|].
      destruct (expired_at _ _ e); [|done]. by destruct Hx; apply Hiff. }
  assert (∀ i, (∀ e, execs (work s) !! i = Some e → OpsTaskExecution.task_id e ≠ task) →
    execs d' !! i = execs (work s) !! i) as Hothers.
  { intros i Hi. apply Hno. intros Hx. apply Hsub, Hids in Hx as (e & He & Het). by apply (Hi e). }
  assert (tasks d' !! task = Some t) as Ht' by (by rewrite Ho).
  unfold when. destruct (negb _).
  - apply wp_bind, (wp_aggregate None d0 task t); [done|done|done|by left|].
    intros st d2 HG2. apply wp_ret.
    assert (∀ m, (ticks s ≤ m)%nat → Q (total + Z.of_nat (length expired)) (Session d2 (durable s) m)) as Hfin.
    { intros m Hm. apply HQ; [done|done|..].
      - intros j Hj. unfold d2. cbn [work]. autorewrite with store. rewrite lookup_insert_ne by done.
        by rewrite Ho.
      - unfold d2. cbn [work]. by autorewrite with store.
      - unfold d2. cbn [work]. by autorewrite with store. }
    simpl. destruct (task_terminal st); apply Hfin; simpl; lia.
  - apply wp_bind, wp_ret, wp_ret. apply HQ; [lia|done|intros j _; by rewrite Ho|done|done].
Qed.

(** What the scan makes of every execution. *)
Definition scan_result (n : nat) (d d' : db) : Prop :=
  ∀ i e t, execs d !! i = Some e → tasks d !! OpsTaskExecution.task_id e = Some t →
    ∃ e', execs d' !! i = Some e' ∧
      if bool_decide (OpsTask.status t = T_RUNNING)
      then scanned (OpsTask.timeout_seconds t) n e e' else e' = e.

(** What the scan has made of the executions once the tasks [dn] are done. *)
Definition scan_rows (n : nat) (dn : list Z) (d d' : db) : Prop :=
  ∀ i e, execs d !! i = Some e → ∃ e', execs d' !! i = Some e' ∧
    if bool_decide (OpsTaskExecution.task_id e ∈ dn)
    then ∃ t, tasks d !! OpsTaskExecution.task_id e = Some t ∧ scanned (OpsTask.timeout_seconds t) n e e'
    else e' = e.

Lemma scan_rows_snoc n m dn task t d d1 d' :
  (n ≤ m)%nat → evolves d d1 → scan_rows n dn d d1 → task ∉ dn → tasks d !! task = Some t →
  (∀ i e, execs d1 !! i = Some e → OpsTaskExecution.task_id e = task →
     ∃ e', execs d' !! i = Some e' ∧ scanned (OpsTask.timeout_seconds t) m e e') →
  (∀ i, (∀ e, execs d1 !! i = Some e → OpsTaskExecution.task_id e ≠ task) → execs d' !! i = execs d1 !! i) →
  scan_rows n (dn ++ [task]) d d'.
Proof.
  intros Hn Hev Hrows Hdn Ht Hscan Hother i e He. destruct (Hrows i e He) as (e1 & He1 & Hcase).
  destruct (decide (OpsTaskExecution.task_id e = task)) as [Het|Het].
  - rewrite bool_decide_false in Hcase by (by rewrite Het).
    subst e1. destruct (Hscan i e He1 Het) as (e' & He' & k & k' & Hk & Hk' & ->). eexists. split; [exact He'|].
    rewrite bool_decide_true by (rewrite Het; list_in). exists t. rewrite Het. split; [done|].
    exists k, k'. split_and!; [lia|lia|done].
  - exists e1. split.
    + rewrite Hother; [done|]. intros e2 He2. rewrite <- (same_row TExec He1 He2).
      by pose proof (evolves_core _ _ Hev _ _ _ He He1) as [= _ -> _ _ _].
    + destruct (bool_decide_reflect (OpsTaskExecution.task_id e ∈ dn)).
      * by rewrite bool_decide_true by list_in.
      * by rewrite bool_decide_false by list_in.
Qed.

Lemma wp_scan_timeouts d0 (Q : Z → session → Prop) Ex s :
  task_inv None d0 → work s = d0 →
  (∀ r d' n, good None d0 d' → scan_result (ticks s) d0 d' → Q r (Session d' d' n)) →
  wp scan_timeouts Q Ex s.
Proof.
  intros Hinv Hw HQ. unfold scan_timeouts. apply wp_bind, wp_select_where. rewrite Hw.
  match goal with |- context [matching TTask ?p d0] =>
    change (matching TTask p d0)
      with (matching TTask (λ t, bool_decide (OpsTask.status t = T_RUNNING)) d0) end.
  set (ids := matching TTask _ d0).
  assert (∀ j, j ∈ ids ↔ ∃ t, tasks d0 !! j = Some t ∧ OpsTask.status t = T_RUNNING) as Hids.
  { intros i. etransitivity; [apply elem_of_matching|]. by setoid_rewrite bool_decide_eq_true. }
  assert (NoDup ids) as Hnd by apply matching_nodup.
  apply wp_bind, (wp_fold_loop (λ rest _ s', ∃ dn, ids = dn ++ rest ∧ (ticks s ≤ ticks s')%nat ∧
    good None d0 (work s') ∧ (∀ j, j ∈ rest → tasks (work s') !! j = tasks d0 !! j) ∧
    scan_rows (ticks s) dn d0 (work s'))).
  - exists []. rewrite Hw. split_and!; [done|done|by apply good_refl|done|].
    intros i e He. exists e. split; [done|]. by rewrite bool_decide_false by list_in.
  - intros task rest total s' (dn & Hsplit & Hn & HG & Hrest & Hrows).
    destruct (proj1 (Hids task)) as (t & Ht0 & Hst); [rewrite Hsplit; list_in|].
    assert (tasks (work s') !! task = Some t) as Ht.
    { etransitivity; [apply Hrest; list_in|done]. }
    rewrite Hsplit in Hnd. apply NoDup_app in Hnd as (_ & Hdn & [Hnr _]%NoDup_cons).
    apply (wp_scan_task d0 total task t); [done|done|by rewrite Hst|].
    intros r d' n Hn' HG' Htasks Hscan Hother. exists (dn ++ [task]).
    cbn [work ticks]. split_and!; [by rewrite <- app_assoc|lia|done|..].
    + intros j Hj. rewrite Htasks by (intros ->; done). apply Hrest. list_in.
    + apply (scan_rows_snoc _ (ticks s') _ _ t _ (work s')); try done; [by apply HG|].
      intros Hx. apply (Hdn _ Hx). list_in.
  - intros total s' (dn & Hsplit & Hn & HG & _ & Hrows). apply wp_bind, wp_commit, wp_ret.
    rewrite app_nil_r in Hsplit. subst dn. apply HQ; [done|].
    intros i e t He Ht. destruct (Hrows i e He) as (e' & He' & Hcase). exists e'. split; [done|].
    destruct (bool_decide_reflect (OpsTask.status t = T_RUNNING)) as [Hst|Hst].
    + rewrite bool_decide_true in Hcase by (apply Hids; eauto). destruct Hcase as (t' & Ht' & Hs).
      by rewrite (same_row TTask Ht Ht').
    + rewrite bool_decide_false in Hcase; [done|].
      intros (t' & Ht' & Hst')%Hids. apply Hst. by rewrite (same_row TTask Ht Ht').
Qed.
End Scans.

(** ** Retry dispatch

    Every due execution is archived, and succeeded by the next attempt while
    its task has budget left. *)

(** [e'] is a new attempt after [e]. *)
Definition next_attempt_of (e e' : OpsTaskExecution) : Prop :=
  OpsTaskExecution.task_id e' = OpsTaskExecution.task_id e ∧
  OpsTaskExecution.target_id e' = OpsTaskExecution.target_id e ∧
  OpsTaskExecution.server_id e' = OpsTaskExecution.server_id e ∧
  OpsTaskExecution.attempt e' = OpsTaskExecution.attempt e + 1 ∧
  OpsTaskExecution.status e' = E_PENDING.

(** The execution [i] of [d] was dispatched, with or without budget. *)
Definition dispatched (budget : bool) (i : Z) (d d' : db) : Prop :=
  ∃ e e', execs d !! i = Some e ∧ execs d' !! i = Some e' ∧ exec_core e' = exec_core e ∧
  if budget then
    OpsTaskExecution.status e' = E_FAILED ∧
    ∃ j enew, next_id (d TExec) ≤ j ∧ execs d' !! j = Some enew ∧ next_attempt_of e enew
  else OpsTaskExecution.status e' = E_DEAD.

(** The budget of a task is fixed at its creation. *)
Definition same_budget (d d' : db) : Prop :=
  ∀ j t, tasks d !! j = Some t → ∃ t', tasks d' !! j = Some t' ∧
    OpsTask.max_attempts t' = OpsTask.max_attempts t ∧ OpsTask.deadline_at t' = OpsTask.deadline_at t.

Lemma same_budget_put d i t t' :
  tasks d !! i = Some t → OpsTask.max_attempts t' = OpsTask.max_attempts t →
  OpsTask.deadline_at t' = OpsTask.deadline_at t → same_budget d (put_row TTask i t' d).
Proof.
  intros Ht Hm Hd j tj Hj. autorewrite with store. destruct (decide (i = j)) as [<-|].
  - exists t'. rewrite lookup_insert_eq. rewrite <- (same_row TTask Ht Hj). done.
  - exists tj. by rewrite lookup_insert_ne.
Qed.

Lemma same_budget_eq d d' : d' TTask = d TTask → same_budget d d'.
Proof. intros Hd j t Ht. exists t. by rewrite Hd. Qed.

Lemma same_budget_trans d1 d2 d3 : same_budget d1 d2 → same_budget d2 d3 → same_budget d1 d3.
Proof.
  intros H1 H2 j t Ht. destruct (H1 j t Ht) as (t2 & Ht2 & <- & <-). by apply H2.
Qed.

Lemma aggregate_row_same st now t :
  OpsTask.max_attempts (aggregate_row st now t) = OpsTask.max_attempts t ∧
  OpsTask.deadline_at (aggregate_row st now t) = OpsTask.deadline_at t.
Proof. unfold aggregate_row. by destruct (task_terminal st). Qed.

Section Dispatch.
Context `{E : Env} `{!EnvOk E}.

(** Without budget: the execution is given up. *)
Lemma wp_give_up d0 i e task t content error_type error_message (created : Z)
    (Q : Z → session → Prop) Ex s :
  good None d0 (work s) → execs (work s) !! i = Some e →
  exec_terminal (OpsTaskExecution.status e) = false →
  tasks (work s) !! task = Some t → task_terminal (OpsTask.status t) = false →
  (∀ d' n, (ticks s ≤ n)%nat → good None d0 d' → dispatched false i (work s) d' →
     (∀ j, j ≠ i → execs d' !! j = execs (work s) !! j) →
     next_id (d' TExec) = next_id (work s TExec) → same_budget (work s) d' →
     Q created (Session d' (durable s) n)) →
  wp (TaskExecutionRepository.mark_dead i error_type error_message;;
      _ ← TaskLogRepository.record i content "ERROR";
      _aggregate_task_status task;; mret created) Q Ex s.
Proof.
  intros HG He Hlive Ht Hopen HQ.
  apply wp_bind, (wp_move_exec None d0 i e); [done..|exec_row_tac|]. intros d1 HG1.
  apply wp_bind, (wp_record None d0);
    [done|by eexists; cbn [work set_work]; unfold d1; autorewrite with store; apply lookup_insert_eq|].
  intros d2 l HG2 Ho. cbn [work set_work] in Ho.
  apply wp_bind, (wp_aggregate None d0 task t);
    [done|cbn [work set_work]; rewrite Ho by done; unfold d1; by autorewrite with store|done|by left|].
  intros st d3 HG3. apply wp_ret.
  assert (∀ j, execs d3 !! j = execs d1 !! j) as Hd3.
  { intros j. unfold d3. cbn [work set_work]. autorewrite with store. by rewrite Ho. }
  assert (∀ n, (ticks s ≤ n)%nat → Q created (Session d3 (durable s) n)) as Hfin.
  { intros n Hn. apply HQ; [done|done|..].
    - exists e. eexists. split_and!; [done|rewrite Hd3; unfold d1; autorewrite with store; apply lookup_insert_eq|..].
      + by rewrite set_duration_core.
      + by rewrite set_duration_status.
    - intros j Hj. rewrite Hd3. unfold d1. autorewrite with store. by rewrite lookup_insert_ne.
    - unfold d3. cbn [work set_work]. autorewrite with store. rewrite Ho by done.
      unfold d1. by autorewrite with store.
    - eapply same_budget_trans; [|eapply same_budget_put; [|apply aggregate_row_same..]].
      + apply same_budget_eq. cbn [work set_work]. rewrite Ho by done. unfold d1. by autorewrite with store.
      + cbn [work set_work]. rewrite Ho by done. unfold d1. by autorewrite with store. }
  simpl. destruct (task_terminal st); apply Hfin; simpl; lia.
Qed.

(** Once the latest attempt [e] has ended, every attempt of its target has. *)
Lemma ended_is_latest x d i e e2 j e' :
  task_inv x d → execs d !! i = Some e → exec_terminal (OpsTaskExecution.status e) = false →
  exec_core e2 = exec_core e → exec_terminal (OpsTaskExecution.status e2) = true →
  <[i := e2]> (execs d) !! j = Some e' → OpsTaskExecution.target_id e' = OpsTaskExecution.target_id e →
  exec_terminal (OpsTaskExecution.status e') = true ∧ OpsTaskExecution.attempt e' < OpsTaskExecution.attempt e + 1.
Proof.
  intros Hinv He Hlive Hcore Hend [[<- <-]|[Hne Hj]]%lookup_insert_Some Htg.
  - split; [done|]. unfold exec_core in Hcore. injection Hcore as _ _ _ _ ->. lia.
  - destruct (live_is_latest _ _ _ _ _ _ Hinv He Hj Htg Hlive) as [|Hx]; [done|].
    split; [|lia]. by apply (inv_live Hinv _ _ _ _ Hj He).
Qed.

(** With budget: the next attempt is created. *)
Lemma wp_next_attempt d0 i e task t content error_type error_message (created : Z)
    (Q : Z → session → Prop) Ex s :
  good None d0 (work s) → execs (work s) !! i = Some e →
  exec_terminal (OpsTaskExecution.status e) = false → OpsTaskExecution.task_id e = task →
  tasks (work s) !! task = Some t → OpsTaskExecution.attempt e < OpsTask.max_attempts t →
  (∀ d' n, (ticks s ≤ n)%nat → good None d0 d' → dispatched true i (work s) d' →
     (∀ j, j ≠ i → j < next_id (work s TExec) → execs d' !! j = execs (work s) !! j) →
     next_id (d' TExec) = next_id (work s TExec) + 1 → same_budget (work s) d' →
     Q (created + 1) (Session d' (durable s) n)) →
  wp (TaskExecutionRepository.finish i E_FAILED None None error_message error_type;;
      _ ← TaskExecutionRepository.create_execution task (OpsTaskExecution.target_id e)
            (OpsTaskExecution.server_id e) (OpsTaskExecution.attempt e + 1);
      assign TTask task (λ t, t <| OpsTask.attempt := OpsTaskExecution.attempt e + 1 |>);;
      target ← get TTarget (OpsTaskExecution.target_id e);
      match target with
      | Some i => assign TTarget i (λ r, r <| OpsTaskTarget.target_status := "PENDING" |>)
      | None => mret ()
      end;;
      _ ← TaskLogRepository.record i content "INFO";
      _aggregate_task_status task;;
      mret (created + 1)) Q Ex s.
Proof.
  intros HG He Hlive Htask Ht Hlt HQ. pose proof HG as (HI0 & Hinv & _). subst task.
  pose proof (live_task _ _ _ _ _ Hinv He Ht Hlive) as Hopen.
  destruct (inv_target Hinv _ _ He) as (g & Hg & Hgt & Hgs).
  assert (¬ cron_waiting t) as Hcron by by apply (inv_cron Hinv i e t).
  pose proof (inv_attempt Hinv _ _ _ He Ht) as Hatt.
  apply wp_bind, (wp_move_exec None d0 i e); [done..|exec_row_tac|]. intros d1 HG1.
  apply wp_bind, (wp_create_execution None d0 _ t _ g);
    [done|done|done|done|done|lia|done|done| |].
  { intros j e'. unfold d1. cbn [work set_work]. autorewrite with store.
    apply (ended_is_latest None); [done..|rewrite set_duration_core; by case_match|].
    rewrite set_duration_status. by case_match. }
  intros now. cbn [work set_work]. set (enew := fresh_row TExec _ _ _). intros HG2.
  apply wp_bind, (wp_put_task None None d0 _ t); try done; [by simpl; rewrite Hopen|by left|].
  intros HG3. cbn [work set_work] in *. apply wp_bind, (wp_get TTarget); [|by intros Hn; specialize (Hn g Hg)].
  intros g' _ _. apply wp_bind, (wp_assign_ok TTarget _ g); [apply HG3|done|done|].
  intros HI4. cbn [work set_work] in *.
  assert (good None d0 (put_row TTarget (OpsTaskExecution.target_id e)
    (g <| OpsTaskTarget.target_status := "PENDING" |>)
    (put_row TTask (OpsTaskExecution.task_id e)
      (t <| OpsTask.attempt := OpsTaskExecution.attempt e + 1 |>) (add_row TExec enew d1)))) as HG4.
  { by apply (good_put_target None d0 _ _ g). }
  apply wp_bind, (wp_record None d0); [done| |].
  { cbn [work set_work]. autorewrite with store. apply lookup_insert_is_Some'. right.
    unfold d1. autorewrite with store. apply lookup_insert_is_Some'. by left. }
  intros d5 l HG5 Ho. cbn [work set_work] in Ho.
  apply wp_bind, (wp_aggregate None d0 _ (t <| OpsTask.attempt := OpsTaskExecution.attempt e + 1 |>));
    [done|cbn [work set_work]; rewrite Ho by done; autorewrite with store; apply lookup_insert_eq|done|by left|].
  intros st d6 HG6. apply wp_ret.
  assert (d6 TExec = add_row TExec enew d1 TExec) as Hd6.
  { unfold d6. cbn [work set_work]. autorewrite with store. rewrite Ho by done. by autorewrite with store. }
  assert (next_id (d1 TExec) = next_id (work s TExec)) as Hn1 by (unfold d1; by autorewrite with store).
  assert (i < next_id (work s TExec)) as Hi by by apply (proj2 (inv_integrity Hinv) TExec i e).
  assert (∀ n, (ticks s ≤ n)%nat → Q (created + 1) (Session d6 (durable s) n)) as Hfin.
  { intros n Hn. apply HQ; [done|done|..].
    - exists e. eexists. rewrite Hd6. autorewrite with store. rewrite Hn1.
      rewrite lookup_insert_ne by lia. unfold d1 at 1. autorewrite with store.
      split_and!; [done|apply lookup_insert_eq|by rewrite set_duration_core; case_match|..].
      + by rewrite set_duration_status; case_match.
      + exists (next_id (work s TExec)), enew. rewrite lookup_insert_eq. by split_and!.
    - intros j Hj Hlt'. rewrite Hd6. autorewrite with store. rewrite Hn1, lookup_insert_ne by lia.
      unfold d1. autorewrite with store. by rewrite lookup_insert_ne.
    - rewrite Hd6. autorewrite with store. by rewrite Hn1.
    - eapply same_budget_trans; [|eapply same_budget_put; [|apply aggregate_row_same..]].
      + eapply same_budget_trans; [by apply (same_budget_put _ (OpsTaskExecution.task_id e) t
          (t <| OpsTask.attempt := OpsTaskExecution.attempt e + 1 |>))|].
        apply same_budget_eq. cbn [work set_work]. rewrite Ho by done. by autorewrite with store.
      + cbn [work set_work]. rewrite Ho by done. autorewrite with store. apply lookup_insert_eq. }
  simpl. destruct (task_terminal st); apply Hfin; simpl; lia.
Qed.

Lemma wp_dispatch_one d0 i e t created (Q : Z → session → Prop) Ex s :
  good None d0 (work s) → execs (work s) !! i = Some e →
  OpsTaskExecution.status e = E_RETRYING → tasks (work s) !! OpsTaskExecution.task_id e = Some t →
  (let budget := budget_left t e (clock (ticks s)) in
   let new := if budget then 1 else 0 in
   ∀ d' n, (ticks s ≤ n)%nat → good None d0 d' → dispatched budget i (work s) d' →
     (∀ j, j ≠ i → j < next_id (work s TExec) → execs d' !! j = execs (work s) !! j) →
     next_id (d' TExec) = next_id (work s TExec) + new → same_budget (work s) d' →
     Q (created + new) (Session d' (durable s) n)) →
  wp (dispatch_one created i) Q Ex s.
Proof.
  intros HG He Hst Ht HQ. pose proof HG as (_ & Hinv & _).
  assert (exec_terminal (OpsTaskExecution.status e) = false) as Hlive by by rewrite Hst.
  pose proof (live_task _ _ _ _ _ Hinv He Ht Hlive) as Hopen.
  unfold dispatch_one. apply wp_bind, (wp_obj_ok TExec i e); [done|].
  apply wp_bind, (wp_get_task_entity _ t); [done|]. apply wp_bind, (wp_obj_ok TTask _ t); [done|].
  rewrite Hopen. apply wp_bind, (wp_can_retry _ _ t e); [done..|]. intros n Hn.
  simpl in HQ. destruct (budget_left t e (clock (ticks s))) eqn:Hb; cbn [negb].
  - apply (wp_next_attempt d0 i e _ t); try done.
    + unfold budget_left in Hb. apply andb_true_iff in Hb as [Hlt _]. by apply Z.ltb_lt in Hlt.
    + intros d' n' Hn'. apply HQ. simpl in Hn'. lia.
  - apply (wp_give_up d0 i e _ t); [done..|]. intros d' n' Hn' HG' Hd Hother Hnext Hsb.
    rewrite <- (Z.add_0_r created). apply HQ; try done.
    + simpl in Hn'. lia.
    + intros j Hj _. by apply Hother.
    + simpl in *. lia.
Qed.

(** The due executions that one run dispatches. *)
Definition due_ids (d : db) (now : datetime) (limit : nat) (ids : list Z) : Prop :=
  NoDup ids ∧ (length ids ≤ limit)%nat ∧
  (∀ i, i ∈ ids → ∃ e, execs d !! i = Some e ∧ TaskExecutionRepository.due_retry now e = true) ∧
  ((length ids < limit)%nat →
   ∀ i e, execs d !! i = Some e → TaskExecutionRepository.due_retry now e = true → i ∈ ids).

(** What one run of the dispatch does: the due executions are dispatched, each
    by the budget of its task at some reading of the clock, and no other
    execution changes. *)
Record dispatch_result (n : nat) (ids : list Z) (r : Z) (d d' : db) : Prop := DispatchResult {
  result_due : ∀ i e t, i ∈ ids → execs d !! i = Some e →
    tasks d !! OpsTaskExecution.task_id e = Some t →
    ∃ k, (n ≤ k)%nat ∧ dispatched (budget_left t e (clock k)) i d d';
  result_other : ∀ i, i ∉ ids → i < next_id (d TExec) → execs d' !! i = execs d !! i;
  result_count : next_id (d' TExec) = next_id (d TExec) + r;
  result_budget : same_budget d d'
}.

Lemma due_retry_status now e :
  TaskExecutionRepository.due_retry now e = true → OpsTaskExecution.status e = E_RETRYING.
Proof.
  unfold TaskExecutionRepository.due_retry. intros [H _]%andb_true_iff.
  by apply bool_decide_eq_true in H.
Qed.

(** A dispatch seen from the start of the run. *)
Lemma dispatched_from b i d0 d d' :
  execs d !! i = execs d0 !! i → next_id (d0 TExec) ≤ next_id (d TExec) →
  dispatched b i d d' → dispatched b i d0 d'.
Proof.
  intros Hi Hle (e & e' & He & Hrest). exists e, e'. split; [by etransitivity; [symmetry; apply Hi|]|].
  destruct b; [|done]. destruct Hrest as (H1 & H2 & H3 & j & en & Hj & H4).
  split_and!; [done..|]. exists j, en. split; [lia|done].
Qed.

(** A dispatch is not undone by a later one. *)
Lemma dispatched_keep b i j d0 d d' :
  i ≠ j → i < next_id (d TExec) → execs d !! j ≠ None →
  (∀ k, k ≠ j → k < next_id (d TExec) → execs d' !! k = execs d !! k) →
  (∀ k e, execs d !! k = Some e → k < next_id (d TExec)) →
  (∀ k e, execs d !! k = Some e → k = j → OpsTaskExecution.status e ≠ E_PENDING) →
  dispatched b i d0 d → dispatched b i d0 d'.
Proof.
  intros Hij Hi Hj Hsame Hkeys Hpend (e & e' & He & He' & Hcore & Hb).
  exists e, e'. split_and!; [done|by etransitivity; [apply Hsame|]|done|].
  destruct b; [|done]. destruct Hb as (Hst & k & en & Hk & Hen & Hnx). split; [done|].
  exists k, en. split_and!; [done| |done]. etransitivity; [apply Hsame; [|by eapply Hkeys]|done].
  intros ->. destruct Hnx as (_ & _ & _ & _ & Hp). by apply (Hpend _ _ Hen eq_refl).
Qed.

Lemma wp_list_due d0 now limit (Q : list Z → session → Prop) Ex s :
  work s = d0 → (∀ ids, due_ids d0 now limit ids → Q ids s) →
  wp (TaskExecutionRepository.list_due_retries now limit) Q Ex s.
Proof.
  intros Hw HQ. unfold TaskExecutionRepository.list_due_retries.
  apply wp_bind, wp_select_where, wp_bind. unfold order_by. apply wp_bind, wp_get_work, wp_ret, wp_ret.
  match goal with |- context [sort_by ?f ?l] => set (le := f); set (ids := l) end.
  apply HQ. assert (∀ i, i ∈ ids ↔ ∃ e, execs d0 !! i = Some e ∧
    TaskExecutionRepository.due_retry now e = true) as Hids.
  { intros i. rewrite <- Hw. apply elem_of_matching. }
  split_and!.
  - eapply sublist_NoDup; [|apply sublist_take]. rewrite sort_by_perm. apply matching_nodup.
  - rewrite length_take. lia.
  - intros i (n & Hn & _)%elem_of_take. by apply list_elem_of_lookup_2, elem_of_sort_by, Hids in Hn.
  - intros Hlen i e He Hd. rewrite length_take in Hlen.
    rewrite take_ge by lia. apply elem_of_sort_by, Hids. eauto.
Qed.

Lemma wp_dispatch_retries d0 limit (Q : Z → session → Prop) Ex s :
  task_inv None d0 → work s = d0 →
  (∀ ids r d' n, due_ids d0 (clock (ticks s)) limit ids → good None d0 d' →
     dispatch_result (ticks s) ids r d0 d' → Q r (Session d' d' n)) →
  wp (dispatch_retries limit) Q Ex s.
Proof.
  intros Hinv Hw HQ. unfold dispatch_retries. apply wp_bind, wp_utcnow.
  apply wp_bind, (wp_list_due d0); [done|]. intros ids Hdue. pose proof Hdue as (Hnd & _ & Hin & _).
  pose proof (proj2 (inv_integrity Hinv) TExec) as Hkeys0.
  apply wp_bind, (wp_fold_loop (λ rest r s', ∃ dn, ids = dn ++ rest ∧ (ticks s ≤ ticks s')%nat ∧
    good None d0 (work s') ∧ dispatch_result (ticks s) dn r d0 (work s'))).
  - exists []. cbn [work tick ticks]. rewrite Hw. split_and!; [done|simpl; lia|by apply good_refl|].
    split; [by intros i e t Hi%elem_of_nil|done|lia|by apply same_budget_eq].
  - intros i rest r s' (dn & Hsplit & Hn & HG & [R1 R2 R3 R4]). pose proof HG as (_ & Hinv' & _).
    destruct (Hin i) as (e & He0 & Hd%due_retry_status); [rewrite Hsplit; list_in|].
    rewrite Hsplit in Hnd. apply NoDup_app in Hnd as (_ & Hdn & [Hnr _]%NoDup_cons).
    assert (i ∉ dn) as Hi by (intros Hx; apply (Hdn i Hx); list_in).
    pose proof (Hkeys0 _ _ He0) as Hilt.
    pose proof (proj2 (inv_integrity Hinv') TExec) as Hkeys.
    assert (execs (work s') !! i = Some e) as He by by etransitivity; [apply R2|].
    destruct (task_of_exec _ _ _ _ Hinv He0) as [t0 Ht0].
    destruct (R4 _ _ Ht0) as (t & Ht & Hm & Hdl).
    assert (∀ now, budget_left t e now = budget_left t0 e now) as Hbud.
    { intros now. unfold budget_left. by rewrite Hm, Hdl. }
    pose proof (evolves_exec_next _ _ (proj2 (proj2 HG))) as Hmono.
    apply (wp_dispatch_one d0 i e t); [done..|]. intros budget new d' n Hn' HG' Hdisp Hother Hnext Hsb.
    exists (dn ++ [i]). cbn [work ticks]. split_and!; [by rewrite <- app_assoc|lia|done|].
    split.
    + intros j ej tj [Hj| ->%list_elem_of_singleton]%elem_of_app Hej Htj.
      * destruct (R1 j ej tj Hj Hej Htj) as (k & Hk & Hdj). exists k. split; [done|].
        apply (dispatched_keep _ j i d0 (work s')); [by intros ->| | |done|done| |done].
        -- specialize (Hkeys0 _ _ Hej). lia.
        -- intros Hx. pose proof (eq_trans (eq_sym Hx) He). done.
        -- intros k' ek Hek ->. rewrite <- (same_row TExec He Hek). by rewrite Hd.
      * rewrite <- (same_row TExec He0 Hej) in *. rewrite <- (same_row TTask Ht0 Htj).
        exists (ticks s'). split; [done|]. rewrite <- Hbud.
        by apply (dispatched_from _ i d0 (work s')); [rewrite R2|..].
    + intros j Hj Hlt. rewrite Hother; [apply R2; [|done]|..].
      * intros Hx. apply Hj. list_in.
      * intros ->. apply Hj. list_in.
      * lia.
    + rewrite Hnext, R3. lia.
    + by eapply same_budget_trans.
  - intros r s' (dn & Hsplit & Hn & HG & HR). apply wp_bind, wp_commit, wp_ret.
    rewrite app_nil_r in Hsplit. subst dn. by eapply HQ.
Qed.
End Dispatch.
