(* ===== verification/TaskCreation.v ===== *)
(** * Creation of tasks and executions

    What [create_task] and [fire_due_cron] do to a database that satisfies the
    invariant. *)
From S2P Require Import Prelude.
From S2P Require Export TaskSteps.

(** A first, pending attempt of [task] on target [g]. *)
Definition first_attempt (task g : Z) (e : OpsTaskExecution) : Prop :=
  OpsTaskExecution.task_id e = task ∧ OpsTaskExecution.target_id e = g ∧
  OpsTaskExecution.attempt e = 1 ∧ OpsTaskExecution.status e = E_PENDING.

(** The executions of [task] were generated, one per target in [ts]. *)
Record generated (task : Z) (ts : list Z) (d d' : db) : Prop := Generated {
  generated_only : only TExec d d';
  generated_keep : ∀ j e, execs d !! j = Some e → execs d' !! j = Some e;
  generated_new : ∀ j e, execs d' !! j = Some e → execs d !! j = None →
    ∃ g, g ∈ ts ∧ first_attempt task g e;
  generated_all : ∀ g, g ∈ ts → ∃ j e, execs d' !! j = Some e ∧ first_attempt task g e
}.

Lemma good_weaken x d0 d : good None d0 d → good x d0 d.
Proof.
  intros [HI0 [[HI Hti Hei Htg Hb Hat Hlv Hdn Hcr] HF]]. split_and!; [done|split; try done|done].
  intros i e t He Ht _. by eapply Hcr.
Qed.

(** The server of a target. *)
Definition server_of (d : db) (g : Z) : Z := default 0 (OpsTaskTarget.server_id <$> targets d !! g).

Lemma server_of_eq d g r : targets d !! g = Some r → server_of d g = OpsTaskTarget.server_id r.
Proof. intros Hr. unfold server_of. by rewrite Hr. Qed.

Section Create.
Context `{E : Env} `{!EnvOk E}.

Lemma wp_new_executions ts task (Q : list OpsTaskExecution → session → Prop) Ex s :
  (∀ g, g ∈ ts → is_Some (targets (work s) !! g)) →
  Q ((λ g, new_execution task g (server_of (work s) g) 1) <$> ts) s →
  wp (map_loop (λ t, r ← obj TTarget t;
        mret (new_execution task t (OpsTaskTarget.server_id r) 1)) ts) Q Ex s.
Proof.
  intros Hin HQ. set (f := λ g, new_execution task g _ 1) in *. unfold map_loop.
  apply (wp_fold_loop (λ rest acc s', s' = s ∧ ∃ dn, ts = dn ++ rest ∧ acc = f <$> dn)).
  - split; [done|]. by exists [].
  - intros g rest acc s' (-> & dn & Hts & ->). destruct (Hin g) as [r Hr]; [rewrite Hts; list_in|].
    apply wp_bind, wp_bind, (wp_obj_ok TTarget g r); [done|]. apply wp_ret, wp_ret. split; [done|].
    exists (dn ++ [g]). rewrite <- app_assoc, fmap_app. split; [done|]. f_equal. simpl.
    unfold f. by rewrite (server_of_eq _ _ _ Hr).
  - intros acc s' (-> & dn & Hts & ->). rewrite app_nil_r in Hts. by subst.
Qed.

Lemma wp_create_executions x d0 task t ts (Q : list Z → session → Prop) Ex s :
  good x d0 (work s) → tasks (work s) !! task = Some t → task_terminal (OpsTask.status t) = false →
  (x ≠ Some task → ¬ cron_waiting t) → NoDup ts →
  (∀ g, g ∈ ts → ∃ r, targets (work s) !! g = Some r ∧ OpsTaskTarget.task_id r = task) →
  (∀ j e, execs (work s) !! j = Some e → OpsTaskExecution.target_id e ∉ ts) →
  (∀ ids d' n, good x d0 d' → generated task ts (work s) d' → Q ids (Session d' (durable s) n)) →
  wp (TaskExecutionRepository.create_executions task ts) Q Ex s.
Proof.
  intros HG Ht Hopen Hcron Hnd Hts Hnone HQ. unfold TaskExecutionRepository.create_executions.
  apply wp_bind, wp_new_executions; [by intros g (r & Hr & _)%Hts; exists r|].
  set (f := λ g, new_execution task g _ 1). unfold create_many, map_loop.
  pose proof (inv_budget (proj1 (proj2 HG)) _ _ Ht) as Hmax.
  apply (wp_fold_loop (λ rest _ s', ∃ dn rg, ts = dn ++ rg ∧ rest = f <$> rg ∧
    durable s' = durable s ∧ good x d0 (work s') ∧ generated task dn (work s) (work s') ∧
    (∀ j e, execs (work s') !! j = Some e → OpsTaskExecution.target_id e ∉ rg))).
  - exists [], ts. split_and!; try done.
    split; [done|done|by intros j e He Hn; pose proof (eq_trans (eq_sym Hn) He)|by intros g ?%elem_of_nil].
  - intros r rest acc s' (dn & rg & Hsplit & Hrest & Hd & HG' & [Ho Hk Hnew Hall] & Hno).
    destruct rg as [|g rg]; [done|]. injection Hrest as -> ->.
    destruct (Hts g) as (gr & Hg & Hgt); [rewrite Hsplit; list_in|].
    assert (f g = new_execution task g (OpsTaskTarget.server_id gr) 1) as ->.
    { unfold f. by rewrite (server_of_eq _ _ _ Hg). }
    rewrite Hsplit in Hnd. apply NoDup_app in Hnd as (_ & Hdn & [Hnr _]%NoDup_cons).
    apply wp_bind, (wp_create_execution x d0 task t g gr _ 1);
      [done|by rewrite Ho|by rewrite Ho|done|done|lia|done|done| |].
    { intros j e He Htg. exfalso. apply (Hno j e He). rewrite Htg. list_in. }
    intros now i e HG''. apply wp_ret. exists (dn ++ [g]), rg. cbn [work set_work durable tick].
    assert (execs (work s') !! next_id (work s' TExec) = None) as Hfresh.
    { apply next_fresh. apply HG'. }
    split_and!; [by rewrite <- app_assoc|done|done|done| |].
    + split.
      * intros k Hne. rewrite add_row_ne by done. by apply Ho.
      * intros j ej Hej. autorewrite with store. apply Hk in Hej. rewrite lookup_insert_ne; [done|].
        intros <-. unfold i in *. pose proof (eq_trans (eq_sym Hfresh) Hej). done.
      * intros j ej. autorewrite with store. intros [[<- <-]|[Hne Hej]]%lookup_insert_Some Hj.
        -- exists g. split; [list_in|]. by split_and!.
        -- destruct (Hnew j ej Hej Hj) as (g' & Hg' & Hf). exists g'. split; [list_in|done].
      * intros g' [Hg'| ->%list_elem_of_singleton]%elem_of_app.
        -- destruct (Hall g' Hg') as (j & ej & Hej & Hf). exists j, ej. split; [|done].
           autorewrite with store. rewrite lookup_insert_ne; [done|].
           intros <-. unfold i in *. pose proof (eq_trans (eq_sym Hfresh) Hej). done.
        -- exists i, e. autorewrite with store. split; [apply lookup_insert_eq|]. by split_and!.
    + intros j ej. autorewrite with store. intros [[<- <-]|[Hne Hej]]%lookup_insert_Some; [done|].
      intros Hx. apply (Hno j ej Hej). list_in.
  - intros ids s' (dn & rg & Hsplit & Hrest & Hd & HG' & Hgen & _).
    destruct rg; [|done]. rewrite app_nil_r in Hsplit. subst dn.
    destruct s' as [d' du n]. simpl in *. subst du. by apply HQ.
Qed.

(** ** Cron *)

(** The fired tasks of [d] have their first attempts in [d']. *)
Definition fired (ts : list Z) (d d' : db) : Prop :=
  ∀ j t, j ∈ ts → tasks d !! j = Some t →
    (∃ t', tasks d' !! j = Some t' ∧ OpsTask.status t' = T_RUNNING) ∧
    ∀ g r, targets d !! g = Some r → OpsTaskTarget.task_id r = j →
      ∃ i e, execs d' !! i = Some e ∧ first_attempt j g e.

(** Is the CRON task due at [now]? *)
Definition cron_due `{!Cron} (now : datetime) (t : OpsTask) : bool :=
  match OpsTask.cron_expression t with
  | Some expression =>
    py_truthy (OpsTask.cron_expression t) &&
    match croniter_next expression (OpsTask.created_at t) with
    | Some next_time => next_time <=? now
    | None => false
    end
  | None => false
  end.

Context `{!Cron}.

Lemma cron_pending_waiting t :
  TaskRepository.cron_pending t = true ↔ cron_waiting t.
Proof.
  unfold TaskRepository.cron_pending, cron_waiting.
  rewrite andb_true_iff, String.eqb_eq, bool_decide_eq_true.
  split; intros [H1 H2]; (split; [done|set_solver]).
Qed.

(** One CRON task that waits. *)
Lemma wp_fire_one d0 now count task t (Q : Z → session → Prop) Ex s :
  good None d0 (work s) → tasks (work s) !! task = Some t → cron_waiting t →
  (cron_due now t = false → Q count s) →
  (∀ d' n, cron_due now t = true → good None d0 d' →
     (∀ j, j ≠ task → tasks d' !! j = tasks (work s) !! j) →
     d' TTarget = work s TTarget →
     (∀ j e, execs (work s) !! j = Some e → execs d' !! j = Some e) →
     fired [task] (work s) d' → Q (count + 1) (Session d' (durable s) n)) →
  wp (fire_one now count task) Q Ex s.
Proof.
  intros HG Ht [Hsch Hst] HQ0 HQ1. pose proof HG as (_ & Hinv & _).
  assert (task_terminal (OpsTask.status t) = false) as Hopen.
  { destruct (OpsTask.status t); try done; by apply (bool_decide_pack _) in Hst. }
  unfold fire_one. apply wp_bind, (wp_obj_ok TTask task t); [done|].
  unfold cron_due in *. destruct (OpsTask.cron_expression t) as [expr|]; [|apply wp_ret; by apply HQ0].
  rewrite Hsch. cbn [negb String.eqb orb] in *.
  destruct (py_truthy (Some expr)); [|apply wp_ret; by apply HQ0]. cbn [andb negb] in *.
  destruct (croniter_next expr (OpsTask.created_at t)) as [next|]; [|apply wp_ret; by apply HQ0].
  destruct (next <=? now); [|apply wp_ret; by apply HQ0].
  apply wp_bind, wp_select_where.
  match goal with |- context [matching TTarget ?p (work s)] =>
    change (matching TTarget p (work s))
      with (matching TTarget (λ r, OpsTaskTarget.task_id r =? task) (work s)) end.
  set (ts := matching TTarget _ (work s)).
  assert (∀ g, g ∈ ts ↔ ∃ r, targets (work s) !! g = Some r ∧ OpsTaskTarget.task_id r = task) as Hts.
  { intros g. etransitivity; [apply elem_of_matching|]. by setoid_rewrite Z.eqb_eq. }
  apply wp_bind, (wp_create_executions (Some task) d0 task t ts);
    [by apply good_weaken|done|done|done|apply matching_nodup|by intros g ?%Hts| |].
  { intros j e He Hg%Hts. destruct Hg as (r & Hr & Hrt).
    destruct (inv_target Hinv _ _ He) as (r' & Hr' & Hr't & _).
    rewrite (same_row TTarget Hr Hr') in Hrt. rewrite Hr't in Hrt.
    apply (inv_cron Hinv j e t He); [by rewrite Hrt|done|done]. }
  intros ids d1 n HG1 [Ho Hk Hnew Hall]. apply wp_bind.
  apply (wp_put_task (Some task) None d0 task t); try done;
    [by cbn [work]; rewrite Ho|by right|by intros _ [_ Hx]; apply (bool_decide_pack _) in Hx|].
  intros HG2. apply wp_ret. cbn [work set_work durable ticks] in *. apply HQ1; [done|done|..].
  - intros j Hj. autorewrite with store. rewrite lookup_insert_ne by done. by rewrite Ho.
  - autorewrite with store. by rewrite Ho.
  - intros j e He. autorewrite with store. by apply Hk.
  - intros j tj ->%list_elem_of_singleton Htj. split.
    + eexists. autorewrite with store. rewrite lookup_insert_eq. done.
    + intros g r Hg Hr. destruct (Hall g) as (i & e & He & Hf); [apply Hts; eauto|].
      exists i, e. split; [|done]. by autorewrite with store.
Qed.

(** Part of the way through the scan at [now]: the tasks [dn] have been looked
    at, and [ts] of them have fired. *)
Record cron_scan (now : datetime) (d0 : db) (dn ts : list Z) (d' : db) : Prop := {
  scan_sub : ts ⊆ dn;
  scan_due : ∀ j, j ∈ dn → (j ∈ ts ↔ ∃ t, tasks d0 !! j = Some t ∧ cron_due now t = true);
  scan_fired : fired ts d0 d';
  scan_other : ∀ j, j ∉ ts → tasks d' !! j = tasks d0 !! j;
  scan_targets : d' TTarget = d0 TTarget
}.

Lemma cron_scan_skip now d0 dn ts d' task t :
  cron_scan now d0 dn ts d' → task ∉ ts → tasks d0 !! task = Some t → cron_due now t = false →
  cron_scan now d0 (dn ++ [task]) ts d'.
Proof.
  intros [Hsub Hdue Hf Ho Ht] Hnts Ht0 Hno. split; try done.
  - intros j Hj%Hsub. list_in.
  - intros j [Hj| ->%list_elem_of_singleton]%elem_of_app; [by apply Hdue|].
    split; [done|]. intros (t' & Ht' & Hd'). rewrite <- (same_row TTask Ht0 Ht') in Hd'. congruence.
Qed.

Lemma cron_scan_fire now d0 dn ts d1 d' task t :
  cron_scan now d0 dn ts d1 → task ∉ dn → tasks d0 !! task = Some t → cron_due now t = true →
  (∀ j, j ≠ task → tasks d' !! j = tasks d1 !! j) → d' TTarget = d1 TTarget →
  (∀ j e, execs d1 !! j = Some e → execs d' !! j = Some e) → fired [task] d1 d' →
  cron_scan now d0 (dn ++ [task]) (ts ++ [task]) d'.
Proof.
  intros [Hsub Hdue Hfired Hother Htg] Hdn Ht0 Hd Hoth Htg' Hkeep Hnew.
  assert (task ∉ ts) as Hnts by by intros ?%Hsub.
  assert (tasks d1 !! task = Some t) as Ht by by etransitivity; [apply Hother|]. split.
  - intros j [Hj%Hsub| ->%list_elem_of_singleton]%elem_of_app; list_in.
  - intros j [Hj| ->%list_elem_of_singleton]%elem_of_app.
    + rewrite elem_of_app, list_elem_of_singleton, <- Hdue by done. split; [|by left].
      intros [?| ->]; done.
    + split; [by exists t|]. intros _. list_in.
  - intros j tj [Hj| ->%list_elem_of_singleton]%elem_of_app Htj.
    + destruct (Hfired j tj Hj Htj) as [(t' & Ht' & Hs') Hex]. split.
      * exists t'. split; [|done]. rewrite Hoth; [done|]. by intros ->.
      * intros g gr Hg Hgr. destruct (Hex g gr Hg Hgr) as (i & e & He & Hf).
        exists i, e. split; [by apply Hkeep|done].
    + destruct (Hnew task t) as [Hrun Hex]; [list_in|done|]. split; [done|].
      intros g gr Hg. apply Hex. by rewrite Htg.
  - intros j Hj. rewrite Hoth; [apply Hother|]; intros Hx; apply Hj; subst; list_in.
  - by rewrite Htg'.
Qed.

Lemma wp_fire_due_cron d0 (Q : Z → session → Prop) Ex s :
  task_inv None d0 → work s = d0 →
  (∀ ts d' n, good None d0 d' →
     (∀ j, j ∈ ts ↔ ∃ t, tasks d0 !! j = Some t ∧ cron_waiting t ∧ cron_due (clock (ticks s)) t = true) →
     fired ts d0 d' → (∀ j, j ∉ ts → tasks d' !! j = tasks d0 !! j) →
     Q (Z.of_nat (length ts)) (Session d' d' n)) →
  wp fire_due_cron Q Ex s.
Proof.
  intros Hinv Hw HQ. unfold fire_due_cron. apply wp_bind, wp_utcnow, wp_bind, wp_select_where.
  cbn [work tick]. rewrite Hw.
  match goal with |- context [matching TTask ?p d0] =>
    change (matching TTask p d0) with (matching TTask TaskRepository.cron_pending d0) end.
  set (ids := matching TTask _ d0). set (now := clock (ticks s)) in *.
  assert (∀ j, j ∈ ids ↔ ∃ t, tasks d0 !! j = Some t ∧ cron_waiting t) as Hids.
  { intros i. etransitivity; [apply elem_of_matching|]. by setoid_rewrite cron_pending_waiting. }
  assert (NoDup ids) as Hnd by apply matching_nodup.
  apply wp_bind, (wp_fold_loop (λ rest r s', ∃ dn ts, ids = dn ++ rest ∧
    good None d0 (work s') ∧ r = Z.of_nat (length ts) ∧ cron_scan now d0 dn ts (work s'))).
  - exists [], []. cbn [work tick]. rewrite Hw. split_and!; try done; [by apply good_refl|].
    split; [done|by intros j Hj%elem_of_nil|by intros j t Hj%elem_of_nil|done|done].
  - intros task rest r s' (dn & ts & Hsplit & HG & -> & Hscan).
    destruct (proj1 (Hids task)) as (t & Ht0 & Hwait); [rewrite Hsplit; list_in|].
    rewrite Hsplit in Hnd. apply NoDup_app in Hnd as (_ & Hdn & _).
    assert (task ∉ dn) as Hndn by (intros Hx; apply (Hdn task Hx); list_in).
    assert (task ∉ ts) as Hnts by (intros Hx; by apply Hndn, (scan_sub _ _ _ _ _ Hscan)).
    apply (wp_fire_one d0 now _ task t); [done|by etransitivity; [apply (scan_other _ _ _ _ _ Hscan)|]|done| |].
    + intros Hdue. exists (dn ++ [task]), ts. split_and!; [by rewrite <- app_assoc|done|done|by eapply cron_scan_skip].
    + intros d' n Hdue HG' Hoth Htg' Hkeep Hnew. exists (dn ++ [task]), (ts ++ [task]).
      split_and!; [by rewrite <- app_assoc|done|rewrite length_app; simpl; lia|by eapply cron_scan_fire].
  - intros r s' (dn & ts & Hsplit & HG & -> & Hscan).
    rewrite app_nil_r in Hsplit. subst dn. apply wp_bind, wp_commit, wp_ret.
    apply HQ; [done| |apply Hscan|apply Hscan]. intros j. split.
    + intros Hj. pose proof (scan_sub _ _ _ _ _ Hscan j Hj) as Hj'. apply (scan_due _ _ _ _ _ Hscan) in Hj; [|done].
      apply Hids in Hj' as (t & Ht & Hwt). destruct Hj as (t' & Ht' & Hd).
      exists t. split_and!; [done|done|]. by rewrite (same_row TTask Ht Ht').
    + intros (t & Ht & Hwt & Hd). apply (scan_due _ _ _ _ _ Hscan); [apply Hids; eauto|eauto].
Qed.

(** ** Creation *)

(** Is the service of [server] open to controlled operations? *)
Definition whitelisted (d : db) (server : Z) (service_name : string) : Prop :=
  ∃ i sv, rows (d TService) !! i = Some sv ∧ OpsServerService.server_id sv = server ∧
          OpsServerService.service_name sv = service_name ∧ OpsServerService.is_whitelisted sv = 1.

(** The services a controlled operation needs are open. *)
Definition services_open (d : db) (servers : list Z) (service_name : option string) : Prop :=
  ∃ name, service_name = Some name ∧ ∀ sid, sid ∈ servers → whitelisted d sid name.

(** A task [i] was created from the request. *)
Record created (data : TaskCreate) (creator_id : Z) (key : option string) (action : string)
    (i : Z) (d d' : db) : Prop := Created {
  created_fresh : tasks d !! i = None;
  created_action : ∀ s, _normalize_action data s = (Ok action, s);
  created_row : ∃ now now', tasks d' =
    <[i := fresh_row TTask i now (new_task data action creator_id key now')]> (tasks d);
  created_servers : ∀ sid, sid ∈ TaskCreate.server_ids data →
    ∃ r, rows (d TServer) !! sid = Some r ∧ alive TServer r = true;
  created_whitelist : action ∉ ["STATUS"; "LOGS"] →
    services_open d (TaskCreate.server_ids data) (TaskCreate.service_name data);
  created_targets : ∀ sid, (∃ g r, targets d' !! g = Some r ∧ OpsTaskTarget.task_id r = i ∧
                                   OpsTaskTarget.server_id r = sid) ↔
                           sid ∈ TaskCreate.server_ids data;
  created_keep : ∀ j e, execs d !! j = Some e → execs d' !! j = Some e;
  created_execs : if String.eqb (TaskCreate.schedule_type data) "ONCE"
    then ∀ g r, targets d' !! g = Some r → OpsTaskTarget.task_id r = i →
           ∃ j e, execs d' !! j = Some e ∧ first_attempt i g e
    else ∀ j e, execs d' !! j = Some e → OpsTaskExecution.task_id e ≠ i
}.

Lemma wp_validate_servers server_ids (Q : list Z → session → Prop) (Ex : exc → session → Prop) s :
  ((∀ sid, sid ∈ server_ids → ∃ r, rows (work s TServer) !! sid = Some r ∧ alive TServer r = true) →
   Q (set_iter server_ids) s) →
  (∀ sid, sid ∈ server_ids →
     (∀ r, rows (work s TServer) !! sid = Some r → alive TServer r = false) →
     Ex (AppException SERVER_NOT_FOUND ("服务器不存在: " +:+ py_str sid) 404) s) →
  wp (_validate_servers server_ids) Q Ex s.
Proof.
  intros HQ HE. unfold _validate_servers.
  apply (wp_fold_loop (λ rest acc s', s' = s ∧ set_iter server_ids = acc ++ rest ∧
    ∀ sid, sid ∈ acc → ∃ r, rows (work s TServer) !! sid = Some r ∧ alive TServer r = true)).
  - split_and!; [done|done|]. by intros sid ?%elem_of_nil.
  - intros sid rest acc s' (-> & Hsplit & Hacc). apply wp_bind, (wp_get TServer).
    + intros r Hr Ha. apply wp_ret. split_and!; [done|by rewrite <- app_assoc|].
      intros x [Hx| ->%list_elem_of_singleton]%elem_of_app; [by apply Hacc|]. by exists r.
    + intros Hn. apply wp_app_error, HE; [|done]. apply set_iter_elem. rewrite Hsplit. list_in.
  - intros acc s' (-> & Hsplit & Hacc). rewrite app_nil_r in Hsplit. rewrite <- Hsplit in *.
    apply HQ. intros sid Hin. by apply Hacc, set_iter_elem.
Qed.

Lemma wp_service_check d sid name (Q : () → session → Prop) (Ex : exc → session → Prop) s :
  integrity (work s) → work s = d → is_Some (rows (d TServer) !! sid) →
  (whitelisted d sid name → Q () s) → (¬ whitelisted d sid name → ∀ e, Ex e s) →
  wp (s ← obj TServer sid;
      let refuse : M unit := app_error SERVICE_NOT_WHITELISTED
        (OpsServer.hostname s +:+ " 上的服务 " +:+ name +:+ " 不允许受控操作") 403 in
      service ← ServiceRepository.get_by_server_service sid name;
      match service with
      | None => refuse
      | Some sv =>
        r ← obj TService sv;
        if negb (OpsServerService.is_whitelisted r =? 1) then refuse else mret ()
      end) Q Ex s.
Proof.
  intros HI <- [r Hr] HQ HE. apply wp_bind, (wp_obj_ok TServer sid r); [done|].
  apply wp_bind, wp_bind, wp_select_where, wp_ret.
  match goal with |- context [head ?l] => set (found := l) end.
  assert (∀ i, i ∈ found ↔ ∃ sv, rows (work s TService) !! i = Some sv ∧
    OpsServerService.server_id sv = sid ∧ OpsServerService.service_name sv = name) as Hf.
  { intros i. etransitivity; [apply elem_of_matching|]. cbn [alive andb]. unfold ServiceRepository.by_name.
    by setoid_rewrite andb_true_iff; setoid_rewrite Z.eqb_eq; setoid_rewrite String.eqb_eq. }
  destruct found as [|i found']; simpl.
  - apply wp_app_error, HE. intros (i & sv & Hsv & H1 & H2 & _). apply (not_elem_of_nil i), Hf. eauto.
  - destruct (proj1 (Hf i)) as (sv & Hsv & H1 & H2); [list_in|].
    apply wp_bind, (wp_obj_ok TService i sv); [done|].
    destruct (Z.eqb_spec (OpsServerService.is_whitelisted sv) 1) as [Hw|Hw]; cbn [negb].
    + apply wp_ret, HQ. by exists i, sv.
    + apply wp_app_error, HE. intros (j & sv' & Hsv' & H1' & H2' & Hw').
      assert (i = j) as ->; [|by rewrite (same_row TService Hsv Hsv') in Hw].
      apply (integrity_unique TService i j sv sv' (work s)); [done..|]. simpl.
      rewrite !bool_decide_true; [done|congruence..].
Qed.

Lemma wp_validate_whitelist servers service_name action (Q : () → session → Prop)
    (Ex : exc → session → Prop) s :
  integrity (work s) → (∀ sid, sid ∈ servers → is_Some (rows (work s TServer) !! sid)) →
  ((action ∉ ["STATUS"; "LOGS"] → services_open (work s) servers service_name) → Q () s) →
  (action ∉ ["STATUS"; "LOGS"] →
   py_truthy service_name = false ∨ ¬ services_open (work s) servers service_name → ∀ e, Ex e s) →
  wp (_validate_service_whitelist servers service_name action) Q Ex s.
Proof.
  intros HI Hin HQ HE. unfold _validate_service_whitelist.
  destruct (bool_decide_reflect (action ∈ ["STATUS"; "LOGS"])) as [|Hact]; [by apply wp_ret, HQ|].
  specialize (HE Hact). destruct service_name as [name|]; [|apply wp_app_error, HE; by left].
  destruct (py_truthy (Some name)); cbn [negb]; [|apply wp_app_error, HE; by left].
  apply (wp_fold_loop (λ rest _ s', s' = s ∧ ∃ dn, servers = dn ++ rest ∧
    ∀ sid, sid ∈ dn → whitelisted (work s) sid name)).
  - split; [done|]. exists []. split; [done|]. by intros sid ?%elem_of_nil.
  - intros sid rest _ s' (-> & dn & Hsplit & Hdn).
    apply (wp_service_check (work s)); [done|done|apply Hin; rewrite Hsplit; list_in| |].
    + intros Hw. split; [done|]. exists (dn ++ [sid]). split; [by rewrite <- app_assoc|].
      intros x [Hx| ->%list_elem_of_singleton]%elem_of_app; [by apply Hdn|done].
    + intros Hn. apply HE. right. intros (name' & [= <-] & Hall). apply Hn, Hall.
      rewrite Hsplit. list_in.
  - intros [] s' (-> & dn & Hsplit & Hdn). rewrite app_nil_r in Hsplit. subst dn.
    apply HQ. intros _. by exists name.
Qed.

(** Targets [ts] of [task] were created for the servers [sids]. *)
Record targets_made (task : Z) (d d' : db) (ts sids : list Z) : Prop := {
  made_only : only TTarget d d';
  made_nodup : NoDup ts;
  made_new : ∀ g, targets d !! g = None → g ∈ ts ↔ is_Some (targets d' !! g);
  made_fresh : ∀ g, g ∈ ts → targets d !! g = None;
  made_kept : ∀ g r, targets d !! g = Some r → targets d' !! g = Some r;
  made_for : ∀ sid, sid ∈ sids ↔ ∃ g r, g ∈ ts ∧ targets d' !! g = Some r ∧ OpsTaskTarget.server_id r = sid;
  made_of : ∀ g, g ∈ ts → ∃ r, targets d' !! g = Some r ∧ OpsTaskTarget.task_id r = task
}.

Lemma targets_made_nil task d : targets_made task d d [] [].
Proof.
  split; try done; [constructor|..].
  - intros g Hg. rewrite Hg. split; [by intros ?%elem_of_nil|by intros []].
  - by intros g ?%elem_of_nil.
  - intros sid. split; [by intros ?%elem_of_nil|]. by intros (g & r & ?%elem_of_nil & _).
  - by intros g ?%elem_of_nil.
Qed.

Lemma targets_made_snoc task d d' ts sids sid row :
  let i := next_id (d' TTarget) in
  targets_made task d d' ts sids → targets d' !! i = None →
  OpsTaskTarget.task_id row = task → OpsTaskTarget.server_id row = sid →
  targets_made task d (add_row TTarget row d') (ts ++ [i]) (sids ++ [sid]).
Proof.
  intros i [Ho Hnd H1 H2 H3 H4 H5] Hfresh Htask Hsid.
  assert (targets d !! i = None) as Hfresh0.
  { destruct (targets d !! i) as [r0|] eqn:E0; [|done]. pose proof (eq_trans (eq_sym Hfresh) (H3 _ _ E0)). done. }
  assert (i ∉ ts) as Hi.
  { intros (r0 & Hr0 & _)%H5. pose proof (eq_trans (eq_sym Hfresh) Hr0). done. }
  split.
  - intros k Hk. rewrite add_row_ne by done. by apply Ho.
  - apply NoDup_app. split_and!; [done| |by apply NoDup_singleton]. intros g Hg ->%list_elem_of_singleton. done.
  - intros g Hg. autorewrite with store. rewrite elem_of_app, list_elem_of_singleton.
    rewrite lookup_insert_is_Some', H1 by done. naive_solver.
  - intros g [Hg| ->%list_elem_of_singleton]%elem_of_app; [by apply H2|done].
  - intros g r0 Hr0. autorewrite with store. rewrite lookup_insert_ne; [by apply H3|].
    intros <-. pose proof (eq_trans (eq_sym Hfresh0) Hr0). done.
  - intros x. rewrite elem_of_app, list_elem_of_singleton, H4. autorewrite with store. split.
    + intros [(g & r0 & Hg & Hr0 & Hs)| ->].
      * exists g, r0. split_and!; [list_in| |done]. rewrite lookup_insert_ne; [done|]. by intros <-.
      * exists i, row. split_and!; [list_in|apply lookup_insert_eq|done].
    + intros (g & r0 & Hg & Hr0 & Hs). revert Hr0. intros [[<- <-]|[Hne Hr0]]%lookup_insert_Some; [right; congruence|].
      left. exists g, r0. split_and!; [|done|done]. apply elem_of_app in Hg as [?| ->%list_elem_of_singleton]; done.
  - intros g [Hg| ->%list_elem_of_singleton]%elem_of_app; autorewrite with store.
    + destruct (H5 g Hg) as (r0 & Hr0 & Hr0t). exists r0. split; [|done]. rewrite lookup_insert_ne; [done|]. by intros <-.
    + exists row. split; [apply lookup_insert_eq|done].
Qed.

Lemma wp_create_targets d0 task servers (Q : list Z → session → Prop) Ex s :
  good None d0 (work s) → is_Some (tasks (work s) !! task) →
  (∀ g r, targets (work s) !! g = Some r → OpsTaskTarget.task_id r ≠ task) →
  (∀ sid, sid ∈ servers → is_Some (rows (work s TServer) !! sid)) →
  (∀ ts sids d' n, good None d0 d' → targets_made task (work s) d' ts sids → (∀ sid, sid ∈ servers ↔ sid ∈ sids) →
     Q ts (Session d' (durable s) n)) →
  wp (TaskTargetRepository.create_targets task servers) Q Ex s.
Proof.
  intros HG Htask Hnone Hservers HQ. unfold TaskTargetRepository.create_targets, create_many, map_loop.
  set (f := λ sid, OpsTaskTarget.Mk 0 task sid "PENDING" 0).
  pose proof (set_iter_nodup servers) as Hnd0.
  apply (wp_fold_loop (λ rest ts s', ∃ dn rs, set_iter servers = dn ++ rs ∧ rest = map f rs ∧
    durable s' = durable s ∧ good None d0 (work s') ∧ targets_made task (work s) (work s') ts dn)).
  - exists [], (set_iter servers). split_and!; try done. apply targets_made_nil.
  - intros r rest ts s' (dn & rs & Hsplit & Hrest & Hd & HG' & Hmade). destruct rs as [|sid rs]; [done|].
    injection Hrest as -> ->. rewrite Hsplit in Hnd0. apply NoDup_app in Hnd0 as (_ & Hdn & _).
    apply wp_bind, wp_create_ok; [apply HG'|..].
    { apply admissible_spec. simpl. split.
      - intros k' j Hin. apply elem_of_cons in Hin as [[= -> ->]|[= -> ->]%list_elem_of_singleton];
          rewrite (made_only _ _ _ _ _ Hmade) by done; [done|].
        apply Hservers, set_iter_elem. rewrite Hsplit. list_in.
      - intros j r' Hr' _. apply not_true_is_false. intros [Hx Hy]%andb_true_iff.
        apply bool_decide_eq_true in Hx, Hy. destruct (targets (work s) !! j) as [r0|] eqn:E0.
        + apply (Hnone j r0 E0). by rewrite (same_row TTarget (made_kept _ _ _ _ _ Hmade _ _ E0) Hr').
        + apply (Hdn sid); [|list_in]. apply (made_for _ _ _ _ _ Hmade). exists j, r'.
          split_and!; [by apply (made_new _ _ _ _ _ Hmade); [|exists r']|done|done]. }
    intros HI'. apply wp_ret. exists (dn ++ [sid]), rs. cbn [work set_work durable tick].
    assert (targets (work s') !! next_id (work s' TTarget) = None) as Hfresh by by apply next_fresh, HG'.
    split_and!; [by rewrite <- app_assoc|done|done|by apply good_add_target|by apply targets_made_snoc].
  - intros ts s' (dn & rs & Hsplit & Hrest & Hd & HG' & Hmade).
    destruct rs; [|done]. rewrite app_nil_r in Hsplit. subst dn.
    destruct s' as [d' du n]. simpl in Hd. subst du. apply (HQ _ (set_iter servers)); [done|done|].
    intros sid. by rewrite set_iter_elem.
Qed.

Lemma valid_attempts data : TaskCreate.valid data = true → 1 ≤ TaskCreate.max_attempts data.
Proof. unfold TaskCreate.valid. intros Hv. repeat apply andb_true_iff in Hv as [Hv ?]. lia. Qed.

(** The action of a request depends on the request only. *)
Lemma normalize_action_cases data :
  (∃ action, ∀ s, _normalize_action data s = (Ok action, s)) ∨
  (∃ e, ∀ s, _normalize_action data s = (Raise e, s)).
Proof. unfold _normalize_action. repeat case_match; (left; by eexists) || (right; by eexists). Qed.

(** The conditions under which a request with a new key is accepted. *)
Record acceptable (d : db) (data : TaskCreate) (creator_id : Z) (key : option string)
    (action : string) : Prop := Acceptable {
  acc_action : ∀ s, _normalize_action data s = (Ok action, s);
  acc_servers : ∀ sid, sid ∈ TaskCreate.server_ids data →
    ∃ r, rows (d TServer) !! sid = Some r ∧ alive TServer r = true;
  acc_open : action ∉ ["STATUS"; "LOGS"] → py_truthy (TaskCreate.service_name data) = true ∧
    services_open d (TaskCreate.server_ids data) (TaskCreate.service_name data);
  acc_user : is_Some (rows (d TUser) !! creator_id);
  acc_key : ∀ k j t, key = Some k → tasks d !! j = Some t → OpsTask.idempotency_key t ≠ Some k
}.

(** The rest of [create_task] once no task has the idempotency key. *)
Definition create_fresh (data : TaskCreate) (creator_id : Z) (key : option string) : M Z :=
  action ← _normalize_action data;
  servers ← _validate_servers (TaskCreate.server_ids data);
  _validate_service_whitelist servers (TaskCreate.service_name data) action;;
  now ← utcnow;
  task ← create TTask (new_task data action creator_id key now);
  targets ← TaskTargetRepository.create_targets task servers;
  when (String.eqb (TaskCreate.schedule_type data) "ONCE")
    (_ ← TaskExecutionRepository.create_executions task targets; mret ());;
  commit;;
  mret task.

Lemma created_task_open data action creator_id key i now now' :
  task_terminal (OpsTask.status (fresh_row TTask i now (new_task data action creator_id key now'))) = false.
Proof. simpl. by destruct (_ || _). Qed.

(** No target and no execution refers to a key that has no task. *)
Lemma fresh_task_unused d i :
  task_inv None d → tasks d !! i = None →
  (∀ g r, targets d !! g = Some r → OpsTaskTarget.task_id r ≠ i) ∧
  (∀ j e, execs d !! j = Some e → OpsTaskExecution.task_id e ≠ i).
Proof.
  intros Hinv Hfresh. split.
  - intros g r Hg Hr. assert (is_Some (tasks d !! OpsTaskTarget.task_id r)) as [t Ht].
    { apply (integrity_refs TTarget g r d TTask); [apply Hinv|done|simpl; set_solver]. }
    rewrite Hr in Ht. pose proof (eq_trans (eq_sym Hfresh) Ht). done.
  - intros j e He Hx. destruct (task_of_exec _ _ _ _ Hinv He) as [t Ht]. rewrite Hx in Ht.
    pose proof (eq_trans (eq_sym Hfresh) Ht). done.
Qed.

(** Putting together the parts of a creation. *)
Lemma created_intro d0 d2 d3 data creator_id key action i row now now' (ts : list Z) :
  task_inv None d0 → tasks d0 !! i = None →
  (∀ s, _normalize_action data s = (Ok action, s)) →
  row = fresh_row TTask i now (new_task data action creator_id key now') →
  tasks d2 = <[i := row]> (tasks d0) →
  (∀ sid, sid ∈ TaskCreate.server_ids data →
     ∃ r, rows (d0 TServer) !! sid = Some r ∧ alive TServer r = true) →
  (action ∉ ["STATUS"; "LOGS"] →
   services_open d0 (TaskCreate.server_ids data) (TaskCreate.service_name data)) →
  (∀ g, targets d0 !! g = None → g ∈ ts ↔ is_Some (targets d2 !! g)) →
  (∀ g r, targets d0 !! g = Some r → targets d2 !! g = Some r) →
  (∀ sid, sid ∈ TaskCreate.server_ids data ↔
     ∃ g r, g ∈ ts ∧ targets d2 !! g = Some r ∧ OpsTaskTarget.server_id r = sid) →
  (∀ g, g ∈ ts → ∃ r, targets d2 !! g = Some r ∧ OpsTaskTarget.task_id r = i) →
  d3 TTask = d2 TTask → d3 TTarget = d2 TTarget →
  (∀ j e, execs d0 !! j = Some e → execs d3 !! j = Some e) →
  (if String.eqb (TaskCreate.schedule_type data) "ONCE"
   then ∀ g, g ∈ ts → ∃ j e, execs d3 !! j = Some e ∧ first_attempt i g e
   else d3 TExec = d0 TExec) →
  created data creator_id key action i d0 d3.
Proof.
  intros Hinv Hfresh Hact -> Htask Hservers Hwl H1 H3 H4 H5 Ht3 Hg3 Hk3 He3.
  destruct (fresh_task_unused _ _ Hinv Hfresh) as [Hnotarget Hnoexec].
  assert (∀ g r, targets d2 !! g = Some r → OpsTaskTarget.task_id r = i → g ∈ ts) as Hnew.
  { intros g r Hg Hr. destruct (targets d0 !! g) as [r0|] eqn:E0; [|by apply H1; [|exists r]].
    exfalso. apply (Hnotarget g r0 E0). by rewrite (same_row TTarget (H3 g r0 E0) Hg). }
  split; try done.
  - exists now, now'. by rewrite Ht3.
  - intros sid. rewrite Hg3, H4. split.
    + intros (g & r & Hg & Hgt & Hgs). exists g, r. split_and!; [by eapply Hnew|done|done].
    + intros (g & r & Hg & Hr & Hs). exists g, r. split_and!; [done| |done].
      destruct (H5 g Hg) as (r' & Hr' & Ht'). by rewrite (same_row TTarget Hr Hr').
  - destruct (String.eqb _ _); [|by rewrite He3].
    intros g r Hg Hr. apply He3. rewrite Hg3 in Hg. by eapply Hnew.
Qed.

(** The executions, and the commit. *)
Lemma wp_create_rest d0 d2 data creator_id key action row now now' (ts sids : list Z)
    (Q : Z → session → Prop) (Ex : exc → session → Prop) du n :
  let i := next_id (d0 TTask) in
  task_inv None d0 → TaskCreate.valid data = true →
  (∀ s, _normalize_action data s = (Ok action, s)) →
  row = fresh_row TTask i now (new_task data action creator_id key now') →
  (∀ sid, sid ∈ TaskCreate.server_ids data →
     ∃ r, rows (d0 TServer) !! sid = Some r ∧ alive TServer r = true) →
  (action ∉ ["STATUS"; "LOGS"] →
   services_open d0 (TaskCreate.server_ids data) (TaskCreate.service_name data)) →
  good None d0 d2 → targets_made i (add_row TTask row d0) d2 ts sids →
  (∀ sid, sid ∈ set_iter (TaskCreate.server_ids data) ↔ sid ∈ sids) →
  (∀ action i d' n, good None d0 d' → created data creator_id key action i d0 d' →
     Q i (Session d' d' n)) →
  wp (when (String.eqb (TaskCreate.schedule_type data) "ONCE")
        (_ ← TaskExecutionRepository.create_executions i ts; mret ());;
      commit;; mret i) Q Ex (Session d2 du n).
Proof.
  intros i Hinv Hvalid Hact Hrow Hservers Hopen HG2 [Ho2 Hnd H1 H2 H3 H4 H5] Hsids HQ. setoid_rewrite <- Hsids in H4.
  assert (tasks d0 !! i = None) as Hfresh by by apply next_fresh, Hinv.
  assert (tasks d2 = <[i := row]> (tasks d0)) as Htasks.
  { rewrite Ho2 by done. by autorewrite with store. }
  assert (tasks d2 !! i = Some row) as Hti by (rewrite Htasks; apply lookup_insert_eq).
  assert (add_row TTask row d0 TTarget = d0 TTarget) as Htg0 by by apply add_row_ne.
  assert (d2 TExec = d0 TExec) as Hex2 by (rewrite Ho2 by done; by apply add_row_ne).
  assert (task_terminal (OpsTask.status row) = false) as Hto by (rewrite Hrow; apply created_task_open).
  setoid_rewrite Htg0 in H1. setoid_rewrite Htg0 in H2. setoid_rewrite Htg0 in H3.
  setoid_rewrite set_iter_elem in H4.
  pose proof (created_intro d0 d2) as Hcr.
  apply wp_bind. unfold when. destruct (String.eqb (TaskCreate.schedule_type data) "ONCE") eqn:Honce.
  - assert (¬ cron_waiting row) as Hcron.
    { rewrite Hrow. intros [Hx _]. simpl in Hx. apply String.eqb_eq in Honce. congruence. }
    apply wp_bind, (wp_create_executions None d0 i row ts);
      [done|done|done|done|done|by intros g ?%H5| |].
    { intros j e. cbn [work]. rewrite Hex2. intros He Hg%H2.
      destruct (inv_target Hinv _ _ He) as (g & Hg' & _).
      pose proof (eq_trans (eq_sym Hg) Hg'). done. }
    intros ids d3 n' HG3 [Ho3 Hk3 Hnew3 Hall3]. apply wp_ret, wp_bind, wp_commit, wp_ret.
    cbn [work durable ticks] in *. apply (HQ action); [done|].
    eapply Hcr; [done..|by apply Ho3|by apply Ho3| |by rewrite Honce].
    intros j e He. apply Hk3. by rewrite Hex2.
  - apply wp_ret, wp_bind, wp_commit, wp_ret. cbn [work durable ticks].
    apply (HQ action); [done|]. eapply Hcr; [done..| |by rewrite Honce].
    intros j e. by rewrite Hex2.
Qed.

Lemma wp_create_fresh d0 data creator_id key (Q : Z → session → Prop) (Ex : exc → session → Prop) s :
  TaskCreate.valid data = true → task_inv None d0 → work s = d0 →
  ((∀ action, ¬ acceptable d0 data creator_id key action) → ∀ e s', Ex e s') →
  (∀ action i d' n, good None d0 d' → created data creator_id key action i d0 d' →
     Q i (Session d' d' n)) →
  wp (create_fresh data creator_id key) Q Ex s.
Proof.
  intros Hvalid Hinv Hw HE HQ. unfold create_fresh. apply wp_bind.
  destruct (normalize_action_cases data) as [[action Hact]|[e Hact]]; unfold wp at 1; rewrite Hact.
  2: { apply HE. intros a [Ha _ _ _ _]. by specialize (Ha s); rewrite Hact in Ha. }
  assert (∀ a, acceptable d0 data creator_id key a → a = action) as Huniq.
  { intros a [Ha _ _ _ _]. specialize (Ha s). rewrite Hact in Ha. by injection Ha. }
  apply wp_bind, wp_validate_servers; rewrite Hw.
  2: { intros sid Hsid Hn. apply HE. intros a [_ Ha _ _ _].
       destruct (Ha sid Hsid) as (r & Hr & Hal). by rewrite (Hn r Hr) in Hal. }
  intros Hservers.
  apply wp_bind, wp_validate_whitelist; rewrite Hw; [apply Hinv| | |].
  { intros sid Hsid. rewrite set_iter_elem in Hsid. destruct (Hservers sid Hsid) as (r & Hr & _). by exists r. }
  2: { intros Hro Hbad e. apply HE. intros a Ha. rewrite (Huniq a Ha) in Ha.
       destruct (acc_open _ _ _ _ _ Ha Hro) as [Ht (name & Hname & Hopen)].
       destruct Hbad as [Hf|Hn]; [congruence|]. apply Hn. exists name. split; [done|].
       intros sid Hsid. rewrite set_iter_elem in Hsid. by apply Hopen. }
  intros Hwl.
  assert (action ∉ ["STATUS"; "LOGS"] →
          services_open d0 (TaskCreate.server_ids data) (TaskCreate.service_name data)) as Hopen.
  { intros Hro. destruct (Hwl Hro) as (name & Hname & Hall). exists name. split; [done|].
    intros sid Hsid. by apply Hall, set_iter_elem. }
  apply wp_bind, wp_utcnow, wp_bind, wp_create. cbn [work set_work tick durable ticks]. rewrite Hw.
  split.
  2: { intros Hbad. apply HE. intros a Ha. apply not_true_iff_false in Hbad. apply Hbad, admissible_spec.
       destruct Ha as [_ _ _ Hu Hk]. split; simpl.
       - intros k' j [= -> ->]%list_elem_of_singleton. done.
       - intros j t Ht _. destruct key as [k|]; [|done]. simpl.
         destruct (OpsTask.idempotency_key t) as [k'|] eqn:Hk'; [|done].
         apply bool_decide_eq_false. intros <-. by apply (Hk k j t). }
  intros Ha.
  set (i := next_id (d0 TTask)) in *.
  assert (tasks d0 !! i = None) as Hfresh by by apply next_fresh, Hinv.
  match goal with |- context [add_row TTask ?r d0] => set (row := r) in * end.
  assert (good None d0 (add_row TTask row d0)) as HG1.
  { apply good_add_task; [by apply good_refl|by apply integrity_add_row; [apply Hinv|]|done| |].
    - by apply valid_attempts.
    - apply created_task_open. }
  destruct (fresh_task_unused _ _ Hinv Hfresh) as [Hnotarget _].
  apply wp_bind, (wp_create_targets d0); cbn [work set_work]; [done|..].
  { autorewrite with store. eexists. apply lookup_insert_eq. }
  { intros g r. rewrite add_row_ne by done. apply Hnotarget. }
  { intros sid Hsid. rewrite set_iter_elem in Hsid. rewrite add_row_ne by done.
    destruct (Hservers sid Hsid) as (r & Hr & _). by exists r. }
  intros ts sids d2 n HG2 Hmade Hsids. cbn [work] in *.
  cbn [work set_work tick durable ticks] in *. eapply wp_create_rest; first [done|exact HQ].
Qed.

(** The search for the idempotency key. *)
Lemma wp_find_key k (Hne : k ≠ "") (Q : option Z → session → Prop) Ex s :
  (∀ found : option Z,
     match found with
     | Some i => ∃ t, tasks (work s) !! i = Some t ∧ OpsTask.idempotency_key t = Some k
     | None => ∀ j t, tasks (work s) !! j = Some t → OpsTask.idempotency_key t ≠ Some k
     end → Q found s) →
  wp (if py_truthy (Some k) then TaskRepository.get_by_idempotency_key k else mret None) Q Ex s.
Proof.
  intros HQ. unfold py_truthy, TaskRepository.get_by_idempotency_key.
  rewrite (proj2 (String.eqb_neq k "")) by done. simpl negb. cbv iota.
  apply wp_bind, wp_select_where, wp_ret.
  match goal with |- context [head ?l] => set (found := l) end.
  assert (∀ i, i ∈ found ↔ ∃ t, tasks (work s) !! i = Some t ∧ OpsTask.idempotency_key t = Some k) as Hf.
  { intros i. etransitivity; [apply elem_of_matching|]. cbn [alive andb].
    by setoid_rewrite bool_decide_eq_true. }
  apply HQ. destruct found as [|i found']; simpl.
  - intros j t Ht Hik. apply (not_elem_of_nil j), Hf. eauto.
  - apply Hf. list_in.
Qed.

Lemma wp_create_task d0 data creator_id key (Q : Z → session → Prop) (Ex : exc → session → Prop) s :
  TaskCreate.valid data = true → task_inv None d0 → work s = d0 →
  ((∀ action, ¬ acceptable d0 data creator_id key action) → ∀ e s', Ex e s') →
  (∀ i t k, key = Some k → k ≠ "" → tasks d0 !! i = Some t → OpsTask.idempotency_key t = Some k →
     Q i s) →
  (∀ action i d' n, good None d0 d' → created data creator_id key action i d0 d' →
     (∀ k j t, key = Some k → k ≠ "" → tasks d0 !! j = Some t → OpsTask.idempotency_key t ≠ Some k) →
     Q i (Session d' d' n)) →
  wp (create_task data creator_id key) Q Ex s.
Proof.
  intros Hvalid Hinv Hw HE HQ1 HQ2. unfold create_task. fold (create_fresh data creator_id key).
  assert ((∀ k j t, key = Some k → k ≠ "" → tasks d0 !! j = Some t → OpsTask.idempotency_key t ≠ Some k) →
          wp (create_fresh data creator_id key) Q Ex s) as Hfresh.
  { intros Hno. eapply wp_create_fresh; [done..|]. eauto. }
  apply wp_bind. destruct key as [k|]; [|by apply wp_ret, Hfresh].
  destruct (String.eqb_spec k "") as [->|Hne].
  { apply wp_ret, Hfresh. by intros ? ? ? [= <-]. }
  apply (wp_find_key k Hne). rewrite Hw. intros [i|] Hi.
  - destruct Hi as (t & Ht & Hk). by eapply wp_ret, HQ1.
  - apply Hfresh. intros k' j t [= <-] _. apply Hi.
Qed.
End Create.
