(* ===== verification/TaskAdmin.v ===== *)
(** * Confirmation, cancellation and history clean-up

    What [confirm_task], [cancel_task] and [cleanup_history] do to a database
    that satisfies the invariant. *)
From S2P Require Import Prelude Confined.
From S2P Require Export TaskCreation.

(** Which tables refer to a row: by cases on the referring table. *)
Ltac refs_tac k :=
  destruct k; simpl; rewrite ?elem_of_cons, ?elem_of_app, ?elem_of_nil;
    repeat match goal with |- context [opt_ref _ ?o] => destruct o; simpl end;
    rewrite ?elem_of_cons, ?elem_of_nil; naive_solver.

Section Admin.
Context `{E : Env} `{!EnvOk E}.

(** ** Confirmation *)

Lemma wp_confirm_task d0 task operator_id t (Q : Z → session → Prop) (Ex : exc → session → Prop) s :
  good None d0 (work s) → tasks (work s) !! task = Some t →
  (OpsTask.status t ≠ T_CREATED → Ex (AppException BAD_REQUEST "任务当前无需确认" 400) s) →
  (rows (work s TUser) !! operator_id = None → ∀ s', Ex IntegrityError s') →
  (∀ d' n, OpsTask.status t = T_CREATED → good None d0 d' →
     tasks d' = <[task := t <| OpsTask.status := T_PENDING |>
                            <| OpsTask.confirmed_by := Some operator_id |>
                            <| OpsTask.confirmed_at := Some (clock (ticks s)) |>]> (tasks (work s)) →
     only TTask (work s) d' → Q task (Session d' d' n)) →
  wp (confirm_task task operator_id) Q Ex s.
Proof.
  intros HG Ht HE1 HE2 HQ. pose proof HG as (_ & Hinv & _). unfold confirm_task.
  apply wp_bind, (wp_get_task_entity _ t); [done|]. apply wp_bind, (wp_obj_ok TTask task t); [done|].
  destruct (bool_decide_reflect (OpsTask.status t = T_CREATED)) as [Hst|Hst]; cbn [negb];
    [|by apply wp_app_error, HE1].
  apply wp_bind, wp_utcnow, wp_bind, (wp_assign TTask); cbn [work tick].
  2: { intros Hn. pose proof (eq_trans (eq_sym Ht) Hn). done. }
  2: { intros t' Ht' Ha. rewrite <- (same_row TTask Ht Ht') in Ha.
       destruct (rows (work s TUser) !! operator_id) as [u|] eqn:Hu; [exfalso|by apply HE2].
       apply not_true_iff_false in Ha. apply Ha, admissible_spec.
       destruct (proj1 (admissible_spec TTask task t (work s))) as [Hrefs Huniq]; [by apply Hinv|].
       split; [|done]. simpl in *. intros k' j [Heq|Heq%list_elem_of_singleton]%elem_of_cons; injection Heq as -> ->.
       - apply Hrefs. left.
       - by exists u. }
  intros t' Ht' Ha. rewrite <- (same_row TTask Ht Ht') in *.
  apply wp_bind, wp_commit, wp_ret. cbn [work set_work durable ticks].
  apply HQ; [done| |by autorewrite with store|by intros k Hk; apply put_row_ne].
  apply (good_put_task None None d0 _ task t); try done; [by rewrite Hst|by left| |].
  - intros _ [Hsch _] j e He Hx. apply (inv_cron Hinv j e t He); [by rewrite Hx|done|].
    split; [done|]. rewrite Hst. set_solver.
  - by eapply integrity_put_row; [apply Hinv| |].
Qed.

(** ** Cancellation *)

(** A pending execution is cancelled, any other one is left alone. *)
Definition cancelled (e e' : OpsTaskExecution) : Prop :=
  if bool_decide (OpsTaskExecution.status e = E_PENDING)
  then exec_core e' = exec_core e ∧ OpsTaskExecution.status e' = E_CANCELLED
  else e' = e.

Lemma wp_cancel_loop d0 ids (Q : () → session → Prop) Ex s :
  good None d0 (work s) → NoDup ids → (∀ i, i ∈ ids → is_Some (execs (work s) !! i)) →
  (∀ d' n, good None d0 d' → only TExec (work s) d' →
     (∀ i e, execs (work s) !! i = Some e → ∃ e', execs d' !! i = Some e' ∧
        if bool_decide (i ∈ ids) then cancelled e e' else e' = e) →
     Q () (Session d' (durable s) n)) →
  wp (for_each (λ execution,
        e ← obj TExec execution;
        when (bool_decide (OpsTaskExecution.status e = E_PENDING))
          (TaskExecutionRepository.finish execution E_CANCELLED None None (Some "任务被取消") None)) ids) Q Ex s.
Proof.
  intros HG Hnd Hin HQ.
  apply (wp_fold_loop (λ rest _ s', ∃ dn, ids = dn ++ rest ∧ durable s' = durable s ∧
    good None d0 (work s') ∧ only TExec (work s) (work s') ∧
    ∀ i e, execs (work s) !! i = Some e → ∃ e', execs (work s') !! i = Some e' ∧
        if bool_decide (i ∈ dn) then cancelled e e' else e' = e)).
  - exists []. split_and!; try done. intros i e He. exists e. split; [done|].
    by rewrite bool_decide_false by list_in.
  - intros i rest _ s' (dn & Hsplit & Hd & HG' & Ho & Hrows).
    destruct (Hin i) as [e He0]; [rewrite Hsplit; list_in|].
    rewrite Hsplit in Hnd. apply NoDup_app in Hnd as (_ & Hdn & _).
    assert (i ∉ dn) as Hi by (intros Hx; apply (Hdn i Hx); list_in).
    destruct (Hrows i e He0) as (e1 & He & Heq). rewrite bool_decide_false in Heq by done. subst e1.
    apply wp_bind, (wp_obj_ok TExec i e); [done|]. unfold when.
    assert (∀ (d' : db) (e' : OpsTaskExecution), (∀ j, j ≠ i → execs d' !! j = execs (work s') !! j) → execs d' !! i = Some e' →
      cancelled e e' →
      ∀ j ej, execs (work s) !! j = Some ej → ∃ e', execs d' !! j = Some e' ∧
        if bool_decide (j ∈ dn ++ [i]) then cancelled ej e' else e' = ej) as Hnext.
    { intros d' e' Hother Hnew Hc j ej Hej. destruct (decide (j = i)) as [->|Hne].
      - exists e'. split; [done|]. rewrite bool_decide_true by list_in.
        by rewrite <- (same_row TExec He0 Hej).
      - destruct (Hrows j ej Hej) as (e2 & He2 & Hcase). exists e2.
        split; [by etransitivity; [apply Hother|]|]. destruct (bool_decide_reflect (j ∈ dn)).
        + by rewrite bool_decide_true by list_in.
        + by rewrite bool_decide_false by list_in. }
    destruct (bool_decide_reflect (OpsTaskExecution.status e = E_PENDING)) as [Hst|Hst].
    + apply (wp_move_exec None d0 i e); [done|done|by rewrite Hst|exec_row_tac|].
      intros d' HG''. exists (dn ++ [i]). cbn [work set_work durable tick].
      split_and!; [by rewrite <- app_assoc|done|done|..].
      * intros k Hk. unfold d'. rewrite put_row_ne by done. by apply Ho.
      * eapply Hnext; unfold d'; [|autorewrite with store; apply lookup_insert_eq|].
        -- intros j Hj. autorewrite with store. by rewrite lookup_insert_ne.
        -- unfold cancelled. rewrite bool_decide_true by done.
           by rewrite set_duration_core, set_duration_status.
    + apply wp_ret. exists (dn ++ [i]). split_and!; [by rewrite <- app_assoc|done..|].
      eapply Hnext; [done|done|]. unfold cancelled. by rewrite bool_decide_false.
  - intros [] s' (dn & Hsplit & Hd & HG' & Ho & Hrows). rewrite app_nil_r in Hsplit. subst dn.
    destruct s' as [d' du n]. simpl in Hd. subst du. by apply HQ.
Qed.

Lemma wp_cancel_task d0 task t (Q : Z → session → Prop) (Ex : exc → session → Prop) s :
  good None d0 (work s) → tasks (work s) !! task = Some t →
  (task_terminal (OpsTask.status t) = true →
   Ex (AppException BAD_REQUEST "任务已结束，无法取消" 400) s) →
  (∀ d' n now, task_terminal (OpsTask.status t) = false → good None d0 d' →
     (∀ i e, execs (work s) !! i = Some e → ∃ e', execs d' !! i = Some e' ∧
        if bool_decide (OpsTaskExecution.task_id e = task) then cancelled e e' else e' = e) →
     tasks d' = <[task := aggregate_row (aggregated d' task) now t]> (tasks (work s)) →
     Q task (Session d' d' n)) →
  wp (cancel_task task) Q Ex s.
Proof.
  intros HG Ht HE HQ. unfold cancel_task.
  apply wp_bind, (wp_get_task_entity _ t); [done|]. apply wp_bind, (wp_obj_ok TTask task t); [done|].
  destruct (task_terminal (OpsTask.status t)) eqn:Hopen; [by apply wp_app_error, HE|].
  apply wp_bind, wp_select_where.
  match goal with |- context [matching TExec ?p (work s)] =>
    change (matching TExec p (work s))
      with (matching TExec (λ e, OpsTaskExecution.task_id e =? task) (work s)) end.
  set (ids := matching TExec _ (work s)).
  assert (∀ i, i ∈ ids ↔ ∃ e, execs (work s) !! i = Some e ∧ OpsTaskExecution.task_id e = task) as Hids.
  { intros i. etransitivity; [apply elem_of_matching|]. by setoid_rewrite Z.eqb_eq. }
  apply wp_bind, (wp_cancel_loop d0); [done|apply matching_nodup|by intros i (e & He & _)%Hids; exists e|].
  intros d1 n HG1 Ho Hrows. cbn [work] in *.
  apply wp_bind, (wp_aggregate None d0 task t); [done|by cbn [work]; rewrite Ho|done|by left|].
  intros st d2 HG2. apply wp_bind, wp_commit, wp_ret.
  assert (d2 TExec = d1 TExec) as Hex by (unfold d2; cbn [work]; by autorewrite with store).
  assert (∀ m, Q task (Session d2 d2 m)) as Hfin.
  { intros m. apply (HQ d2 m (clock n)); [done|done|..].
    - intros i e He. destruct (Hrows i e He) as (e' & He' & Hc). exists e'.
      split; [by rewrite Hex|].
      destruct (bool_decide_reflect (OpsTaskExecution.task_id e = task)) as [Hx|Hx].
      + by rewrite bool_decide_true in Hc by (apply Hids; eauto).
      + rewrite bool_decide_false in Hc; [done|]. intros (e2 & He2 & Hx2)%Hids.
        apply Hx. by rewrite (same_row TExec He He2).
    - rewrite (aggregated_ext d1 d2) by done. unfold d2. cbn [work ticks].
      autorewrite with store. by rewrite Ho. }
  simpl. destruct (task_terminal st); apply Hfin.
Qed.

(** ** History *)

Lemma unreferenced_log d i : referenced TTaskLog d i = false.
Proof.
  apply referenced_false. intros k j r _.
  refs_tac k.
Qed.

(** Only logs refer to executions, only targets and executions to tasks, and
    only executions to targets. *)
Lemma referenced_exec d i :
  (∀ j l, rows (d TTaskLog) !! j = Some l → OpsTaskLog.execution_id l ≠ i) →
  referenced TExec d i = false.
Proof.
  intros Hl. apply referenced_false. intros k j r Hr.
  refs_tac k.
Qed.

Lemma referenced_target d i :
  (∀ j e, execs d !! j = Some e → OpsTaskExecution.target_id e ≠ i) →
  referenced TTarget d i = false.
Proof.
  intros Hl. apply referenced_false. intros k j r Hr.
  refs_tac k.
Qed.

Lemma referenced_task d i :
  (∀ j e, execs d !! j = Some e → OpsTaskExecution.task_id e ≠ i) →
  (∀ j g, targets d !! j = Some g → OpsTaskTarget.task_id g ≠ i) →
  referenced TTask d i = false.
Proof.
  intros He Hg. apply referenced_false. intros k j r Hr.
  refs_tac k.
Qed.

(** Deleting rows by key leaves the rest of the table. *)
Lemma rows_without k (ids : list Z) (p : row k → bool) (d : db) :
  (∀ i, i ∈ ids ↔ ∃ r, rows (d k) !! i = Some r ∧ p r = true) →
  rows (filter_rows k (λ i _, negb (bool_decide (i ∈ ids))) d k)
  = filter (λ '(_, r), p r = false) (rows (d k)).
Proof.
  intros Hids. autorewrite with store. apply map_filter_ext. intros i r Hr.
  rewrite negb_true_iff, bool_decide_eq_false, Hids. split.
  - intros Hn. apply not_true_is_false. eauto.
  - intros Hp (r' & Hr' & Hp'). rewrite (same_row k Hr Hr') in Hp. congruence.
Qed.

Lemma filter_rows_id k (p : row k → bool) (d : db) :
  (∀ i r, rows (d k) !! i = Some r → p r = false) →
  filter (λ '(_, r), p r = false) (rows (d k)) = rows (d k).
Proof. intros Hp. apply map_filter_id. by intros i r ?%Hp. Qed.

(** The expired executions, and their logs, are removed. *)
Lemma wp_delete_terminal d0 cutoff (Q : Z → session → Prop) Ex s :
  good None d0 (work s) →
  (∀ r d', good None d0 d' →
     execs d' = filter (λ '(_, e), TaskExecutionRepository.expired_history cutoff e = false)
                  (execs (work s)) →
     (∀ k, k ≠ TExec → k ≠ TTaskLog → d' k = work s k) → Q r (set_work d' s)) →
  wp (TaskExecutionRepository.delete_terminal_before cutoff) Q Ex s.
Proof.
  intros HG HQ. unfold TaskExecutionRepository.delete_terminal_before.
  apply wp_bind, wp_select_where.
  match goal with |- context [matching TExec ?p (work s)] =>
    change (matching TExec p (work s))
      with (matching TExec (TaskExecutionRepository.expired_history cutoff) (work s)) end.
  set (ids := matching TExec _ (work s)).
  assert (∀ i, i ∈ ids ↔ ∃ e, execs (work s) !! i = Some e ∧
    TaskExecutionRepository.expired_history cutoff e = true) as Hids by (intros; apply elem_of_matching).
  destruct ids as [|i0 ids'].
  { apply wp_ret. assert (set_work (work s) s = s) as <- by by destruct s. apply HQ; [done| |done].
    symmetry. apply (filter_rows_id TExec). intros i e He. apply not_true_is_false. intros Hx.
    apply (not_elem_of_nil i), Hids. eauto. }
  generalize dependent (i0 :: ids'). clear i0 ids'. intros ids Hids.
  apply wp_bind, (wp_delete_where TTaskLog). split.
  2: { rewrite existsb_false; [done|]. intros i _. apply unreferenced_log. }
  intros _. set (d1 := filter_rows TTaskLog _ (work s)).
  assert (good None d0 d1) as HG1.
  { apply (good_shrink _ _ (work s)); [done| |by apply shrinks_filter..].
    apply integrity_filter_rows; [apply HG|]. intros. apply unreferenced_log. }
  apply (wp_delete_ids TExec). cbn [work set_work].
  assert (∀ i, i ∈ ids → referenced TExec d1 i = false) as Hunref.
  { intros i Hi. apply referenced_exec. intros j l. unfold d1. autorewrite with store.
    intros [_ Hl]%map_lookup_filter_Some Hx. apply negb_true_iff, bool_decide_eq_false in Hl.
    by rewrite Hx in Hl. }
  split; [intros _|].
  2: { rewrite existsb_false; [done|].
       intros i [_ Hi]%list_elem_of_filter. by apply Hunref, (elem_of_remove_dups ids). }
  apply HQ.
  - apply (good_shrink _ _ d1); [done| |by apply shrinks_filter..].
    apply integrity_filter_rows; [apply HG1|].
    intros i r _ Hi%negb_false_iff%bool_decide_eq_true. by apply Hunref.
  - assert (execs d1 = execs (work s)) as <- by (unfold d1; by autorewrite with store).
    apply (rows_without TExec). intros i. unfold d1. autorewrite with store. apply Hids.
  - intros k Hk1 Hk2. rewrite filter_rows_ne by done. unfold d1. by rewrite filter_rows_ne.
Qed.

(** The finished one-shot tasks without executions, and their targets, are
    removed. *)
Lemma wp_delete_tasks d0 cutoff (Q : Z → session → Prop) Ex s :
  good None d0 (work s) →
  (∀ r d', good None d0 d' →
     tasks d' = filter (λ '(_, t), TaskRepository.removable_task (work s) cutoff t = false)
                  (tasks (work s)) →
     d' TExec = work s TExec → Q r (set_work d' s)) →
  wp (TaskRepository.delete_finished_tasks_before cutoff) Q Ex s.
Proof.
  intros HG HQ. pose proof HG as (_ & Hinv & _). unfold TaskRepository.delete_finished_tasks_before.
  apply wp_bind, wp_get_work, wp_bind, wp_select_where.
  match goal with |- context [matching TTask ?p (work s)] =>
    change (matching TTask p (work s))
      with (matching TTask (TaskRepository.removable_task (work s) cutoff) (work s)) end.
  set (ids := matching TTask _ (work s)).
  assert (∀ i, i ∈ ids ↔ ∃ t, tasks (work s) !! i = Some t ∧
    TaskRepository.removable_task (work s) cutoff t = true) as Hids by (intros; apply elem_of_matching).
  destruct ids as [|i0 ids'].
  { apply wp_ret. assert (set_work (work s) s = s) as <- by by destruct s. apply HQ; [done| |done].
    symmetry. apply (filter_rows_id TTask). intros i e He. apply not_true_is_false. intros Hx.
    apply (not_elem_of_nil i), Hids. eauto. }
  generalize dependent (i0 :: ids'). clear i0 ids'. intros ids Hids.
  assert (∀ i j e, i ∈ ids → execs (work s) !! j = Some e → OpsTaskExecution.task_id e ≠ i) as Hnoexec.
  { intros i j e (t & Ht & Hrem)%Hids He Hx. unfold TaskRepository.removable_task in Hrem.
    apply andb_true_iff in Hrem as [_ Hno%negb_true_iff].
    pose proof (proj1 (any_row_false _ TExec _) Hno j e He) as Hne%Z.eqb_neq.
    apply Hne. rewrite Hx. symmetry. by apply (inv_task_id Hinv). }
  assert (∀ g r, targets (work s) !! g = Some r → OpsTaskTarget.task_id r ∈ ids →
    referenced TTarget (work s) g = false) as Hgref.
  { intros g r Hg Hr. apply referenced_target. intros j e He Hx.
    destruct (inv_target Hinv _ _ He) as (r' & Hr' & Ht' & _). rewrite Hx in Hr'.
    apply (Hnoexec _ j e Hr He). by rewrite (same_row TTarget Hg Hr'). }
  apply wp_bind, (wp_delete_where TTarget). split.
  2: { rewrite existsb_false; [done|]. intros g (r & Hg & Hr%bool_decide_eq_true)%elem_of_matching. eauto. }
  intros _. set (d1 := filter_rows TTarget _ (work s)).
  assert (good None d0 d1) as HG1.
  { apply (good_shrink _ _ (work s)); [done| |by apply shrinks_filter..].
    apply integrity_filter_rows; [apply HG|]. intros g r Hg Hr%negb_false_iff%bool_decide_eq_true. eauto. }
  apply (wp_delete_ids TTask). cbn [work set_work].
  assert (∀ i, i ∈ ids → referenced TTask d1 i = false) as Hunref.
  { intros i Hi. apply referenced_task; unfold d1; autorewrite with store; [by eauto|].
    intros j g [_ Hg]%map_lookup_filter_Some Hx. apply negb_true_iff, bool_decide_eq_false in Hg.
    by rewrite Hx in Hg. }
  split; [intros _|].
  2: { rewrite existsb_false; [done|].
       intros i [_ Hi]%list_elem_of_filter. by apply Hunref, (elem_of_remove_dups ids). }
  apply HQ.
  - apply (good_shrink _ _ d1); [done| |by apply shrinks_filter..].
    apply integrity_filter_rows; [apply HG1|].
    intros i r _ Hi%negb_false_iff%bool_decide_eq_true. by apply Hunref.
  - assert (tasks d1 = tasks (work s)) as <- by (unfold d1; by autorewrite with store).
    apply (rows_without TTask). intros i. unfold d1 at 1. autorewrite with store. apply Hids.
  - rewrite filter_rows_ne by done. unfold d1. by rewrite filter_rows_ne.
Qed.

(** What the clean-up keeps. *)
Record cleaned (cutoff : datetime) (d d' : db) : Prop := Cleaned {
  cleaned_execs :
    execs d' = filter (λ '(_, e), TaskExecutionRepository.expired_history cutoff e = false) (execs d);
  cleaned_tasks :
    tasks d' = filter (λ '(_, t), TaskRepository.removable_task d' cutoff t = false) (tasks d)
}.

Lemma wp_cleanup_history d0 retention_days (Q : Z * Z → session → Prop) Ex s :
  task_inv None d0 → work s = d0 →
  (∀ r d' n, good None d0 d' → cleaned (clock (ticks s) - days retention_days) d0 d' →
     Q r (Session d' d' n)) →
  wp (cleanup_history retention_days) Q Ex s.
Proof.
  intros Hinv Hw HQ. unfold cleanup_history. apply wp_bind, wp_utcnow.
  apply wp_bind, (wp_delete_terminal d0); cbn [work tick]; [rewrite Hw; by apply good_refl|].
  intros r1 d1 HG1 He1 Hother. rewrite Hw in *.
  apply wp_bind, (wp_delete_tasks d0); [done|]. cbn [work set_work]. intros r2 d2 HG2 Ht2 He2.
  apply wp_bind, wp_commit, wp_ret. cbn [work set_work durable ticks]. apply HQ; [done|]. split.
  - by rewrite He2.
  - rewrite Ht2, Hother by done. apply map_filter_ext. intros i t Ht.
    unfold TaskRepository.removable_task, any_row. by rewrite He2.
Qed.
End Admin.
