(* ===== verification/TaskSafety.v ===== *)
(** * Safety of the task service

    The operations of the service as a transition system on the database, its
    reachable states, and the invariants of those. *)
From S2P Require Import Prelude.
From S2P Require Export TaskScans TaskAdmin.

Inductive task_op :=
  | CreateTask (data : TaskCreate) (creator_id : Z) (idempotency_key : option string)
  | ConfirmTask (task_id operator_id : Z)
  | CancelTask (task_id : Z)
  | FetchPending (server : Z)
  | ReportResult (server execution_id : Z) (status : string) (exit_code : option Z)
      (result_text error_message error_type logs : option string)
  | ScanTimeouts
  | DispatchRetries (limit : nat)
  | CleanupHistory (retention_days : Z)
  | FireDueCron.

(** What the request model guarantees before the operation runs. *)
Definition op_valid (op : task_op) : bool :=
  match op with
  | CreateTask data _ _ => TaskCreate.valid data
  | _ => true
  end.

(** The tables that belong to the task service. *)
Definition task_table (k : tname) : bool := bool_decide (k ∈ [TTask; TTarget; TExec]).

#[export] Instance atomic_then_ret {A B} (m : M A) (b : B) : Atomic m → Atomic (m ≫= λ _, mret b) | 5.
Proof.
  intros Hm s e s'. unfold mbind, M_bind, mret, M_ret. specialize (Hm s).
  destruct (m s) as [[a|e'] s1]; [done|]. intros [= -> <-]. by apply (Hm e).
Qed.

Section System.
Context `{E : Env} `{!EnvOk E} `{!Cron}.

Definition run_op (op : task_op) : M unit :=
  match op with
  | CreateTask data creator_id key => _ ← create_task data creator_id key; mret ()
  | ConfirmTask task operator_id => _ ← confirm_task task operator_id; mret ()
  | CancelTask task => _ ← cancel_task task; mret ()
  | FetchPending server => _ ← fetch_pending server; mret ()
  | ReportResult server i status exit_code result_text error_message error_type logs =>
    _ ← report_result server i status exit_code result_text error_message error_type logs; mret ()
  | ScanTimeouts => _ ← scan_timeouts; mret ()
  | DispatchRetries limit => _ ← dispatch_retries limit; mret ()
  | CleanupHistory retention_days => _ ← cleanup_history retention_days; mret ()
  | FireDueCron => _ ← fire_due_cron; mret ()
  end.

(** The durable database after a request, from the [n]-th clock reading on. *)
Definition after (op : task_op) (d : db) (n : nat) : db := (run (run_op op) d n).1.2.

(** One operation of the task service, or any change of the rest of the
    database that respects the constraints. *)
Inductive step : db → db → Prop :=
  | step_op op d n : op_valid op = true → step d (after op d n)
  | step_other d d' : integrity d' → (∀ k, task_table k = true → d' k = d k) → step d d'.

(** A database without tasks. *)
Definition initial (d : db) : Prop :=
  integrity d ∧ tasks d = ∅ ∧ targets d = ∅ ∧ execs d = ∅.

Definition reachable (d : db) : Prop := ∃ d0, initial d0 ∧ rtc step d0 d.

Lemma initial_inv d : initial d → task_inv None d.
Proof.
  intros (HI & Ht & Hg & He). split; [done|..];
    intros i; intros; rewrite ?Ht, ?Hg, ?He, ?lookup_empty in *; done.
Qed.

(** ** Transactions: every operation commits once, at its end *)

#[local] Typeclasses Opaque TaskTargetRepository.create_targets TaskTargetRepository.list_by_task
  TaskExecutionRepository.create_executions TaskExecutionRepository.create_execution
  TaskExecutionRepository.list_due_retries TaskExecutionRepository.fetch_pending_by_server
  TaskExecutionRepository.mark_running TaskExecutionRepository.finish
  TaskExecutionRepository.mark_retrying TaskExecutionRepository.mark_dead
  TaskExecutionRepository.mark_timeout TaskExecutionRepository.is_expired
  TaskExecutionRepository.list_by_task TaskExecutionRepository.delete_terminal_before
  TaskRepository.delete_finished_tasks_before TaskRepository.get_by_idempotency_key
  TaskRepository.list_pending_cron TaskLogRepository.record ServiceRepository.get_by_server_service
  _normalize_action _validate_servers _validate_service_whitelist get_task_entity
  _aggregate_task_status _can_retry claim_one report_failure scan_task dispatch_one fire_one.

#[local] Tactic Notation "no_commit" reference(x) := unfold x; apply _.

#[local] Instance nc_create_targets t l : NoCommit (TaskTargetRepository.create_targets t l).
Proof. no_commit TaskTargetRepository.create_targets. Qed.
#[local] Instance nc_targets_of t : NoCommit (TaskTargetRepository.list_by_task t).
Proof. no_commit TaskTargetRepository.list_by_task. Qed.
#[local] Instance nc_create_executions t l : NoCommit (TaskExecutionRepository.create_executions t l).
Proof. no_commit TaskExecutionRepository.create_executions. Qed.
#[local] Instance nc_create_execution t g s a : NoCommit (TaskExecutionRepository.create_execution t g s a).
Proof. no_commit TaskExecutionRepository.create_execution. Qed.
#[local] Instance nc_due now l : NoCommit (TaskExecutionRepository.list_due_retries now l).
Proof. no_commit TaskExecutionRepository.list_due_retries. Qed.
#[local] Instance nc_pending s : NoCommit (TaskExecutionRepository.fetch_pending_by_server s).
Proof. no_commit TaskExecutionRepository.fetch_pending_by_server. Qed.
#[local] Instance nc_mark_running i : NoCommit (TaskExecutionRepository.mark_running i).
Proof. no_commit TaskExecutionRepository.mark_running. Qed.
#[local] Instance nc_finish i st c r m t : NoCommit (TaskExecutionRepository.finish i st c r m t).
Proof. no_commit TaskExecutionRepository.finish. Qed.
#[local] Instance nc_mark_retrying i t m n : NoCommit (TaskExecutionRepository.mark_retrying i t m n).
Proof. no_commit TaskExecutionRepository.mark_retrying. Qed.
#[local] Instance nc_mark_dead i t m : NoCommit (TaskExecutionRepository.mark_dead i t m).
Proof. no_commit TaskExecutionRepository.mark_dead. Qed.
#[local] Instance nc_mark_timeout i t : NoCommit (TaskExecutionRepository.mark_timeout i t).
Proof. no_commit TaskExecutionRepository.mark_timeout. Qed.
#[local] Instance nc_is_expired i t : NoCommit (TaskExecutionRepository.is_expired i t).
Proof. no_commit TaskExecutionRepository.is_expired. Qed.
#[local] Instance nc_execs_of t : NoCommit (TaskExecutionRepository.list_by_task t).
Proof. no_commit TaskExecutionRepository.list_by_task. Qed.
#[local] Instance nc_delete_terminal c : NoCommit (TaskExecutionRepository.delete_terminal_before c).
Proof. no_commit TaskExecutionRepository.delete_terminal_before. Qed.
#[local] Instance nc_delete_tasks c : NoCommit (TaskRepository.delete_finished_tasks_before c).
Proof. no_commit TaskRepository.delete_finished_tasks_before. Qed.
#[local] Instance nc_by_key k : NoCommit (TaskRepository.get_by_idempotency_key k).
Proof. no_commit TaskRepository.get_by_idempotency_key. Qed.
#[local] Instance nc_pending_cron : NoCommit TaskRepository.list_pending_cron.
Proof. no_commit TaskRepository.list_pending_cron. Qed.
#[local] Instance nc_record i c l : NoCommit (TaskLogRepository.record i c l).
Proof. no_commit TaskLogRepository.record. Qed.
#[local] Instance nc_service s n : NoCommit (ServiceRepository.get_by_server_service s n).
Proof. no_commit ServiceRepository.get_by_server_service. Qed.
#[local] Instance nc_normalize data : NoCommit (_normalize_action data).
Proof. no_commit _normalize_action. Qed.
#[local] Instance nc_servers l : NoCommit (_validate_servers l).
Proof. no_commit _validate_servers. Qed.
#[local] Instance nc_whitelist l n a : NoCommit (_validate_service_whitelist l n a).
Proof. no_commit _validate_service_whitelist. Qed.
#[local] Instance nc_entity t : NoCommit (get_task_entity t).
Proof. no_commit get_task_entity. Qed.
#[local] Instance nc_aggregate t : NoCommit (_aggregate_task_status t).
Proof. no_commit _aggregate_task_status. Qed.
#[local] Instance nc_can_retry t i : NoCommit (_can_retry t i).
Proof. no_commit _can_retry. Qed.
#[local] Instance nc_claim acc i : NoCommit (claim_one acc i).
Proof. no_commit claim_one. Qed.
#[local] Instance nc_failure t i c m ty : NoCommit (report_failure t i c m ty).
Proof. no_commit report_failure. Qed.
#[local] Instance nc_scan_task n t : NoCommit (scan_task n t).
Proof. no_commit scan_task. Qed.
#[local] Instance nc_dispatch n i : NoCommit (dispatch_one n i).
Proof. no_commit dispatch_one. Qed.
#[local] Instance nc_fire now n t : NoCommit (fire_one now n t).
Proof. no_commit fire_one. Qed.

#[local] Instance run_op_atomic op : Atomic (run_op op).
Proof.
  destruct op; simpl; apply atomic_then_ret;
    [unfold create_task|unfold confirm_task|unfold cancel_task|unfold fetch_pending
    |unfold report_result|unfold scan_timeouts|unfold dispatch_retries|unfold cleanup_history
    |unfold fire_due_cron]; apply _.
Qed.

(** ** Every step keeps the invariant *)

(** A transaction that ended leaves the database it started from, or a good one. *)
Definition ended (d : db) (s : session) : Prop := durable s = d ∨ good None d (durable s).

Lemma wp_run_op (op : task_op) d s :
  op_valid op = true → task_inv None d → s = Session d d (ticks s) →
  wp (run_op op) (λ _ s', ended d s') any_exc s.
Proof.
  intros Hvalid Hinv Hs. assert (work s = d ∧ durable s = d) as [Hw Hd] by by rewrite Hs.
  pose proof (good_refl _ Hinv) as HG. rewrite <- Hw in HG at 2.
  assert (∀ r, good None d r → ∀ n, ended d (Session r r n)) as Hok by (intros; by right).
  destruct op; simpl; apply wp_bind.
  - apply (wp_create_task d); [done..| |]; intros; apply wp_ret; [by left|by apply Hok].
  - destruct (tasks (work s) !! task_id) as [t|] eqn:Ht.
    + apply (wp_confirm_task d _ _ t); try done. intros. apply wp_ret. by apply Hok.
    + unfold confirm_task, get_task_entity. apply wp_bind, wp_bind, (wp_get TTask); [|done].
      intros r Hr. pose proof (eq_trans (eq_sym Ht) Hr). done.
  - destruct (tasks (work s) !! task_id) as [t|] eqn:Ht.
    + apply (wp_cancel_task d _ t); try done. intros. apply wp_ret. by apply Hok.
    + unfold cancel_task, get_task_entity. apply wp_bind, wp_bind, (wp_get TTask); [|done].
      intros r Hr. pose proof (eq_trans (eq_sym Ht) Hr). done.
  - apply (wp_fetch_pending d); [done..|]. intros. apply wp_ret. by apply Hok.
  - destruct (execs (work s) !! execution_id) as [e|] eqn:He.
    + destruct (decide (OpsTaskExecution.server_id e = server)) as [Hserver|Hserver];
        [destruct (exec_terminal (OpsTaskExecution.status e)) eqn:Hterm|].
      * unfold report_result. apply wp_bind, (wp_get TExec); [|by intros Hn; specialize (Hn e He)].
        intros _ _ _. apply wp_bind, (wp_obj_ok TExec _ e); [done|].
        rewrite Hserver, Z.eqb_refl, Hterm. by apply wp_ret, wp_ret; left.
      * rewrite Hw in He. destruct (task_of_exec _ _ _ _ Hinv He) as [t Ht]. rewrite <- Hw in He, Ht.
        apply (wp_report_result d server execution_id e t); [done..|].
        intros. apply wp_ret. by apply Hok.
      * unfold report_result. apply wp_bind, (wp_get TExec); [|by intros Hn; specialize (Hn e He)].
        intros _ _ _. apply wp_bind, (wp_obj_ok TExec _ e); [done|].
        by rewrite (proj2 (Z.eqb_neq _ _) Hserver).
    + unfold report_result. apply wp_bind, (wp_get TExec); [|by intros _; apply wp_app_error].
      intros r Hr. pose proof (eq_trans (eq_sym He) Hr). done.
  - apply (wp_scan_timeouts d); [done..|]. intros. apply wp_ret. by apply Hok.
  - apply (wp_dispatch_retries d); [done..|]. intros. apply wp_ret. by apply Hok.
  - apply (wp_cleanup_history d); [done..|]. intros. apply wp_ret. by apply Hok.
  - apply (wp_fire_due_cron d); [done..|]. intros. apply wp_ret. by apply Hok.
Qed.

Lemma op_good op d n : op_valid op = true → task_inv None d → good None d (after op d n).
Proof.
  intros Hvalid Hinv. pose proof (wp_run_op op d (Session d d n) Hvalid Hinv eq_refl) as Hwp.
  pose proof (run_op_atomic op (Session d d n)) as Hatomic.
  unfold after, run. unfold wp in Hwp. destruct (run_op op (Session d d n)) as [[a|e] s']; simpl.
  - destruct Hwp as [->|Hg]; [by apply good_refl|done].
  - rewrite (Hatomic e s' eq_refl). by apply good_refl.
Qed.

Lemma step_good d d' : task_inv None d → step d d' → good None d d'.
Proof.
  intros Hinv Hstep. destruct Hstep as [op d n Hvalid|d d' HI Hk]; [by apply op_good|].
  apply (good_other _ _ d); [by apply good_refl|done|done].
Qed.

Lemma steps_good d d' : task_inv None d → rtc step d d' → good None d d'.
Proof.
  intros Hinv Hsteps. induction Hsteps as [d|d d1 d2 Hstep _ IH]; [by apply good_refl|].
  pose proof (step_good _ _ Hinv Hstep) as (HI & Hinv1 & He1).
  destruct (IH Hinv1) as (_ & Hinv2 & He2). split_and!; [done|done|].
  by eapply evolves_trans.
Qed.

Lemma reachable_inv d : reachable d → task_inv None d.
Proof. intros (d0 & Hi & Hs). by eapply steps_good; [apply initial_inv|]. Qed.

Lemma reachable_after op d n : op_valid op = true → reachable d → reachable (after op d n).
Proof. intros Hv (d0 & Hi & Hs). exists d0. split; [done|]. eapply rtc_r; [done|]. by constructor. Qed.
End System.
