(* ===== verification/Samples.v ===== *)
(** * Sample data

    A concrete environment and concrete databases, on which the theorems are
    instantiated. *)
From Stdlib Require Import QArith.
From S2P Require Import Prelude.
From S2P Require Export AgentRegister TaskSafety.

(** ** The environment and the servers *)

(** The clock advances by a second at every reading. *)
#[export] Instance sample_env : Env := {|
  clock n := seconds (1700000000 + Z.of_nat n);
  scan A m := map_to_list m;
  set_iter := remove_dups
|}.

#[export] Instance sample_env_ok : EnvOk sample_env.
Proof.
  split; simpl.
  - done.
  - apply NoDup_remove_dups.
  - intros. apply elem_of_remove_dups.
Qed.

Definition sample_server (code ip : string) : OpsServer :=
  OpsServer.Mk 0 code code ip 22 None None None None None (Some 4) None None None A_OFFLINE None None
    1 None None 0 None.

Definition sample_setup : M unit :=
  u ← create TUser (SysUser.Mk 0 "admin" "hash" None None None 1 None None 0 None);
  s1 ← create TServer (sample_server "web-1" "10.0.0.1");
  s2 ← create TServer (sample_server "web-2" "10.0.0.2");
  _ ← create TService (OpsServerService.Mk 0 s1 "nginx" (Some "nginx") "SYSTEMD" 1 0 None None 1 0);
  _ ← create TService (OpsServerService.Mk 0 s2 "nginx" (Some "nginx") "SYSTEMD" 1 0 None None 1 0);
  commit.

Definition sample_db : db := (run sample_setup empty_db 0).1.2.

Lemma sample_integrity : integrity sample_db.
Proof.
  assert (Sound sample_setup) as Hs by (unfold sample_setup; apply _).
  apply (Hs (Session empty_db empty_db 0)). split; apply integrity_empty.
Qed.

(** ** Tasks

    The task subsystem from a database with two servers. *)

(** Every expression but "bad" fires a minute after its base. *)
#[export] Instance sample_cron : Cron :=
  λ expression base, if String.eqb expression "bad" then None else Some (base + seconds 60).

Lemma sample_initial : initial sample_db.
Proof. split; [apply sample_integrity|]. by vm_compute. Qed.

(** A restart of nginx on both servers, and a status check on the first. *)
Definition sample_restart : TaskCreate :=
  TaskCreate.Mk "restart" "SERVICE_ACTION" (Some "RESTART") (Some "nginx") [1; 2; 1] "ONCE" None
    60 3 None.

Definition sample_check : TaskCreate :=
  TaskCreate.Mk "check" "SERVICE_CHECK" None (Some "nginx") [1] "ONCE" None 60 2 None.

Definition sample_cron_task : TaskCreate :=
  TaskCreate.Mk "nightly" "SERVICE_CHECK" None None [1] "CRON" (Some "0 3 * * *") 60 2 None.

(** Several operations in a row. *)
Definition play (ops : list task_op) (d : db) (n : nat) : db * nat :=
  foldl (λ '(d, n) op, let '(_, d', n') := run (run_op op) d n in (d', n')) (d, n) ops.

Lemma play_reachable (ops : list task_op) (d : db) (n : nat) :
  forallb op_valid ops = true → reachable d → reachable (play ops d n).1.
Proof.
  unfold play. revert d n. induction ops as [|op ops IH]; intros d n; [done|].
  simpl. intros [Hop Hops]%andb_true_iff Hd.
  pose proof (reachable_after op d n Hop Hd) as Ha. unfold after in Ha.
  destruct (run (run_op op) d n) as [[o d'] n']. by apply IH.
Qed.

Lemma play_steps (ops : list task_op) (d : db) (n : nat) :
  forallb op_valid ops = true → rtc step d (play ops d n).1.
Proof.
  unfold play. revert d n. induction ops as [|op ops IH]; intros d n; [intros _; apply rtc_refl|].
  simpl. intros [Hop Hops]%andb_true_iff.
  pose proof (step_op op d n Hop) as Ha. unfold after in Ha.
  destruct (run (run_op op) d n) as [[o d'] n']. eapply rtc_l; [exact Ha|]. by apply IH.
Qed.

Lemma sample_reachable : reachable sample_db.
Proof. exists sample_db. split; [apply sample_initial|apply rtc_refl]. Qed.

(** A restart of two servers waiting for a retry on the first and still
    pending on the second; a check that succeeded; a cron task that waits. *)
Definition demo_ops : list task_op :=
  [CreateTask sample_restart 1 (Some "k1"); CreateTask sample_check 1 None;
   CreateTask sample_cron_task 1 None; ConfirmTask 1 1; FetchPending 1;
   ReportResult 1 3 "SUCCESS" (Some 0) (Some "active") None None None;
   ReportResult 1 2 "FAILED" None None (Some "connection refused") None None].

Definition demo : db := (play demo_ops sample_db 10).1.

(** Later, the retry is dispatched and the cron task fires. *)
Definition demo_later : db := (play [DispatchRetries 50; FireDueCron] demo 100).1.

Lemma demo_reachable : reachable demo.
Proof. apply play_reachable; [by vm_compute|apply sample_reachable]. Qed.

Lemma demo_later_reachable : reachable demo_later.
Proof. apply play_reachable; [by vm_compute|apply demo_reachable]. Qed.

(** ** Agents

    A toy signature scheme and a token generator, and the sample database with
    a token for each server. *)

(** Keys are the strings of 5 bytes, and the signature of any message is the
    key. *)
#[export] Instance toy_ed25519 : Ed25519 := {|
  valid_key key := (String.length key =? 5)%nat;
  verify key signature _ := String.eqb signature key
|}.

#[export] Instance toy_secrets : Secrets := λ n, "secret-" +:+ py_str (Z.of_nat n).

Definition sample_tokens : M unit :=
  _ ← AgentTokenRepository.create_token 1 None 1;
  _ ← AgentTokenRepository.create_token 2 (Some "second") 2;
  commit.

Definition agent_db : db := (run sample_tokens sample_db 0).1.2.

Lemma sound_run {A} (m : M A) d n : Sound m → integrity d → integrity (run m d n).1.2.
Proof.
  intros Hm Hd. specialize (Hm (Session d d n) (conj Hd Hd)). unfold run.
  destruct (m _) as [o s']. apply Hm.
Qed.

Lemma agent_integrity : integrity agent_db.
Proof.
  assert (Sound sample_tokens) as Hs.
  { unfold sample_tokens, AgentTokenRepository.create_token. apply _. }
  exact (sound_run _ _ _ Hs sample_integrity).
Qed.

(** The columns of a server and of a token that the instances look at. *)
Lemma server_at (d : db) (i : Z) (code ip : string) (port : Z) :
  (λ s, (OpsServer.id s, OpsServer.server_code s, OpsServer.ip_address s, OpsServer.ssh_port s,
         ServerRepository.enabled s)) <$> servers d !! i = Some (i, code, ip, port, true) →
  ∃ s, servers d !! i = Some s ∧ OpsServer.id s = i ∧ OpsServer.server_code s = code ∧
       OpsServer.ip_address s = ip ∧ OpsServer.ssh_port s = port ∧ ServerRepository.enabled s = true.
Proof. intros (s & Hs & [= ? ? ? ? ?])%fmap_Some. by exists s. Qed.

Lemma token_at (d : db) (i server : Z) (hash : string) (now : Z) :
  (λ t, (OpsAgentToken.server_id t, OpsAgentToken.token_hash t, token_usable t now)) <$> tokens d !! i
  = Some (server, hash, true) →
  ∃ t, tokens d !! i = Some t ∧ OpsAgentToken.server_id t = server ∧ OpsAgentToken.token_hash t = hash ∧
       token_usable t now = true.
Proof. intros (t & Ht & [= ? ? ?])%fmap_Some. by exists t. Qed.

(** Does every server row carry its key? *)
Definition server_keys (d : db) : Prop := map_Forall (λ i sv, OpsServer.id sv = i) (servers d).

#[export] Instance server_keys_dec d : Decision (server_keys d).
Proof. unfold server_keys. apply _. Defined.

Lemma agent_server_keys : server_keys agent_db.
Proof. apply (bool_decide_unpack _). by vm_compute. Qed.
