(* ===== verification/TaskProps.v ===== *)
(** * Correctness of the task service

    The theorems on [TaskService], each with a run on the sample database. *)
From S2P Require Import Prelude.
From S2P Require Export Samples.

Section Props.
Context `{E : Env} `{!EnvOk E} `{!Cron}.

Lemma wp_task_missing {B} i (f : Z → M B) d n :
  tasks d !! i = None →
  wp (get_task_entity i ≫= f) (λ _ _, False)
    (λ e s', e = AppException TASK_NOT_FOUND "任务不存在" 404 ∧ s' = Session d d n) (Session d d n).
Proof.
  intros Hn. unfold get_task_entity. apply wp_bind, wp_bind, (wp_get TTask); [|by intros _; apply wp_app_error].
  intros t Ht. pose proof (eq_trans (eq_sym Hn) Ht). done.
Qed.

(** C7: in every reachable state the task tables are well-formed: executions
    belong to a target of their task on its server, attempts are between 1 and
    the task's budget, only the last attempt on a target can be unfinished, a
    finished task has no unfinished execution, and a CRON task that was not
    fired has none at all. *)
Theorem reachable_task_inv (d : db) : reachable d → task_inv None d.
Proof. apply reachable_inv. Qed.

(** C2: whatever operations follow, a finished execution or task is never
    changed again (it can only be cleaned up), and the identity of an
    execution never changes. *)
Theorem finished_is_final (d d' : db) :
  reachable d → rtc step d d' →
  (∀ i e e', execs d !! i = Some e → execs d' !! i = Some e' →
     exec_core e' = exec_core e ∧
     (exec_terminal (OpsTaskExecution.status e) = true → e' = e)) ∧
  (∀ i t t', tasks d !! i = Some t → tasks d' !! i = Some t' →
     task_terminal (OpsTask.status t) = true → t' = t).
Proof.
  intros Hd%reachable_inv Hs. destruct (steps_good _ _ Hd Hs) as (_ & _ & Hev). split.
  - intros i e e' He He'. split; [by eapply evolves_core|]. intros Ht. by eapply evolves_exec.
  - intros i t t' Ht Ht' Hterm. by eapply evolves_task.
Qed.

(** The run of a claim; shared with the theorem on repeated claims. *)
Lemma run_fetch_pending (d : db) (server : Z) (n : nat) :
  reachable d →
  ∃ cs d' n', run (fetch_pending server) d n = (Ok cs, d', n') ∧
    claim_execution_id <$> cs = claim_ids d server ∧ (length cs ≤ 10)%nat ∧
    Forall (claim_of d) cs ∧ claimed (claim_execution_id <$> cs) d d'.
Proof.
  intros Hd%reachable_inv.
  destruct (run_total (fetch_pending server)
    (λ cs s', claimed (claim_execution_id <$> cs) d (durable s') ∧ Forall (claim_of d) cs ∧
              claim_execution_id <$> cs = claim_ids d server) d n) as (cs & s' & Hrun & Hc & Hall & Hids).
  { apply (wp_fetch_pending d); [done|done|]. intros. by split_and!. }
  exists cs, (durable s'), (ticks s'). split_and!; try done.
  rewrite <- (length_fmap claim_execution_id), Hids. unfold claim_ids. rewrite length_take. lia.
Qed.

(** C14: a claim of pending executions never fails; it hands out the (at most
    ten) oldest executions of the server whose task is PENDING or RUNNING,
    marks exactly those as running, with their tasks, and returns what the
    agent needs to run them. *)
Theorem fetch_pending_spec (d : db) (server : Z) (n : nat) :
  reachable d →
  ∃ cs d' n', run (fetch_pending server) d n = (Ok cs, d', n') ∧
    claim_execution_id <$> cs = claim_ids d server ∧ (length cs ≤ 10)%nat ∧
    Forall (claim_of d) cs ∧ claimed (claim_execution_id <$> cs) d d'.
Proof. apply run_fetch_pending. Qed.

(** C5: an execution is handed out at most once, over any operations between
    two claims and whichever servers ask. *)
Theorem claimed_at_most_once (d d1 d2 d3 : db) (s1 s2 : Z) (n1 n1' n2 n2' : nat) (cs1 cs2 : list claim) :
  reachable d →
  run (fetch_pending s1) d n1 = (Ok cs1, d1, n1') → rtc step d1 d2 →
  run (fetch_pending s2) d2 n2 = (Ok cs2, d3, n2') →
  ∀ i, i ∈ claim_execution_id <$> cs1 → i ∉ claim_execution_id <$> cs2.
Proof.
  intros Hd Hr1 Hs Hr2 i Hi1 Hi2.
  destruct (run_fetch_pending d s1 n1 Hd) as (? & ? & ? & Hx & _ & _ & _ & Hc1).
  rewrite Hr1 in Hx. injection Hx as <- <- <-.
  assert (reachable d1) as Hd1.
  { pose proof (reachable_after (FetchPending s1) d n1 eq_refl Hd) as Ha.
    unfold after, run in Ha. simpl in Ha. unfold run, mbind, M_bind in *.
    destruct (fetch_pending s1 _) as [[cs|e] s']; by simplify_eq. }
  assert (reachable d2) as Hd2 by (destruct Hd1 as (d0 & ? & ?); exists d0; split; [done|]; by etransitivity).
  destruct (run_fetch_pending d2 s2 n2 Hd2) as (? & ? & ? & Hx & Hids & _).
  rewrite Hr2 in Hx. injection Hx as <- <- <-.
  destruct (claimed_exec _ _ _ Hc1 i Hi1) as (e & e1 & He & He1 & [now Hout]).
  rewrite Hids in Hi2. apply elem_of_take in Hi2 as (m & Hm & _).
  apply list_elem_of_lookup_2, elem_of_sort_by, elem_of_matching in Hm as (e2 & He2 & Hcl).
  apply claimable_spec in Hcl as (_ & Hp & _).
  destruct (steps_good _ _ (reachable_inv _ Hd1) Hs) as (_ & _ & Hev).
  eapply (evolves_started _ _ Hev _ _ _ He1); [by rewrite Hout|done|done].
Qed.

(** Two polls that overlap: the claim neither locks the rows it reads nor tests
    the status when it writes, so that two polls of one server that both read
    the database before either commits hand out the same executions. *)
Lemma overlapping_polls (d : db) (server : Z) (n m : nat) :
  reachable d →
  ∃ cs1 d1 n1 cs2 d2 n2,
    run (fetch_pending server) d n = (Ok cs1, d1, n1) ∧ run (fetch_pending server) d m = (Ok cs2, d2, n2) ∧
    claim_execution_id <$> cs1 = claim_ids d server ∧ claim_execution_id <$> cs2 = claim_ids d server.
Proof.
  intros Hd. destruct (run_fetch_pending d server n Hd) as (cs1 & d1 & n1 & H1 & Hids1 & _).
  destruct (run_fetch_pending d server m Hd) as (cs2 & d2 & n2 & H2 & Hids2 & _).
  by exists cs1, d1, n1, cs2, d2, n2.
Qed.

(** A report of an unfinished execution, run to its end. *)
Lemma run_report_result (d : db) (i server : Z) (e : OpsTaskExecution) (t : OpsTask) (n : nat)
    (status : string) (exit_code : option Z) (result_text error_message error_type logs : option string) :
  reachable d → execs d !! i = Some e → OpsTaskExecution.server_id e = server →
  tasks d !! OpsTaskExecution.task_id e = Some t →
  exec_terminal (OpsTaskExecution.status e) = false →
  ∃ e' d' n',
    run (report_result server i status exit_code result_text error_message error_type logs) d n
    = (Ok i, d', n') ∧
    report_row t e e' (clock n) n status exit_code result_text error_type error_message ∧
    settled i e' (OpsTaskExecution.task_id e) t d d'.
Proof.
  intros Hd%reachable_inv He Hs Ht Hlive.
  destruct (run_total (report_result server i status exit_code result_text error_message error_type logs)
    (λ r s', r = i ∧ ∃ e', report_row t e e' (clock n) n status exit_code result_text error_type error_message ∧
                           settled i e' (OpsTaskExecution.task_id e) t d (durable s')) d n)
    as (r & s' & Hrun & -> & e' & Hrow & Hset).
  { apply (wp_report_result d server i e t); try done; [by apply good_refl|]. intros e' d' n' _ Hset Hrow.
    split; [done|]. by exists e'. }
  by exists e', (durable s'), (ticks s').
Qed.


(** A report for an unknown execution, or from another server than its own,
    is refused with 404; a repeated report of a finished execution returns it;
    and neither changes anything. *)
Theorem report_result_idempotent (d : db) (i server : Z) (n : nat) (status : string)
    (exit_code : option Z) (result_text error_message error_type logs : option string) :
  let report := report_result server i status exit_code result_text error_message error_type logs in
  ((∀ e, execs d !! i = Some e → OpsTaskExecution.server_id e ≠ server) →
   run report d n = (Raise (AppException TASK_EXECUTION_NOT_FOUND "执行记录不存在" 404), d, n)) ∧
  (∀ e, execs d !! i = Some e → OpsTaskExecution.server_id e = server →
   exec_terminal (OpsTaskExecution.status e) = true → run report d n = (Ok i, d, n)).
Proof.
  simpl. split.
  - intros Hother. apply run_refused. unfold report_result.
    apply wp_bind, (wp_get TExec); [|by intros _; apply wp_app_error].
    intros e He _. apply wp_bind, (wp_obj_ok TExec _ e); [done|].
    rewrite (proj2 (Z.eqb_neq _ _) (Hother e He)). by apply wp_app_error.
  - intros e He Hs Ht.
    destruct (run_total (report_result server i status exit_code result_text error_message error_type logs)
      (λ r s', r = i ∧ s' = Session d d n) d n) as (r & s' & Hrun & -> & ->); [|done].
    unfold report_result. apply wp_bind, (wp_get TExec); [|by intros Hn; specialize (Hn e He)].
    intros _ _ _. apply wp_bind, (wp_obj_ok TExec _ e); [done|].
    by rewrite Hs, Z.eqb_refl, Ht.
Qed.

(** C16: in every reachable state there are at most as many executions on a
    target as its task has attempts. *)
Theorem attempts_bounded (d : db) (g task : Z) (t : OpsTask) :
  reachable d → tasks d !! task = Some t →
  (length (filter (λ e, OpsTaskExecution.target_id e = g) (task_executions d task))
     ≤ Z.to_nat (OpsTask.max_attempts t))%nat.
Proof.
  intros Hinv%reachable_inv Ht.
  set (es := filter _ (task_executions d task)).
  assert (NoDup (task_executions d task)) as Hnd.
  { apply (NoDup_fmap_1 OpsTaskExecution.id). unfold task_executions.
    rewrite (rows_of_keys TExec OpsTaskExecution.id); [apply matching_nodup|].
    intros i (e & He & _)%elem_of_matching. exists e. split; [done|]. by apply (inv_exec_id Hinv). }
  assert (NoDup (OpsTaskExecution.attempt <$> es)) as Hnda.
  { apply NoDup_fmap_2_strong; [|by apply NoDup_filter].
    intros e e' [Hg He]%list_elem_of_filter [Hg' He']%list_elem_of_filter Ha.
    eapply task_executions_distinct; try done. congruence. }
  rewrite <- (length_fmap OpsTaskExecution.attempt), <- (length_seqZ 1 (OpsTask.max_attempts t)).
  apply submseteq_length, NoDup_submseteq; [done|].
  intros a (e & -> & [_ (i & He & Htask)%elem_of_task_executions]%list_elem_of_filter)%list_elem_of_fmap.
  apply elem_of_seqZ. pose proof (inv_attempt Hinv i e t He) as Hatt. rewrite Htask in Hatt.
  specialize (Hatt Ht). lia.
Qed.

(** C15: the retry dispatch never fails.  It takes the due executions, at most
    [limit] of them (all, if they are fewer); each is archived as FAILED and
    succeeded by a pending execution with the next attempt number when its
    task's budget allows, and is DEAD otherwise; every other execution is left
    alone, and the returned number is that of the executions created. *)
Theorem dispatch_retries_spec (d : db) (limit n : nat) :
  reachable d →
  ∃ r d' n' ids, run (dispatch_retries limit) d n = (Ok r, d', n') ∧
    due_ids d (clock n) limit ids ∧ dispatch_result n ids r d d'.
Proof.
  intros Hd%reachable_inv.
  destruct (run_total (dispatch_retries limit) (λ r s', ∃ ids, due_ids d (clock n) limit ids ∧
    dispatch_result n ids r d (durable s')) d n) as (r & s' & Hrun & ids & Hdue & Hres).
  { apply (wp_dispatch_retries d); [done|done|]. intros ids r d' n' Hdue _ Hres. by exists ids. }
  by exists r, (durable s'), (ticks s'), ids.
Qed.

(** C18: the time-out scan never fails.  An execution of a RUNNING task that
    has been running longer than its own task's time-out is TIMEOUT
    afterwards, and no other execution changes. *)
Theorem scan_timeouts_spec (d : db) (n : nat) :
  reachable d →
  ∃ r d' n', run scan_timeouts d n = (Ok r, d', n') ∧ scan_result n d d'.
Proof.
  intros Hd%reachable_inv.
  destruct (run_total scan_timeouts (λ r s', scan_result n d (durable s')) d n) as (r & s' & Hrun & Hres).
  { by apply (wp_scan_timeouts d). }
  by exists r, (durable s'), (ticks s').
Qed.

(** The clean-up never fails.  It removes exactly the finished executions
    older than the retention period, and the finished one-shot tasks older
    than it that then have no execution left; CRON definitions stay. *)
Theorem cleanup_history_spec (d : db) (retention_days : Z) (n : nat) :
  reachable d →
  ∃ r d' n', run (cleanup_history retention_days) d n = (Ok r, d', n') ∧
    cleaned (clock n - days retention_days) d d' ∧
    ∀ i t, tasks d !! i = Some t → OpsTask.schedule_type t = "CRON" → tasks d' !! i = Some t.
Proof.
  intros Hd%reachable_inv.
  destruct (run_total (cleanup_history retention_days)
    (λ r s', cleaned (clock n - days retention_days) d (durable s')) d n) as (r & s' & Hrun & Hres).
  { by apply (wp_cleanup_history d). }
  exists r, (durable s'), (ticks s'). split_and!; [done|done|].
  intros i t Ht Hs. rewrite (cleaned_tasks _ _ _ Hres). apply map_lookup_filter_Some. split; [done|].
  unfold TaskRepository.removable_task. by rewrite Hs.
Qed.

(** The cron scan never fails.  It fires the waiting CRON tasks whose
    next time after their creation has come: each gets a first attempt on
    every target and is RUNNING; the other tasks are left alone. *)
Theorem fire_due_cron_spec (d : db) (n : nat) :
  reachable d →
  ∃ ts d' n', run fire_due_cron d n = (Ok (Z.of_nat (length ts)), d', n') ∧
    (∀ j, j ∈ ts ↔ ∃ t, tasks d !! j = Some t ∧ cron_waiting t ∧ cron_due (clock n) t = true) ∧
    fired ts d d' ∧ (∀ j, j ∉ ts → tasks d' !! j = tasks d !! j).
Proof.
  intros Hd%reachable_inv.
  destruct (run_total fire_due_cron (λ r s', ∃ ts, r = Z.of_nat (length ts) ∧
    (∀ j, j ∈ ts ↔ ∃ t, tasks d !! j = Some t ∧ cron_waiting t ∧ cron_due (clock n) t = true) ∧
    fired ts d (durable s') ∧ (∀ j, j ∉ ts → tasks (durable s') !! j = tasks d !! j)) d n)
    as (r & s' & Hrun & ts & -> & Hres).
  { apply (wp_fire_due_cron d); [done|done|]. intros ts d' n' _ H1 H2 H3. by exists ts. }
  by exists ts, (durable s'), (ticks s').
Qed.


(** An acceptable request with a free key is accepted. *)
Theorem create_task_accepts (d : db) (data : TaskCreate) (creator_id : Z) (key : option string)
    (action : string) (n : nat) :
  reachable d → TaskCreate.valid data = true → acceptable d data creator_id key action →
  ∃ i d' n', run (create_task data creator_id key) d n = (Ok i, d', n') ∧
             created data creator_id key action i d d'.
Proof.
  intros Hd%reachable_inv Hvalid Hacc.
  destruct (run_total (create_task data creator_id key) (λ i s',
    created data creator_id key action i d (durable s')) d n) as (i & s' & Hrun & Hc).
  { apply (wp_create_task d); [done|done|done| | |].
    - intros Hno. by destruct (Hno action).
    - intros j t k -> Hne Ht Hk. by destruct (acc_key _ _ _ _ _ Hacc k j t).
    - intros action' j d1 n1 _ Hc _. cbn [durable].
      pose proof (acc_action _ _ _ _ _ Hacc (Session d d n)) as H1.
      pose proof (created_action _ _ _ _ _ _ _ Hc (Session d d n)) as H2.
      rewrite H1 in H2. by injection H2 as ->. }
  by exists i, (durable s'), (ticks s').
Qed.

(** A repeated creation with the same non-empty idempotency key returns a
    task with that key and changes nothing, whatever the request says. *)
Theorem create_task_idempotent (d : db) (data : TaskCreate) (creator_id j : Z) (k : string)
    (t : OpsTask) (n : nat) :
  k ≠ "" → tasks d !! j = Some t → OpsTask.idempotency_key t = Some k →
  ∃ i t', run (create_task data creator_id (Some k)) d n = (Ok i, d, n) ∧
          tasks d !! i = Some t' ∧ OpsTask.idempotency_key t' = Some k.
Proof.
  intros Hne Ht Hk.
  destruct (run_total (create_task data creator_id (Some k)) (λ i s', s' = Session d d n ∧
    ∃ t', tasks d !! i = Some t' ∧ OpsTask.idempotency_key t' = Some k) d n)
    as (i & s' & Hrun & -> & t' & Ht' & Hk').
  { unfold create_task. apply wp_bind, (wp_find_key k Hne). cbn [work]. intros [i|] Hi.
    - apply wp_ret. by split.
    - by destruct (Hi j t). }
  by exists i, t'.
Qed.

(** A task is confirmed exactly when it is CREATED: it becomes PENDING
    and records the operator and the time, and nothing else changes; any other
    task is refused with 400, an unknown one with 404. *)
Theorem confirm_task_spec (d : db) (i operator_id : Z) (n : nat) :
  reachable d → is_Some (rows (d TUser) !! operator_id) →
  match tasks d !! i with
  | None =>
    run (confirm_task i operator_id) d n = (Raise (AppException TASK_NOT_FOUND "任务不存在" 404), d, n)
  | Some t =>
    if bool_decide (OpsTask.status t = T_CREATED) then
      ∃ d' n', run (confirm_task i operator_id) d n = (Ok i, d', n') ∧ only TTask d d' ∧
        tasks d' = <[i := t <| OpsTask.status := T_PENDING |>
                            <| OpsTask.confirmed_by := Some operator_id |>
                            <| OpsTask.confirmed_at := Some (clock n) |>]> (tasks d)
    else run (confirm_task i operator_id) d n
         = (Raise (AppException BAD_REQUEST "任务当前无需确认" 400), d, n)
  end.
Proof.
  intros Hd%reachable_inv [u Hu]. destruct (tasks d !! i) as [t|] eqn:Ht.
  - destruct (bool_decide_reflect (OpsTask.status t = T_CREATED)) as [Hst|Hst].
    + destruct (run_total (confirm_task i operator_id) (λ r s', r = i ∧ only TTask d (durable s') ∧
        tasks (durable s') = <[i := t <| OpsTask.status := T_PENDING |>
                            <| OpsTask.confirmed_by := Some operator_id |>
                            <| OpsTask.confirmed_at := Some (clock n) |>]> (tasks d)) d n)
        as (r & s' & Hrun & -> & Ho & Htasks).
      { apply (wp_confirm_task d i operator_id t); try done; [by apply good_refl|].
        intros Hn. pose proof (eq_trans (eq_sym Hu) Hn). done. }
      by exists (durable s'), (ticks s').
    + apply run_refused, (wp_confirm_task d i operator_id t); try done; [by apply good_refl|].
      intros Hn. pose proof (eq_trans (eq_sym Hu) Hn). done.
  - apply run_refused. by apply wp_task_missing.
Qed.

(** Cancelling an open task cancels its pending executions, leaves its
    running and waiting ones alone, and aggregates its status; a finished task
    is refused with 400, an unknown one with 404, and nothing changes. *)
Theorem cancel_task_spec (d : db) (i : Z) (n : nat) :
  reachable d →
  match tasks d !! i with
  | None => run (cancel_task i) d n = (Raise (AppException TASK_NOT_FOUND "任务不存在" 404), d, n)
  | Some t =>
    if task_terminal (OpsTask.status t)
    then run (cancel_task i) d n = (Raise (AppException BAD_REQUEST "任务已结束，无法取消" 400), d, n)
    else ∃ d' n' now, run (cancel_task i) d n = (Ok i, d', n') ∧
      tasks d' = <[i := aggregate_row (aggregated d' i) now t]> (tasks d) ∧
      ∀ j e, execs d !! j = Some e → ∃ e', execs d' !! j = Some e' ∧
        if bool_decide (OpsTaskExecution.task_id e = i) then cancelled e e' else e' = e
  end.
Proof.
  intros Hd%reachable_inv. destruct (tasks d !! i) as [t|] eqn:Ht.
  - destruct (task_terminal (OpsTask.status t)) eqn:Hst.
    + apply run_refused, (wp_cancel_task d i t); try done; [by apply good_refl|]. congruence.
    + destruct (run_total (cancel_task i) (λ r s', r = i ∧ ∃ now,
        tasks (durable s') = <[i := aggregate_row (aggregated (durable s') i) now t]> (tasks d) ∧
        ∀ j e, execs d !! j = Some e → ∃ e', execs (durable s') !! j = Some e' ∧
          if bool_decide (OpsTaskExecution.task_id e = i) then cancelled e e' else e' = e) d n)
        as (r & s' & Hrun & -> & now & Htasks & Hex).
      { apply (wp_cancel_task d i t); try done; [by apply good_refl|congruence|].
        intros d' n' now _ _ Hex Htasks. split; [done|]. by exists now. }
      by exists (durable s'), (ticks s'), now.
  - apply run_refused. by apply wp_task_missing.
Qed.

(** An operation that raises leaves the database as it was. *)
Theorem operations_atomic (op : task_op) (d d' : db) (n n' : nat) (e : exc) :
  run (run_op op) d n = (Raise e, d', n') → d' = d.
Proof. apply run_atomic, run_op_atomic. Qed.
End Props.

(** ** Instances on the sample database *)

#[local] Opaque demo demo_later.

(** Reading a row of a concrete database and one of its columns. *)
Lemma task_at (d : db) (i : Z) (st : task_status) :
  OpsTask.status <$> tasks d !! i = Some st → ∃ t, tasks d !! i = Some t ∧ OpsTask.status t = st.
Proof. intros (t & Ht & Hst)%fmap_Some. by exists t. Qed.

Lemma reachable_task_inv_witness : task_inv None demo.
Proof. apply reachable_task_inv, demo_reachable. Defined.

Lemma exec_at (d : db) (i task : Z) (st : exec_status) :
  (λ e, (OpsTaskExecution.task_id e, OpsTaskExecution.status e)) <$> execs d !! i = Some (task, st) →
  ∃ e, execs d !! i = Some e ∧ OpsTaskExecution.task_id e = task ∧ OpsTaskExecution.status e = st.
Proof. intros (e & He & [= -> ->])%fmap_Some. by exists e. Qed.

(** The finished check is the same row after the later operations. *)
Lemma finished_is_final_witness :
  ∃ e, execs demo !! 3 = Some e ∧ OpsTaskExecution.status e = E_SUCCESS ∧ execs demo_later !! 3 = Some e.
Proof.
  destruct (execs demo !! 3) as [e|] eqn:He; [|vm_compute in He; discriminate].
  destruct (execs demo_later !! 3) as [e'|] eqn:He'; [|vm_compute in He'; discriminate].
  assert (OpsTaskExecution.status e = E_SUCCESS) as Hst by (vm_compute in He; by injection He as <-).
  exists e. split_and!; [done|done|]. f_equal.
  apply (proj1 (finished_is_final demo demo_later demo_reachable
    (play_steps [DispatchRetries 50; FireDueCron] demo 100 eq_refl)) 3 e e' He He'). by rewrite Hst.
Defined.

(** The second server claims its pending execution once it can. *)
Lemma fetch_pending_spec_witness :
  ∃ cs d' n', run (fetch_pending 2) demo_later 300 = (Ok cs, d', n') ∧
    claim_execution_id <$> cs = [1].
Proof.
  pose proof demo_later_reachable as Hr.
  destruct (fetch_pending_spec demo_later 2 300 Hr) as (cs & d' & n' & Hrun & Hids & _).
  exists cs, d', n'. split; [exact Hrun|]. rewrite Hids. vm_compute. reflexivity.
Defined.

Lemma claimed_at_most_once_witness :
  ∃ cs1 d1 n1 cs2 d3 n3,
    run (fetch_pending 2) demo_later 300 = (Ok cs1, d1, n1) ∧ 1 ∈ claim_execution_id <$> cs1 ∧
    run (fetch_pending 2) d1 n1 = (Ok cs2, d3, n3) ∧ 1 ∉ claim_execution_id <$> cs2.
Proof.
  pose proof demo_later_reachable as Hr.
  destruct (run (fetch_pending 2) demo_later 300) as [[[cs1|] d1] n1] eqn:H1; [|vm_compute in H1; discriminate].
  destruct (run (fetch_pending 2) d1 n1) as [[[cs2|] d3] n3] eqn:H2;
    [|vm_compute in H1; injection H1 as <- <- <-; vm_compute in H2; discriminate].
  assert (1 ∈ claim_execution_id <$> cs1) as Hin.
  { vm_compute in H1. injection H1 as <- _ _. apply (bool_decide_unpack _). by vm_compute. }
  exists cs1, d1, n1, cs2, d3, n3. split_and!; [reflexivity|exact Hin|exact H2|].
  by apply (claimed_at_most_once demo_later d1 d1 d3 2 2 300 n1 n1 n3 cs1 cs2 Hr H1 (rtc_refl _ _) H2).
Defined.


Lemma report_result_idempotent_witness :
  run (report_result 1 3 "FAILED" None None None None None) demo 300 = (Ok 3, demo, 300%nat) ∧
  run (report_result 2 3 "SUCCESS" None None None None None) demo 300
  = (Raise (AppException TASK_EXECUTION_NOT_FOUND "执行记录不存在" 404), demo, 300%nat).
Proof.
  destruct (execs demo !! 3) as [e|] eqn:He; [|vm_compute in He; discriminate].
  assert (OpsTaskExecution.server_id e = 1 ∧ OpsTaskExecution.status e = E_SUCCESS) as [Hs Hst].
  { vm_compute in He. by injection He as <-. }
  split.
  - apply (proj2 (report_result_idempotent demo 3 1 300 "FAILED" None None None None None) e He Hs).
    by rewrite Hst.
  - apply (proj1 (report_result_idempotent demo 3 2 300 "SUCCESS" None None None None None)).
    intros e' He'. rewrite <- (same_row TExec He He'). by rewrite Hs.
Defined.

Lemma attempts_bounded_witness :
  ∃ t, tasks demo_later !! 1 = Some t ∧
    (length (filter (λ e, OpsTaskExecution.target_id e = 2%Z) (task_executions demo_later 1%Z))
       ≤ Z.to_nat (OpsTask.max_attempts t))%nat.
Proof.
  pose proof demo_later_reachable as Hr.
  destruct (tasks demo_later !! 1) as [t|] eqn:Ht; [|vm_compute in Ht; discriminate].
  exists t. split; [done|]. by apply attempts_bounded.
Defined.

(** The retry of the restart on the first server becomes a second attempt. *)
Lemma dispatch_retries_spec_witness :
  ∃ d' n' ids, run (dispatch_retries 50) demo 100 = (Ok 1, d', n') ∧
    due_ids demo (clock 100) 50 ids ∧ dispatch_result 100 ids 1 demo d'.
Proof.
  destruct (dispatch_retries_spec demo 50 100 demo_reachable) as (r & d' & n' & ids & Hrun & Hdue & Hres).
  assert ((run (dispatch_retries 50) demo 100).1.1 = Ok 1) as Hone by (vm_compute; reflexivity).
  rewrite Hrun in Hone. injection Hone as ->.
  exists d', n', ids. exact (conj Hrun (conj Hdue Hres)).
Defined.

Lemma scan_timeouts_spec_witness :
  ∃ r d' n', run scan_timeouts demo_later 5000 = (Ok r, d', n') ∧ scan_result 5000 demo_later d'.
Proof. exact (scan_timeouts_spec demo_later 5000 demo_later_reachable). Defined.

Lemma cleanup_history_spec_witness :
  ∃ r d' n', run (cleanup_history 0) demo 100 = (Ok r, d', n') ∧ execs d' !! 3 = None.
Proof.
  destruct (cleanup_history_spec demo 0 100 demo_reachable) as (r & d' & n' & Hrun & Hc & _).
  exists r, d', n'. split; [exact Hrun|]. rewrite (cleaned_execs _ _ _ Hc). vm_compute. reflexivity.
Defined.

Lemma fire_due_cron_spec_witness :
  ∃ ts d' n', run fire_due_cron demo 100 = (Ok (Z.of_nat (length ts)), d', n') ∧ 3 ∈ ts ∧ fired ts demo d'.
Proof.
  destruct (fire_due_cron_spec demo 100 demo_reachable) as (ts & d' & n' & Hrun & Hts & Hf & _).
  exists ts, d', n'. split_and!; [exact Hrun| |exact Hf]. apply Hts.
  destruct (tasks demo !! 3) as [t|] eqn:Ht; [|vm_compute in Ht; discriminate].
  exists t. split; [done|]. vm_compute in Ht. injection Ht as <-.
  split; [split; [done|apply (bool_decide_unpack _); by vm_compute]|by vm_compute].
Defined.


(** A restart is acceptable on the sample database. *)
Lemma sample_acceptable : acceptable sample_db sample_restart 1 (Some "k9") "RESTART".
Proof.
  split.
  - done.
  - intros sid Hin. simpl in Hin.
    repeat (apply elem_of_cons in Hin as [->|Hin]); [..|by apply elem_of_nil in Hin];
      eexists; (split; [vm_compute; reflexivity|reflexivity]).
  - intros _. split; [done|]. exists "nginx". split; [done|]. intros sid Hin. simpl in Hin.
    repeat (apply elem_of_cons in Hin as [->|Hin]); [..|by apply elem_of_nil in Hin].
    + exists 1. eexists. split; [vm_compute; reflexivity|done].
    + exists 2. eexists. split; [vm_compute; reflexivity|done].
    + exists 1. eexists. split; [vm_compute; reflexivity|done].
  - eexists. vm_compute. reflexivity.
  - intros k j t _ Ht. assert (tasks sample_db = ∅) as He by apply sample_initial.
    rewrite He, lookup_empty in Ht. done.
Qed.

Lemma create_task_accepts_witness :
  ∃ i d' n', run (create_task sample_restart 1 (Some "k9")) sample_db 7 = (Ok i, d', n') ∧
    created sample_restart 1 (Some "k9") "RESTART" i sample_db d'.
Proof. apply create_task_accepts; [apply sample_reachable|by vm_compute|apply sample_acceptable]. Defined.

Lemma create_task_idempotent_witness :
  ∃ i t, run (create_task sample_check 1 (Some "k1")) demo 100 = (Ok i, demo, 100%nat) ∧
    tasks demo !! i = Some t ∧ OpsTask.idempotency_key t = Some "k1".
Proof.
  destruct (tasks demo !! 1) as [t|] eqn:Ht; [|vm_compute in Ht; discriminate].
  assert (OpsTask.idempotency_key t = Some "k1") as Hk by (vm_compute in Ht; by injection Ht as <-).
  assert ("k1" ≠ "") as Hne by done.
  apply (create_task_idempotent demo sample_check 1 1 "k1" t 100 Hne Ht Hk).
Defined.

(** The cron task is confirmed; the restart no longer can be. *)
Lemma confirm_task_spec_witness :
  (∃ d' n', run (confirm_task 3 1) demo 100 = (Ok 3, d', n') ∧ only TTask demo d') ∧
  run (confirm_task 1 1) demo 100
  = (Raise (AppException BAD_REQUEST "任务当前无需确认" 400), demo, 100%nat).
Proof.
  assert (is_Some (rows (demo TUser) !! 1)) as Hu by (eexists; vm_compute; reflexivity).
  destruct (task_at demo 3 T_CREATED) as (t3 & Ht3 & Hs3); [vm_compute; reflexivity|].
  destruct (task_at demo 1 T_RETRYING) as (t1 & Ht1 & Hs1); [vm_compute; reflexivity|].
  pose proof (confirm_task_spec demo 3 1 100 demo_reachable Hu) as H3. rewrite Ht3, Hs3 in H3.
  pose proof (confirm_task_spec demo 1 1 100 demo_reachable Hu) as H1. rewrite Ht1, Hs1 in H1.
  split; [|exact H1].
  destruct H3 as (d' & n' & Hrun & Ho & _). exists d', n'. exact (conj Hrun Ho).
Defined.

Lemma cancel_task_spec_witness :
  (∃ d' n' e', run (cancel_task 1) demo 100 = (Ok 1, d', n') ∧
     execs d' !! 1 = Some e' ∧ OpsTaskExecution.status e' = E_CANCELLED) ∧
  run (cancel_task 2) demo 100
  = (Raise (AppException BAD_REQUEST "任务已结束，无法取消" 400), demo, 100%nat).
Proof.
  destruct (task_at demo 1 T_RETRYING) as (t1 & Ht1 & Hs1); [vm_compute; reflexivity|].
  destruct (task_at demo 2 T_SUCCESS) as (t2 & Ht2 & Hs2); [vm_compute; reflexivity|].
  pose proof (cancel_task_spec demo 1 100 demo_reachable) as H1. rewrite Ht1, Hs1 in H1.
  pose proof (cancel_task_spec demo 2 100 demo_reachable) as H2. rewrite Ht2, Hs2 in H2.
  split; [|exact H2].
  destruct H1 as (d' & n' & now & Hrun & _ & Hex).
  destruct (exec_at demo 1 1 E_PENDING) as (e & He & Ht & Hst); [vm_compute; reflexivity|].
  destruct (Hex 1 e He) as (e' & He' & Hc). exists d', n', e'. split_and!; [exact Hrun|exact He'|].
  rewrite Ht in Hc. unfold cancelled in Hc. rewrite Hst in Hc. exact (proj2 Hc).
Defined.

(** A repeated restart under an unknown user is refused by the database. *)
Lemma operations_atomic_witness :
  ∃ d' n', run (run_op (CreateTask sample_restart 99 None)) demo 100 = (Raise IntegrityError, d', n') ∧
    d' = demo.
Proof.
  destruct (run (run_op (CreateTask sample_restart 99 None)) demo 100) as [[o d'] n'] eqn:Hrun.
  assert (o = Raise IntegrityError) as -> by (vm_compute in Hrun; by injection Hrun as <- _ _).
  exists d', n'. split; [reflexivity|]. exact (operations_atomic _ _ _ _ _ _ Hrun).
Defined.
