(* ===== verification/AlertInv.v ===== *)
(** * Invariants of the alert tables

    [alert_inv] is what the alert engine and the alert centre keep true of
    events and their logs; [alert_evolves] relates the database before and
    after any number of their operations.  A change of an event and the log
    row that records it preserve both together. *)
From S2P Require Import Prelude.
From S2P Require Export AlertEngine AlertService.

Abbreviation events d := (rows (d TEvent)).
Abbreviation logs d := (rows (d TEventLog)).
Abbreviation rules d := (rows (d TRule)).

(** The transitions of the state machine; [None] is no event yet. *)
Definition alert_edge (old : option alert_status) (new : alert_status) : bool :=
  match old, new with
  | None, PENDING => true
  | Some PENDING, FIRING => true
  | Some (PENDING | FIRING | ACKNOWLEDGED), (ACKNOWLEDGED | RESOLVED) => true
  | _, _ => false
  end.

Definition alert_rank (s : alert_status) : nat :=
  match s with PENDING => 0 | FIRING => 1 | ACKNOWLEDGED => 2 | RESOLVED => 3 end.

Lemma alert_edge_rank s s' : alert_edge (Some s) s' = true → (alert_rank s ≤ alert_rank s')%nat.
Proof. destruct s, s'; simpl; (done || lia). Qed.

Lemma alert_edge_open s s' : alert_edge (Some s) s' = true → s ≠ RESOLVED.
Proof. by destruct s, s'. Qed.

(** What the columns of an event say about its state. *)
Record event_shape (e : AlertEvent) : Prop := EventShape {
  shape_first : is_Some (AlertEvent.first_fired_at e);
  shape_resolved : AlertEvent.status e = RESOLVED ↔ is_Some (AlertEvent.resolved_at e);
  shape_acknowledged : AlertEvent.status e = ACKNOWLEDGED → is_Some (AlertEvent.acknowledged_at e);
  shape_key : ∃ server_id, AlertEvent.server_id e = Some server_id ∧
    AlertEvent.alert_key e = alert_key_of (AlertEvent.rule_id e) server_id (AlertEvent.metric_type e)
}.

(** [l], stored under [j], continues the log of its event: its old status is
    the new status of the log before it. *)
Definition log_follows (d : db) (j : Z) (l : AlertEventLog) : Prop :=
  let same l' := AlertEventLog.event_id l' = AlertEventLog.event_id l in
  match AlertEventLog.old_status l with
  | None => ∀ j' l', logs d !! j' = Some l' → same l' → j ≤ j'
  | Some s => ∃ j' l', logs d !! j' = Some l' ∧ same l' ∧ j' < j ∧
      AlertEventLog.new_status l' = s ∧
      ∀ j2 l2, logs d !! j2 = Some l2 → same l2 → j2 < j → j2 ≤ j'
  end.

(** The last log of event [i] records its present status. *)
Definition logged (d : db) (i : Z) (e : AlertEvent) : Prop :=
  ∃ j l, logs d !! j = Some l ∧ AlertEventLog.event_id l = i ∧
    AlertEventLog.new_status l = AlertEvent.status e ∧
    ∀ j' l', logs d !! j' = Some l' → AlertEventLog.event_id l' = i → j' ≤ j.

Record alert_inv (d : db) : Prop := AlertInv {
  ai_integrity : integrity d;
  ai_rule_id : ∀ i r, rules d !! i = Some r → AlertRule.id r = i;
  ai_server_id : ∀ i s, rows (d TServer) !! i = Some s → OpsServer.id s = i;
  ai_event_id : ∀ i e, events d !! i = Some e → AlertEvent.id e = i;
  ai_shape : ∀ i e, events d !! i = Some e → event_shape e;
  ai_edge : ∀ j l, logs d !! j = Some l →
    alert_edge (AlertEventLog.old_status l) (AlertEventLog.new_status l) = true;
  ai_follows : ∀ j l, logs d !! j = Some l → log_follows d j l;
  ai_logged : ∀ i e, events d !! i = Some e → logged d i e
}.
Arguments ai_integrity {d}.
Arguments ai_rule_id {d}.
Arguments ai_server_id {d}.
Arguments ai_event_id {d}.
Arguments ai_shape {d}.
Arguments ai_edge {d}.
Arguments ai_follows {d}.
Arguments ai_logged {d}.

(** The columns of an event that never change. *)
Definition event_core (e : AlertEvent) : Z * Z * option Z * string * option datetime * string :=
  (AlertEvent.id e, AlertEvent.rule_id e, AlertEvent.server_id e, AlertEvent.alert_key e,
   AlertEvent.first_fired_at e, AlertEvent.message e).

(** One event: its identity is kept, its status only advances, and a resolved
    event stays as it is. *)
Record event_advances (e e' : AlertEvent) : Prop := EventAdvances {
  advances_core : event_core e' = event_core e;
  advances_rank : (alert_rank (AlertEvent.status e) ≤ alert_rank (AlertEvent.status e'))%nat;
  advances_resolved : AlertEvent.status e = RESOLVED → e' = e
}.

Record alert_evolves (d0 d : db) : Prop := AlertEvolves {
  ae_events : ∀ i e, events d0 !! i = Some e → ∃ e', events d !! i = Some e' ∧ event_advances e e';
  ae_logs : ∀ j l, logs d0 !! j = Some l → logs d !! j = Some l
}.

Lemma event_advances_refl e : event_advances e e.
Proof. by split. Qed.

Lemma event_advances_trans e1 e2 e3 : event_advances e1 e2 → event_advances e2 e3 → event_advances e1 e3.
Proof.
  intros [c1 r1 v1] [c2 r2 v2]. split; [congruence|lia|].
  intros Hr. specialize (v1 Hr). subst e2. by apply v2.
Qed.

Lemma alert_evolves_refl d : alert_evolves d d.
Proof. split; [|done]. intros i e He. exists e. split; [done|apply event_advances_refl]. Qed.

Lemma alert_evolves_trans d1 d2 d3 : alert_evolves d1 d2 → alert_evolves d2 d3 → alert_evolves d1 d3.
Proof.
  intros [e1 l1] [e2 l2]. split; [|auto]. intros i e He.
  destruct (e1 i e He) as (e' & He' & H1), (e2 i e' He') as (e'' & He'' & H2).
  exists e''. split; [done|]. by eapply event_advances_trans.
Qed.

Lemma alert_evolves_ext d0 d d' :
  d' TEvent = d TEvent → d' TEventLog = d TEventLog → alert_evolves d0 d → alert_evolves d0 d'.
Proof. intros He Hl [e l]. split; [by rewrite He|by rewrite Hl]. Qed.

(** Changes elsewhere in the database. *)
Lemma alert_inv_ext d d' :
  alert_inv d → integrity d' →
  (∀ i r, rules d' !! i = Some r → AlertRule.id r = i) →
  (∀ i s, rows (d' TServer) !! i = Some s → OpsServer.id s = i) →
  d' TEvent = d TEvent → d' TEventLog = d TEventLog → alert_inv d'.
Proof.
  intros [] HI Hr Hs He Hl.
  split; unfold log_follows, logged in *; rewrite ?He, ?Hl; done.
Qed.

(** ** A new log row *)

Section NewLog.
Context (d d' : db) (l : AlertEventLog).
Hypothesis HI : integrity d.
Hypothesis Hlogs : d' TEventLog = Table (<[next_id (d TEventLog) := l]> (logs d)) (next_id (d TEventLog) + 1).

Lemma log_lookup j l' :
  logs d' !! j = Some l' ↔
  (j = next_id (d TEventLog) ∧ l' = l) ∨ (j < next_id (d TEventLog) ∧ logs d !! j = Some l').
Proof.
  rewrite Hlogs. simpl. rewrite lookup_insert_Some. split.
  - intros [[-> ->]|[Hne Hl]]; [by left|]. right. split; [|done]. exact (integrity_key TEventLog HI Hl).
  - intros [[-> ->]|[Hlt Hl]]; [by left|]. right. split; [lia|done].
Qed.

Lemma log_follows_old j l' :
  logs d !! j = Some l' → log_follows d j l' → log_follows d' j l'.
Proof.
  intros Hl Hf. assert (j < next_id (d TEventLog)) as Hlt by exact (integrity_key TEventLog HI Hl).
  unfold log_follows in *. destruct (AlertEventLog.old_status l').
  - destruct Hf as (j1 & l1 & H1 & H2 & H3 & H4 & H5). exists j1, l1.
    split_and!; [apply log_lookup; right; split; [lia|done]|done..|].
    intros j2 l2 [[-> ->]|[_ Hl2]]%log_lookup Hs Hj; [lia|by eapply H5].
  - intros j1 l1 [[-> ->]|[_ Hl1]]%log_lookup Hs; [lia|by eapply Hf].
Qed.

Lemma logged_old i e :
  AlertEventLog.event_id l ≠ i → logged d i e → logged d' i e.
Proof.
  intros Hne (j & l0 & Hl & Hi & Hn & Hmax). exists j, l0.
  split_and!; [|done..|].
  - apply log_lookup. right. split; [exact (integrity_key TEventLog HI Hl)|done].
  - intros j' l' [[-> ->]|[_ Hl']]%log_lookup Hi'; [done|by eapply Hmax].
Qed.

Lemma logged_new i e :
  AlertEventLog.event_id l = i → AlertEventLog.new_status l = AlertEvent.status e → logged d' i e.
Proof.
  intros Hi Hn. exists (next_id (d TEventLog)), l. split_and!; [|done..|].
  - apply log_lookup. by left.
  - intros j' l' [[-> ->]|[Hlt _]]%log_lookup _; lia.
Qed.
End NewLog.

(** A change of event [i] together with its log. *)
Definition alert_good (d0 d : db) : Prop := alert_inv d ∧ alert_evolves d0 d.

Lemma alert_good_refl d : alert_inv d → alert_good d d.
Proof. intros HI. split; [done|apply alert_evolves_refl]. Qed.

Definition others_same (d d' : db) : Prop := ∀ k, k ≠ TEvent → k ≠ TEventLog → d' k = d k.

Lemma alert_good_move d0 d d' i e e' l :
  alert_good d0 d → events d !! i = Some e → events d' = <[i := e']> (events d) →
  d' TEventLog = Table (<[next_id (d TEventLog) := l]> (logs d)) (next_id (d TEventLog) + 1) →
  others_same d d' → integrity d' →
  event_shape e' → event_core e' = event_core e →
  alert_edge (Some (AlertEvent.status e)) (AlertEvent.status e') = true →
  AlertEventLog.event_id l = i → AlertEventLog.old_status l = Some (AlertEvent.status e) →
  AlertEventLog.new_status l = AlertEvent.status e' →
  alert_good d0 d'.
Proof.
  intros [[HI Hr Hs Hid Hsh Hed Hfo Hlo] Hev] He Hev' Hlog Hoth HI' Hshape Hcore Hedge Hli Hold Hnew.
  assert (event_advances e e') as Hadv.
  { split; [done|by apply alert_edge_rank|]. intros Hres. by apply alert_edge_open in Hedge. }
  split.
  - split; [done|by rewrite Hoth|by rewrite Hoth|..].
    + intros j ej. rewrite Hev'. intros [[-> <-]|[_ Hj]]%lookup_insert_Some; [|by apply Hid].
      injection Hcore as Hcid _ _ _ _ _. rewrite Hcid. by apply Hid.
    + intros j ej. rewrite Hev'. intros [[-> <-]|[_ Hj]]%lookup_insert_Some; [done|by eapply Hsh].
    + intros j l'. rewrite (log_lookup d d' l HI Hlog). intros [[-> ->]|[_ Hl]]; [by rewrite Hold, Hnew|by eapply Hed].
    + intros j l'. rewrite (log_lookup d d' l HI Hlog). intros [[-> ->]|[_ Hl]].
      * unfold log_follows. rewrite Hold. destruct (Hlo i e He) as (j1 & l1 & Hl1 & Hi1 & Hn1 & Hmax).
        exists j1, l1. assert (j1 < next_id (d TEventLog)) by exact (integrity_key TEventLog HI Hl1).
        split_and!; [apply (log_lookup d d' l HI Hlog); by right|congruence|done|done|].
        intros j2 l2 [[-> ->]|[_ Hl2]]%(log_lookup d d' l HI Hlog) Hs2 Hj2; [lia|].
        eapply Hmax; [done|congruence].
      * by apply (log_follows_old d d' l HI Hlog), Hfo.
    + intros j ej. rewrite Hev'. intros [[-> <-]|[Hne Hj]]%lookup_insert_Some.
      * by apply (logged_new d d' l HI Hlog).
      * apply (logged_old d d' l HI Hlog); [congruence|by apply Hlo].
  - apply (alert_evolves_trans d0 d d'); [done|]. split.
    + intros j ej Hj. rewrite Hev'. destruct (decide (i = j)) as [->|Hne].
      * exists e'. rewrite lookup_insert_eq. split; [done|]. by rewrite <- (same_row TEvent He Hj).
      * exists ej. rewrite lookup_insert_ne by done. split; [done|apply event_advances_refl].
    + intros j l' Hl. apply (log_lookup d d' l HI Hlog). right. split; [exact (integrity_key TEventLog HI Hl)|done].
Qed.

(** A change of event [i] that leaves its status alone. *)
Lemma alert_good_touch d0 d d' i e e' :
  alert_good d0 d → events d !! i = Some e → AlertEvent.status e ≠ RESOLVED →
  events d' = <[i := e']> (events d) → d' TEventLog = d TEventLog →
  others_same d d' → integrity d' → event_shape e' → event_core e' = event_core e →
  AlertEvent.status e' = AlertEvent.status e → alert_good d0 d'.
Proof.
  intros [[HI Hr Hs Hid Hsh Hed Hfo Hlo] Hev] He Hopen Hev' Hlog Hoth HI' Hshape Hcore Hst.
  split.
  - split; unfold log_follows, logged in *; rewrite ?Hlog; try done; [by rewrite Hoth|by rewrite Hoth|..];
      intros j ej; rewrite Hev'; intros [[-> <-]|[_ Hj]]%lookup_insert_Some; eauto.
    + injection Hcore as Hcid _ _ _ _ _. rewrite Hcid. by apply Hid.
    + rewrite Hst. by apply Hlo.
  - apply (alert_evolves_trans d0 d d'); [done|]. split; [|by rewrite Hlog].
    intros j ej Hj. rewrite Hev'. destruct (decide (i = j)) as [->|Hne].
    + exists e'. rewrite lookup_insert_eq. split; [done|]. rewrite <- (same_row TEvent He Hj).
      split; [done|by rewrite Hst|done].
    + exists ej. rewrite lookup_insert_ne by done. split; [done|apply event_advances_refl].
Qed.

(** A new event with its first log. *)
Lemma alert_good_new d0 d d' e l :
  alert_good d0 d →
  d' TEvent = Table (<[next_id (d TEvent) := e]> (events d)) (next_id (d TEvent) + 1) →
  d' TEventLog = Table (<[next_id (d TEventLog) := l]> (logs d)) (next_id (d TEventLog) + 1) →
  others_same d d' → integrity d' → event_shape e → AlertEvent.id e = next_id (d TEvent) →
  AlertEvent.status e = PENDING → AlertEventLog.event_id l = next_id (d TEvent) →
  AlertEventLog.old_status l = None → AlertEventLog.new_status l = PENDING →
  alert_good d0 d'.
Proof.
  intros [[HI Hr Hs Hid Hsh Hed Hfo Hlo] Hev] Hev' Hlog Hoth HI' Hshape Hei Hst Hli Hold Hnew.
  assert (∀ j l', logs d !! j = Some l' → AlertEventLog.event_id l' ≠ next_id (d TEvent)) as Hfresh.
  { intros j l' Hl. destruct (integrity_refs TEventLog j l' d TEvent (AlertEventLog.event_id l') HI Hl) as [e0 He0].
    { simpl. list_in. }
    pose proof (integrity_key TEvent HI He0). lia. }
  split.
  - split; [done|by rewrite Hoth|by rewrite Hoth|..].
    + intros j ej. rewrite Hev'. simpl. intros [[<- <-]|[_ Hj]]%lookup_insert_Some; [done|by apply Hid].
    + intros j ej. rewrite Hev'. simpl. intros [[<- <-]|[_ Hj]]%lookup_insert_Some; [done|by eapply Hsh].
    + intros j l'. rewrite (log_lookup d d' l HI Hlog). intros [[-> ->]|[_ Hl]]; [by rewrite Hold, Hnew|by eapply Hed].
    + intros j l'. rewrite (log_lookup d d' l HI Hlog). intros [[-> ->]|[_ Hl]].
      * unfold log_follows. rewrite Hold.
        intros j1 l1 [[-> ->]|[_ Hl1]]%(log_lookup d d' l HI Hlog) Hs1; [lia|].
        exfalso. apply (Hfresh _ _ Hl1). congruence.
      * by apply (log_follows_old d d' l HI Hlog), Hfo.
    + intros j ej. rewrite Hev'. simpl. intros [[<- <-]|[Hne Hj]]%lookup_insert_Some.
      * by apply (logged_new d d' l HI Hlog); [|by rewrite Hst].
      * apply (logged_old d d' l HI Hlog); [by rewrite Hli|by apply Hlo].
  - apply (alert_evolves_trans d0 d d'); [done|]. split.
    + intros j ej Hj. exists ej. rewrite Hev'. simpl. split; [|apply event_advances_refl].
      rewrite lookup_insert_ne; [done|]. intros <-. exact (Z.lt_irrefl _ (integrity_key TEvent HI Hj)).
    + intros j l' Hl. apply (log_lookup d d' l HI Hlog). right. split; [exact (integrity_key TEventLog HI Hl)|done].
Qed.
