(* ===== verification/AlertSteps.v ===== *)
(** * The steps of the alert engine and the alert centre

    What the building blocks do to a database that satisfies the invariant of
    the alert tables. *)
From Stdlib Require Import QArith.
From S2P Require Import Prelude.
From S2P Require Export PyText AlertInv.

Lemma alert_key_inj r s m r' s' m' :
  alert_key_of r s m = alert_key_of r' s' m' → r = r' ∧ s = s' ∧ m = m'.
Proof. intros [-> [-> ->]%numbered_inj]%numbered_inj. done. Qed.

Lemma active_open e : active e = true ↔ AlertEvent.status e ≠ RESOLVED.
Proof. unfold active, AlertEvent.is_active. by destruct (AlertEvent.status e). Qed.

(** At most one active event per key. *)
Lemma active_unique d x y e e' :
  integrity d → events d !! x = Some e → events d !! y = Some e' →
  active e = true → active e' = true → AlertEvent.alert_key e = AlertEvent.alert_key e' → x = y.
Proof.
  intros HI He He' Ha Ha' Hk. apply (integrity_unique TEvent x y e e' d); [done..|]. simpl.
  rewrite bool_decide_true by done. revert Ha Ha'. unfold active, AlertEvent.is_active.
  by destruct (AlertEvent.status e), (AlertEvent.status e').
Qed.

(** A changed event keeps the constraints if it keeps its key and references. *)
Lemma admissible_event d i e e' :
  integrity d → events d !! i = Some e →
  AlertEvent.rule_id e' = AlertEvent.rule_id e → AlertEvent.server_id e' = AlertEvent.server_id e →
  AlertEvent.alert_key e' = AlertEvent.alert_key e →
  (active e' = true → active e = true) →
  (∀ u, AlertEvent.acknowledged_by e' = Some u → is_Some (rows (d TUser) !! u)) →
  admissible TEvent i e' d = true.
Proof.
  intros HI He Hr Hs Hk Ha Hu. apply admissible_spec. split.
  - intros k' j Hin. simpl in Hin. rewrite Hr, Hs in Hin.
    rewrite elem_of_cons, elem_of_app in Hin. destruct Hin as [Hin|[Hin|Hin]].
    + apply (integrity_refs TEvent i e d); [done..|]. simpl. rewrite Hin. list_in.
    + apply (integrity_refs TEvent i e d); [done..|]. simpl. list_in.
    + destruct (AlertEvent.acknowledged_by e') as [u|] eqn:Hau; simpl in Hin.
      * apply list_elem_of_singleton in Hin. injection Hin as -> ->. by apply Hu.
      * by apply elem_of_nil in Hin.
  - intros j ej Hj Hne. simpl. apply not_true_is_false. intros [Hkey Hact]%andb_true_iff.
    apply bool_decide_eq_true in Hkey. apply Hne. revert Hact.
    destruct (AlertEvent.is_active e') eqn:H1, (AlertEvent.is_active ej) eqn:H2; try done. intros _.
    apply (active_unique d j i ej e); [done..| | |congruence].
    + unfold active. by rewrite H2.
    + apply Ha. unfold active. by rewrite H1.
Qed.

(** ** What one evaluation makes of the active event of a pair *)

Definition confirmed (rule : AlertRule) (now : datetime) (e : AlertEvent) : bool :=
  bool_decide (AlertEvent.status e = PENDING) &&
  match AlertEvent.first_fired_at e with
  | Some first =>
    Qle_bool (inject_Z (AlertRule.duration_seconds rule)) (total_seconds (now - first))
  | None => false
  end.

Definition violated (rule : AlertRule) (now : datetime) (value : Q) (e : AlertEvent) : AlertEvent :=
  let e1 := e <| AlertEvent.last_fired_at := Some now |> <| AlertEvent.current_value := Some value |> in
  if confirmed rule now e
  then e1 <| AlertEvent.status := FIRING |> <| AlertEvent.current_value := Some value |>
  else e1.

Definition recovered (rule : AlertRule) (now : datetime) (value : Q) (e : AlertEvent) : AlertEvent :=
  if _is_recovered rule value
  then e <| AlertEvent.resolved_at := Some now |> <| AlertEvent.status := RESOLVED |>
         <| AlertEvent.current_value := Some value |>
  else e.

Definition evaluated (rule : AlertRule) (server : OpsServer) (metric : option MonitorServerMetric)
    (now : datetime) (before : option AlertEvent) : option AlertEvent :=
  match _get_value rule server metric now with
  | None => before
  | Some value =>
    let threshold := _effective_threshold rule server in
    if _compare value (AlertRule.operator rule) threshold then
      Some (match before with
            | None => new_event rule server value threshold now
            | Some e => violated rule now value e
            end)
    else recovered rule now value <$> before
  end.

(** The events from [d] to [d'] when the active event with key [key], if there
    is one, becomes what [f] makes of it; [n] events are new. *)
Definition key_result (key : string) (f : option AlertEvent → option AlertEvent) (d d' : db) (n : Z) : Prop :=
  (∀ x e, events d !! x = Some e → active e = true → AlertEvent.alert_key e = key →
     ∃ e', f (Some e) = Some e' ∧ events d' = <[x := e']> (events d) ∧
           next_id (d' TEvent) = next_id (d TEvent) ∧ n = 0) ∧
  ((∀ x e, events d !! x = Some e → active e = true → AlertEvent.alert_key e ≠ key) →
   match f None with
   | None => d' TEvent = d TEvent ∧ n = 0
   | Some e => ∃ now', let i := next_id (d TEvent) in
       d' TEvent = Table (<[i := fresh_row TEvent i now' e]> (events d)) (i + 1) ∧ n = 1
   end).

Section Steps.
Context `{E : Env} `{!EnvOk E}.

Lemma wp_find_active key (Q : option Z → session → Prop) Ex s :
  (∀ x e, events (work s) !! x = Some e → active e = true → AlertEvent.alert_key e = key → Q (Some x) s) →
  ((∀ x e, events (work s) !! x = Some e → active e = true → AlertEvent.alert_key e ≠ key) → Q None s) →
  wp (AlertEventRepository.get_active_by_alert_key key) Q Ex s.
Proof.
  intros HS HN. unfold AlertEventRepository.get_active_by_alert_key, get_by.
  apply wp_bind, wp_select_where, wp_ret.
  match goal with |- context [matching TEvent ?p (work s)] => set (ids := matching TEvent p (work s)) end.
  assert (∀ x, x ∈ ids ↔ ∃ e, events (work s) !! x = Some e ∧ active e = true ∧ AlertEvent.alert_key e = key) as Hids.
  { intros x. etransitivity; [apply elem_of_matching|]. apply exist_proper. intros e. simpl.
    unfold AlertEventRepository.active_with_key. rewrite andb_true_iff, String.eqb_eq. tauto. }
  clearbody ids. destruct ids as [|x ids].
  - apply HN. intros x e He Ha Hk. apply (not_elem_of_nil x), Hids. eauto.
  - destruct (proj1 (Hids x)) as (e & He & Ha & Hk); [list_in|]. by apply (HS x e).
Qed.

(** A log row for an existing event. *)
Lemma wp_event_log event old new value message operator (Q : Z → session → Prop) Ex s :
  integrity (work s) → is_Some (events (work s) !! event) →
  (∀ u, operator = Some u → is_Some (rows (work s TUser) !! u)) →
  (∀ now, let i := next_id (work s TEventLog) in
   let l := fresh_row TEventLog i now (AlertEventLog.Mk 0 event old new value (Some message) operator 0) in
   integrity (add_row TEventLog l (work s)) →
   Q i (set_work (add_row TEventLog l (work s)) (tick s))) →
  wp (AlertEventLogRepository.record event old new value message operator) Q Ex s.
Proof.
  intros HI He Hu HQ. apply wp_create_ok; [done|..|by apply HQ].
  apply admissible_spec. split; [|done]. intros k' j Hin. simpl in Hin.
  rewrite elem_of_cons in Hin. destruct Hin as [[= -> ->]|Hin]; [done|].
  destruct operator as [u|]; simpl in Hin; [|by apply elem_of_nil in Hin].
  apply list_elem_of_singleton in Hin. injection Hin as -> ->. by apply Hu.
Qed.

(** [event] gets the row [f e]. *)
Lemma wp_put_event event e f (Q : () → session → Prop) Ex s :
  integrity (work s) → events (work s) !! event = Some e →
  AlertEvent.rule_id (f e) = AlertEvent.rule_id e → AlertEvent.server_id (f e) = AlertEvent.server_id e →
  AlertEvent.alert_key (f e) = AlertEvent.alert_key e → (active (f e) = true → active e = true) →
  (∀ u, AlertEvent.acknowledged_by (f e) = Some u → is_Some (rows (work s TUser) !! u)) →
  (integrity (put_row TEvent event (f e) (work s)) →
   Q () (set_work (put_row TEvent event (f e) (work s)) s)) →
  wp (assign TEvent event f) Q Ex s.
Proof.
  intros HI He Hr Hs Hk Ha Hu HQ. pose proof (admissible_event _ _ _ _ HI He Hr Hs Hk Ha Hu) as Hadm.
  apply wp_assign.
  - intros e' He' _. pose proof (same_row TEvent He He') as <-.
    by eapply HQ, integrity_put_row.
  - intros Hn. by pose proof (eq_trans (eq_sym He) Hn).
  - intros e' He' Hf. pose proof (same_row TEvent He He') as <-. congruence.
Qed.

Lemma acknowledged_user d event e u :
  integrity d → events d !! event = Some e → AlertEvent.acknowledged_by e = Some u →
  is_Some (rows (d TUser) !! u).
Proof.
  intros HI He Hu. apply (integrity_refs TEvent event e d); [done..|]. simpl. rewrite Hu. simpl. list_in.
Qed.

(** A change of status with its log, from a state where other columns of the
    event may just have been written. *)
Lemma wp_transition d0 d event e e1 new value message (Q : () → session → Prop) Ex s :
  alert_good d0 d → events d !! event = Some e →
  integrity (work s) → events (work s) = <[event := e1]> (events d) →
  next_id (work s TEvent) = next_id (d TEvent) → work s TEventLog = d TEventLog →
  others_same d (work s) →
  event_core e1 = event_core e → AlertEvent.metric_type e1 = AlertEvent.metric_type e →
  AlertEvent.status e1 = AlertEvent.status e → AlertEvent.acknowledged_by e1 = AlertEvent.acknowledged_by e →
  alert_edge (Some (AlertEvent.status e)) new = true →
  (let e2 := e1 <| AlertEvent.status := new |> <| AlertEvent.current_value := Some value |> in
   event_shape e2 ∧
   (∀ d' n, alert_good d0 d' → others_same d d' → events d' = <[event := e2]> (events d) →
      next_id (d' TEvent) = next_id (d TEvent) → Q () (Session d' (durable s) n))) →
  wp (_transition event new value message) Q Ex s.
Proof.
  intros HG He HI Hev Hnx Hlog Hoth Hcore Hm Hst Hack Hedge [Hshape HQ].
  injection Hcore as Hc1 Hc2 Hc3 Hc4 Hc5 Hc6. pose proof HG as [HA _].
  assert (events (work s) !! event = Some e1) as He1 by (etransitivity; [rewrite Hev; apply lookup_insert_eq|done]).
  unfold _transition. apply wp_bind, (wp_obj_ok TEvent event e1); [done|].
  assert (active e = true) as Ha by by apply active_open, (alert_edge_open _ _ Hedge).
  apply wp_bind, (wp_put_event event e1); [done|done|done|done|done| | |].
  - intros _. apply active_open. rewrite Hst. by apply active_open.
  - simpl. intros u. rewrite Hack, Hoth by done.
    exact (acknowledged_user d event e u (ai_integrity HA) He).
  - intros HI2. apply wp_bind, wp_event_log; [exact HI2| |done|].
    { cbn [work set_work]. exists (e1 <| AlertEvent.status := new |> <| AlertEvent.current_value := Some value |>).
      autorewrite with store. apply lookup_insert_eq. }
    intros now i l HI3. apply wp_ret. cbn [work set_work tick durable ticks]. apply HQ.
    + eapply (alert_good_move d0 d _ event e _ l HG He); try done.
      * cbn [work set_work]. autorewrite with store. rewrite Hev. apply insert_insert_eq.
      * unfold i, l. cbn [work set_work]. rewrite table_add_row. autorewrite with store. by rewrite Hlog.
      * intros k Hk1 Hk2. cbn [work set_work]. rewrite add_row_ne, put_row_ne by done. by apply Hoth.
      * simpl. unfold event_core in *. simpl. congruence.
      * exact (f_equal Some Hst).
    + intros k Hk1 Hk2. cbn [work set_work]. rewrite add_row_ne, put_row_ne by done. by apply Hoth.
    + cbn [work set_work]. autorewrite with store. rewrite Hev. apply insert_insert_eq.
    + cbn [work set_work]. by autorewrite with store.
Qed.
End Steps.
