(* ===== verification/AlertRound.v ===== *)
(** * One round of the alert engine

    Each pair of an enabled rule and an active server is settled once, and
    the pairs do not interfere. *)
From Stdlib Require Import QArith.
From S2P Require Import Prelude.
From S2P Require Export AlertSteps.

Section Round.
Context `{E : Env} `{!EnvOk E}.

(** A pair whose active event is [x]. *)
Lemma key_result_found key f d d' x e e' :
  integrity d → events d !! x = Some e → active e = true → AlertEvent.alert_key e = key →
  f (Some e) = Some e' → events d' = <[x := e']> (events d) →
  next_id (d' TEvent) = next_id (d TEvent) → key_result key f d d' 0.
Proof.
  intros HI He Ha Hk Hf Hev Hnx. split.
  - intros y e2 Hy Ha2 Hk2. exists e'.
    assert (y = x) as -> by (apply (active_unique d y x e2 e); [done..|congruence]).
    by rewrite <- (same_row TEvent He Hy).
  - intros Hn. by destruct (Hn x e He Ha).
Qed.

Lemma shape_new rule server value threshold now i at_ :
  event_shape (fresh_row TEvent i at_ (new_event rule server value threshold now)).
Proof. split; simpl; [by eexists|split; [done|by intros []]|done|by eexists]. Qed.

Lemma shape_fired now value e :
  event_shape e → event_shape (e <| AlertEvent.last_fired_at := Some now |> <| AlertEvent.current_value := Some value |>).
Proof. by intros []. Qed.

(** A pair without an active event gets a new one. *)
Lemma wp_new_violation d0 i j rule server value threshold now (Q : bool → session → Prop) Ex s :
  alert_good d0 (work s) → rules (work s) !! i = Some rule → rows (work s TServer) !! j = Some server →
  (∀ x e, events (work s) !! x = Some e → active e = true → AlertEvent.alert_key e ≠ _alert_key rule server) →
  (∀ d' n b, alert_good d0 d' → others_same (work s) d' →
     key_result (_alert_key rule server)
       (λ before, Some (match before with
                        | None => new_event rule server value threshold now
                        | Some e => violated rule now value e end)) (work s) d' (Z.b2z b) →
     Q b (Session d' (durable s) n)) →
  wp (event ← create TEvent (new_event rule server value threshold now);
      _ ← AlertEventLogRepository.record event None PENDING (Some value) "检测到异常，进入待确认" None;
      mret true) Q Ex s.
Proof.
  intros HG Hrule Hserver Hnone HQ. pose proof HG as [HA _]. pose proof (ai_integrity HA) as HI.
  apply wp_bind, wp_create_ok; [done|..].
  - apply admissible_spec. split.
    + intros k' k Hin. simpl in Hin.
      rewrite elem_of_cons, list_elem_of_singleton in Hin. destruct Hin as [[= -> ->]|[= -> ->]].
      * rewrite (ai_rule_id HA i rule Hrule). by exists rule.
      * rewrite (ai_server_id HA j server Hserver). by exists server.
    + intros y ey Hy _. simpl. apply not_true_is_false. intros [Hk Hact]%andb_true_iff.
      apply bool_decide_eq_true in Hk. apply (Hnone y ey Hy); [|done].
      unfold active. by destruct (AlertEvent.is_active ey).
  - intros HI1. set (e := fresh_row TEvent _ _ _). set (d1 := add_row TEvent e (work s)).
    apply wp_bind, wp_event_log; [done| |done|].
    { exists e. unfold d1. cbn [work set_work]. autorewrite with store. apply lookup_insert_eq. }
    intros now' y l HI2. apply wp_ret. cbn [work set_work tick durable ticks].
    assert (others_same (work s) (add_row TEventLog l d1)) as Hoth.
    { intros k Hk1 Hk2. unfold d1. by rewrite !add_row_ne by done. }
    assert (add_row TEventLog l d1 TEvent = d1 TEvent) as HeqE by by apply add_row_ne.
    apply HQ; [|done|].
    + apply (alert_good_new d0 (work s) _ e l HG); try done.
      apply shape_new.
    + split; [by intros x ex Hx Ha Hk; destruct (Hnone x ex Hx Ha)|]. intros _.
      exists (clock (ticks s)). split; [|done]. etransitivity; [exact HeqE|apply table_add_row].
Qed.

Lemma wp_handle_violation d0 i j rule server value threshold now (Q : bool → session → Prop) Ex s :
  alert_good d0 (work s) → rules (work s) !! i = Some rule → rows (work s TServer) !! j = Some server →
  (∀ d' n b, alert_good d0 d' → others_same (work s) d' →
     key_result (_alert_key rule server)
       (λ before, Some (match before with
                        | None => new_event rule server value threshold now
                        | Some e => violated rule now value e end)) (work s) d' (Z.b2z b) →
     Q b (Session d' (durable s) n)) →
  wp (_handle_violation rule server value threshold now) Q Ex s.
Proof.
  intros HG Hrule Hserver HQ. pose proof HG as [HA _]. pose proof (ai_integrity HA) as HI.
  unfold _handle_violation. apply wp_bind, wp_find_active.
  - intros x e He Ha Hk.
    set (e1 := e <| AlertEvent.last_fired_at := Some now |> <| AlertEvent.current_value := Some value |>).
    apply wp_bind, (wp_put_event x e); [done..| |].
    { intros u. exact (acknowledged_user (work s) x e u HI He). }
    intros HI1. fold e1. set (d1 := put_row TEvent x _ (work s)).
    assert (events d1 = <[x := e1]> (events (work s))) as Hev1 by (unfold d1; by autorewrite with store).
    assert (others_same (work s) d1) as Hoth1 by (intros k Hk1 _; unfold d1; by apply put_row_ne).
    apply wp_bind, (wp_obj_ok TEvent x e1); [cbn [work set_work]; rewrite Hev1; apply lookup_insert_eq|].
    assert (confirmed rule now e = false → ∀ n, Q false (Session d1 (durable s) n)) as Htouch.
    { intros Hc n. apply HQ; [|done|].
      - apply (alert_good_touch d0 (work s) d1 x e e1); try done; [by apply active_open|].
        by apply shape_fired, (ai_shape HA x).
      - apply (key_result_found _ _ _ _ x e e1); try done.
        unfold violated. by rewrite Hc. }
    destruct (bool_decide_reflect (AlertEvent.status e1 = PENDING)) as [Hst|Hst].
    + change (AlertEvent.status e = PENDING) in Hst.
      destruct (shape_first e (ai_shape HA x e He)) as [first Hf].
      change (AlertEvent.first_fired_at e1) with (AlertEvent.first_fired_at e). rewrite Hf.
      unfold when. destruct (Qle_bool _ _) eqn:Hdur.
      * apply wp_bind, (wp_transition d0 (work s) x e e1); cbn [work set_work durable]; try done.
        { by rewrite Hst. }
        split.
        { destruct (ai_shape HA x e He) as [_ Hres _ ?]. split; simpl; try done.
          split; [done|]. rewrite <- Hres. by rewrite Hst. }
        intros d' n HG' Hoth' Hev' Hnx'. apply wp_ret, HQ; [done..|].
        apply (key_result_found _ _ _ _ x e (violated rule now value e)); try done.
        rewrite Hev'. f_equal. unfold violated, confirmed. rewrite Hf, Hst, Hdur. done.
      * apply wp_bind, wp_ret, wp_ret, Htouch. unfold confirmed. by rewrite Hf, Hdur, andb_false_r.
    + apply wp_bind, wp_ret, wp_ret, Htouch. unfold confirmed. by rewrite bool_decide_false.
  - intros Hnone. by apply (wp_new_violation d0 i j).
Qed.

Lemma wp_handle_recovery d0 rule server value now (Q : () → session → Prop) Ex s :
  alert_good d0 (work s) →
  (∀ d' n, alert_good d0 d' → others_same (work s) d' →
     key_result (_alert_key rule server) (fmap (recovered rule now value)) (work s) d' 0 →
     Q () (Session d' (durable s) n)) →
  wp (_handle_recovery rule server value now) Q Ex s.
Proof.
  intros HG HQ. pose proof HG as [HA _]. pose proof (ai_integrity HA) as HI.
  unfold _handle_recovery. apply wp_bind, wp_find_active.
  - intros x e He Ha Hk. unfold when. destruct (_is_recovered rule value) eqn:Hrec.
    + set (e1 := e <| AlertEvent.resolved_at := Some now |>).
      apply wp_bind, (wp_put_event x e); [done..| |].
      { intros u. exact (acknowledged_user (work s) x e u HI He). }
      intros HI1. fold e1. set (d1 := put_row TEvent x _ (work s)).
      assert (events d1 = <[x := e1]> (events (work s))) as Hev1 by (unfold d1; by autorewrite with store).
      assert (others_same (work s) d1) as Hoth1 by (intros k Hk1 _; unfold d1; by apply put_row_ne).
      pose proof (ai_shape HA x e He) as [Hfirst Hres _ Hkey].
      apply (wp_transition d0 (work s) x e e1); cbn [work set_work durable]; try done.
      { apply active_open in Ha. by destruct (AlertEvent.status e). }
      split; [by split|]. intros d' n HG' Hoth' Hev' Hnx'. apply HQ; [done..|].
      apply (key_result_found _ _ _ _ x e (recovered rule now value e)); try done.
      unfold recovered. by rewrite Hrec.
    + apply wp_ret. destruct s as [w du m]. apply HQ; [done|by intros k|].
      apply (key_result_found _ _ _ _ x e e); try done; cbn [work].
      * simpl. unfold recovered. by rewrite Hrec.
      * by rewrite insert_id.
  - intros Hnone. apply wp_ret. destruct s as [w du m]. apply HQ; [done|by intros k|].
    split; [|done]. intros x e Hx Ha Hk. by destruct (Hnone x e Hx Ha).
Qed.

(** The latest metric of a server, as the round looks it up. *)
Definition metric_of (latest : gmap Z Z) (d : db) (server : Z) : option MonitorServerMetric :=
  i ← latest !! server; rows (d TMetric) !! i.

Lemma key_result_ext key f g d d' n :
  (∀ before, f before = g before) → key_result key f d d' n → key_result key g d d' n.
Proof.
  intros Hfg [H1 H2]. split; [|by rewrite <- Hfg].
  intros x e. rewrite <- Hfg. apply H1.
Qed.

Lemma key_result_nop key f d n :
  integrity d → (∀ before, f before = before) → n = 0 → key_result key f d d n.
Proof.
  intros HI Hf ->. split.
  - intros x e Hx Ha Hk. exists e. rewrite Hf. split_and!; try done. by rewrite insert_id.
  - intros _. by rewrite Hf.
Qed.

Lemma wp_evaluate_pair d0 latest now created i j rule server (Q : Z → session → Prop) Ex s :
  alert_good d0 (work s) → rules (work s) !! i = Some rule → rows (work s TServer) !! j = Some server →
  (∀ m, latest !! j = Some m → is_Some (rows (work s TMetric) !! m)) →
  (∀ d' n k, alert_good d0 d' → others_same (work s) d' →
     key_result (_alert_key rule server)
       (evaluated rule server (metric_of latest (work s) j) now) (work s) d' k →
     Q (created + k) (Session d' (durable s) n)) →
  wp (evaluate_pair latest now created (i, j)) Q Ex s.
Proof.
  intros HG Hrule Hserver Hlatest HQ. pose proof HG as [HA _]. pose proof (ai_integrity HA) as HI.
  unfold evaluate_pair. cbn [fst snd].
  apply wp_bind, (wp_obj_ok TRule i rule); [done|]. apply wp_bind, (wp_obj_ok TServer j server); [done|].
  apply wp_bind.
  assert (wp (match latest !! j with
              | Some m => x ← obj TMetric m; mret (Some x)
              | None => mret None
              end) (λ r s', r = metric_of latest (work s) j ∧ s' = s) Ex s) as Hmetric.
  { unfold metric_of. destruct (latest !! j) as [m|] eqn:Hm; [|by apply wp_ret].
    destruct (Hlatest m eq_refl) as [x Hx]. apply wp_bind, (wp_obj_ok TMetric m x); [done|].
    by apply wp_ret. }
  eapply wp_mono; [exact Hmetric| |done]. intros ? ? [-> ->].
  unfold evaluated in HQ. destruct (_get_value _ _ _ _) as [value|].
  - destruct (_compare value (AlertRule.operator rule) (_effective_threshold rule server)).
    + apply wp_bind, (wp_handle_violation d0 i j); [done..|]. intros d' n b HG' Hoth Hkey.
      apply wp_ret. replace (if b then created + 1 else created) with (created + Z.b2z b)
        by (destruct b; simpl; lia).
      by apply HQ.
    + apply wp_bind, (wp_handle_recovery d0); [done..|]. intros d' n HG' Hoth Hkey.
      apply wp_ret. replace created with (created + 0) by lia. by apply HQ.
  - apply wp_ret. replace created with (created + 0) by lia. destruct s as [w du m].
    apply HQ; [done|by intros k|]. by apply key_result_nop.
Qed.

(** ** All pairs *)

Lemma fold_loop_app {A B} (f : B → A → M B) acc l1 l2 s :
  fold_loop f acc (l1 ++ l2) s = (acc' ← fold_loop f acc l1; fold_loop f acc' l2) s.
Proof.
  revert acc s. induction l1 as [|x l1 IH]; intros acc s; [done|]. simpl.
  unfold mbind, M_bind. destruct (f acc x s) as [[acc'|e] s']; [apply IH|done].
Qed.

Lemma fold_loop_map {A B C} (f : C → B → M C) (g : A → B) acc l s :
  fold_loop f acc (g <$> l) s = fold_loop (λ acc x, f acc (g x)) acc l s.
Proof.
  revert acc s. induction l as [|x l IH]; intros acc s; [done|]. simpl.
  unfold mbind, M_bind. destruct (f acc (g x) s) as [[acc'|e] s']; [apply IH|done].
Qed.

(** The two nested loops visit the pairs one after the other. *)
Definition pairs (l1 l2 : list Z) : list (Z * Z) := x ← l1; (λ y, (x, y)) <$> l2.

Lemma nested_loop {B} (f : B → Z * Z → M B) acc l1 l2 s :
  fold_loop (λ acc x, fold_loop (λ acc y, f acc (x, y)) acc l2) acc l1 s
  = fold_loop f acc (pairs l1 l2) s.
Proof.
  revert acc s. induction l1 as [|x l1 IH]; intros acc s; [done|].
  change (pairs (x :: l1) l2) with (((λ y, (x, y)) <$> l2) ++ pairs l1 l2). rewrite fold_loop_app.
  simpl. unfold mbind, M_bind. rewrite fold_loop_map.
  destruct (fold_loop _ acc l2 s) as [[acc'|e] s']; [apply IH|done].
Qed.

Lemma elem_of_pairs l1 l2 x y : (x, y) ∈ pairs l1 l2 ↔ x ∈ l1 ∧ y ∈ l2.
Proof.
  unfold pairs. rewrite list_elem_of_bind. setoid_rewrite list_elem_of_fmap. split.
  - intros (x' & (y' & [= -> ->] & Hy) & Hx). done.
  - intros [Hx Hy]. exists x. split; [|done]. by exists y.
Qed.

Lemma pairs_nil l : pairs l [] = [].
Proof. by induction l. Qed.

Lemma pairs_nodup l1 l2 : NoDup l1 → NoDup l2 → NoDup (pairs l1 l2).
Proof.
  intros H1 H2. induction H1 as [|x l1 Hx H1 IH]; [constructor|].
  change (pairs (x :: l1) l2) with (((λ y, (x, y)) <$> l2) ++ pairs l1 l2).
  apply NoDup_app. split_and!; [|intros ? (y & -> & _)%list_elem_of_fmap [? _]%elem_of_pairs; done|done].
  apply NoDup_fmap_2; [|done]. by intros y y' [=].
Qed.
End Round.
