(* ===== verification/AlertPairs.v ===== *)
(** * The pairs of a round do not interfere

    The alert keys of different pairs differ, so that a round settles every
    pair as if it were alone. *)
From Stdlib Require Import QArith.
From S2P Require Import Prelude.
From S2P Require Export AlertRound MetricRepo.

Section Pairs.
Context `{E : Env} `{!EnvOk E}.

(** The pair [(i, j)] of [d], with its rows. *)
Definition pair_rows (d : db) (i j : Z) (rule : AlertRule) (server : OpsServer) : Prop :=
  rules d !! i = Some rule ∧ rows (d TServer) !! j = Some server.

(** From [d] to [d'], the pairs [ps] have been settled and [n] events are new. *)
Record round_result (latest : gmap Z Z) (now : datetime) (ps : list (Z * Z)) (d d' : db) (n : Z) : Prop := {
  rr_rest : ∀ x e, events d !! x = Some e →
    (active e = true → ∀ i j rule server, (i, j) ∈ ps → pair_rows d i j rule server →
       AlertEvent.alert_key e ≠ _alert_key rule server) →
    events d' !! x = Some e;
  rr_found : ∀ i j rule server x e, (i, j) ∈ ps → pair_rows d i j rule server →
    events d !! x = Some e → active e = true → AlertEvent.alert_key e = _alert_key rule server →
    events d' !! x = evaluated rule server (metric_of latest d j) now (Some e);
  rr_new : ∀ i j rule server, (i, j) ∈ ps → pair_rows d i j rule server →
    (∀ x e, events d !! x = Some e → active e = true → AlertEvent.alert_key e ≠ _alert_key rule server) →
    match evaluated rule server (metric_of latest d j) now None with
    | Some e => ∃ x now', next_id (d TEvent) ≤ x ∧ events d' !! x = Some (fresh_row TEvent x now' e)
    | None => ∀ x e, events d' !! x = Some e → active e = true →
                AlertEvent.alert_key e ≠ _alert_key rule server
    end;
  rr_keys : ∀ x e, events d' !! x = Some e → next_id (d TEvent) ≤ x →
    ∃ i j rule server, (i, j) ∈ ps ∧ pair_rows d i j rule server ∧
                       AlertEvent.alert_key e = _alert_key rule server;
  rr_old : ∀ x e, events d' !! x = Some e → x < next_id (d TEvent) → is_Some (events d !! x);
  rr_next : next_id (d TEvent) ≤ next_id (d' TEvent);
  rr_count : n = next_id (d' TEvent) - next_id (d TEvent)
}.

Lemma round_start latest now d : integrity d → round_result latest now [] d d 0.
Proof.
  intros HI. split; try done; try lia.
  - intros i j rule server x e Hp. by apply elem_of_nil in Hp.
  - intros i j rule server Hp. by apply elem_of_nil in Hp.
  - intros x e He Hx. exfalso. revert Hx. apply Z.lt_nge. exact (integrity_key TEvent HI He).
Qed.

Lemma pair_key_inj d i j rule server i' j' rule' server' :
  alert_inv d → pair_rows d i j rule server → pair_rows d i' j' rule' server' →
  _alert_key rule server = _alert_key rule' server' → i = i' ∧ j = j'.
Proof.
  intros HA [Hr Hs] [Hr' Hs'] Hk. apply alert_key_inj in Hk as (H1 & H2 & _).
  rewrite (ai_rule_id HA i rule Hr), (ai_rule_id HA i' rule' Hr') in H1.
  rewrite (ai_server_id HA j server Hs), (ai_server_id HA j' server' Hs') in H2. done.
Qed.

Lemma evaluated_key rule server metric now e e' :
  evaluated rule server metric now (Some e) = Some e' →
  AlertEvent.alert_key e' = AlertEvent.alert_key e.
Proof.
  unfold evaluated. destruct (_get_value _ _ _ _); [|by intros [= <-]].
  destruct (_compare _ _ _); intros [= <-]; unfold violated, recovered;
    by (destruct (confirmed _ _ _) || destruct (_is_recovered _ _)).
Qed.

Lemma evaluated_new_key rule server metric now e :
  evaluated rule server metric now None = Some e →
  AlertEvent.alert_key e = _alert_key rule server.
Proof.
  unfold evaluated. destruct (_get_value _ _ _ _); [|done].
  destruct (_compare _ _ _); [|done]. by intros [= <-].
Qed.

Section Step.
Context (latest : gmap Z Z) (now : datetime) (ps : list (Z * Z)) (d d1 d2 : db) (n k i j : Z)
  (rule : AlertRule) (server : OpsServer).
Hypothesis HA : alert_inv d.
Hypothesis Hev1 : alert_evolves d d1.
Hypothesis HI1 : integrity d1.
Hypothesis Hround : round_result latest now ps d d1 n.
Hypothesis Hp : (i, j) ∉ ps.
Hypothesis Hrows : pair_rows d i j rule server.
Hypothesis Hkey : key_result (_alert_key rule server)
  (evaluated rule server (metric_of latest d j) now) d1 d2 k.

(** The keys of the settled pairs are not this pair's. *)
Lemma settled_key i' j' rule' server' :
  (i', j') ∈ ps → pair_rows d i' j' rule' server' → _alert_key rule' server' ≠ _alert_key rule server.
Proof.
  intros Hin Hr' Hk. destruct (pair_key_inj _ _ _ _ _ _ _ _ _ HA Hr' Hrows Hk) as [-> ->]. done.
Qed.

(** The pair's active event is the one it had before the round. *)
Lemma active_before x e :
  AlertEvent.alert_key e = _alert_key rule server → active e = true →
  events d1 !! x = Some e ↔ events d !! x = Some e.
Proof.
  intros Hk Ha. split; intros He.
  - assert (x < next_id (d TEvent)) as Hx.
    { apply Z.nle_gt. intros Hge. destruct (rr_keys _ _ _ _ _ _ Hround x e He Hge) as (i' & j' & r' & s' & Hin & Hr' & Hk').
      apply (settled_key i' j' r' s' Hin Hr'). congruence. }
    destruct (rr_old _ _ _ _ _ _ Hround x e He Hx) as [e0 He0].
    destruct (ae_events _ _ Hev1 x e0 He0) as (e' & He' & Hadv).
    rewrite <- (same_row TEvent He He') in Hadv. destruct Hadv as [Hcore _ Hres].
    injection Hcore as _ _ _ Hk0 _ _.
    assert (active e0 = true) as Ha0.
    { apply active_open. intros Hr. apply active_open in Ha. apply Ha. by rewrite (Hres Hr). }
    etransitivity; [exact He0|]. f_equal. symmetry. apply (same_row TEvent He).
    apply (rr_rest _ _ _ _ _ _ Hround x e0 He0). intros _ i' j' r' s' Hin Hr' Hk'.
    apply (settled_key i' j' r' s' Hin Hr'). congruence.
  - apply (rr_rest _ _ _ _ _ _ Hround x e He). intros _ i' j' r' s' Hin Hr' Hk'.
    apply (settled_key i' j' r' s' Hin Hr'). congruence.
Qed.

Lemma round_step_found x e :
  events d1 !! x = Some e → active e = true → AlertEvent.alert_key e = _alert_key rule server →
  round_result latest now (ps ++ [(i, j)]) d d2 (n + k).
Proof.
  intros He1 Ha Hk. destruct (proj1 Hkey x e He1 Ha Hk) as (e' & Hf & Hev & Hnx & Hk0).
  pose proof (proj1 (active_before x e Hk Ha) He1) as He.
  assert (x < next_id (d TEvent)) as Hx by exact (integrity_key TEvent (ai_integrity HA) He).
  assert (∀ y ey, y ≠ x → events d2 !! y = Some ey ↔ events d1 !! y = Some ey) as Hother.
  { intros y ey Hy. rewrite Hev. by rewrite lookup_insert_ne. }
  assert (events d2 !! x = Some e') as Hx2 by (rewrite Hev; apply lookup_insert_eq).
  assert (AlertEvent.alert_key e' = _alert_key rule server) as Hke'.
  { rewrite <- Hk. exact (evaluated_key _ _ _ _ _ _ Hf). }
  destruct Hround as [Hrest Hfound Hnew Hkeys Hold Hnext Hcount]. split.
  - intros y ey Hy Hun. apply Hother.
    + intros ->. rewrite <- (same_row TEvent He Hy) in Hun.
      apply (Hun Ha i j rule server); [list_in|done..].
    + apply Hrest; [done|]. intros Hay i' j' r' s' Hin. apply (Hun Hay). list_in.
  - intros i' j' r' s' y ey [Hin|[= -> ->]%list_elem_of_singleton]%elem_of_app Hr' Hy Hay Hky.
    + rewrite Hev, lookup_insert_ne; [by eapply Hfound|]. intros ->.
      rewrite <- (same_row TEvent He Hy) in Hky. apply (settled_key i' j' r' s' Hin Hr'). congruence.
    + destruct Hrows as [Hr Hs], Hr' as [Hr' Hs'].
      rewrite <- (same_row TRule Hr Hr'), <- (same_row TServer Hs Hs') in *.
      assert (y = x) as -> by (apply (active_unique d y x ey e); [apply HA|done..|congruence]).
      rewrite <- (same_row TEvent He Hy). by etransitivity; [exact Hx2|].
  - intros i' j' r' s' [Hin|[= -> ->]%list_elem_of_singleton]%elem_of_app Hr' Hn.
    + specialize (Hnew i' j' r' s' Hin Hr' Hn). destruct (evaluated _ _ _ _ None) as [en|].
      * destruct Hnew as (y & now' & Hy & Hey). exists y, now'. split; [done|].
        apply Hother; [lia|done].
      * intros y ey Hy Hay. destruct (decide (y = x)) as [->|Hne].
        -- rewrite (same_row TEvent Hy Hx2), Hke'.
           apply not_eq_sym. by apply (settled_key i' j').
        -- by apply (Hnew y ey); [apply Hother|].
    + destruct Hrows as [Hr Hs], Hr' as [Hr' Hs'].
      rewrite <- (same_row TRule Hr Hr'), <- (same_row TServer Hs Hs') in *. by destruct (Hn x e).
  - intros y ey Hy Hge. apply Hother in Hy; [|lia].
    destruct (Hkeys y ey Hy Hge) as (i' & j' & r' & s' & Hin & Hrest').
    exists i', j', r', s'. split; [list_in|done].
  - intros y ey Hy Hlt. destruct (decide (y = x)) as [->|Hne]; [by exists e|].
    apply Hother in Hy; [|done]. by eapply Hold.
  - by rewrite Hnx.
  - rewrite Hnx. lia.
Qed.

Lemma round_step_none :
  (∀ x e, events d1 !! x = Some e → active e = true → AlertEvent.alert_key e ≠ _alert_key rule server) →
  round_result latest now (ps ++ [(i, j)]) d d2 (n + k).
Proof.
  intros Hnone. pose proof (proj2 Hkey Hnone) as Hres.
  destruct Hround as [Hrest Hfound Hnew Hkeys Hold Hnext Hcount].
  assert ((evaluated rule server (metric_of latest d j) now None = None ∧ d2 TEvent = d1 TEvent ∧ k = 0) ∨
    ∃ en, evaluated rule server (metric_of latest d j) now None = Some en ∧
      AlertEvent.alert_key en = _alert_key rule server ∧
      next_id (d2 TEvent) = next_id (d1 TEvent) + 1 ∧ k = 1 ∧
      ∃ now', events d2 = <[next_id (d1 TEvent) := fresh_row TEvent (next_id (d1 TEvent)) now' en]> (events d1)) as Hcase.
  { destruct (evaluated rule server (metric_of latest d j) now None) as [en|] eqn:Hen; [right|by left].
    exists en. destruct Hres as (now' & Ht & Hk). rewrite Ht. simpl.
    split_and!; [done|by eapply evaluated_new_key|done|done|]. by exists now'. }
  assert (∀ y ey, events d1 !! y = Some ey → events d2 !! y = Some ey) as Hkeep.
  { intros y ey Hy. destruct Hcase as [(_ & -> & _)|(en & _ & _ & _ & _ & now' & ->)]; [done|].
    rewrite lookup_insert_ne; [done|]. intros <-. exact (Z.lt_irrefl _ (integrity_key TEvent HI1 Hy)). }
  assert (∀ y ey, events d2 !! y = Some ey → events d1 !! y = Some ey ∨
    (y = next_id (d1 TEvent) ∧ AlertEvent.alert_key ey = _alert_key rule server ∧
     ∃ now' en, ey = fresh_row TEvent y now' en ∧
       evaluated rule server (metric_of latest d j) now None = Some en)) as Hback.
  { intros y ey. destruct Hcase as [(_ & -> & _)|(en & Hen & Hk & _ & _ & now' & ->)]; [by left|].
    intros [[<- <-]|[_ Hy]]%lookup_insert_Some; [right|by left]. split_and!; [done|done|]. by exists now', en. }
  split.
  - intros y ey Hy Hun. apply Hkeep, Hrest; [done|]. intros Hay i' j' r' s' Hin. apply (Hun Hay). list_in.
  - intros i' j' r' s' y ey [Hin|[= -> ->]%list_elem_of_singleton]%elem_of_app Hr' Hy Hay Hky.
    + specialize (Hfound i' j' r' s' y ey Hin Hr' Hy Hay Hky).
      destruct (evaluated r' s' _ _ (Some ey)) as [e'|] eqn:He'; [by apply Hkeep|].
      exfalso. revert He'. unfold evaluated. destruct (_get_value _ _ _ _); [|done]. by destruct (_compare _ _ _).
    + exfalso. destruct Hrows as [Hr Hs], Hr' as [Hr' Hs'].
      rewrite <- (same_row TRule Hr Hr'), <- (same_row TServer Hs Hs') in *.
      apply (Hnone y ey); [|done|done]. by apply active_before.
  - intros i' j' r' s' [Hin|[= -> ->]%list_elem_of_singleton]%elem_of_app Hr' Hn.
    + specialize (Hnew i' j' r' s' Hin Hr' Hn). destruct (evaluated r' s' _ _ None) as [en|].
      * destruct Hnew as (y & now' & Hy & Hey). exists y, now'. split; [done|by apply Hkeep].
      * intros y ey [Hy|(-> & Hk & _)]%Hback Hay; [by apply (Hnew y ey)|].
        rewrite Hk. apply not_eq_sym. by apply (settled_key i' j').
    + destruct Hrows as [Hr Hs], Hr' as [Hr' Hs'].
      rewrite <- (same_row TRule Hr Hr'), <- (same_row TServer Hs Hs') in *.
      destruct Hcase as [(-> & -> & _)|(en & -> & _ & _ & _ & now' & ->)]; [done|].
      exists (next_id (d1 TEvent)), now'. split; [done|apply lookup_insert_eq].
  - intros y ey [Hy|(-> & Hk & _)]%Hback Hge.
    + destruct (Hkeys y ey Hy Hge) as (i' & j' & r' & s' & Hin & Hrest').
      exists i', j', r', s'. split; [list_in|done].
    + exists i, j, rule, server. split; [list_in|done].
  - intros y ey [Hy|(-> & _)]%Hback Hlt; [by eapply Hold|lia].
  - destruct Hcase as [(_ & -> & _)|(en & _ & _ & -> & _)]; [done|lia].
  - destruct Hcase as [(_ & -> & ->)|(en & _ & _ & -> & -> & _)]; lia.
Qed.

Lemma round_step : round_result latest now (ps ++ [(i, j)]) d d2 (n + k).
Proof.
  set (found := matching TEvent (AlertEventRepository.active_with_key (_alert_key rule server)) d1).
  assert (∀ x, x ∈ found ↔ ∃ e, events d1 !! x = Some e ∧ active e = true ∧
                          AlertEvent.alert_key e = _alert_key rule server) as Hfound.
  { intros x. etransitivity; [apply elem_of_matching|]. apply exist_proper. intros e. simpl.
    unfold AlertEventRepository.active_with_key. rewrite andb_true_iff, String.eqb_eq. tauto. }
  clearbody found. destruct found as [|x found].
  - apply round_step_none. intros x e He Ha Hk. apply (not_elem_of_nil x), Hfound. eauto.
  - destruct (proj1 (Hfound x)) as (e & He & Ha & Hk); [list_in|]. by apply (round_step_found x e).
Qed.
End Step.

(** ** The whole round *)

(** A loop over the pairs. *)
Lemma wp_round d latest now ps (Q : Z → session → Prop) Ex s :
  alert_inv d → work s = d → NoDup ps →
  (∀ i j, (i, j) ∈ ps → ∃ rule server, pair_rows d i j rule server ∧
     ∀ m, latest !! j = Some m → is_Some (rows (d TMetric) !! m)) →
  (∀ d' n k, alert_good d d' → others_same d d' → round_result latest now ps d d' k →
     Q k (Session d' (durable s) n)) →
  wp (fold_loop (evaluate_pair latest now) 0 ps) Q Ex s.
Proof.
  intros HA Hw Hnd Hps HQ. subst d.
  apply (wp_fold_loop (λ rest acc s', durable s' = durable s ∧ alert_good (work s) (work s') ∧
    others_same (work s) (work s') ∧
    ∃ dn, ps = dn ++ rest ∧ round_result latest now dn (work s) (work s') acc)).
  - split_and!; [done|by apply alert_good_refl|done|]. exists []. split; [done|]. apply round_start, HA.
  - intros [i j] rest acc s' (Hd & HG & Hoth & dn & Hsplit & Hr).
    destruct (Hps i j) as (rule & server & Hrows & Hm); [rewrite Hsplit; list_in|].
    assert ((i, j) ∉ dn) as Hfresh.
    { rewrite Hsplit in Hnd. apply NoDup_app in Hnd as (_ & Hdn & _). intros Hin. apply (Hdn _ Hin). list_in. }
    apply (wp_evaluate_pair (work s) latest now acc i j rule server); [done| | | |].
    + rewrite Hoth by done. apply Hrows.
    + rewrite Hoth by done. apply Hrows.
    + rewrite Hoth by done. done.
    + intros d' n k HG' Hoth' Hkey. cbn [work durable]. split_and!; [done|done|..].
      * intros x Hx1 Hx2. by rewrite Hoth', Hoth.
      * exists (dn ++ [(i, j)]). split; [by rewrite <- app_assoc|].
        assert (metric_of latest (work s') j = metric_of latest (work s) j) as Hmet.
        { unfold metric_of. by rewrite Hoth. }
        rewrite Hmet in Hkey. pose proof HG as [HA' Hev'].
        apply (round_step latest now dn (work s) (work s') d' acc k i j rule server); try done.
        apply HA'.
  - intros acc [w du m] (Hd & HG & Hoth & dn & Hsplit & Hr). rewrite app_nil_r in Hsplit. subst dn.
    simpl in Hd. subst du. by apply HQ.
Qed.

(** The pairs of a round. *)
Definition round_pairs (d : db) (ps : list (Z * Z)) : Prop :=
  ∀ i j, (i, j) ∈ ps ↔ ∃ rule server, pair_rows d i j rule server ∧
    AlertRule.enabled rule = 1 ∧ ServerRepository.enabled server = true.

Lemma wp_evaluate_all (Q : Z → session → Prop) Ex s :
  alert_inv (work s) → durable s = work s →
  (∀ latest ps k d' n, alert_good (work s) d' → others_same (work s) d' →
     round_pairs (work s) ps → newest_map (work s) ps.*2 latest →
     round_result latest (clock (ticks s)) ps (work s) d' k →
     Q k (Session d' d' n)) →
  wp evaluate_all Q Ex s.
Proof.
  intros HA Hdur HQ. unfold evaluate_all, AlertRuleRepository.get_enabled, ServerRepository.list_active.
  apply wp_bind, wp_select_where.
  match goal with |- context [matching TRule ?p (work s)] => set (rs := matching TRule p (work s)) end.
  apply wp_bind, wp_select_where.
  match goal with |- context [matching TServer ?p (work s)] => set (ss := matching TServer p (work s)) end.
  assert (round_pairs (work s) (pairs rs ss)) as Hpairs.
  { intros i j. rewrite elem_of_pairs. unfold rs, ss. rewrite !elem_of_matching. unfold pair_rows. simpl.
    unfold ServerRepository.enabled. split.
    - intros [(rule & Hr & He%Z.eqb_eq) (server & Hs & Ha)]. by exists rule, server.
    - intros (rule & server & [Hr Hs] & He & Ha). split; [exists rule|by exists server].
      split; [done|by apply Z.eqb_eq]. }
  assert (NoDup rs ∧ NoDup ss) as [Hrs Hss] by (split; apply matching_nodup).
  clearbody rs ss.
  assert (pairs rs ss = [] → Q 0 s) as Hnone.
  { intros Hnil. rewrite Hnil in Hpairs. destruct s as [w du m]. cbn [work durable ticks] in *. subst du.
    apply (HQ ∅ []); [by apply alert_good_refl|done|done|by intros j ?%elem_of_nil|apply round_start, HA]. }
  assert (wp (latest_map ← MetricRepository.get_latest_map ss;
              now ← utcnow;
              created ← fold_loop (λ created rule,
                fold_loop (λ created server, evaluate_pair latest_map now created (rule, server)) created ss)
                0 rs;
              commit;; mret created) Q Ex s) as Hround.
  { apply wp_bind, wp_latest_map. intros latest Hlatest. apply wp_bind, wp_utcnow, wp_bind.
    assert (∀ P s', wp (fold_loop (evaluate_pair latest (clock (ticks s))) 0 (pairs rs ss)) P Ex s' →
      wp (fold_loop (λ created rule, fold_loop (λ created server,
        evaluate_pair latest (clock (ticks s)) created (rule, server)) created ss) 0 rs) P Ex s') as Hnest.
    { intros P s'. unfold wp. by rewrite nested_loop. }
    apply Hnest, (wp_round (work s) latest _ _ _ _ _); [done|done|by apply pairs_nodup|..].
    - intros i j Hin. pose proof (proj1 (Hpairs i j) Hin) as (rule & server & Hrows & _).
      exists rule, server. split; [done|]. intros m Hm. apply elem_of_pairs in Hin as [_ Hj].
      specialize (Hlatest j Hj). rewrite Hm in Hlatest. destruct Hlatest as (x & Hx & _). by exists x.
    - intros d' n k HG Hoth Hr. apply wp_bind, wp_commit, wp_ret. cbn [work].
      apply (HQ latest (pairs rs ss)); try done. intros j ([? ?] & -> & [_ Hj]%elem_of_pairs)%list_elem_of_fmap.
      by apply Hlatest. }
  destruct rs as [|r0 rs']; [by apply wp_ret, Hnone|].
  destruct ss as [|s0 ss']; [|done]. apply wp_ret, Hnone, pairs_nil.
Qed.
End Pairs.
