(* ===== verification/AlertSystem.v ===== *)
(** * The alert subsystem as a transition system

    Acknowledging and resolving events and managing rules on a database that
    satisfies the invariant of the alert tables; and the system that all
    operations make up. *)
From Stdlib Require Import QArith.
From S2P Require Import Prelude.
From S2P Require Export AlertPairs.

(** ** The operations of the alert centre *)

(** Constraint preservation inside a triple. *)
Lemma wp_sound {A} (m : M A) (Q : A → session → Prop) (Ex : exc → session → Prop) s :
  Sound m → sane s → wp m (λ a s', sane s' → Q a s') Ex s → wp m Q Ex s.
Proof.
  intros Hm Hs. specialize (Hm s Hs). unfold wp. destruct (m s) as [[a|e] s']; simpl in *; auto.
Qed.

(** The event after a manual operation. *)
Definition acknowledged (operator_id : option Z) (now : datetime) (e : AlertEvent) : AlertEvent :=
  e <| AlertEvent.status := ACKNOWLEDGED |> <| AlertEvent.acknowledged_by := operator_id |>
    <| AlertEvent.acknowledged_at := Some now |>.

Definition resolved (now : datetime) (e : AlertEvent) : AlertEvent :=
  e <| AlertEvent.status := RESOLVED |> <| AlertEvent.resolved_at := Some now |>.

(** From [d] to [d'], event [i] got the row [e'] and one log records it. *)
Record event_moved (i : Z) (e e' : AlertEvent) (operator_id : option Z) (d d' : db) : Prop := {
  moved_event : events d' = <[i := e']> (events d);
  moved_log : ∃ l, logs d' = <[next_id (d TEventLog) := l]> (logs d) ∧
    AlertEventLog.event_id l = i ∧ AlertEventLog.old_status l = Some (AlertEvent.status e) ∧
    AlertEventLog.new_status l = AlertEvent.status e' ∧ AlertEventLog.operator_id l = operator_id;
  moved_others : others_same d d'
}.

Section Ops.
Context `{E : Env} `{!EnvOk E}.

Lemma wp_get_event event (Q : Z → session → Prop) (Ex : exc → session → Prop) s :
  (∀ e, events (work s) !! event = Some e → Q event s) →
  (events (work s) !! event = None →
   Ex (AppException ALERT_EVENT_NOT_FOUND "告警事件不存在" 404) s) →
  wp (_get_event_or_404 event) Q Ex s.
Proof.
  intros HQ HE. unfold _get_event_or_404. apply wp_bind, (wp_get TEvent).
  - intros e He _. apply wp_ret. by apply (HQ e).
  - intros Hn. apply wp_app_error, HE.
    destruct (rows (work s TEvent) !! event) as [e|] eqn:He; [|done]. by specialize (Hn e eq_refl).
Qed.

(** Reading an event for the response changes nothing and does not fail. *)
Lemma wp_event_dict event e (Q : event_dict → session → Prop) Ex s :
  events (work s) !! event = Some e → (∀ r, Q r s) → wp (_event_dict event) Q Ex s.
Proof.
  intros He HQ. unfold _event_dict. apply wp_bind, (wp_obj_ok TEvent event e); [done|].
  assert (∀ (m : M (option string)), wp m (λ _ s', s' = s) (λ _ _, False) s →
    wp (host ← m; mret (EventDict e None host)) Q Ex s ∧
    ∀ n, wp (host ← m; mret (EventDict e n host)) Q Ex s) as Hhost.
  { intros m Hm. assert (∀ n, wp (host ← m; mret (EventDict e n host)) Q Ex s) as Hall; [|by split].
    intros n. apply wp_bind. eapply wp_mono; [exact Hm| |done]. intros r ? ->. by apply wp_ret. }
  assert (wp (match AlertEvent.server_id e with
              | None => mret None
              | Some server_id =>
                if server_id =? 0 then mret None else
                server ← get TServer server_id;
                match server with
                | Some server => s ← obj TServer server; mret (Some (OpsServer.hostname s))
                | None => mret None
                end
              end) (λ _ s', s' = s) (λ _ _, False) s) as Hserver.
  { destruct (AlertEvent.server_id e) as [j|]; [|by apply wp_ret].
    destruct (j =? 0); [by apply wp_ret|]. apply wp_bind, (wp_get TServer); [|by intros _; apply wp_ret].
    intros r Hr _. by apply wp_bind, (wp_obj_ok TServer j r), wp_ret. }
  destruct (Hhost _ Hserver) as [_ Hgo]. apply wp_bind.
  assert (wp (if AlertEvent.rule_id e =? 0 then mret None else
              rule ← get TRule (AlertEvent.rule_id e);
              match rule with
              | Some rule => r ← obj TRule rule; mret (Some (AlertRule.rule_name r))
              | None => mret None
              end) (λ _ s', s' = s) Ex s) as Hrule.
  { destruct (_ =? 0); [by apply wp_ret|]. apply wp_bind, (wp_get TRule); [|by intros _; apply wp_ret].
    intros r Hr _. by apply wp_bind, (wp_obj_ok TRule _ r), wp_ret. }
  eapply wp_mono; [exact Hrule| |done]. intros n ? ->. apply Hgo.
Qed.

(** The common end of both manual operations. *)
Lemma wp_manual event e f message operator_id (Q : event_dict → session → Prop) Ex s :
  alert_inv (work s) → events (work s) !! event = Some e →
  event_core (f e) = event_core e → AlertEvent.metric_type (f e) = AlertEvent.metric_type e →
  alert_edge (Some (AlertEvent.status e)) (AlertEvent.status (f e)) = true →
  event_shape (f e) →
  (∀ u, AlertEvent.acknowledged_by (f e) = Some u → is_Some (rows (work s TUser) !! u)) →
  (∀ u, operator_id = Some u → is_Some (rows (work s TUser) !! u)) →
  (∀ r d' n, alert_good (work s) d' → event_moved event e (f e) operator_id (work s) d' →
     Q r (Session d' d' n)) →
  wp (assign TEvent event f;;
      _ ← AlertEventLogRepository.record event (Some (AlertEvent.status e)) (AlertEvent.status (f e))
        (AlertEvent.current_value e) message operator_id;
      commit;; _event_dict event) Q Ex s.
Proof.
  intros HA He Hcore Hm Hedge Hshape Hack Hop HQ. pose proof (ai_integrity HA) as HI.
  assert (active e = true) as Ha by by apply active_open, (alert_edge_open _ _ Hedge).
  pose proof Hcore as [= _ Hr Hs Hk _ _].
  apply wp_bind, (wp_put_event event e); [done..|]. intros HI1.
  set (d1 := put_row TEvent event (f e) (work s)).
  assert (events d1 = <[event := f e]> (events (work s))) as Hev1 by (unfold d1; by autorewrite with store).
  apply wp_bind, wp_event_log; [done|exists (f e); cbn [work set_work]; fold d1; rewrite Hev1; apply lookup_insert_eq| |].
  { intros u Hu. cbn [work set_work]. unfold d1. rewrite put_row_ne by done. by apply Hop. }
  intros now i l HI2. apply wp_bind, wp_commit. cbn [work set_work tick durable ticks]. fold d1.
  set (d2 := add_row TEventLog l d1).
  assert (events d2 = <[event := f e]> (events (work s))) as Hev2.
  { unfold d2. by rewrite add_row_ne. }
  assert (others_same (work s) d2) as Hoth.
  { intros k Hk1 Hk2. unfold d2, d1. by rewrite add_row_ne, put_row_ne. }
  assert (d2 TEventLog = Table (<[next_id (work s TEventLog) := l]> (logs (work s)))
                               (next_id (work s TEventLog) + 1)) as Hlog.
  { unfold d2. rewrite table_add_row. unfold d1. by autorewrite with store. }
  apply (wp_event_dict event (f e)); [cbn [work]; rewrite Hev2; apply lookup_insert_eq|].
  intros r. apply HQ.
  - apply (alert_good_move (work s) (work s) d2 event e (f e) l); try done. by apply alert_good_refl.
  - split; [done| |done]. exists l. by rewrite Hlog.
Qed.

Lemma wp_acknowledge event operator_id (Q : event_dict → session → Prop) (Ex : exc → session → Prop) s :
  alert_inv (work s) → (∀ u, operator_id = Some u → is_Some (rows (work s TUser) !! u)) →
  (events (work s) !! event = None → Ex (AppException ALERT_EVENT_NOT_FOUND "告警事件不存在" 404) s) →
  (∀ e, events (work s) !! event = Some e → AlertEvent.status e = RESOLVED →
     Ex (AppException BAD_REQUEST "已恢复的告警无需确认" 400) s) →
  (∀ e r d' n, events (work s) !! event = Some e → AlertEvent.status e ≠ RESOLVED →
     alert_good (work s) d' →
     event_moved event e (acknowledged operator_id (clock (ticks s)) e) operator_id (work s) d' →
     Q r (Session d' d' n)) →
  wp (acknowledge event operator_id) Q Ex s.
Proof.
  intros HA Hop H404 H400 HQ. unfold acknowledge. apply wp_bind, wp_get_event; [|done]. intros e He.
  apply wp_bind, (wp_obj_ok TEvent event e); [done|].
  destruct (bool_decide_reflect (AlertEvent.status e = RESOLVED)) as [Hst|Hst];
    [by apply wp_app_error, (H400 e)|].
  apply wp_bind, wp_utcnow.
  apply (wp_manual event e (acknowledged operator_id (clock (ticks s)))); cbn [work tick]; try done.
  - by destruct (AlertEvent.status e).
  - destruct (ai_shape HA event e He) as [Hf Hr _ Hk]. split; simpl; [done| |by eexists|done].
    split; [done|]. intros Hx. by apply Hr in Hx.
  - intros r d' n. by apply (HQ e).
Qed.

Lemma wp_resolve event operator_id (Q : event_dict → session → Prop) (Ex : exc → session → Prop) s :
  alert_inv (work s) → (∀ u, operator_id = Some u → is_Some (rows (work s TUser) !! u)) →
  (events (work s) !! event = None → Ex (AppException ALERT_EVENT_NOT_FOUND "告警事件不存在" 404) s) →
  (∀ e, events (work s) !! event = Some e → AlertEvent.status e = RESOLVED →
     Ex (AppException BAD_REQUEST "告警已恢复" 400) s) →
  (∀ e r d' n, events (work s) !! event = Some e → AlertEvent.status e ≠ RESOLVED →
     alert_good (work s) d' →
     event_moved event e (resolved (clock (ticks s)) e) operator_id (work s) d' →
     Q r (Session d' d' n)) →
  wp (resolve event operator_id) Q Ex s.
Proof.
  intros HA Hop H404 H400 HQ. unfold resolve. apply wp_bind, wp_get_event; [|done]. intros e He.
  apply wp_bind, (wp_obj_ok TEvent event e); [done|].
  destruct (bool_decide_reflect (AlertEvent.status e = RESOLVED)) as [Hst|Hst];
    [by apply wp_app_error, (H400 e)|].
  apply wp_bind, wp_utcnow.
  apply (wp_manual event e (resolved (clock (ticks s)))); cbn [work tick]; try done.
  - by destruct (AlertEvent.status e).
  - destruct (ai_shape HA event e He) as [Hf Hr _ Hk]. split; simpl; [done| |done|done].
    split; [by eexists|done].
  - intros u. exact (acknowledged_user (work s) event e u (ai_integrity HA) He).
  - intros r d' n. by apply (HQ e).
Qed.

(** ** Rules *)

Lemma alert_good_rules d d' :
  alert_inv d → integrity d' → (∀ k, k ≠ TRule → d' k = d k) →
  (∀ i r, rules d' !! i = Some r → AlertRule.id r = i) → alert_good d d'.
Proof.
  intros HA HI Hoth Hr. split.
  - apply (alert_inv_ext d d'); [done..| | |]; [|by apply Hoth..]. rewrite Hoth by done. apply HA.
  - eapply alert_evolves_ext; [..|apply alert_evolves_refl]; by apply Hoth.
Qed.

Lemma wp_get_rule rule (Q : Z → session → Prop) (Ex : exc → session → Prop) s :
  (∀ r, rules (work s) !! rule = Some r → Q rule s) →
  (rules (work s) !! rule = None → Ex (AppException RULE_NOT_FOUND "告警规则不存在" 404) s) →
  wp (get_rule rule) Q Ex s.
Proof.
  intros HQ HE. unfold get_rule. apply wp_bind, (wp_get TRule).
  - intros r Hr _. apply wp_ret. by apply (HQ r).
  - intros Hn. apply wp_app_error, HE.
    destruct (rows (work s TRule) !! rule) as [r|] eqn:Hr; [|done]. by specialize (Hn r eq_refl).
Qed.

(** The outcome of an operation on rules: committed, or refused. *)
Definition rules_only (d : db) (s' : session) : Prop :=
  alert_good d (durable s') ∧ ∀ k, k ≠ TRule → durable s' k = d k.

Lemma wp_create_rule data created_by (Ex : exc → session → Prop) s :
  sane s → alert_inv (work s) →
  (∀ x s', durable s' = durable s → Ex x s') →
  wp (create_rule data created_by) (λ i s', rules_only (work s) s' ∧ i = next_id (work s TRule) ∧
    rules (durable s') !! i = Some (fresh_row TRule i (clock (ticks s)) (new_rule data created_by))) Ex s.
Proof.
  intros Hs HA HE. apply wp_sound; [unfold create_rule, AlertRuleRepository.get_by_name; apply _|done|].
  unfold create_rule, AlertRuleRepository.get_by_name, get_by.
  apply wp_bind, wp_bind, wp_select_where, wp_ret. destruct (head _); [by apply wp_app_error, HE|].
  apply wp_bind, wp_create. split; intros Hadm; [|by apply HE].
  apply wp_bind, wp_commit, wp_ret. cbn [work set_work tick durable]. intros [HI _]. cbn [work] in HI.
  split_and!; [|done|autorewrite with store; apply lookup_insert_eq].
  split; [|intros k Hk; by apply add_row_ne]. cbn [durable].
  apply alert_good_rules; [done|done|intros k Hk; by apply add_row_ne|].
  intros i r. autorewrite with store. intros [[<- <-]|[_ Hr]]%lookup_insert_Some; [done|by apply HA].
Qed.

Lemma wp_update_rule rule data (Ex : exc → session → Prop) s :
  sane s → alert_inv (work s) → (∀ x s', durable s' = durable s → Ex x s') →
  wp (update_rule rule data) (λ _ s', rules_only (work s) s' ∧ ∃ r, rules (work s) !! rule = Some r ∧
    rules (durable s') = <[rule := apply_update data r]> (rules (work s))) Ex s.
Proof.
  intros Hs HA HE. apply wp_sound.
  { unfold update_rule, get_rule, AlertRuleRepository.get_by_name. apply _. }
  { done. }
  unfold update_rule. apply wp_bind, wp_get_rule; [|by intros _; apply HE]. intros r Hr.
  apply wp_bind, (wp_obj_ok TRule rule r); [done|]. apply wp_bind.
  eapply (wp_mono _ (λ _ s', s' = s) _ (λ _ s', s' = s)); [..|intros x ? ->; by apply HE].
  { destruct (RuleUpdate.rule_name data) as [| |name]; [by apply wp_ret..|].
    destruct (_ && _); [|by apply wp_ret]. apply wp_bind.
    unfold AlertRuleRepository.get_by_name, get_by. apply wp_bind, wp_select_where, wp_ret.
    destruct (head _) as [other|]; [|by apply wp_ret].
    destruct (negb _); [by apply wp_app_error|by apply wp_ret]. }
  intros [] ? ->. apply wp_bind. destruct (RuleUpdate.violates_not_null data); [by apply wp_raise, HE|].
  unfold update. apply (wp_assign TRule).
  - intros r' Hr' Hadm. pose proof (same_row TRule Hr Hr') as <-.
    apply wp_bind, wp_commit, wp_ret. cbn [work set_work durable]. intros [HI _]. cbn [work] in HI.
    split.
    + split; [|intros k Hk; by apply put_row_ne]. cbn [durable].
      apply alert_good_rules; [done|done|intros k Hk; by apply put_row_ne|].
      intros i r2. autorewrite with store. intros [[<- <-]|[_ Hr2]]%lookup_insert_Some; [|by apply HA].
      exact (ai_rule_id HA rule r Hr).
    + exists r. split; [done|]. by autorewrite with store.
  - intros _. by apply HE.
  - intros r' _ _. by apply HE.
Qed.

(** A rule can be deleted if no event refers to it. *)
Lemma wp_delete_rule rule (Ex : exc → session → Prop) s :
  sane s → alert_inv (work s) →
  (rules (work s) !! rule = None → Ex (AppException RULE_NOT_FOUND "告警规则不存在" 404) s) →
  (is_Some (rules (work s) !! rule) → referenced TRule (work s) rule = true → Ex IntegrityError s) →
  wp (delete_rule rule) (λ _ s', rules_only (work s) s' ∧ is_Some (rules (work s) !! rule) ∧
    referenced TRule (work s) rule = false ∧ rules (durable s') = delete rule (rules (work s))) Ex s.
Proof.
  intros Hs HA H404 HE. apply wp_sound; [unfold delete_rule, get_rule; apply _|done|].
  unfold delete_rule. apply wp_bind, wp_get_rule; [|done]. intros r Hr.
  apply wp_bind. unfold delete_row. apply wp_bind, (wp_obj_ok TRule rule r); [done|].
  apply wp_bind, wp_get_work. destruct (referenced TRule (work s) rule) eqn:Href;
    [by apply wp_raise, HE; [exists r|]|].
  apply wp_write, wp_commit. cbn [work set_work durable]. intros [HI _]. cbn [work] in HI.
  split_and!; [|by exists r|done|].
  - split; [|intros k Hk; by apply filter_rows_ne]. cbn [durable].
    apply alert_good_rules; [done|done|intros k Hk; by apply filter_rows_ne|].
    intros i r2 Hr2. apply HA. exact (rows_filter_rows_Some TRule _ _ TRule i r2 Hr2).
  - autorewrite with store. apply map_eq. intros i. apply option_eq. intros r2.
    rewrite map_lookup_filter_Some, lookup_delete_Some, negb_true_iff, Z.eqb_neq. naive_solver.
Qed.

(** Only events refer to rules. *)
Lemma referenced_rule d rule :
  referenced TRule d rule = true ↔ ∃ x e, events d !! x = Some e ∧ AlertEvent.rule_id e = rule.
Proof.
  rewrite <- not_false_iff_true, referenced_false. split.
  - intros Hn. destruct (any_row d TEvent (λ e, AlertEvent.rule_id e =? rule)) eqn:Ha.
    + apply any_row_true in Ha as (x & e & He & Hr%Z.eqb_eq). by exists x, e.
    + exfalso. apply Hn. intros k j r Hr Hin. rewrite any_row_false in Ha.
      assert (∀ (k2 : tname) o, k2 ≠ TRule → (TRule, rule) ∉ opt_ref k2 o) as Hopt.
      { intros k2 [z|] Hk2; simpl; [|by intros ?%elem_of_nil].
        intros [= Hx _]%list_elem_of_singleton. by destruct Hk2. }
      destruct k; simpl in Hin; rewrite ?elem_of_cons, ?elem_of_app, ?elem_of_nil in Hin;
        destruct_or? Hin; try discriminate; try (by eapply Hopt; [|exact Hin]); try done.
      specialize (Ha j r Hr). apply Z.eqb_neq in Ha. by injection Hin as ->.
  - intros (x & e & He & Hr) Hn. apply (Hn TEvent x e He). simpl. rewrite Hr. list_in.
Qed.
End Ops.

(** ** The transition system

    The operations of the engine and of the alert centre, the databases they
    reach, and the invariants of those. *)

Inductive alert_op :=
  | EvaluateAll
  | Acknowledge (event_id : Z) (operator_id : option Z)
  | Resolve (event_id : Z) (operator_id : option Z)
  | CreateRule (data : RuleCreate) (created_by : option Z)
  | UpdateRule (rule_id : Z) (data : RuleUpdate)
  | DeleteRule (rule_id : Z).

(** The operator of a manual operation is a user. *)
Definition operator_ok (d : db) (operator_id : option Z) : Prop :=
  ∀ u, operator_id = Some u → is_Some (rows (d TUser) !! u).

Definition alert_op_ok (d : db) (op : alert_op) : Prop :=
  match op with
  | Acknowledge _ operator_id | Resolve _ operator_id => operator_ok d operator_id
  | _ => True
  end.

Definition alert_table (k : tname) : bool := bool_decide (k ∈ [TRule; TEvent; TEventLog]).

Section System.
Context `{E : Env} `{!EnvOk E}.

Definition run_alert (op : alert_op) : M unit :=
  match op with
  | EvaluateAll => _ ← evaluate_all; mret ()
  | Acknowledge event operator_id => _ ← acknowledge event operator_id; mret ()
  | Resolve event operator_id => _ ← resolve event operator_id; mret ()
  | CreateRule data created_by => _ ← create_rule data created_by; mret ()
  | UpdateRule rule data => _ ← update_rule rule data; mret ()
  | DeleteRule rule => delete_rule rule
  end.

Definition alert_after (op : alert_op) (d : db) (n : nat) : db := (run (run_alert op) d n).1.2.

(** One operation, or any change of the other tables that respects the
    constraints. *)
Inductive alert_step : db → db → Prop :=
  | alert_step_op op d n : alert_op_ok d op → alert_step d (alert_after op d n)
  | alert_step_other d d' : integrity d' → (∀ k, alert_table k = true → d' k = d k) →
      (∀ i s, rows (d' TServer) !! i = Some s → OpsServer.id s = i) → alert_step d d'.

(** A database without rules and events. *)
Definition alert_initial (d : db) : Prop :=
  integrity d ∧ rules d = ∅ ∧ events d = ∅ ∧ logs d = ∅ ∧
  ∀ i s, rows (d TServer) !! i = Some s → OpsServer.id s = i.

Definition alert_reachable (d : db) : Prop := ∃ d0, alert_initial d0 ∧ rtc alert_step d0 d.

Lemma alert_initial_inv d : alert_initial d → alert_inv d.
Proof.
  intros (HI & Hr & He & Hl & Hs). split; [done|..|done| | | | |];
    intros i r; rewrite ?Hr, ?He, ?Hl, lookup_empty; done.
Qed.

Lemma wp_run_alert op s :
  alert_inv (work s) → durable s = work s → alert_op_ok (work s) op →
  wp (run_alert op) (λ _ s', alert_good (work s) (durable s')) (λ _ s', durable s' = work s) s.
Proof.
  intros HA Hd Hop. assert (sane s) as Hsane.
  { split; [apply HA|]. rewrite Hd. apply HA. }
  destruct op as [|event operator|event operator|data user|rule data|rule]; simpl.
  - apply wp_bind, wp_evaluate_all; [done..|]. intros. by apply wp_ret.
  - apply wp_bind, wp_acknowledge; [done..|]. intros. by apply wp_ret.
  - apply wp_bind, wp_resolve; [done..|]. intros. by apply wp_ret.
  - apply wp_bind. eapply wp_mono; [apply (wp_create_rule _ _ (λ _ s', durable s' = work s)); [done..|]| |done].
    + intros x s' Hs'. by rewrite Hs'.
    + intros i s' ([HG _] & _). by apply wp_ret.
  - apply wp_bind. eapply wp_mono; [apply (wp_update_rule _ _ (λ _ s', durable s' = work s)); [done..|]| |done].
    + intros x s' Hs'. by rewrite Hs'.
    + intros i s' ([HG _] & _). by apply wp_ret.
  - eapply wp_mono; [apply (wp_delete_rule _ (λ _ s', durable s' = work s)); by try done| |done].
    intros i s' ([HG _] & _). done.
Qed.

Lemma alert_op_good op d n : alert_inv d → alert_op_ok d op → alert_good d (alert_after op d n).
Proof.
  intros HA Hop. pose proof (wp_run_alert op (Session d d n) HA eq_refl Hop) as Hwp.
  unfold alert_after, run. unfold wp in Hwp.
  destruct (run_alert op (Session d d n)) as [[a|e] s']; simpl in *; [done|].
  rewrite Hwp. by apply alert_good_refl.
Qed.

Lemma alert_step_good d d' : alert_inv d → alert_step d d' → alert_good d d'.
Proof.
  intros HA Hstep. destruct Hstep as [op d n Hop|d d' HI Hk Hs]; [by apply alert_op_good|]. split.
  - apply (alert_inv_ext d d'); [done..| |done| |]; [|by apply Hk..]. rewrite Hk by done. apply HA.
  - eapply alert_evolves_ext; [..|apply alert_evolves_refl]; by apply Hk.
Qed.

Lemma alert_steps_good d d' : alert_inv d → rtc alert_step d d' → alert_good d d'.
Proof.
  intros HA Hsteps. induction Hsteps as [d|d d1 d2 Hstep _ IH]; [by apply alert_good_refl|].
  destruct (alert_step_good _ _ HA Hstep) as [HA1 He1]. destruct (IH HA1) as [HA2 He2].
  split; [done|]. by eapply alert_evolves_trans.
Qed.

Lemma alert_reachable_inv d : alert_reachable d → alert_inv d.
Proof. intros (d0 & Hi & Hs). by apply (alert_steps_good d0 d), Hs; apply alert_initial_inv. Qed.

Lemma alert_reachable_step d d' : alert_reachable d → alert_step d d' → alert_reachable d'.
Proof. intros (d0 & Hi & Hs) Hstep. exists d0. split; [done|]. by eapply rtc_r. Qed.
End System.
