(* ===== verification/AlertProps.v ===== *)
(** * What the alert subsystem guarantees

    The theorems on rounds, on the manual operations and on reachable states,
    each with a run on sample data. *)
From Stdlib Require Import QArith.
From S2P Require Import Prelude.
From S2P Require Export AlertSystem.
From S2P Require Import Samples.

Section Props.
Context `{E : Env} `{!EnvOk E}.


(** C8: at most one event of a rule, server and metric is not resolved. *)
Theorem one_active_alert (d : db) (x y : Z) (e e' : AlertEvent) :
  alert_reachable d → events d !! x = Some e → events d !! y = Some e' →
  AlertEvent.status e ≠ RESOLVED → AlertEvent.status e' ≠ RESOLVED →
  AlertEvent.rule_id e = AlertEvent.rule_id e' → AlertEvent.server_id e = AlertEvent.server_id e' →
  AlertEvent.metric_type e = AlertEvent.metric_type e' → x = y.
Proof.
  intros HA%alert_reachable_inv He He' Ha%active_open Ha'%active_open Hr Hs Hm.
  apply (active_unique d x y e e' (ai_integrity HA) He He' Ha Ha').
  destruct (shape_key e (ai_shape HA x e He)) as (s & Hse & ->).
  destruct (shape_key e' (ai_shape HA y e' He')) as (s' & Hse' & ->). congruence.
Qed.

(** C20: events and logs are never lost; an event keeps its identity, its status
    only advances from PENDING over FIRING and ACKNOWLEDGED to RESOLVED, and a
    resolved event never changes again. *)
Theorem alert_history_kept (d d' : db) :
  alert_reachable d → rtc alert_step d d' →
  (∀ i e, events d !! i = Some e → ∃ e', events d' !! i = Some e' ∧ event_core e' = event_core e ∧
     (alert_rank (AlertEvent.status e) ≤ alert_rank (AlertEvent.status e'))%nat ∧
     (AlertEvent.status e = RESOLVED → e' = e)) ∧
  (∀ j l, logs d !! j = Some l → logs d' !! j = Some l).
Proof.
  intros HA%alert_reachable_inv Hs. destruct (alert_steps_good _ _ HA Hs) as [_ [He Hl]].
  split; [|done]. intros i e Hi. destruct (He i e Hi) as (e' & Hi' & []). by exists e'.
Qed.

(** C6: a round of the engine never fails; it settles every pair of an enabled
    rule and an active server by the newest metric of the server: the pair's
    active event, if there is one, becomes what the state machine prescribes,
    a first violation creates one PENDING event, and every other event stays
    as it is.  The result is the number of new events. *)
Theorem evaluate_all_spec (d : db) (n : nat) :
  alert_reachable d →
  ∃ k d' n' ps latest, run evaluate_all d n = (Ok k, d', n') ∧
    round_pairs d ps ∧ newest_map d ps.*2 latest ∧ others_same d d' ∧
    round_result latest (clock n) ps d d' k.
Proof.
  intros HA%alert_reachable_inv.
  destruct (run_total evaluate_all (λ k s', ∃ ps latest, round_pairs d ps ∧ newest_map d ps.*2 latest ∧
    others_same d (durable s') ∧ round_result latest (clock n) ps d (durable s') k) d n)
    as (k & s' & Hrun & ps & latest & H1 & H2 & H3 & H4).
  { apply wp_evaluate_all; [done..|]. intros latest ps k d' n' _ Ho Hp Hn Hr.
    exists ps, latest. done. }
  by exists k, (durable s'), (ticks s'), ps, latest.
Qed.

(** Acknowledging an event that exists and is not resolved records the
    operator and the time, with one log; otherwise nothing changes. *)
Theorem acknowledge_spec (d : db) (i : Z) (operator_id : option Z) (n : nat) :
  alert_reachable d → operator_ok d operator_id →
  match events d !! i with
  | None => run (acknowledge i operator_id) d n
            = (Raise (AppException ALERT_EVENT_NOT_FOUND "告警事件不存在" 404), d, n)
  | Some e =>
    if bool_decide (AlertEvent.status e = RESOLVED)
    then run (acknowledge i operator_id) d n
         = (Raise (AppException BAD_REQUEST "已恢复的告警无需确认" 400), d, n)
    else ∃ r d' n', run (acknowledge i operator_id) d n = (Ok r, d', n') ∧
      event_moved i e (acknowledged operator_id (clock n) e) operator_id d d'
  end.
Proof.
  intros HA%alert_reachable_inv Hop. destruct (events d !! i) as [e|] eqn:He.
  - destruct (bool_decide_reflect (AlertEvent.status e = RESOLVED)) as [Hst|Hst].
    + apply run_refused, wp_acknowledge; cbn [work]; try done.
      * intros Hn. by pose proof (eq_trans (eq_sym He) Hn).
      * intros e' r d' n' He' Hne. by rewrite (same_row TEvent He' He) in Hne.
    + destruct (run_total (acknowledge i operator_id) (λ _ s',
        event_moved i e (acknowledged operator_id (clock n) e) operator_id d (durable s')) d n)
        as (r & s' & Hrun & Hm); [|by exists r, (durable s'), (ticks s')].
      apply wp_acknowledge; cbn [work]; try done.
      * intros Hn. by pose proof (eq_trans (eq_sym He) Hn).
      * intros e' He' Hr. by rewrite (same_row TEvent He' He) in Hr.
      * intros e' r d' n' He' _ _ Hm. by rewrite (same_row TEvent He He').
  - apply run_refused, wp_acknowledge; cbn [work]; try done.
    + intros e He'. by pose proof (eq_trans (eq_sym He) He').
    + intros e r d' n' He'. by pose proof (eq_trans (eq_sym He) He').
Qed.

(** Resolving an event that exists and is not resolved records the time,
    with one log; otherwise nothing changes. *)
Theorem resolve_spec (d : db) (i : Z) (operator_id : option Z) (n : nat) :
  alert_reachable d → operator_ok d operator_id →
  match events d !! i with
  | None => run (resolve i operator_id) d n
            = (Raise (AppException ALERT_EVENT_NOT_FOUND "告警事件不存在" 404), d, n)
  | Some e =>
    if bool_decide (AlertEvent.status e = RESOLVED)
    then run (resolve i operator_id) d n = (Raise (AppException BAD_REQUEST "告警已恢复" 400), d, n)
    else ∃ r d' n', run (resolve i operator_id) d n = (Ok r, d', n') ∧
      event_moved i e (resolved (clock n) e) operator_id d d'
  end.
Proof.
  intros HA%alert_reachable_inv Hop. destruct (events d !! i) as [e|] eqn:He.
  - destruct (bool_decide_reflect (AlertEvent.status e = RESOLVED)) as [Hst|Hst].
    + apply run_refused, wp_resolve; cbn [work]; try done.
      * intros Hn. by pose proof (eq_trans (eq_sym He) Hn).
      * intros e' r d' n' He' Hne. by rewrite (same_row TEvent He' He) in Hne.
    + destruct (run_total (resolve i operator_id) (λ _ s',
        event_moved i e (resolved (clock n) e) operator_id d (durable s')) d n)
        as (r & s' & Hrun & Hm); [|by exists r, (durable s'), (ticks s')].
      apply wp_resolve; cbn [work]; try done.
      * intros Hn. by pose proof (eq_trans (eq_sym He) Hn).
      * intros e' He' Hr. by rewrite (same_row TEvent He' He) in Hr.
      * intros e' r d' n' He' _ _ Hm. by rewrite (same_row TEvent He He').
  - apply run_refused, wp_resolve; cbn [work]; try done.
    + intros e He'. by pose proof (eq_trans (eq_sym He) He').
    + intros e r d' n' He'. by pose proof (eq_trans (eq_sym He) He').
Qed.

(** A rule is deleted only if no event, resolved or not, was ever created
    for it; otherwise the database refuses and nothing changes. *)
Theorem delete_rule_spec (d : db) (i : Z) (n : nat) :
  alert_reachable d → is_Some (rules d !! i) →
  ((∃ x e, events d !! x = Some e ∧ AlertEvent.rule_id e = i) →
   run (delete_rule i) d n = (Raise IntegrityError, d, n)) ∧
  ((∀ x e, events d !! x = Some e → AlertEvent.rule_id e ≠ i) →
   ∃ d' n', run (delete_rule i) d n = (Ok (), d', n') ∧ rules d' = delete i (rules d) ∧
     ∀ k, k ≠ TRule → d' k = d k).
Proof.
  intros HA%alert_reachable_inv [r Hr].
  assert (sane (Session d d n)) as Hs by (split; apply HA).
  split.
  - intros Href%referenced_rule. apply run_refused.
    eapply wp_mono; [apply (wp_delete_rule i (λ e' s', e' = IntegrityError ∧ s' = Session d d n)); try done| |done].
    + cbn [work]. intros Hn. by pose proof (eq_trans (eq_sym Hr) Hn).
    + cbn [work]. intros _ s' (_ & _ & Hf & _). congruence.
  - intros Hn. destruct (run_total (delete_rule i) (λ _ s', rules (durable s') = delete i (rules d) ∧
      ∀ k, k ≠ TRule → durable s' k = d k) d n) as ([] & s' & Hrun & Hres); [|by exists (durable s'), (ticks s')].
    eapply wp_mono; [apply (wp_delete_rule i no_exc); try done| |done]; cbn [work].
    + intros Hx. by pose proof (eq_trans (eq_sym Hr) Hx).
    + intros _ (x & e & He & Hx)%referenced_rule. by destruct (Hn x e).
    + intros _ s' ([_ Ho] & _ & _ & Hd). done.
Qed.

(** For a LOAD rule the violation test multiplies the threshold by the
    number of cores, the recovery test does not: an active event whose value
    lies between the two thresholds is left untouched by every round, although
    the metric is back within the limit that fired it. *)
Theorem load_alert_stuck (rule : AlertRule) (server : OpsServer) (m : MonitorServerMetric)
    (now : datetime) (e : AlertEvent) (load t : Q) :
  AlertRule.metric_type rule = "LOAD" → AlertRule.operator rule = "GT" →
  AlertRule.threshold rule = Some t → AlertRule.recovery_threshold rule = None →
  MonitorServerMetric.load_1m m = Some load →
  (t < fl load)%Q → (fl load <= py_round (fmul_int (fl t) (cores server)) 4)%Q →
  evaluated rule server (Some m) now (Some e) = Some e ∧
  evaluated rule server (Some m) now None = None.
Proof.
  intros Hm Ho Ht Hr Hl Hlow Hhigh.
  assert (_get_value rule server (Some m) now = Some (fl load)) as Hv.
  { unfold _get_value. rewrite Hm. simpl. by rewrite Hl. }
  assert (_compare (fl load) (AlertRule.operator rule) (_effective_threshold rule server) = false) as Hc.
  { unfold _effective_threshold. rewrite Ht, Hm, Ho. simpl. unfold Qlt_bool.
    apply negb_false_iff. by apply Qle_bool_iff. }
  assert (_is_recovered rule (fl load) = false) as Hrec.
  { unfold _is_recovered. rewrite Hr, Ho, Ht. simpl. apply negb_false_iff. unfold Qlt_bool.
    apply negb_true_iff. apply not_true_is_false. rewrite Qle_bool_iff. by apply Qlt_not_le. }
  unfold evaluated. rewrite Hv, Hc. split; [|done]. simpl. unfold recovered. by rewrite Hrec.
Qed.
End Props.

(** ** Instances on a sample history *)

Definition cpu_rule : RuleCreate :=
  RuleCreate.Mk "cpu high" "cpu" "warning" "gt" (Some (80 # 1)%Q) 0 None 1 None.

Definition load_rule : RuleCreate :=
  RuleCreate.Mk "load high" "load" "critical" "gt" (Some (2 # 1)%Q) 0 None 1 None.

Definition metric_at (server at_ : Z) (cpu load : Q) : MonitorServerMetric :=
  MonitorServerMetric.Mk 0 server at_ (Some cpu) None None None None None (Some load) None None None None 0.

Definition add_metrics : M unit :=
  _ ← create TMetric (metric_at 1 (seconds 1700000000) (95 # 1)%Q (9 # 1)%Q);
  _ ← create TMetric (metric_at 2 (seconds 1700000000) (10 # 1)%Q (1 # 1)%Q);
  commit.

Definition calm_metrics : M unit :=
  _ ← create TMetric (metric_at 1 (seconds 1700000100) (20 # 1)%Q (5 # 1)%Q);
  commit.

(** Two rules; then the first metrics; then one round: server 1 violates both. *)
Definition alert_rules_db : db :=
  alert_after (CreateRule load_rule None) (alert_after (CreateRule cpu_rule (Some 1)) sample_db 20) 25.
Definition alert_metrics_db : db := (run add_metrics alert_rules_db 30).1.2.
Definition alert_demo : db := alert_after EvaluateAll alert_metrics_db 40.

(** Later the metrics are calm, and the first event is acknowledged. *)
Definition alert_calm : db := (run calm_metrics alert_demo 60).1.2.
Definition alert_later : db :=
  alert_after EvaluateAll (alert_after (Acknowledge 1 (Some 1)) alert_calm 70) 80.

Lemma alert_initial_sample : alert_initial sample_db.
Proof.
  split; [apply sample_integrity|]. split_and!; [by vm_compute..|].
  apply map_Forall_lookup, (bool_decide_unpack _). by vm_compute.
Qed.

(** New metrics are a change of the other tables. *)
Lemma metrics_step (m : M unit) (d : db) (n : nat) :
  Sound m → alert_reachable d →
  (let d' := (run m d n).1.2 in
   d' TRule = d TRule ∧ d' TEvent = d TEvent ∧ d' TEventLog = d TEventLog ∧ d' TServer = d TServer) →
  alert_step d (run m d n).1.2.
Proof.
  intros Hm Hd%alert_reachable_inv (H1 & H2 & H3 & H4). apply alert_step_other.
  - assert (sane (Session d d n)) as Hs by (split; apply Hd).
    pose proof (Hm _ Hs) as Hs'. unfold run. destruct (m _) as [o s']. apply Hs'.
  - intros k Hk%bool_decide_eq_true. repeat (apply elem_of_cons in Hk as [->|Hk]; [done|]).
    by apply elem_of_nil in Hk.
  - rewrite H4. apply Hd.
Qed.

Lemma alert_rules_reachable : alert_reachable alert_rules_db.
Proof.
  exists sample_db. split; [apply alert_initial_sample|].
  eapply rtc_l; [|eapply rtc_l; [|apply rtc_refl]]; by apply alert_step_op.
Qed.

Lemma alert_metrics_reachable : alert_reachable alert_metrics_db.
Proof.
  eapply alert_reachable_step; [apply alert_rules_reachable|]. apply metrics_step.
  - unfold add_metrics. apply _.
  - apply alert_rules_reachable.
  - vm_compute. done.
Qed.

Lemma alert_demo_reachable : alert_reachable alert_demo.
Proof. eapply alert_reachable_step; [apply alert_metrics_reachable|by apply alert_step_op]. Qed.

Lemma alert_calm_step : alert_step alert_demo alert_calm.
Proof.
  apply metrics_step; [unfold calm_metrics; apply _|apply alert_demo_reachable|]. vm_compute. done.
Qed.

Lemma alert_later_steps : rtc alert_step alert_calm alert_later.
Proof.
  eapply rtc_l; [|eapply rtc_l; [|apply rtc_refl]]; apply alert_step_op; [|done].
  intros u [= <-]. eexists. vm_compute. reflexivity.
Qed.

Lemma alert_calm_reachable : alert_reachable alert_calm.
Proof. eapply alert_reachable_step; [apply alert_demo_reachable|apply alert_calm_step]. Qed.

Lemma alert_later_reachable : alert_reachable alert_later.
Proof.
  destruct alert_calm_reachable as (d0 & Hi & H0). exists d0. split; [exact Hi|].
  etransitivity; [exact H0|exact alert_later_steps].
Qed.

#[local] Opaque alert_rules_db alert_metrics_db alert_demo alert_calm alert_later.

Lemma event_at (d : db) (i : Z) (st : alert_status) (rule : Z) :
  (λ e, (AlertEvent.status e, AlertEvent.rule_id e)) <$> events d !! i = Some (st, rule) →
  ∃ e, events d !! i = Some e ∧ AlertEvent.status e = st ∧ AlertEvent.rule_id e = rule.
Proof. intros (e & He & [= -> ->])%fmap_Some. by exists e. Qed.


Lemma one_active_alert_witness : ∃ e, events alert_demo !! 1 = Some e ∧ AlertEvent.status e = PENDING ∧
  ∀ y e', events alert_demo !! y = Some e' → AlertEvent.status e' ≠ RESOLVED →
    AlertEvent.rule_id e = AlertEvent.rule_id e' → AlertEvent.server_id e = AlertEvent.server_id e' →
    AlertEvent.metric_type e = AlertEvent.metric_type e' → 1 = y.
Proof.
  destruct (event_at alert_demo 1 PENDING 2) as (e & He & Hst & _); [vm_compute; reflexivity|].
  exists e. split_and!; [exact He|exact Hst|]. intros y e' He' Hne.
  apply (one_active_alert alert_demo 1 y e e' alert_demo_reachable He He'); [by rewrite Hst|exact Hne].
Defined.

(** The second event recovers in the later round and stays resolved. *)
Lemma alert_history_kept_witness :
  ∃ e, events alert_later !! 2 = Some e ∧ AlertEvent.status e = RESOLVED ∧
       ∀ d', rtc alert_step alert_later d' → events d' !! 2 = Some e.
Proof.
  destruct (event_at alert_later 2 RESOLVED 1) as (e & He & Hst & _); [vm_compute; reflexivity|].
  exists e. split_and!; [exact He|exact Hst|]. intros d' Hs.
  pose proof alert_later_reachable as Hr.
  destruct (proj1 (alert_history_kept alert_later d' Hr Hs) 2 e He) as (e' & He' & _ & _ & Heq).
  rewrite <- (Heq Hst). exact He'.
Defined.

(** The first round creates the two events of server 1. *)
Lemma evaluate_all_spec_witness :
  ∃ d' n' ps latest, run evaluate_all alert_metrics_db 40 = (Ok 2, d', n') ∧
    round_pairs alert_metrics_db ps ∧ round_result latest (clock 40) ps alert_metrics_db d' 2.
Proof.
  destruct (evaluate_all_spec alert_metrics_db 40 alert_metrics_reachable)
    as (k & d' & n' & ps & latest & Hrun & Hps & _ & _ & Hres).
  assert ((run evaluate_all alert_metrics_db 40).1.1 = Ok 2) as Hk by (vm_compute; reflexivity).
  rewrite Hrun in Hk. injection Hk as ->. exists d', n', ps, latest. exact (conj Hrun (conj Hps Hres)).
Defined.

Lemma acknowledge_spec_witness :
  (∃ r d' n', run (acknowledge 2 (Some 1)) alert_demo 50 = (Ok r, d', n')) ∧
  run (acknowledge 2 (Some 1)) alert_later 90
  = (Raise (AppException BAD_REQUEST "已恢复的告警无需确认" 400), alert_later, 90%nat).
Proof.
  assert (operator_ok alert_demo (Some 1)) as Ho by (intros u [= <-]; eexists; vm_compute; reflexivity).
  assert (operator_ok alert_later (Some 1)) as Ho' by (intros u [= <-]; eexists; vm_compute; reflexivity).
  pose proof alert_later_reachable as Hr.
  destruct (event_at alert_demo 2 PENDING 1) as (e2 & He2 & Hst2 & _); [vm_compute; reflexivity|].
  destruct (event_at alert_later 2 RESOLVED 1) as (e1 & He1 & Hst1 & _); [vm_compute; reflexivity|].
  pose proof (acknowledge_spec alert_demo 2 (Some 1) 50 alert_demo_reachable Ho) as H2.
  pose proof (acknowledge_spec alert_later 2 (Some 1) 90 Hr Ho') as H1.
  rewrite He2, Hst2 in H2. rewrite He1, Hst1 in H1. split; [|exact H1].
  destruct H2 as (r & d' & n' & Hrun & _). exists r, d', n'. exact Hrun.
Defined.

Lemma resolve_spec_witness :
  ∃ r d' n' e', run (resolve 2 None) alert_demo 50 = (Ok r, d', n') ∧
    events d' !! 2 = Some e' ∧ AlertEvent.status e' = RESOLVED.
Proof.
  assert (operator_ok alert_demo None) as Ho by (intros u [=]).
  destruct (event_at alert_demo 2 PENDING 1) as (e2 & He2 & Hst2 & _); [vm_compute; reflexivity|].
  pose proof (resolve_spec alert_demo 2 None 50 alert_demo_reachable Ho) as H2.
  rewrite He2, Hst2 in H2. destruct H2 as (r & d' & n' & Hrun & [Hev _ _]).
  exists r, d', n', (resolved (clock 50) e2). split; [exact Hrun|]. split; [|reflexivity].
  rewrite Hev. apply lookup_insert_eq.
Defined.

(** Once an event exists, its rule can no longer be deleted. *)
Lemma delete_rule_spec_witness :
  (∃ d' n', run (delete_rule 1) alert_rules_db 50 = (Ok (), d', n')) ∧
  run (delete_rule 1) alert_demo 50 = (Raise IntegrityError, alert_demo, 50%nat).
Proof.
  assert (is_Some (rules alert_rules_db !! 1)) as H0 by (eexists; vm_compute; reflexivity).
  assert (is_Some (rules alert_demo !! 1)) as H1 by (eexists; vm_compute; reflexivity).
  assert (events alert_rules_db = ∅) as Hnone by (vm_compute; reflexivity).
  destruct (event_at alert_demo 2 PENDING 1) as (e & He & _ & Hr); [vm_compute; reflexivity|].
  split.
  - destruct (proj2 (delete_rule_spec alert_rules_db 1 50 alert_rules_reachable H0)) as (d' & n' & Hrun & _).
    { intros x e'. rewrite Hnone, lookup_empty. done. }
    exists d', n'. exact Hrun.
  - apply (proj1 (delete_rule_spec alert_demo 1 50 alert_demo_reachable H1)). exists 2, e. exact (conj He Hr).
Defined.

(** Twice the cores of a 4-core server: a load of 5 is below the limit of 8
    and not below 2. *)
Lemma load_alert_stuck_witness :
  ∃ e, evaluated (new_rule load_rule None) (sample_server "web-1" "10.0.0.1")
         (Some (metric_at 1 0 (20 # 1)%Q (5 # 1)%Q)) 100 (Some e) = Some e.
Proof.
  exists (new_event (new_rule load_rule None) (sample_server "web-1" "10.0.0.1") (9 # 1)%Q (Some (8 # 1)%Q) 0).
  refine (proj1 (load_alert_stuck _ _ _ _ _ (5 # 1)%Q (2 # 1)%Q _ _ _ _ _ _ _));
    [vm_compute; reflexivity..|vm_compute; discriminate].
Defined.
