(* ===== verification/SchedulerProps.v ===== *)
(** * Properties of the background jobs

    What one run of the metric archive and of the status refresh does to the
    database; the jobs that are added paused; and what is lost between two
    runs of the archive. *)
From Stdlib Require Import QArith.
From S2P Require Import Prelude.
From S2P Require Import Confined Samples.
From S2P Require Export Scheduler.

Abbreviation metrics d := (rows (d TMetric)).
Abbreviation dailies d := (rows (d TMetricDaily)).

(** ** The daily archive *)

Definition day_key (r : MonitorServerMetricDaily) : Z * Z :=
  (MonitorServerMetricDaily.server_id r, MonitorServerMetricDaily.metric_date r).

(** The row shows the values, under a key and a creation time of its own. *)
Definition holds_values (v r : MonitorServerMetricDaily) : Prop :=
  v <| MonitorServerMetricDaily.id := MonitorServerMetricDaily.id r |>
    <| MonitorServerMetricDaily.created_at := MonitorServerMetricDaily.created_at r |> = r.

Lemma holds_values_key v r : holds_values v r → day_key r = day_key v.
Proof. unfold holds_values. by intros <-. Qed.

(** [d'] is [d] with the aggregate [v] put in its place. *)
Record archived_one (v : MonitorServerMetricDaily) (d d' : db) : Prop := {
  ar_row : ∃ i r, dailies d' !! i = Some r ∧ holds_values v r;
  ar_rest : ∀ i r, day_key r ≠ day_key v → dailies d' !! i = Some r ↔ dailies d !! i = Some r;
  ar_only : only_in [TMetricDaily] d d';
  ar_integrity : integrity d'
}.

Section Props.
Context `{E : Env} `{!EnvOk E} `{!Cron}.

Lemma daily_conflict a b : unique_conflict TMetricDaily a b = true ↔ day_key a = day_key b.
Proof. simpl. rewrite andb_true_iff, !bool_decide_eq_true. unfold day_key. split; [intros [-> ->]|intros [=]]; done. Qed.

Lemma daily_unique d i j r r' :
  integrity d → dailies d !! i = Some r → dailies d !! j = Some r' → day_key r = day_key r' → i = j.
Proof.
  intros HI Hi Hj Hk. apply (integrity_unique TMetricDaily i j r r' d HI Hi Hj). by apply daily_conflict.
Qed.

Lemma wp_upsert_daily v (Q : () → session → Prop) Ex s :
  integrity (work s) → is_Some (rows (work s TServer) !! MonitorServerMetricDaily.server_id v) →
  (∀ d' n, (ticks s ≤ n)%nat → archived_one v (work s) d' → Q () (Session d' (durable s) n)) →
  wp (MetricRepository.upsert_daily v) Q Ex s.
Proof.
  intros HI Hsv HQ. unfold MetricRepository.upsert_daily. apply wp_bind.
  apply wp_select_where. set (ids := matching TMetricDaily _ _).
  assert (∀ i, i ∈ ids ↔ ∃ r, dailies (work s) !! i = Some r ∧ day_key r = day_key v) as Hids.
  { intros i. etransitivity; [apply elem_of_matching|]. apply exist_proper. intros r. cbn [alive andb].
    rewrite andb_true_iff, !Z.eqb_eq. unfold day_key. apply and_iff_compat_l.
    split; [intros [-> ->]|intros [=]]; done. }
  clearbody ids. destruct ids as [|i ids]; cbn [head].
  - apply wp_bind, (wp_create_ok TMetricDaily); [done|..].
    + apply admissible_spec. split.
      * by intros k' j [= -> ->]%list_elem_of_singleton.
      * intros j r' Hr' _. apply not_true_is_false. intros Hk%daily_conflict.
        apply (not_elem_of_nil j), Hids. by exists r'.
    + intros HI'. apply wp_ret, HQ; [simpl; lia|]. set (i := next_id (work s TMetricDaily)) in *. split; [..|done].
      * exists i. eexists. rewrite rows_add_row. split; [apply lookup_insert_eq|done].
      * intros j r' Hne. rewrite rows_add_row. rewrite lookup_insert_Some. split.
        -- by intros [[_ <-]|[_ Hr']].
        -- intros Hr'. right. split; [|done]. by apply not_eq_sym, (row_not_next TMetricDaily _ j r').
      * intros k' Hk'. apply add_row_ne. by apply only_ne.
  - destruct (proj1 (Hids i)) as (r & Hr & Hk); [list_in|].
    apply (wp_assign_ok TMetricDaily i r); [done..| |].
    + injection Hk as Hs Hd. split; [|intros r2]; simpl; by rewrite ?Hs, ?Hd.
    + intros HI'. destruct s as [w dd n]. apply HQ; [done|]. split; [..|done].
      * exists i. eexists. rewrite rows_put_row. split; [apply lookup_insert_eq|done].
      * intros j r' Hne. rewrite rows_put_row. rewrite lookup_insert_Some. split.
        -- intros [[_ <-]|[_ Hr']]; [|done]. by destruct Hne.
        -- intros Hr'. right. split; [|done]. intros <-. destruct Hne. rewrite <- Hk. f_equal.
           by apply (same_row TMetricDaily Hr' Hr).
      * intros k' Hk'. apply put_row_ne. by apply only_ne.
Qed.

(** The aggregate of a (server, day) group of [ms]. *)
Definition day_values (ms : list MonitorServerMetric) (key : Z * Z) : MonitorServerMetricDaily :=
  MetricRepository.daily_row key.1 key.2 (filter (λ m, MetricRepository.group_key m = key) ms).

(** The metrics older than [cutoff], in scan order. *)
Definition older (cutoff : datetime) (d : db) : list MonitorServerMetric :=
  rows_of TMetric (matching TMetric (λ m, MonitorServerMetric.collected_at m <? cutoff) d) d.

Lemma elem_of_older cutoff d m :
  m ∈ older cutoff d ↔ ∃ i, metrics d !! i = Some m ∧ MonitorServerMetric.collected_at m < cutoff.
Proof.
  etransitivity; [apply (elem_of_rows_of TMetric)|]. split.
  - intros (i & (r & Hr & Hb)%elem_of_matching & Hm). exists i. split; [done|].
    pose proof (same_row TMetric Hr Hm) as <-. by apply Z.ltb_lt.
  - intros (i & Hm & Hb). exists i. split; [|done]. apply elem_of_matching. exists m. split; [done|]. by apply Z.ltb_lt.
Qed.

(** [d'] is [d] with the aggregates of the groups in [keys] put in place. *)
Record archived (ms : list MonitorServerMetric) (keys : list (Z * Z)) (d d' : db) : Prop := {
  am_groups : ∀ key, key ∈ keys → ∃ i r, dailies d' !! i = Some r ∧ holds_values (day_values ms key) r;
  am_rest : ∀ i r, day_key r ∉ keys → dailies d' !! i = Some r ↔ dailies d !! i = Some r;
  am_only : only_in [TMetricDaily] d d';
  am_integrity : integrity d'
}.

Lemma archived_step ms keys key d d1 d2 :
  archived ms keys d d1 → archived_one (day_values ms key) d1 d2 → key ∉ keys → archived ms (keys ++ [key]) d d2.
Proof.
  intros [Hg Hr Ho _] [Hrow Hrest Ho' HI] Hn.
  assert (day_key (day_values ms key) = key) as Hk by by destruct key.
  split; [..|done].
  - intros k [Hin| ->%list_elem_of_singleton]%elem_of_app; [|done].
    destruct (Hg k Hin) as (i & r & Hi & Hv). exists i, r. split; [|done]. apply Hrest; [|done].
    rewrite (holds_values_key _ _ Hv), Hk. destruct k. cbn. by intros <-.
  - intros i r Hnot. rewrite elem_of_app, list_elem_of_singleton in Hnot.
    rewrite Hrest by (rewrite Hk; tauto). apply Hr. tauto.
  - intros k Hin. by rewrite Ho', Ho.
Qed.

Lemma wp_aggregate_daily cutoff (Q : Z → session → Prop) Ex s :
  integrity (work s) →
  let ms := older cutoff (work s) in
  let keys := remove_dups (MetricRepository.group_key <$> ms) in
  (∀ d' n, (ticks s ≤ n)%nat → archived ms keys (work s) d' → Q (Z.of_nat (length keys)) (Session d' (durable s) n)) →
  wp (MetricRepository.aggregate_daily cutoff) Q Ex s.
Proof.
  intros HI ms keys HQ. unfold MetricRepository.aggregate_daily.
  apply wp_bind, wp_select_where, wp_bind, (wp_map_obj TMetric).
  { intros i (m & Hm & _)%elem_of_matching. by exists m. }
  change (rows_of TMetric _ (work s)) with ms. fold keys.
  assert (∀ key, key ∈ keys → is_Some (rows (work s TServer) !! key.1)) as Hserver.
  { intros key (m & -> & (i & Hi & _)%elem_of_older)%elem_of_remove_dups%list_elem_of_fmap.
    apply (integrity_refs TMetric i m); [done..|]. apply list_elem_of_here. }
  apply (wp_fold_loop (λ rest written s', ∃ past d' n, past ++ rest = keys ∧ s' = Session d' (durable s) n ∧
    (ticks s ≤ n)%nat ∧ written = Z.of_nat (length past) ∧ archived ms past (work s) d')).
  - exists [], (work s), (ticks s). split_and!; [done|by destruct s|done|done|].
    split; [by intros key ?%elem_of_nil|done..].
  - intros [sid day] rest written s' (past & d' & n & Hsplit & -> & Hn & -> & Har).
    assert ((sid, day) ∉ past) as Hnew.
    { pose proof (NoDup_remove_dups (MetricRepository.group_key <$> ms)) as Hnd. fold keys in Hnd.
      rewrite <- Hsplit in Hnd. apply NoDup_app in Hnd as (_ & Hnd & _). intros Hin. apply (Hnd _ Hin). list_in. }
    apply wp_bind, (wp_upsert_daily (day_values ms (sid, day))); cbn [work durable].
    + apply Har.
    + rewrite (am_only _ _ _ _ Har TServer) by (by intros ?%list_elem_of_singleton).
      apply (Hserver (sid, day)). rewrite <- Hsplit. list_in.
    + intros d2 n2 Hn2 Hone. apply wp_ret. exists (past ++ [(sid, day)]), d2, n2.
      split_and!; [by rewrite <- app_assoc|done|simpl in *; lia|rewrite length_app; simpl; lia|by eapply archived_step].
  - intros written s' (past & d' & n & Hsplit & -> & Hn & -> & Har). rewrite app_nil_r in Hsplit. subst past.
    by apply HQ.
Qed.

(** ** The clean-up job *)

Lemma metric_free d i : referenced TMetric d i = false.
Proof. solve_unreferenced. Qed.

Lemma daily_free d i : referenced TMetricDaily d i = false.
Proof. solve_unreferenced. Qed.

(** What one run leaves: [cutoff] is the bound of the aggregation, [cutoff']
    that of the deletion, read from the clock later, and [first_day] the
    oldest day kept in the archive. *)
Record metrics_cleaned (cutoff cutoff' first_day : Z) (d d' : db) : Prop := {
  (** Exactly the metrics before [cutoff'] are gone; *)
  mc_kept : ∀ i m, metrics d' !! i = Some m ↔ metrics d !! i = Some m ∧ cutoff' <= MonitorServerMetric.collected_at m;
  (** of every day with metrics before [cutoff] these are in the archive, *)
  mc_archived : ∀ i m, metrics d !! i = Some m → MonitorServerMetric.collected_at m < cutoff →
    first_day <= py_date (MonitorServerMetric.collected_at m) →
    ∃ j r, dailies d' !! j = Some r ∧
      holds_values (day_values (older cutoff d) (MetricRepository.group_key m)) r;
  (** the other rows of the archive stay for as long as they are kept, *)
  mc_others : ∀ j r, (∀ i m, metrics d !! i = Some m → MonitorServerMetric.collected_at m < cutoff →
      MetricRepository.group_key m ≠ day_key r) →
    dailies d' !! j = Some r ↔ dailies d !! j = Some r ∧ first_day <= MonitorServerMetricDaily.metric_date r;
  mc_only : only_in [TMetric; TMetricDaily] d d';
  mc_integrity : integrity d'
}.

Lemma metrics_cleaned_intro cutoff cutoff' first_day d d1 :
  archived (older cutoff d) (remove_dups (MetricRepository.group_key <$> older cutoff d)) d d1 →
  let d2 := filter_rows TMetric (λ _ m, negb (MonitorServerMetric.collected_at m <? cutoff')) d1 in
  let d3 := filter_rows TMetricDaily (λ _ r, negb (MonitorServerMetricDaily.metric_date r <? first_day)) d2 in
  integrity d3 → metrics_cleaned cutoff cutoff' first_day d d3.
Proof.
  intros [Hg Hr Ho _] d2 d3 HI.
  assert (∀ i r, dailies d3 !! i = Some r ↔ dailies d1 !! i = Some r ∧ first_day <= MonitorServerMetricDaily.metric_date r) as Hd.
  { intros i r. unfold d3. rewrite rows_filter_rows. unfold d2. rewrite filter_rows_ne by done.
    rewrite map_lookup_filter_Some, negb_true_iff, Z.ltb_ge. done. }
  split; [..|done].
  - intros i m. unfold d3. rewrite filter_rows_ne by done. unfold d2.
    rewrite rows_filter_rows, (Ho TMetric) by (by intros ?%list_elem_of_singleton).
    rewrite map_lookup_filter_Some, negb_true_iff, Z.ltb_ge. done.
  - intros i m Hm Hlt Hday. destruct (Hg (MetricRepository.group_key m)) as (j & r & Hj & Hv).
    { apply elem_of_remove_dups, list_elem_of_fmap_2, elem_of_older. by exists i. }
    exists j, r. split; [|done]. apply Hd. split; [done|].
    apply holds_values_key in Hv. by injection Hv as _ ->.
  - intros j r Hno. rewrite Hd, Hr; [done|].
    intros (m & Hk & (i & Hi & Hlt)%elem_of_older)%elem_of_remove_dups%list_elem_of_fmap.
    by apply (Hno i m Hi Hlt).
  - intros k Hk. unfold d3, d2. rewrite !filter_rows_ne; [apply Ho| |]; set_solver.
Qed.

(** C38: a run of the metric clean-up never fails: it archives, for every day,
    the metrics older than the retention period at its start, deletes the
    metrics older than the retention period at the time of the deletion and
    the archive older than its own, and touches nothing else. *)
Theorem cleanup_old_metrics_spec (cfg : job_settings) (d : db) (n : nat) :
  integrity d →
  if METRIC_CLEANUP_ENABLED cfg then
    ∃ d' n' k k', (n < k < k')%nat ∧ run_job (_cleanup_old_metrics cfg) d n = (d', n') ∧
      metrics_cleaned (clock n - days (METRIC_RETENTION_DAYS cfg)) (clock k - days (METRIC_RETENTION_DAYS cfg))
        (py_date (clock k' - days (METRIC_AGG_RETENTION_DAYS cfg))) d d'
  else run_job (_cleanup_old_metrics cfg) d n = (d, n).
Proof.
  intros HI. unfold run_job, _cleanup_old_metrics. destruct (METRIC_CLEANUP_ENABLED cfg) eqn:Hen; [|done].
  assert (wp (_cleanup_old_metrics cfg) (λ _ s', ∃ k k', (n < k < k')%nat ∧
    metrics_cleaned (clock n - days (METRIC_RETENTION_DAYS cfg)) (clock k - days (METRIC_RETENTION_DAYS cfg))
        (py_date (clock k' - days (METRIC_AGG_RETENTION_DAYS cfg))) d (durable s')) no_exc (Session d d n)) as Hwp.
  - unfold _cleanup_old_metrics. rewrite Hen. unfold when. apply wp_bind, wp_utcnow. cbn [tick ticks].
    apply wp_bind, wp_aggregate_daily; [done|]. cbn [work durable tick ticks]. intros d1 k Hk Har.
    apply wp_bind. unfold MetricRepository.delete_older_than. apply wp_bind, wp_utcnow.
    apply (wp_delete_where_free TMetric); [exact metric_free|apply Har|]. cbn [work tick set_work ticks durable]. intros HI2.
    apply wp_bind. unfold MetricRepository.delete_daily_before. apply wp_bind, wp_utcnow.
    apply (wp_delete_where_free TMetricDaily); [exact daily_free|done|]. cbn [work tick set_work ticks durable]. intros HI3.
    apply wp_commit. exists k, (S k). split; [lia|by apply metrics_cleaned_intro].
  - destruct (run_total _ _ _ _ Hwp) as ([] & s' & Hrun & k & k' & Hk & Hc).
    unfold _cleanup_old_metrics in Hrun. rewrite Hen in Hrun. rewrite Hrun. by exists (durable s'), (ticks s'), k, k'.
Qed.

(** ** The status refresh *)

Definition refreshed (now : datetime) (sv : OpsServer) : OpsServer :=
  sv <| OpsServer.agent_status := ServerRepository.heartbeat_status now (OpsServer.last_heartbeat_at sv) |>.

Lemma wp_refresh_loop now ids d (Q : () → session → Prop) Ex s :
  work s = d → integrity d → NoDup ids → (∀ i, i ∈ ids → is_Some (servers d !! i)) →
  (∀ d', integrity d' → only_in [TServer] d d' →
     (∀ i, servers d' !! i = (if bool_decide (i ∈ ids) then refreshed now else id) <$> servers d !! i) →
     Q () (set_work d' s)) →
  wp (for_each (λ i, assign TServer i (refreshed now)) ids) Q Ex s.
Proof.
  intros Hw HI Hnd Hin HQ. unfold for_each.
  apply (wp_fold_loop (λ rest _ s', ∃ d' past, s' = set_work d' s ∧ past ++ rest = ids ∧ integrity d' ∧
    only_in [TServer] d d' ∧
    ∀ i, servers d' !! i = (if bool_decide (i ∈ past) then refreshed now else id) <$> servers d !! i)).
  - exists d, []. split_and!; [by subst; destruct s|done..|]. intros i. by rewrite option_fmap_id.
  - intros i rest [] s' (d' & past & -> & Hsplit & HI' & Ho & Hrows).
    assert (i ∉ past) as Hi.
    { intros Hx. rewrite <- Hsplit in Hnd. apply NoDup_app in Hnd as (_ & Hnd & _). apply (Hnd i Hx). list_in. }
    destruct (Hin i) as [sv Hsv]; [rewrite <- Hsplit; list_in|].
    assert (servers d' !! i = Some sv) as Hsv'.
    { pose proof (Hrows i) as Hx. cbn [row] in Hx, Hsv. rewrite Hsv, bool_decide_eq_false_2 in Hx by done. exact Hx. }
    apply (wp_assign_ok TServer i sv); [done..|]. intros HI2.
    exists (put_row TServer i (refreshed now sv) d'), (past ++ [i]). split_and!; [done|by rewrite <- app_assoc|done| |].
    + intros k Hk. rewrite put_row_ne; [by apply Ho|by apply only_ne].
    + intros j. rewrite rows_put_row. destruct (decide (i = j)) as [<-|Hne].
      * cbn [row] in *. rewrite lookup_insert_eq, Hsv, bool_decide_eq_true_2; [done|list_in].
      * rewrite lookup_insert_ne, Hrows by done. f_equal.
        by rewrite (bool_decide_ext (j ∈ past ++ [i]) (j ∈ past)) by set_solver.
  - intros [] s' (d' & past & -> & Hsplit & HI' & Ho & Hrows). rewrite app_nil_r in Hsplit. subst past.
    by apply HQ.
Qed.

(** The refresh sets the status of every active server by the age of its
    last heartbeat (online within 30 seconds, warning within 90, otherwise
    offline), all by the same reading of the clock; it never fails and changes
    no other column, server or table. *)
Theorem refresh_agent_statuses_spec (d : db) (n : nat) :
  integrity d →
  ∃ d', run_job _refresh_agent_statuses d n = (d', S n) ∧
    servers d' = (λ sv, if ServerRepository.enabled sv then refreshed (clock n) sv else sv) <$> servers d ∧
    only_in [TServer] d d' ∧ integrity d'.
Proof.
  intros HI.
  assert (wp _refresh_agent_statuses (λ _ s', ∃ d', s' = Session d' d' (S n) ∧
    servers d' = (λ sv, if ServerRepository.enabled sv then refreshed (clock n) sv else sv) <$> servers d ∧
    only_in [TServer] d d' ∧ integrity d') no_exc (Session d d n)) as Hwp.
  2: { destruct (run_total _ _ _ _ Hwp) as ([] & s' & Hrun & d' & -> & Hd). exists d'. unfold run_job. by rewrite Hrun. }
  unfold _refresh_agent_statuses, ServerRepository.refresh_agent_statuses.
  apply wp_bind, wp_bind, wp_utcnow, wp_bind, wp_get_work, wp_bind. cbn [work durable tick ticks].
  apply (wp_refresh_loop (clock n) _ d); [done|done|apply matching_nodup|..].
  { intros i (sv & Hsv & _)%elem_of_matching. by exists sv. }
  intros d' HI' Ho Hrows. apply wp_ret, wp_commit. exists d'. split_and!; [done| |done|done].
  apply map_eq. intros i. rewrite lookup_fmap. etransitivity; [apply Hrows|]. cbn [row]. destruct (servers d !! i) as [sv|] eqn:Hsv; cbn [row] in Hsv; rewrite Hsv; [|done]. simpl. f_equal.
  case_bool_decide as Hm.
  - apply elem_of_matching in Hm as (sv' & Hsv' & Hen). pose proof (same_row TServer Hsv Hsv') as <-. by rewrite Hen.
  - destruct (ServerRepository.enabled sv) eqn:Hen; [|done]. destruct Hm. apply elem_of_matching. by exists sv.
Qed.
End Props.

(** ** Instances *)

#[local] Instance no_cron : Cron := λ _ _, None.

Definition at_time (at_ : datetime) (cpu : Q) : MonitorServerMetric :=
  MonitorServerMetric.Mk 0 1 at_ (Some cpu) None None None None None None None None None None 0.

(** The sample clock shows 2023-11-14 22:13:20 at its first reading, so that
    the first retention bound falls on the evening of the 7th; two metrics of
    that day, one before the bound and one after it. *)
Definition archive_db : db :=
  (run (_ ← create TMetric (at_time (seconds 1699380000) (10 # 1)%Q);
        _ ← create TMetric (at_time (seconds 1699398000) (50 # 1)%Q);
        commit) agent_db 0).1.2.

Lemma archive_integrity : integrity archive_db.
Proof.
  apply (sound_run (_ ← create TMetric (at_time (seconds 1699380000) (10 # 1)%Q);
        _ ← create TMetric (at_time (seconds 1699398000) (50 # 1)%Q);
        commit) agent_db 0); [apply _|exact agent_integrity].
Qed.

(** The archive after a run at the given reading of the clock: day, samples
    and average. *)
Definition archive_of (d : db) : list (Z * Z * option Q) :=
  (λ '(_, r), (MonitorServerMetricDaily.metric_date r, MonitorServerMetricDaily.sample_count r,
               MonitorServerMetricDaily.cpu_usage_avg r)) <$> map_to_list (dailies d).

(** A run archives the part of the day that is old enough; the run of the next
    day archives the rest and overwrites the first part, which is deleted by
    then: of the two samples of the day one is left. *)
Example archive_overwritten :
  let day1 := (run_job (_cleanup_old_metrics default_job_settings) archive_db 0).1 in
  let day2 := (run_job (_cleanup_old_metrics default_job_settings) day1 (Z.to_nat 86400)).1 in
  archive_of day1 = [(19668, 1, Some (10 # 1)%Q)] ∧ archive_of day2 = [(19668, 1, Some (50 # 1)%Q)] ∧
  map_to_list (metrics day2) = [].
Proof. vm_compute. done. Qed.

(** The bound of the deletion is read later than that of the aggregation: a
    metric between the two is deleted without being archived. *)
Example archive_gap :
  let d := (run (_ ← create TMetric (at_time (seconds 1699395200) (10 # 1)%Q); commit) agent_db 0).1.2 in
  let d' := (run_job (_cleanup_old_metrics default_job_settings) d 0).1 in
  archive_of d' = [] ∧ map_to_list (metrics d') = [].
Proof. vm_compute. done. Qed.

(** The two clean-up jobs are added paused. *)
Example paused_jobs :
  (@job_id <$> filter (λ j, added_paused j = true) (job_table default_job_settings))
  = ["cleanup_old_metrics"; "cleanup_old_task_executions"].
Proof. reflexivity. Qed.

#[local] Opaque archive_db.

Lemma cleanup_old_metrics_spec_witness :
  ∃ d' n' k k', (0 < k < k')%nat ∧
    run_job (_cleanup_old_metrics default_job_settings) archive_db 0 = (d', n') ∧
    metrics_cleaned (seconds 1700000000 - days 7) (clock k - days 7) (py_date (clock k' - days 180)) archive_db d'.
Proof. exact (cleanup_old_metrics_spec default_job_settings archive_db 0 archive_integrity). Defined.

Lemma refresh_agent_statuses_spec_witness :
  ∃ d', run_job _refresh_agent_statuses archive_db 0 = (d', 1%nat) ∧ only_in [TServer] archive_db d'.
Proof.
  destruct (refresh_agent_statuses_spec archive_db 0 archive_integrity) as (d' & Hrun & _ & Ho & _).
  exists d'. exact (conj Hrun Ho).
Defined.
