(* ===== verification/AgentProps.v ===== *)
(** * What agent authentication guarantees

    Which signed requests are accepted, that the signed text binds the request,
    and when a repeated request is refused. *)
From S2P Require Import Prelude.
From S2P Require Export AgentAuth.
From S2P Require Import Samples.

Lemma lacks_newline_upper s : lacks (byte 10) s = true → lacks (byte 10) (py_upper s) = true.
Proof.
  induction s as [|a s IH]; simpl; [done|]. intros [Ha Hs]%andb_true_iff. rewrite (IH Hs), andb_true_r.
  destruct a as [[] [] [] [] [] [] [] []]; (done || exact Ha).
Qed.

(** C28: the signed string determines the method (up to case), the path, the
    timestamp, the request id and the digest of the body, whatever signed
    strings an attacker can choose headers for: headers hold no newline. *)
Theorem canonical_string_binds (m m' p p' t t' r r' b b' : string) :
  lacks (byte 10) m = true → lacks (byte 10) m' = true →
  lacks (byte 10) p = true → lacks (byte 10) p' = true →
  lacks (byte 10) t = true → lacks (byte 10) t' = true →
  lacks (byte 10) r = true → lacks (byte 10) r' = true →
  canonical_string m p t r b = canonical_string m' p' t' r' b' →
  py_upper m = py_upper m' ∧ p = p' ∧ t = t' ∧ r = r' ∧ body_sha256 b = body_sha256 b'.
Proof.
  intros Hm%lacks_newline_upper Hm'%lacks_newline_upper Hp Hp' Ht Ht' Hr Hr'.
  unfold canonical_string, newline. intros H1.
  apply split_at in H1 as [-> H2]; [|done..]. apply split_at in H2 as [-> H3]; [|done..].
  apply split_at in H3 as [-> H4]; [|done..]. by apply split_at in H4 as [-> H5]; [|done..].
Qed.

Section Verification.
Context `{!Ed25519} `{R : Redis} `{!RedisOk R}.

(** A request that carries a valid signature of the token's key for this
    server, made at an acceptable time. *)
Record signed (cfg : settings) (req : request) (t : OpsAgentToken) (sv : OpsServer)
    (h : signature_headers) (time : Z) (request_id : string) (ts : Z) : Prop := {
  signed_agent : x_agent_id h = Some (OpsServer.server_code sv);
  signed_id : x_request_id h = Some request_id;
  signed_time : ∃ timestamp, x_timestamp h = Some timestamp ∧ py_int_of timestamp = Some ts ∧
    Z.abs (int_time time - ts) ≤ AGENT_SIGNATURE_MAX_SKEW cfg ∧
    ∃ signature key, x_signature h = Some signature ∧ OpsAgentToken.signing_public_key t = Some key ∧
      key ≠ EmptyString ∧
      verify_signature key signature
        (canonical_string (method req) (path req) timestamp request_id (body req)) = true
}.

(** When a required signature is accepted. *)
Lemma verify_ok_iff (cfg : settings) (req : request) (t : OpsAgentToken) (sv : OpsServer)
    (h : signature_headers) (o : outside) :
  AGENT_REQUIRE_SIGNATURE cfg = true →
  (_verify_agent_signature cfg req t sv h o).2 = Ok () ↔
  ∃ request_id ts, signed cfg req t sv h (wall o) request_id ts ∧
    (is_replayed (OpsServer.id sv) request_id (AGENT_SIGNATURE_MAX_SKEW cfg * 2)
       (cache o) (cache_time o) (cache_fault o)).2 = Some false.
Proof.
  intros Hreq. unfold _verify_agent_signature. rewrite Hreq. split.
  - destruct (x_agent_id h) as [agent|] eqn:Ha; [|done].
    destruct (x_timestamp h) as [timestamp|] eqn:Ht; [|done].
    destruct (x_request_id h) as [rid|] eqn:Hr; [|done].
    destruct (x_signature h) as [signature|] eqn:Hs; [|done].
    destruct (String.eqb_spec agent (OpsServer.server_code sv)) as [->|]; [simpl|done].
    destruct (py_int_of timestamp) as [ts|] eqn:Hts; [|done].
    destruct (Z.ltb_spec (AGENT_SIGNATURE_MAX_SKEW cfg) (Z.abs (int_time (wall o) - ts))); [done|].
    destruct (OpsAgentToken.signing_public_key t) as [key|] eqn:Hk; [|done].
    unfold py_truthy. destruct (String.eqb_spec key EmptyString) as [|Hne]; [done|]. simpl.
    destruct (verify_signature key signature _) eqn:Hv; [simpl|done].
    destruct (is_replayed _ _ _ _ _ _) as [c [[|]|]] eqn:Hrep; [done| |done].
    intros _. exists rid, ts. split; [|by rewrite Hrep]. split; [done|done|].
    exists timestamp. split_and!; [done..|]. by exists signature, key.
  - intros (rid & ts & [-> -> (timestamp & -> & -> & Hskew & signature & key & -> & -> & Hne & Hv)] & Hrep).
    rewrite String.eqb_refl. simpl. rewrite (proj2 (Z.ltb_ge _ _) Hskew).
    rewrite (proj2 (String.eqb_neq _ _) Hne). simpl. rewrite Hv. simpl.
    destruct (is_replayed _ _ _ _ _ _) as [c r]. simpl in Hrep. by subst r.
Qed.

(** C11: when signatures are required, a request is accepted exactly if all four
    headers are present, the agent id is the server's code, the timestamp is
    an integer within the permitted skew, the token has a key, the signature
    verifies under it, and Redis has answered that the request id is new. *)
Theorem verify_required_iff (cfg : settings) (req : request) (t : OpsAgentToken) (sv : OpsServer)
    (h : signature_headers) (o : outside) :
  AGENT_REQUIRE_SIGNATURE cfg = true →
  (_verify_agent_signature cfg req t sv h o).2 = Ok () ↔
  ∃ request_id ts, signed cfg req t sv h (wall o) request_id ts ∧
    (is_replayed (OpsServer.id sv) request_id (AGENT_SIGNATURE_MAX_SKEW cfg * 2)
       (cache o) (cache_time o) (cache_fault o)).2 = Some false.
Proof. apply verify_ok_iff. Qed.

(** The cache once a request id has been accepted. *)
Lemma is_replayed_first server_id rid ttl s t f s' :
  is_replayed server_id rid ttl s t f = (s', Some false) →
  0 < ttl ∧ s' = rset s t (replay_key server_id rid) "1" (ttl * 1000).
Proof.
  unfold is_replayed, set_nx. destruct (Z.leb_spec ttl 0); [done|]. destruct f; [|done..].
  destruct (rget s t _); [done|]. by intros [= <-].
Qed.

Lemma verify_cache cfg req t sv h o request_id ts :
  AGENT_REQUIRE_SIGNATURE cfg = true →
  signed cfg req t sv h (wall o) request_id ts →
  (_verify_agent_signature cfg req t sv h o).1 =
  (is_replayed (OpsServer.id sv) request_id (AGENT_SIGNATURE_MAX_SKEW cfg * 2)
    (cache o) (cache_time o) (cache_fault o)).1.
Proof.
  intros Hreq [H1 H2 (timestamp & H3 & H4 & Hskew & signature & key & H5 & H6 & Hne & Hv)].
  unfold _verify_agent_signature. rewrite H1, H2, H3, H4, H5, H6, Hreq, String.eqb_refl. simpl.
  rewrite (proj2 (Z.ltb_ge _ _) Hskew), (proj2 (String.eqb_neq _ _) Hne). simpl. rewrite Hv. simpl.
  by destruct (is_replayed _ _ _ _ _ _) as [c [[|]|]].
Qed.

(** C10: with required signatures, once a request has been accepted no request of
    the same server with its request id is accepted while the cache entry
    lives, which is twice the permitted skew, as long as nobody else writes
    the entry.  If the clocks agree, the same timestamp and id are accepted
    again only if the first request arrived in the first second and the
    second one in the last second of the timestamp's window. *)
Theorem replay_refused (cfg : settings) (req req' : request) (t t' : OpsAgentToken) (sv : OpsServer)
    (h h' : signature_headers) (o o' : outside) (rid timestamp : string) (ts : Z) :
  AGENT_REQUIRE_SIGNATURE cfg = true →
  x_request_id h = Some rid → x_request_id h' = Some rid →
  (_verify_agent_signature cfg req t sv h o).2 = Ok () →
  cache_time o ≤ cache_time o' →
  rget (cache o') (cache_time o') (replay_key (OpsServer.id sv) rid) =
  rget (_verify_agent_signature cfg req t sv h o).1 (cache_time o') (replay_key (OpsServer.id sv) rid) →
  (cache_time o' < cache_time o + AGENT_SIGNATURE_MAX_SKEW cfg * 2 * 1000 →
   (_verify_agent_signature cfg req' t' sv h' o').2 ≠ Ok ()) ∧
  (x_timestamp h = Some timestamp → x_timestamp h' = Some timestamp → py_int_of timestamp = Some ts →
   wall o = cache_time o * 1000 → wall o' = cache_time o' * 1000 →
   (_verify_agent_signature cfg req' t' sv h' o').2 = Ok () →
   int_time (wall o) = ts - AGENT_SIGNATURE_MAX_SKEW cfg ∧
   int_time (wall o') = ts + AGENT_SIGNATURE_MAX_SKEW cfg).
Proof.
  intros Hreq Hr Hr' Hok Hle Hcache.
  assert (cache_time o' < cache_time o + AGENT_SIGNATURE_MAX_SKEW cfg * 2 * 1000 →
          (_verify_agent_signature cfg req' t' sv h' o').2 ≠ Ok ()) as Hwindow.
  { intros Hlt (rid2 & ts2 & Hs2 & Hrep2)%verify_ok_iff; [|done].
    pose proof Hok as (rid1 & ts1 & Hs1 & Hrep1)%verify_ok_iff; [|done].
    assert (rid1 = rid) as -> by (pose proof (signed_id _ _ _ _ _ _ _ _ Hs1); congruence).
    assert (rid2 = rid) as -> by (pose proof (signed_id _ _ _ _ _ _ _ _ Hs2); congruence).
    rewrite (verify_cache cfg req t sv h o rid ts1 Hreq Hs1) in Hcache.
    destruct (is_replayed _ rid _ (cache o) _ _) as [c r] eqn:Hfirst. simpl in *. subst r.
    apply is_replayed_first in Hfirst as [Hpos ->].
    rewrite rget_rset, String.eqb_refl, (proj2 (Z.ltb_lt _ _) Hlt) in Hcache by done.
    revert Hrep2. unfold is_replayed, set_nx. destruct (Z.leb_spec (AGENT_SIGNATURE_MAX_SKEW cfg * 2) 0); [done|].
    rewrite Hcache. by destruct (cache_fault o'). }
  split; [done|]. intros Ht Ht' Hts Hw Hw' Hok'.
  pose proof Hok as (rid1 & ts1 & [_ _ (tm1 & H1 & H1' & Hskew1 & _)] & _)%verify_ok_iff; [|done].
  pose proof Hok' as (rid2 & ts2 & [_ _ (tm2 & H2 & H2' & Hskew2 & _)] & _)%verify_ok_iff; [|done].
  assert (ts1 = ts) as -> by congruence. assert (ts2 = ts) as -> by congruence.
  assert (¬ cache_time o' < cache_time o + AGENT_SIGNATURE_MAX_SKEW cfg * 2 * 1000) as Hlate.
  { intros Hlt. by apply Hwindow. }
  unfold int_time in *. rewrite Hw, Hw' in *.
  pose proof (Z.div_mod (cache_time o * 1000) 1000000 ltac:(done)) as Hd1.
  pose proof (Z.mod_pos_bound (cache_time o * 1000) 1000000 ltac:(done)).
  pose proof (Z.div_mod (cache_time o' * 1000) 1000000 ltac:(done)) as Hd2.
  pose proof (Z.mod_pos_bound (cache_time o' * 1000) 1000000 ltac:(done)). lia.
Qed.
End Verification.

(** ** Instances *)

Definition toy_config : settings := Settings true 300.
Definition toy_request : request := Request "POST" "/api/v1/agent/heartbeat" "{}".
Definition toy_token : OpsAgentToken :=
  OpsAgentToken.Mk 1 1 "default" "abcdefgh" "hash" (Some "aGVsbG8=") (Some "ed25519") None 1 None None 0 None.
Definition toy_server : OpsServer := sample_server "web-1" "10.0.0.1".
Definition toy_headers : signature_headers :=
  Headers (Some "web-1") (Some "1700000000") (Some "r1") (Some "aGVsbG8=").
(** The first request arrives at the beginning of the window, the second in
    its last second. *)
Definition toy_first : outside := Outside 1699999700000000 (∅ : @rstate map_redis) 1699999700000 NoFault.
Definition toy_cache : @rstate map_redis :=
  (_verify_agent_signature toy_config toy_request toy_token toy_server toy_headers toy_first).1.
Definition toy_soon : outside := Outside 1699999701000000 toy_cache 1699999701000 NoFault.
Definition toy_last : outside := Outside 1700000300000000 toy_cache 1700000300000 NoFault.

Lemma canonical_string_binds_witness :
  py_upper "post" = py_upper "POST" ∧ "/a" = "/a" ∧ "17" = "17" ∧ "r1" = "r1" ∧ body_sha256 "{}" = body_sha256 "{}".
Proof.
  exact (canonical_string_binds "post" "POST" "/a" "/a" "17" "17" "r1" "r1" "{}" "{}"
    eq_refl eq_refl eq_refl eq_refl eq_refl eq_refl eq_refl eq_refl eq_refl).
Defined.

Lemma verify_required_iff_witness :
  ∃ request_id ts, signed toy_config toy_request toy_token toy_server toy_headers (wall toy_first) request_id ts.
Proof.
  destruct (proj1 (verify_required_iff toy_config toy_request toy_token toy_server toy_headers toy_first eq_refl))
    as (rid & ts & Hs & _); [vm_compute; reflexivity|].
  exists rid, ts. exact Hs.
Defined.

(** A replay within the window is refused; one in its last second is not. *)
Lemma replay_refused_witness :
  (_verify_agent_signature toy_config toy_request toy_token toy_server toy_headers toy_soon).2 ≠ Ok () ∧
  (_verify_agent_signature toy_config toy_request toy_token toy_server toy_headers toy_last).2 = Ok () ∧
  int_time (wall toy_first) = 1700000000 - 300.
Proof.
  assert ((_verify_agent_signature toy_config toy_request toy_token toy_server toy_headers toy_first).2 = Ok ())
    as H1 by (vm_compute; reflexivity).
  assert ((_verify_agent_signature toy_config toy_request toy_token toy_server toy_headers toy_last).2 = Ok ())
    as H2 by (vm_compute; reflexivity).
  split; [|split; [exact H2|]].
  - apply (replay_refused toy_config toy_request toy_request toy_token toy_token toy_server toy_headers toy_headers
      toy_first toy_soon "r1" "1700000000" 1700000000 eq_refl eq_refl eq_refl H1); [by vm_compute|reflexivity|by vm_compute].
  - apply (proj2 (replay_refused toy_config toy_request toy_request toy_token toy_token toy_server toy_headers toy_headers
      toy_first toy_last "r1" "1700000000" 1700000000 eq_refl eq_refl eq_refl H1 ltac:(by vm_compute) eq_refl));
      [vm_compute; reflexivity..|exact H2].
Defined.
