(* ===== verification/AgentSigner.v ===== *)
(** * The agent's request signer (agent/signer.py)

    The agent keeps an Ed25519 key in a file and signs every request with it.
    The server's check is [AgentAuth._verify_agent_signature]; that the two
    fit together is [signed_request_accepted]. *)
From S2P Require Import Prelude.
From S2P Require Export PyBase64 AgentProps.
From S2P Require Import Samples.

(** The private keys of the scheme that [Ed25519] verifies: generation, the
    raw public key, signing, and the PEM form in which a key is stored. *)
Class Ed25519Keys `{Ed25519} := {
  private_key : Type;
  generate : nat → private_key;
  public_bytes : private_key → string;
  sign : private_key → string → string;
  pem_encode : private_key → string;
  (** [load_pem_private_key]: [None] is the [ValueError] for bytes that are not
      the PEM of an Ed25519 key. *)
  pem_decode : string → option private_key
}.

Class Ed25519KeysOk `(K : Ed25519Keys) : Prop := {
  public_bytes_valid : ∀ k, valid_key (public_bytes k) = true;
  public_bytes_nonempty : ∀ k, public_bytes k ≠ EmptyString;
  sign_verifies : ∀ k m, verify (public_bytes k) (sign k m) m = true;
  pem_roundtrip : ∀ k, pem_decode (pem_encode k) = Some k
}.

(** [uuid.uuid4().hex], by the number of the call. *)
Class Uuids := uuid4_hex : nat → string.

Section Signer.
Context `{K : Ed25519Keys} `{!Uuids}.

Record AgentSigner := Signer { _private_key : private_key; _server_code : string; key_path : string }.

Definition public_key_b64 (signer : AgentSigner) : string := b64encode (public_bytes (_private_key signer)).

(** [AgentSigner.sign_headers] at time [now], with the [n]-th request id. *)
Definition sign_headers (signer : AgentSigner) (method path body : string) (now : datetime) (n : nat)
    : signature_headers :=
  let timestamp := py_str (int_time now) in
  let request_id := uuid4_hex n in
  let canonical := py_upper method +:+ newline +:+ path +:+ newline +:+ timestamp +:+ newline
                     +:+ request_id +:+ newline +:+ sha256_hex body in
  Headers (Some (_server_code signer)) (Some timestamp) (Some request_id)
    (Some (b64encode (sign (_private_key signer) canonical))).

(** [load_or_create_signer] on the files of the machine; [k] numbers the key
    that is generated if there is no file. *)
Definition load_or_create_signer (files : gmap string string) (key_file server_code : string) (k : nat)
    : gmap string string * option AgentSigner :=
  match files !! key_file with
  | Some bytes => (files, (λ key, Signer key server_code key_file) <$> pem_decode bytes)
  | None =>
    let key := generate k in
    (<[key_file := pem_encode key]> files, Some (Signer key server_code key_file))
  end.

Context `{!Ed25519KeysOk K}.

Lemma verify_own_signature (k : private_key) (m : string) :
  verify_signature (b64encode (public_bytes k)) (b64encode (sign k m)) m = true.
Proof. unfold verify_signature. by rewrite !b64_roundtrip, public_bytes_valid, sign_verifies. Qed.

(** The key the agent reports at registration passes the server's check. *)
Lemma public_key_accepted (signer : AgentSigner) : is_valid_public_key (public_key_b64 signer) = true.
Proof. unfold is_valid_public_key, public_key_b64. by rewrite b64_roundtrip, public_bytes_valid. Qed.

(** The agent survives restarts: once [load_or_create_signer] has returned a
    signer, every later call with the file untouched returns the same key and
    writes nothing. *)
Lemma signer_persistent (files files' : gmap string string) (key_file code : string) (k k' : nat) signer :
  load_or_create_signer files key_file code k = (files', Some signer) →
  load_or_create_signer files' key_file code k' = (files', Some signer).
Proof.
  unfold load_or_create_signer. destruct (files !! key_file) as [bytes|] eqn:Hf.
  - intros [= <- Hs]. by rewrite Hf, Hs.
  - intros [= <- <-]. by rewrite lookup_insert_eq, pem_roundtrip.
Qed.

Context `{R : Redis} `{!RedisOk R}.

(** The headers of a request, checked by the server that has the agent's key:
    the outcome is decided by the clocks and the replay cache alone. *)
Lemma verify_signed (cfg : settings) (signer : AgentSigner) (req : request) (t : OpsAgentToken)
    (sv : OpsServer) (o : outside) (now : datetime) (n : nat) :
  OpsServer.server_code sv = _server_code signer →
  OpsAgentToken.signing_public_key t = Some (public_key_b64 signer) →
  0 ≤ int_time now < 2 ^ 64 →
  _verify_agent_signature cfg req t sv (sign_headers signer (method req) (path req) (body req) now n) o =
  if AGENT_SIGNATURE_MAX_SKEW cfg <? Z.abs (int_time (wall o) - int_time now)
  then (cache o, unauthorized AGENT_TIMESTAMP_INVALID "时间戳超出允许范围") else
  let '(cache', replayed) := is_replayed (OpsServer.id sv) (uuid4_hex n) (AGENT_SIGNATURE_MAX_SKEW cfg * 2)
                               (cache o) (cache_time o) (cache_fault o) in
  match replayed with
  | Some true => (cache', unauthorized AGENT_REQUEST_REPLAYED "请求已重放")
  | Some false => (cache', Ok ())
  | None => if AGENT_REQUIRE_SIGNATURE cfg
            then (cache', Raise (AppException AGENT_SIGNATURE_INVALID "重放校验服务不可用" 503))
            else (cache', Ok ())
  end.
Proof.
  intros Hcode Hkey Hnow. unfold _verify_agent_signature, sign_headers.
  cbn [x_agent_id x_timestamp x_request_id x_signature].
  rewrite Hcode, String.eqb_refl, Hkey, py_int_of_str by done. cbn [negb].
  destruct (AGENT_SIGNATURE_MAX_SKEW cfg <? _); [done|].
  assert (py_truthy (Some (public_key_b64 signer)) = true) as ->.
  { simpl. destruct (String.eqb_spec (public_key_b64 signer) ""); [|done].
    by apply b64encode_empty, public_bytes_nonempty in e. }
  cbn [negb default]. unfold canonical_string, body_sha256, public_key_b64. simpl.
  by rewrite verify_own_signature.
Qed.

(** C12: a request signed by the agent is accepted by the server that has the
    agent's key, whatever its method, path and body, if the clocks differ by
    at most the permitted skew and the request id is new to the cache: signer
    and verifier agree on the canonical string and on every encoding. *)
Theorem signed_request_accepted (cfg : settings) (signer : AgentSigner) (req : request) (t : OpsAgentToken)
    (sv : OpsServer) (o : outside) (now : datetime) (n : nat) :
  OpsServer.server_code sv = _server_code signer →
  OpsAgentToken.signing_public_key t = Some (public_key_b64 signer) →
  0 ≤ int_time now < 2 ^ 64 → 0 < AGENT_SIGNATURE_MAX_SKEW cfg →
  Z.abs (int_time (wall o) - int_time now) ≤ AGENT_SIGNATURE_MAX_SKEW cfg →
  cache_fault o = NoFault →
  rget (cache o) (cache_time o) (replay_key (OpsServer.id sv) (uuid4_hex n)) = None →
  (_verify_agent_signature cfg req t sv (sign_headers signer (method req) (path req) (body req) now n) o).2 = Ok ().
Proof.
  intros Hcode Hkey Hnow Hpos Hskew Hf Hnew. rewrite verify_signed, (proj2 (Z.ltb_ge _ _) Hskew) by done.
  unfold is_replayed, set_nx. rewrite Hf, Hnew.
  by destruct (Z.leb_spec (AGENT_SIGNATURE_MAX_SKEW cfg * 2) 0); [lia|].
Qed.
End Signer.
Arguments AgentSigner {_ _}.

(** ** Instances *)

(** The toy scheme has one key; its PEM is the name of the scheme. *)
#[export] Instance toy_keys : Ed25519Keys := {|
  private_key := unit;
  generate _ := ();
  public_bytes _ := "hello";
  sign _ _ := "hello";
  pem_encode _ := "toy";
  pem_decode s := if String.eqb s "toy" then Some () else None
|}.

#[export] Instance toy_keys_ok : Ed25519KeysOk toy_keys.
Proof. split; [done|done|done|by intros []]. Qed.

#[export] Instance toy_uuids : Uuids := λ n, py_str (Z.of_nat n).

Definition toy_signer : AgentSigner := Signer () "web-1" "agent_ed25519.key".

Lemma signed_request_accepted_witness :
  (_verify_agent_signature toy_config toy_request toy_token toy_server
     (sign_headers toy_signer "POST" "/api/v1/agent/heartbeat" "{}" 1699999700000000 0) toy_first).2 = Ok ().
Proof.
  apply (signed_request_accepted toy_config toy_signer toy_request toy_token toy_server toy_first 1699999700000000 0);
    [reflexivity|vm_compute; reflexivity|split; by vm_compute|by vm_compute|by vm_compute|reflexivity|vm_compute; reflexivity].
Defined.
