(* ===== verification/AgentClient.v ===== *)
(** * The agent's HTTP client (agent/reporter/client.py, agent/reporter/report.py)

    One request with its retries: the loop of [AgentClient._request], the JSON
    it sends and reads, and the payloads of the reports.  The network and the
    server behind it are a transport with a state of its own; [httpx] and the
    random numbers of the jitter are parameters. *)
From Stdlib Require Import QArith.
From S2P Require Import Prelude.
From S2P Require Export PyFloat AgentSigner.

(** ** JSON *)

(** A value of the [json] module; a dict has distinct keys, in insertion order. *)
Inductive json :=
  | JNull
  | JBool (b : bool)
  | JInt (n : Z)
  | JFloat (x : Q)
  | JStr (s : string)
  | JList (l : list json)
  | JDict (l : list (string * json)).

Fixpoint dict_get (key : string) (l : list (string * json)) : option json :=
  match l with
  | [] => None
  | (k, v) :: l' => if String.eqb k key then Some v else dict_get key l'
  end.

(** [{**l, key: v}]. *)
Fixpoint dict_set (l : list (string * json)) (key : string) (v : json) : list (string * json) :=
  match l with
  | [] => [(key, v)]
  | (k, w) :: l' => if String.eqb k key then (key, v) :: l' else (k, w) :: dict_set l' key v
  end.

(** [{**l, **m}]. *)
Definition dict_merge (l m : list (string * json)) : list (string * json) :=
  foldl (λ acc p, dict_set acc p.1 p.2) l m.

Definition quote : string := String (byte 34) EmptyString.
Definition backslash : string := String (byte 92) EmptyString.

(** One character of a string, as [json.dumps(..., ensure_ascii=False)] writes it. *)
Definition json_escape (a : Ascii.ascii) : string :=
  let n := Ascii.N_of_ascii a in
  if (n =? 34)%N then backslash +:+ quote
  else if (n =? 92)%N then backslash +:+ backslash
  else if (n =? 10)%N then backslash +:+ "n"
  else if (n =? 13)%N then backslash +:+ "r"
  else if (n =? 9)%N then backslash +:+ "t"
  else if (n =? 12)%N then backslash +:+ "f"
  else if (n =? 8)%N then backslash +:+ "b"
  else if (n <? 32)%N then backslash +:+ "u00" +:+ String (hex_digit (Z.of_N (n / 16))) (String (hex_digit (Z.of_N (n mod 16))) EmptyString)
  else String a EmptyString.

Fixpoint json_chars (s : string) : string :=
  match s with EmptyString => EmptyString | String a s' => json_escape a +:+ json_chars s' end.

Definition json_string (s : string) : string := quote +:+ json_chars s +:+ quote.

(** [json.dumps(v, separators=(",", ":"), ensure_ascii=False)]. *)
Fixpoint json_dumps (v : json) : string :=
  match v with
  | JNull => "null"
  | JBool b => if b then "true" else "false"
  | JInt n => py_str n
  | JFloat x => float_repr x
  | JStr s => json_string s
  | JList l => "[" +:+ String.concat "," (json_dumps <$> l) +:+ "]"
  | JDict l => "{" +:+ String.concat "," ((λ p, json_string p.1 +:+ ":" +:+ json_dumps p.2) <$> l) +:+ "}"
  end.

Example dumps_example :
  json_dumps (JDict [("a", JInt 1); ("b", JList [JNull; JBool true]); ("c", JStr ("x" +:+ newline))]) =
  "{" +:+ json_string "a" +:+ ":1," +:+ json_string "b" +:+ ":[null,true]," +:+ json_string "c" +:+ ":" +:+
  quote +:+ "x" +:+ backslash +:+ "n" +:+ quote +:+ "}".
Proof. vm_compute. reflexivity. Qed.

(** ** Requests and replies *)

(** [content=...] are the bytes of the body, [json=...] leaves the encoding to
    [httpx]. *)
Inductive http_body := NoBody | Content (bytes : string) | Json (v : json).

Record http_request := HttpRequest {
  http_authorization : string;
  http_method : string;
  http_path : string;
  http_content : http_body;
  (** [None]: the client does not sign. *)
  signed_headers : option signature_headers
}.

(** What comes back: [httpx.HTTPError] or a body that is not JSON; or a status
    and a payload. *)
Inductive reply :=
  | Unusable
  | Answer (status : Z) (payload : json).

(** What [_request] raises: [ReporterError] with its three messages, or what
    indexing a payload that is not a dict raises. *)
Inductive client_error :=
  | RetriesExhausted (path : string)
  | BackoffExhausted (path : string)
  | BadStatus (path : string) (status : Z) (message : json)
  | PayloadAttributeError
  | PayloadTypeError.

Definition result (A : Type) : Type := A + client_error.

(** [payload.get("message", "unknown error")] and [payload["data"]] if there is one. *)
Definition read_reply (path : string) (status : Z) (payload : json) : result json :=
  if 400 <=? status then
    match payload with
    | JDict l => inr (BadStatus path status (default (JStr "unknown error") (dict_get "message" l)))
    | _ => inr PayloadAttributeError
    end
  else
    match payload with
    | JDict l => inl (default payload (dict_get "data" l))
    | JList l => if existsb (λ v, match v with JStr s => String.eqb s "data" | _ => false end) l
                 then inr PayloadTypeError else inl payload
    | JStr s => if py_contains "data" s then inr PayloadTypeError else inl payload
    | JNull | JBool _ | JInt _ | JFloat _ => inr PayloadTypeError
    end.

(** ** The client *)

Record AgentClient `{K : Ed25519Keys} := Client {
  (** The [Authorization] header of the underlying [httpx.Client]. *)
  _authorization : string;
  _retry_max_seconds : Z;
  _retry_max_count : Z;
  _retry_jitter : bool;
  _signer : option AgentSigner
}.
Arguments Client {_ _}.

Section Client.
Context `{K : Ed25519Keys} `{!Uuids}.
(** [random.random()], by the number of the draw: a float in [[0, 1)]. *)
Context (random : nat → Q).
(** The transport. *)
Context {T : Type} (send : http_request → T → T * reply).
Context (client : AgentClient).

Definition signing_public_key : option string := public_key_b64 <$> _signer client.

(** The pause after a failure, [draw] counting the random numbers so far. *)
Definition sleep_for (delay : Q) (draw : nat) : Q :=
  let pause := if _retry_jitter client then fl (delay * fl ((1 # 2) + random draw)) else delay in
  if Qlt_bool (inject_Z (_retry_max_seconds client)) pause then inject_Z (_retry_max_seconds client) else pause.

Definition next_delay (delay : Q) : Q :=
  if Qlt_bool (inject_Z (_retry_max_seconds client)) (fl (delay * 2))
  then inject_Z (_retry_max_seconds client) else fl (delay * 2).

(** The [while True] loop: its state is [delay] and [attempt]; the pauses slept
    are collected.  [None]: out of fuel. *)
Fixpoint request_loop (fuel : nat) (req : http_request) (delay : Q) (attempt : Z) (pauses : list Q) (st : T)
    : option (T * list Q * result json) :=
  match fuel with
  | O => None
  | S fuel' =>
    match send req st with
    | (st', Answer status payload) => Some (st', pauses, read_reply (http_path req) status payload)
    | (st', Unusable) =>
      let attempt := attempt + 1 in
      if _retry_max_count client <? attempt
      then Some (st', pauses, inr (RetriesExhausted (http_path req)))
      else if Qle_bool (inject_Z (_retry_max_seconds client)) delay
      then Some (st', pauses, inr (BackoffExhausted (http_path req)))
      else request_loop fuel' req (next_delay delay) attempt (pauses ++ [sleep_for delay (length pauses)]) st'
    end
  end.

(** The request as it goes out, signed once at time [now] with the [n]-th
    request id. *)
Definition make_request (method path : string) (payload : option json) (now : datetime) (n : nat) : http_request :=
  match _signer client with
  | Some signer =>
    let body := default EmptyString (json_dumps <$> payload) in
    HttpRequest (_authorization client) method path (match payload with Some _ => Content body | None => NoBody end)
      (Some (sign_headers signer method path body now n))
  | None =>
    HttpRequest (_authorization client) method path (match payload with Some v => Json v | None => NoBody end) None
  end.

Definition _request (fuel : nat) (method path : string) (payload : option json) (now : datetime) (n : nat) (st : T)
    : option (T * list Q * result json) :=
  request_loop fuel (make_request method path payload now n) 1 0 [] st.

Definition post (fuel : nat) (path : string) (payload : option json) := _request fuel "POST" path payload.
Definition client_get (fuel : nat) (path : string) := _request fuel "GET" path None.

(** ** Reports (agent/reporter/report.py) *)

Definition opt_str (o : option string) : json := match o with Some s => JStr s | None => JNull end.

(** [datetime.now(timezone.utc).isoformat()]. *)
Definition _utcnow_iso (now : datetime) : string := py_isoformat now +:+ "+00:00".

Definition register_payload (server_code token : string) (system_info : list (string * json))
    (agent_version : string) : json :=
  let payload := dict_merge [("server_code", JStr server_code); ("token", JStr token);
                             ("agent_version", JStr agent_version)] system_info in
  JDict (match signing_public_key with
         | Some key => if negb (String.eqb key EmptyString) then dict_set payload "signing_public_key" (JStr key) else payload
         | None => payload
         end).

Definition heartbeat_payload (server_id : json) (agent_version : string) (now : datetime) : json :=
  JDict [("server_id", server_id); ("agent_version", JStr agent_version); ("timestamp", JStr (_utcnow_iso now))].

(** [send_metrics] and [send_assets]: [{"server_id": ..., "timestamp": ..., **values}]. *)
Definition values_payload (server_id : json) (values : list (string * json)) (now : datetime) : json :=
  JDict (dict_merge [("server_id", server_id); ("timestamp", JStr (_utcnow_iso now))] values).

Definition services_payload (server_id : json) (services : list json) (now : datetime) : json :=
  JDict [("server_id", server_id); ("timestamp", JStr (_utcnow_iso now)); ("services", JList services)].

Record task_report := TaskReport {
  execution_id : Z;
  status : string;
  result_text : option string;
  error_message : option string;
  error_type : option string;
  logs : option string
}.

Definition task_result_payload (r : task_report) : json :=
  JDict [("execution_id", JInt (execution_id r)); ("status", JStr (status r));
         ("result_text", opt_str (result_text r)); ("error_message", opt_str (error_message r));
         ("error_type", opt_str (error_type r)); ("logs", opt_str (logs r))].

Definition report_task_result (fuel : nat) (r : task_report) :=
  post fuel "/api/v1/agent/task/result" (Some (task_result_payload r)).
End Client.
