(* ===== verification/ClientProps.v ===== *)
(** * What the agent's HTTP client guarantees

    The retry loop always ends, after boundedly many requests and pauses, with
    the first usable reply if there is one in time.  Every retry repeats the
    same signed request, so that a retry after a lost reply is a replay. *)
From Stdlib Require Import QArith.
From S2P Require Import Prelude.
From S2P Require Export AgentClient.
From S2P Require Import Samples.

(** ** Float facts *)

(** Doubling a power of two is exact. *)
Lemma double_pow (k : nat) : (k < 52)%nat → fl (inject_Z (2 ^ Z.of_nat k) * 2) = inject_Z (2 ^ Z.of_nat (S k)).
Proof.
  intros Hk. rewrite Nat2Z.inj_succ, Z.pow_succ_r by lia. apply double_int.
  split; [apply Z.pow_nonneg; lia|]. apply Z.pow_lt_mono_r; lia.
Qed.

Lemma Qlt_bool_inject a b : Qlt_bool (inject_Z a) (inject_Z b) = (a <? b).
Proof.
  unfold Qlt_bool. destruct (Z.ltb_spec a b) as [H|H].
  - rewrite negb_true_iff. apply not_true_is_false. rewrite Qle_bool_iff, <- Zle_Qle. lia.
  - rewrite negb_false_iff, Qle_bool_iff, <- Zle_Qle. done.
Qed.

Lemma Qle_bool_inject a b : Qle_bool (inject_Z a) (inject_Z b) = (a <=? b).
Proof.
  apply eq_bool_prop_intro.
  destruct (Z.leb_spec a b) as [H|H].
  - split; [done|]. intros _. apply Is_true_eq_left, Qle_bool_iff. by rewrite <- Zle_Qle.
  - split; [|done]. intros H1%Is_true_eq_true%Qle_bool_iff. rewrite <- Zle_Qle in H1. lia.
Qed.

(** ** The retry loop *)

Section Loop.
Context `{K : Ed25519Keys} `{!Uuids} (random : nat → Q).
Context {T : Type} (send : http_request → T → T * reply) (client : AgentClient).
Hypothesis random_unit : ∀ n, (0 <= random n < 1)%Q.
Hypothesis max_range : 1 ≤ _retry_max_seconds client ≤ 2 ^ 52.

(** The state of the transport after [k] unusable replies in a row. *)
Fixpoint after_failures (req : http_request) (k : nat) (st : T) : option T :=
  match k with
  | O => Some st
  | S k' => match send req st with (st', Unusable) => after_failures req k' st' | (_, Answer _ _) => None end
  end.

Lemma after_failures_snoc req k st st1 st2 :
  after_failures req k st = Some st1 → send req st1 = (st2, Unusable) → after_failures req (S k) st = Some st2.
Proof.
  revert st. induction k as [|k IH]; intros st; simpl.
  - intros [= ->] ->. done.
  - destruct (send req st) as [st' [|]] eqn:Hs; [|done]. intros Hk H2. by apply (IH st').
Qed.

(** The pauses: before the [i]-th retry, [2^i] seconds with the jitter, capped. *)
Definition pauses_of (k : nat) : list Q :=
  (λ i, sleep_for random client (inject_Z (2 ^ Z.of_nat i)) i) <$> seq 0 k.

Lemma pauses_of_S k : pauses_of (S k) = pauses_of k ++ [sleep_for random client (inject_Z (2 ^ Z.of_nat k)) k].
Proof. unfold pauses_of. by rewrite seq_S, fmap_app. Qed.

Lemma length_pauses_of k : length (pauses_of k) = k.
Proof. unfold pauses_of. by rewrite length_fmap, length_seq. Qed.

Lemma sleep_for_bounds delay n : (0 <= delay)%Q →
  (0 <= sleep_for random client delay n <= inject_Z (_retry_max_seconds client))%Q.
Proof.
  intros Hd. unfold sleep_for. set (pause := if _retry_jitter client then _ else _).
  assert (0 <= pause)%Q as Hp.
  { unfold pause. destruct (_retry_jitter client); [|done]. apply fl_nonneg, Qmult_le_0_compat; [done|].
    apply fl_nonneg. destruct (random_unit n) as [Hr _].
    apply (Qle_trans _ ((1 # 2) + 0)); [by vm_compute|]. by apply Qplus_le_r. }
  unfold Qlt_bool. destruct (Qle_bool pause _) eqn:Hle; simpl.
  - by apply Qle_bool_iff in Hle.
  - split; [|apply Qle_refl]. change 0%Q with (inject_Z 0). rewrite <- Zle_Qle. lia.
Qed.

Lemma pauses_bounds k :
  Forall (λ p, 0 <= p <= inject_Z (_retry_max_seconds client))%Q (pauses_of k).
Proof.
  apply Forall_fmap, Forall_forall. intros i _. apply sleep_for_bounds.
  change 0%Q with (inject_Z 0). rewrite <- Zle_Qle. apply Z.pow_nonneg. lia.
Qed.

(** How the loop can end after [k] retries. *)
Definition loop_end (req : http_request) (st1 : T) (k : nat) (st' : T) (r : result json) : Prop :=
  match send req st1 with
  | (st2, Answer status payload) => st' = st2 ∧ r = read_reply (http_path req) status payload
  | (st2, Unusable) => st' = st2 ∧
    ((r = inr (RetriesExhausted (http_path req)) ∧ _retry_max_count client ≤ Z.of_nat k) ∨
     (r = inr (BackoffExhausted (http_path req)) ∧ Z.of_nat k < _retry_max_count client ∧
      _retry_max_seconds client ≤ 2 ^ Z.of_nat k))
  end.

(** The state of the loop before the [k]-th retry. *)
Lemma loop_from (req : http_request) (st : T) (fuel k : nat) (st1 : T) :
  after_failures req k st = Some st1 →
  (k = 0%nat ∨ Z.of_nat k ≤ _retry_max_count client ∧ 2 ^ Z.of_nat (k - 1) < _retry_max_seconds client) →
  (Z.to_nat (_retry_max_count client) < fuel + k)%nat →
  ∃ m st2 st' r, request_loop random send client fuel req
      (inject_Z (Z.min (2 ^ Z.of_nat k) (_retry_max_seconds client))) (Z.of_nat k) (pauses_of k) st1
    = Some (st', pauses_of m, r) ∧
    after_failures req m st = Some st2 ∧
    (m = 0%nat ∨ Z.of_nat m ≤ _retry_max_count client ∧ 2 ^ Z.of_nat (m - 1) < _retry_max_seconds client) ∧
    loop_end req st2 m st' r.
Proof using max_range.
  revert k st1. induction fuel as [|fuel IH]; intros k st1 Hst Hk Hfuel; [lia|].
  cbn [request_loop]. destruct (send req st1) as [st' [|status payload]] eqn:Hs.
  2:{ exists k, st1, st', (read_reply (http_path req) status payload). split_and!; [done..|].
      unfold loop_end. by rewrite Hs. }
  cbv zeta. destruct (Z.ltb_spec (_retry_max_count client) (Z.of_nat k + 1)) as [Hmax|Hmax].
  { exists k, st1, st', (inr (RetriesExhausted (http_path req))). split_and!; [done..|].
    unfold loop_end. rewrite Hs. split; [done|]. left. split; [done|lia]. }
  rewrite Qle_bool_inject. destruct (Z.leb_spec (_retry_max_seconds client) (Z.min (2 ^ Z.of_nat k) (_retry_max_seconds client))) as [Hd|Hd].
  { exists k, st1, st', (inr (BackoffExhausted (http_path req))). split_and!; [done..|].
    unfold loop_end. rewrite Hs. split; [done|]. right. split_and!; [done|lia|lia]. }
  assert (2 ^ Z.of_nat k < _retry_max_seconds client) as Hlt by lia.
  assert (k < 52)%nat as Hk52.
  { apply Nat2Z.inj_lt. apply (Z.pow_lt_mono_r_iff 2); [lia|lia|]. lia. }
  rewrite (Z.min_l (2 ^ Z.of_nat k)), length_pauses_of, <- pauses_of_S by lia.
  assert (next_delay client (inject_Z (2 ^ Z.of_nat k)) =
          inject_Z (Z.min (2 ^ Z.of_nat (S k)) (_retry_max_seconds client))) as ->.
  { unfold next_delay. rewrite double_pow, Qlt_bool_inject by done.
    destruct (Z.ltb_spec (_retry_max_seconds client) (2 ^ Z.of_nat (S k))); by f_equal; lia. }
  replace (Z.of_nat k + 1) with (Z.of_nat (S k)) by lia.
  apply IH; [by eapply after_failures_snoc| |lia].
  right. split; [lia|]. by replace (S k - 1)%nat with k by lia.
Qed.

(** C22: a request of the agent always comes to an end: [_retry_max_count + 1]
    rounds of the loop are enough, at most that many requests leave, all of
    them the same, and the pause before the [i]-th retry is [2^i] seconds with
    the jitter, never negative and never above [_retry_max_seconds]; no retry
    follows once [2^i] has reached that bound.  The result is that of the
    first usable reply; without one it is the error of the exhausted budget. *)
Theorem request_spec (fuel : nat) (method path : string) (payload : option json) (now : datetime) (n : nat) (st : T) :
  (Z.to_nat (_retry_max_count client) < fuel)%nat →
  let req := make_request client method path payload now n in
  ∃ m st1 st' r, _request random send client fuel method path payload now n st = Some (st', pauses_of m, r) ∧
    after_failures req m st = Some st1 ∧ loop_end req st1 m st' r ∧
    Z.of_nat m ≤ Z.max 0 (_retry_max_count client) ∧
    (m = 0%nat ∨ 2 ^ Z.of_nat (m - 1) < _retry_max_seconds client) ∧
    Forall (λ p, 0 <= p <= inject_Z (_retry_max_seconds client))%Q (pauses_of m).
Proof using max_range random_unit.
  intros Hfuel req. destruct (loop_from req st fuel 0 st) as (m & st1 & st' & r & Hrun & Hst & Hm & Hend);
    [done|by left|lia|].
  exists m, st1, st', r. split_and!; [|done|done|lia|naive_solver|apply pauses_bounds].
  unfold _request. rewrite <- Hrun. f_equal.
  rewrite Z.min_l by (simpl; lia). done.
Qed.
End Loop.

(** ** Retries and the replay protection of the server

    The transport to a server that checks every request that arrives; some of
    its replies are lost on the way back. *)
Section Replay.
Context `{K : Ed25519Keys} `{!Ed25519KeysOk K} `{!Uuids} (random : nat → Q).
Context `{R : Redis} `{!RedisOk R}.
Context (cfg : settings) (t : OpsAgentToken) (sv : OpsServer).
(** When the [k]-th request arrives (milliseconds), whether its reply is lost,
    and what its handler answers. *)
Context (arrival : nat → Z) (lost : nat → bool) (handler : nat → json).

(** The body of an error response. *)
Definition error_body (e : exc) : json :=
  JDict [("code", JInt (snd (error_response e)));
         ("message", JStr (match e with AppException _ m _ => m | _ => "服务器内部错误" end)); ("data", JNull)].

Definition request_bytes (b : http_body) : string :=
  match b with NoBody => EmptyString | Content s => s | Json v => json_dumps v end.

(** A request as it arrives. *)
Definition received (req : http_request) : request :=
  Request (http_method req) (http_path req) (request_bytes (http_content req)).

Definition received_headers (req : http_request) : signature_headers :=
  default (Headers None None None None) (signed_headers req).

(** The [k]-th request on the server: the requests so far and the cache are
    the state. *)
Definition serve (req : http_request) (st : nat * rstate) : (nat * rstate) * reply :=
  let '(k, c) := st in
  let '(c', r) := _verify_agent_signature cfg (received req) t sv (received_headers req)
      (Outside (arrival k * 1000) c (arrival k) NoFault) in
  ((S k, c'),
   if lost k then Unusable else
   match r with
   | Ok () => Answer 200 (handler k)
   | Raise e => Answer (fst (error_response e)) (error_body e)
   end).

(** The client and the signer of a server's agent. *)
Definition agent_client (client : AgentClient) (signer : AgentSigner) : Prop :=
  _signer client = Some signer ∧ OpsServer.server_code sv = _server_code signer ∧
  OpsAgentToken.signing_public_key t = Some (public_key_b64 signer).

Lemma received_signed (client : AgentClient) (signer : AgentSigner) (method path : string) (payload : option json)
    (now : datetime) (n : nat) :
  _signer client = Some signer →
  let req := received (make_request client method path payload now n) in
  received_headers (make_request client method path payload now n) =
  sign_headers signer (AgentAuth.method req) (AgentAuth.path req) (body req) now n.
Proof. intros Hs. unfold received, received_headers, make_request. rewrite Hs. by destruct payload. Qed.

(** A request of the client, as the server sees it. *)
Lemma serve_signed (client : AgentClient) (signer : AgentSigner) (method path : string) (payload : option json)
    (now : datetime) (n k : nat) (c : rstate) :
  agent_client client signer →
  0 ≤ int_time now < 2 ^ 64 →
  Z.abs (int_time (arrival k * 1000) - int_time now) ≤ AGENT_SIGNATURE_MAX_SKEW cfg →
  serve (make_request client method path payload now n) (k, c) =
  let '(c', replayed) := is_replayed (OpsServer.id sv) (uuid4_hex n) (AGENT_SIGNATURE_MAX_SKEW cfg * 2)
                           c (arrival k) NoFault in
  ((S k, c'),
   if lost k then Unusable else
   match replayed with
   | Some true => Answer 401 (error_body (AppException AGENT_REQUEST_REPLAYED "请求已重放" 401))
   | Some false => Answer 200 (handler k)
   | None => if AGENT_REQUIRE_SIGNATURE cfg
             then Answer 503 (error_body (AppException AGENT_SIGNATURE_INVALID "重放校验服务不可用" 503))
             else Answer 200 (handler k)
   end).
Proof.
  intros (Hsigner & Hcode & Hkey) Hnow Hskew. unfold serve. rewrite (received_signed _ signer) by done.
  rewrite verify_signed, (proj2 (Z.ltb_ge _ _)) by done. cbn [cache cache_time cache_fault].
  destruct (is_replayed _ _ _ _ _ _) as [c' [[|]|]]; [done|done|]. by destruct (AGENT_REQUIRE_SIGNATURE cfg).
Qed.

(** A retry repeats the headers of the first request, its request id
    included.  When a request has been accepted and carried out but its reply
    is lost, the retry therefore reaches the server as a replay: the client
    reports the failure [401] for an operation that succeeded. *)
Theorem lost_reply_is_replay (client : AgentClient) (signer : AgentSigner) (method path : string)
    (payload : option json) (now : datetime) (n fuel : nat) (c : rstate) :
  agent_client client signer →
  0 ≤ int_time now < 2 ^ 64 → 0 < AGENT_SIGNATURE_MAX_SKEW cfg →
  (∀ k, (k < 2)%nat → Z.abs (int_time (arrival k * 1000) - int_time now) ≤ AGENT_SIGNATURE_MAX_SKEW cfg) →
  arrival 0 ≤ arrival 1 < arrival 0 + AGENT_SIGNATURE_MAX_SKEW cfg * 2 * 1000 →
  rget c (arrival 0) (replay_key (OpsServer.id sv) (uuid4_hex n)) = None →
  lost 0 = true → lost 1 = false →
  1 ≤ _retry_max_count client → 1 < _retry_max_seconds client → (2 ≤ fuel)%nat →
  let req := make_request client method path payload now n in
  (_verify_agent_signature cfg (received req) t sv (received_headers req)
     (Outside (arrival 0 * 1000) c (arrival 0) NoFault)).2 = Ok () ∧
  ∃ st', _request random serve client fuel method path payload now n (0%nat, c) =
    Some (st', [sleep_for random client 1 0], inr (BadStatus path 401 (JStr "请求已重放"))).
Proof.
  intros Hag Hnow Hpos Hskew Harr Hnew Hlost0 Hlost1 Hcount Hmax Hfuel req. pose proof Hag as (Hsigner & Hcode & Hkey).
  pose proof (serve_signed client signer method path payload now n 0 c Hag Hnow (Hskew 0%nat ltac:(lia))) as H1.
  assert (is_replayed (OpsServer.id sv) (uuid4_hex n) (AGENT_SIGNATURE_MAX_SKEW cfg * 2) c (arrival 0) NoFault =
    (rset c (arrival 0) (replay_key (OpsServer.id sv) (uuid4_hex n)) "1" (AGENT_SIGNATURE_MAX_SKEW cfg * 2 * 1000),
     Some false)) as Hr0.
  { unfold is_replayed, set_nx. rewrite Hnew. by destruct (Z.leb_spec (AGENT_SIGNATURE_MAX_SKEW cfg * 2) 0); [lia|]. }
  rewrite Hr0, Hlost0 in H1. set (c1 := rset c _ _ _ _) in *.
  pose proof (serve_signed client signer method path payload now n 1 c1 Hag Hnow (Hskew 1%nat ltac:(lia))) as H2.
  assert (is_replayed (OpsServer.id sv) (uuid4_hex n) (AGENT_SIGNATURE_MAX_SKEW cfg * 2) c1 (arrival 1) NoFault =
    (c1, Some true)) as Hr1.
  { unfold is_replayed, set_nx, c1. rewrite rget_rset, String.eqb_refl, (proj2 (Z.ltb_lt _ _)) by lia.
    by destruct (Z.leb_spec (AGENT_SIGNATURE_MAX_SKEW cfg * 2) 0); [lia|]. }
  rewrite Hr1, Hlost1 in H2. split.
  - unfold req. rewrite (received_signed _ signer) by done.
    rewrite verify_signed, (proj2 (Z.ltb_ge _ _)) by (done || apply (Hskew 0%nat); lia). simpl. by rewrite Hr0.
  - destruct fuel as [|[|fuel]]; [lia..|]. exists (2%nat, c1). unfold _request. cbn [request_loop].
    rewrite H1. cbv zeta. rewrite (proj2 (Z.ltb_ge _ _)) by lia.
    change 1%Q with (inject_Z 1). rewrite Qle_bool_inject, (proj2 (Z.leb_gt _ _)) by lia.
    cbn [request_loop]. rewrite H2. cbn [length app]. unfold make_request. by rewrite Hsigner.
Qed.
End Replay.

(** ** Instances *)

(** The smallest jitter, and the default settings of the agent. *)
Definition toy_random (n : nat) : Q := 0.
Definition toy_client : AgentClient := Client "Bearer secret-1" 60 2 true (Some toy_signer).

(** A network on which everything is lost. *)
Definition dead_network (req : http_request) (st : unit) : unit * reply := (st, Unusable).

Lemma request_spec_witness :
  ∃ m st' r, _request toy_random dead_network toy_client 3 "GET" "/api/v1/agent/tasks/pending" None 0 0 ()
    = Some (st', pauses_of toy_random toy_client m, r) ∧ Z.of_nat m ≤ 2 ∧
    Forall (λ p, 0 <= p <= 60)%Q (pauses_of toy_random toy_client m).
Proof.
  destruct (request_spec toy_random dead_network toy_client ltac:(intros n; split; by vm_compute)
    ltac:(split; by vm_compute) 3 "GET" "/api/v1/agent/tasks/pending" None 0 0 () ltac:(vm_compute; lia))
    as (m & st1 & st' & r & Hrun & _ & _ & Hm & _ & Hp).
  exists m, st', r. split; [exact Hrun|]. split; [exact Hm|exact Hp].
Defined.

Definition toy_arrival (k : nat) : Z := 1700000000000 + 1500 * Z.of_nat k.

Lemma lost_reply_is_replay_witness :
  ∃ st', _request toy_random
    (serve toy_config toy_token toy_server toy_arrival (λ k, (k =? 0)%nat) (λ _, JNull)) toy_client 3
    "POST" "/api/v1/agent/task/result" (Some JNull) 1700000000000000 7 (0%nat, ∅ : @rstate map_redis) =
    Some (st', [(1 # 2)%Q], inr (BadStatus "/api/v1/agent/task/result" 401 (JStr "请求已重放"))).
Proof.
  destruct (lost_reply_is_replay toy_random toy_config toy_token toy_server toy_arrival (λ k, (k =? 0)%nat) (λ _, JNull)
    toy_client toy_signer "POST" "/api/v1/agent/task/result" (Some JNull) 1700000000000000 7 3 ∅) as (_ & st' & H);
    [split_and!; vm_compute; reflexivity|split; by vm_compute|by vm_compute| |split; by vm_compute|
     vm_compute; reflexivity|reflexivity|reflexivity|by vm_compute|by vm_compute|lia|].
  - intros [|[|k]] Hk; [by vm_compute..|lia].
  - exists st'. exact H.
Defined.
