(* ===== verification/MonitorService.v ===== *)
(** * Monitoring queries (backend/app/services/monitor_service.py, schemas/monitor.py)

    The latest metric, the history, the bucketed summary with network rates,
    the assets of a server and the dashboard; and the gauges exported to
    Prometheus (backend/app/core/metrics.py). *)
From Stdlib Require Import QArith.
From S2P Require Import Prelude.
From S2P Require Export MetricRepo AlertRepo ServerRepo TaskRepo.

(** [RANGE_CONFIG]: seconds and bucket of a range key. *)
Definition RANGE_CONFIG : list (string * (Z * Z)) :=
  [("1h", (3600, 60)); ("6h", (21600, 60)); ("24h", (86400, 300)); ("7d", (604800, 3600))].

Fixpoint range_config (range_key : string) (l : list (string * (Z * Z))) : option (Z * Z) :=
  match l with
  | [] => None
  | (k, c) :: l' => if String.eqb k range_key then Some c else range_config range_key l'
  end.

Definition _MB : Z := 1024 * 1024.

Module MetricBucketValue.
Record MetricBucketValue := Mk { avg : option Q; max : option Q; min : option Q }.
End MetricBucketValue.
Abbreviation MetricBucketValue := MetricBucketValue.MetricBucketValue.

Module MetricBucket.
Record MetricBucket := Mk {
  time : datetime;
  (** The numeric fields by name. *)
  values : list (string * option MetricBucketValue);
  network_in_rate : Q;
  network_out_rate : Q
}.
End MetricBucket.
Abbreviation MetricBucket := MetricBucket.MetricBucket.

Module MetricSummary.
Record MetricSummary := Mk {
  range : string;
  bucket_seconds : Z;
  start : datetime;
  stop : datetime;
  points : list MetricBucket
}.
End MetricSummary.
Abbreviation MetricSummary := MetricSummary.MetricSummary.

(** [MonitorService._bucket]. *)
Definition _bucket (avg max_ min_ : option Q) : option MetricBucketValue :=
  match avg, max_, min_ with
  | None, None, None => None
  | _, _, _ =>
    let rounded (o : option Q) := (λ x, py_round (fl x) 2) <$> o in
    Some (MetricBucketValue.Mk (rounded avg) (rounded max_) (rounded min_))
  end.

(** [round(max(0, now - prev) / bucket / _MB, 4)], 0 without a predecessor. *)
Definition network_rate (bucket : Z) (prev current : option Q) : Q :=
  match prev, current with
  | Some p, Some c => py_round (fdiv_int (fdiv_int (q_max 0 (c - p)) bucket) _MB) 4
  | _, _ => 0
  end.

(** The body of the loop over the rows; the accumulator is [prev_in],
    [prev_out] and the points so far. *)
Definition summary_point (bucket : Z) (acc : option Q * option Q * list MetricBucket)
    (row : MetricRepository.summary_row) : option Q * option Q * list MetricBucket :=
  let '(prev_in, prev_out, points) := acc in
  let current_in := MetricRepository.network_in_max row in
  let current_out := MetricRepository.network_out_max row in
  (current_in, current_out,
   points ++ [MetricBucket.Mk (MetricRepository.bucket row)
     ((λ '(name, c), (name, _bucket (MetricRepository.avg c) (MetricRepository.max c) (MetricRepository.min c)))
        <$> MetricRepository.columns row)
     (network_rate bucket prev_in current_in) (network_rate bucket prev_out current_out)]).

Section Service.
Context `{E : Env}.

Definition _get_server (server_id : Z) : M Z :=
  server ← get TServer server_id;
  match server with
  | None => app_error SERVER_NOT_FOUND "服务器不存在" 404
  | Some i => mret i
  end.

Definition get_latest (server_id : Z) : M (Z * option Z) :=
  server ← _get_server server_id;
  metric ← MetricRepository.get_latest server_id;
  mret (server, metric).

Definition get_history (server_id : Z) (start stop : datetime) (page page_size : Z) : M (Z * list Z) :=
  _ ← _get_server server_id;
  MetricRepository.get_history server_id start stop page page_size.

Definition get_summary (server_id : Z) (range_key : string) : M MetricSummary :=
  server ← _get_server server_id;
  match range_config range_key RANGE_CONFIG with
  | None => app_error BAD_REQUEST "不支持的 time range" 400
  | Some (span, bucket) =>
    stop ← utcnow;
    let start := stop - seconds span in
    s ← obj TServer server;
    rows ← MetricRepository.get_summary (OpsServer.id s) start stop bucket;
    mret (MetricSummary.Mk range_key bucket start stop (foldl (summary_point bucket) (None, None, []) rows).2)
  end.

Definition get_assets (server_id : Z) : M (list Z * list Z) :=
  server ← _get_server server_id;
  s ← obj TServer server;
  disks ← list_all TDisk (λ d, (OpsServerDisk.server_id d =? OpsServer.id s) && (OpsServerDisk.status d =? 1));
  networks ← list_all TNetwork
    (λ n, (OpsServerNetwork.server_id n =? OpsServer.id s) && (OpsServerNetwork.status n =? 1));
  mret (disks, networks).

Record overview := Overview {
  server_stats : ServerRepository.status_counts;
  avg_usage : option Q * option Q * option Q;
  active_alerts : Z;
  (** Servers with their latest metric. *)
  server_list : list (OpsServer * option Z)
}.

Definition get_overview : M overview :=
  stats ← ServerRepository.get_status_counts;
  usage ← MetricRepository.get_server_usage_avg;
  alerts ← AlertEventRepository.count_active;
  active ← ServerRepository.list_active;
  rows ← map_loop (obj TServer) active;
  latest_map ← MetricRepository.get_latest_map (OpsServer.id <$> rows);
  let listed := (λ s, (s, latest_map !! OpsServer.id s)) <$> rows in
  mret (Overview stats usage alerts
    (sort_by (λ a b, OpsServer.id b.1 <=? OpsServer.id a.1) listed)).

(** ** Prometheus gauges (backend/app/core/metrics.py) *)

Definition AGENT_STATUSES : list string := ["ONLINE"; "WARNING"; "OFFLINE"; "UNKNOWN"].
Definition ALERT_SEVERITIES : list string := ["WARNING"; "CRITICAL"].
Definition TASK_STATUSES : list string :=
  ["CREATED"; "PENDING"; "RUNNING"; "SUCCESS"; "FAILED"; "TIMEOUT"; "CANCELLED"; "RETRYING"; "DEAD"].

(** [counts.get(label, 0)]. *)
Fixpoint count_of (label : string) (counts : list (string * Z)) : Z :=
  match counts with
  | [] => 0
  | (l, n) :: counts' => if String.eqb l label then n else count_of label counts'
  end.

(** The gauges of the process by name and label. *)
Definition gauges : Type := gmap (string * string) Z.

(** [for label in labels: gauge.labels(label).set(counts[label])]. *)
Definition set_gauges (gauge : string) (counts : string → Z) (labels : list string) (g : gauges) : gauges :=
  foldl (λ g label, <[(gauge, label) := counts label]> g) g labels.

(** [counts.get(status, 0)] on the dictionary of [get_status_counts]. *)
Definition server_count (c : ServerRepository.status_counts) (status : string) : Z :=
  if String.eqb status "ONLINE" then ServerRepository.ONLINE c
  else if String.eqb status "WARNING" then ServerRepository.WARNING c
  else if String.eqb status "OFFLINE" then ServerRepository.OFFLINE c
  else if String.eqb status "UNKNOWN" then ServerRepository.UNKNOWN c
  else if String.eqb status "total" then ServerRepository.total c
  else 0.

Definition refresh_gauges (g : gauges) : M gauges :=
  server_counts ← ServerRepository.get_status_counts;
  alert_counts ← AlertEventRepository.count_active_by_severity;
  task_counts ← TaskRepository.count_by_status;
  let g := set_gauges "ops_agent_status" (server_count server_counts) AGENT_STATUSES g in
  let g := <[("ops_server_total", EmptyString) := server_count server_counts "total"]> g in
  let g := set_gauges "ops_alert_active" (λ severity, default 0 (alert_counts !! severity)) ALERT_SEVERITIES g in
  mret (set_gauges "ops_task_status" (λ status, count_of status task_counts) TASK_STATUSES g).
End Service.
