(* ===== verification/MonitorProps.v ===== *)
(** * Properties of the monitoring queries

    The bucketed summary shows every metric of the range in exactly one point,
    in the order of time, and its network rates never go below zero; the
    dashboard shows every active server once, with its newest metric. *)
From Stdlib Require Import QArith Lqa.
From S2P Require Import Prelude.
From S2P Require Import Confined Samples MetricRepo.
From S2P Require Export MonitorService.


Lemma q_max_ge_l x y : (x <= q_max x y)%Q.
Proof. unfold q_max. destruct (Qle_bool x y) eqn:H; [by apply Qle_bool_iff|apply Qle_refl]. Qed.

Lemma network_rate_nonneg bucket prev current : 0 < bucket → (0 <= network_rate bucket prev current)%Q.
Proof.
  intros Hb. unfold network_rate. destruct prev, current; try done.
  apply py_round_nonneg, fdiv_int_nonneg, eq_refl. apply fdiv_int_nonneg, Hb. apply q_max_ge_l.
Qed.

(** ** The points of the summary *)

(** One point, given the row of the preceding bucket. *)
Definition point_of (bucket : Z) (prev : option MetricRepository.summary_row)
    (row : MetricRepository.summary_row) : MetricBucket :=
  MetricBucket.Mk (MetricRepository.bucket row)
    ((λ '(name, c), (name, _bucket (MetricRepository.avg c) (MetricRepository.max c) (MetricRepository.min c)))
       <$> MetricRepository.columns row)
    (network_rate bucket (prev ≫= MetricRepository.network_in_max) (MetricRepository.network_in_max row))
    (network_rate bucket (prev ≫= MetricRepository.network_out_max) (MetricRepository.network_out_max row)).

Fixpoint points_of (bucket : Z) (prev : option MetricRepository.summary_row)
    (rows : list MetricRepository.summary_row) : list MetricBucket :=
  match rows with
  | [] => []
  | row :: rows' => point_of bucket prev row :: points_of bucket (Some row) rows'
  end.

Lemma summary_points bucket rows prev acc :
  (foldl (summary_point bucket)
     (prev ≫= MetricRepository.network_in_max, prev ≫= MetricRepository.network_out_max, acc) rows).2
  = acc ++ points_of bucket prev rows.
Proof.
  revert prev acc. induction rows as [|row rows IH]; intros prev acc; simpl; [by rewrite app_nil_r|].
  rewrite (IH (Some row)), <- app_assoc. done.
Qed.

Lemma points_of_time bucket prev rows :
  MetricBucket.time <$> points_of bucket prev rows = MetricRepository.bucket <$> rows.
Proof. revert prev. induction rows as [|row rows IH]; intros prev; simpl; [done|]. by rewrite IH. Qed.

Lemma elem_of_points_of bucket prev rows p :
  p ∈ points_of bucket prev rows → ∃ prev' row, row ∈ rows ∧ p = point_of bucket prev' row.
Proof.
  revert prev. induction rows as [|row rows IH]; intros prev; simpl; [by intros ?%elem_of_nil|].
  intros [->|(prev' & r & Hr & ->)%IH]%elem_of_cons; [exists prev, row|exists prev', r]; by (split; [list_in|]).
Qed.

(** ** Buckets *)

Definition covers (bucket : Z) (t : datetime) (m : MonitorServerMetric) : Prop :=
  t <= MonitorServerMetric.collected_at m < t + seconds bucket.

Lemma bucket_covers bucket m : 0 < bucket → covers bucket (MetricRepository.bucket_of bucket m) m.
Proof.
  intros Hb. unfold covers, MetricRepository.bucket_of, seconds.
  pose proof (Z.div_mod (MonitorServerMetric.collected_at m) (bucket * 1000000) ltac:(lia)).
  pose proof (Z.mod_pos_bound (MonitorServerMetric.collected_at m) (bucket * 1000000) ltac:(lia)). lia.
Qed.

Lemma bucket_unique bucket m m' :
  0 < bucket → covers bucket (MetricRepository.bucket_of bucket m') m →
  MetricRepository.bucket_of bucket m' = MetricRepository.bucket_of bucket m.
Proof.
  unfold covers, MetricRepository.bucket_of, seconds. intros Hb Hc. f_equal.
  apply (Z.div_unique_pos _ _ _ (MonitorServerMetric.collected_at m -
    MonitorServerMetric.collected_at m' / (bucket * 1000000) * (bucket * 1000000))); lia.
Qed.

Lemma sorted_distinct (l : list Z) : NoDup l → StronglySorted Z.lt (sort_by Z.leb l).
Proof.
  intros Hnd. assert (NoDup (sort_by Z.leb l)) as Hd by by rewrite sort_by_perm.
  pose proof (sort_by_sorted Z.leb l ltac:(intros; lia)) as Hs%Sorted_StronglySorted.
  2: { intros x y z; lia. }
  induction Hs as [|x l' Hs IH Hx]; constructor; inversion Hd; subst; [by apply IH|].
  apply Forall_forall. intros y Hy. rewrite Forall_forall in Hx. specialize (Hx y Hy).
  assert (x ≠ y) by (by intros ->). lia.
Qed.

Lemma sorted_nodup (l : list Z) : StronglySorted Z.lt l → NoDup l.
Proof.
  induction 1 as [|x l Hs IH Hx]; constructor; [|done].
  intros Hin. rewrite Forall_forall in Hx. specialize (Hx x Hin). lia.
Qed.

Lemma fmap_nodup_inj {A B} (f : A → B) (l : list A) :
  NoDup (f <$> l) → ∀ x y, x ∈ l → y ∈ l → f x = f y → x = y.
Proof.
  induction l as [|z l IH]; simpl; [by intros _ x y ?%elem_of_nil|].
  intros [Hz Hd]%NoDup_cons x y [->|Hx]%elem_of_cons [->|Hy]%elem_of_cons Hxy; [done| | |by apply IH].
  - exfalso. apply Hz. rewrite Hxy. by apply list_elem_of_fmap_2.
  - exfalso. apply Hz. rewrite <- Hxy. by apply list_elem_of_fmap_2.
Qed.

(** ** The summary of a server *)

Section Props.
Context `{E : Env} `{!EnvOk E}.

(** The metrics of the range, in scan order. *)
Definition in_range (d : db) (server_id : Z) (start stop : datetime) : list MonitorServerMetric :=
  rows_of TMetric (matching TMetric (MetricRepository.between server_id start stop) d) d.

Lemma elem_of_in_range d server_id start stop m :
  m ∈ in_range d server_id start stop ↔
  ∃ i, rows (d TMetric) !! i = Some m ∧ MetricRepository.between server_id start stop m = true.
Proof.
  etransitivity; [apply (elem_of_rows_of TMetric)|]. split.
  - intros (i & (r & Hr & Hb)%elem_of_matching & Hm). exists i. split; [done|].
    pose proof (same_row TMetric Hr Hm). congruence.
  - intros (i & Hm & Hb). exists i. split; [|done]. apply elem_of_matching. by exists m.
Qed.

(** The values of a point: the aggregates of the metrics it covers. *)
Definition reference_values (ms : list MonitorServerMetric) : list (string * option MetricBucketValue) :=
  (λ '(name, f), (name,
     let v := present f ms in _bucket (sql_avg v) (sql_max v) (sql_min v))) <$> MetricRepository.numeric_fields.

(** [s] presents the metrics [ms] in buckets. *)
Record presents (bucket : Z) (ms : list MonitorServerMetric) (points : list MetricBucket) : Prop := {
  (** The points are in the order of time, *)
  pr_ascending : StronglySorted Z.lt (MetricBucket.time <$> points);
  (** every metric is in exactly one of them, *)
  pr_total : ∀ m, m ∈ ms → ∃ p, p ∈ points ∧ covers bucket (MetricBucket.time p) m ∧
    ∀ p', p' ∈ points → covers bucket (MetricBucket.time p') m → p' = p;
  (** no point is empty, *)
  pr_inhabited : ∀ p, p ∈ points → ∃ m, m ∈ ms ∧ covers bucket (MetricBucket.time p) m;
  (** a point shows the aggregates of the metrics it covers, *)
  pr_values : ∀ p, p ∈ points →
    ∃ group, (∀ m, m ∈ group ↔ m ∈ ms ∧ covers bucket (MetricBucket.time p) m) ∧ group `sublist_of` ms ∧
      MetricBucket.values p = reference_values group;
  (** and rates that start at zero and stay non-negative. *)
  pr_first : ∀ p, head points = Some p →
    MetricBucket.network_in_rate p = 0%Q ∧ MetricBucket.network_out_rate p = 0%Q;
  pr_rates : ∀ p, p ∈ points →
    (0 <= MetricBucket.network_in_rate p)%Q ∧ (0 <= MetricBucket.network_out_rate p)%Q
}.

Definition summary_rows (bucket : Z) (ms : list MonitorServerMetric) : list MetricRepository.summary_row :=
  (λ b, let group := filter (λ m, MetricRepository.bucket_of bucket m = b) ms in
    MetricRepository.SummaryRow b
      ((λ '(name, f), (name, MetricRepository.summarise f group)) <$> MetricRepository.numeric_fields)
      (sql_max (present (λ m, MetricRepository.to_q (MonitorServerMetric.network_in_bytes m)) group))
      (sql_max (present (λ m, MetricRepository.to_q (MonitorServerMetric.network_out_bytes m)) group)))
  <$> sort_by Z.leb (remove_dups (MetricRepository.bucket_of bucket <$> ms)).

Lemma summary_rows_bucket bucket ms :
  MetricRepository.bucket <$> summary_rows bucket ms =
  sort_by Z.leb (remove_dups (MetricRepository.bucket_of bucket <$> ms)).
Proof. unfold summary_rows. rewrite <- list_fmap_compose. apply list_fmap_id. Qed.

Lemma presents_points bucket ms : 0 < bucket → presents bucket ms (points_of bucket None (summary_rows bucket ms)).
Proof.
  intros Hb. set (points := points_of bucket None (summary_rows bucket ms)).
  assert (StronglySorted Z.lt (MetricBucket.time <$> points)) as Hs.
  { unfold points. rewrite points_of_time, summary_rows_bucket. apply sorted_distinct, NoDup_remove_dups. }
  assert (∀ p, p ∈ points → ∃ prev m, m ∈ ms ∧ MetricBucket.time p = MetricRepository.bucket_of bucket m ∧
    ∃ row, p = point_of bucket prev row ∧ row ∈ summary_rows bucket ms) as Hp.
  { intros p (prev & row & Hr & ->)%elem_of_points_of.
    assert (MetricRepository.bucket row ∈ MetricRepository.bucket <$> summary_rows bucket ms) as Hin
      by by apply list_elem_of_fmap_2.
    rewrite summary_rows_bucket in Hin. apply elem_of_sort_by, elem_of_remove_dups, list_elem_of_fmap in Hin.
    destruct Hin as (m & Hm & Hms). exists prev, m. split_and!; [done|exact Hm|by exists row]. }
  assert (∀ p p', p ∈ points → p' ∈ points → MetricBucket.time p = MetricBucket.time p' → p = p') as Hinj.
  { apply fmap_nodup_inj. by apply sorted_nodup. }
  split.
  - done.
  - intros m Hm.
    assert (MetricRepository.bucket_of bucket m ∈ MetricBucket.time <$> points) as Hin.
    { unfold points. rewrite points_of_time, summary_rows_bucket.
      by apply elem_of_sort_by, elem_of_remove_dups, list_elem_of_fmap_2. }
    apply list_elem_of_fmap in Hin as (p & Ht & Hin). exists p. rewrite <- Ht.
    split_and!; [done|by apply bucket_covers|]. intros p' Hin' Hc. apply Hinj; [done..|].
    destruct (Hp p' Hin') as (_ & m' & _ & Ht' & _). rewrite Ht' in Hc. rewrite Ht', <- Ht. by apply bucket_unique.
  - intros p Hin. destruct (Hp p Hin) as (_ & m & Hm & -> & _). exists m. split; [done|]. by apply bucket_covers.
  - intros p Hin. destruct (Hp p Hin) as (prev & m & Hm & Ht & row & -> & Hrow).
    unfold summary_rows in Hrow. apply list_elem_of_fmap in Hrow as (b & -> & _). cbn in Ht. subst b.
    exists (filter (λ x, MetricRepository.bucket_of bucket x = MetricRepository.bucket_of bucket m) ms).
    split_and!; [|apply sublist_filter|].
    + intros x. rewrite list_elem_of_filter. cbn [point_of MetricBucket.time MetricRepository.bucket].
      split; [intros [<- Hx]; split; [done|by apply bucket_covers]|].
      intros [Hx Hc]. split; [|done]. symmetry. by apply bucket_unique.
    + reflexivity.
  - intros p. unfold points. destruct (summary_rows bucket ms) as [|row rows']; [done|]. by intros [= <-].
  - intros p Hin. destruct (Hp p Hin) as (prev & _ & _ & _ & row & -> & _).
    split; by apply network_rate_nonneg.
Qed.

Lemma range_config_pos range_key span bucket :
  range_config range_key RANGE_CONFIG = Some (span, bucket) → 0 < bucket.
Proof.
  unfold RANGE_CONFIG. cbn [range_config].
  repeat (destruct (String.eqb _ range_key); [by intros [= <- <-]|]). done.
Qed.

(** ** The dashboard *)

(** What the dashboard shows of a database. *)
Record dashboard_of (d : db) (o : overview) : Prop := {
  (** Every active server once, the newest first, *)
  db_order : StronglySorted (λ a b, OpsServer.id b < OpsServer.id a) (server_list o).*1;
  db_servers : ∀ sv, sv ∈ (server_list o).*1 ↔ ∃ i, servers d !! i = Some sv ∧ ServerRepository.enabled sv = true;
  (** with its newest metric, if it has one, *)
  db_latest : ∀ sv latest, (sv, latest) ∈ server_list o → newest d (OpsServer.id sv) latest;
  (** and counts that agree with the list. *)
  db_total : ServerRepository.total (server_stats o) = Z.of_nat (length (server_list o));
  db_alerts : active_alerts o = Z.of_nat (length (matching TEvent active d))
}.

Lemma length_matching_cons (p : OpsServer → bool) i sv l :
  Z.of_nat (length (filter (λ '(_, r), p r = true) ((i, sv) :: l : list (Z * OpsServer)))) =
  (if p sv then 1 else 0) + Z.of_nat (length (filter (λ '(_, r), p r = true) l)).
Proof. rewrite filter_cons. case_decide as Hp; simpl in Hp; destruct (p sv); simpl; [lia|done|done|lia]. Qed.

Lemma length_by_status (p : OpsServer → bool) d :
  let n st := Z.of_nat (length (matching TServer (λ s, p s && bool_decide (OpsServer.agent_status s = st)) d)) in
  n A_ONLINE + n A_WARNING + n A_OFFLINE + n A_UNKNOWN = Z.of_nat (length (matching TServer p d)).
Proof.
  unfold matching. rewrite !length_fmap. induction (scan (rows (d TServer))) as [|[i sv] l IH]; [done|].
  pose proof (λ q, length_matching_cons q i sv l) as Hc. cbn [row] in *. rewrite !Hc.
  destruct (p sv), (OpsServer.agent_status sv); simpl in *; lia.
Qed.

Lemma sorted_strict {A} (f : A → Z) (l : list A) :
  StronglySorted (λ a b, f b <= f a) l → NoDup (f <$> l) → StronglySorted (λ a b, f b < f a) l.
Proof.
  induction 1 as [|x l Hs IH Hx]; [constructor|]. intros [Hn Hd]%NoDup_cons. constructor; [by apply IH|].
  rewrite Forall_forall in Hx |- *. intros y Hy. specialize (Hx y Hy).
  assert (f x ≠ f y); [|lia]. intros He. apply Hn. rewrite He. by apply list_elem_of_fmap_2.
Qed.

Lemma sorted_fmap {A B} (f : A → B) (R : B → B → Prop) (l : list A) :
  StronglySorted (λ a b, R (f a) (f b)) l → StronglySorted R (f <$> l).
Proof.
  induction 1 as [|x l Hs IH Hx]; constructor; [done|]. by apply Forall_fmap.
Qed.

(** The server list of the dashboard. *)
Lemma listed_servers d (latest : gmap Z Z) :
  server_keys d →
  let svs := rows_of TServer (matching TServer ServerRepository.enabled d) d in
  let listed := sort_by (λ a b, OpsServer.id b.1 <=? OpsServer.id a.1) ((λ s, (s, latest !! OpsServer.id s)) <$> svs) in
  StronglySorted (λ a b, OpsServer.id b < OpsServer.id a) listed.*1 ∧
  (∀ sv, sv ∈ listed.*1 ↔ ∃ i, servers d !! i = Some sv ∧ ServerRepository.enabled sv = true) ∧
  (∀ sv o, (sv, o) ∈ listed → o = latest !! OpsServer.id sv ∧ sv ∈ listed.*1) ∧
  length listed = length (matching TServer ServerRepository.enabled d).
Proof.
  intros Hk svs listed. set (ids := matching TServer ServerRepository.enabled d).
  assert (OpsServer.id <$> svs = ids) as Hids.
  { apply (rows_of_keys TServer). intros i (r & Hr & _)%elem_of_matching. exists r. split; [done|]. by apply Hk. }
  assert (listed.*1 ≡ₚ svs) as Hperm.
  { unfold listed. rewrite sort_by_perm, <- list_fmap_compose. by rewrite list_fmap_id. }
  assert (∀ sv o, (sv, o) ∈ listed → o = latest !! OpsServer.id sv) as Hlat.
  { intros sv o Hin%elem_of_sort_by. apply list_elem_of_fmap in Hin as (s & [= -> ->] & _). done. }
  split_and!.
  - apply sorted_strict; [|by rewrite Hperm, Hids; apply matching_nodup].
    apply (sorted_fmap fst (λ a b, OpsServer.id b <= OpsServer.id a)).
    assert (StronglySorted (λ a b : OpsServer * option Z, (OpsServer.id b.1 <=? OpsServer.id a.1) = true) listed) as Hs.
    { apply Sorted_StronglySorted; [intros x y z; lia|]. apply sort_by_sorted. intros; lia. }
    revert Hs. generalize listed. intros L Hs. induction Hs as [|x l Hs IH Hx]; constructor; [done|].
    eapply Forall_impl; [exact Hx|]. simpl. intros; lia.
  - intros sv. rewrite Hperm. etransitivity; [apply (elem_of_rows_of TServer)|]. split.
    + intros (i & (r & Hr & He)%elem_of_matching & Hi). exists i. split; [done|].
      by pose proof (same_row TServer Hr Hi) as <-.
    + intros (i & Hi & He). exists i. split; [|done]. apply elem_of_matching. by exists sv.
  - intros sv o Hin. split; [by apply Hlat|]. by apply (list_elem_of_fmap_2 fst) in Hin.
  - unfold listed. rewrite sort_by_perm, length_fmap, <- (length_fmap OpsServer.id svs), Hids. done.
Qed.

Lemma wp_list_active (Q : list Z → session → Prop) Ex s :
  Q (matching TServer ServerRepository.enabled (work s)) s → wp ServerRepository.list_active Q Ex s.
Proof. intros HQ. unfold ServerRepository.list_active. by apply wp_select_where. Qed.

(** The dashboard shows every active server once, in the order of decreasing
    ids, with its newest metric, and its totals agree with the list; it never
    fails and changes nothing. *)
Theorem get_overview_spec (d : db) (n : nat) :
  server_keys d → ∃ o, run get_overview d n = (Ok o, d, n) ∧ dashboard_of d o.
Proof.
  intros Hk.
  assert (wp get_overview (λ o s', dashboard_of d o ∧ s' = Session d d n) no_exc (Session d d n)) as Hwp.
  2: { destruct (run_total _ _ _ _ Hwp) as (o & s' & Hrun & Ho & ->). by exists o. }
  unfold get_overview. apply wp_bind. unfold ServerRepository.get_status_counts. apply wp_bind, wp_get_work, wp_ret.
  apply wp_bind. unfold MetricRepository.get_server_usage_avg.
  apply wp_bind, wp_get_work, wp_bind, (wp_map_obj TMetric).
  { intros i (m & Hm & _)%elem_of_matching. by exists m. }
  apply wp_ret, wp_bind. unfold AlertEventRepository.count_active, count. apply wp_bind, wp_select_where, wp_ret.
  apply wp_bind, wp_list_active.
  apply wp_bind, (wp_map_obj TServer).
  { intros i (m & Hm & _)%elem_of_matching. by exists m. }
  cbn [work]. apply wp_bind, wp_latest_map. intros latest Hlatest. apply wp_ret. split; [|done].
  destruct (listed_servers d latest Hk) as (Ho & Hs & Hl & Hlen). split; [exact Ho|exact Hs| | |done].
  - intros sv o Hin. destruct (Hl sv o Hin) as [-> Hsv]. apply Hlatest, list_elem_of_fmap_2.
    apply Hs in Hsv as (i & Hi & He). apply (elem_of_rows_of TServer). exists i. split; [|done].
    apply elem_of_matching. by exists sv.
  - cbn [server_list server_stats ServerRepository.total]. rewrite Hlen. apply length_by_status.
Qed.

(** ** The exported gauges *)

Lemma set_gauges_in (gauge : string) (counts : string → Z) (labels : list string) (g : gmap (string * string) Z) (label : string) :
  label ∈ labels → set_gauges gauge counts labels g !! (gauge, label) = Some (counts label).
Proof.
  unfold set_gauges, gauges in *. intros Hin.
  assert (label ∈ labels ∨ g !! (gauge, label) = Some (counts label)) as Hcase by by left.
  clear Hin. revert g Hcase. induction labels as [|l labels IH]; intros g Hcase; simpl.
  - by destruct Hcase as [?%elem_of_nil|].
  - apply IH. destruct (decide (l = label)) as [->|Hne]; [right; by rewrite lookup_insert_eq|].
    destruct Hcase as [[->|Hin]%elem_of_cons|Hg]; [done|by left|right].
    rewrite lookup_insert_ne; [done|congruence].
Qed.

Lemma set_gauges_out (gauge : string) (counts : string → Z) (labels : list string) (g : gmap (string * string) Z) (key : string * string) :
  (∀ label, label ∈ labels → key ≠ (gauge, label)) → set_gauges gauge counts labels g !! key = g !! key.
Proof.
  unfold set_gauges, gauges in *. revert g. induction labels as [|l labels IH]; intros g Hne; simpl; [done|].
  rewrite IH by (intros; apply Hne; list_in). apply lookup_insert_ne. intros <-. eapply Hne; [|done]. list_in.
Qed.

Lemma severity_count (f : string → Z) (l : list string) (m : gmap string Z) sev :
  foldl (λ counts s, <[s := f s]> counts) m l !! sev = if bool_decide (sev ∈ l) then Some (f sev) else m !! sev.
Proof.
  revert m. induction l as [|s l IH]; intros m; simpl; [done|]. rewrite IH.
  destruct (bool_decide_reflect (sev ∈ l)) as [Hl|Hl].
  - rewrite bool_decide_eq_true_2; [done|list_in].
  - destruct (decide (sev = s)) as [->|Hne].
    + rewrite lookup_insert_eq, bool_decide_eq_true_2; [done|list_in].
    + rewrite lookup_insert_ne, bool_decide_eq_false_2 by (set_solver || done). done.
Qed.

(** The keys of the exported gauges. *)
Definition exported (key : string * string) : Prop :=
  (∃ st, key = ("ops_agent_status", agent_status_str st)) ∨ key = ("ops_server_total", EmptyString) ∨
  (∃ sev, sev ∈ ALERT_SEVERITIES ∧ key = ("ops_alert_active", sev)) ∨
  (∃ st, key = ("ops_task_status", task_status_str st)).

(** The numbers of rows the gauges show. *)
Record gauges_show (d : db) (g : gauges) : Prop := {
  ga_agents : ∀ st, g !! ("ops_agent_status", agent_status_str st) = Some (Z.of_nat (length
    (matching TServer (λ s, ServerRepository.enabled s && bool_decide (OpsServer.agent_status s = st)) d)));
  ga_total : g !! ("ops_server_total", EmptyString) = Some (Z.of_nat (length (matching TServer ServerRepository.enabled d)));
  ga_alerts : ∀ sev, sev ∈ ALERT_SEVERITIES → g !! ("ops_alert_active", sev) = Some (Z.of_nat (length
    (filter (λ e, AlertEvent.severity e = sev) (rows_of TEvent (matching TEvent active d) d))));
  ga_tasks : ∀ st, g !! ("ops_task_status", task_status_str st) = Some (Z.of_nat (length
    (matching TTask (λ t, bool_decide (OpsTask.status t = st)) d)))
}.

Lemma status_label label : label ∈ AGENT_STATUSES → ∃ st, label = agent_status_str st.
Proof.
  intros [<-|[<-|[<-|[<-|[]]]]]%list_elem_of_In; [exists A_ONLINE|exists A_WARNING|exists A_OFFLINE|exists A_UNKNOWN]; done.
Qed.

Lemma task_label label : label ∈ TASK_STATUSES → ∃ st, label = task_status_str st.
Proof.
  intros Hl%list_elem_of_In. simpl in Hl.
  destruct Hl as [<-|[<-|[<-|[<-|[<-|[<-|[<-|[<-|[<-|[]]]]]]]]]];
    [exists T_CREATED|exists T_PENDING|exists T_RUNNING|exists T_SUCCESS|exists T_FAILED|exists T_TIMEOUT
    |exists T_CANCELLED|exists T_RETRYING|exists T_DEAD]; done.
Qed.

(** A scrape sets every exported gauge to the number of rows it stands for,
    whatever it showed before, leaves other gauges alone, never fails and
    changes no row. *)
Theorem refresh_gauges_spec (d : db) (g : gauges) (n : nat) :
  ∃ g', run (refresh_gauges g) d n = (Ok g', d, n) ∧ gauges_show d g' ∧
    ∀ key, ¬ exported key → g' !! key = g !! key.
Proof.
  assert (wp (refresh_gauges g) (λ g' s', (gauges_show d g' ∧ ∀ key, ¬ exported key → g' !! key = g !! key) ∧
    s' = Session d d n) no_exc (Session d d n)) as Hwp.
  2: { destruct (run_total _ _ _ _ Hwp) as (g' & s' & Hrun & Hg & ->). by exists g'. }
  unfold refresh_gauges, gauges in *. apply wp_bind. unfold ServerRepository.get_status_counts. apply wp_bind, wp_get_work, wp_ret.
  apply wp_bind. unfold AlertEventRepository.count_active_by_severity. apply wp_bind, wp_select_where, wp_bind, (wp_map_obj TEvent).
  { intros i (e & He & _)%elem_of_matching. by exists e. }
  apply wp_ret, wp_bind. unfold TaskRepository.count_by_status. apply wp_bind, wp_get_work, wp_ret, wp_ret.
  split; [|done]. cbn [work]. split; [split|].
  - intros st.
    rewrite set_gauges_out, set_gauges_out, lookup_insert_ne by (try intros; congruence).
    rewrite set_gauges_in by (destruct st; by apply (bool_decide_unpack _)). by destruct st.
  - rewrite set_gauges_out, set_gauges_out by (intros; congruence). rewrite lookup_insert_eq.
    f_equal. apply length_by_status.
  - intros sev Hsev. rewrite set_gauges_out by (intros; congruence). rewrite set_gauges_in by done.
    rewrite severity_count.
    case_bool_decide as Hin; [done|]. cbn [default from_option].
    destruct (filter _ _) as [|e l] eqn:Hf.
    2: { assert (e ∈ filter (λ e, AlertEvent.severity e = sev) (rows_of TEvent (matching TEvent active d) d))
           as [<- He]%list_elem_of_filter by (rewrite Hf; list_in).
         by destruct Hin; apply list_elem_of_fmap_2. }
    by apply list_elem_of_In in Hsev as [<-|[<-|[]]].
  - intros st. rewrite set_gauges_in by (destruct st; by apply (bool_decide_unpack _)). by destruct st.
  - intros key Hn. unfold exported in Hn.
    rewrite set_gauges_out, set_gauges_out; [rewrite lookup_insert_ne; [apply set_gauges_out|]|..].
    + intros label Hl ->. apply Hn. left. by apply status_label in Hl as [st ->]; exists st.
    + intros <-. apply Hn. by right; left.
    + intros label Hl ->. apply Hn. do 2 right; left. by exists label.
    + intros label Hl ->. apply Hn. do 3 right. by apply task_label in Hl as [st ->]; exists st.
Qed.
End Props.

(** ** Instances *)

Definition demo_metric (at_ : datetime) (cpu : Q) (received : Z) : MonitorServerMetric :=
  MonitorServerMetric.Mk 0 1 at_ (Some cpu) None None None (Some received) (Some 0) None None None None None 0.

(** Three metrics in two buckets: the counter moves by 120 MB within a minute. *)
Definition monitor_db : db :=
  (run (_ ← create TMetric (demo_metric (seconds 1699999990) (10 # 1)%Q 0);
        _ ← create TMetric (demo_metric (seconds 1700000000) (30 # 1)%Q 1048576);
        _ ← create TMetric (demo_metric (seconds 1700000050) (20 # 1)%Q 126877696);
        commit) agent_db 0).1.2.

Lemma monitor_server_keys : server_keys monitor_db.
Proof. apply (bool_decide_unpack _). by vm_compute. Qed.

#[local] Opaque monitor_db.


Example summary_rates :
  (match (run (get_summary 1 "1h") monitor_db 60).1.1 with
   | Ok s => (λ p, (MetricBucket.network_in_rate p)) <$> MetricSummary.points s
   | Raise _ => []
   end) = [0%Q; 2%Q].
Proof. vm_compute. reflexivity. Qed.

Lemma get_overview_spec_witness :
  ∃ o, run get_overview monitor_db 60 = (Ok o, monitor_db, 60%nat) ∧ dashboard_of monitor_db o.
Proof. exact (get_overview_spec monitor_db 60 monitor_server_keys). Defined.

Lemma refresh_gauges_spec_witness :
  ∃ g', run (refresh_gauges ∅) monitor_db 60 = (Ok g', monitor_db, 60%nat) ∧ gauges_show monitor_db g'.
Proof.
  destruct (refresh_gauges_spec monitor_db ∅ 60) as (g' & Hrun & Hg & _). exists g'. exact (conj Hrun Hg).
Defined.
