(* ===== verification/Middleware.v ===== *)
(** * Requests, parameters and middleware
    (backend/app/middleware, utils/params.py, utils/request.py)

    What happens to every HTTP request around its route: the request context
    with the request id and the user of the token, and the operation log that
    is written in a session of its own. *)
From S2P Require Import Prelude.
From S2P Require Export PyText AuthService.

(** A request as the application sees it. *)
Record incoming := Incoming {
  in_method : string;
  in_path : string;
  authorization : option string;
  forwarded_for : option string;
  request_id_header : option string;
  user_agent_header : option string;
  (** The address of the connection, if there is one. *)
  client_host : option string;
  query_params : list (string * string)
}.

(** [OAuth2PasswordBearer] of the web framework: the token of an
    [Authorization] header, if it is a bearer token. *)
Class OAuth2 := oauth2_scheme : option string → option string.

(** ** Strings *)

(** [s.strip(c)] for one character. *)
Fixpoint lstrip_char (c : Ascii.ascii) (s : string) : string :=
  match s with
  | EmptyString => EmptyString
  | String a s' => if Ascii.eqb a c then lstrip_char c s' else s
  end.

Fixpoint rstrip_char (c : Ascii.ascii) (s : string) : string :=
  match s with
  | EmptyString => EmptyString
  | String a s' =>
    let r := rstrip_char c s' in
    if Ascii.eqb a c && String.eqb r EmptyString then EmptyString else String a r
  end.

Definition strip_char (c : Ascii.ascii) (s : string) : string := rstrip_char c (lstrip_char c s).

(** [s[len(prefix):]] if [s] starts with [prefix]. *)
Fixpoint after_prefix (prefix s : string) : option string :=
  match prefix, s with
  | EmptyString, _ => Some s
  | String a p, String b s' => if Ascii.eqb a b then after_prefix p s' else None
  | String _ _, EmptyString => None
  end.

Definition comma : Ascii.ascii := byte 44.
Definition slash : Ascii.ascii := byte 47.

(** ** Parameters and addresses *)

(** [optional_int(min_value, max_value)] on a query parameter; an error is a
    validation error of the request. *)
Definition optional_int (min_value max_value : option Z) (value : option string) : option Z + exc :=
  match value with
  | None => inl None
  | Some s =>
    if String.eqb s EmptyString then inl None else
    match py_int_of s with
    | None => inr RequestValidationError
    | Some parsed =>
      if match min_value with Some lo => parsed <? lo | None => false end then inr RequestValidationError
      else if match max_value with Some hi => hi <? parsed | None => false end then inr RequestValidationError
      else inl (Some parsed)
    end
  end.

Definition get_client_ip (req : incoming) : option string :=
  match forwarded_for req with
  | Some forwarded =>
    if String.eqb forwarded EmptyString then client_host req
    else Some (py_strip (default EmptyString (head (py_split comma forwarded))))
  | None => client_host req
  end.

(** ** The request context (middleware/request_context.py) *)

Record context := Context_ { request_id : string; user_id : option Z }.

Section Middleware.
Context `{E : Env} `{!Jwt} (cfg : jwt_settings).
(** [uuid.uuid4().hex] and [str(exc)]. *)
Context (uuid : string) (exc_text : exc → string).

(** A token that does not decode leaves the user empty. *)
Definition context_user (req : incoming) : M (option Z) :=
  match authorization req ≫= after_prefix "Bearer " with
  | None => mret None
  | Some token => λ s, match decode_access_token cfg token s with
                       | (Ok i, s') => (Ok (Some i), s')
                       | (Raise _, s') => (Ok None, s')
                       end
  end.

Definition request_context (req : incoming) : M context :=
  user ← context_user req;
  mret (Context_ (default uuid (py_or (request_id_header req) (Some uuid))) user).

(** ** The operation log (middleware/operation_log.py) *)

Definition EXCLUDE_PATHS : list string :=
  ["/api/v1/health"; "/api/v1/auth/login"; "/docs"; "/redoc"; "/openapi.json"].

Definition logged_path (path : string) : bool :=
  String.prefix "/api/v1" path && negb (String.prefix "/api/v1/agent/" path) &&
  negb (bool_decide (path ∈ EXCLUDE_PATHS)).

Definition path_parts (path : string) : list string := py_split slash (strip_char slash path).

Definition _guess_module (path : string) : string := default path (path_parts path !! 2%nat).

Definition _guess_resource (path : string) : string :=
  match path_parts path !! 3%nat with
  | Some part => part
  | None => default path (path_parts path !! 2%nat)
  end.

(** [dict(request.query_params)]: of a repeated parameter the last value, at
    its first place. *)
Fixpoint set_param (l : list (string * string)) (key v : string) : list (string * string) :=
  match l with
  | [] => [(key, v)]
  | (k, w) :: l' => if String.eqb k key then (key, v) :: l' else (k, w) :: set_param l' key v
  end.

Definition params_dict (l : list (string * string)) : option (list (string * string)) :=
  match l with [] => None | _ => Some (foldl (λ acc p, set_param acc p.1 p.2) [] l) end.

Definition operation_log (req : incoming) (ctx : context) (username : option string) (http_status duration_ms : Z)
    (error_message : option string) : SysOperationLog :=
  SysOperationLog.Mk 0 (user_id ctx) username (_guess_module (in_path req))
    (in_method req +:+ " " +:+ _guess_resource (in_path req)) (Some (in_method req)) (Some (in_path req))
    None None None (get_client_ip req) (Some (request_id ctx)) (params_dict (query_params req))
    (if (400 <=? http_status) || py_truthy error_message then "FAILED" else "SUCCESS")
    error_message (Some duration_ms) 0.

(** The lengths of the columns. *)
Definition operation_log_fits (l : SysOperationLog) : bool :=
  fits 64 (SysOperationLog.username l) && fits 64 (Some (SysOperationLog.module l)) &&
  fits 64 (Some (SysOperationLog.operation l)) && fits 16 (SysOperationLog.http_method l) &&
  fits 255 (SysOperationLog.request_path l) && fits 64 (SysOperationLog.request_ip l) &&
  fits 64 (SysOperationLog.request_id l).

(** The user name is read without regard to soft deletion. *)
Definition _write_log (req : incoming) (ctx : context) (http_status duration_ms : Z)
    (error_message : option string) : M unit :=
  d ← get_work;
  let username := i ← user_id ctx; u ← rows (d TUser) !! i; Some (SysUser.username u) in
  let log := operation_log req ctx username http_status duration_ms error_message in
  checked (operation_log_fits log);;
  _ ← create TOperationLog log;
  commit.

(** Exceptions for which a handler is registered become a response inside the
    middleware; the others pass through it. *)
Definition handled (e : exc) : bool :=
  match e with
  | AppException _ _ _ | HTTPException _ | RequestValidationError | IntegrityError | DataError | ObjectDeletedError => true
  | KeyError | ValueError | TypeError => false
  end.

(** The status and the error text the log sees; [ok_status] is the route's. *)
Definition log_status {A} (ok_status : Z) (o : outcome A) : Z * option string :=
  match o with
  | Ok _ => (ok_status, None)
  | Raise e => if handled e then ((error_response e).1, None) else (500, Some (exc_text e))
  end.

(** [OperationLogMiddleware.dispatch] around a handler: an exception of the
    log itself is swallowed. *)
Definition dispatch {A} (enabled : bool) (req : incoming) (ctx : context) (ok_status duration_ms : Z)
    (handler : M A) (d : db) (n : nat) : outcome A * db * nat :=
  let '(o, d1, n1) := run handler d n in
  if negb enabled || negb (logged_path (in_path req)) then (o, d1, n1) else
  let '(status, error_message) := log_status ok_status o in
  let '(_, d2, n2) := run (_write_log req ctx status duration_ms error_message) d1 n1 in
  (o, d2, n2).

(** Both middlewares: the context is outermost, and has no session. *)
Definition serve {A} (enabled : bool) (req : incoming) (ok_status duration_ms : Z) (handler : context → M A)
    (d : db) (n : nat) : outcome A * db * nat :=
  match run (request_context req) d n with
  | (Ok ctx, _, n1) => dispatch enabled req ctx ok_status duration_ms (handler ctx) d n1
  | (Raise e, _, n1) => (Raise e, d, n1)
  end.
End Middleware.

Example guess_examples :
  _guess_module "/api/v1/servers/3/services" = "servers" ∧ _guess_resource "/api/v1/servers/3/services" = "3" ∧
  _guess_resource "/api/v1/tasks/" = "tasks" ∧ _guess_module "/api" = "/api".
Proof. by vm_compute. Qed.
