(* ===== verification/Schemas.v ===== *)
(** * Request models (backend/app/schemas)

    The constraints that the request models declare on their fields; a request
    that violates one is answered with a validation error.  [TaskCreate.valid]
    is with the task service. *)
From Stdlib Require Import QArith.
From S2P Require Import Prelude.
From S2P Require Export TaskService AlertService AgentService ServerService UserService.

(** [min_length] and [max_length]; an absent optional value satisfies both. *)
Definition len_in (lo hi : Z) (s : string) : bool := (lo <=? py_len s) && (py_len s <=? hi).
Definition opt_check {A} (check : A → bool) (o : option A) : bool := match o with Some a => check a | None => true end.
Definition max_len (hi : Z) : option string → bool := opt_check (len_in 0 hi).

(** A field of an update: absent and null are both accepted. *)
Definition field_check {A} (check : A → bool) (f : field A) : bool := match f with Given a => check a | _ => true end.

Definition z_in (lo hi : Z) (n : Z) : bool := (lo <=? n) && (n <=? hi).
Definition q_in (lo hi : Q) (x : Q) : bool := Qle_bool lo x && Qle_bool x hi.

(** [pattern="^[a-zA-Z0-9_]+$"]. *)
Definition word_char (a : Ascii.ascii) : bool :=
  let n := Z.of_nat (Ascii.nat_of_ascii a) in z_in 97 122 n || z_in 65 90 n || z_in 48 57 n || (n =? 95).

Fixpoint all_word_chars (s : string) : bool :=
  match s with EmptyString => true | String a s' => word_char a && all_word_chars s' end.

Definition valid_RuleCreate (d : RuleCreate) : bool :=
  len_in 1 128 (RuleCreate.rule_name d) && (0 <=? RuleCreate.duration_seconds d) &&
  z_in 0 1 (RuleCreate.enabled d) && max_len 500 (RuleCreate.description d).

Definition valid_RuleUpdate (d : RuleUpdate) : bool :=
  field_check (len_in 1 128) (RuleUpdate.rule_name d) && field_check (Z.leb 0) (RuleUpdate.duration_seconds d) &&
  field_check (z_in 0 1) (RuleUpdate.enabled d).

Definition valid_UserCreate (d : UserCreate) : bool :=
  len_in 3 64 (UserCreate.username d) && all_word_chars (UserCreate.username d) &&
  len_in 6 128 (UserCreate.password d) && max_len 64 (UserCreate.nickname d) &&
  max_len 128 (UserCreate.email d) && max_len 32 (UserCreate.phone d).

Definition valid_UserUpdate (d : UserUpdate) : bool :=
  field_check (len_in 6 128) (UserUpdate.password d) && field_check (len_in 0 64) (UserUpdate.nickname d) &&
  field_check (len_in 0 128) (UserUpdate.email d) && field_check (len_in 0 32) (UserUpdate.phone d) &&
  field_check (z_in 0 1) (UserUpdate.status d).

Definition valid_ServerCreate (d : ServerCreate) : bool :=
  len_in 1 64 (ServerCreate.server_code d) && len_in 1 128 (ServerCreate.hostname d) &&
  len_in 1 64 (ServerCreate.ip_address d) && z_in 1 65535 (ServerCreate.ssh_port d) &&
  max_len 500 (ServerCreate.remark d).

Definition valid_LoginRequest (username password : string) : bool := len_in 1 64 username && len_in 1 128 password.

Definition valid_RegisterRequest (d : RegisterRequest) : bool :=
  len_in 0 64 (RegisterRequest.server_code d) && (1 <=? py_len (RegisterRequest.token d)) &&
  len_in 0 128 (RegisterRequest.hostname d) && max_len 128 (RegisterRequest.os_name d) &&
  max_len 128 (RegisterRequest.os_version d) && max_len 128 (RegisterRequest.kernel_version d) &&
  max_len 32 (RegisterRequest.architecture d) && max_len 255 (RegisterRequest.cpu_model d) &&
  opt_check (Z.leb 0) (RegisterRequest.cpu_cores d) && opt_check (Z.leb 0) (RegisterRequest.memory_total_bytes d) &&
  opt_check (Z.leb 0) (RegisterRequest.disk_total_bytes d) && max_len 32 (RegisterRequest.agent_version d) &&
  max_len 128 (RegisterRequest.signing_public_key d).

Definition valid_SigningKeyRequest (signing_public_key : string) : bool := len_in 1 128 signing_public_key.

Definition valid_HeartbeatRequest (d : HeartbeatRequest) : bool := max_len 32 (HeartbeatRequest.agent_version d).

Definition valid_MetricsRequest (d : MetricsRequest) : bool :=
  opt_check (q_in 0 100) (MetricsRequest.cpu_usage d) && opt_check (q_in 0 100) (MetricsRequest.memory_usage d) &&
  opt_check (Z.leb 0) (MetricsRequest.memory_used_bytes d) && opt_check (q_in 0 100) (MetricsRequest.disk_usage d) &&
  opt_check (Z.leb 0) (MetricsRequest.network_in_bytes d) && opt_check (Z.leb 0) (MetricsRequest.network_out_bytes d) &&
  opt_check (Qle_bool 0) (MetricsRequest.load_1m d) && opt_check (Qle_bool 0) (MetricsRequest.load_5m d) &&
  opt_check (Qle_bool 0) (MetricsRequest.load_15m d) && opt_check (Z.leb 0) (MetricsRequest.tcp_connections d) &&
  opt_check (Z.leb 0) (MetricsRequest.uptime_seconds d).

Definition valid_DiskAsset (a : DiskAsset) : bool :=
  len_in 0 128 (DiskAsset.device_name a) && max_len 255 (DiskAsset.mount_point a) &&
  max_len 64 (DiskAsset.filesystem a) && opt_check (Z.leb 0) (DiskAsset.total_bytes a).

Definition valid_NetworkAsset (a : NetworkAsset) : bool :=
  len_in 0 128 (NetworkAsset.interface_name a) && max_len 64 (NetworkAsset.mac_address a) &&
  max_len 64 (NetworkAsset.ip_address a).

Definition valid_AssetsRequest (d : AssetsRequest) : bool :=
  forallb valid_DiskAsset (AssetsRequest.disks d) && forallb valid_NetworkAsset (AssetsRequest.networks d).

Definition valid_ServicesRequest (d : ServicesRequest) : bool :=
  forallb (λ s, len_in 0 64 s.1) (ServicesRequest.services d).

Module TaskResultRequest.
Record TaskResultRequest := Mk {
  execution_id : Z;
  status : string;
  exit_code : option Z;
  result_text : option string;
  error_message : option string;
  error_type : option string;
  logs : option string
}.
End TaskResultRequest.
Abbreviation TaskResultRequest := TaskResultRequest.TaskResultRequest.

(** [Query(1, ge=1)] and [Query(20, ge=1, le=100)]. *)
Definition valid_page (page page_size max_size : Z) : bool := (1 <=? page) && z_in 1 max_size page_size.
