(* ===== verification/Routes.v ===== *)
(** * HTTP routes (backend/app/api/v1)

    One definition per route: its dependencies in the order the framework
    resolves them, the validation of its parameters, and the call of the
    service.  A dependency that several others share runs once.  What a
    response serialises is given by the key of the row or the service's result. *)
From Stdlib Require Import QArith.
From S2P Require Import Prelude.
From S2P Require Export Middleware Schemas AuthService MonitorService AgentAuth.

(** A violated constraint of the request model. *)
Definition validate (ok : bool) : M unit := if ok then mret () else raise RequestValidationError.

Section Dependencies.
Context `{E : Env} `{!Jwt} `{!OAuth2} (cfg : jwt_settings).

(** [Depends(oauth2_scheme)]. *)
Definition bearer (req : incoming) : M string :=
  match oauth2_scheme (authorization req) with
  | Some token => mret token
  | None => raise (HTTPException 401)
  end.

(** [Depends(get_current_user)]. *)
Definition current_user_of (req : incoming) : M Z :=
  token ← bearer req; get_current_user cfg token.

(** [Depends(require_roles(...))]. *)
Definition require (role_codes : list string) (req : incoming) : M Z :=
  token ← bearer req; require_roles cfg role_codes token.
End Dependencies.

Definition ADMIN : list string := ["SYSTEM_ADMIN"].
Definition ADMIN_OPS : list string := ["SYSTEM_ADMIN"; "OPS_ENGINEER"].

Section Routes.
Context `{E : Env} `{!Passwords} `{!Jwt} `{!OAuth2} `{!Secrets} `{!Cron} (cfg : jwt_settings).

(** ** auth.py *)

Definition auth_me (req : incoming) : M Z := current_user_of cfg req.

Definition auth_login (req : incoming) (ctx : context) (username password : string) : M TokenResponse :=
  validate (valid_LoginRequest username password);;
  login cfg username password (get_client_ip req) (user_agent_header req) (Some (request_id ctx)).

(** ** alerts.py *)

Definition list_alerts (req : incoming) (page_num page_size : Z) (status severity : option string)
    (server_id : option Z) (active : option bool) : M (Z * list event_dict) :=
  _ ← current_user_of cfg req;
  validate (valid_page page_num page_size 100);;
  AlertService.list_events page_num page_size status severity server_id active.

Definition list_rules (req : incoming) : M (list Z) :=
  _ ← current_user_of cfg req;
  AlertService.list_rules.

Definition get_event (req : incoming) (event_id : Z) : M (event_dict * list AlertEventLog) :=
  _ ← current_user_of cfg req;
  AlertService.get_event event_id.

Definition acknowledge (req : incoming) (event_id : Z) : M event_dict :=
  current_user ← require cfg ADMIN_OPS req;
  u ← obj TUser current_user;
  AlertService.acknowledge event_id (Some (SysUser.id u)).

Definition resolve (req : incoming) (event_id : Z) : M event_dict :=
  current_user ← require cfg ADMIN_OPS req;
  u ← obj TUser current_user;
  AlertService.resolve event_id (Some (SysUser.id u)).

Definition create_rule (req : incoming) (data : RuleCreate) : M Z :=
  current_user ← require cfg ADMIN req;
  validate (valid_RuleCreate data);;
  u ← obj TUser current_user;
  AlertService.create_rule data (Some (SysUser.id u)).

Definition update_rule (req : incoming) (rule_id : Z) (data : RuleUpdate) : M Z :=
  _ ← require cfg ADMIN req;
  validate (valid_RuleUpdate data);;
  AlertService.update_rule rule_id data.

Definition delete_rule (req : incoming) (rule_id : Z) : M unit :=
  _ ← require cfg ADMIN req;
  AlertService.delete_rule rule_id.

(** ** tasks.py *)

Definition list_tasks (req : incoming) (page_num page_size : Z) (status task_type : option string) : M (Z * list Z) :=
  _ ← require cfg ADMIN_OPS req;
  validate (valid_page page_num page_size 100);;
  TaskService.list_tasks page_num page_size status task_type.

Definition create_task (req : incoming) (data : TaskCreate) (idempotency_key : option string) : M Z :=
  current_user ← require cfg ADMIN_OPS req;
  validate (TaskCreate.valid data && max_len 128 idempotency_key);;
  u ← obj TUser current_user;
  TaskService.create_task data (SysUser.id u) idempotency_key.

Definition get_task (req : incoming) (task_id : Z) : M (Z * list execution_detail) :=
  _ ← require cfg ADMIN_OPS req;
  get_task_detail task_id.

Definition confirm_task (req : incoming) (task_id : Z) : M Z :=
  current_user ← require cfg ADMIN_OPS req;
  u ← obj TUser current_user;
  TaskService.confirm_task task_id (SysUser.id u).

Definition cancel_task (req : incoming) (task_id : Z) : M Z :=
  _ ← require cfg ADMIN_OPS req;
  TaskService.cancel_task task_id.

(** ** servers.py *)

Definition create_server (req : incoming) (data : ServerCreate) : M Z :=
  current_user ← require cfg ADMIN req;
  validate (valid_ServerCreate data);;
  u ← obj TUser current_user;
  ServerService.create_server data (Some (SysUser.id u)).

Definition list_servers (req : incoming) (page_num page_size : Z) (agent_status : option string) : M (Z * list Z) :=
  _ ← require cfg ADMIN req;
  validate (valid_page page_num page_size 100);;
  ServerService.list_servers page_num page_size agent_status.

Definition get_server (req : incoming) (server_id : Z) : M Z :=
  _ ← require cfg ADMIN req;
  ServerService.get_server server_id.

Definition generate_agent_token (req : incoming) (server_id : Z) (token_name : option string) (n : nat)
    : M AgentTokenResponse :=
  _ ← require cfg ADMIN req;
  validate (max_len 64 token_name);;
  ServerService.generate_agent_token server_id token_name n.

Definition list_services (req : incoming) (server_id : Z) : M (list Z) :=
  _ ← current_user_of cfg req;
  ServerService.list_services server_id.

Definition update_service_whitelist (req : incoming) (server_id service_id is_whitelisted : Z) : M Z :=
  _ ← require cfg ADMIN req;
  validate (z_in 0 1 is_whitelisted);;
  ServerService.update_service_whitelist server_id service_id is_whitelisted.

(** ** users.py and roles.py *)

Definition list_users (req : incoming) (page_num page_size : Z) (username status : option string) : M (Z * list Z) :=
  _ ← require cfg ADMIN req;
  validate (valid_page page_num page_size 100 && max_len 64 username);;
  match optional_int (Some 0) (Some 1) status with
  | inl status => UserService.list_users page_num page_size username status
  | inr e => raise e
  end.

Definition create_user (req : incoming) (data : UserCreate) (n : nat) : M Z :=
  _ ← require cfg ADMIN req;
  validate (valid_UserCreate data);;
  UserService.create_user data n.

Definition get_user (req : incoming) (user_id : Z) : M Z :=
  _ ← require cfg ADMIN req;
  UserService.get_user user_id.

Definition update_user (req : incoming) (user_id : Z) (data : UserUpdate) (n : nat) : M Z :=
  _ ← require cfg ADMIN req;
  validate (valid_UserUpdate data);;
  UserService.update_user user_id data n.

Definition delete_user (req : incoming) (user_id : Z) : M unit :=
  _ ← require cfg ADMIN req;
  UserService.delete_user user_id.

Definition list_roles (req : incoming) : M (list Z) :=
  _ ← require cfg ADMIN req;
  list_all TRole (λ r, SysRole.status r =? 1).

(** ** monitor.py and dashboard.py *)

Definition get_latest (req : incoming) (server_id : Z) : M (Z * option Z) :=
  _ ← current_user_of cfg req;
  MonitorService.get_latest server_id.

Definition get_history (req : incoming) (server_id : Z) (start stop : datetime) (page_num page_size : Z)
    : M (Z * list Z) :=
  _ ← current_user_of cfg req;
  validate (valid_page page_num page_size 2000);;
  MonitorService.get_history server_id start stop page_num page_size.

(** [pattern="^(1h|6h|24h|7d)$"]. *)
Definition get_summary (req : incoming) (server_id : Z) (time_range : string) : M MetricSummary :=
  _ ← current_user_of cfg req;
  validate (bool_decide (time_range ∈ ["1h"; "6h"; "24h"; "7d"]));;
  MonitorService.get_summary server_id time_range.

Definition get_assets (req : incoming) (server_id : Z) : M (list Z * list Z) :=
  _ ← current_user_of cfg req;
  MonitorService.get_assets server_id.

Definition dashboard_overview (req : incoming) : M overview :=
  _ ← current_user_of cfg req;
  get_overview.

(** ** metrics.py *)

Record metrics_settings := MetricsSettings { METRICS_ENABLED : bool; METRICS_TOKEN : string }.

Definition metrics (settings : metrics_settings) (req : incoming) (g : gauges) : M gauges :=
  if negb (METRICS_ENABLED settings) then raise (HTTPException 404)
  else if negb (String.eqb (METRICS_TOKEN settings) EmptyString) &&
          negb (bool_decide (authorization req = Some ("Bearer " +:+ METRICS_TOKEN settings)))
  then raise (HTTPException 401)
  else refresh_gauges g.
End Routes.

(** ** health.py: the status and whether the database and Redis answered. *)
Definition health (db_ok redis_ok : bool) : Z * (bool * bool) :=
  (if db_ok && redis_ok then 200 else 503, (db_ok, redis_ok)).

(** ** agent.py *)

Section AgentRoutes.
Context `{E : Env} `{!Ed25519} `{R : Redis} `{!Secrets} `{!Cron} `{!OAuth2} (cfg : settings).

(** The request whose signature is checked. *)
Definition signed_request (req : incoming) (bytes : string) : request :=
  Request (in_method req) (in_path req) bytes.

(** A route after one of the agent dependencies; the cache is Redis. *)
Definition after_agent {A} (dependency : request → string → signature_headers → outside → session → rstate * outcome Z * session)
    (req : incoming) (bytes : string) (h : signature_headers) (o : outside) (route : Z → M A) (s : session)
    : rstate * outcome A * session :=
  match oauth2_scheme (authorization req) with
  | None => (cache o, Raise (HTTPException 401), s)
  | Some token =>
    match dependency (signed_request req bytes) token h o s with
    | (c, Raise e, s') => (c, Raise e, s')
    | (c, Ok i, s') => let '(r, s'') := route i s' in (c, r, s'')
    end
  end.

Definition with_server {A} := after_agent (A := A) (get_agent_server cfg).
Definition with_token {A} := after_agent (A := A) (get_agent_token cfg).

(** Registration carries its token in the body. *)
Definition register (req : incoming) (data : RegisterRequest) : M Z :=
  validate (valid_RegisterRequest data);;
  AgentService.register data (get_client_ip req).

Definition rotate_signing_key (signing_public_key : string) (token : Z) : M unit :=
  validate (valid_SigningKeyRequest signing_public_key);;
  AgentService.rotate_signing_key token signing_public_key.

Definition heartbeat (req : incoming) (data : HeartbeatRequest) (server : Z) : M (Z * string) :=
  validate (valid_HeartbeatRequest data);;
  AgentService.heartbeat server data (get_client_ip req).

Definition ingest_metrics (data : MetricsRequest) (server : Z) : M (Z * string) :=
  validate (valid_MetricsRequest data);;
  AgentService.ingest_metrics server data.

Definition sync_assets (data : AssetsRequest) (server : Z) : M (Z * string) :=
  validate (valid_AssetsRequest data);;
  AgentService.sync_assets server data.

Definition sync_services (data : ServicesRequest) (server : Z) : M (Z * string) :=
  validate (valid_ServicesRequest data);;
  AgentService.sync_services server data.

Definition fetch_pending_tasks (server : Z) : M (list claim) := fetch_pending server.

Definition report_task_result (data : TaskResultRequest) (server : Z) : M Z :=
  report_result server (TaskResultRequest.execution_id data) (TaskResultRequest.status data)
    (TaskResultRequest.exit_code data) (TaskResultRequest.result_text data)
    (TaskResultRequest.error_message data) (TaskResultRequest.error_type data) (TaskResultRequest.logs data).
End AgentRoutes.
