(* ===== verification/Discovery.v ===== *)
(** * Server discovery (backend/app/services/discovery_service.py,
    api/v1/discovery.py, schemas/discovery.py)

    The read-only scan of a network within the white list.  A scan is what it
    returns together with the addresses and ports it contacts; the thread pool
    only changes the order in time, since a host's answer depends on its
    address and the port. *)
From S2P Require Import Prelude.
From S2P Require Export IpAddress Routes.

(** The settings of the discovery in backend/app/core/config.py. *)
Record discovery_settings := DiscoverySettings {
  DISCOVERY_ENABLED : bool;
  DISCOVERY_ALLOWED_CIDRS : list string;
  DISCOVERY_MAX_HOSTS : Z;
  DISCOVERY_SSH_PORT : Z;
  DISCOVERY_CONCURRENCY : Z
}.

Record DiscoveryHost := DiscoveryHostMk { host_ip : string; host_port : Z; host_banner : option string }.

(** TCP sockets with the configured time-out: the result of [connect_ex] and
    the bytes of [recv(256)]; [None] is an [OSError]. *)
Class Sockets := {
  connect_ex : ∀ inet6 : bool, string → Z → option Z;
  recv : string → Z → option (list Z)
}.

(** ** [bytes.decode('utf-8', errors='replace')] *)

Definition between (lo hi b : Z) : bool := (lo <=? b) && (b <=? hi).

Definition continuation (b : Z) : bool := between 128 191 b.

(** The second bytes allowed after a leading byte of three or four. *)
Definition second3 (b0 b1 : Z) : bool :=
  if b0 =? 224 then between 160 191 b1 else if b0 =? 237 then between 128 159 b1 else continuation b1.

Definition second4 (b0 b1 : Z) : bool :=
  if b0 =? 240 then between 144 191 b1 else if b0 =? 244 then between 128 143 b1 else continuation b1.

Definition replacement (s : string) : string := String (byte 239) (String (byte 191) (String (byte 189) s)).

Definition char (b : Z) : Ascii.ascii := byte (Z.to_nat b).

(** One replacement character per maximal part of a broken sequence. *)
Fixpoint decode_replace (l : list Z) : string :=
  match l with
  | [] => EmptyString
  | b0 :: l1 =>
    if b0 <? 128 then String (char b0) (decode_replace l1)
    else if between 194 223 b0 then
      match l1 with
      | b1 :: l2 => if continuation b1 then String (char b0) (String (char b1) (decode_replace l2))
                    else replacement (decode_replace l1)
      | [] => replacement EmptyString
      end
    else if between 224 239 b0 then
      match l1 with
      | b1 :: l2 =>
        if second3 b0 b1 then
          match l2 with
          | b2 :: l3 => if continuation b2 then String (char b0) (String (char b1) (String (char b2) (decode_replace l3)))
                        else replacement (decode_replace l2)
          | [] => replacement EmptyString
          end
        else replacement (decode_replace l1)
      | [] => replacement EmptyString
      end
    else if between 240 244 b0 then
      match l1 with
      | b1 :: l2 =>
        if second4 b0 b1 then
          match l2 with
          | b2 :: l3 =>
            if continuation b2 then
              match l3 with
              | b3 :: l4 => if continuation b3 then
                              String (char b0) (String (char b1) (String (char b2) (String (char b3) (decode_replace l4))))
                            else replacement (decode_replace l3)
              | [] => replacement EmptyString
              end
            else replacement (decode_replace l2)
          | [] => replacement EmptyString
          end
        else replacement (decode_replace l1)
      | [] => replacement EmptyString
      end
    else replacement (decode_replace l1)
  end.

(** ** The service *)

(** [_parse_networks]. *)
Definition _parse_networks (cidrs : list string) : list ip_network := omap ip_network_of cidrs.

(** [_is_within_allowed]: networks of the other version are passed over. *)
Definition _is_within_allowed (target : ip_network) (allowed : list ip_network) : bool :=
  existsb (λ network, default false (subnet_of target network)) allowed.

(** [allowed_cidrs]. *)
Definition allowed_cidrs (cfg : discovery_settings) : list string :=
  sort_by String.leb (remove_dups (filter (λ c, is_empty (py_strip c) = false) (DISCOVERY_ALLOWED_CIDRS cfg))).

(** [port or settings.DISCOVERY_SSH_PORT]. *)
Definition scan_port (cfg : discovery_settings) (port : option Z) : Z :=
  match port with
  | Some p => if p =? 0 then DISCOVERY_SSH_PORT cfg else p
  | None => DISCOVERY_SSH_PORT cfg
  end.

Section Scan.
Context `{!Sockets}.

(** [_probe]. *)
Definition _probe (address : string) (port : Z) : bool * option string :=
  match connect_ex (negb (lacks colon address)) address port with
  | Some 0 =>
    let banner := match recv address port with
                  | Some bytes => py_strip (decode_replace bytes)
                  | None => EmptyString
                  end in
    (true, if is_empty banner then None else Some banner)
  | Some _ | None => (false, None)
  end.

(** The loop over the hosts and their answers. *)
Definition scan_results (port : Z) (l : list ip_address) : list DiscoveryHost :=
  omap (λ h, let '(is_open, banner) := _probe (ip_str h) port in
             if is_open : bool then Some (DiscoveryHostMk (ip_str h) port banner) else None) l.

(** [results.sort(key=lambda item: ip_address(item["ip"]))]; the addresses of
    one network have one version. *)
Definition sort_results (results : list DiscoveryHost) : outcome (list DiscoveryHost) :=
  match mapM (λ item, ip_address_of (host_ip item)) results with
  | Some keys => Ok ((sort_by (λ a b, negb (ip b.1 <? ip a.1)) (zip keys results)).*2)
  | None => Raise ValueError
  end.

Record scan_run := ScanRun { contacted : list (string * Z); scan_outcome : outcome (list DiscoveryHost) }.

Definition scan_refused (c : ErrorCode) (message : string) (status : Z) : scan_run :=
  ScanRun [] (Raise (AppException c message status)).

Definition scan (cfg : discovery_settings) (cidr : string) (port : option Z) : scan_run :=
  if negb (DISCOVERY_ENABLED cfg) then scan_refused FORBIDDEN "服务器发现功能未启用" 403
  else
    let allowed := _parse_networks (DISCOVERY_ALLOWED_CIDRS cfg) in
    match allowed with
    | [] => scan_refused FORBIDDEN "未配置允许扫描的 CIDR 白名单" 403
    | _ =>
      match ip_network_of cidr with
      | None => scan_refused BAD_REQUEST "CIDR 格式非法" 400
      | Some target =>
        if negb (_is_within_allowed target allowed) then
          scan_refused FORBIDDEN "目标网段超出允许扫描的白名单范围" 403
        else
          let found := hosts target in
          let count := Z.of_nat (length found) in
          if DISCOVERY_MAX_HOSTS cfg <? count then
            scan_refused BAD_REQUEST ("主机数 " +:+ py_str count +:+ " 超过上限 " +:+
              py_str (DISCOVERY_MAX_HOSTS cfg) +:+ "，请缩小网段") 400
          else if (length found =? 0)%nat then ScanRun [] (Ok [])
          else
            let port := scan_port cfg port in
            ScanRun ((λ h, (ip_str h, port)) <$> found) (sort_results (scan_results port found))
      end
    end.
End Scan.

(** ** The routes *)

Definition valid_DiscoveryScanRequest (cidr : string) (port : option Z) : bool :=
  (py_len cidr <=? 64) && match port with Some p => (1 <=? p) && (p <=? 65535) | None => true end.

Section DiscoveryRoutes.
Context `{E : Env} `{!Jwt} `{!OAuth2} `{!Sockets} (jwt : jwt_settings).

Definition get_discovery_config (cfg : discovery_settings) (req : incoming) : M (bool * list string * Z * Z) :=
  _ ← require jwt ADMIN req;
  mret (DISCOVERY_ENABLED cfg, allowed_cidrs cfg, DISCOVERY_MAX_HOSTS cfg, DISCOVERY_SSH_PORT cfg).

Definition scan_network (cfg : discovery_settings) (req : incoming) (cidr : string) (port : option Z)
    : M (string * Z * list DiscoveryHost) :=
  _ ← require jwt ADMIN req;
  validate (valid_DiscoveryScanRequest cidr port);;
  match scan_outcome (scan cfg cidr port) with
  | Ok found => mret (cidr, Z.of_nat (length found), found)
  | Raise e => raise e
  end.
End DiscoveryRoutes.

Example decode_replace_examples :
  decode_replace [83; 83; 72; 195; 169; 255; 226; 130; 65; 240; 159; 152] =
  ("SSH" +:+ String (byte 195) (String (byte 169) (replacement (replacement ("A" +:+ replacement EmptyString)))))
  ∧ allowed_cidrs (DiscoverySettings true ["10.0.0.0/8"; " "; "10.0.0.0/24"; "10.0.0.0/8"] 256 22 32)
    = ["10.0.0.0/24"; "10.0.0.0/8"].
Proof. by vm_compute. Qed.

(** ** Safety of the scan *)

Lemma sort_by_id {A} (le : A → A → bool) (l : list A) :
  StronglySorted (λ a b, le a b = true) l → sort_by le l = l.
Proof.
  induction 1 as [|x l Hs IH Hx]; [done|]. simpl. rewrite IH.
  destruct l as [|y l]; [done|]. simpl. inversion_clear Hx as [|? ? Hxy _]. by rewrite Hxy.
Qed.

Lemma subnet_contains a n x : subnet_of a n = Some true → contains a x → contains n x.
Proof.
  unfold subnet_of, contains. case_bool_decide as Hv; [|done].
  intros [= [Hlow Hhigh%Z.leb_le]%andb_true_iff] [Hxv Hx]. split; [congruence|].
  apply orb_true_iff in Hlow as [Hlow%Z.ltb_lt|[Hlow%Z.eqb_eq _]%andb_true_iff]; lia.
Qed.

Section Safety.
Context `{!Sockets}.

Definition is_open (port : Z) (h : ip_address) : bool := (_probe (ip_str h) port).1.

Definition host_of (port : Z) (h : ip_address) : DiscoveryHost :=
  DiscoveryHostMk (ip_str h) port (_probe (ip_str h) port).2.

Lemma scan_results_filter port l :
  scan_results port l = host_of port <$> filter (λ h, is_open port h = true) l.
Proof.
  induction l as [|h l IH]; [done|]. unfold scan_results in *. simpl. rewrite filter_cons.
  assert (host_of port h = DiscoveryHostMk (ip_str h) port (_probe (ip_str h) port).2) as Hh by done.
  case_decide as Hd; unfold is_open in Hd; destruct (_probe (ip_str h) port) as [[|] banner]; try done; simpl in *.
  all: first [exact IH|rewrite Hh; by f_equal].
Qed.

Lemma sorted_sublist {A} (R : A → A → Prop) (l k : list A) : l `sublist_of` k → StronglySorted R k → StronglySorted R l.
Proof.
  induction 1 as [|x l k Hl IH|x l k Hl IH]; intros Hs; [constructor|..]; inversion_clear Hs as [|? ? Hk Hx].
  - constructor; [by apply IH|]. rewrite Forall_forall in *. intros y Hy. apply Hx. by eapply sublist_subseteq.
  - by apply IH.
Qed.

Lemma sorted_ip_nodup l : StronglySorted (λ a b, ip a < ip b) l → NoDup l.
Proof.
  induction 1 as [|x l Hs IH Hx]; constructor; [|done]. intros Hin. rewrite Forall_forall in Hx.
  specialize (Hx x Hin). lia.
Qed.

(** The open hosts are found in the order in which they are sorted. *)
Lemma sort_results_id port l :
  Forall address_ok l → StronglySorted (λ a b, ip a < ip b) l →
  sort_results (host_of port <$> l) = Ok (host_of port <$> l).
Proof.
  intros Hok Hs. unfold sort_results.
  assert (mapM (λ item, ip_address_of (host_ip item)) (host_of port <$> l) = Some l) as ->.
  { apply mapM_Some_2, Forall2_fmap_l, Forall_Forall2_diag. eapply Forall_impl; [exact Hok|].
    intros h Hh. by apply ip_str_read. }
  f_equal. rewrite sort_by_id; [apply snd_zip; by rewrite length_fmap|].
  clear Hok. induction Hs as [|h l Hs IH Hh]; [constructor|]. simpl. constructor; [done|].
  apply Forall_forall. intros [k r] Hin. apply elem_of_zip_l in Hin. rewrite Forall_forall in Hh. specialize (Hh k Hin). simpl.
  apply negb_true_iff, Z.ltb_ge. lia.
Qed.

(** The outcomes of a scan: refused, empty, or a scan of an allowed network. *)
Lemma scan_cases cfg cidr port :
  (∃ c m h, scan cfg cidr port = scan_refused c m h ∧ (h = 400 ∨ h = 403)) ∨
  ∃ target n entry, DISCOVERY_ENABLED cfg = true ∧ ip_network_of cidr = Some target ∧
    entry ∈ DISCOVERY_ALLOWED_CIDRS cfg ∧ ip_network_of entry = Some n ∧ subnet_of target n = Some true ∧
    Z.of_nat (length (hosts target)) <= DISCOVERY_MAX_HOSTS cfg ∧
    let p := scan_port cfg port in
    scan cfg cidr port = ScanRun ((λ h, (ip_str h, p)) <$> hosts target) (Ok (scan_results p (hosts target))).
Proof.
  unfold scan. destruct (DISCOVERY_ENABLED cfg); cbn [negb]; [|left; repeat eexists; by right].
  destruct (_parse_networks (DISCOVERY_ALLOWED_CIDRS cfg)) as [|n0 ns] eqn:Hallowed; [left; repeat eexists; by right|].
  destruct (ip_network_of cidr) as [target|] eqn:Ht; [|left; repeat eexists; by left].
  destruct (_is_within_allowed target (n0 :: ns)) eqn:Hin; cbn [negb]; [|left; repeat eexists; by right].
  destruct (Z.ltb_spec (DISCOVERY_MAX_HOSTS cfg) (Z.of_nat (length (hosts target)))) as [|Hmax];
    [left; repeat eexists; by left|]. right.
  unfold _is_within_allowed in Hin. rewrite existsb_exists in Hin. destruct Hin as (n & Hn & Hsub).
  rewrite <- Hallowed in Hn. apply list_elem_of_In, list_elem_of_omap in Hn as (entry & Hentry & Hn).
  exists target, n, entry. split_and!; [done|done|done|done| |done|].
  { destruct (subnet_of target n) as [b|]; [|done]. simpl in Hsub. by subst. }
  destruct (hosts_facts target (ip_network_of_ok _ _ Ht)) as [Hok Hsorted].
  destruct (length (hosts target) =? 0)%nat eqn:Hlen.
  - apply Nat.eqb_eq, length_zero_iff_nil in Hlen. by rewrite Hlen.
  - cbv zeta. f_equal. rewrite scan_results_filter. apply sort_results_id.
    + apply Forall_forall. intros a [_ Ha]%list_elem_of_filter. rewrite Forall_forall in Hok. by apply Hok.
    + eapply sorted_sublist; [apply sublist_filter|exact Hsorted].
Qed.

Lemma scan_accepts cfg cidr port target :
  DISCOVERY_ENABLED cfg = true → ip_network_of cidr = Some target →
  _is_within_allowed target (_parse_networks (DISCOVERY_ALLOWED_CIDRS cfg)) = true →
  Z.of_nat (length (hosts target)) <= DISCOVERY_MAX_HOSTS cfg →
  contacted (scan cfg cidr port) = (λ h, (ip_str h, scan_port cfg port)) <$> hosts target.
Proof.
  intros Hen Ht Hin Hmax. unfold scan. rewrite Hen, Ht. cbn [negb].
  destruct (_parse_networks (DISCOVERY_ALLOWED_CIDRS cfg)); [done|]. rewrite Hin. cbn [negb].
  rewrite (proj2 (Z.ltb_ge _ _)) by done. destruct (length (hosts target) =? 0)%nat eqn:Hl; [|done].
  apply Nat.eqb_eq, length_zero_iff_nil in Hl. by rewrite Hl.
Qed.

(** C33: a scan only ever contacts addresses within a network of the white list,
    on the port it was asked for, each at most once and no more of them than
    the limit; a refused or failed scan contacts nothing.  Its result is
    exactly the hosts that answered, in ascending order: it never fails once
    the scan has begun.  A readable network within the white list and the
    limit is scanned completely. *)
Theorem scan_safe (cfg : discovery_settings) (cidr : string) (port : option Z) :
  let r := scan cfg cidr port in
  (∀ text p, (text, p) ∈ contacted r → DISCOVERY_ENABLED cfg = true ∧ p = scan_port cfg port ∧
     ∃ a entry n, entry ∈ DISCOVERY_ALLOWED_CIDRS cfg ∧ ip_network_of entry = Some n ∧
       ip_address_of text = Some a ∧ contains n a) ∧
  NoDup (contacted r) ∧
  (contacted r = [] ∨ Z.of_nat (length (contacted r)) <= DISCOVERY_MAX_HOSTS cfg) ∧
  match scan_outcome r with
  | Raise e => contacted r = [] ∧ ∃ c m h, e = AppException c m h ∧ (h = 400 ∨ h = 403)
  | Ok found =>
    (∀ x, x ∈ found ↔ (host_ip x, host_port x) ∈ contacted r ∧
       _probe (host_ip x) (host_port x) = (true, host_banner x)) ∧
    ∃ l, mapM (λ x, ip_address_of (host_ip x)) found = Some l ∧ StronglySorted (λ a b, ip a < ip b) l
  end ∧
  (∀ target, DISCOVERY_ENABLED cfg = true → ip_network_of cidr = Some target →
     _is_within_allowed target (_parse_networks (DISCOVERY_ALLOWED_CIDRS cfg)) = true →
     Z.of_nat (length (hosts target)) <= DISCOVERY_MAX_HOSTS cfg →
     contacted r = (λ h, (ip_str h, scan_port cfg port)) <$> hosts target).
Proof.
  pose proof (scan_accepts cfg cidr port) as Hacc. cbv zeta. revert Hacc.
  destruct (scan_cases cfg cidr port) as [(c & m & h & -> & Hh)|(target & n & entry & Hen & Ht & Hentry & Hn & Hsub & Hmax & Hscan)].
  { intros Hacc. simpl in *. split_and!; [by intros ? ? ?%elem_of_nil|constructor|by left|done|by exists c, m, h|exact Hacc]. }
  cbv zeta in *. rewrite Hscan. cbn [contacted scan_outcome]. clear Hscan. intros Hacc. set (p := scan_port cfg port).
  destruct (hosts_facts target (ip_network_of_ok _ _ Ht)) as [Hok Hsorted]. rewrite Forall_forall in Hok.
  split_and!.
  - intros text q (a & [= -> ->] & Ha)%list_elem_of_fmap. destruct (Hok a Ha) as [Hc Haok].
    split_and!; [done..|]. exists a, entry, n. split_and!; [done|done|by apply ip_str_read|by eapply subnet_contains].
  - apply NoDup_fmap_2_strong; [|by apply sorted_ip_nodup].
    intros a b Ha Hb [= He]. pose proof (ip_str_read a (proj2 (Hok a Ha))) as Hra.
    pose proof (ip_str_read b (proj2 (Hok b Hb))) as Hrb. congruence.
  - right. by rewrite length_fmap.
  - rewrite scan_results_filter. intros x. rewrite list_elem_of_fmap. split.
    + intros (a & -> & [Hopen Ha]%list_elem_of_filter). split; [apply list_elem_of_fmap; by exists a|].
      unfold is_open in Hopen. simpl. by destruct (_probe (ip_str a) p) as [[] banner].
    + intros [(a & [= Hip Hport] & Ha)%list_elem_of_fmap Hp]. exists a. rewrite Hip, Hport in Hp. split.
      * destruct x as [xi xp xb]. simpl in *. unfold host_of. by rewrite Hp, Hip, Hport.
      * apply list_elem_of_filter. split; [unfold is_open; by rewrite Hp|done].
  - rewrite scan_results_filter. exists (filter (λ h, is_open p h = true) (hosts target)). split.
    + apply mapM_Some_2, Forall2_fmap_l, Forall_Forall2_diag, Forall_forall.
      intros a [_ Ha]%list_elem_of_filter. apply ip_str_read, Hok, Ha.
    + eapply sorted_sublist; [apply sublist_filter|exact Hsorted].
  - exact Hacc.
Qed.
End Safety.

(** ** An instance *)

(** Two hosts of the network answer, one of them without a banner. *)
#[export] Instance toy_sockets : Sockets := {|
  connect_ex inet6 address port := if bool_decide (address ∈ ["10.1.0.1"; "10.1.0.2"]) then Some 0 else Some 111;
  recv address port := if String.eqb address "10.1.0.1" then Some [83; 83; 72; 10] else None
|}.

Definition toy_discovery : discovery_settings := DiscoverySettings true ["10.1.0.0/24"; "bad"] 256 22 32.

Example toy_scan :
  scan toy_discovery "10.1.0.1/29" None =
    ScanRun ((λ h, (h, 22)) <$> ["10.1.0.1"; "10.1.0.2"; "10.1.0.3"; "10.1.0.4"; "10.1.0.5"; "10.1.0.6"])
      (Ok [DiscoveryHostMk "10.1.0.1" 22 (Some "SSH"); DiscoveryHostMk "10.1.0.2" 22 None]) ∧
  scan toy_discovery "10.0.0.0/8" None = scan_refused FORBIDDEN "目标网段超出允许扫描的白名单范围" 403 ∧
  scan toy_discovery "nonsense" None = scan_refused BAD_REQUEST "CIDR 格式非法" 400.
Proof. by vm_compute. Qed.
