(* ===== verification/AgentWorker.v ===== *)
(** * The agent's task worker (agent/worker.py, agent/errors.py, agent/executor/service.py)

    A round of the worker takes the tasks that [fetch_pending] handed out, runs
    each through the service executor and reports the outcome.  Subprocesses
    are a parameter; the commands that were started are recorded. *)
From Stdlib Require Import QArith.
From S2P Require Import Prelude.
From S2P Require Export AgentClient TaskService.

(** ** Error classes (agent/errors.py) *)

Module errors.
Definition COMMAND_NOT_FOUND : string := "COMMAND_NOT_FOUND".
Definition PERMISSION_DENIED : string := "PERMISSION_DENIED".
Definition AGENT_EXECUTION_TIMEOUT : string := "AGENT_EXECUTION_TIMEOUT".
Definition SERVICE_NOT_WHITELISTED : string := "SERVICE_NOT_WHITELISTED".
Definition TASK_ACTION_INVALID : string := "TASK_ACTION_INVALID".
Definition SERVICE_UNHEALTHY : string := "SERVICE_UNHEALTHY".
Definition UNKNOWN : string := "UNKNOWN".
End errors.

Definition contains_any (words : list string) (text : string) : bool := existsb (λ w, py_contains w text) words.

Definition classify_failure (output : option string) : string :=
  let text := py_lower (default EmptyString output) in
  if contains_any ["超时"; "timeout"] text then errors.AGENT_EXECUTION_TIMEOUT
  else if contains_any ["not found"; "not-found"; "no such file"; "unknown service"] text then errors.COMMAND_NOT_FOUND
  else if contains_any ["permission"; "access denied"; "authentication"] text then errors.PERMISSION_DENIED
  else if contains_any ["failed"; "inactive"; "dead"] text then errors.SERVICE_UNHEALTHY
  else errors.UNKNOWN.

Definition classify_validation_error (message : string) : string :=
  if py_contains "白名单" message || py_contains "whitelist" (py_lower message)
  then errors.SERVICE_NOT_WHITELISTED else errors.TASK_ACTION_INVALID.

(** ** The service executor (agent/executor/service.py) *)

(** How [subprocess.run(..., text=True)] ends; the texts are [str(exc)].
    [BadValue] is a [ValueError]: a NUL byte in an argument, or output that is
    not UTF-8. *)
Inductive process :=
  | Completed (returncode : Z) (stdout stderr : string)
  | TimeoutExpired (text : string)
  | OsError (text : string)
  | BadValue (text : string)
  | OtherError (text : string).

(** The [n]-th process: its arguments and its time limit in seconds. *)
Class Subprocess := run_process : nat → list string → Z → process.

Definition ALLOWED_ACTIONS : list string := ["STATUS"; "START"; "STOP"; "RESTART"].

Definition ACTION_COMMANDS : list (string * list string) :=
  [("STATUS", ["systemctl"; "is-active"]); ("START", ["systemctl"; "start"]);
   ("STOP", ["systemctl"; "stop"]); ("RESTART", ["systemctl"; "restart"])].

(** [ACTION_COMMANDS[action]]. *)
Fixpoint command_of (action : option string) (l : list (string * list string)) : option (list string) :=
  match l with
  | [] => None
  | (a, c) :: l' => if bool_decide (action = Some a) then Some c else command_of action l'
  end.

Definition LOG_LINES_DEFAULT : Z := 200.

(** What the executor returns: [(success, output)], a [ValueError] or another
    exception, with the exception's text. *)
Inductive execution :=
  | Finished (success : bool) (output : string)
  | RaisesValueError (text : string)
  | RaisesOther (text : string).

(** [str(o)] of an optional string. *)
Definition py_str_opt (o : option string) : string := default "None" o.

(** [(a or b or "")]. *)
Definition first_nonempty (a b : string) : string := if String.eqb a EmptyString then b else a.

Section Executor.
Context `{!Subprocess} (allowed : list string).

(** [ServiceExecutor.validate]; [Some] is the text of the [ValueError]. *)
Definition validate (service action : option string) : option string :=
  if negb (bool_decide (service ∈ Some <$> allowed))
  then Some ("服务 " +:+ py_str_opt service +:+ " 不在白名单内，拒绝执行")
  else if negb (bool_decide (action ∈ Some <$> ALLOWED_ACTIONS))
  then Some ("不允许的操作类型: " +:+ py_str_opt action)
  else None.

(** The commands started so far, oldest first. *)
Abbreviation commands := (list (list string)) (only parsing).

Definition run_action (service action : option string) (timeout : Z) (log : commands) : execution * commands :=
  match validate service action with
  | Some text => (RaisesValueError text, log)
  | None =>
    match command_of action ACTION_COMMANDS, service with
    | Some command, Some s =>
      let argv := command ++ [s] in
      (match run_process (length log) argv timeout with
       | Completed returncode stdout stderr =>
         if returncode =? 0 then Finished true (py_strip stdout)
         else Finished false (py_strip (first_nonempty stderr stdout))
       | TimeoutExpired _ => Finished false ("执行超时（" +:+ py_str timeout +:+ "s）")
       | OsError text => Finished false ("执行失败: " +:+ text)
       | BadValue text => RaisesValueError text
       | OtherError text => RaisesOther text
       end, log ++ [argv])
    | _, _ => (RaisesOther "KeyError", log)
    end
  end.

Definition fetch_logs (service : option string) (lines : Z) (log : commands) : execution * commands :=
  match validate service (Some "STATUS"), service with
  | Some text, _ => (RaisesValueError text, log)
  | None, Some s =>
    let argv := ["journalctl"; "-n"; py_str lines; "-u"; s; "--no-pager"] in
    (match run_process (length log) argv 30 with
     | Completed returncode stdout stderr =>
       Finished (returncode =? 0) (py_strip (first_nonempty stdout stderr))
     | TimeoutExpired text | OsError text => Finished false ("获取日志失败: " +:+ text)
     | BadValue text => RaisesValueError text
     | OtherError text => RaisesOther text
     end, log ++ [argv])
  | None, None => (RaisesOther "TypeError", log)
  end.

(** ** The worker (agent/worker.py) *)

(** The branch of [_execute_one] before the report. *)
Definition execute (task : claim) (log : commands) : execution * commands :=
  if bool_decide (claim_action task = Some "LOGS") then fetch_logs (claim_service_name task) LOG_LINES_DEFAULT log
  else run_action (claim_service_name task) (claim_action task) (claim_timeout_seconds task) log.

(** The report of an outcome. *)
Definition report_of (task : claim) (outcome : execution) : task_report :=
  let id := claim_execution_id task in
  match outcome with
  | RaisesValueError text => TaskReport id "FAILED" None (Some text) (Some (classify_validation_error text)) None
  | RaisesOther text => TaskReport id "FAILED" None (Some text) (Some errors.UNKNOWN) None
  | Finished true output =>
    TaskReport id "SUCCESS" (Some output) None None
      (if bool_decide (claim_action task = Some "LOGS") then Some output else None)
  | Finished false output => TaskReport id "FAILED" None (Some output) (Some (classify_failure (Some output))) None
  end.

(** [_execute_one] and [poll_once]: [report] posts one report and says whether
    it arrived; an exception of a report is logged, and the round goes on. *)
Context {T : Type} (report : task_report → T → T * bool).

Definition _execute_one (task : claim) (log : commands) (st : T) : commands * T * bool :=
  let '(outcome, log') := execute task log in
  let '(st', arrived) := report (report_of task outcome) st in
  (log', st', arrived).

(** The number of tasks processed, and what is left of the commands and the
    transport. *)
Fixpoint poll_tasks (pending : list claim) (log : commands) (st : T) (processed : Z) : commands * T * Z :=
  match pending with
  | [] => (log, st, processed)
  | task :: pending' =>
    let '(log', st', arrived) := _execute_one task log st in
    poll_tasks pending' log' st' (if arrived then processed + 1 else processed)
  end.

Definition poll_once (pending : list claim) (log : commands) (st : T) : commands * T * Z :=
  poll_tasks pending log st 0.
End Executor.

(** [report_task_result] through the client as the report of the worker: the
    fuel is enough for every request. *)
Definition client_report `{K : Ed25519Keys} `{!Uuids} (random : nat → Q) {T : Type}
    (send : http_request → T → T * reply) (client : AgentClient) (now : datetime) (n : nat)
    (r : task_report) (st : T) : T * bool :=
  match report_task_result random send client (S (Z.to_nat (_retry_max_count client))) r now n st with
  | Some (st', _, inl _) => (st', true)
  | Some (st', _, inr _) => (st', false)
  | None => (st, false)
  end.
