(* ===== verification/AgentCollect.v ===== *)
(** * The agent's collectors (agent/collector)

    What the collectors make of what psutil, the operating system and
    [systemctl] tell them.  These are parameters: [host] is what they show
    during one collection, [Subprocess] the commands that are run.  [None] is
    an exception that leaves the collector. *)
From Stdlib Require Import QArith.
From S2P Require Import Prelude.
From S2P Require Export AgentWorker.

(** ** The machine *)

(** How the iteration over the lines of a text file ends; a file that cannot be
    opened has no lines and ends with [OSError].  Other exceptions are those of
    the decoder. *)
Inductive file_end := EndOfFile | EndOSError | EndOtherError.
Record text_file := TextFile { file_lines : list string; file_end_ : file_end }.

Record partition := Partition { device : string; mountpoint : string; fstype : string }.

(** An address of an interface, with its family. *)
Record if_addr := IfAddr { family : Z; address : string }.

Record host := Host {
  cpu_percent : Q;
  cpu_count : option Z;
  open_file : string → text_file;
  (** [virtual_memory()]. *)
  vm_total : Z; vm_used : Z; vm_percent : Q;
  (** [disk_usage(path)]: total and percent; [None]: [OSError]. *)
  disk_usage : string → option (Z * Q);
  disk_partitions : list partition;
  (** [net_io_counters()]: sent and received; [None] without an interface. *)
  net_io_counters : option (Z * Z);
  net_if_addrs : list (string * list if_addr);
  AF_LINK : Z;
  (** [getattr(psutil, "AF_INET", None)]. *)
  AF_INET : option Z;
  (** [os.getloadavg()]; [None]: [OSError]. *)
  getloadavg : option (Q * Q * Q);
  time_time : Q; boot_time : Q;
  gethostname : string;
  platform_system : string; platform_release : string; platform_machine : string
}.

(** [line.split(c, 1)[1]]; [None]: [IndexError]. *)
Definition after_first (c : Ascii.ascii) (line : string) : option string := (py_partition c line).2.

(** [s.strip(c)] of one character. *)
Fixpoint lstrip_char (c : Ascii.ascii) (s : string) : string :=
  match s with String a s' => if Ascii.eqb a c then lstrip_char c s' else s | EmptyString => EmptyString end.
Fixpoint rstrip_char (c : Ascii.ascii) (s : string) : string :=
  match s with
  | EmptyString => EmptyString
  | String a s' => match rstrip_char c s' with
                   | EmptyString => if Ascii.eqb a c then EmptyString else String a EmptyString
                   | t => String a t
                   end
  end.
Definition strip_char (c : Ascii.ascii) (s : string) : string := rstrip_char c (lstrip_char c s).

Definition starts_with (p s : string) : bool := String.prefix p s.

(** ** cpu.py *)

Module cpu.
Record CPUInfo := Mk { usage_percent : Q; cores : Z; model : option string }.

Fixpoint model_in (lines : list string) (e : file_end) : option (option string) :=
  match lines with
  | line :: lines' =>
    if starts_with "model name" line then (Some ∘ py_strip) <$> after_first (byte 58) line else model_in lines' e
  | [] => match e with EndOtherError => None | _ => Some None end
  end.

Definition _read_cpu_model (h : host) : option (option string) :=
  let f := open_file h "/proc/cpuinfo" in model_in (file_lines f) (file_end_ f).

Definition collect (h : host) : option CPUInfo :=
  model ← _read_cpu_model h;
  Some (Mk (py_round (cpu_percent h) 2) (default 0 (cpu_count h)) model).
End cpu.

(** ** disk.py *)

Module disk.
Record DiskAsset := Mk {
  device_name : string; mount_point : string; filesystem : option string; total_bytes : option Z
}.

Definition collect_usage_percent (h : host) : Q :=
  match disk_usage h "/" with Some (_, percent) => py_round percent 2 | None => 0 end.

Definition collect_assets (h : host) : list DiskAsset :=
  omap (λ p, '(total, _) ← disk_usage h (mountpoint p);
             Some (Mk (device p) (mountpoint p) (Some (fstype p)) (Some total))) (disk_partitions h).
End disk.

(** ** memory.py *)

Module memory.
Record MemoryInfo := Mk { total_bytes : Z; used_bytes : Z; usage_percent : Q }.

Definition collect (h : host) : MemoryInfo := Mk (vm_total h) (vm_used h) (py_round (vm_percent h) 2).
End memory.

(** ** network.py *)

Module network.
Record NetworkInfo := CountsMk { bytes_sent : Z; bytes_recv : Z }.
Record NetworkAsset := Mk { interface_name : string; mac_address : option string; ip_address : option string }.

Definition collect_counts (h : host) : option NetworkInfo :=
  '(sent, received) ← net_io_counters h; Some (CountsMk sent received).

(** [next((a.address for a in addrs if a.family == family), None)]. *)
Definition first_address (wanted : option Z) (addrs : list if_addr) : option string :=
  address <$> head (filter (λ a, Some (family a) = wanted) addrs).

Definition collect_assets (h : host) : list NetworkAsset :=
  omap (λ '(interface, addrs),
    if String.eqb interface "lo" then None else
    Some (Mk interface (first_address (Some (AF_LINK h)) addrs) (first_address (AF_INET h) addrs)))
    (net_if_addrs h).
End network.

(** ** system.py *)

Module system.
Record SystemInfo := Mk {
  load_1m : Q; load_5m : Q; load_15m : Q;
  tcp_connections : Z; uptime_seconds : Z; hostname : string; kernel_version : string
}.

(** What one file adds to the total. *)
Definition connections_in (f : text_file) : option Z :=
  match file_end_ f with
  | EndOfFile => Some (Z.of_nat (length (file_lines f)) - 1)
  | EndOSError => Some 0
  | EndOtherError => None
  end.

Definition _read_tcp_connections (h : host) : option Z :=
  a ← connections_in (open_file h "/proc/net/tcp");
  b ← connections_in (open_file h "/proc/net/tcp6");
  Some (Z.max (a + b) 0).

Definition collect (h : host) : option SystemInfo :=
  '(l1, l5, l15) ← getloadavg h;
  connections ← _read_tcp_connections h;
  Some (Mk (py_round l1 2) (py_round l5 2) (py_round l15 2) connections
    (py_int (fl (time_time h - boot_time h))) (gethostname h) (platform_release h)).
End system.

(** ** service.py *)

Module service.
Definition ACTION_TIMEOUT : Z := 10.

Definition STATUS_MAP : list (string * string) :=
  [("active", "RUNNING"); ("inactive", "STOPPED"); ("failed", "FAILED")].

Section Services.
Context `{!Subprocess}.

Definition status_of (output : string) : string :=
  default "UNKNOWN" (snd <$> find (λ p, String.eqb p.1 output) STATUS_MAP).

(** The [n]-th process. *)
Definition _is_active (n : nat) (name : string) : option string :=
  match run_process n ["systemctl"; "is-active"; name] ACTION_TIMEOUT with
  | Completed returncode stdout _ =>
    Some (if returncode =? 0 then "RUNNING" else status_of (py_lower (py_strip stdout)))
  | TimeoutExpired _ | OsError _ => Some "UNKNOWN"
  | BadValue _ | OtherError _ => None
  end.

Fixpoint collect_services (n : nat) (services : list string) : option (list (string * string)) :=
  match services with
  | [] => Some []
  | name :: services' =>
    current_status ← _is_active n name;
    rest ← collect_services (S n) services';
    Some ((name, current_status) :: rest)
  end.
End Services.
End service.

(** ** The aggregate (collector/__init__.py) *)

Definition opt_int (o : option Z) : json := match o with Some n => JInt n | None => JNull end.

Definition collect_metrics (h : host) : option (list (string * json)) :=
  cpu_info ← cpu.collect h;
  let mem_info := memory.collect h in
  net_info ← network.collect_counts h;
  sys_info ← system.collect h;
  Some [("cpu_usage", JFloat (cpu.usage_percent cpu_info));
        ("memory_usage", JFloat (memory.usage_percent mem_info));
        ("memory_used_bytes", JInt (memory.used_bytes mem_info));
        ("disk_usage", JFloat (disk.collect_usage_percent h));
        ("network_in_bytes", JInt (network.bytes_recv net_info));
        ("network_out_bytes", JInt (network.bytes_sent net_info));
        ("load_1m", JFloat (system.load_1m sys_info));
        ("load_5m", JFloat (system.load_5m sys_info));
        ("load_15m", JFloat (system.load_15m sys_info));
        ("tcp_connections", JInt (system.tcp_connections sys_info));
        ("uptime_seconds", JInt (system.uptime_seconds sys_info))].

Fixpoint os_name_in (lines : list string) (e : file_end) (release : string) : option string :=
  match lines with
  | line :: lines' =>
    if starts_with "PRETTY_NAME=" line then (strip_char (byte 34) ∘ py_strip) <$> after_first (byte 61) line
    else os_name_in lines' e release
  | [] => match e with EndOtherError => None | _ => Some release end
  end.

Definition _os_version (h : host) : option string :=
  let f := open_file h "/etc/os-release" in os_name_in (file_lines f) (file_end_ f) (platform_release h).

Definition collect_system_info (h : host) : option (list (string * json)) :=
  cpu_info ← cpu.collect h;
  let mem_info := memory.collect h in
  let disk_total := foldr Z.add 0 ((λ d, default 0 (disk.total_bytes d)) <$> disk.collect_assets h) in
  sys_info ← system.collect h;
  os_version ← _os_version h;
  Some [("hostname", JStr (system.hostname sys_info));
        ("os_name", JStr (platform_system h));
        ("os_version", JStr os_version);
        ("kernel_version", JStr (system.kernel_version sys_info));
        ("architecture", JStr (platform_machine h));
        ("cpu_model", opt_str (cpu.model cpu_info));
        ("cpu_cores", JInt (cpu.cores cpu_info));
        ("memory_total_bytes", JInt (memory.total_bytes mem_info));
        ("disk_total_bytes", JInt disk_total)].

(** [a.__dict__]. *)
Definition disk_dict (a : disk.DiskAsset) : json :=
  JDict [("device_name", JStr (disk.device_name a)); ("mount_point", JStr (disk.mount_point a));
         ("filesystem", opt_str (disk.filesystem a)); ("total_bytes", opt_int (disk.total_bytes a))].

Definition network_dict (a : network.NetworkAsset) : json :=
  JDict [("interface_name", JStr (network.interface_name a)); ("mac_address", opt_str (network.mac_address a));
         ("ip_address", opt_str (network.ip_address a))].

Definition collect_assets (h : host) : list (string * json) :=
  [("disks", JList (disk_dict <$> disk.collect_assets h)); ("networks", JList (network_dict <$> network.collect_assets h))].

Definition service_dict (p : string * string) : json :=
  JDict [("service_name", JStr p.1); ("current_status", JStr p.2)].
