(* ===== verification/WorkerProps.v ===== *)
(** * What the agent's worker guarantees

    Only whitelisted commands are ever started, every task is reported once,
    and what the server makes of those reports: each is final, so that a system
    of such agents never retries anything. *)
From S2P Require Import Prelude.
From S2P Require Export AgentWorker TaskProps Confined.
From S2P Require Import Samples.

(** ** A round of the worker *)

(** The commands the agent may start for a whitelist. *)
Definition allowed_command (allowed : list string) (argv : list string) : Prop :=
  ∃ s, s ∈ allowed ∧
    ((∃ verb, verb ∈ ["is-active"; "start"; "stop"; "restart"] ∧ argv = ["systemctl"; verb; s]) ∨
     argv = ["journalctl"; "-n"; "200"; "-u"; s; "--no-pager"]).

Section Worker.
Context `{!Subprocess} (allowed : list string).

Lemma validate_ok service action : validate allowed service action = None →
  ∃ s a, service = Some s ∧ s ∈ allowed ∧ action = Some a ∧ a ∈ ALLOWED_ACTIONS.
Proof.
  unfold validate. destruct (bool_decide (service ∈ Some <$> allowed)) eqn:Hs; [|done].
  destruct (bool_decide (action ∈ Some <$> ALLOWED_ACTIONS)) eqn:Ha; [|done]. intros _.
  apply bool_decide_eq_true, list_elem_of_fmap in Hs as (s & -> & Hs).
  apply bool_decide_eq_true, list_elem_of_fmap in Ha as (a & -> & Ha). by exists s, a.
Qed.

Lemma command_of_allowed a : a ∈ ALLOWED_ACTIONS →
  ∃ verb, verb ∈ ["is-active"; "start"; "stop"; "restart"] ∧
    command_of (Some a) ACTION_COMMANDS = Some ["systemctl"; verb].
Proof.
  unfold ALLOWED_ACTIONS. rewrite !elem_of_cons, elem_of_nil.
  intros [->|[->|[->|[->|[]]]]]; [exists "is-active"|exists "start"|exists "stop"|exists "restart"];
    (split; [apply (bool_decide_unpack _); by vm_compute|reflexivity]).
Qed.

(** One task starts at most one command, and only an allowed one. *)
Lemma execute_allowed task log outcome log' :
  execute allowed task log = (outcome, log') →
  log' = log ∨ ∃ argv, log' = log ++ [argv] ∧ allowed_command allowed argv.
Proof.
  unfold execute. destruct (bool_decide _).
  - unfold fetch_logs. destruct (validate allowed _ (Some "STATUS")) eqn:Hv; [intros [= _ <-]; by left|].
    apply validate_ok in Hv as (s & a & -> & Hs & _). intros [= _ <-]. right.
    eexists. split; [done|]. exists s. split; [done|]. by right.
  - unfold run_action. destruct (validate allowed _ _) eqn:Hv; [intros [= _ <-]; by left|].
    apply validate_ok in Hv as (s & a & -> & Hs & -> & Ha).
    destruct (command_of_allowed a Ha) as (verb & Hverb & ->). intros [= _ <-]. right.
    eexists. split; [done|]. exists s. split; [done|]. left. by exists verb.
Qed.

(** A task that the executor refuses starts nothing. *)
Lemma execute_refused task log :
  claim_service_name task ∉ Some <$> allowed →
  execute allowed task log =
    (RaisesValueError ("服务 " +:+ py_str_opt (claim_service_name task) +:+ " 不在白名单内，拒绝执行"), log).
Proof.
  intros Hs. unfold execute, fetch_logs, run_action, validate.
  rewrite !(bool_decide_eq_false_2 (claim_service_name task ∈ _)) by done. by destruct (bool_decide _).
Qed.

Section Round.
Context {T : Type} (report : task_report → T → T * bool).

(** Posting a list of reports, and how many arrive. *)
Fixpoint post_all (rs : list task_report) (st : T) : T * Z :=
  match rs with
  | [] => (st, 0)
  | r :: rs' =>
    let '(st', arrived) := report r st in
    let '(st'', count) := post_all rs' st' in
    (st'', if arrived then count + 1 else count)
  end.

Lemma poll_tasks_spec pending log st processed :
  ∃ rs cmds st' count, poll_tasks allowed report pending log st processed = (log ++ cmds, st', processed + count) ∧
    post_all rs st = (st', count) ∧
    Forall (allowed_command allowed) cmds ∧ (length cmds ≤ length pending)%nat ∧
    Forall2 (λ task r, ∃ seen outcome log', execute allowed task seen = (outcome, log') ∧ r = report_of task outcome)
      pending rs.
Proof.
  revert log st processed. induction pending as [|task pending IH]; intros log st processed.
  { exists [], [], st, 0. simpl. rewrite app_nil_r, Z.add_0_r. split_and!; [done|done|constructor|done|constructor]. }
  simpl. unfold _execute_one. destruct (execute allowed task log) as [outcome log'] eqn:Hex.
  destruct (report (report_of task outcome) st) as [st1 arrived] eqn:Hrep.
  destruct (IH log' st1 (if arrived then processed + 1 else processed))
    as (rs & cmds & st' & count & Hrun & Hpost & Hcmds & Hlen & Hrs). rewrite Hrun.
  exists (report_of task outcome :: rs).
  destruct (execute_allowed _ _ _ _ Hex) as [->|(argv & -> & Hargv)]; [exists cmds|exists (argv :: cmds)];
    (exists st', (if arrived then count + 1 else count); split_and!;
     [rewrite <- ?app_assoc; f_equal; destruct arrived; lia
     |simpl; by rewrite Hrep, Hpost
     |by try constructor
     |simpl; lia
     |constructor; [exists log, outcome; by eexists|done]]).
Qed.

(** Whatever tasks the server hands out, a round of the worker only starts
    [systemctl] with one of the four verbs, or [journalctl], on a service of
    the agent's whitelist, at most one command per task; and it posts exactly
    one report per task, in order, of that task's outcome. *)
Theorem poll_once_safe (pending : list claim) (log : list (list string)) (st : T) :
  ∃ rs cmds st' count, poll_once allowed report pending log st = (log ++ cmds, st', count) ∧
    post_all rs st = (st', count) ∧
    Forall (allowed_command allowed) cmds ∧ (length cmds ≤ length pending)%nat ∧
    Forall2 (λ task r, ∃ seen outcome log', execute allowed task seen = (outcome, log') ∧ r = report_of task outcome)
      pending rs.
Proof.
  destruct (poll_tasks_spec pending log st 0) as (rs & cmds & st' & count & Hrun & Hrest). by exists rs, cmds, st', count.
Qed.
End Round.
End Worker.

(** ** The reports on the server *)

Definition agent_error_types : list string :=
  [errors.COMMAND_NOT_FOUND; errors.PERMISSION_DENIED; errors.AGENT_EXECUTION_TIMEOUT; errors.SERVICE_NOT_WHITELISTED;
   errors.TASK_ACTION_INVALID; errors.SERVICE_UNHEALTHY; errors.UNKNOWN].

Lemma classify_failure_known output : classify_failure output ∈ agent_error_types.
Proof. unfold classify_failure. repeat case_match; apply (bool_decide_unpack _); by vm_compute. Qed.

Lemma classify_validation_known m : classify_validation_error m ∈ agent_error_types.
Proof. unfold classify_validation_error. case_match; apply (bool_decide_unpack _); by vm_compute. Qed.

Lemma agent_error_final (ty : string) (m : option string) : ty ∈ agent_error_types → is_retryable (Some ty) m = false.
Proof.
  unfold agent_error_types. rewrite !elem_of_cons, elem_of_nil.
  intros [->|[->|[->|[->|[->|[->|[->|[]]]]]]]]; by vm_compute.
Qed.

(** Every failure the worker reports carries an error type that the server does
    not retry. *)
Lemma report_of_cases (task : claim) (outcome : execution) :
  let r := report_of task outcome in
  execution_id r = claim_execution_id task ∧
  (status r = "SUCCESS" ∨ status r = "FAILED" ∧ is_retryable (error_type r) (error_message r) = false).
Proof.
  destruct outcome as [[]| |]; simpl; (split; [done|]); [by left|right; split; [done|]..];
    apply agent_error_final;
    [apply classify_failure_known|apply classify_validation_known|apply (bool_decide_unpack _); by vm_compute].
Qed.

Section Server.
Context `{E : Env} `{!EnvOk E} `{!Cron}.

(** Whatever happens to a task on the agent, the report of the worker is
    final on the server: the execution ends SUCCESS or FAILED and its task is
    aggregated; no failure of this agent is ever scheduled for a retry, not
    even time-outs, however many attempts are left. *)
Theorem agent_report_final (d : db) (task : claim) (outcome : execution) (e : OpsTaskExecution) (t : OpsTask) (n : nat) :
  reachable d → execs d !! claim_execution_id task = Some e →
  tasks d !! OpsTaskExecution.task_id e = Some t → exec_terminal (OpsTaskExecution.status e) = false →
  let r := report_of task outcome in
  ∃ e' d' n',
    run (report_result (OpsTaskExecution.server_id e) (execution_id r) (status r) None (result_text r)
           (error_message r) (error_type r) (logs r)) d n = (Ok (execution_id r), d', n') ∧
    execs d' = <[claim_execution_id task := e']> (execs d) ∧
    OpsTaskExecution.status e' = (if String.eqb (status r) "SUCCESS" then E_SUCCESS else E_FAILED) ∧
    settled (claim_execution_id task) e' (OpsTaskExecution.task_id e) t d d'.
Proof.
  intros Hd He Ht Hlive r. destruct (report_of_cases task outcome) as [Hid Hst]. fold r in Hid, Hst.
  destruct (run_report_result d (execution_id r) (OpsTaskExecution.server_id e) e t n (status r) None
    (result_text r) (error_message r) (error_type r) (logs r)) as (e' & d' & n' & Hrun & Hrow & Hset);
    [done|by rewrite Hid|done..|].
  exists e', d', n'. rewrite Hid in Hset. split_and!; [exact Hrun| | |exact Hset].
  - exact (settled_execs _ _ _ _ _ _ Hset).
  - revert Hrow. unfold report_row. destruct Hst as [->|[-> Hret]]; [by intros (_ & -> & _)|].
    simpl. unfold failure_row. rewrite Hret. tauto.
Qed.
End Server.

(** ** Instances *)

(** Every process succeeds and prints nothing, except restarts, which run out
    of time. *)
#[export] Instance toy_processes : Subprocess := λ _ argv _,
  if bool_decide (argv = ["systemctl"; "restart"; "nginx"]) then TimeoutExpired "timed out"
  else Completed 0 EmptyString EmptyString.

Definition sample_tasks : list claim :=
  [Claim 1 1 (Some "RESTART") (Some "nginx") 60; Claim 2 2 (Some "START") (Some "sshd") 60;
   Claim 3 3 (Some "LOGS") (Some "nginx") 60].

Example poll_sample :
  poll_once ["nginx"] (λ r l, (l ++ [(execution_id r, status r, error_type r)], true)) sample_tasks [] [] =
  ([["systemctl"; "restart"; "nginx"]; ["journalctl"; "-n"; "200"; "-u"; "nginx"; "--no-pager"]],
   [(1, "FAILED", Some "AGENT_EXECUTION_TIMEOUT"); (2, "FAILED", Some "SERVICE_NOT_WHITELISTED"); (3, "SUCCESS", None)],
   3).
Proof. vm_compute. reflexivity. Qed.

(** The restart of the sample system times out on the agent. *)
Lemma agent_report_final_witness :
  ∃ e' d' n', run (report_result 2 1 "FAILED" None None (Some "执行超时（60s）") (Some "AGENT_EXECUTION_TIMEOUT") None)
      demo_later 300 = (Ok 1, d', n') ∧
    execs d' = <[1 := e']> (execs demo_later) ∧ OpsTaskExecution.status e' = E_FAILED.
Proof.
  destruct (execs demo_later !! 1) as [e|] eqn:He; [|vm_compute in He; discriminate].
  assert (OpsTaskExecution.server_id e = 2 ∧ OpsTaskExecution.task_id e = 1 ∧
          OpsTaskExecution.status e = E_PENDING) as (Hs & Ht & Hst).
  { vm_compute in He. by injection He as <-. }
  destruct (tasks demo_later !! 1) as [t|] eqn:Htask; [|vm_compute in Htask; discriminate].
  rewrite <- Ht in Htask.
  destruct (agent_report_final demo_later (Claim 1 1 (Some "RESTART") (Some "nginx") 60)
    (Finished false "执行超时（60s）") e t 300 demo_later_reachable He Htask ltac:(by rewrite Hst))
    as (e' & d' & n' & Hrun & Hex & Hst' & _).
  exists e', d', n'. rewrite Hs in Hrun. split_and!; [exact Hrun|exact Hex|exact Hst'].
Defined.

(** ** No retries

    A system in which every report comes from such a worker. *)

Import TaskTargetRepository TaskExecutionRepository TaskLogRepository TaskRepository ServiceRepository.

(** An execution outside the retry machinery. *)
Definition calm (e : OpsTaskExecution) : Prop :=
  OpsTaskExecution.status e ≠ E_RETRYING ∧ OpsTaskExecution.status e ≠ E_DEAD.

Abbreviation all_calm := (all_rows TExec calm).

Lemma calm_status e st : OpsTaskExecution.status e = st → st ≠ E_RETRYING → st ≠ E_DEAD → calm e.
Proof. by intros <-. Qed.

Section Calm.
Context `{E : Env} `{!EnvOk E} `{!Cron}.

(** A row of a new execution is calm, and so is one with a harmless status. *)
#[local] Hint Extern 1 (Preserves (all_rows TExec calm) (assign TExec _ _)) =>
  apply all_rows_assign; intros ? _; (eapply calm_status; [by rewrite ?set_duration_status|done|done]) : typeclass_instances.

Lemma calm_finish i st code text msg ty : st ≠ E_RETRYING → st ≠ E_DEAD → Preserves all_calm (finish i st code text msg ty).
Proof.
  intros H1 H2. unfold finish. apply preserves_bind; [apply _|]. intros now. apply all_rows_assign. intros e _.
  apply (calm_status _ st); [|done|done]. by rewrite set_duration_status.
Qed.

#[local] Hint Extern 1 (Preserves (all_rows TExec calm) (finish _ _ _ _ _ _)) =>
  apply calm_finish; discriminate : typeclass_instances.

(** New executions are pending. *)
Lemma calm_create_executions task targets : Preserves all_calm (create_executions task targets).
Proof.
  unfold create_executions.
  apply (preserves_bind_post _ (Forall (λ e, OpsTaskExecution.status e = E_PENDING))).
  - intros s Hs. unfold map_loop.
    apply (wp_fold_loop (λ _ acc s', Forall (λ e, OpsTaskExecution.status e = E_PENDING) acc ∧ both all_calm s')).
    + split; [constructor|done].
    + intros x l acc s' [Hacc Hs']. apply wp_bind, wp_bind, (wp_obj TTarget).
      * intros r _. wp_step. split; [|done]. apply Forall_app. split; [done|]. by repeat constructor.
      * done.
    + intros acc s' H'. exact H'.
  - intros l Hl. apply all_rows_create_many. eapply Forall_impl; [exact Hl|].
    intros e He i now. by apply (calm_status _ E_PENDING).
Qed.

#[local] Hint Extern 1 (Preserves (all_rows TExec calm) (create_executions _ _)) =>
  apply calm_create_executions : typeclass_instances.

(** Every operation but the two that touch retries. *)
Lemma calm_other_ops (op : task_op) :
  match op with ReportResult _ _ _ _ _ _ _ _ | DispatchRetries _ => False | _ => True end →
  Preserves all_calm (run_op op).
Proof.
  destruct op as [data creator key|task operator|task|server| | |limit|days_| ]; intros Hop; try done; simpl.
  - unfold create_task, _normalize_action, _validate_servers, _validate_service_whitelist, create_targets,
      get_by_server_service, TaskRepository.get_by_idempotency_key. apply _.
  - unfold confirm_task, get_task_entity. apply _.
  - unfold cancel_task, get_task_entity, _aggregate_task_status. apply _.
  - unfold fetch_pending, fetch_pending_by_server, claim_one, mark_running. apply _.
  - unfold scan_timeouts, scan_task, mark_timeout, is_expired, _aggregate_task_status. apply _.
  - unfold cleanup_history, delete_terminal_before, delete_finished_tasks_before. apply _.
  - unfold fire_due_cron, fire_one, list_pending_cron. apply _.
Qed.

#[local] Instance calm_record i content level : Preserves all_calm (record i content level).
Proof. unfold record. apply _. Qed.

(** A report that is final. *)
Definition final_report (status : string) (error_type error_message : option string) : Prop :=
  status = "SUCCESS" ∨ is_retryable error_type error_message = false.

Lemma calm_report server i status code text msg ty lg :
  final_report status ty msg → Preserves all_calm (report_result server i status code text msg ty lg).
Proof.
  intros Hf. unfold report_result, get_task_entity, _aggregate_task_status.
  destruct (String.eqb_spec status "SUCCESS") as [->|Hst]; [apply _|].
  assert (∀ task e, Preserves all_calm (report_failure task e code msg ty)) as Hfail; [|apply _].
  destruct Hf as [|Hr]; [done|]. intros task e. unfold report_failure. rewrite Hr.
  apply (preserves_bind_post _ (λ b, b = false)); [by intros s Hs|]. intros b ->. apply _.
Qed.

(** Without executions that wait for a retry, there is none to dispatch. *)
Lemma calm_dispatch limit : Preserves all_calm (dispatch_retries limit).
Proof.
  unfold dispatch_retries. apply preserves_bind; [apply _|]. intros now.
  apply (preserves_bind_post _ (λ due, due = [])).
  - intros s [Hw Hd]. unfold list_due_retries. apply wp_bind, wp_select_where.
    assert (matching TExec (λ e, alive TExec e && due_retry now e) (work s) = []) as Hm.
    { destruct (matching _ _ _) as [|i l] eqn:Hm; [done|exfalso].
      assert (i ∈ matching TExec (λ e, alive TExec e && due_retry now e) (work s)) as Hi by (rewrite Hm; list_in).
      apply elem_of_matching in Hi as (e & He & Hdue). apply andb_true_iff in Hdue as [_ Hdue].
      apply andb_true_iff in Hdue as [Hst%bool_decide_eq_true _]. by destruct (Hw i e He). }
    rewrite Hm. unfold order_by. repeat wp_step. split; [by destruct limit|done].
  - intros due ->. cbn [fold_loop]. apply _.
Qed.

(** A step of the system in which every report comes from the worker: what it
    reports is the report of some outcome of some task. *)
Definition by_worker (op : task_op) : Prop :=
  match op with
  | ReportResult _ execution status code text msg ty lg =>
    ∃ task outcome, TaskReport execution status text msg ty lg = report_of task outcome ∧ code = None
  | _ => True
  end.

Inductive worker_step : db → db → Prop :=
  | worker_op op d n : op_valid op = true → by_worker op → worker_step d (after op d n)
  | worker_other d d' : integrity d' → (∀ k, task_table k = true → d' k = d k) → worker_step d d'.

Lemma calm_step d d' : worker_step d d' → all_calm d → all_calm d'.
Proof.
  intros [op d1 n Hv Hop|d1 d2 _ Hk] Hd.
  - unfold after. apply run_preserves; [|done].
    destruct op as [| | | |server i status code text msg ty lg| |limit| | ]; try by apply calm_other_ops.
    + simpl. destruct Hop as (task & outcome & Hr & ->). destruct (report_of_cases task outcome) as [_ Hc].
      rewrite <- Hr in Hc. cbn [AgentClient.status error_type error_message] in Hc.
      assert (Preserves all_calm (report_result server i status None text msg ty lg)); [|apply _].
      apply calm_report. destruct Hc as [Hc|[_ Hc]]; [by left|by right].
    + simpl. assert (Preserves all_calm (dispatch_retries limit)) by apply calm_dispatch. apply _.
  - intros i e. rewrite (Hk TExec eq_refl). apply Hd.
Qed.

End Calm.

(** ** An instance

    A status check of the first server is created and handed out, times out on
    the agent, and the dispatcher runs. *)
Definition check_claim : claim := Claim 1 1 (Some "STATUS") (Some "nginx") 60.

Definition check_report : task_op :=
  let r := report_of check_claim (Finished false "执行超时（60s）") in
  ReportResult 1 (execution_id r) (AgentClient.status r) None (result_text r) (error_message r) (error_type r) (logs r).

Definition check_history : list task_op :=
  [CreateTask sample_check 1 None; FetchPending 1; check_report; DispatchRetries 50].

Lemma play_worker_steps (ops : list task_op) (d : db) (n : nat) :
  Forall (λ op, op_valid op = true ∧ by_worker op) ops → rtc worker_step d (play ops d n).1.
Proof.
  unfold play. revert d n. induction ops as [|op ops IH]; intros d n; [intros _; apply rtc_refl|].
  intros [[Hop Hw] Hops]%Forall_cons. simpl.
  pose proof (worker_op op d n Hop Hw) as Ha. unfold after in Ha.
  destruct (run (run_op op) d n) as [[o d'] n']. eapply rtc_l; [exact Ha|]. by apply IH.
Qed.

Lemma check_history_steps : rtc worker_step sample_db (play check_history sample_db 10).1.
Proof.
  apply play_worker_steps. repeat (apply Forall_cons; split; [split; [reflexivity|]|]); [exact I|exact I| |exact I|constructor].
  exists check_claim, (Finished false "执行超时（60s）"). split; reflexivity.
Qed.

