(* ===== verification/AgentMain.v ===== *)
(** * The agent's main program (agent/main.py, agent/config/config.py)

    The configuration, the registration with its back-off, and what a pass of
    each of the four loops does.  The loops run in threads that share the HTTP
    client; a history of the agent is a sequence of passes in any order.  The
    log settings of the configuration are left out. *)
From Stdlib Require Import QArith.
From S2P Require Import Prelude.
From S2P Require Export AgentCollect Schemas.
From S2P Require Import ClientProps WorkerProps.
From S2P Require AgentPackage.

(** ** Configuration (agent/config/config.py) *)

Record ServerConfig := ServerConfigMk { url : string; token : string; server_code : string; signing_key_file : string }.

Record CollectConfig := CollectConfigMk {
  heartbeat_interval : Z; metrics_interval : Z; assets_interval : Z; task_poll_interval : Z;
  retry_max_seconds : Z; retry_max_count : Z;
  connect_timeout : Q; request_timeout : Q;
  services : list string
}.

Record AgentConfig := AgentConfigMk { server : ServerConfig; collect : CollectConfig }.

Definition valid_ServerConfig (c : ServerConfig) : bool := (1 <=? py_len (token c)) && (1 <=? py_len (server_code c)).

Definition valid_CollectConfig (c : CollectConfig) : bool :=
  (5 <=? heartbeat_interval c) && (2 <=? metrics_interval c) && (10 <=? assets_interval c) &&
  (2 <=? task_poll_interval c) && (1 <=? retry_max_seconds c) && (0 <=? retry_max_count c) &&
  Qlt_bool 0 (connect_timeout c) && Qlt_bool 0 (request_timeout c).

Definition default_collect : CollectConfig :=
  CollectConfigMk 30 10 60 5 60 2 5 10 ["nginx"; "docker"; "ssh"].

(** [str(Path(s))] for an absolute path: exactly two leading slashes stay. *)
Definition path_root (s : string) : string :=
  if starts_with "///" s then "/" else if starts_with "//" s then "//" else "/".

(** The path of the key file; [dir] is the resolved directory of the
    configuration file. *)
Definition resolve_key_file (dir : AgentPackage.path) (key_file : string) : string :=
  if starts_with "/" key_file then path_root key_file +:+ AgentPackage.slashed (AgentPackage.path_of key_file)
  else "/" +:+ AgentPackage.slashed (dir ++ AgentPackage.path_of key_file).

(** [load_config] on what the YAML file holds; [None] is a [ValidationError]. *)
Definition load_config (dir : AgentPackage.path) (data : AgentConfig) : option AgentConfig :=
  let s := server data in
  if valid_ServerConfig s && valid_CollectConfig (collect data) then
    Some (AgentConfigMk (ServerConfigMk (url s) (token s) (server_code s) (resolve_key_file dir (signing_key_file s)))
            (collect data))
  else None.

Definition AGENT_VERSION : string := "1.0.0".

(** ** The agent *)

(** [Agent.__init__] on the files of the machine: its client; [None] is a key
    file that cannot be read. *)
Definition new_agent `{K : Ed25519Keys} (config : AgentConfig) (files : gmap string string) (k : nat)
    : gmap string string * option AgentClient :=
  let '(files', signer) := load_or_create_signer files (signing_key_file (server config)) (server_code (server config)) k in
  (files', (λ s, Client ("Bearer " +:+ token (server config)) (retry_max_seconds (collect config))
                   (retry_max_count (collect config)) true (Some s)) <$> signer).

(** The state of a running agent: the network and the server behind it, the
    number of requests so far, which numbers the clock's readings, the random
    request ids and the shows of the machine, and the commands started. *)
Record running (T : Type) := Running { net : T; requests : nat; commands : list (list string) }.
Arguments Running {T}.
Arguments net {T}.
Arguments requests {T}.
Arguments commands {T}.

Section Agent.
Context `{K : Ed25519Keys} `{!Uuids} `{!Subprocess} (random : nat → Q).
Context (machine : nat → host) (now : nat → datetime).
Context {T : Type} (send : http_request → T → T * reply).
(** The tasks a reply of the server is read as. *)
Context (tasks_of : json → list claim).
Context (config : AgentConfig) (client : AgentClient).

(** A request of the client; [None] is an exception. *)
Definition call (method path : string) (payload : option json) (s : running T) : running T * option json :=
  let n := requests s in
  match _request random send client (S (Z.to_nat (_retry_max_count client))) method path payload (now n) n (net s) with
  | Some (st, _, r) => (Running st (S n) (commands s), match r with inl v => Some v | inr _ => None end)
  | None => (s, None)
  end.

(** [result["server_id"]]. *)
Definition server_id_of (v : json) : option json := match v with JDict l => dict_get "server_id" l | _ => None end.

(** The body of the loop of [_register]. *)
Definition register_once (s : running T) : running T * option json :=
  match collect_system_info (machine (requests s)) with
  | None => (s, None)
  | Some system_info =>
    let '(s', result) := call "POST" "/api/v1/agent/register"
      (Some (register_payload client (server_code (server config)) (token (server config)) system_info AGENT_VERSION)) s in
    (s', result ≫= server_id_of)
  end.

(** [min(delay * 2, retry_max_seconds)]. *)
Definition longer (delay : Q) : Q :=
  let cap := inject_Z (retry_max_seconds (collect config)) in
  if Qlt_bool cap (fl (delay * 2)) then cap else fl (delay * 2).

(** [_register]: the pauses are collected; [None]: out of fuel. *)
Fixpoint register_loop (fuel : nat) (delay : Q) (pauses : list Q) (s : running T)
    : option (running T * list Q * json) :=
  match fuel with
  | O => None
  | S fuel' =>
    match register_once s with
    | (s', Some id) => Some (s', pauses, id)
    | (s', None) => register_loop fuel' (longer delay) (pauses ++ [delay]) s'
    end
  end.

Definition _register (fuel : nat) (s : running T) := register_loop fuel 1 [] s.

(** ** The loops, once registered *)

Context (server_id : json).

(** Each pass gives the state after it and whether it went through without an
    exception. *)
Definition heartbeat_pass (s : running T) : running T * bool :=
  let '(s', r) := call "POST" "/api/v1/agent/heartbeat"
    (Some (heartbeat_payload server_id AGENT_VERSION (now (requests s)))) s in
  (s', bool_decide (is_Some r)).

Definition metrics_pass (s : running T) : running T * bool :=
  match collect_metrics (machine (requests s)) with
  | None => (s, false)
  | Some metrics =>
    let '(s', r) := call "POST" "/api/v1/agent/metrics" (Some (values_payload server_id metrics (now (requests s)))) s in
    (s', bool_decide (is_Some r))
  end.

(** The commands that [collect_services] starts: one for each service up to the
    first whose result cannot be read. *)
Fixpoint service_commands (n : nat) (names : list string) : list (list string) :=
  match names with
  | [] => []
  | name :: names' =>
    ["systemctl"; "is-active"; name] ::
    match service._is_active n name with Some _ => service_commands (S n) names' | None => [] end
  end.

Definition assets_pass (s : running T) : running T * bool :=
  let assets := collect_assets (machine (requests s)) in
  match call "POST" "/api/v1/agent/assets" (Some (values_payload server_id assets (now (requests s)))) s with
  | (s1, None) => (s1, false)
  | (s1, Some _) =>
    let n := length (commands s1) in
    let s2 := Running (net s1) (requests s1) (commands s1 ++ service_commands n (services (collect config))) in
    match service.collect_services n (services (collect config)) with
    | None => (s2, false)
    | Some statuses =>
      let '(s3, r) := call "POST" "/api/v1/agent/services"
        (Some (services_payload server_id (service_dict <$> statuses) (now (requests s2)))) s2 in
      (s3, bool_decide (is_Some r))
    end
  end.

Definition PENDING_PATH : string := "/api/v1/agent/tasks/pending".

(** One report of the worker, as a request. *)
Definition report_call (r : task_report) (s : T * nat) : (T * nat) * bool :=
  let '(s', v) := call "POST" "/api/v1/agent/task/result" (Some (task_result_payload r)) (Running s.1 s.2 []) in
  ((net s', requests s'), bool_decide (is_Some v)).

Definition task_pass (s : running T) : running T * bool :=
  match call "GET" PENDING_PATH None s with
  | (s1, None) => (s1, false)
  | (s1, Some v) =>
    let '(log, st, _) := poll_once (services (collect config)) report_call (tasks_of v) (commands s1) (net s1, requests s1) in
    (Running st.1 st.2 log, true)
  end.

Inductive thread := HeartbeatLoop | MetricsLoop | AssetsLoop | TaskLoop.

Definition pass (t : thread) (s : running T) : running T :=
  match t with
  | HeartbeatLoop => (heartbeat_pass s).1
  | MetricsLoop => (metrics_pass s).1
  | AssetsLoop => (assets_pass s).1
  | TaskLoop => (task_pass s).1
  end.

(** A history: the passes of the threads in the order they are made. *)
Definition run_passes (schedule : list thread) (s : running T) : running T := foldl (λ s t, pass t s) s schedule.

(** [while not self._stop.is_set(): ...] of one thread; [stopped k]: is the stop
    event set when it is looked at for the [k]-th time?  [None]: out of fuel. *)
Fixpoint loop (stopped : nat → bool) (t : thread) (fuel k : nat) (s : running T) : option (running T) :=
  if stopped k then Some s else
  match fuel with
  | O => None
  | S fuel' => loop stopped t fuel' (S k) (pass t s)
  end.
End Agent.

(** ** Registration *)

Section Registration.
Context `{K : Ed25519Keys} `{!Uuids} `{!Subprocess} (random : nat → Q).
Context (machine : nat → host) (now : nat → datetime).
Context {T : Type} (send : http_request → T → T * reply) (config : AgentConfig) (client : AgentClient).

Abbreviation attempt := (register_once random machine now send config client).
Abbreviation cap := (retry_max_seconds (collect config)).

(** The state after [m] attempts that fail. *)
Fixpoint after_attempts (m : nat) (s : running T) : option (running T) :=
  match m with
  | O => Some s
  | S m' => match attempt s with (s', None) => after_attempts m' s' | (_, Some _) => None end
  end.

(** Before the [i]-th repetition: [2^i] seconds, capped. *)
Definition backoff (i : nat) : Q := inject_Z (Z.min (2 ^ Z.of_nat i) cap).

Lemma longer_backoff i : 1 <= cap < 2 ^ 52 → longer config (backoff i) = backoff (S i).
Proof.
  intros Hcap. unfold longer, backoff. cbv zeta.
  assert (0 < 2 ^ Z.of_nat i) as Hpow by (apply Z.pow_pos_nonneg; lia).
  rewrite double_int, Qlt_bool_inject by lia. rewrite Nat2Z.inj_succ, Z.pow_succ_r by lia.
  destruct (Z.ltb_spec cap (2 * Z.min (2 ^ Z.of_nat i) cap)); f_equal; lia.
Qed.

Lemma register_loop_from (m i : nat) (fuel : nat) (pauses : list Q) (s sm s' : running T) (id : json) :
  1 <= cap < 2 ^ 52 → after_attempts m s = Some sm → attempt sm = (s', Some id) → (m < fuel)%nat →
  register_loop random machine now send config client fuel (backoff i) pauses s =
    Some (s', pauses ++ (backoff <$> seq i m), id).
Proof.
  intros Hcap. revert i fuel pauses s. induction m as [|m IH]; intros i fuel pauses s Hs Hid Hfuel;
    (destruct fuel as [|fuel]; [lia|]); cbn [register_loop after_attempts seq fmap list_fmap] in *.
  - injection Hs as <-. by rewrite Hid, app_nil_r.
  - destruct (attempt s) as [s1 [?|]]; [done|]. rewrite longer_backoff, (IH (S i)) by (done || lia).
    by rewrite <- app_assoc.
Qed.

Lemma register_loop_pending (fuel : nat) (delay : Q) (pauses : list Q) (s : running T) :
  is_Some (after_attempts fuel s) → register_loop random machine now send config client fuel delay pauses s = None.
Proof.
  revert delay pauses s. induction fuel as [|fuel IH]; intros delay pauses s; [done|]. cbn [register_loop after_attempts].
  destruct (attempt s) as [s1 [?|]]; [by intros []|]. apply IH.
Qed.

(** C30: the agent does not start before it is registered, and it does not give up:
    as long as every attempt fails it goes on.  The first attempt that yields a
    server id ends the registration with that id; before the [i]-th repetition
    the agent has waited [2^i] seconds, at least one and never more than
    [retry_max_seconds]. *)
Theorem registration_backoff (m : nat) (fuel : nat) (s : running T) :
  1 <= cap < 2 ^ 52 →
  (is_Some (after_attempts fuel s) → _register random machine now send config client fuel s = None) ∧
  (∀ sm s' id, after_attempts m s = Some sm → attempt sm = (s', Some id) → (m < fuel)%nat →
     _register random machine now send config client fuel s = Some (s', backoff <$> seq 0 m, id)) ∧
  Forall (λ p, 1 <= p <= inject_Z cap)%Q (backoff <$> seq 0 m).
Proof.
  intros Hcap. assert (1%Q = backoff 0) as Hone by (unfold backoff; simpl; by rewrite Z.min_l by lia).
  unfold _register. rewrite Hone. split_and!.
  - apply register_loop_pending.
  - intros sm s' id Hs Hid Hfuel. by rewrite (register_loop_from m 0 fuel [] s sm s' id).
  - rewrite <- Hone. apply Forall_fmap, Forall_forall. intros i _. unfold backoff. cbn.
    change 1%Q with (inject_Z 1). rewrite <- !Zle_Qle. assert (0 < 2 ^ Z.of_nat i) by (apply Z.pow_pos_nonneg; lia). lia.
Qed.
End Registration.

(** ** What the agent ever does *)

Section Safety.
Context `{K : Ed25519Keys} `{!Uuids} `{!Subprocess} (random : nat → Q).
Context (machine : nat → host) (now : nat → datetime).
Context {T : Type} (send : http_request → T → T * reply) (tasks_of : json → list claim).
Context (config : AgentConfig) (client : AgentClient) (server_id : json).

(** The transport that also records what is sent, oldest first. *)
Definition recorded (req : http_request) (st : T * list http_request) : (T * list http_request) * reply :=
  let '(st', r) := send req st.1 in ((st', st.2 ++ [req]), r).

(** The calls of a registered agent: the method, the path and the payload. *)
Inductive agent_call_ok : string → string → option json → Prop :=
  | call_pending : agent_call_ok "GET" PENDING_PATH None
  | call_result v : agent_call_ok "POST" "/api/v1/agent/task/result" (Some v)
  | call_upload name l :
      name ∈ ["heartbeat"; "metrics"; "assets"; "services"] → dict_get "server_id" l = Some server_id →
      agent_call_ok "POST" ("/api/v1/agent/" +:+ name) (Some (JDict l)).

(** The [n]-th request of the agent. *)
Definition own_request (n : nat) (req : http_request) : Prop :=
  ∃ method path payload, agent_call_ok method path payload ∧
    req = make_request client method path payload (now n) n.

(** The requests sent by the calls [first], ..., [k - 1]: those of one call are
    the same request, sent at most [retry_max_count + 1] times. *)
Definition sent_own (first k : nat) (log : list http_request) : Prop :=
  (first ≤ k)%nat ∧ ∃ reqs counts, log = concat (zip_with replicate counts reqs) ∧
    Forall2 own_request (seq first (k - first)) reqs ∧ length counts = length reqs ∧
    Forall (λ m, (1 ≤ m ≤ S (Z.to_nat (_retry_max_count client)))%nat) counts.

(** The state of a registered agent whose first call has number [first]. *)
Record well_behaved (first : nat) (s : running (T * list http_request)) : Prop := {
  wb_requests : sent_own first (requests s) (net s).2;
  wb_commands : Forall (allowed_command (services (collect config))) (commands s)
}.

Abbreviation Call := (call random now recorded client).

Lemma loop_records fuel req delay attempt pauses st st' ps r :
  request_loop random recorded client fuel req delay attempt pauses st = Some (st', ps, r) →
  ∃ m, st'.2 = st.2 ++ replicate m req ∧ (1 ≤ m ≤ fuel)%nat.
Proof.
  revert delay attempt pauses st. induction fuel as [|fuel IH]; intros delay attempt pauses [st log]; [done|].
  cbn [request_loop]. unfold recorded at 1. cbn [fst snd]. destruct (send req st) as [st1 [|status payload]].
  - cbv zeta. destruct (_ <? _); [intros [= <- _ _]; exists 1%nat; split; [done|lia]|].
    destruct (Qle_bool _ _); [intros [= <- _ _]; exists 1%nat; split; [done|lia]|].
    intros (m & Hm & Hle)%IH. cbn [snd] in Hm. exists (S m). rewrite Hm, <- app_assoc. split; [done|lia].
  - intros [= <- _ _]. exists 1%nat. split; [done|lia].
Qed.

Lemma sent_own_call first n req m log :
  sent_own first n log → own_request n req → (1 ≤ m ≤ S (Z.to_nat (_retry_max_count client)))%nat →
  sent_own first (S n) (log ++ replicate m req).
Proof.
  intros (Hle & reqs & counts & -> & Hown & Hlen & Hcounts) Hreq Hm. split; [lia|].
  exists (reqs ++ [req]), (counts ++ [m]). split_and!.
  - rewrite zip_with_app by done. rewrite concat_app. cbn. by rewrite app_nil_r.
  - replace (S n - first)%nat with (S (n - first)) by lia. rewrite seq_S. replace (first + (n - first))%nat with n by lia.
    apply Forall2_app; [done|]. by apply Forall2_cons_2.
  - rewrite !length_app, Hlen. done.
  - apply Forall_app. by rewrite Forall_singleton.
Qed.

(** One call keeps the agent well behaved. *)
Lemma call_well_behaved first method path payload s s' r :
  agent_call_ok method path payload → well_behaved first s → Call method path payload s = (s', r) →
  well_behaved first s' ∧ commands s' = commands s.
Proof.
  intros Hok [Hsent Hcmd]. unfold call, _request.
  destruct (request_loop _ _ _ _ _ _ _ _ _) as [[[st ps] o]|] eqn:Hloop; [|intros [= <- _]; by split].
  intros [= <- _]. split; [|done]. apply loop_records in Hloop as (m & Hlog & Hm). split; [|done].
  cbn [net requests]. rewrite Hlog. apply sent_own_call; [done| |done]. by exists method, path, payload.
Qed.

Lemma upload_well_behaved first name l s s' r :
  name ∈ ["heartbeat"; "metrics"; "assets"; "services"] → dict_get "server_id" l = Some server_id →
  well_behaved first s → Call "POST" ("/api/v1/agent/" +:+ name) (Some (JDict l)) s = (s', r) → well_behaved first s'.
Proof. intros Hname Hid Hs Hcall. by eapply call_well_behaved in Hcall as [Hs' _]; [|by constructor|]. Qed.

Lemma with_commands first s cmds :
  well_behaved first s → Forall (allowed_command (services (collect config))) cmds →
  well_behaved first (Running (net s) (requests s) (commands s ++ cmds)).
Proof. intros [Hsent Hcmd] Hcmds. split; [done|]. by apply Forall_app. Qed.

Lemma heartbeat_well_behaved first s :
  well_behaved first s → well_behaved first (heartbeat_pass random now recorded client server_id s).1.
Proof.
  intros Hs. unfold heartbeat_pass. destruct (Call _ _ _ s) as [s' r] eqn:Hcall.
  by eapply (upload_well_behaved first "heartbeat") in Hcall; [|set_solver|..].
Qed.

Lemma metrics_well_behaved first s :
  well_behaved first s → well_behaved first (metrics_pass random machine now recorded client server_id s).1.
Proof.
  intros Hs. unfold metrics_pass, collect_metrics. destruct (cpu.collect _) as [c|]; [cbn [mbind option_bind]|done].
  destruct (network.collect_counts _) as [w|]; [cbn [mbind option_bind]|done].
  destruct (system.collect _) as [y|]; [cbn [mbind option_bind]|done].
  destruct (Call _ _ _ s) as [s' r] eqn:Hcall.
  by eapply (upload_well_behaved first "metrics") in Hcall; [|set_solver|..].
Qed.

Lemma service_commands_allowed n names : (∀ x, x ∈ names → x ∈ services (collect config)) →
  Forall (allowed_command (services (collect config))) (service_commands n names).
Proof.
  revert n. induction names as [|x names IH]; intros n Hin; [constructor|]. simpl. constructor.
  - exists x. split; [set_solver|]. left. exists "is-active". split; [set_solver|done].
  - destruct (service._is_active n x); [|constructor]. apply IH. set_solver.
Qed.

Lemma assets_well_behaved first s :
  well_behaved first s → well_behaved first (assets_pass random machine now recorded config client server_id s).1.
Proof.
  intros Hs. unfold assets_pass. cbv zeta. destruct (Call _ _ _ s) as [s1 r] eqn:Hcall.
  eapply (upload_well_behaved first "assets") in Hcall as Hs1; [|set_solver|done|done].
  destruct r; [|done]. pose proof (with_commands first s1 _ Hs1 (service_commands_allowed (length (commands s1)) _ (λ x H, H))) as Hs2.
  destruct (service.collect_services _ _) as [statuses|]; [|done].
  destruct (Call _ _ _ _) as [s3 r3] eqn:Hcall3 in |- *.
  by eapply (upload_well_behaved first "services") in Hcall3; [|set_solver|..].
Qed.

(** The reports of the worker: their requests go out like the others. *)
Lemma reports_well_behaved first rs st st' count :
  sent_own first st.2 st.1.2 → post_all (report_call random now recorded client) rs st = (st', count) →
  sent_own first st'.2 st'.1.2.
Proof.
  revert st st' count. induction rs as [|r rs IH]; intros [st n] st' count Hst; simpl; [by intros [= <- _]|].
  unfold report_call at 1. cbn [fst snd]. destruct (Call _ _ _ _) as [s1 v] eqn:Hcall.
  eapply (call_well_behaved first) in Hcall as [[Hs1 _] _]; [|by constructor|by split].
  destruct (post_all _ rs _) as [st2 c] eqn:Hrs. intros [= <- _]. by apply IH in Hrs.
Qed.

Lemma task_well_behaved first s :
  well_behaved first s → well_behaved first (task_pass random now recorded tasks_of config client s).1.
Proof.
  intros Hs. unfold task_pass. destruct (Call _ _ _ s) as [s1 r] eqn:Hcall.
  destruct (call_well_behaved first _ _ _ _ _ _ call_pending Hs Hcall) as [Hs1 _]. destruct r as [v|]; [|done].
  unfold poll_once.
  destruct (poll_tasks_spec (services (collect config)) (report_call random now recorded client) (tasks_of v)
    (commands s1) (net s1, requests s1) 0) as (rs & cmds & st' & count & -> & Hpost & Hcmds & _ & _).
  destruct Hs1 as [Hsent Hcmd]. split; cbn; [|by apply Forall_app].
  exact (reports_well_behaved first rs (net s1, requests s1) st' count Hsent Hpost).
Qed.

(** C23: whatever the machine shows and the network and the server do, and in
    whatever order the four threads make their passes: a registered agent sends
    only its own calls -- the four uploads, each with the id the server gave it,
    the question for tasks and the results of tasks --, signed as one request
    each, in the order of their numbers and every one at most
    [retry_max_count + 1] times; and it starts no command but [systemctl] and
    [journalctl] on the services of its configuration. *)
Theorem agent_safe (schedule : list thread) (s : running (T * list http_request)) :
  (net s).2 = [] → commands s = [] →
  let s' := run_passes random machine now recorded tasks_of config client server_id schedule s in
  sent_own (requests s) (requests s') (net s').2 ∧
  Forall (allowed_command (services (collect config))) (commands s').
Proof.
  intros Hlog Hcmd. cbv zeta.
  assert (well_behaved (requests s) s) as Hs.
  { split; [|by rewrite Hcmd]. rewrite Hlog. split; [done|]. exists [], []. by rewrite Nat.sub_diag. }
  revert Hs. generalize (requests s) as first. clear Hlog Hcmd. unfold run_passes.
  induction schedule as [|t schedule IH] in s |- *; intros first Hs; [by destruct Hs|].
  cbn [foldl]. apply IH. destruct t;
    [by apply heartbeat_well_behaved|by apply metrics_well_behaved|by apply assets_well_behaved|by apply task_well_behaved].
Qed.
End Safety.

(** ** A machine *)

Definition sample_host : host := Host (251 # 20) (Some 4)
  (λ file, if String.eqb file "/proc/cpuinfo" then TextFile ["processor : 0"; "model name : EPYC"] EndOfFile
           else if String.eqb file "/etc/os-release" then TextFile ["PRETTY_NAME=Debian"] EndOfFile
           else if String.eqb file "/proc/net/tcp" then TextFile ["sl"; "0:"; "1:"] EndOfFile
           else TextFile [] EndOSError)
  8000000000 2000000000 25
  (λ file, if String.eqb file "/" then Some (100000000000, 403 # 10) else None)
  [Partition "/dev/sda1" "/" "ext4"; Partition "/dev/sdb1" "/data" "ext4"]
  (Some (1000, 5000)) [("lo", [IfAddr 2 "127.0.0.1"]); ("eth0", [IfAddr 2 "10.0.0.5"; IfAddr 17 "00:11"])] 17 None
  (Some ((1 # 2), (1 # 4), (1 # 8))) 1700000100 1700000000 "web-1" "Linux" "6.1" "x86_64".

Definition sample_machine (n : nat) : host := sample_host.

Definition sample_config : AgentConfig :=
  AgentConfigMk (ServerConfigMk "http://ops" "secret-1" "web-1" "/etc/agent.key") default_collect.

(** A server that is down for the first two requests. *)
Definition late_server (req : http_request) (k : nat) : nat * reply :=
  (S k, if (k <? 2)%nat then Answer 503 (JDict []) else Answer 200 (JDict [("data", JDict [("server_id", JInt 2)])])).

Definition sample_now (n : nat) : datetime := 1700000000000000.

Definition sample_start : running nat := Running 0%nat 0 [].

(** The server answers the third attempt: the agent waits one second, then two. *)
Lemma registration_backoff_witness :
  ∃ s', _register toy_random sample_machine sample_now late_server sample_config toy_client 3 sample_start =
      Some (s', [1; 2]%Q, JInt 2) ∧
    _register toy_random sample_machine sample_now late_server sample_config toy_client 2 sample_start = None.
Proof.
  assert (1 <= retry_max_seconds (collect sample_config) < 2 ^ 52) as Hcap by (vm_compute; split; congruence).
  destruct (registration_backoff toy_random sample_machine sample_now late_server sample_config toy_client
    2 3 sample_start Hcap) as (_ & Hdone & _).
  destruct (registration_backoff toy_random sample_machine sample_now late_server sample_config toy_client
    2 2 sample_start Hcap) as (Hpending & _ & _).
  exists (Running 3%nat 3 []). split.
  - refine (Hdone (Running 2%nat 2 []) _ (JInt 2) _ _ (le_n 3)); vm_compute; reflexivity.
  - apply Hpending. vm_compute. by eexists.
Defined.

Definition sample_history : running (nat * list http_request) → running (nat * list http_request) :=
  run_passes toy_random sample_machine sample_now (recorded late_server) (λ _, sample_tasks) sample_config
    toy_client (JInt 2) [HeartbeatLoop; TaskLoop; MetricsLoop; AssetsLoop; TaskLoop].

Example sample_history_size :
  let s' := sample_history (Running (2%nat, []) 3 []) in
  requests s' = 15%nat ∧ length (net s').2 = 12%nat ∧ length (commands s') = 7%nat.
Proof. vm_compute. by split_and!. Qed.

(** One pass of each thread and a second one of the worker. *)
Lemma agent_safe_witness :
  let s' := run_passes toy_random sample_machine sample_now (recorded late_server) (λ _, sample_tasks) sample_config
              toy_client (JInt 2) [HeartbeatLoop; TaskLoop; MetricsLoop; AssetsLoop; TaskLoop] (Running (2%nat, []) 3 []) in
  sent_own sample_now toy_client (JInt 2) 3 (requests s') (net s').2 ∧
  Forall (allowed_command (services (collect sample_config))) (commands s').
Proof.
  exact (agent_safe toy_random sample_machine sample_now late_server (λ _, sample_tasks) sample_config
    toy_client (JInt 2) [HeartbeatLoop; TaskLoop; MetricsLoop; AssetsLoop; TaskLoop] (Running (2%nat, []) 3 [])
    eq_refl eq_refl).
Defined.
