(* ===== verification/AgentFlow.v ===== *)
(** * What the agent protocol guarantees

    Bearer tokens, heartbeats, uploads and registrations on a database that
    satisfies its constraints. *)
From Stdlib Require Import QArith.
From S2P Require Import Prelude.
From S2P Require Export Samples.

Section Props.
Context `{E : Env} `{!EnvOk E} `{!Ed25519} `{!Secrets}.

(** A bearer token is accepted for token row [i] and server [j] exactly if
    row [i] holds the token's hash, is enabled, not expired and not revoked,
    and [j] is its server, not deleted and enabled; looking never changes
    anything. *)
Theorem bearer_token_spec (d : db) (token : string) (i j : Z) (n : nat) :
  integrity d →
  (∃ n', run (find_agent token) d n = (Ok (i, j), d, n')) ↔
  ∃ t sv, tokens d !! i = Some t ∧ OpsAgentToken.token_hash t = _hash_token token ∧
    token_usable t (clock n) = true ∧ OpsAgentToken.server_id t = j ∧
    servers d !! j = Some sv ∧ ServerRepository.enabled sv = true.
Proof.
  intros HI.
  assert (wp (find_agent token)
    (λ r s', durable s' = d ∧ ∃ t sv, tokens d !! r.1 = Some t ∧ OpsAgentToken.token_hash t = _hash_token token ∧
       token_usable t (clock n) = true ∧ OpsAgentToken.server_id t = r.2 ∧
       servers d !! r.2 = Some sv ∧ ServerRepository.enabled sv = true)
    (λ _ _, ¬ ∃ t sv, tokens d !! i = Some t ∧ OpsAgentToken.token_hash t = _hash_token token ∧
       token_usable t (clock n) = true ∧ OpsAgentToken.server_id t = j ∧
       servers d !! j = Some sv ∧ ServerRepository.enabled sv = true) (Session d d n)) as Hwp.
  { apply wp_find_agent; cbn [work durable ticks]; [done|..].
    - intros i' t sv n' Ht Hh Hu Hsv. destruct (ServerRepository.enabled sv) eqn:Hen; [by split; [|exists t, sv]|].
      intros (t' & sv' & Ht' & Hh' & _ & Hj & Hsv' & Hen').
      assert (i = i') as ->.
      { apply (integrity_unique TToken i i' t' t d HI Ht' Ht). simpl. apply bool_decide_eq_true. congruence. }
      pose proof (same_row TToken Ht Ht') as <-. subst j.
      pose proof (same_row TServer Hsv Hsv') as <-. congruence.
    - intros n' Hn (t & sv & Ht & Hh & Hu & _). by rewrite (Hn i t Ht Hh) in Hu. }
  unfold wp, run in *. destruct (find_agent token (Session d d n)) as [[[i' j']|e] s'].
  - destruct Hwp as [Hd (t & sv & Ht & Hh & Hu & Hj & Hsv & Hen)]. cbn [fst snd] in *. split.
    + intros [n' [= <- <- _ _]]. by exists t, sv.
    + intros (t' & sv' & Ht' & Hh' & _ & Hj' & _). exists (ticks s'). rewrite Hd.
      assert (i = i') as ->.
      { apply (integrity_unique TToken i i' t' t d HI Ht' Ht). simpl. apply bool_decide_eq_true. congruence. }
      pose proof (same_row TToken Ht Ht') as <-. congruence.
  - split; [by intros [? ?]|]. intros Hx. by destruct Hwp.
Qed.

(** A heartbeat for another server's id is refused with 401; a heartbeat
    under an address that another server has with the same port fails on the
    database's constraint; every other heartbeat sets the server ONLINE at the
    present time and adds one history row.  Refusals change nothing. *)
Theorem heartbeat_spec (d : db) (i : Z) (sv : OpsServer) (data : HeartbeatRequest) (ip : option string) (n : nat) :
  integrity d → server_keys d → servers d !! i = Some sv →
  let matches := HeartbeatRequest.server_id data = None ∨ HeartbeatRequest.server_id data = Some i in
  let ip' := OpsServer.ip_address (beaten (clock n) ip (HeartbeatRequest.agent_version data) sv) in
  (¬ matches → ∃ n', run (heartbeat i data ip) d n
     = (Raise (AppException AGENT_UNAUTHORIZED "服务器 ID 与凭证不匹配" 401), d, n')) ∧
  (matches → ¬ address_free d i ip' (OpsServer.ssh_port sv) →
   ∃ n', run (heartbeat i data ip) d n = (Raise IntegrityError, d, n')) ∧
  (matches → address_free d i ip' (OpsServer.ssh_port sv) →
   ∃ d' n' m, run (heartbeat i data ip) d n = (Ok (i, py_isoformat (clock m)), d', n') ∧ beat i sv data ip n d d').
Proof.
  intros HI Hk Hsv matches ip'. pose proof (Hk i sv Hsv) as Hid. split_and!.
  - intros Hno. apply run_raises. unfold heartbeat.
    apply wp_bind, (wp_server_match i sv); [done|done|by intros ?|done].
  - intros Hm Hfree. apply run_raises. apply (wp_heartbeat i sv); [done..|]. split; [|done]. by intros ?%Hfree.
  - intros Hm Hfree.
    destruct (run_total (heartbeat i data ip) (λ r s', (∃ m, r = (i, py_isoformat (clock m))) ∧
      beat i sv data ip n d (durable s')) d n) as (r & s' & Hrun & [m ->] & Hb).
    { apply (wp_heartbeat i sv); [done..|]. split; [|by intros []].
      intros _ d' n' m Hb. split; [by exists m|done]. }
    by exists (durable s'), (ticks s'), m.
Qed.

(** Metrics whose time is more than [MAX_TIME_SKEW_SECONDS] off the server's
    clock are refused; all others are stored as reported, in one new row of
    the reporting server. *)
Theorem ingest_metrics_spec (d : db) (i : Z) (sv : OpsServer) (data : MetricsRequest) (n : nat) :
  integrity d → server_keys d → servers d !! i = Some sv →
  MetricsRequest.server_id data = None ∨ MetricsRequest.server_id data = Some i →
  let at_ := _normalize_utc (MetricsRequest.timestamp data) in
  if seconds MAX_TIME_SKEW_SECONDS <? Z.abs (clock n - at_)
  then ∃ n', run (ingest_metrics i data) d n = (Raise (AppException INVALID_TIMESTAMP "采集时间非法" 400), d, n')
  else ∃ d' n' m now, run (ingest_metrics i data) d n = (Ok (i, py_isoformat (clock m)), d', n') ∧
    rows (d' TMetric) = <[next_id (d TMetric) :=
      fresh_row TMetric (next_id (d TMetric)) now (new_metric i at_ data)]> (rows (d TMetric)) ∧
    only_in [TMetric] d d' ∧ integrity d'.
Proof.
  intros HI Hk Hsv Hm at_. pose proof (Hk i sv Hsv) as Hid.
  destruct (Z.ltb_spec (seconds MAX_TIME_SKEW_SECONDS) (Z.abs (clock n - at_))) as [Hlt|Hle].
  - apply run_raises. apply (wp_ingest_metrics i sv); [done..|]. cbn [work durable ticks]. split; [|done].
    intros Hle. exfalso. unfold at_ in *. lia.
  - destruct (run_total (ingest_metrics i data) (λ r s', ∃ m now, r = (i, py_isoformat (clock m)) ∧
      rows (durable s' TMetric) = <[next_id (d TMetric) :=
        fresh_row TMetric (next_id (d TMetric)) now (new_metric i at_ data)]> (rows (d TMetric)) ∧
      only_in [TMetric] d (durable s') ∧ integrity (durable s')) d n) as (r & s' & Hrun & m & now & -> & Hres).
    { apply (wp_ingest_metrics i sv); [done..|]. cbn [work durable ticks]. split.
      - intros _ d' n' m now Hr Ho HI'. by exists m, now.
      - intros Hlt. exfalso. unfold at_ in *. lia. }
    by exists (durable s'), (ticks s'), m, now.
Qed.

(** A registration with the given usable token. *)
Lemma wp_register_with i t sv data ip (Q : Z → session → Prop) (Ex : exc → session → Prop) d n :
  integrity d → server_keys d → tokens d !! i = Some t →
  OpsAgentToken.token_hash t = _hash_token (RegisterRequest.token data) →
  token_usable t (clock n) = true → servers d !! OpsAgentToken.server_id t = Some sv →
  let j := OpsAgentToken.server_id t in
  (if ServerRepository.enabled sv then
     if String.eqb (OpsServer.server_code sv) (RegisterRequest.server_code data) then
       (¬ address_free d j (new_address ip sv) (OpsServer.ssh_port sv) →
        ∀ s', durable s' = d → Ex IntegrityError s') ∧
       (∀ d' n, address_free d j (new_address ip sv) (OpsServer.ssh_port sv) →
          registered i j t sv data ip d d' → Q j (Session d' d' n))
     else ∀ n, Ex (AppException AGENT_UNAUTHORIZED "服务器编码与凭证不匹配" 401) (Session d d n)
   else ∀ n, Ex (AppException SERVER_NOT_FOUND "服务器不存在或已停用" 404) (Session d d n)) →
  wp (register data ip) Q Ex (Session d d n).
Proof.
  intros HI Hk Ht Hh Hu Hsv j Hcase. apply wp_register; cbn [work durable ticks]; [done|..].
  - intros n' Hn. exfalso. specialize (Hn i t Ht Hh). cbn [ticks] in Hn. congruence.
  - intros i' t' sv' Ht' Hh' _ Hsv'.
    assert (i' = i) as ->.
    { apply (integrity_unique TToken i' i t' t d HI Ht' Ht). simpl. apply bool_decide_eq_true. congruence. }
    pose proof (same_row TToken Ht Ht') as <-. pose proof (same_row TServer Hsv Hsv') as <-.
    split; [by apply Hk|done].
Qed.

End Props.

(** ** Instances *)

#[local] Opaque agent_db.

Lemma bearer_token_spec_witness : ∃ n', run (find_agent "secret-1") agent_db 5 = (Ok (1, 1), agent_db, n').
Proof.
  apply (bearer_token_spec agent_db "secret-1" 1 1 5 agent_integrity).
  destruct (token_at agent_db 1 1 (_hash_token "secret-1") (clock 5)) as (t & Ht & Hs & Hh & Hu);
    [vm_compute; reflexivity|].
  destruct (server_at agent_db 1 "web-1" "10.0.0.1" 22) as (sv & Hsv & _ & _ & _ & _ & Hen);
    [vm_compute; reflexivity|].
  exists t, sv. exact (conj Ht (conj Hh (conj Hu (conj Hs (conj Hsv Hen))))).
Defined.

(** The second server's address is taken by the first. *)
Lemma heartbeat_spec_witness :
  (∃ n', run (heartbeat 2 (HeartbeatRequest.Mk (Some 1) None None) None) agent_db 5
     = (Raise (AppException AGENT_UNAUTHORIZED "服务器 ID 与凭证不匹配" 401), agent_db, n')) ∧
  (∃ n', run (heartbeat 2 (HeartbeatRequest.Mk None None None) (Some "10.0.0.1")) agent_db 5
     = (Raise IntegrityError, agent_db, n')) ∧
  (∃ d' n' m, run (heartbeat 2 (HeartbeatRequest.Mk (Some 2) None None) (Some "10.0.0.9")) agent_db 5
     = (Ok (2, py_isoformat (clock m)), d', n')).
Proof.
  destruct (server_at agent_db 2 "web-2" "10.0.0.2" 22) as (sv & Hsv & _ & _ & _ & Hport & _);
    [vm_compute; reflexivity|].
  split_and!.
  - apply (proj1 (heartbeat_spec agent_db 2 sv (HeartbeatRequest.Mk (Some 1) None None) None 5
      agent_integrity agent_server_keys Hsv)). by intros [[=]|[=]].
  - apply (proj1 (proj2 (heartbeat_spec agent_db 2 sv (HeartbeatRequest.Mk None None None) (Some "10.0.0.1") 5
      agent_integrity agent_server_keys Hsv))); [by left|].
    rewrite Hport. apply (bool_decide_unpack _). vm_compute. reflexivity.
  - destruct (proj2 (proj2 (heartbeat_spec agent_db 2 sv (HeartbeatRequest.Mk (Some 2) None None)
      (Some "10.0.0.9") 5 agent_integrity agent_server_keys Hsv))) as (d' & n' & m & Hrun & _); [by right| |].
    + rewrite Hport. apply (bool_decide_unpack _). vm_compute. reflexivity.
    + exists d', n', m. exact Hrun.
Defined.

Definition sample_metrics (at_ : datetime) : MetricsRequest :=
  MetricsRequest.Mk None (WireTime at_ None) (Some (12 # 1)%Q) None None None None None None None None None None.

(** The clock shows 1700000005 seconds. *)
Lemma ingest_metrics_spec_witness :
  (∃ n', run (ingest_metrics 1 (sample_metrics (seconds 1700000400))) agent_db 5
     = (Raise (AppException INVALID_TIMESTAMP "采集时间非法" 400), agent_db, n')) ∧
  (∃ d' n' m, run (ingest_metrics 1 (sample_metrics (seconds 1700000305))) agent_db 5
     = (Ok (1, py_isoformat (clock m)), d', n')).
Proof.
  destruct (server_at agent_db 1 "web-1" "10.0.0.1" 22) as (sv & Hsv & _); [vm_compute; reflexivity|].
  split.
  - exact (ingest_metrics_spec agent_db 1 sv (sample_metrics (seconds 1700000400)) 5
      agent_integrity agent_server_keys Hsv (or_introl eq_refl)).
  - destruct (ingest_metrics_spec agent_db 1 sv (sample_metrics (seconds 1700000305)) 5
      agent_integrity agent_server_keys Hsv (or_introl eq_refl)) as (d' & n' & m & now & Hrun & _).
    exists d', n', m. exact Hrun.
Defined.

Definition sample_register (code token : string) : RegisterRequest :=
  RegisterRequest.Mk code token "host" None None None None None (Some 8) None None (Some "1.0.0") (Some "aGVsbG8=").

