(* ===== verification/AgentSystem.v ===== *)
(** * From the agent's machine to the server's tables

    What a healthy machine shows is collected, accepted by the request model of
    the server and stored; and a turn of the worker ends every execution that
    the server hands out. *)
From Stdlib Require Import QArith.
From S2P Require Import Prelude.
From S2P Require Import WorkerProps AgentMain AgentFlow.

(** ** A healthy machine *)

(** What psutil and the operating system document: percentages and counters
    that are not negative, an interface and a load average, a start in the past,
    and files of [/proc] that can be decoded. *)
Record healthy (h : host) : Prop := {
  healthy_cpu : (0 <= cpu_percent h <= 100)%Q;
  healthy_model : is_Some (cpu._read_cpu_model h);
  healthy_memory : 0 <= vm_used h ∧ (0 <= vm_percent h <= 100)%Q;
  healthy_disk : ∀ total percent, disk_usage h "/" = Some (total, percent) → (0 <= percent <= 100)%Q;
  healthy_network : ∃ sent received, net_io_counters h = Some (sent, received) ∧ 0 <= sent ∧ 0 <= received;
  healthy_load : ∃ l1 l5 l15, getloadavg h = Some (l1, l5, l15) ∧ (0 <= l1)%Q ∧ (0 <= l5)%Q ∧ (0 <= l15)%Q;
  healthy_connections : is_Some (system._read_tcp_connections h);
  healthy_uptime : (boot_time h <= time_time h)%Q
}.

Definition opt_float (o : option Q) : json := match o with Some x => JFloat x | None => JNull end.

(** The values of a [MetricsRequest] as they are in its JSON. *)
Definition metric_values (d : MetricsRequest) : list (string * json) :=
  [("cpu_usage", opt_float (MetricsRequest.cpu_usage d));
   ("memory_usage", opt_float (MetricsRequest.memory_usage d));
   ("memory_used_bytes", opt_int (MetricsRequest.memory_used_bytes d));
   ("disk_usage", opt_float (MetricsRequest.disk_usage d));
   ("network_in_bytes", opt_int (MetricsRequest.network_in_bytes d));
   ("network_out_bytes", opt_int (MetricsRequest.network_out_bytes d));
   ("load_1m", opt_float (MetricsRequest.load_1m d));
   ("load_5m", opt_float (MetricsRequest.load_5m d));
   ("load_15m", opt_float (MetricsRequest.load_15m d));
   ("tcp_connections", opt_int (MetricsRequest.tcp_connections d));
   ("uptime_seconds", opt_int (MetricsRequest.uptime_seconds d))].

(** The body of a request of server [i] at time [now]. *)
Definition metrics_body (i : Z) (now : datetime) (d : MetricsRequest) : json :=
  JDict (("server_id", JInt i) :: ("timestamp", JStr (_utcnow_iso now)) :: metric_values d).

Lemma round_half_even_le a b n : 0 < b → a <= n * b → round_half_even a b <= n.
Proof.
  intros Hb Ha. unfold round_half_even. cbv zeta.
  pose proof (Z.div_mod a b ltac:(lia)) as Hdiv. pose proof (Z.mod_pos_bound a b Hb) as Hmod.
  assert (a / b <= n) as Hq by (apply Z.div_le_upper_bound; lia).
  destruct (Z.eq_dec (a / b) n) as [He|He].
  - assert (a mod b = 0) as -> by (rewrite He in Hdiv; lia). rewrite (proj2 (Z.compare_lt_iff (2 * 0) b)); lia.
  - repeat case_match; lia.
Qed.

Lemma forallb_below (f : Z → bool) (n : Z) (k : Z) :
  forallb f (Z.of_nat <$> seq 0 (Z.to_nat n)) = true → 0 <= k < n → f k = true.
Proof.
  rewrite forallb_forall. intros Hall Hk. apply Hall, list_elem_of_In, list_elem_of_fmap.
  exists (Z.to_nat k). rewrite elem_of_seq. lia.
Qed.

(** Every percentage with two digits is a float of at most 100. *)
Lemma percent_floats (k : Z) : 0 <= k < 10001 → Qle_bool (fl (k # 100)) 100 = true.
Proof. apply (forallb_below (λ k, Qle_bool (fl (k # 100)) 100) 10001). vm_compute. reflexivity. Qed.

Lemma py_round_percent x : (0 <= x <= 100)%Q → q_in 0 100 (py_round x 2) = true.
Proof.
  intros [H0 H100]. unfold q_in. apply andb_true_iff. split; apply Qle_bool_iff; [by apply py_round_nonneg|].
  unfold py_round. cbv zeta. set (k := round_half_even _ _).
  assert (0 <= k) as Hk0. { apply round_half_even_nonneg; [|done]. unfold Qle in H0. simpl in H0. apply Z.mul_nonneg_nonneg; lia. }
  assert (k <= 10000) as Hk. { apply round_half_even_le; [done|]. unfold Qle in H100. simpl in H100. change (10 ^ 2) with 100. lia. }
  apply Qle_bool_iff, percent_floats. lia.
Qed.

Lemma system_collected h : healthy h → ∃ l1 l5 l15 n up,
  system.collect h = Some (system.Mk l1 l5 l15 n up (gethostname h) (platform_release h)) ∧
  (0 <= l1)%Q ∧ (0 <= l5)%Q ∧ (0 <= l15)%Q ∧ 0 <= n ∧ 0 <= up.
Proof.
  intros H. destruct (healthy_load h H) as (l1 & l5 & l15 & Hl & H1 & H5 & H15).
  destruct (healthy_connections h H) as [n Hn]. unfold system.collect. rewrite Hl. cbn [mbind option_bind].
  rewrite Hn. cbn [mbind option_bind]. eexists _, _, _, _, _. split; [reflexivity|].
  split_and!; try by apply py_round_nonneg.
  - unfold system._read_tcp_connections in Hn. destruct (system.connections_in (open_file h "/proc/net/tcp")); [|done].
    cbn [mbind option_bind] in Hn. destruct (system.connections_in _); [|done]. injection Hn as <-. lia.
  - unfold py_int. pose proof (fl_nonneg (time_time h - boot_time h)) as Hup. unfold Qle in Hup. simpl (Qnum 0) in Hup.
    apply Z.quot_pos; [|done]. pose proof (healthy_uptime h H) as Hle. apply Qle_minus_iff in Hle.
    specialize (Hup Hle). lia.
Qed.

(** A healthy machine is always collected, and what is collected satisfies the
    request model of the server. *)
Lemma metrics_collected (h : host) (i : Z) (now : datetime) : healthy h →
  ∃ d, collect_metrics h = Some (metric_values d) ∧ valid_MetricsRequest d = true ∧
    MetricsRequest.server_id d = Some i ∧ MetricsRequest.timestamp d = WireTime now (Some 0).
Proof.
  intros H. destruct (system_collected h H) as (l1 & l5 & l15 & n & up & Hs & H1 & H5 & H15 & Hn & Hup).
  destruct (healthy_model h H) as [model Hm]. destruct (healthy_network h H) as (sent & received & Hnet & Hsent & Hrec).
  destruct (healthy_memory h H) as [Hused Hmem].
  unfold collect_metrics, cpu.collect, network.collect_counts. rewrite Hm, Hnet, Hs. cbn [mbind option_bind].
  exists (MetricsRequest.Mk (Some i) (WireTime now (Some 0)) (Some (py_round (cpu_percent h) 2))
    (Some (py_round (vm_percent h) 2)) (Some (vm_used h)) (Some (disk.collect_usage_percent h)) (Some received) (Some sent)
    (Some l1) (Some l5) (Some l15) (Some n) (Some up)).
  split; [reflexivity|]. split; [|done].
  assert (q_in 0 100 (disk.collect_usage_percent h) = true) as Hd.
  { unfold disk.collect_usage_percent. destruct (disk_usage h "/") as [[total percent]|] eqn:Hdu; [|by vm_compute].
    by apply py_round_percent, (healthy_disk h H total). }
  unfold valid_MetricsRequest, opt_check. simpl. rewrite Hd, !py_round_percent by (done || apply H).
  rewrite !andb_true_iff, !Qle_bool_iff, !Z.leb_le. by split_and!.
Qed.

Section Delivery.
Context `{E : Env} `{!EnvOk E} `{!Ed25519} `{!Secrets}.

(** C36: the body that the metrics loop sends for a healthy machine is the JSON of a
    valid request of its server.  Arriving within [MAX_TIME_SKEW_SECONDS] it is
    stored as collected, in one new row of that server and nothing else. *)
Theorem metrics_delivered (h : host) (db0 : db) (i : Z) (sv : OpsServer) (now : datetime) (n : nat) :
  healthy h → integrity db0 → server_keys db0 → servers db0 !! i = Some sv →
  Z.abs (clock n - now) <= seconds MAX_TIME_SKEW_SECONDS →
  ∃ metrics d, collect_metrics h = Some metrics ∧
    values_payload (JInt i) metrics now = metrics_body i now d ∧ valid_MetricsRequest d = true ∧
    ∃ d' n' m at_, run (ingest_metrics i d) db0 n = (Ok (i, py_isoformat (clock m)), d', n') ∧
      rows (d' TMetric) = <[next_id (db0 TMetric) :=
        fresh_row TMetric (next_id (db0 TMetric)) at_ (new_metric i now d)]> (rows (db0 TMetric)) ∧
      only_in [TMetric] db0 d' ∧ integrity d'.
Proof.
  intros Hh HI Hk Hsv Hskew. destruct (metrics_collected h i now Hh) as (d & Hcol & Hval & Hid & Hts).
  exists (metric_values d), d. split; [done|]. split; [reflexivity|]. split; [done|].
  pose proof (ingest_metrics_spec db0 i sv d n HI Hk Hsv (or_intror Hid)) as Hin. cbv zeta in Hin.
  rewrite Hts in Hin. unfold _normalize_utc in Hin. cbn [utcoffset local] in Hin. rewrite Z.sub_0_r in Hin.
  rewrite (proj2 (Z.ltb_ge _ _)) in Hin by done. exact Hin.
Qed.
End Delivery.

(** ** A round of tasks

    The worker and the task service together, on a network that delivers. *)

Section TaskRound.
Context `{E : Env} `{!EnvOk E} `{!Cron} `{!Subprocess}.

(** A report of the agent of server [i] that arrives; the state is the database
    and the clock. *)
Definition server_report (i : Z) (r : task_report) (st : db * nat) : (db * nat) * bool :=
  let '(o, d', n') := run (report_result i (execution_id r) (status r) None (result_text r) (error_message r)
                             (error_type r) (logs r)) st.1 st.2 in
  ((d', n'), match o with Ok _ => true | Raise _ => false end).

(** The agent's turn: the tasks of server [i], carried out and reported.  [None]:
    the server does not hand them out. *)
Definition agent_turn (allowed : list string) (i : Z) (log : list (list string)) (d : db) (n : nat)
    : option (list (list string) * (db * nat) * Z) :=
  match run (fetch_pending i) d n with
  | (Ok cs, d', n') => Some (poll_once allowed (server_report i) cs log (d', n'))
  | (Raise _, _, _) => None
  end.

Definition finished (d : db) (j : Z) : Prop :=
  ∃ e, execs d !! j = Some e ∧ OpsTaskExecution.status e ∈ [E_SUCCESS; E_FAILED].

(** Executions of server [i] that wait for a report. *)
Definition waiting (d : db) (i j : Z) : Prop :=
  ∃ e, execs d !! j = Some e ∧ OpsTaskExecution.server_id e = i ∧ exec_terminal (OpsTaskExecution.status e) = false.

Lemma run_ignored {A} (m : M A) (a : A) (d d' : db) (n n' : nat) :
  run m d n = (Ok a, d', n') → run (_ ← m; mret ()) d n = (Ok (), d', n').
Proof. unfold run, mbind, M_bind. by destruct (m _) as [[?|?] s']; intros [= <- <- <-]. Qed.

Lemma report_ends (i : Z) (c : claim) (outcome : execution) (d : db) (n : nat) :
  reachable d → waiting d i (claim_execution_id c) →
  ∃ d' n', server_report i (report_of c outcome) (d, n) = ((d', n'), true) ∧ reachable d' ∧
    finished d' (claim_execution_id c) ∧ ∀ j, j ≠ claim_execution_id c → execs d' !! j = execs d !! j.
Proof.
  intros Hd (e & He & Hi & Hlive). destruct (task_of_exec _ _ _ _ (reachable_inv _ Hd) He) as [t Ht].
  destruct (report_of_cases c outcome) as [Hid Hst]. set (r := report_of c outcome) in *.
  destruct (run_report_result d (execution_id r) i e t n (status r) None (result_text r) (error_message r)
    (error_type r) (logs r)) as (e' & d' & n' & Hrun & Hrow & Hset); [done|by rewrite Hid|done..|].
  exists d', n'. unfold server_report. cbn [fst snd]. rewrite Hrun. split; [done|].
  rewrite Hid in Hset. rewrite (settled_execs _ _ _ _ _ _ Hset). split_and!.
  - pose proof (reachable_after (ReportResult i (execution_id r) (status r) None (result_text r) (error_message r)
      (error_type r) (logs r)) d n eq_refl Hd) as Hr.
    unfold after in Hr. simpl in Hr. by rewrite (run_ignored _ _ _ _ _ _ Hrun) in Hr.
  - exists e'. rewrite (settled_execs _ _ _ _ _ _ Hset), lookup_insert_eq. split; [done|].
    revert Hrow. unfold report_row. destruct Hst as [->|[-> Hret]]; [intros (_ & -> & _); set_solver|].
    simpl. unfold failure_row. rewrite Hret. intros (_ & _ & ->). set_solver.
  - intros j Hj. by rewrite lookup_insert_ne.
Qed.

Lemma waiting_other (d d' : db) (i j : Z) : execs d' !! j = execs d !! j → waiting d i j → waiting d' i j.
Proof. intros Hj (e & He & Hrest). exists e. split; [by transitivity (execs d !! j)|done]. Qed.

Lemma finished_other (d d' : db) (j : Z) : execs d' !! j = execs d !! j → finished d j → finished d' j.
Proof. intros Hj (e & He & Hrest). exists e. split; [by transitivity (execs d !! j)|done]. Qed.

(** Reports of distinct waiting executions: all arrive. *)
Lemma reports_end (i : Z) (cs : list claim) (rs : list task_report) (d : db) (n : nat) :
  reachable d → NoDup (claim_execution_id <$> cs) → Forall (waiting d i) (claim_execution_id <$> cs) →
  Forall2 (λ c r, ∃ outcome, r = report_of c outcome) cs rs →
  ∃ d' n', post_all (server_report i) rs (d, n) = ((d', n'), Z.of_nat (length cs)) ∧ reachable d' ∧
    Forall (finished d') (claim_execution_id <$> cs) ∧
    ∀ j, j ∉ claim_execution_id <$> cs → execs d' !! j = execs d !! j.
Proof.
  intros Hd Hnd Hw Hrs. induction Hrs as [|c r cs rs [outcome ->] _ IH] in d, n, Hd, Hnd, Hw |- *; [by exists d, n|].
  cbn [fmap list_fmap] in *. apply NoDup_cons in Hnd as [Hc Hnd]. apply Forall_cons in Hw as [Hwc Hw].
  destruct (report_ends i c outcome d n Hd Hwc) as (d1 & n1 & Hrep & Hd1 & Hfin & Hother).
  destruct (IH d1 n1 Hd1 Hnd) as (d2 & n2 & Hpost & Hd2 & Hall & Hkeep).
  { rewrite Forall_forall in Hw |- *. intros j Hj. apply (waiting_other d); [|by apply Hw].
    apply Hother. by intros ->. }
  exists d2, n2. cbn [post_all]. rewrite Hrep, Hpost. split_and!; [f_equal; simpl; lia|done| |].
  - constructor; [|done]. apply (finished_other d1); [by apply Hkeep|done].
  - intros j Hj. rewrite Hkeep by set_solver. apply Hother. set_solver.
Qed.

Lemma claim_ids_nodup (d : db) (i : Z) : NoDup (claim_ids d i).
Proof. unfold claim_ids. eapply sublist_NoDup; [|apply sublist_take]. rewrite sort_by_perm. apply matching_nodup. Qed.

Lemma claimed_waiting (d d' : db) (i : Z) : claimed (claim_ids d i) d d' → Forall (waiting d' i) (claim_ids d i).
Proof.
  intros Hc. apply Forall_forall. intros j Hj. destruct (claimed_exec _ _ _ Hc j Hj) as (e & e' & He & He' & now & ->).
  eexists. split; [exact He'|]. split; [|done]. unfold claim_ids in Hj. apply elem_of_take in Hj as (m & Hm & _).
  apply list_elem_of_lookup_2, elem_of_sort_by, elem_of_matching in Hm as (e2 & He2 & Hcl).
  rewrite (same_row TExec He He2). simpl. by apply claimable_spec in Hcl as (-> & _).
Qed.

(** C27: a turn of the agent over a network that delivers: whatever the commands do,
    it ends with every execution that the server handed out SUCCESS or FAILED,
    every report accepted, no other execution touched, and no command started
    but the permitted ones on the agent's whitelist. *)
Theorem task_round (allowed : list string) (i : Z) (log : list (list string)) (d : db) (n : nat) :
  reachable d →
  ∃ cmds d' n', agent_turn allowed i log d n = Some (log ++ cmds, (d', n'), Z.of_nat (length (claim_ids d i))) ∧
    reachable d' ∧ Forall (finished d') (claim_ids d i) ∧
    (∀ j, j ∉ claim_ids d i → execs d' !! j = execs d !! j) ∧ Forall (allowed_command allowed) cmds.
Proof.
  intros Hd. destruct (run_fetch_pending d i n Hd) as (cs & d1 & n1 & Hrun & Hids & _ & _ & Hc).
  assert (reachable d1) as Hd1.
  { pose proof (reachable_after (FetchPending i) d n eq_refl Hd) as Hr.
    unfold after in Hr. simpl in Hr. by rewrite (run_ignored _ _ _ _ _ _ Hrun) in Hr. }
  destruct (poll_tasks_spec allowed (server_report i) cs log (d1, n1) 0)
    as (rs & cmds & st' & count & Hpoll & Hpost & Hcmds & _ & Hrs).
  rewrite Hids in Hc. destruct (reports_end i cs rs d1 n1 Hd1) as (d2 & n2 & Hpost2 & Hd2 & Hall & Hkeep).
  - rewrite Hids. apply claim_ids_nodup.
  - rewrite Hids. by apply (claimed_waiting d).
  - eapply Forall2_impl; [exact Hrs|]. intros c r (seen & outcome & log' & _ & ->). by exists outcome.
  - rewrite Hpost2 in Hpost. injection Hpost as <- <-. exists cmds, d2, n2. rewrite Hids in *. split_and!; try done.
    + unfold agent_turn. rewrite Hrun. unfold poll_once. rewrite Hpoll. simpl.
      by rewrite <- (length_fmap claim_execution_id cs), Hids.
    + intros j Hj. rewrite Hkeep by done. by apply (claimed_other _ _ _ Hc).
Qed.
End TaskRound.

(** ** Instances *)

Lemma sample_healthy : healthy sample_host.
Proof.
  split; try (split; by vm_compute); try (vm_compute; by eexists).
  - intros total percent. vm_compute. by intros [= <- <-].
  - exists 1000, 5000. by vm_compute.
  - exists (1 # 2), (1 # 4), (1 # 8). by split_and!; vm_compute.
  - by vm_compute.
Qed.

(** The clock of the server shows 1700000005 seconds. *)
Lemma metrics_delivered_witness :
  ∃ metrics d d' n' m, collect_metrics sample_host = Some metrics ∧
    values_payload (JInt 1) metrics (seconds 1700000000) = metrics_body 1 (seconds 1700000000) d ∧
    run (ingest_metrics 1 d) agent_db 5 = (Ok (1, py_isoformat (clock m)), d', n') ∧ integrity d'.
Proof.
  destruct (server_at agent_db 1 "web-1" "10.0.0.1" 22) as (sv & Hsv & _); [vm_compute; reflexivity|].
  assert (Z.abs (clock 5 - seconds 1700000000) <= seconds MAX_TIME_SKEW_SECONDS) as Hskew by (vm_compute; congruence).
  destruct (metrics_delivered sample_host agent_db 1 sv (seconds 1700000000) 5 sample_healthy agent_integrity
    agent_server_keys Hsv Hskew) as (metrics & d & Hcol & Hbody & _ & d' & n' & m & at_ & Hrun & _ & _ & HI).
  exists metrics, d, d', n', m. exact (conj Hcol (conj Hbody (conj Hrun HI))).
Defined.

(** The second server's pending restart runs out of time on the agent. *)
Lemma task_round_witness :
  ∃ cmds d' n', agent_turn ["nginx"] 2 [] demo_later 300 = Some (cmds, (d', n'), 1) ∧
    finished d' 1 ∧ Forall (allowed_command ["nginx"]) cmds.
Proof.
  assert (claim_ids demo_later 2 = [1]) as Hids by (vm_compute; reflexivity).
  destruct (task_round ["nginx"] 2 [] demo_later 300 demo_later_reachable)
    as (cmds & d' & n' & Hturn & _ & Hfin & _ & Hcmds).
  rewrite Hids in Hturn, Hfin. exists cmds, d', n'. split; [exact Hturn|]. split; [|exact Hcmds].
  exact (Forall_inv Hfin).
Defined.
