(* ===== verification/ServerAdmin.v ===== *)
(** * What server administration guarantees

    When a server is created, and that an issued token authenticates. *)
From S2P Require Import Prelude.
From S2P Require Export ServerService Samples.

(** No server has this code. *)
Definition code_free (d : db) (code : string) : Prop :=
  ∀ j sv, servers d !! j = Some sv → OpsServer.server_code sv ≠ code.

#[export] Instance code_free_dec d code : Decision (code_free d code).
Proof.
  refine (cast_if (decide (map_Forall (λ j sv, OpsServer.server_code sv ≠ code) (servers d)))).
  - abstract (intros j sv; apply m).
  - abstract (intros Hf; apply n; intros j sv; apply Hf).
Defined.

(** No operation of the program deletes servers. *)
Definition servers_alive (d : db) : Prop := map_Forall (λ j sv, alive TServer sv = true) (servers d).

#[export] Instance servers_alive_dec d : Decision (servers_alive d).
Proof. unfold servers_alive. apply _. Defined.

Section Props.
Context `{E : Env} `{!EnvOk E} `{!Ed25519} `{!Secrets}.

Lemma admissible_new_server d data created_by now :
  integrity d → (∀ u, created_by = Some u → is_Some (rows (d TUser) !! u)) →
  code_free d (ServerCreate.server_code data) →
  address_free d (next_id (d TServer)) (ServerCreate.ip_address data) (ServerCreate.ssh_port data) →
  admissible TServer (next_id (d TServer))
    (fresh_row TServer (next_id (d TServer)) now (new_server data created_by)) d = true.
Proof.
  intros HI Hu Hc Ha. apply admissible_spec. split.
  - simpl. destruct created_by as [u|]; simpl; [|by intros ? ? ?%elem_of_nil].
    intros k j [= -> ->]%list_elem_of_singleton. by apply Hu.
  - intros j sv Hj Hne. simpl. apply orb_false_iff. split.
    + apply bool_decide_eq_false. intros Heq. by apply (Hc j sv Hj).
    + apply andb_false_iff. destruct (decide (ServerCreate.ip_address data = OpsServer.ip_address sv)) as [He|He];
        [right|left]; apply bool_decide_eq_false; [|done]. intros Hp. by apply (Ha j sv Hj Hne).
Qed.

Lemma wp_create_server d data created_by n (Q : Z → session → Prop) (Ex : exc → session → Prop) :
  integrity d → servers_alive d → (∀ u, created_by = Some u → is_Some (rows (d TUser) !! u)) →
  (let i := next_id (d TServer) in
   if negb (bool_decide (code_free d (ServerCreate.server_code data)))
   then Ex (AppException SERVER_CODE_EXISTS "服务器编码已存在" 409) (Session d d n)
   else if negb (bool_decide (address_free d i (ServerCreate.ip_address data) (ServerCreate.ssh_port data)))
   then Ex (AppException SERVER_IP_EXISTS "IP 与端口已被占用" 409) (Session d d n)
   else let d' := add_row TServer (fresh_row TServer i (clock n) (new_server data created_by)) d in
        integrity d' → Q i (Session d' d' (S n))) →
  wp (create_server data created_by) Q Ex (Session d d n).
Proof.
  intros HI Hal Hu Hcase. cbv zeta in Hcase. unfold create_server, ServerRepository.get_by_server_code, ServerRepository.get_by_ip_port.
  apply wp_bind, wp_get_by_unique; cbn [work].
  { intros i sv Hsv _ Hc%String.eqb_eq. rewrite (bool_decide_false (code_free _ _)) in Hcase; [by apply wp_app_error|].
    intros Hf. by apply (Hf i sv Hsv). }
  intros Hcode. rewrite (bool_decide_true (code_free _ _)) in Hcase.
  2: { intros j sv Hj Heq. specialize (Hcode j sv Hj (Hal j sv Hj)). by apply String.eqb_neq in Hcode. }
  apply wp_bind, wp_get_by_unique; cbn [work].
  { intros i sv Hsv _ [Hip%String.eqb_eq Hport%Z.eqb_eq]%andb_true_iff.
    rewrite (bool_decide_false (address_free _ _ _ _)) in Hcase; [by apply wp_app_error|].
    intros Hf. by apply (Hf i sv Hsv (row_not_next TServer d i sv HI Hsv)). }
  intros Hip. assert (address_free d (next_id (d TServer)) (ServerCreate.ip_address data)
    (ServerCreate.ssh_port data)) as Hfree.
  { intros j sv Hj _ [H1 H2]. specialize (Hip j sv Hj (Hal j sv Hj)). apply andb_false_iff in Hip as [Hip|Hip].
    - by apply String.eqb_neq in Hip.
    - by apply Z.eqb_neq in Hip. }
  rewrite (bool_decide_true (address_free _ _ _ _)) in Hcase by done. apply wp_bind, wp_create_ok; cbn [work ticks].
  - done.
  - apply admissible_new_server; [done|done| |done].
    intros j sv Hj Heq. specialize (Hcode j sv Hj (Hal j sv Hj)). by apply String.eqb_neq in Hcode.
  - intros HI'. by apply wp_bind, wp_commit, wp_ret, Hcase.
Qed.

(** A server is created exactly if its code and its address are free; a
    taken code, or else a taken address, is refused with 409 and nothing
    changes. *)
Theorem create_server_spec (d : db) (data : ServerCreate) (created_by : option Z) (n : nat) :
  integrity d → servers_alive d → (∀ u, created_by = Some u → is_Some (rows (d TUser) !! u)) →
  let i := next_id (d TServer) in
  if negb (bool_decide (code_free d (ServerCreate.server_code data)))
  then run (create_server data created_by) d n = (Raise (AppException SERVER_CODE_EXISTS "服务器编码已存在" 409), d, n)
  else if negb (bool_decide (address_free d i (ServerCreate.ip_address data) (ServerCreate.ssh_port data)))
  then run (create_server data created_by) d n = (Raise (AppException SERVER_IP_EXISTS "IP 与端口已被占用" 409), d, n)
  else run (create_server data created_by) d n
       = (Ok i, add_row TServer (fresh_row TServer i (clock n) (new_server data created_by)) d, S n).
Proof.
  intros HI Hal Hu. cbv zeta. destruct (bool_decide (code_free _ _)) eqn:Hc; cbn [negb].
  2: { apply run_refused, wp_create_server; [done..|]. by rewrite Hc. }
  destruct (bool_decide (address_free _ _ _ _)) eqn:Ha; cbn [negb].
  2: { apply run_refused, wp_create_server; [done..|]. cbv zeta. by rewrite Hc, Ha. }
  set (d' := add_row TServer _ d).
  destruct (run_total (create_server data created_by) (λ r s', r = next_id (d TServer) ∧ s' = Session d' d' (S n)) d n)
    as (r & s' & Hrun & -> & ->); [|done].
  apply wp_create_server; [done..|]. cbv zeta. rewrite Hc, Ha. done.
Qed.

(** ** Tokens *)

(** The next secret has not been used. *)
Definition secret_fresh (d : db) (secret : string) : Prop :=
  map_Forall (λ j t, OpsAgentToken.token_hash t ≠ _hash_token secret) (tokens d).

#[export] Instance secret_fresh_dec d secret : Decision (secret_fresh d secret).
Proof. unfold secret_fresh. apply _. Defined.

(** The stored row of a new token. *)
Definition issued_row (d : db) (i : Z) (name : option string) (now : datetime) (k : nat) : OpsAgentToken :=
  fresh_row TToken (next_id (d TToken)) now (AgentTokenRepository.new_token i name (token_urlsafe k)).

Lemma wp_generate_agent_token d i sv name k n (Q : AgentTokenResponse → session → Prop) Ex :
  integrity d → server_keys d → servers d !! i = Some sv → alive TServer sv = true →
  secret_fresh d (token_urlsafe k) →
  (let j := next_id (d TToken) in
   let row := issued_row d i name (clock n) k in
   let d' := add_row TToken row d in
   integrity d' →
   Q (AgentTokenResponse.Mk j (OpsAgentToken.token_name row) (OpsAgentToken.token_prefix row) (token_urlsafe k)
        (clock n)) (Session d' d' (S n))) →
  wp (generate_agent_token i name k) Q Ex (Session d d n).
Proof.
  intros HI Hk Hsv Hal Hf HQ. unfold generate_agent_token, get_server, AgentTokenRepository.create_token.
  apply wp_bind, wp_bind, (wp_get TServer); cbn [work]; [|intros Hn; by rewrite (Hn sv Hsv) in Hal].
  intros _ _ _. apply wp_ret, wp_bind, (wp_obj_ok TServer i sv); [done|]. rewrite (Hk i sv Hsv).
  apply wp_bind, wp_bind, wp_create_ok; cbn [work ticks].
  - done.
  - apply admissible_spec. split; [by intros k' j [= -> ->]%list_elem_of_singleton; exists sv|].
    intros j t Hj _. apply bool_decide_eq_false. simpl. intros Heq. by apply (Hf j t Hj).
  - intros HI'. apply wp_ret. cbn [work set_work tick durable ticks].
    apply wp_bind, wp_commit, wp_bind, (wp_obj_ok TToken _ (issued_row d i name (clock n) k)); cbn [work set_work tick durable ticks].
    { rewrite rows_add_row. apply lookup_insert_eq. }
    apply wp_ret, HQ. done.
Qed.

(** C37: a token issued for an enabled server, and only its hash and prefix being
    stored, authenticates as that token and server at any later time, until
    its row changes; the answer is the only place that holds the secret. *)
Theorem token_roundtrip (d : db) (i : Z) (sv : OpsServer) (name : option string) (k n m : nat) :
  integrity d → server_keys d → servers d !! i = Some sv → ServerRepository.enabled sv = true →
  secret_fresh d (token_urlsafe k) →
  ∃ r d' n' n'', run (generate_agent_token i name k) d n = (Ok r, d', n') ∧
    AgentTokenResponse.token r = token_urlsafe k ∧
    d' = add_row TToken (issued_row d i name (clock n) k) d ∧
    run (find_agent (AgentTokenResponse.token r)) d' m = (Ok (AgentTokenResponse.id r, i), d', n'').
Proof.
  intros HI Hk Hsv Hen Hf. pose proof Hen as [Hal _]%andb_true_iff.
  set (d' := add_row TToken (issued_row d i name (clock n) k) d).
  destruct (run_total (generate_agent_token i name k) (λ r s', AgentTokenResponse.token r = token_urlsafe k ∧
    AgentTokenResponse.id r = next_id (d TToken) ∧ durable s' = d' ∧ integrity d') d n)
    as (r & s' & Hrun & Hr & Hid & Hd & HI'); [by apply (wp_generate_agent_token d i sv)|].
  assert (tokens d' !! next_id (d TToken) = Some (issued_row d i name (clock n) k)) as Ht.
  { unfold d'. rewrite rows_add_row. apply lookup_insert_eq. }
  destruct (run_total (find_agent (token_urlsafe k)) (λ r' s'', r' = (next_id (d TToken), i) ∧ durable s'' = d') d' m)
    as (r' & s'' & Hrun' & -> & Hd'').
  { apply wp_find_agent; cbn [work durable ticks]; [done|..].
    - intros i' t sv' n' Ht' Hh _ Hsv'.
      assert (i' = next_id (d TToken)) as ->.
      { apply (integrity_unique TToken i' _ t _ d' HI' Ht' Ht). simpl. by apply bool_decide_eq_true. }
      pose proof (same_row TToken Ht Ht') as <-. change (OpsAgentToken.server_id _) with i in Hsv' |- *.
      assert (sv' = sv) as ->.
      { unfold d' in Hsv'. rewrite add_row_ne in Hsv' by done. exact (same_row TServer Hsv' Hsv). }
      by rewrite Hen.
    - intros n' Hn. specialize (Hn _ _ Ht eq_refl). done. }
  exists r, d', (ticks s'), (ticks s''). rewrite Hr, Hid. split_and!; [by rewrite Hrun, Hd|done|done|].
  by rewrite Hrun', Hd''.
Qed.
End Props.

(** ** Instances *)

#[local] Opaque agent_db.

Definition sample_create (code ip : string) : ServerCreate := ServerCreate.Mk code "host" ip 22 None.

Lemma agent_users : ∀ u, Some 1 = Some u → is_Some (rows (agent_db TUser) !! u).
Proof. intros u [= <-]. eexists. vm_compute. reflexivity. Qed.

Lemma agent_servers_alive : servers_alive agent_db.
Proof. apply (bool_decide_unpack _). vm_compute. reflexivity. Qed.

Lemma create_server_spec_witness :
  run (create_server (sample_create "web-1" "10.0.0.9") (Some 1)) agent_db 5
    = (Raise (AppException SERVER_CODE_EXISTS "服务器编码已存在" 409), agent_db, 5%nat) ∧
  (∃ d', run (create_server (sample_create "web-3" "10.0.0.9") (Some 1)) agent_db 5 = (Ok 3, d', 6%nat)).
Proof.
  pose proof (create_server_spec agent_db (sample_create "web-1" "10.0.0.9") (Some 1) 5
    agent_integrity agent_servers_alive agent_users) as H1.
  pose proof (create_server_spec agent_db (sample_create "web-3" "10.0.0.9") (Some 1) 5
    agent_integrity agent_servers_alive agent_users) as H2.
  cbv zeta in H1, H2.
  assert (bool_decide (code_free agent_db (ServerCreate.server_code (sample_create "web-1" "10.0.0.9"))) = false)
    as Hc1 by (vm_compute; reflexivity).
  assert (bool_decide (code_free agent_db (ServerCreate.server_code (sample_create "web-3" "10.0.0.9"))) = true)
    as Hc2 by (vm_compute; reflexivity).
  assert (next_id (agent_db TServer) = 3) as Hid by (vm_compute; reflexivity).
  assert (bool_decide (address_free agent_db 3 "10.0.0.9" 22) = true) as Ha by (vm_compute; reflexivity).
  rewrite Hc1 in H1. rewrite Hc2, Hid in H2. cbn [negb ServerCreate.ip_address ServerCreate.ssh_port sample_create] in H2.
  rewrite Ha in H2. split; [exact H1|]. eexists. exact H2.
Defined.

Lemma token_roundtrip_witness :
  ∃ r d' n' n'', run (generate_agent_token 2 None 7) agent_db 5 = (Ok r, d', n') ∧
    run (find_agent "secret-7") d' 1000 = (Ok (3, 2), d', n'').
Proof.
  destruct (server_at agent_db 2 "web-2" "10.0.0.2" 22) as (sv & Hsv & _ & _ & _ & _ & Hen);
    [vm_compute; reflexivity|].
  assert (secret_fresh agent_db (token_urlsafe 7)) as Hf
    by (apply (bool_decide_unpack _); vm_compute; reflexivity).
  destruct (token_roundtrip agent_db 2 sv None 7 5 1000 agent_integrity agent_server_keys Hsv Hen Hf)
    as (r & d' & n' & n'' & Hrun & Htok & _ & Hfind).
  assert (AgentTokenResponse.id r = 3) as Hid.
  { assert ((run (generate_agent_token 2 None 7) agent_db 5).1.1 = Ok r) as Hx by (rewrite Hrun; reflexivity).
    vm_compute in Hx. by injection Hx as <-. }
  rewrite Htok, Hid in Hfind. exists r, d', n', n''. exact (conj Hrun Hfind).
Defined.
