(* ===== verification/AssetSync.v ===== *)
(** * Synchronising the assets of a server

    Disks and interfaces are upserted one by one, then the rows that were not
    reported are deleted.  Both tables are instances of one argument: a table
    whose rows have an owner and a key, and which no foreign key refers to. *)
From Stdlib Require Import QArith.
From S2P Require Import Prelude Confined.
From S2P Require Export AgentFlow.

Section Owned.
Context `{E : Env} `{!EnvOk E}.
Context (k : tname) {K : Type} `{!EqDecision K} (owner : row k → Z) (key : row k → K).
Hypothesis free : ∀ d i, referenced k d i = false.

(** Does the owner have a row with this key? *)
Definition has_key (sid : Z) (d : db) (x : K) : Prop :=
  ∃ j r, rows (d k) !! j = Some r ∧ owner r = sid ∧ key r = x.

(** The rows of the other owners stay, as do the other tables. *)
Record others_kept (sid : Z) (d d' : db) : Prop := {
  ok_rows : ∀ j r, owner r ≠ sid → rows (d' k) !! j = Some r ↔ rows (d k) !! j = Some r;
  ok_only : only_in [k] d d';
  ok_integrity : integrity d'
}.

Lemma others_kept_refl sid d : integrity d → others_kept sid d d.
Proof. by split. Qed.

Lemma others_kept_trans sid d d1 d2 : others_kept sid d d1 → others_kept sid d1 d2 → others_kept sid d d2.
Proof.
  intros [H1 H2 _] [H3 H4 H5]. split; [|by intros k' Hk; rewrite H4, H2|done].
  intros j r Hr. by rewrite H3, H1.
Qed.

(** Adding or rewriting one row of the owner. *)
Lemma others_kept_put sid d j r r' :
  rows (d k) !! j = Some r → owner r = sid → owner r' = sid → integrity (put_row k j r' d) →
  others_kept sid d (put_row k j r' d).
Proof.
  intros Hr Hs Hs' HI. split; [|by intros k' Hk; apply put_row_ne, only_ne|done].
  intros i x Hx. rewrite rows_put_row. destruct (decide (j = i)) as [->|Hne].
  - rewrite lookup_insert_eq. split; [intros [= <-]; done|]. rewrite Hr. by intros [= <-].
  - by rewrite lookup_insert_ne.
Qed.

Lemma others_kept_add sid d r :
  owner r = sid → integrity d → integrity (add_row k r d) → others_kept sid d (add_row k r d).
Proof.
  intros Hs HI0 HI. split; [|by intros k' Hk; apply add_row_ne, only_ne|done].
  intros i x Hx. rewrite rows_add_row. destruct (decide (next_id (d k) = i)) as [<-|Hne].
  - rewrite lookup_insert_eq. split; [intros [= <-]; done|].
    intros Hi%(integrity_key k HI0). by destruct (Z.lt_irrefl _ Hi).
  - by rewrite lookup_insert_ne.
Qed.

(** ** Deleting *)

(** The rows that stay when those in [ids] that satisfy [p] are deleted. *)
Definition without (p : row k → bool) (ids : list Z) (d : db) : gmap Z (row k) :=
  filter (λ '(j, r), j ∈ ids → p r = false) (rows (d k)).

Lemma wp_delete_loop (p : row k → bool) ids (Q : () → session → Prop) Ex d s :
  work s = d → integrity d → NoDup ids → (∀ i, i ∈ ids → is_Some (rows (d k) !! i)) →
  (∀ d', integrity d' → rows (d' k) = without p ids d → only_in [k] d d' → Q () (set_work d' s)) →
  wp (for_each (λ i, r ← obj k i; when (p r) (delete_row k i)) ids) Q Ex s.
Proof.
  intros Hw HI Hnd Hin HQ. unfold for_each.
  apply (wp_fold_loop (λ rest _ s', ∃ d' past, s' = set_work d' s ∧ past ++ rest = ids ∧ integrity d' ∧
    rows (d' k) = without p past d ∧ only_in [k] d d')).
  - exists d, []. split_and!; [by subst; destruct s|done|done| |done].
    unfold without. symmetry. apply map_filter_id. intros j r _ Hj. by apply elem_of_nil in Hj.
  - intros i rest [] s' (d' & past & -> & Hsplit & HI' & Hrows & Ho).
    assert (i ∉ past) as Hi.
    { intros Hx. rewrite <- Hsplit in Hnd. apply NoDup_app in Hnd as (_ & Hnd & _).
      apply (Hnd i Hx). list_in. }
    destruct (Hin i) as [r Hr]; [rewrite <- Hsplit; list_in|].
    assert (rows (d' k) !! i = Some r) as Hr'.
    { rewrite Hrows. apply map_lookup_filter_Some. split; [done|]. by intros ?%Hi. }
    assert (∀ b j x, p r = b → rows (d k) !! j = Some x →
      ((j ∈ past ++ [i] → p x = false) ↔ (j ∈ past → p x = false) ∧ (b = true → j ≠ i))) as Hmem.
    { intros b j x Hb Hx. rewrite elem_of_app, list_elem_of_singleton. destruct (decide (j = i)) as [->|Hne].
      - assert (x = r) as -> by congruence. rewrite Hb. destruct b; naive_solver.
      - naive_solver. }
    apply wp_bind, (wp_obj_ok k i r); [done|]. unfold when. destruct (p r) eqn:Hp.
    + unfold delete_row. apply wp_bind, (wp_obj_ok k i r); [done|].
      apply wp_bind, wp_get_work. cbn [work set_work]. rewrite free. apply wp_write.
      set (d'' := filter_rows k _ d'). exists d'', (past ++ [i]). split_and!.
      * done.
      * by rewrite <- app_assoc.
      * apply integrity_filter_rows; [done|]. intros; apply free.
      * unfold d''. rewrite rows_filter_rows, Hrows. unfold without. apply map_eq. intros j.
        apply option_eq. intros x. rewrite !map_lookup_filter_Some, negb_true_iff, Z.eqb_neq.
        split; [intros [[Hx H1] H2]|intros [Hx H1]].
        -- split; [done|]. by apply (Hmem true j x eq_refl Hx).
        -- apply (Hmem true j x eq_refl Hx) in H1. naive_solver.
      * intros k' Hk. unfold d''. rewrite filter_rows_ne; [by apply Ho|by apply only_ne].
    + apply wp_ret. exists d', (past ++ [i]). split_and!; [done|by rewrite <- app_assoc|done| |done].
      rewrite Hrows. apply map_filter_ext. intros j x Hx. rewrite (Hmem false j x eq_refl Hx). naive_solver.
  - intros [] s' (d' & past & -> & Hsplit & HI' & Hrows & Ho). rewrite app_nil_r in Hsplit. subst past.
    by apply HQ.
Qed.

(** The rows of the owner that satisfy [p], deleted: the others stay. *)
Lemma wp_delete_owned sid (p : row k → bool) (Q : () → session → Prop) Ex s :
  (∀ r, alive k r = true) → integrity (work s) →
  (∀ d', others_kept sid (work s) d' →
     (∀ j r, owner r = sid → rows (d' k) !! j = Some r ↔ rows (work s k) !! j = Some r ∧ p r = false) →
     Q () (set_work d' s)) →
  wp (ids ← list_all k (λ r, owner r =? sid);
      for_each (λ i, r ← obj k i; when (p r) (delete_row k i)) ids) Q Ex s.
Proof.
  intros Hal HI HQ. apply wp_bind, wp_select_where.
  set (ids := matching k _ (work s)).
  assert (∀ i, i ∈ ids ↔ ∃ r, rows (work s k) !! i = Some r ∧ owner r = sid) as Hids.
  { intros i. etransitivity; [apply elem_of_matching|]. apply exist_proper. intros r.
    rewrite Hal. cbn [andb]. by rewrite Z.eqb_eq. }
  apply (wp_delete_loop p ids _ _ (work s)); [done|done|apply matching_nodup|..].
  { intros i (r & Hr & _)%Hids. by exists r. }
  intros d' HI' Hrows Ho. apply HQ.
  - split; [|done|done]. intros j r Hr. rewrite Hrows. unfold without. rewrite map_lookup_filter_Some.
    split; [by intros [? _]|]. intros Hx. split; [done|]. intros (r' & Hr' & Hs)%Hids. congruence.
  - intros j r Hr. rewrite Hrows. unfold without. rewrite map_lookup_filter_Some.
    split; [|by intros [? ?]]. intros [Hx Hp]. split; [done|]. apply Hp, Hids. by exists r.
Qed.

(** ** Upserting *)

(** The owner's keys afterwards: the old ones and [x]. *)
Definition keys_plus (sid : Z) (P : K → Prop) (d d' : db) : Prop :=
  ∀ y, has_key sid d' y ↔ has_key sid d y ∨ P y.

Lemma wp_upsert sid (x : K) (q : row k → bool) (f : row k → row k) (r0 : row k)
    (Q : Z → session → Prop) Ex s :
  integrity (work s) →
  (∀ r, alive k r && q r = true ↔ owner r = sid ∧ key r = x) →
  (∀ r, same_keys k r (f r) ∧ owner (f r) = owner r ∧ key (f r) = key r) →
  (∀ j now, owner (fresh_row k j now r0) = sid ∧ key (fresh_row k j now r0) = x) →
  (¬ has_key sid (work s) x →
   ∀ now, admissible k (next_id (work s k)) (fresh_row k (next_id (work s k)) now r0) (work s) = true) →
  (∀ i d' n, others_kept sid (work s) d' → keys_plus sid (λ y, y = x) (work s) d' →
     Q i (Session d' (durable s) n)) →
  wp (existing ← select_where k q;
      match head existing with
      | Some i => assign k i f;; mret i
      | None => create k r0
      end) Q Ex s.
Proof.
  intros HI Hq Hf Hr0 Hadm HQ. apply wp_bind, wp_select_where.
  set (ids := matching k _ (work s)).
  assert (∀ i, i ∈ ids ↔ ∃ r, rows (work s k) !! i = Some r ∧ owner r = sid ∧ key r = x) as Hids.
  { intros i. etransitivity; [apply elem_of_matching|]. apply exist_proper. intros r. by rewrite Hq. }
  clearbody ids. destruct ids as [|i ids]; simpl.
  - assert (¬ has_key sid (work s) x) as Hno.
    { intros (j & r & Hr & Hs & Hx). apply (not_elem_of_nil j), Hids. by exists r. }
    apply wp_create_ok; [done|by apply Hadm|]. intros HI'.
    specialize (Hr0 (next_id (work s k)) (clock (ticks s))). set (r1 := fresh_row k _ _ r0) in *.
    destruct Hr0 as [Hs1 Hx1]. apply (HQ _ _ (S (ticks s))); [by apply others_kept_add|].
    intros y. split.
    + intros (j & r & Hr & Hs & Hy). rewrite rows_add_row in Hr.
      apply lookup_insert_Some in Hr as [[_ <-]|[_ Hr]]; [right; congruence|left; by exists j, r].
    + intros [(j & r & Hr & Hs & Hy)| ->].
      * exists j, r. split; [|done]. rewrite rows_add_row, lookup_insert_ne; [done|].
        intros <-. apply (integrity_key k HI) in Hr. by destruct (Z.lt_irrefl _ Hr).
      * exists (next_id (work s k)), r1. split; [|done]. rewrite rows_add_row. apply lookup_insert_eq.
  - destruct (proj1 (Hids i)) as (r & Hr & Hs & Hx); [list_in|].
    destruct (Hf r) as (Hsame & Hs' & Hx').
    apply wp_bind, (wp_assign_ok k i r); [done..|]. intros HI'. apply wp_ret.
    apply (HQ _ _ (ticks s)); [apply (others_kept_put sid _ i r); congruence|]. intros y. split.
    + intros (j & r' & Hr' & Hsj & Hy). rewrite rows_put_row in Hr'.
      apply lookup_insert_Some in Hr' as [[-> <-]|[_ Hr']]; [right; congruence|left; by exists j, r'].
    + assert (has_key sid (put_row k i (f r) (work s)) x) as Hi.
      { exists i, (f r). split; [rewrite rows_put_row; apply lookup_insert_eq|]. split; congruence. }
      intros [(j & r' & Hr' & Hsj & Hy)| ->]; [|done].
      destruct (decide (i = j)) as [<-|Hne].
      * assert (r' = r) as -> by congruence. by rewrite <- Hy, Hx.
      * exists j, r'. split; [|done]. by rewrite rows_put_row, lookup_insert_ne.
Qed.

(** [up a] upserts the key [x]. *)
Definition upserts (sid : Z) (x : K) (up : M ()) : Prop :=
  ∀ (Q : () → session → Prop) Ex s, integrity (work s) → is_Some (servers (work s) !! sid) →
    (∀ d' n, others_kept sid (work s) d' → keys_plus sid (λ y, y = x) (work s) d' →
       Q () (Session d' (durable s) n)) → wp up Q Ex s.

Lemma wp_upsert_loop {A} sid (up : A → M ()) (key_of : A → K) (l : list A)
    (Q : () → session → Prop) Ex s :
  k ≠ TServer → (∀ a, upserts sid (key_of a) (up a)) → integrity (work s) → is_Some (servers (work s) !! sid) →
  (∀ d' n, others_kept sid (work s) d' → keys_plus sid (λ y, y ∈ key_of <$> l) (work s) d' →
     Q () (Session d' (durable s) n)) →
  wp (for_each up l) Q Ex s.
Proof.
  intros Hk Hup HI Hsv HQ. unfold for_each.
  apply (wp_fold_loop (λ rest _ s', ∃ past, past ++ rest = l ∧ durable s' = durable s ∧
    others_kept sid (work s) (work s') ∧ keys_plus sid (λ y, y ∈ key_of <$> past) (work s) (work s'))).
  - exists []. split_and!; [done|done|by apply others_kept_refl|]. intros y. simpl.
    rewrite elem_of_nil. tauto.
  - intros a rest [] s' (past & <- & Hd & Ho & Hkeys). apply Hup; [apply Ho| |].
    { by rewrite (ok_only _ _ _ Ho) by by apply only_other. }
    intros d' n Ho' Hkeys'. exists (past ++ [a]). split_and!; [by rewrite <- app_assoc|done| |].
    + by eapply others_kept_trans.
    + intros y. rewrite (Hkeys' y), (Hkeys y), fmap_app, elem_of_app. simpl.
      rewrite list_elem_of_singleton. tauto.
  - intros [] [w du n] (past & Hsplit & Hd & Ho & Hkeys). rewrite app_nil_r in Hsplit. subst past.
    cbn [durable work] in *. subst du. by apply HQ.
Qed.

(** ** Synchronising: upsert what was reported, delete the rest *)

Definition synced (sid : Z) (reported : list K) (d d' : db) : Prop :=
  others_kept sid d d' ∧ ∀ y, has_key sid d' y ↔ y ∈ reported.

Lemma wp_sync {A} sid (up : A → M ()) (key_of : A → K) (l : list A) (gone : row k → bool)
    (Q : () → session → Prop) Ex s :
  k ≠ TServer → (∀ r, alive k r = true) → (∀ a, upserts sid (key_of a) (up a)) →
  (∀ r, gone r = true ↔ key r ∉ key_of <$> l) →
  integrity (work s) → is_Some (servers (work s) !! sid) →
  (∀ d' n, synced sid (key_of <$> l) (work s) d' → Q () (Session d' (durable s) n)) →
  wp (for_each up l;;
      ids ← list_all k (λ r, owner r =? sid);
      for_each (λ i, r ← obj k i; when (gone r) (delete_row k i)) ids) Q Ex s.
Proof.
  intros Hk Hal Hup Hgone HI Hsv HQ. apply wp_bind, (wp_upsert_loop sid up key_of l); [done..|].
  intros d1 n Ho1 Hk1. apply (wp_delete_owned sid); [done|apply Ho1|]. cbn [work durable].
  intros d2 Ho2 Hrows. apply (HQ d2 n). split; [by eapply others_kept_trans|]. intros y. split.
  - intros (j & r & Hr & Hs & <-). apply (Hrows j r Hs) in Hr as [_ Hg].
    destruct (decide (key r ∈ key_of <$> l)) as [|Hn]; [done|]. apply Hgone in Hn. congruence.
  - intros Hy. destruct (proj2 (Hk1 y) (or_intror Hy)) as (j & r & Hr & Hs & <-).
    exists j, r. split; [|done]. apply (Hrows j r Hs). split; [done|].
    apply not_true_is_false. by intros Hg%Hgone.
Qed.
End Owned.

(** A synchronisation followed by the rest of the handler. *)
Lemma wp_then {A B} (m1 : M ()) (L : M A) (F : A → M ()) (rest : M B) (Q : B → session → Prop) Ex s :
  wp (m1;; ids ← L; F ids) (λ _ s', wp rest Q Ex s') Ex s → wp (m1;; ids ← L; F ids;; rest) Q Ex s.
Proof.
  unfold wp, mbind, M_bind. destruct (m1 s) as [[[]|e] s1]; [|done].
  destruct (L s1) as [[a|e] s2]; [|done]. by destruct (F a s2) as [[[]|e] s3].
Qed.

Lemma wp_then' {A B} (m1 : M ()) (L : M A) (F : A → M ()) (rest : M B) (Q : B → session → Prop) Ex s :
  wp (m1;; ids ← L; F ids) (λ _ s', wp rest Q Ex s') Ex s → wp (m1;; (ids ← L; F ids);; rest) Q Ex s.
Proof.
  unfold wp, mbind, M_bind. destruct (m1 s) as [[[]|e] s1]; [|done].
  destruct (L s1) as [[a|e] s2]; [|done]. by destruct (F a s2) as [[[]|e] s3].
Qed.

Section Assets.
Context `{E : Env} `{!EnvOk E} `{!Ed25519} `{!Secrets}.

Definition disk_row_key (r : OpsServerDisk) : string * option string :=
  (OpsServerDisk.device_name r, OpsServerDisk.mount_point r).

Lemma disk_free d i : referenced TDisk d i = false.
Proof. solve_unreferenced. Qed.

Lemma network_free d i : referenced TNetwork d i = false.
Proof. solve_unreferenced. Qed.

(** A row of a table whose only foreign key is its server. *)
Lemma upsert_admissible k r i sid d :
  refs k r = [(TServer, sid)] → is_Some (servers d !! sid) →
  (∀ j r', rows (d k) !! j = Some r' → unique_conflict k r r' = false) → admissible k i r d = true.
Proof.
  intros Hr Hs Hu. apply admissible_spec. rewrite Hr. split; [|intros j r' Hj _; exact (Hu j r' Hj)].
  by intros k' j [= -> ->]%list_elem_of_singleton.
Qed.

Lemma disk_upserts sid (a : DiskAsset) :
  upserts TDisk OpsServerDisk.server_id disk_row_key sid (disk_key a)
    (_ ← DiskRepository.upsert sid (DiskAsset.device_name a) (DiskAsset.mount_point a)
           (DiskAsset.filesystem a) (DiskAsset.total_bytes a); mret ()).
Proof.
  intros Q Ex s HI Hsv HQ. apply wp_bind. unfold DiskRepository.upsert.
  apply (wp_upsert TDisk OpsServerDisk.server_id disk_row_key sid (disk_key a)); [done|..].
  - intros r. simpl. unfold DiskRepository.by_device, disk_row_key, disk_key.
    rewrite !andb_true_iff, Z.eqb_eq, String.eqb_eq, bool_decide_eq_true.
    split; [by intros [[-> ->] ->]|by intros [-> [= -> ->]]].
  - intros r. done.
  - intros j now. done.
  - intros Hno now. apply (upsert_admissible _ _ _ sid); [done|done|]. intros j r Hr.
    apply not_true_is_false. simpl. rewrite !andb_true_iff, !bool_decide_eq_true. intros [[Hs Hd] Hm].
    apply Hno. exists j, r. split_and!; [done|done|]. unfold disk_row_key, disk_key. f_equal; [done|].
    unfold sql_eq in Hm. destruct (DiskAsset.mount_point a), (OpsServerDisk.mount_point r); try done.
    by apply bool_decide_eq_true in Hm as ->.
  - intros i d' n Ho Hk. by apply wp_ret, HQ.
Qed.

Lemma network_upserts sid (a : NetworkAsset) :
  upserts TNetwork OpsServerNetwork.server_id OpsServerNetwork.interface_name sid (NetworkAsset.interface_name a)
    (_ ← NetworkRepository.upsert sid (NetworkAsset.interface_name a) (NetworkAsset.mac_address a)
           (NetworkAsset.ip_address a); mret ()).
Proof.
  intros Q Ex s HI Hsv HQ. apply wp_bind. unfold NetworkRepository.upsert.
  apply (wp_upsert TNetwork OpsServerNetwork.server_id OpsServerNetwork.interface_name sid
    (NetworkAsset.interface_name a)); [done|..].
  - intros r. simpl. unfold NetworkRepository.by_interface. by rewrite andb_true_iff, Z.eqb_eq, String.eqb_eq.
  - intros r. done.
  - intros j now. done.
  - intros Hno now. apply (upsert_admissible _ _ _ sid); [done|done|]. intros j r Hr.
    apply not_true_is_false. simpl. rewrite andb_true_iff, !bool_decide_eq_true. intros [Hs Hd].
    apply Hno. by exists j, r.
  - intros i d' n Ho Hk. by apply wp_ret, HQ.
Qed.

End Assets.

(** ** Instances *)

#[local] Opaque agent_db.

Definition sample_assets : AssetsRequest :=
  AssetsRequest.Mk (Some 1) [DiskAsset.Mk "sda1" (Some "/") (Some "ext4") (Some 1000); DiskAsset.Mk "sdb1" None None None]
    [NetworkAsset.Mk "eth0" None (Some "10.0.0.1")].

