(* ===== verification/UserOps.v ===== *)
(** * The operations on users

    What tokens, logins and role assignments do to a database that satisfies
    its constraints. *)
From S2P Require Import Prelude.
From S2P Require Export AuthService UserService Confined.
From S2P Require Export AssetSync.

Abbreviation users d := (rows (d TUser)).
Abbreviation roles d := (rows (d TRole)).
Abbreviation links d := (rows (d TUserRole)).

(** The user a token stands for at a time. *)
Definition token_user `{!Jwt} (cfg : jwt_settings) (now : datetime) (token : string) : option Z :=
  c ← jwt_decode (JWT_SECRET_KEY cfg) now token; s ← sub c; py_int_of s.

(** May the account be used? *)
Definition usable (u : SysUser) : bool := alive TUser u && (SysUser.status u =? 1).

(** Does the user have a role with one of these codes? *)
Definition has_role (d : db) (user : Z) (codes : list string) : Prop :=
  ∃ j l r, links d !! j = Some l ∧ SysUserRole.user_id l = user ∧
    roles d !! SysUserRole.role_id l = Some r ∧ SysRole.role_code r ∈ codes.

(** The roles of a user, as keys of the association table. *)
Abbreviation role_key := (has_key TUserRole SysUserRole.user_id SysUserRole.role_id).
Abbreviation roles_kept := (others_kept TUserRole SysUserRole.user_id).

Section Ops.
Context `{E : Env} `{!EnvOk E} `{!Passwords} `{!Jwt} (cfg : jwt_settings).

Lemma wp_decode_access_token token (Q : Z → session → Prop) (Ex : exc → session → Prop) s :
  match token_user cfg (clock (ticks s)) token with
  | Some i => Q i (tick s)
  | None => Ex (AppException UNAUTHORIZED "Token 无效或已过期" 401) (tick s)
  end → wp (decode_access_token cfg token) Q Ex s.
Proof.
  intros Hx. unfold decode_access_token, token_user in *. apply wp_bind, wp_utcnow.
  destruct (jwt_decode _ _ _) as [c|]; [|done]. simpl in *. destruct (sub c) as [str|]; [|done].
  simpl in *. by destruct (py_int_of str).
Qed.

(** The user of a token, if the account is usable. *)
Definition current_user (d : db) (now : datetime) (token : string) : option Z :=
  match token_user cfg now token with
  | Some i => match users d !! i with Some u => if usable u then Some i else None | None => None end
  | None => None
  end.

Lemma wp_get_current_user token (Q : Z → session → Prop) (Ex : exc → session → Prop) s :
  match current_user (work s) (clock (ticks s)) token with
  | Some i => Q i (tick s)
  | None => ∀ c m, Ex (AppException c m 401) (tick s)
  end → wp (get_current_user cfg token) Q Ex s.
Proof.
  intros Hx. unfold get_current_user, current_user in *. apply wp_bind, wp_decode_access_token.
  destruct (token_user _ _ _) as [i|]; [|apply Hx].
  destruct (users (work s) !! i) as [u|] eqn:Hu; unfold usable in Hx; apply wp_bind, (wp_get TUser).
  - intros u' Hu' Ha. pose proof (same_row TUser Hu Hu') as <-. rewrite Ha in Hx. cbn [andb] in Hx.
    apply wp_bind, (wp_obj_ok TUser i u); [done|].
    by destruct (SysUser.status u =? 1); [apply wp_ret|apply wp_app_error].
  - intros Hn. apply wp_app_error. by rewrite (Hn u Hu) in Hx.
  - intros u' Hu'. pose proof (eq_trans (eq_sym Hu) Hu'). done.
  - intros _. by apply wp_app_error.
Qed.

(** Both lookups of the roles of a user. *)
Lemma wp_get_current_roles i u (Q : list string → session → Prop) Ex s :
  integrity (work s) → users (work s) !! i = Some u → SysUser.id u = i →
  (∀ l, (∀ codes, (∃ c, c ∈ codes ∧ c ∈ l) ↔ has_role (work s) i codes) → Q l s) →
  wp (get_current_roles i) Q Ex s.
Proof.
  intros HI Hu Hid HQ. unfold get_current_roles, UserRepository.get_roles_by_user, UserRepository.get_role_ids,
    UserRepository.role_links.
  apply wp_bind, (wp_obj_ok TUser i u); [done|]. rewrite Hid.
  apply wp_bind, wp_bind, wp_bind, wp_bind, wp_get_work, wp_ret.
  set (ls := matching TUserRole _ (work s)).
  assert (∀ j, j ∈ ls ↔ ∃ l, links (work s) !! j = Some l ∧ SysUserRole.user_id l = i) as Hls.
  { intros j. etransitivity; [apply elem_of_matching|]. apply exist_proper. intros l. by rewrite Z.eqb_eq. }
  clearbody ls. apply wp_bind, (wp_map_obj TUserRole); [by intros j (l & Hl & _)%Hls; exists l|].
  apply wp_ret, wp_bind, wp_get_work, wp_ret.
  set (ids := filter _ _).
  assert (∀ k, k ∈ ids ↔ ∃ r j l, roles (work s) !! k = Some r ∧ links (work s) !! j = Some l ∧
    SysUserRole.user_id l = i ∧ SysUserRole.role_id l = k) as Hids.
  { intros k. unfold ids. rewrite list_elem_of_filter, has_row_true, list_elem_of_fmap. split.
    - intros [[r Hr] (l & -> & (j & Hj & Hl)%(elem_of_rows_of TUserRole))].
      apply Hls in Hj as (l' & Hl' & Hi). pose proof (same_row TUserRole Hl Hl') as <-. by exists r, j, l.
    - intros (r & j & l & Hr & Hl & Hi & Hk). split; [by exists r|]. exists l. split; [done|].
      apply (elem_of_rows_of TUserRole). exists j. split; [|done]. apply Hls. by exists l. }
  clearbody ids. apply wp_bind, (wp_map_obj TRole); [by intros k (r & _ & _ & Hr & _)%Hids; exists r|].
  apply wp_ret, HQ. intros codes. split.
  - intros (c & Hc & (r & -> & (k & Hk & Hr)%(elem_of_rows_of TRole))%list_elem_of_fmap).
    apply Hids in Hk as (r' & j & l & Hr' & Hl & Hi & Hk). pose proof (same_row TRole Hr Hr') as <-.
    exists j, l, r. by rewrite Hk.
  - intros (j & l & r & Hl & Hi & Hr & Hc). exists (SysRole.role_code r). split; [done|].
    apply list_elem_of_fmap. exists r. split; [done|]. apply (elem_of_rows_of TRole).
    exists (SysUserRole.role_id l). split; [|done]. apply Hids. by exists r, j, l.
Qed.

(** ** Roles *)

Lemma user_role_free d i : referenced TUserRole d i = false.
Proof. solve_unreferenced. Qed.

Lemma admissible_link d user role now :
  is_Some (users d !! user) → is_Some (roles d !! role) → ¬ role_key user d role →
  admissible TUserRole (next_id (d TUserRole))
    (fresh_row TUserRole (next_id (d TUserRole)) now (SysUserRole.Mk 0 user role 0)) d = true.
Proof.
  intros Hu Hr Hno. apply admissible_spec. split.
  - simpl. intros k j [[= -> ->]|[[= -> ->]|[]%elem_of_nil]%elem_of_cons]%elem_of_cons; done.
  - intros j l Hj _. apply not_true_is_false. simpl. rewrite andb_true_iff, !bool_decide_eq_true.
    intros [Hx Hy]. apply Hno. by exists j, l.
Qed.

Lemma key_add_row user d r y :
  integrity d → SysUserRole.user_id r = user →
  role_key user (add_row TUserRole r d) y ↔ role_key user d y ∨ y = SysUserRole.role_id r.
Proof.
  intros HI Hu. split.
  - intros (j & l & Hl & Hx & <-). rewrite rows_add_row in Hl.
    apply lookup_insert_Some in Hl as [[_ <-]|[_ Hl]]; [by right|left; by exists j, l].
  - intros [(j & l & Hl & Hx & <-)| ->].
    + exists j, l. split; [|done]. rewrite rows_add_row, lookup_insert_ne; [done|].
      intros <-. apply (integrity_key TUserRole HI) in Hl. by destruct (Z.lt_irrefl _ Hl).
    + exists (next_id (d TUserRole)), r. split; [|done]. rewrite rows_add_row. apply lookup_insert_eq.
Qed.

Lemma wp_set_roles user role_ids (Q : () → session → Prop) Ex s :
  integrity (work s) → is_Some (users (work s) !! user) →
  (∀ r, r ∈ role_ids → is_Some (roles (work s) !! r)) →
  (∀ d' n, roles_kept user (work s) d' → (∀ y, role_key user d' y ↔ y ∈ role_ids) →
     Q () (Session d' (durable s) n)) →
  wp (UserRepository.set_roles user role_ids) Q Ex s.
Proof.
  intros HI Hu Hr HQ. unfold UserRepository.set_roles. apply wp_bind, wp_delete_where. split.
  2: { intros Hex. exfalso. apply existsb_exists in Hex as (j & _ & Hj). by rewrite user_role_free in Hj. }
  intros _. set (d1 := filter_rows TUserRole _ (work s)).
  assert (roles_kept user (work s) d1 ∧ ∀ y, ¬ role_key user d1 y) as [Ho1 Hno].
  { split; [split|].
    - intros j l Hl. unfold d1. rewrite rows_filter_rows, map_lookup_filter_Some, negb_true_iff, Z.eqb_neq.
      naive_solver.
    - intros k Hk. unfold d1. by apply filter_rows_ne, only_ne.
    - apply integrity_filter_rows; [done|]. intros; apply user_role_free.
    - intros y (j & l & Hl & Hx & _). unfold d1 in Hl.
      rewrite rows_filter_rows, map_lookup_filter_Some, negb_true_iff, Z.eqb_neq in Hl. by destruct Hl. }
  clearbody d1. unfold for_each.
  apply (wp_fold_loop (λ rest _ s', ∃ past, past ++ rest = set_iter role_ids ∧ durable s' = durable s ∧
    roles_kept user (work s) (work s') ∧ ∀ y, role_key user (work s') y ↔ y ∈ past)).
  - exists []. split_and!; [done|done|done|]. intros y. rewrite elem_of_nil. cbn [work set_work].
    split; [|done]. by intros ?%Hno.
  - intros r rest [] s' (past & Hsplit & Hd & Ho & Hkeys).
    assert (NoDup (past ++ r :: rest)) as Hnd by (rewrite Hsplit; apply set_iter_nodup).
    assert (∀ k, k ≠ TUserRole → work s' k = work s k) as Hother.
    { intros k Hk. apply (ok_only _ _ _ _ _ Ho). by apply only_other. }
    apply wp_bind, wp_create_ok; [apply Ho| |].
    + apply admissible_link; [by rewrite Hother|rewrite Hother by done|].
      * apply Hr. apply set_iter_elem. rewrite <- Hsplit. list_in.
      * intros Hin%Hkeys. apply NoDup_app in Hnd as (_ & Hnd & _). apply (Hnd r Hin). list_in.
    + intros HI'. apply wp_ret. exists (past ++ [r]). split_and!; [by rewrite <- app_assoc|done| |].
      * eapply others_kept_trans; [exact Ho|]. by apply others_kept_add; [|apply Ho|].
      * intros y. cbn [work set_work]. rewrite key_add_row; [|apply Ho|done].
        rewrite Hkeys, elem_of_app, list_elem_of_singleton. simpl. done.
  - intros [] [w du n] (past & Hsplit & Hd & Ho & Hkeys). rewrite app_nil_r in Hsplit. cbn [work durable] in *.
    subst du past. apply HQ; [done|]. intros y. rewrite Hkeys. apply set_iter_elem.
Qed.
End Ops.
