(* ===== verification/SampleUser.v ===== *)
(** * Sample users

    A toy password hash and token format, and a database with two roles and
    three users, on which the theorems on users are instantiated. *)
From S2P Require Import Prelude.
From stdpp Require Import countable.
#[local] Open Scope Z_scope.
From S2P Require Export Samples UserOps.

#[export] Instance toy_passwords : Passwords := {|
  bcrypt_hash n password := "hash:" +:+ password;
  bcrypt_verify password hash := String.eqb hash ("hash:" +:+ password)
|}.

#[export] Instance toy_passwords_ok : PasswordsOk toy_passwords.
Proof. intros n password. apply String.eqb_refl. Qed.

(** A positive number as the string of its bits. *)
Fixpoint bits (p : positive) : string :=
  match p with xH => EmptyString | xO p' => String (byte 48) (bits p') | xI p' => String (byte 49) (bits p') end.

Fixpoint of_bits (s : string) : positive :=
  match s with
  | EmptyString => xH
  | String a s' => if Ascii.eqb a (byte 48) then xO (of_bits s') else xI (of_bits s')
  end.

Lemma of_bits_bits p : of_bits (bits p) = p.
Proof. induction p as [p IH|p IH|]; simpl; [by rewrite IH|by rewrite IH|done]. Qed.

(** A token spells out the key and the claims. *)
Definition toy_decode (key : string) (now : datetime) (token : string) : option claims :=
  match decode (A := string * option string * Z * Z) (of_bits token) with
  | Some (key', s, i, e) =>
    if String.eqb key key' && claims_valid (Claims s i e) now then Some (Claims s i e) else None
  | None => None
  end.

#[export] Instance toy_jwt : Jwt := {|
  jwt_encode key c := bits (encode (key, sub c, iat c, exp c));
  jwt_decode := toy_decode
|}.

#[export] Instance toy_jwt_ok : JwtOk toy_jwt.
Proof.
  intros key now [s i e] _. simpl. unfold toy_decode. rewrite of_bits_bits, decode_encode. simpl.
  by rewrite String.eqb_refl.
Qed.

Definition toy_jwt_settings : jwt_settings := JwtSettings "secret" 120.

(** "alice" is an administrator and engineer, "bob" is disabled, "carol" deleted. *)
Definition sample_users : M unit :=
  _ ← create TRole (SysRole.Mk 0 "SYSTEM_ADMIN" "admin" None 1 0);
  _ ← create TRole (SysRole.Mk 0 "OPS_ENGINEER" "engineer" None 1 0);
  _ ← create_user (UserCreate.Mk "alice" "wonder" None (Some "a@b.c") None [1; 2]) 1;
  _ ← create_user (UserCreate.Mk "bob" "builder" None None None [2]) 2;
  _ ← update_user 3 (UserUpdate.Mk Unset Unset Unset Unset (Given 0) Unset) 3;
  _ ← create_user (UserCreate.Mk "carol" "x" None None None []) 4;
  delete_user 4.

Definition user_db : db := (run sample_users agent_db 0).1.2.

Lemma user_integrity : integrity user_db.
Proof.
  assert (Sound sample_users) as Hs.
  { unfold sample_users, create_user, update_user, delete_user, get_user, taken_email, email_owner, _validate_roles,
      UserRepository.get_by_username, UserRepository.get_by_email, UserRepository.set_roles. apply _. }
  exact (sound_run _ _ _ Hs agent_integrity).
Qed.

Lemma sample_keyed : keyed user_db.
Proof.
  assert (∀ k, map_Forall (λ i r, row_id k r = i) (rows (user_db k))) as Hk.
  { intros []; apply (bool_decide_unpack _); vm_compute; exact I. }
  intros k. apply (Hk k).
Qed.

(** The columns of a user that the instances look at. *)
Lemma user_at (d : db) (i : Z) (name hash : string) (is_alive : bool) (status : Z) :
  (λ u, (SysUser.username u, SysUser.password_hash u, alive TUser u, SysUser.status u)) <$> users d !! i
  = Some (name, hash, is_alive, status) →
  ∃ u, users d !! i = Some u ∧ SysUser.username u = name ∧ SysUser.password_hash u = hash ∧
       alive TUser u = is_alive ∧ SysUser.status u = status.
Proof. intros (u & Hu & [= ? ? ? ?])%fmap_Some. by exists u. Qed.
