(* ===== verification/UserProps.v ===== *)
(** * What authentication guarantees

    Access tokens, the role checks of the routes and the outcome of a login. *)
From S2P Require Import Prelude.
From S2P Require Export SampleUser.

(** The second a time lies in. *)
Definition whole_second (t : datetime) : datetime := seconds (t / 1000000).

Section Props.
Context `{E : Env} `{!EnvOk E} `{!Passwords} `{!PasswordsOk _} `{!Jwt} `{!JwtOk _} (cfg : jwt_settings).

Lemma issued_claims_valid t now :
  claims_valid (Claims (Some "") (t / 1000000) ((t + seconds (60 * JWT_EXPIRE_MINUTES cfg)) / 1000000)) now =
  (whole_second t <=? now) && (now <? whole_second t + seconds (60 * JWT_EXPIRE_MINUTES cfg)).
Proof.
  unfold claims_valid, whole_second, seconds. simpl. rewrite Z.div_add by done.
  rewrite andb_comm. f_equal. f_equal. lia.
Qed.

(** An access token is the identity of its user: issued for a 64-bit key, it
    decodes to that key from the second it was issued in until its lifetime
    has passed, and is refused with 401 at any other time. *)
Theorem access_token_roundtrip (d : db) (i : Z) (n : nat) :
  0 ≤ i < 2 ^ 64 →
  ∃ token, run (create_access_token cfg i) d n = (Ok token, d, S n) ∧
    ∀ m, run (decode_access_token cfg token) d m =
      if (whole_second (clock n) <=? clock m) &&
         (clock m <? whole_second (clock n) + seconds (60 * JWT_EXPIRE_MINUTES cfg))
      then (Ok i, d, S m)
      else (Raise (AppException UNAUTHORIZED "Token 无效或已过期" 401), d, S m).
Proof.
  intros Hi. eexists. split; [reflexivity|]. intros m. rewrite <- issued_claims_valid.
  unfold run, decode_access_token, mbind, M_bind, utcnow. cbn [ticks work durable tick].
  rewrite jwt_roundtrip by (by eexists). cbn [sub]. unfold claims_valid. cbn [iat exp].
  destruct (_ && _); [|done]. cbn [sub]. by rewrite py_int_of_str.
Qed.

(** A refusal: unauthenticated or forbidden. *)
Definition refusal (e : exc) : Prop := (error_response e).1 = 401 ∨ (error_response e).1 = 403.

(** The guard of a route: what it returns, and what its refusal means. *)
Lemma wp_require_roles (d : db) (codes : list string) (token : string) (n : nat) :
  integrity d → keyed d →
  wp (require_roles cfg codes token)
    (λ r s', durable s' = d ∧ current_user cfg d (clock n) token = Some r ∧ has_role d r codes)
    (λ e s', durable s' = d ∧ refusal e ∧
       ∀ r, current_user cfg d (clock n) token = Some r → ¬ has_role d r codes) (Session d d n).
Proof.
  intros HI HK. unfold require_roles. apply wp_bind, wp_get_current_user. cbn [work ticks].
  destruct (current_user cfg d (clock n) token) as [r|] eqn:Hr; [|by intros c m; split_and!; [|left|]].
  assert (∃ u, users d !! r = Some u) as [u Hu].
  { unfold current_user in Hr. destruct (token_user _ _ _) as [r'|]; [|done].
    destruct (users d !! r') as [u|] eqn:Hu; [|done]. destruct (usable u); [|done].
    injection Hr as ->. by exists u. }
  apply wp_bind, (wp_get_current_roles r u); [done|done|by apply (HK TUser)|]. intros l Hl.
  case_bool_decide as Hex.
  - apply wp_ret. split_and!; [done|done|]. apply Hl. apply Exists_exists in Hex as (c & ? & ?). by exists c.
  - apply wp_app_error. split; [done|]. split; [by right|]. intros r' [= <-] Hrole. apply Hex. apply Hl in Hrole as (c & ? & ?).
    apply Exists_exists. by exists c.
Qed.

(** The user of a token at a time. *)
Lemma current_user_iff (d : db) now token i :
  current_user cfg d now token = Some i ↔
  ∃ u, token_user cfg now token = Some i ∧ users d !! i = Some u ∧ usable u = true.
Proof.
  unfold current_user. destruct (token_user _ _ _) as [r'|]; [|naive_solver].
  destruct (users d !! r') as [u|] eqn:Hu; [|naive_solver]. destruct (usable u) eqn:Hus.
  - split; [intros [= ->]; by exists u|]. by intros (u' & [= ->] & _).
  - split; [done|]. intros (u' & [= ->] & Hu' & Hus'). pose proof (same_row TUser Hu Hu') as <-. congruence.
Qed.

(** A route that requires roles runs as user [i] exactly if the token
    decodes to [i] now, the account exists, is neither deleted nor disabled,
    and has one of the roles at this moment; it never changes anything. *)
Theorem require_roles_spec (d : db) (codes : list string) (token : string) (i : Z) (n : nat) :
  integrity d → keyed d →
  (∃ n', run (require_roles cfg codes token) d n = (Ok i, d, n')) ↔
  ∃ u, token_user cfg (clock n) token = Some i ∧ users d !! i = Some u ∧ usable u = true ∧ has_role d i codes.
Proof.
  intros HI HK. pose proof (wp_require_roles d codes token n HI HK) as Hwp. unfold wp, run in *.
  destruct (require_roles cfg codes token (Session d d n)) as [[r|e] s'].
  - destruct Hwp as (Hd & Hr & Hrole). split.
    + intros [n' [= -> _ _]]. apply current_user_iff in Hr as (u & ? & ? & ?). by exists u.
    + intros (u & Ht & Hu & Hus & _).
      assert (current_user cfg d (clock n) token = Some i) as Hi by (apply current_user_iff; by exists u).
      exists (ticks s'). rewrite Hd. congruence.
  - destruct Hwp as (_ & _ & Hwp). split; [by intros [? ?]|]. intros (u & Ht & Hu & Hus & Hrole). exfalso.
    apply (Hwp i); [|done]. apply current_user_iff. by exists u.
Qed.

(** ** Logins *)

Definition log_row (username : string) (user : option Z) (status : string) (reason : option string)
    (ip user_agent request_id : option string) : SysLoginLog :=
  SysLoginLog.Mk 0 user username ip user_agent status reason request_id 0.

(** The login log has one more row, and nothing else changed but [ks]. *)
Definition login_logged (ks : list tname) (row : SysLoginLog) (d d' : db) : Prop :=
  (∃ now, rows (d' TLoginLog) = <[next_id (d TLoginLog) :=
     fresh_row TLoginLog (next_id (d TLoginLog)) now row]> (rows (d TLoginLog))) ∧
  only_in (TLoginLog :: ks) d d'.

Lemma wp_login_log username status user ip ua reason rid (Q : Z → session → Prop) Ex s :
  LoginLogRepository.login_log_fits username ip ua rid = true →
  integrity (work s) → (∀ u, user = Some u → is_Some (users (work s) !! u)) →
  (∀ i d', integrity d' → login_logged [] (log_row username user status reason ip ua rid) (work s) d' →
     Q i (Session d' (durable s) (S (ticks s)))) →
  wp (LoginLogRepository.create_login_log username status user ip ua reason rid) Q Ex s.
Proof.
  intros Hf HI Hu HQ. unfold LoginLogRepository.create_login_log. rewrite Hf.
  apply wp_bind, wp_ret, wp_create_ok; [done| |].
  - apply admissible_spec. split; [|done]. simpl. destruct user as [u|]; simpl; [|by intros ? ? ?%elem_of_nil].
    intros k j [= -> ->]%list_elem_of_singleton. by apply Hu.
  - intros HI'. apply HQ; [done|]. split; [exists (clock (ticks s)); by rewrite rows_add_row|].
    intros k Hk. apply add_row_ne. by apply only_ne.
Qed.

Lemma wp_login_log_long username status user ip ua reason rid (Q : Z → session → Prop) (Ex : exc → session → Prop) s :
  LoginLogRepository.login_log_fits username ip ua rid = false → Ex DataError s →
  wp (LoginLogRepository.create_login_log username status user ip ua reason rid) Q Ex s.
Proof. intros Hf HE. unfold LoginLogRepository.create_login_log. rewrite Hf. by apply wp_bind, wp_raise. Qed.

(** The account a user name stands for. *)
Definition account (d : db) (username : string) (i : Z) (u : SysUser) : Prop :=
  users d !! i = Some u ∧ alive TUser u = true ∧ SysUser.username u = username.

Lemma wp_find_account username (Q : option Z → session → Prop) Ex s :
  (∀ i u, account (work s) username i u → Q (Some i) s) →
  ((∀ i u, ¬ account (work s) username i u) → Q None s) →
  wp (UserRepository.get_by_username username) Q Ex s.
Proof.
  intros HS HN. apply wp_get_by_unique.
  - intros i u Hu Ha Hn%String.eqb_eq. by apply (HS i u).
  - intros Hno. apply HN. intros i u (Hu & Ha & Hn). specialize (Hno i u Hu Ha).
    apply String.eqb_neq in Hno. done.
Qed.

Lemma account_unique d username i u i' u' :
  integrity d → account d username i u → account d username i' u' → i = i' ∧ u = u'.
Proof.
  intros HI (Hu & _ & Hn) (Hu' & _ & Hn').
  assert (i = i') as <-.
  { apply (integrity_unique TUser i i' u u' d HI Hu Hu'). simpl. by rewrite bool_decide_true by congruence. }
  split; [done|]. exact (same_row TUser Hu Hu').
Qed.

(** The user's row after a login. *)
Definition logged_in (now : datetime) (ip : option string) (u : SysUser) : SysUser :=
  u <| SysUser.last_login_at := Some now |>
    <| SysUser.last_login_ip := py_or ip (SysUser.last_login_ip u) |>.

(** A refused login: the log row is committed before the exception. *)
Lemma run_login_refused {A} (m : M A) d n e row :
  wp m (λ _ _, False) (λ e' s', e' = e ∧ login_logged [] row d (durable s')) (Session d d n) →
  ∃ d' n', run m d n = (Raise e, d', n') ∧ login_logged [] row d d'.
Proof.
  unfold wp, run. destruct (m _) as [[a|e'] s']; [done|]. intros [-> Hl]. by exists (durable s'), (ticks s').
Qed.

(** A login that cannot be logged fails, whatever the password. *)
Lemma login_unlogged d username password ip ua rid n :
  integrity d → LoginLogRepository.login_log_fits username ip ua rid = false →
  ∃ n', run (login cfg username password ip ua rid) d n = (Raise DataError, d, n').
Proof.
  intros HI Hfit. apply run_raises. unfold login. apply wp_bind, wp_find_account; cbn [work].
  - intros i u (Hu & _ & _). apply wp_bind. unfold check_password. apply wp_bind, (wp_obj_ok TUser i u); [done|].
    apply wp_ret. destruct (verify_password _ _); [|by apply wp_bind, wp_login_log_long].
    apply wp_bind, (wp_obj_ok TUser i u); [done|].
    destruct (SysUser.status u =? 1); simpl negb; cbv iota; [|by apply wp_bind, wp_login_log_long].
    unfold UserRepository.update_last_login. apply wp_bind, wp_bind, wp_utcnow, (wp_assign_ok TUser i u); [done|done|by split|].
    intros _. apply wp_bind. unfold create_access_token. apply wp_bind, wp_utcnow, wp_ret.
    by apply wp_bind, wp_login_log_long.
  - intros _. apply wp_bind, wp_ret. by apply wp_bind, wp_login_log_long.
Qed.

(** A login with an unknown name or a wrong password. *)
Lemma wp_login_wrong d username password ip ua rid n :
  integrity d → LoginLogRepository.login_log_fits username ip ua rid = true →
  (∀ i u, account d username i u → verify_password password (SysUser.password_hash u) = false) →
  wp (login cfg username password ip ua rid) (λ _ _, False) (λ e s',
    e = AppException INVALID_CREDENTIALS "用户名或密码错误" 401 ∧
    login_logged [] (log_row username None "FAILED" (Some "用户名或密码错误") ip ua rid) d (durable s')) (Session d d n).
Proof.
  intros HI Hfit Hbad. unfold login. apply wp_bind, wp_find_account; cbn [work].
  - intros i u Ha. apply wp_bind. unfold check_password. apply wp_bind, (wp_obj_ok TUser i u); [apply Ha|].
    apply wp_ret. rewrite (Hbad i u Ha). apply wp_bind, wp_login_log; [done|done|done|].
    intros j d' _ Hlog. by apply wp_bind, wp_commit, wp_app_error.
  - intros _. apply wp_bind, wp_ret, wp_bind, wp_login_log; [done|done|done|].
    intros j d' _ Hlog. by apply wp_bind, wp_commit, wp_app_error.
Qed.

(** The token that a login of user [i] issues at time [now]. *)
Definition login_token (i : Z) (now : datetime) : string :=
  jwt_encode (JWT_SECRET_KEY cfg) (Claims (Some (py_str i)) (now / 1000000)
    ((now + seconds (60 * JWT_EXPIRE_MINUTES cfg)) / 1000000)).

(** A login with the right password of user [i]. *)
Lemma wp_login_right d username password i u ip ua rid n (Q : TokenResponse → session → Prop) Ex :
  integrity d → keyed d → LoginLogRepository.login_log_fits username ip ua rid = true →
  account d username i u → verify_password password (SysUser.password_hash u) = true →
  (if SysUser.status u =? 1 then
     ∀ d' n', users d' = <[i := logged_in (clock n) ip u]> (users d) →
       login_logged [TUser] (log_row username (Some i) "SUCCESS" None ip ua rid) d d' →
       Q (TokenResponseMk (login_token i (clock (S n))) "bearer" (JWT_EXPIRE_MINUTES cfg * 60)) (Session d' d' n')
   else ∀ d' n', login_logged [] (log_row username (Some i) "FAILED" (Some "账号已禁用") ip ua rid) d d' →
       Ex (AppException ACCOUNT_DISABLED "账号已禁用" 401) (Session d' d' n')) →
  wp (login cfg username password ip ua rid) Q Ex (Session d d n).
Proof.
  intros HI HK Hfit Ha Hgood Hcase. pose proof Ha as (Hu & _ & _). pose proof (HK TUser i u Hu) as Hid. simpl in Hid.
  unfold login. apply wp_bind, wp_find_account; cbn [work]; [|by intros Hno; destruct (Hno i u)].
  intros i' u' Ha'. destruct (account_unique d username i u i' u' HI Ha Ha') as [<- <-].
  apply wp_bind. unfold check_password. apply wp_bind, (wp_obj_ok TUser i u); [done|].
  apply wp_ret. rewrite Hgood. apply wp_bind, (wp_obj_ok TUser i u); [done|].
  destruct (SysUser.status u =? 1); simpl negb; cbv iota.
  - unfold UserRepository.update_last_login.
    apply wp_bind, wp_bind, wp_utcnow, (wp_assign_ok TUser i u); [done|done|by split|].
    intros HI1. cbn [work set_work tick ticks durable]. set (d1 := put_row TUser i _ d) in *.
    assert (users d1 = <[i := logged_in (clock n) ip u]> (users d)) as Hu1 by (unfold d1; by autorewrite with store).
    assert (∀ k, k ≠ TUser → d1 k = d k) as Ho1 by (intros k Hk; by apply put_row_ne).
    apply wp_bind. unfold create_access_token. apply wp_bind, wp_utcnow, wp_ret. rewrite Hid.
    apply wp_bind, wp_login_log; cbn [work set_work tick ticks durable]; [done|done| |].
    + intros x [= <-]. rewrite Hu1, lookup_insert_eq. by eexists.
    + intros j d' _ [[now Hrow] Ho]. apply wp_bind, wp_commit, wp_ret. apply Hcase; [|split].
      * rewrite Ho; [done|]. by apply only_other.
      * exists now. etransitivity; [exact Hrow|]. cbn [work]. by rewrite !Ho1.
      * intros k Hk. rewrite Ho; [apply Ho1|]; intros Heq; apply Hk; [rewrite Heq|
          apply list_elem_of_singleton in Heq; rewrite Heq]; list_in.
  - rewrite Hid. apply wp_bind, wp_login_log; [done|done|by intros x [= <-]; exists u|].
    intros j d' _ Hlog. by apply wp_bind, wp_commit, wp_app_error, Hcase.
Qed.

(** C29: without an account of that name, or with a wrong password, a login is
    refused with 401 and logged without a user; with the right password of a
    disabled account it is refused and logged with the user; otherwise it
    returns a token of the user, which is current at once, and records time
    and address.  Nothing but the log and the user's row ever changes.  A
    login whose address, user agent or request id is too long for the log
    fails as a server error and leaves no trace. *)
Theorem login_spec (d : db) (username password : string) (ip ua rid : option string) (n : nat) :
  integrity d → keyed d →
  if LoginLogRepository.login_log_fits username ip ua rid then
  ((∀ i u, account d username i u → verify_password password (SysUser.password_hash u) = false) →
   ∃ d' n', run (login cfg username password ip ua rid) d n
     = (Raise (AppException INVALID_CREDENTIALS "用户名或密码错误" 401), d', n') ∧
     login_logged [] (log_row username None "FAILED" (Some "用户名或密码错误") ip ua rid) d d') ∧
  (∀ i u, account d username i u → verify_password password (SysUser.password_hash u) = true →
   if SysUser.status u =? 1 then
     ∃ token d' n', run (login cfg username password ip ua rid) d n
       = (Ok (TokenResponseMk token "bearer" (JWT_EXPIRE_MINUTES cfg * 60)), d', n') ∧
       token = jwt_encode (JWT_SECRET_KEY cfg) (Claims (Some (py_str i)) (clock (S n) / 1000000)
                 ((clock (S n) + seconds (60 * JWT_EXPIRE_MINUTES cfg)) / 1000000)) ∧
       users d' = <[i := logged_in (clock n) ip u]> (users d) ∧
       login_logged [TUser] (log_row username (Some i) "SUCCESS" None ip ua rid) d d'
   else ∃ d' n', run (login cfg username password ip ua rid) d n
       = (Raise (AppException ACCOUNT_DISABLED "账号已禁用" 401), d', n') ∧
       login_logged [] (log_row username (Some i) "FAILED" (Some "账号已禁用") ip ua rid) d d')
  else ∃ n', run (login cfg username password ip ua rid) d n = (Raise DataError, d, n').
Proof.
  intros HI HK. destruct (LoginLogRepository.login_log_fits username ip ua rid) eqn:Hfit; [|by apply login_unlogged].
  split; [intros Hbad; by apply run_login_refused, wp_login_wrong|]. intros i u Ha Hgood.
  pose proof (λ Q Ex, wp_login_right d username password i u ip ua rid n Q Ex HI HK Hfit Ha Hgood) as Hwp.
  destruct (SysUser.status u =? 1); [|by apply run_login_refused, Hwp].
  destruct (run_total (login cfg username password ip ua rid) (λ r s',
      r = TokenResponseMk (login_token i (clock (S n))) "bearer" (JWT_EXPIRE_MINUTES cfg * 60) ∧
      users (durable s') = <[i := logged_in (clock n) ip u]> (users d) ∧
      login_logged [TUser] (log_row username (Some i) "SUCCESS" None ip ua rid) d (durable s')) d n)
    as (r & s' & Hrun & -> & Hres); [by apply Hwp|].
  by exists (login_token i (clock (S n))), (durable s'), (ticks s').
Qed.
End Props.

(** ** Instances *)

#[local] Opaque user_db.

(** The token lives two hours. *)
Lemma access_token_roundtrip_witness :
  ∃ token, run (create_access_token toy_jwt_settings 2) user_db 5 = (Ok token, user_db, 6%nat) ∧
    run (decode_access_token toy_jwt_settings token) user_db 7000 = (Ok 2, user_db, 7001%nat) ∧
    run (decode_access_token toy_jwt_settings token) user_db 7300
    = (Raise (AppException UNAUTHORIZED "Token 无效或已过期" 401), user_db, 7301%nat).
Proof.
  assert (0 ≤ 2 < 2 ^ 64) as Hi by lia.
  destruct (access_token_roundtrip toy_jwt_settings user_db 2 5 Hi) as (t & Ht & Hx).
  exists t. split; [exact Ht|]. split.
  - specialize (Hx 7000%nat).
    destruct (_ && _) eqn:Hc in Hx; [exact Hx|vm_compute in Hc; discriminate].
  - specialize (Hx 7300%nat).
    destruct (_ && _) eqn:Hc in Hx; [vm_compute in Hc; discriminate|exact Hx].
Defined.

Definition alice_token : string :=
  jwt_encode "secret" (Claims (Some "2") 1700000000 1700007200).

Lemma require_roles_spec_witness :
  ∃ n', run (require_roles toy_jwt_settings ["SYSTEM_ADMIN"] alice_token) user_db 100 = (Ok 2, user_db, n').
Proof.
  apply (require_roles_spec toy_jwt_settings user_db ["SYSTEM_ADMIN"] alice_token 2 100 user_integrity sample_keyed).
  destruct (user_at user_db 2 "alice" "hash:wonder" true 1) as (u & Hu & _ & _ & Ha & Hs); [vm_compute; reflexivity|].
  exists u. split; [vm_compute; reflexivity|]. split; [exact Hu|]. split; [unfold usable; rewrite Ha, Hs; reflexivity|].
  destruct (links user_db !! 1) as [l|] eqn:Hl; [|vm_compute in Hl; discriminate].
  destruct (roles user_db !! 1) as [r|] eqn:Hr; [|vm_compute in Hr; discriminate].
  exists 1, l, r. vm_compute in Hl. injection Hl as <-. vm_compute in Hr. injection Hr as <-.
  split; [vm_compute; reflexivity|]. split; [reflexivity|]. split; [vm_compute; reflexivity|]. by left.
Defined.

Definition long_id : string := String.concat EmptyString (repeat "0123456789" 7).

Lemma login_spec_witness :
  (∃ d' n', run (login toy_jwt_settings "alice" "wrong" None None None) user_db 5
     = (Raise (AppException INVALID_CREDENTIALS "用户名或密码错误" 401), d', n') ∧ users d' = users user_db) ∧
  (∃ d' n', run (login toy_jwt_settings "bob" "builder" None None None) user_db 5
     = (Raise (AppException ACCOUNT_DISABLED "账号已禁用" 401), d', n')) ∧
  (∃ r d' n', run (login toy_jwt_settings "alice" "wonder" None None None) user_db 5 = (Ok r, d', n') ∧
     expires_in r = 7200) ∧
  ∃ n', run (login toy_jwt_settings "alice" "wonder" None None (Some long_id)) user_db 5 = (Raise DataError, user_db, n').
Proof.
  destruct (user_at user_db 2 "alice" "hash:wonder" true 1) as (u & Hu & Hn & Hh & Ha & Hs); [vm_compute; reflexivity|].
  destruct (user_at user_db 3 "bob" "hash:builder" true 0) as (v & Hv & Hvn & Hvh & Hva & Hvs);
    [vm_compute; reflexivity|].
  split; [|split; [|split]].
  4: { exact (login_spec toy_jwt_settings user_db "alice" "wonder" None None (Some long_id) 5 user_integrity sample_keyed). }
  - destruct (proj1 (login_spec toy_jwt_settings user_db "alice" "wrong" None None None 5 user_integrity sample_keyed))
      as (d' & n' & Hrun & _ & Ho).
    + intros i u' Hacc. destruct (account_unique user_db "alice" 2 u i u' user_integrity (conj Hu (conj Ha Hn)) Hacc)
        as [_ <-]. rewrite Hh. reflexivity.
    + exists d', n'. split; [exact Hrun|]. rewrite Ho; [reflexivity|]. by apply only_other.
  - pose proof (proj2 (login_spec toy_jwt_settings user_db "bob" "builder" None None None 5 user_integrity sample_keyed)
      3 v (conj Hv (conj Hva Hvn))) as Hx.
    rewrite Hvh, Hvs in Hx. destruct (Hx eq_refl) as (d' & n' & Hrun & _). exists d', n'. exact Hrun.
  - pose proof (proj2 (login_spec toy_jwt_settings user_db "alice" "wonder" None None None 5 user_integrity sample_keyed)
      2 u (conj Hu (conj Ha Hn))) as Hx.
    rewrite Hh, Hs in Hx. destruct (Hx eq_refl) as (token & d' & n' & Hrun & _).
    eexists _, d', n'. split; [exact Hrun|reflexivity].
Defined.
