(* ===== verification/MiddlewareProps.v ===== *)
(** * Properties of the middleware

    The operation log never changes what a request does or returns, and every
    request under its paths leaves exactly one entry that tells success from
    failure, if its texts fit the columns. *)
From S2P Require Import Prelude.
From S2P Require Import Confined UserProps.
From S2P Require Export Middleware.

Section Props.
Context `{E : Env} `{!EnvOk E} `{!Jwt} (cfg : jwt_settings) (uuid : string) (exc_text : exc → string).

Lemma decode_session token s : ∃ o, decode_access_token cfg token s = (o, tick s).
Proof.
  unfold decode_access_token, mbind, M_bind, utcnow, invalid_token, app_error, raise, mret, M_ret.
  repeat case_match; by eexists.
Qed.

(** The request context is always found, and needs no database. *)
Lemma request_context_total req d n :
  ∃ ctx n', run (request_context cfg uuid req) d n = (Ok ctx, d, n').
Proof.
  assert (wp (request_context cfg uuid req) (λ _ s', s' = Session d d (ticks s')) no_exc (Session d d n)) as Hwp.
  { unfold request_context. apply wp_bind. unfold context_user.
    destruct (_ ≫= _) as [token|]; [|by apply wp_ret, wp_ret].
    destruct (decode_session token (Session d d n)) as [o Ho]. unfold wp. rewrite Ho. by destruct o. }
  destruct (run_total _ _ _ _ Hwp) as (ctx & s' & Hrun & Hs). exists ctx, (ticks s'). rewrite Hrun. by rewrite Hs.
Qed.

(** The outcome the log should show. *)
Definition succeeded {A} (ok_status : Z) (o : outcome A) : bool :=
  match o with Ok _ => ok_status <? 400 | Raise _ => false end.

(** Business errors are raised with an error status. *)
Definition proper {A} (o : outcome A) : Prop :=
  match o with Raise (AppException _ _ h) | Raise (HTTPException h) => 400 <= h | _ => True end.

(** The entry of a request. *)
Definition entry_of {A} (req : incoming) (ctx : context) (ok_status duration_ms : Z) (o : outcome A) (d : db) : SysOperationLog :=
  let '(status, error_message) := log_status exc_text ok_status o in
  operation_log req ctx (i ← user_id ctx; u ← rows (d TUser) !! i; Some (SysUser.username u)) status duration_ms error_message.

Lemma entry_result {A} req ctx ok_status duration_ms (o : outcome A) d :
  proper o →
  SysOperationLog.result_status (entry_of req ctx ok_status duration_ms o d) =
  if succeeded ok_status o then "SUCCESS" else "FAILED".
Proof.
  intros Hp. unfold entry_of, log_status. destruct o as [a|e]; simpl.
  - rewrite orb_false_r. destruct (Z.leb_spec 400 ok_status), (Z.ltb_spec ok_status 400); lia || done.
  - destruct e; simpl in *; try done; by rewrite (proj2 (Z.leb_le _ _)).
Qed.

(** C34: every answer passes through the operation log unchanged.  Outside the
    logged paths, or with the log switched off, nothing is added; otherwise
    the request leaves exactly one entry with its user, method and path, which
    says SUCCESS exactly if the request succeeded: refused and failed requests
    are logged too.  But a request whose entry does not fit the columns, by a
    request id of more than 64 characters, say, leaves none. *)
Theorem dispatch_logged {A} (enabled : bool) (req : incoming) (ctx : context) (ok_status duration_ms : Z)
    (handler : M A) (d d1 : db) (n n1 : nat) (o : outcome A) :
  run handler d n = (o, d1, n1) → proper o →
  (∀ i, user_id ctx = Some i → is_Some (rows (d1 TUser) !! i)) →
  let entry := entry_of req ctx ok_status duration_ms o d1 in
  let stored := fresh_row TOperationLog (next_id (d1 TOperationLog)) (clock n1) entry in
  ∃ n2, dispatch exc_text enabled req ctx ok_status duration_ms handler d n
    = (o, if enabled && logged_path (in_path req) && operation_log_fits entry then add_row TOperationLog stored d1 else d1, n2) ∧
  SysOperationLog.user_id stored = user_id ctx ∧
  SysOperationLog.http_method stored = Some (in_method req) ∧
  SysOperationLog.request_path stored = Some (in_path req) ∧
  SysOperationLog.result_status stored = if succeeded ok_status o then "SUCCESS" else "FAILED".
Proof.
  intros Hrun Hp Huser entry stored.
  assert (SysOperationLog.result_status stored = if succeeded ok_status o then "SUCCESS" else "FAILED") as Hres
    by (by rewrite <- (entry_result req ctx ok_status duration_ms o d1)).
  assert (∀ P : Prop, P → P ∧ SysOperationLog.user_id stored = user_id ctx ∧
    SysOperationLog.http_method stored = Some (in_method req) ∧ SysOperationLog.request_path stored = Some (in_path req) ∧
    SysOperationLog.result_status stored = if succeeded ok_status o then "SUCCESS" else "FAILED") as Hcols.
  { intros P HP. split_and!; [done|..|exact Hres]; unfold stored, entry, entry_of;
      by destruct (log_status exc_text ok_status o). }
  unfold dispatch. rewrite Hrun. destruct enabled; simpl; [|by exists n1; apply Hcols].
  destruct (logged_path (in_path req)); simpl; [|by exists n1; apply Hcols].
  destruct (log_status exc_text ok_status o) as [status error_message] eqn:Hlog.
  assert (entry = operation_log req ctx (i ← user_id ctx; u ← rows (d1 TUser) !! i; Some (SysUser.username u)) status
    duration_ms error_message) as Hentry by (unfold entry, entry_of; by rewrite Hlog).
  assert (wp (_write_log req ctx status duration_ms error_message)
    (λ _ s', durable s' = add_row TOperationLog stored d1 ∧ operation_log_fits entry = true)
    (λ _ s', durable s' = d1 ∧ operation_log_fits entry = false) (Session d1 d1 n1)) as Hwp.
  { unfold _write_log. apply wp_bind, wp_get_work. cbv zeta. cbn [work]. rewrite <- Hentry.
    destruct (operation_log_fits entry) eqn:Hfit; [|by apply wp_bind, wp_raise].
    apply wp_bind, wp_ret, wp_bind, (wp_create TOperationLog). split; cbn [work ticks]; intros Ha.
    - by apply wp_commit.
    - exfalso. revert Ha. apply not_false_iff_true, admissible_spec. split; [|done].
      rewrite Hentry. intros k j. simpl. rewrite app_nil_r.
      destruct (user_id ctx) as [i|]; simpl; [|by intros ?%elem_of_nil].
      intros [= -> ->]%list_elem_of_singleton. by apply Huser. }
  unfold wp in Hwp. unfold run. destruct (_write_log _ _ _ _ _ _) as [[[]|e] s']; destruct Hwp as [Hd ->];
    exists (ticks s'); rewrite <- Hd; by apply Hcols.
Qed.
End Props.

(** ** Instances *)

#[local] Opaque user_db.

Definition refused_request (request_id : string) : incoming :=
  Incoming "POST" "/api/v1/tasks/1/cancel" (Some "Bearer x") None (Some request_id) None (Some "10.0.0.8") [].

(** A request with a broken token is refused, and the refusal is logged; with
    an overlong request id it leaves no entry. *)
Lemma dispatch_logged_witness :
  (∃ stored n2, dispatch (λ _, "error") true (refused_request "r-1") (Context_ "r-1" None) 200 3
     (get_current_user toy_jwt_settings "x") user_db 5
   = (Raise (AppException UNAUTHORIZED "Token 无效或已过期" 401), add_row TOperationLog stored user_db, n2) ∧
   SysOperationLog.result_status stored = "FAILED" ∧ SysOperationLog.request_path stored = Some "/api/v1/tasks/1/cancel") ∧
  ∃ n2, dispatch (λ _, "error") true (refused_request long_id) (Context_ long_id None) 200 3
     (get_current_user toy_jwt_settings "x") user_db 5
   = (Raise (AppException UNAUTHORIZED "Token 无效或已过期" 401), user_db, n2).
Proof.
  assert (run (get_current_user toy_jwt_settings "x") user_db 5
    = (Raise (AppException UNAUTHORIZED "Token 无效或已过期" 401), user_db, 6%nat)) as Hrun by reflexivity.
  assert (proper (Raise (AppException UNAUTHORIZED "Token 无效或已过期" 401) : outcome Z)) as Hp by (simpl; lia).
  split.
  - destruct (dispatch_logged (λ _, "error") true (refused_request "r-1") (Context_ "r-1" None) 200 3
      (get_current_user toy_jwt_settings "x") user_db user_db 5 6 _ Hrun Hp ltac:(intros i [=]))
      as (n2 & Hd & _ & _ & Hpath & Hres).
    eexists _, n2. split; [exact Hd|exact (conj Hres Hpath)].
  - destruct (dispatch_logged (λ _, "error") true (refused_request long_id) (Context_ long_id None) 200 3
      (get_current_user toy_jwt_settings "x") user_db user_db 5 6 _ Hrun Hp ltac:(intros i [=])) as (n2 & Hd & _).
    exists n2. exact Hd.
Defined.
