(* ===== verification/UserAdmin.v ===== *)
(** * Creating users

    The functional behaviour of [create_user], and sample users on which the
    theorems on authentication are instantiated. *)
From S2P Require Import Prelude.
From S2P Require Export UserProps.

(** No row, deleted or not, has this user name; none has this address. *)
Definition name_free (d : db) (username : string) : Prop :=
  map_Forall (λ i u, SysUser.username u ≠ username) (users d).

Definition email_free (d : db) (email : option string) : Prop :=
  map_Forall (λ i u, email = None ∨ SysUser.email u ≠ email) (users d).

Definition roles_exist (d : db) (role_ids : list Z) : Prop :=
  Forall (λ r, is_Some (roles d !! r)) role_ids.

#[export] Instance name_free_dec d username : Decision (name_free d username).
Proof. unfold name_free. apply _. Defined.

#[export] Instance email_free_dec d email : Decision (email_free d email).
Proof. unfold email_free. apply _. Defined.

#[export] Instance roles_exist_dec d role_ids : Decision (roles_exist d role_ids).
Proof. unfold roles_exist. apply _. Defined.

Section Props.
Context `{E : Env} `{!EnvOk E} `{!Passwords}.

Lemma wp_validate_roles role_ids (Q : () → session → Prop) (Ex : exc → session → Prop) s :
  (roles_exist (work s) role_ids → Q () s) →
  (∀ r, r ∈ role_ids → roles (work s) !! r = None →
     Ex (AppException ROLE_NOT_FOUND ("角色不存在: " +:+ py_str r) 404) s) →
  wp (_validate_roles role_ids) Q Ex s.
Proof.
  intros HQ HE. unfold _validate_roles, for_each.
  apply (wp_fold_loop (λ rest _ s', s' = s ∧ (∀ r, r ∈ rest → r ∈ role_ids) ∧
    ∀ r, r ∈ role_ids → r ∈ rest ∨ is_Some (roles (work s) !! r))).
  - split_and!; [done|intros r; apply set_iter_elem|]. intros r Hr. left. by apply set_iter_elem.
  - intros r rest [] s' (-> & Hin & Hdone). apply wp_bind, (wp_get TRole).
    + intros x Hx _. apply wp_ret. split_and!; [done|intros y Hy; apply Hin; list_in|].
      intros y [[->|Hy]%elem_of_cons|Hy]%Hdone; [right; by exists x|by left|by right].
    + intros Hn. apply wp_app_error, HE; [apply Hin; list_in|].
      destruct (roles (work s) !! r) as [x|] eqn:Hx; [|done]. by specialize (Hn x eq_refl).
  - intros [] s' (-> & _ & Hdone). apply HQ, Forall_forall. intros r Hr.
    destruct (Hdone r Hr) as [Hn|]; [by apply elem_of_nil in Hn|done].
Qed.

Lemma wp_email_owner email (Q : option Z → session → Prop) Ex s :
  (∀ i u, users (work s) !! i = Some u → email = SysUser.email u → email ≠ None → Q (Some i) s) → Q None s →
  wp (email_owner email) Q Ex s.
Proof.
  intros HS HN. unfold email_owner. destruct email as [e|]; [|by apply wp_ret].
  destruct (py_truthy (Some e)); [|by apply wp_ret]. apply wp_get_by_unique; [|done].
  intros i u Hu _ He%bool_decide_eq_true. by apply (HS i u).
Qed.

Lemma admissible_user d n data now :
  admissible TUser (next_id (d TUser)) (fresh_row TUser (next_id (d TUser)) now (new_user n data)) d = true ↔
  ∀ j u, users d !! j = Some u → j ≠ next_id (d TUser) →
    SysUser.username u ≠ UserCreate.username data ∧
    (UserCreate.email data = None ∨ SysUser.email u ≠ UserCreate.email data).
Proof.
  rewrite admissible_spec. split.
  - intros [_ Hu] j u Hj Hne. specialize (Hu j u Hj Hne). simpl in Hu.
    apply orb_false_iff in Hu as [H1%bool_decide_eq_false H2]. split; [congruence|].
    destruct (UserCreate.email data) as [e|]; [right|by left]. simpl in H2.
    destruct (SysUser.email u) as [e'|]; [|done]. apply bool_decide_eq_false in H2. congruence.
  - intros Hu. split; [by intros k j ?%elem_of_nil|]. intros j u Hj Hne. destruct (Hu j u Hj Hne) as [H1 H2].
    simpl. apply orb_false_iff. split; [apply bool_decide_eq_false; congruence|].
    destruct (UserCreate.email data) as [e|]; [|done]. simpl.
    destruct (SysUser.email u) as [e'|]; [|done]. apply bool_decide_eq_false.
    destruct H2 as [|H2]; [done|congruence].
Qed.

(** What an accepted creation leaves behind. *)
Record user_created (data : UserCreate) (k : nat) (now : datetime) (d d' : db) : Prop := {
  uc_user : users d' = <[next_id (d TUser) :=
    fresh_row TUser (next_id (d TUser)) now (new_user k data)]> (users d);
  uc_roles : ∀ r, role_key (next_id (d TUser)) d' r ↔ r ∈ UserCreate.role_ids data;
  uc_others : ∀ j l, SysUserRole.user_id l ≠ next_id (d TUser) → links d' !! j = Some l ↔ links d !! j = Some l;
  uc_only : only_in [TUser; TUserRole] d d'
}.

(** The new user has no roles yet. *)
Lemma no_links_yet d j l :
  integrity d → links d !! j = Some l → SysUserRole.user_id l ≠ next_id (d TUser).
Proof.
  intros HI Hl Heq. destruct (integrity_refs TUserRole j l d TUser (SysUserRole.user_id l) HI Hl) as [u Hu];
    [simpl; list_in|].
  apply (integrity_key TUser HI) in Hu. rewrite Heq in Hu. by destruct (Z.lt_irrefl _ Hu).
Qed.

Lemma wp_create_user d data k n (Q : Z → session → Prop) (Ex : exc → session → Prop) :
  integrity d →
  (∀ i u, account d (UserCreate.username data) i u →
     Ex (AppException USERNAME_EXISTS "用户名已存在" 409) (Session d d n)) →
  (∀ i u, users d !! i = Some u → UserCreate.email data = SysUser.email u → UserCreate.email data ≠ None →
     Ex (AppException EMAIL_EXISTS "邮箱已被使用" 409) (Session d d n)) →
  (∀ r, r ∈ UserCreate.role_ids data → roles d !! r = None →
     Ex (AppException ROLE_NOT_FOUND ("角色不存在: " +:+ py_str r) 404) (Session d d n)) →
  ((∀ i u, ¬ account d (UserCreate.username data) i u) →
   ¬ (name_free d (UserCreate.username data) ∧ email_free d (UserCreate.email data)) →
   roles_exist d (UserCreate.role_ids data) → Ex IntegrityError (Session d d (S n))) →
  (∀ d' n', name_free d (UserCreate.username data) → user_created data k (clock n) d d' →
     Q (next_id (d TUser)) (Session d' d' n')) →
  wp (create_user data k) Q Ex (Session d d n).
Proof.
  intros HI Hname Hemail Hrole Hint HQ. unfold create_user.
  apply wp_bind, wp_find_account; cbn [work]; [by intros i u Ha; apply wp_app_error, (Hname i u)|]. intros Hno.
  apply wp_bind, wp_email_owner; cbn [work]; [by intros i u Hu He Hne; apply wp_app_error, (Hemail i u)|].
  apply wp_bind, wp_validate_roles; cbn [work]; [|done]. intros Hroles.
  apply wp_bind, wp_create. cbn [work ticks durable tick]. split.
  2: { intros Ha. apply Hint; [done| |done]. intros [Hn He].
       assert (admissible TUser (next_id (d TUser))
         (fresh_row TUser (next_id (d TUser)) (clock n) (new_user k data)) d = true) as Ht.
       { apply admissible_user. intros j u Hj _. split; [by apply (Hn j u)|by apply (He j u)]. }
       pose proof (eq_trans (eq_sym Ht) Ha). done. }
  intros Ha. pose proof (integrity_add_row TUser _ _ HI Ha) as HI1.
  assert (name_free d (UserCreate.username data)) as Hfree.
  { intros j u Hj. apply (proj1 (admissible_user d k data (clock n)) Ha j u Hj). by apply (row_not_next TUser d j u). }
  set (i := next_id (d TUser)) in *. set (r := fresh_row TUser i _ _) in *. set (d1 := add_row TUser r d) in *.
  assert (users d1 = <[i := r]> (users d)) as Hu1 by (unfold d1; by autorewrite with store).
  assert (∀ t, t ≠ TUser → d1 t = d t) as Ho1 by (intros t Ht; by apply add_row_ne).
  assert (users d1 !! i = Some r) as Hur by (rewrite Hu1; apply lookup_insert_eq).
  assert (∀ l j, links d !! j = Some l → SysUserRole.user_id l ≠ i) as Hnone.
  { intros l j Hl. by apply (no_links_yet d j l). }
  apply wp_bind, (wp_obj_ok TUser i r); [done|]. change (SysUser.id r) with i. clearbody d1.
  assert (∀ d', (∀ x, role_key i d' x ↔ x ∈ UserCreate.role_ids data) → others_kept TUserRole SysUserRole.user_id i d1 d' →
    user_created data k (clock n) d d') as Hdone.
  { intros d' Hk [Hl Ho _]. split; [|done| |].
    - rewrite Ho; [done|]. by apply only_other.
    - intros j l Hne. rewrite Hl by done. by rewrite Ho1.
    - intros t Ht. rewrite Ho; [apply Ho1|]; intros Heq; apply Ht; [rewrite Heq|
        apply list_elem_of_singleton in Heq; rewrite Heq]; list_in. }
  apply wp_bind. unfold when. case_bool_decide as Hnil; simpl negb; cbv iota.
  - apply wp_ret, wp_bind, wp_commit, wp_ret, HQ; [done|]. apply Hdone; [|by apply others_kept_refl].
    intros x. rewrite Hnil, elem_of_nil. split; [|done]. intros (j & l & Hl & Hx & _).
    rewrite Ho1 in Hl by done. by apply (Hnone l j).
  - apply wp_set_roles; cbn [work set_work tick durable ticks]; [done|by exists r|..].
    + intros x Hx. rewrite Ho1 by done. exact (proj1 (Forall_forall _ _) Hroles x Hx).
    + intros d' n' Ho Hk. apply wp_bind, wp_commit, wp_ret, HQ; [done|]. by apply Hdone.
Qed.

(** A new user needs a name no account has, an address no user has and
    existing roles, or nothing changes: 409, 409, 404.  A name or address that
    only a deleted user has passes these checks and fails on the database's
    constraint.  A created user has exactly the requested roles. *)
Theorem create_user_spec (d : db) (data : UserCreate) (k n : nat) :
  integrity d →
  ((∃ i u, account d (UserCreate.username data) i u) →
   run (create_user data k) d n = (Raise (AppException USERNAME_EXISTS "用户名已存在" 409), d, n)) ∧
  (¬ (∃ i u, account d (UserCreate.username data) i u) → email_free d (UserCreate.email data) →
   ¬ roles_exist d (UserCreate.role_ids data) →
   ∃ r, r ∈ UserCreate.role_ids data ∧ roles d !! r = None ∧
     run (create_user data k) d n = (Raise (AppException ROLE_NOT_FOUND ("角色不存在: " +:+ py_str r) 404), d, n)) ∧
  (¬ (∃ i u, account d (UserCreate.username data) i u) → email_free d (UserCreate.email data) →
   roles_exist d (UserCreate.role_ids data) → ¬ name_free d (UserCreate.username data) →
   ∃ n', run (create_user data k) d n = (Raise IntegrityError, d, n')) ∧
  (name_free d (UserCreate.username data) → email_free d (UserCreate.email data) →
   roles_exist d (UserCreate.role_ids data) →
   ∃ d' n', run (create_user data k) d n = (Ok (next_id (d TUser)), d', n') ∧
     user_created data k (clock n) d d').
Proof.
  intros HI.
  assert (∀ r, r ∈ UserCreate.role_ids data → roles d !! r = None → roles_exist d (UserCreate.role_ids data) → False)
    as Hmiss.
  { intros r Hr Hn Hf. apply (proj1 (Forall_forall _ _) Hf) in Hr as [x Hx].
    pose proof (eq_trans (eq_sym Hn) Hx). done. }
  assert (∀ i u, users d !! i = Some u → UserCreate.email data = SysUser.email u → UserCreate.email data ≠ None →
    email_free d (UserCreate.email data) → False) as Hmail.
  { intros i u Hu He Hne Hf. destruct (Hf i u Hu); congruence. }
  split_and!.
  - intros (i & u & Ha). apply run_refused. unfold create_user.
    apply wp_bind, wp_find_account; cbn [work]; [by intros; apply wp_app_error|].
    intros Hno. by destruct (Hno i u).
  - intros Hno He Hr.
    assert (wp (create_user data k) (λ _ _, False) (λ e s', s' = Session d d n ∧
      ∃ r, r ∈ UserCreate.role_ids data ∧ roles d !! r = None ∧
        e = AppException ROLE_NOT_FOUND ("角色不存在: " +:+ py_str r) 404) (Session d d n)) as Hwp.
    { unfold create_user. apply wp_bind, wp_find_account; cbn [work]; [by intros i u Ha; destruct Hno; exists i, u|].
      intros _. apply wp_bind, wp_email_owner; cbn [work]; [by intros i u Hu Heq Hne; destruct (Hmail i u)|].
      apply wp_bind, wp_validate_roles; cbn [work]; [done|]. intros r Hin Hn. split; [done|]. by exists r. }
    unfold wp, run in *. destruct (create_user data k _) as [[a|e] s']; [done|].
    destruct Hwp as (-> & r & Hin & Hn & ->). by exists r.
  - intros Hno He Hr Hn. apply run_raises, wp_create_user; [done|..].
    + intros i u Ha. destruct Hno. by exists i, u.
    + intros i u Hu Heq Hne. by destruct (Hmail i u).
    + intros r Hin Hx. by destruct (Hmiss r).
    + done.
    + intros d' n' Hf. done.
  - intros Hn He Hr.
    destruct (run_total (create_user data k) (λ i s', i = next_id (d TUser) ∧
      user_created data k (clock n) d (durable s')) d n) as (i & s' & Hrun & -> & Hc);
      [|by exists (durable s'), (ticks s')].
    apply wp_create_user; [done|..].
    + intros i u (Hu & _ & Hx). by destruct (Hn i u Hu).
    + intros i u Hu Heq Hne. by destruct (Hmail i u).
    + intros r Hin Hx. by destruct (Hmiss r).
    + intros _ Hx. by destruct Hx.
    + intros d' n' _ Hc. done.
Qed.
End Props.

(** ** Instances *)

#[local] Opaque user_db.

Definition new_account (name : string) (role_ids : list Z) : UserCreate :=
  UserCreate.Mk name "password" None None None role_ids.

(** "alice" is taken, role 9 does not exist, "carol" was deleted. *)
Lemma create_user_spec_witness :
  run (create_user (new_account "alice" []) 9) user_db 5
    = (Raise (AppException USERNAME_EXISTS "用户名已存在" 409), user_db, 5%nat) ∧
  (∃ n', run (create_user (new_account "carol" []) 9) user_db 5 = (Raise IntegrityError, user_db, n')) ∧
  (∃ d' n', run (create_user (new_account "dave" [1]) 9) user_db 5 = (Ok 5, d', n') ∧ role_key 5 d' 1).
Proof.
  destruct (user_at user_db 2 "alice" "hash:wonder" true 1) as (u & Hu & Hn & Hh & Ha & Hs); [vm_compute; reflexivity|].
  split; [|split].
  - apply (proj1 (create_user_spec user_db (new_account "alice" []) 9 5 user_integrity)).
    exists 2, u. exact (conj Hu (conj Ha Hn)).
  - apply (proj1 (proj2 (proj2 (create_user_spec user_db (new_account "carol" []) 9 5 user_integrity)))).
    + assert (map_Forall (λ i u, ¬ (alive TUser u = true ∧ SysUser.username u = "carol")) (users user_db)) as Hf
        by (apply (bool_decide_unpack _); vm_compute; exact I).
      intros (i & v & Hv & Hva & Hvn). exact (Hf i v Hv (conj Hva Hvn)).
    + apply (bool_decide_unpack _). vm_compute. exact I.
    + apply (bool_decide_unpack _). vm_compute. exact I.
    + apply (bool_decide_unpack _). vm_compute. exact I.
  - destruct (proj2 (proj2 (proj2 (create_user_spec user_db (new_account "dave" [1]) 9 5 user_integrity))))
      as (d' & n' & Hrun & Hc); [apply (bool_decide_unpack _); vm_compute; exact I..|].
    assert (next_id (user_db TUser) = 5) as Hid by (vm_compute; reflexivity).
    rewrite Hid in Hrun. exists d', n'. split; [exact Hrun|]. rewrite <- Hid. apply (uc_roles _ _ _ _ _ Hc).
    simpl. by left.
Defined.
