(* ===== verification/Seed.v ===== *)
(** * Seed data (backend/app/core/seed.py)

    What the application writes into the database when it starts: the default
    roles, permissions and alert rules, and the administrator. *)
From Stdlib Require Import QArith.
From S2P Require Import Prelude.
From S2P Require Export AuthService UserRepo AlertRepo.

Definition DEFAULT_ROLES : list SysRole :=
  [SysRole.Mk 0 "SYSTEM_ADMIN" "系统管理员" (Some "拥有系统全部管理权限") 1 0;
   SysRole.Mk 0 "OPS_ENGINEER" "运维人员" (Some "负责服务器监控、告警和任务操作") 1 0;
   SysRole.Mk 0 "NORMAL_USER" "普通用户" (Some "查看授权服务器和监控数据") 1 0].

Definition permission (code name type : string) (path method : option string) : SysPermission :=
  SysPermission.Mk 0 code name type path method None 1 0.

Definition DEFAULT_PERMISSIONS : list SysPermission :=
  [permission "user:manage" "用户管理" "MENU" (Some "/system/users") None;
   permission "user:list" "用户列表" "API" (Some "/api/v1/users") (Some "GET");
   permission "user:create" "创建用户" "API" (Some "/api/v1/users") (Some "POST");
   permission "user:update" "更新用户" "API" (Some "/api/v1/users/{id}") (Some "PUT");
   permission "user:delete" "删除用户" "API" (Some "/api/v1/users/{id}") (Some "DELETE")].

Definition default_rule (rule_name metric_type severity operator : string) (threshold : Q) (duration : Z) : AlertRule :=
  AlertRule.Mk 0 rule_name metric_type "SERVER" severity operator (Some threshold) duration None 1 None None 0.

Definition DEFAULT_ALERT_RULES : list AlertRule :=
  [default_rule "CPU 使用率过高" "CPU" "WARNING" "GT" 80 300;
   default_rule "CPU 使用率严重过高" "CPU" "CRITICAL" "GT" 95 120;
   default_rule "内存使用率过高" "MEMORY" "WARNING" "GT" 80 300;
   default_rule "内存使用率严重过高" "MEMORY" "CRITICAL" "GT" 95 120;
   default_rule "磁盘使用率过高" "DISK" "WARNING" "GT" 85 300;
   default_rule "磁盘使用率严重过高" "DISK" "CRITICAL" "GT" 95 120;
   default_rule "负载过高" "LOAD" "WARNING" "GT" 1 300;
   default_rule "负载严重过高" "LOAD" "CRITICAL" "GT" 2 120;
   default_rule "Agent 心跳丢失" "AGENT" "WARNING" "GT" 90 0;
   default_rule "Agent 心跳严重丢失" "AGENT" "CRITICAL" "GT" 180 0].

(** The settings of backend/app/core/config.py this part reads. *)
Record seed_settings := SeedSettings { SEED_ADMIN_USERNAME : string; SEED_ADMIN_PASSWORD : string }.

Section Seed.
Context `{E : Env} `{!Passwords} (cfg : seed_settings).

(** One iteration of each loop: what exists stays, what is missing is created. *)
Definition seed_role (created_roles : gmap string Z) (item : SysRole) : M (gmap string Z) :=
  found ← RoleRepository.get_by_code (SysRole.role_code item);
  role ← match found with Some role => mret role | None => create TRole item end;
  mret (<[SysRole.role_code item := role]> created_roles).

Definition seed_permission (item : SysPermission) : M unit :=
  found ← PermissionRepository.get_by_code (SysPermission.permission_code item);
  match found with Some _ => mret () | None => _ ← create TPermission item; mret () end.

Definition seed_rule (item : AlertRule) : M unit :=
  found ← AlertRuleRepository.get_by_name (AlertRule.rule_name item);
  match found with Some _ => mret () | None => _ ← create TRule item; mret () end.

(** The administrator, its password hashed with the [n]-th salt. *)
Definition admin_user (n : nat) : SysUser :=
  SysUser.Mk 0 (SEED_ADMIN_USERNAME cfg) (hash_password n (SEED_ADMIN_PASSWORD cfg)) (Some "系统管理员")
    None None 1 None None 0 None.

Definition _init_seed_data_once (n : nat) : M unit :=
  created_roles ← fold_loop seed_role ∅ DEFAULT_ROLES;
  for_each seed_permission DEFAULT_PERMISSIONS;;
  for_each seed_rule DEFAULT_ALERT_RULES;;
  found ← UserRepository.get_by_username (SEED_ADMIN_USERNAME cfg);
  admin ← match found with Some admin => mret admin | None => create TUser (admin_user n) end;
  match created_roles !! "SYSTEM_ADMIN" with
  | Some admin_role => UserRepository.set_roles admin [admin_role]
  | None => mret ()
  end;;
  commit.

(** How the retries can end: an attempt came through; it raised another
    exception; the database stayed away until the last attempt; or no attempt
    was allowed. *)
Inductive seeding :=
  | Seeded
  | SeedFailed (e : exc)
  | OperationalError
  | NotTried.

(** [init_seed_data]: [up attempt] says whether the database answers, or the
    attempt ends in an [OperationalError] that leaves nothing behind.  [left]
    is the rest of [range(attempt, max_attempts + 1)]; between attempts the
    program sleeps. *)
Fixpoint seed_attempts (up : nat → bool) (left attempt n : nat) (d : db) (ticks : nat) : seeding * db * nat :=
  match left with
  | O => (NotTried, d, ticks)
  | S left' =>
    if up attempt then
      match run (_init_seed_data_once n) d ticks with
      | (Ok (), d', ticks') => (Seeded, d', ticks')
      | (Raise e, d', ticks') => (SeedFailed e, d', ticks')
      end
    else match left' with
         | O => (OperationalError, d, ticks)
         | S _ => seed_attempts up left' (S attempt) n d ticks
         end
  end.

Definition init_seed_data (up : nat → bool) (max_attempts n : nat) (d : db) (ticks : nat) : seeding * db * nat :=
  seed_attempts up max_attempts 1 n d ticks.
End Seed.
