(* ===== verification/SeedProps.v ===== *)
(** * What seeding guarantees

    After the start of the application the defaults and the administrator are
    there; what was there before stays, except the administrator's roles. *)
From Stdlib Require Import QArith.
From S2P Require Import Prelude.
From S2P Require Export Seed UserAdmin.

(** Nothing of table [k] is lost or changed, and only [k] changed. *)
Record grown (k : tname) (d d' : db) : Prop := Grown {
  grown_rows : rows (d k) ⊆ rows (d' k);
  grown_only : only_in [k] d d';
  grown_integrity : integrity d'
}.

Lemma grown_refl k d : integrity d → grown k d d.
Proof. by split. Qed.

Lemma grown_trans k d d1 d2 : grown k d d1 → grown k d1 d2 → grown k d d2.
Proof.
  intros [H1 H2 _] [H3 H4 H5]. split; [by etransitivity|intros k' Hk; by rewrite H4, H2|done].
Qed.

Lemma grown_add k d r : integrity d → integrity (add_row k r d) → grown k d (add_row k r d).
Proof.
  intros HI HI'. split; [|by intros k' Hk; apply add_row_ne, only_ne|done].
  rewrite rows_add_row. apply insert_subseteq, not_elem_of_dom. intros [x Hx]%elem_of_dom.
  apply (integrity_key k HI) in Hx. by destruct (Z.lt_irrefl _ Hx).
Qed.

Section Present.
Context (k : tname).

(** A row that satisfies [p] exists. *)
Definition present (p : row k → bool) (d : db) : Prop := ∃ i r, rows (d k) !! i = Some r ∧ p r = true.

Lemma present_grown p d d' k' : grown k' d d' → present p d → present p d'.
Proof.
  intros Hg (i & r & Hr & Hp). exists i, r. split; [|done]. destruct (decide (k' = k)) as [->|Hne].
  - by eapply lookup_weaken, grown_rows.
  - rewrite (grown_only _ _ _ Hg); [done|]. by apply only_other.
Qed.
End Present.

Section Props.
Context `{E : Env} `{!EnvOk E} `{!Passwords}.

(** Looking a row up in a table without soft deletes, and creating it if it is
    missing: the outcome is a row that satisfies [p]. *)
Definition ensured k (p : row k → bool) (d : db) (i : Z) (d' : db) : Prop :=
  (∃ r, rows (d' k) !! i = Some r ∧ p r = true) ∧ grown k d d' ∧ (present k p d → d' = d).

Lemma wp_lookup k (p : row k → bool) (Q : option Z → session → Prop) Ex s :
  integrity (work s) → (∀ r, alive k r = true) →
  (∀ i, ensured k p (work s) i (work s) → Q (Some i) s) → (¬ present k p (work s) → Q None s) →
  wp (get_by k p) Q Ex s.
Proof.
  intros HI Ha HS HN. apply wp_get_by_unique.
  - intros i r Hr _ Hp. apply HS. split_and!; [by exists r|by apply grown_refl|done].
  - intros Hno. apply HN. intros (i & r & Hr & Hp). by rewrite (Hno i r Hr (Ha r)) in Hp.
Qed.

Lemma wp_create_missing k (p : row k → bool) (item : row k) (Q : Z → session → Prop) Ex s :
  integrity (work s) → ¬ present k p (work s) →
  (∀ i now, p (fresh_row k i now item) = true) →
  (∀ now, admissible k (next_id (work s k)) (fresh_row k (next_id (work s k)) now item) (work s) = true) →
  (∀ i d' n, ensured k p (work s) i d' → Q i (Session d' (durable s) n)) →
  wp (create k item) Q Ex s.
Proof.
  intros HI Hno Hp Hadm HQ. apply wp_create_ok; [done|by apply Hadm|]. intros HI'. apply HQ. split_and!.
  - exists (fresh_row k (next_id (work s k)) (clock (ticks s)) item).
    rewrite rows_add_row. split; [apply lookup_insert_eq|apply Hp].
  - by apply grown_add.
  - done.
Qed.

(** A row whose only constraint is the uniqueness that [p] expresses. *)
Lemma admissible_missing k (p : row k → bool) (item : row k) d now :
  refs k (fresh_row k (next_id (d k)) now item) = [] →
  (∀ r, unique_conflict k (fresh_row k (next_id (d k)) now item) r = true → p r = true) →
  ¬ present k p d → admissible k (next_id (d k)) (fresh_row k (next_id (d k)) now item) d = true.
Proof.
  intros Hrefs Hu Hno. apply admissible_spec. split; [rewrite Hrefs; by intros ? ? ?%elem_of_nil|].
  intros j r Hj _. apply not_true_is_false. intros Hc. apply Hno. exists j, r. split; [done|by apply Hu].
Qed.

Definition role_of (item : SysRole) (r : SysRole) : bool := String.eqb (SysRole.role_code r) (SysRole.role_code item).
Definition permission_of (item r : SysPermission) : bool :=
  String.eqb (SysPermission.permission_code r) (SysPermission.permission_code item).
Definition rule_of (item r : AlertRule) : bool := String.eqb (AlertRule.rule_name r) (AlertRule.rule_name item).

(** Every item of a list has its row. *)
Definition all_present {A} (k : tname) (p : A → row k → bool) (items : list A) (d : db) : Prop :=
  Forall (λ item, present k (p item) d) items.

Lemma all_present_grown {A} k (p : A → row k → bool) items d d' k' :
  grown k' d d' → all_present k p items d → all_present k p items d'.
Proof. intros Hg H1. eapply Forall_impl; [exact H1|]. intros item. by eapply present_grown. Qed.

(** A loop that ensures one row per item. *)
Lemma wp_seed_loop {A} k (p : A → row k → bool) (f : A → M unit) items (Q : () → session → Prop) Ex s :
  (∀ item s (Q : () → session → Prop), item ∈ items → integrity (work s) →
     (∀ d' n, present k (p item) d' → grown k (work s) d' → (present k (p item) (work s) → d' = work s) →
        Q () (Session d' (durable s) n)) → wp (f item) Q Ex s) →
  integrity (work s) →
  (∀ d' n, all_present k p items d' → grown k (work s) d' → (all_present k p items (work s) → d' = work s) →
     Q () (Session d' (durable s) n)) →
  wp (for_each f items) Q Ex s.
Proof.
  intros Hf HI HQ. unfold for_each.
  apply (wp_fold_loop (λ rest _ s', ∃ past, past ++ rest = items ∧ durable s' = durable s ∧
    all_present k p past (work s') ∧ grown k (work s) (work s') ∧
    (all_present k p items (work s) → work s' = work s))).
  - exists []. split_and!; [done|done|constructor|by apply grown_refl|done].
  - intros item rest [] s' (past & Hsplit & Hd & Hpast & Hg & Hsame).
    apply Hf; [rewrite <- Hsplit; list_in|apply Hg|]. intros d' n Hp Hg' Hsame'. exists (past ++ [item]). cbn [work durable].
    split_and!; [by rewrite <- app_assoc|done| |by eapply grown_trans|].
    + apply Forall_app. split; [by eapply all_present_grown|by repeat constructor].
    + intros Hall. rewrite Hsame'; [by apply Hsame|]. rewrite Hsame by done.
      apply (proj1 (Forall_forall _ _) Hall). rewrite <- Hsplit. list_in.
  - intros [] [w du n] (past & Hsplit & Hd & Hpast & Hg & Hsame). rewrite app_nil_r in Hsplit.
    cbn [work durable] in *. subst du past. by apply HQ.
Qed.
(** The three loops. *)
Lemma wp_seed_permission item s (Q : () → session → Prop) Ex :
  SysPermission.parent_id item = None → integrity (work s) →
  (∀ i d' n, ensured TPermission (permission_of item) (work s) i d' → Q () (Session d' (durable s) n)) →
  wp (seed_permission item) Q Ex s.
Proof.
  intros Hparent HI HQ. unfold seed_permission. apply wp_bind, (wp_lookup TPermission (permission_of item)); [done|done|..].
  - intros i Hi. destruct s as [w du n]. by apply wp_ret, (HQ i).
  - intros Hno. apply wp_bind, (wp_create_missing TPermission (permission_of item)); [done|done|by intros; apply String.eqb_refl| |].
    + intros now. apply (admissible_missing TPermission (permission_of item)); [simpl; by rewrite Hparent| |done].
      intros r Hc%bool_decide_eq_true. apply String.eqb_eq. by symmetry.
    + intros i d' n Hi. by apply wp_ret, (HQ i).
Qed.

Lemma wp_seed_rule item s (Q : () → session → Prop) Ex :
  AlertRule.created_by item = None → integrity (work s) →
  (∀ i d' n, ensured TRule (rule_of item) (work s) i d' → Q () (Session d' (durable s) n)) →
  wp (seed_rule item) Q Ex s.
Proof.
  intros Hby HI HQ. unfold seed_rule. apply wp_bind, (wp_lookup TRule (rule_of item)); [done|done|..].
  - intros i Hi. destruct s as [w du n]. by apply wp_ret, (HQ i).
  - intros Hno. apply wp_bind, (wp_create_missing TRule (rule_of item)); [done|done|by intros; apply String.eqb_refl| |].
    + intros now. by apply (admissible_missing TRule (rule_of item)); [simpl; rewrite Hby| |].
    + intros i d' n Hi. by apply wp_ret, (HQ i).
Qed.

Lemma wp_seed_role created item s (Q : gmap string Z → session → Prop) Ex :
  integrity (work s) →
  (∀ i d' n, ensured TRole (role_of item) (work s) i d' →
     Q (<[SysRole.role_code item := i]> created) (Session d' (durable s) n)) →
  wp (seed_role created item) Q Ex s.
Proof.
  intros HI HQ. unfold seed_role. apply wp_bind, (wp_lookup TRole (role_of item)); [done|done|..].
  - intros i Hi. destruct s as [w du n]. by apply wp_bind, wp_ret, wp_ret, HQ.
  - intros Hno. apply wp_bind, (wp_create_missing TRole (role_of item)); [done|done|by intros; apply String.eqb_refl| |].
    + intros now. apply (admissible_missing TRole (role_of item)); [done| |done].
      intros r Hc%bool_decide_eq_true. apply String.eqb_eq. by symmetry.
    + intros i d' n Hi. by apply wp_ret, HQ.
Qed.

(** The roles found or created, by code. *)
Definition roles_map (created : gmap string Z) (items : list SysRole) (d : db) : Prop :=
  Forall (λ item, ∃ i r, created !! SysRole.role_code item = Some i ∧ roles d !! i = Some r ∧
                         role_of item r = true) items.

Lemma wp_seed_roles items (Q : gmap string Z → session → Prop) Ex s :
  integrity (work s) →
  (∀ created d' n, roles_map created items d' → grown TRole (work s) d' →
     (all_present TRole role_of items (work s) → d' = work s) → Q created (Session d' (durable s) n)) →
  wp (fold_loop seed_role ∅ items) Q Ex s.
Proof.
  intros HI HQ.
  apply (wp_fold_loop (λ rest created s', ∃ past, past ++ rest = items ∧ durable s' = durable s ∧
    roles_map created past (work s') ∧ grown TRole (work s) (work s') ∧
    (all_present TRole role_of items (work s) → work s' = work s))).
  - exists []. split_and!; [done|done|constructor|by apply grown_refl|done].
  - intros item rest created s' (past & Hsplit & Hd & Hpast & Hg & Hsame).
    apply wp_seed_role; [apply Hg|]. intros i d' n ((r & Hr & Hp) & Hg' & Hsame').
    exists (past ++ [item]). cbn [work durable].
    split_and!; [by rewrite <- app_assoc|done| |by eapply grown_trans|].
    + apply Forall_app. split; [|apply Forall_singleton; exists i, r; by rewrite lookup_insert_eq].
      eapply Forall_impl; [exact Hpast|]. intros item' (i' & r' & Hi' & Hr' & Hp').
      destruct (decide (SysRole.role_code item = SysRole.role_code item')) as [Heq|Hne].
      * exists i, r. rewrite Heq, lookup_insert_eq. split_and!; [done|done|]. unfold role_of in *. by rewrite <- Heq.
      * exists i', r'. rewrite lookup_insert_ne by done. split_and!; [done| |done].
        exact (lookup_weaken _ _ _ _ Hr' (grown_rows _ _ _ Hg')).
    + intros Hall. rewrite Hsame'; [by apply Hsame|]. rewrite Hsame by done.
      apply (proj1 (Forall_forall _ _) Hall). rewrite <- Hsplit. list_in.
  - intros created [w du n] (past & Hsplit & Hd & Hpast & Hg & Hsame). rewrite app_nil_r in Hsplit.
    cbn [work durable] in *. subst du past. by apply HQ.
Qed.

(** ** Seeding *)

Context (cfg : seed_settings).

Definition defaults_present (d : db) : Prop :=
  all_present TRole role_of DEFAULT_ROLES d ∧
  all_present TPermission permission_of DEFAULT_PERMISSIONS d ∧
  all_present TRule rule_of DEFAULT_ALERT_RULES d.

(** What seeding leaves behind, in terms of what was there. *)
Record seeded (d d' : db) : Prop := {
  seeded_defaults : defaults_present d';
  seeded_kept : ∀ k, k ∈ [TRole; TPermission; TRule; TUser] → rows (d k) ⊆ rows (d' k);
  seeded_only : only_in [TRole; TPermission; TRule; TUser; TUserRole] d d';
  (** The administrator exists and has exactly the role SYSTEM_ADMIN. *)
  seeded_admin : ∃ i u r role, account d' (SEED_ADMIN_USERNAME cfg) i u ∧
    roles d' !! r = Some role ∧ SysRole.role_code role = "SYSTEM_ADMIN" ∧
    (∀ y, role_key i d' y ↔ y = r) ∧
    ∀ j l, SysUserRole.user_id l ≠ i → links d' !! j = Some l ↔ links d !! j = Some l;
  seeded_integrity : integrity d';
  (** A second seeding has nothing to create. *)
  seeded_again : defaults_present d → (∃ i u, account d (SEED_ADMIN_USERNAME cfg) i u) → only_in [TUserRole] d d'
}.

(** The first three parts, before the administrator. *)
Lemma wp_seed_defaults s Ex (rest : gmap string Z → M ()) (R : () → session → Prop) :
  integrity (work s) →
  (∀ created r role d' n, created !! "SYSTEM_ADMIN" = Some r → roles d' !! r = Some role →
     SysRole.role_code role = "SYSTEM_ADMIN" → defaults_present d' →
     (∀ k, k ∈ [TRole; TPermission; TRule] → rows (work s k) ⊆ rows (d' k)) →
     only_in [TRole; TPermission; TRule] (work s) d' → integrity d' →
     (defaults_present (work s) → d' = work s) →
     wp (rest created) R Ex (Session d' (durable s) n)) →
  wp (created_roles ← fold_loop seed_role ∅ DEFAULT_ROLES;
      for_each seed_permission DEFAULT_PERMISSIONS;; for_each seed_rule DEFAULT_ALERT_RULES;; rest created_roles) R Ex s.
Proof.
  intros HI HQ. apply wp_bind, wp_seed_roles; [done|]. intros created d1 n1 Hmap Hg1 Hsame1.
  apply wp_bind, (wp_seed_loop TPermission permission_of); [|apply Hg1|].
  { intros item s1 Q1 Hin HI1 HQ1. apply wp_seed_permission; [|done|intros i d' n (Hx & Hy & Hz); by apply HQ1; [destruct Hx as (r & ?); exists i, r|..]].
    revert Hin. unfold DEFAULT_PERMISSIONS. rewrite !elem_of_cons, elem_of_nil. by intros [->|[->|[->|[->|[->|[]]]]]]. }
  cbn [work durable]. intros d2 n2 Hp2 Hg2 Hsame2.
  apply wp_bind, (wp_seed_loop TRule rule_of); [|apply Hg2|].
  { intros item s1 Q1 Hin HI1 HQ1. apply wp_seed_rule; [|done|intros i d' n (Hx & Hy & Hz); by apply HQ1; [destruct Hx as (r & ?); exists i, r|..]].
    revert Hin. unfold DEFAULT_ALERT_RULES. rewrite !elem_of_cons, elem_of_nil.
    by intros [->|[->|[->|[->|[->|[->|[->|[->|[->|[->|[]]]]]]]]]]]. }
  cbn [work durable]. intros d3 n3 Hp3 Hg3 Hsame3.
  assert (all_present TRole role_of DEFAULT_ROLES d1) as Hp1.
  { eapply Forall_impl; [exact Hmap|]. intros item (i & r & _ & Hr & Hp). by exists i, r. }
  pose proof Hmap as (r & role & Hr & Hrole & Hcode)%Forall_inv. apply String.eqb_eq in Hcode.
  apply (HQ created r role); [done| |done| | | |apply Hg3|].
  - rewrite (grown_only _ _ _ Hg3), (grown_only _ _ _ Hg2) by by apply only_other. exact Hrole.
  - split_and!; [by do 2 (eapply all_present_grown; [eassumption|])|by eapply all_present_grown|done].
  - intros k Hk. destruct (decide (k = TRole)) as [->|H1]; [|destruct (decide (k = TPermission)) as [->|H2]].
    + rewrite (grown_only _ _ _ Hg3), (grown_only _ _ _ Hg2) by by apply only_other. apply Hg1.
    + rewrite (grown_only _ _ _ Hg3) by by apply only_other.
      rewrite <- (grown_only _ _ _ Hg1 TPermission) by by apply only_other. apply Hg2.
    + assert (k = TRule) as -> by set_solver.
      rewrite <- (grown_only _ _ _ Hg1 TRule), <- (grown_only _ _ _ Hg2 TRule) by by apply only_other. apply Hg3.
  - intros k Hk. rewrite (grown_only _ _ _ Hg3), (grown_only _ _ _ Hg2) by set_solver. apply Hg1. set_solver.
  - intros (H1 & H2 & H3). specialize (Hsame1 H1). subst d1. specialize (Hsame2 H2). subst d2. by apply Hsame3.
Qed.

(** The administrator's name is an account's, or nobody's, deleted users
    included. *)
Definition admin_possible (d : db) : Prop :=
  name_free d (SEED_ADMIN_USERNAME cfg) ∨ ∃ i u, account d (SEED_ADMIN_USERNAME cfg) i u.

(** The administrator's part, from a database [d] in which the defaults exist. *)
Lemma wp_seed_admin d0 d k r role n (Q : () → session → Prop) (Ex : exc → session → Prop) :
  integrity d → roles d !! r = Some role → SysRole.role_code role = "SYSTEM_ADMIN" →
  ((∀ i u, ¬ account d (SEED_ADMIN_USERNAME cfg) i u) → ¬ name_free d (SEED_ADMIN_USERNAME cfg) →
   Ex IntegrityError (Session d d0 (S n))) →
  (∀ i u d' n', admin_possible d → account d' (SEED_ADMIN_USERNAME cfg) i u → users d ⊆ users d' → integrity d' →
     only_in [TUser; TUserRole] d d' →
     ((∃ i u, account d (SEED_ADMIN_USERNAME cfg) i u) → only_in [TUserRole] d d') →
     (∀ y, role_key i d' y ↔ y = r) →
     (∀ j l, SysUserRole.user_id l ≠ i → links d' !! j = Some l ↔ links d !! j = Some l) →
     Q () (Session d' d' n')) →
  wp (found ← UserRepository.get_by_username (SEED_ADMIN_USERNAME cfg);
      admin ← match found with Some admin => mret admin | None => create TUser (admin_user cfg k) end;
      UserRepository.set_roles admin [r];; commit) Q Ex (Session d d0 n).
Proof.
  intros HI Hrole Hcode Hfail HQ.
  assert (∀ i u d1 n1, admin_possible d → account d1 (SEED_ADMIN_USERNAME cfg) i u → users d ⊆ users d1 → integrity d1 →
     only_in [TUser] d d1 → ((∃ i u, account d (SEED_ADMIN_USERNAME cfg) i u) → d1 = d) →
     wp (UserRepository.set_roles i [r];; commit) Q Ex (Session d1 d0 n1)) as Hroles.
  { intros i u d1 n1 Hposs Ha Hu HI1 Ho1 Hsame. apply wp_bind, wp_set_roles; cbn [work durable ticks].
    - done.
    - exists u. apply Ha.
    - intros x ->%list_elem_of_singleton. rewrite Ho1 by by apply only_other. by exists role.
    - intros d' n' [Hl Ho HI'] Hkey. apply wp_commit. cbn [work durable ticks].
      assert (d' TUser = d1 TUser) as HU by by apply Ho, only_other.
      apply (HQ i u); [done| | |done|..].
      + destruct Ha as (Ha1 & Ha2 & Ha3). split_and!; [by rewrite HU|done|done].
      + by rewrite HU.
      + intros t Ht. rewrite Ho by set_solver. apply Ho1. set_solver.
      + intros Hx. by rewrite <- (Hsame Hx).
      + intros y. by rewrite Hkey, list_elem_of_singleton.
      + intros j l Hne. rewrite Hl by done. by rewrite Ho1 by by apply only_other. }
  apply wp_bind, wp_find_account; cbn [work].
  - intros i u Ha. apply wp_bind, wp_ret. apply (Hroles i u); [right; by exists i, u|done..].
  - intros Hno. apply wp_bind, wp_create. cbn [work ticks durable tick]. split.
    2:{ intros Hadm. apply Hfail; [intros i u Ha; by apply (Hno i u)|]. intros Hfree.
        assert (admissible TUser (next_id (d TUser)) (fresh_row TUser (next_id (d TUser)) (clock n) (admin_user cfg k)) d = true) as Ht.
        { apply (admissible_missing TUser (λ u, String.eqb (SysUser.username u) (SEED_ADMIN_USERNAME cfg))); [done| |].
          - intros u [Hu%bool_decide_eq_true|Hu]%orb_true_iff; [by apply String.eqb_eq|done].
          - intros (j & u & Hj & Hu%String.eqb_eq). by apply (Hfree j u). }
        pose proof (eq_trans (eq_sym Ht) Hadm). done. }
    intros Hadm. set (u := fresh_row TUser _ _ _) in *.
    pose proof (integrity_add_row TUser _ _ HI Hadm) as HI1. pose proof (grown_add _ _ _ HI HI1) as [Hg Ho _].
    apply (Hroles _ u); [| |exact Hg|done|exact Ho|].
    + left. intros j v Hj Hname. apply admissible_spec in Hadm as [_ Hadm].
      specialize (Hadm j v Hj (row_not_next TUser d j v HI Hj)). apply orb_false_iff in Hadm as [Hadm _].
      apply bool_decide_eq_false in Hadm. by apply Hadm.
    + split_and!; [rewrite rows_add_row; apply lookup_insert_eq|done|done].
    + intros (i & v & Ha). by destruct (Hno i v).
Qed.

Lemma wp_seed_once d k n (Q : () → session → Prop) (Ex : exc → session → Prop) :
  integrity d →
  ((∀ i u, ¬ account d (SEED_ADMIN_USERNAME cfg) i u) → ¬ name_free d (SEED_ADMIN_USERNAME cfg) →
   ∀ d' n', Ex IntegrityError (Session d' d n')) →
  (∀ d' n', admin_possible d → seeded d d' → Q () (Session d' d' n')) →
  wp (_init_seed_data_once cfg k) Q Ex (Session d d n).
Proof.
  intros HI Hfail HQ. unfold _init_seed_data_once. apply wp_seed_defaults; [done|]. cbn [work durable].
  intros created r role d1 n1 Hr Hrole Hcode Hdef Hkept Ho1 HI1 Hsame. rewrite Hr.
  assert (users d1 = users d) as Hu1 by by rewrite Ho1 by set_solver.
  assert (∀ i u, account d1 (SEED_ADMIN_USERNAME cfg) i u ↔ account d (SEED_ADMIN_USERNAME cfg) i u) as Hacc.
  { intros i u. unfold account. by rewrite Hu1. }
  apply (wp_seed_admin d d1 k r role); [done..| |].
  - intros Hno Hname. apply Hfail; [intros i u Ha%Hacc; by apply (Hno i u)|].
    intros Hx. apply Hname. unfold name_free. by rewrite Hu1.
  - intros i u d2 n2 Hposs Ha Hu HI2 Ho2 Hagain Hkey Hlinks. apply HQ.
    { destruct Hposs as [Hf|(j & v & Hj%Hacc)]; [left; unfold name_free; by rewrite <- Hu1|right; by exists j, v]. }
    assert (∀ t, t ∈ [TRole; TPermission; TRule] → d2 t = d1 t) as Hback.
    { intros t Ht. apply Ho2. set_solver. }
    split; [..|exact HI2|].
    + destruct Hdef as (H1 & H2 & H3). unfold defaults_present, all_present, present.
      rewrite !Hback by set_solver. done.
    + intros t Ht. destruct (decide (t = TUser)) as [->|Hne]; [by rewrite <- Hu1|].
      rewrite Hback by set_solver. apply Hkept. set_solver.
    + intros t Ht. rewrite Ho2 by set_solver. apply Ho1. set_solver.
    + exists i, u, r, role. split_and!; [done|by rewrite Hback by list_in|done|done|].
      intros j l Hne. rewrite Hlinks by done. by rewrite Ho1 by set_solver.
    + intros Hd (i' & u' & Ha'). specialize (Hsame Hd). subst d1. apply Hagain. by exists i', u'.
Qed.

(** The attempts go on until the database answers. *)
Lemma seed_attempts_reach (up : nat → bool) (a left attempt k n n' : nat) (d d' : db) :
  run (_init_seed_data_once cfg k) d n = (Ok (), d', n') → up a = true → (attempt ≤ a < attempt + left)%nat →
  seed_attempts cfg up left attempt k d n = (Seeded, d', n').
Proof.
  intros Hrun Hup. revert attempt. induction left as [|left IH]; intros attempt Hat; [lia|]. simpl.
  destruct (up attempt) eqn:Hup'; [by rewrite Hrun|].
  assert (attempt ≠ a) by congruence. destruct left as [|left]; [lia|]. apply IH. lia.
Qed.

Lemma seed_runs (up : nat → bool) (tries : nat) (d : db) (k n : nat) :
  integrity d → admin_possible d → (∃ a, (1 ≤ a ≤ tries)%nat ∧ up a = true) →
  ∃ d' n', init_seed_data cfg up tries k d n = (Seeded, d', n') ∧ seeded d d'.
Proof.
  intros HI Hadmin (a & Ha & Hup).
  destruct (run_total (_init_seed_data_once cfg k) (λ _ s', seeded d (durable s')) d n) as ([] & s' & Hrun & Hs).
  { apply wp_seed_once; [done| |done]. intros Hno Hname. exfalso.
    destruct Hadmin as [Hf|(i & u & Hu)]; [done|by apply (Hno i u)]. }
  exists (durable s'), (ticks s'). split; [|done]. apply (seed_attempts_reach up a); [done|done|lia].
Qed.

(** C31: seeding a database in which no deleted user holds the administrator's
    name succeeds as soon as the database answers: the defaults and the
    administrator are there, nothing of the seeded tables is lost or changed,
    and the administrator has exactly the role SYSTEM_ADMIN, whatever roles it
    had.  Seeding again changes nothing but the rows of that assignment. *)
Theorem seed_idempotent (up : nat → bool) (tries : nat) (d : db) (k n : nat) :
  integrity d → admin_possible d →
  (∃ a, (1 ≤ a ≤ tries)%nat ∧ up a = true) →
  ∃ d' n', init_seed_data cfg up tries k d n = (Seeded, d', n') ∧ seeded d d' ∧
    ∀ up' tries' k' m, (∃ a, (1 ≤ a ≤ tries')%nat ∧ up' a = true) →
      ∃ d'' n'', init_seed_data cfg up' tries' k' d' m = (Seeded, d'', n'') ∧
        seeded d' d'' ∧ only_in [TUserRole] d' d''.
Proof.
  intros HI Hadmin Hup.
  destruct (seed_runs up tries d k n HI Hadmin Hup) as (d' & n' & Hd' & Hs'). exists d', n'.
  split_and!; [done|done|]. intros up' tries' k' m Hup'.
  destruct (seeded_admin _ _ Hs') as (i & u & r & role & Hacc & _).
  destruct (seed_runs up' tries' d' k' m (seeded_integrity _ _ Hs') (or_intror (ex_intro _ i (ex_intro _ u Hacc))) Hup')
    as (d'' & n'' & Hd'' & Hs''). exists d'', n''. split_and!; [done|done|].
  apply (seeded_again _ _ Hs''); [apply Hs'|]. by exists i, u.
Qed.

(** Once the administrator is deleted, the application cannot start any more:
    its name is taken by the deleted row, which seeding does not find. *)
Lemma seed_after_delete (up : nat → bool) (tries : nat) (d : db) (k n : nat) :
  integrity d → (∀ i u, ¬ account d (SEED_ADMIN_USERNAME cfg) i u) → ¬ name_free d (SEED_ADMIN_USERNAME cfg) →
  up 1%nat = true → (1 ≤ tries)%nat →
  ∃ n', init_seed_data cfg up tries k d n = (SeedFailed IntegrityError, d, n').
Proof.
  intros HI Hno Hname Hup Ht. destruct tries as [|tries]; [lia|]. unfold init_seed_data. simpl. rewrite Hup.
  assert (wp (_init_seed_data_once cfg k) (λ _ _, False) (λ e s', e = IntegrityError ∧ durable s' = d) (Session d d n)) as Hwp.
  { apply wp_seed_once; [done|done|]. intros d' n' [Hf|(i & u & Hu)] _; [done|by destruct (Hno i u)]. }
  unfold wp, run in *. destruct (_init_seed_data_once cfg k (Session d d n)) as [[[]|e] s']; [done|].
  destruct Hwp as [-> <-]. by exists (ticks s').
Qed.
End Props.

(** ** An instance

    The sample database has an account "admin"; the database answers at the
    third attempt. *)
Definition toy_seed_settings : seed_settings := SeedSettings "admin" "admin123456".

Lemma seed_idempotent_witness :
  ∃ d' n', init_seed_data toy_seed_settings (λ a, (a =? 3)%nat) 10 0 user_db 50 = (Seeded, d', n') ∧
    seeded toy_seed_settings user_db d' ∧
    ∃ d'' n'', init_seed_data toy_seed_settings (λ a, (a =? 1)%nat) 10 1 d' n' = (Seeded, d'', n'') ∧
      only_in [TUserRole] d' d''.
Proof.
  assert (admin_possible toy_seed_settings user_db) as Ha.
  { right. destruct (users user_db !! 1) as [u|] eqn:Hu; [|vm_compute in Hu; discriminate].
    exists 1, u. split; [exact Hu|]. vm_compute in Hu. injection Hu as <-. split; reflexivity. }
  destruct (seed_idempotent toy_seed_settings (λ a, (a =? 3)%nat) 10 user_db 0 50 user_integrity Ha
    ltac:(exists 3%nat; split; [lia|reflexivity])) as (d' & n' & Hrun & Hs & Hagain).
  exists d', n'. split; [exact Hrun|]. split; [exact Hs|].
  destruct (Hagain (λ a, (a =? 1)%nat) 10%nat 1%nat n' ltac:(exists 1%nat; split; [lia|reflexivity]))
    as (d'' & n'' & Hrun' & _ & Ho). exists d'', n''. split; [exact Hrun'|exact Ho].
Defined.
