(* ===== verification/System.v ===== *)
(** * The whole server as a transition system

    Every way in which the running program changes its database: requests of
    users through the middleware, requests of agents, the registration of an
    agent, background jobs and the seeding at start-up.  One step of it is
    simulated by steps of the task service ([TaskSafety.step]) and of the
    alert subsystem ([AlertSystem.alert_step]). *)
From Stdlib Require Import QArith.
From S2P Require Import Prelude.
From S2P Require Export Confined TaskSafety AlertSystem Scheduler Seed UserOps.
From S2P Require Export Discovery Routes.

(** The routes a user can call. *)
Inductive user_call :=
  | AuthMe
  | AuthLogin (username password : string)
  | ListAlerts (page_num page_size : Z) (status severity : option string) (server_id : option Z) (active : option bool)
  | ListRules
  | GetEvent (event_id : Z)
  | AckEvent (event_id : Z)
  | ResolveEvent (event_id : Z)
  | PostRule (data : RuleCreate)
  | PutRule (rule_id : Z) (data : RuleUpdate)
  | DropRule (rule_id : Z)
  | ListTasks (page_num page_size : Z) (status task_type : option string)
  | PostTask (data : TaskCreate) (idempotency_key : option string)
  | GetTask (task_id : Z)
  | PostConfirm (task_id : Z)
  | PostCancel (task_id : Z)
  | PostServer (data : ServerCreate)
  | ListServers (page_num page_size : Z) (agent_status : option string)
  | GetServer (server_id : Z)
  | PostAgentToken (server_id : Z) (token_name : option string) (n : nat)
  | ListServices (server_id : Z)
  | PutWhitelist (server_id service_id is_whitelisted : Z)
  | ListUsers (page_num page_size : Z) (username status : option string)
  | PostUser (data : UserCreate) (n : nat)
  | GetUser (user_id : Z)
  | PutUser (user_id : Z) (data : UserUpdate) (n : nat)
  | DropUser (user_id : Z)
  | ListRoles
  | GetLatest (server_id : Z)
  | GetHistory (server_id : Z) (start stop : datetime) (page_num page_size : Z)
  | GetSummary (server_id : Z) (time_range : string)
  | GetAssets (server_id : Z)
  | GetOverview
  | GetDiscoveryConfig (cfg : discovery_settings)
  | ScanNetwork (cfg : discovery_settings) (cidr : string) (port : option Z)
  | GetMetrics (settings : metrics_settings) (g : gauges).

(** Who may call a route: anybody, every active user, or the users with one of
    some roles. *)
Inductive access := Public | Authenticated | Roles (role_codes : list string).

Definition access_of (c : user_call) : access :=
  match c with
  | AuthLogin _ _ | GetMetrics _ _ => Public
  | AuthMe | ListAlerts _ _ _ _ _ _ | ListRules | GetEvent _ | ListServices _ | GetLatest _ | GetHistory _ _ _ _ _
  | GetSummary _ _ | GetAssets _ | GetOverview => Authenticated
  | AckEvent _ | ResolveEvent _ | ListTasks _ _ _ _ | PostTask _ _ | GetTask _ | PostConfirm _ | PostCancel _ =>
    Roles ["SYSTEM_ADMIN"; "OPS_ENGINEER"]
  | PostRule _ | PutRule _ _ | DropRule _ | PostServer _ | ListServers _ _ _ | GetServer _ | PostAgentToken _ _ _
  | PutWhitelist _ _ _ | ListUsers _ _ _ _ | PostUser _ _ | GetUser _ | PutUser _ _ _ | DropUser _ | ListRoles
  | GetDiscoveryConfig _ | ScanNetwork _ _ _ =>
    Roles ["SYSTEM_ADMIN"]
  end.

(** The routes an authenticated agent can call. *)
Inductive agent_call :=
  | Heartbeat (data : HeartbeatRequest)
  | IngestMetrics (data : MetricsRequest)
  | SyncAssets (data : AssetsRequest)
  | SyncServices (data : ServicesRequest)
  | FetchTasks
  | ReportTask (data : TaskResultRequest).

(** The result of a computation is dropped. *)
Definition ignore {A} (m : M A) : M unit := _ ← m; mret ().

Section System.
Context `{E : Env} `{!EnvOk E} `{!Passwords} `{!Jwt} `{!OAuth2} `{!Secrets} `{!Cron} `{!Ed25519} `{!Sockets} `{R : Redis}.
Context (jwt : jwt_settings) (signing : settings) (jobs : job_settings) (seeds : seed_settings).

Definition run_call (c : user_call) (req : incoming) (ctx : context) : M unit :=
  match c with
  | AuthMe => ignore (auth_me jwt req)
  | AuthLogin username password => ignore (auth_login jwt req ctx username password)
  | ListAlerts page_num page_size status severity server active =>
    ignore (list_alerts jwt req page_num page_size status severity server active)
  | ListRules => ignore (list_rules jwt req)
  | GetEvent event => ignore (get_event jwt req event)
  | AckEvent event => ignore (acknowledge jwt req event)
  | ResolveEvent event => ignore (resolve jwt req event)
  | PostRule data => ignore (create_rule jwt req data)
  | PutRule rule data => ignore (update_rule jwt req rule data)
  | DropRule rule => delete_rule jwt req rule
  | ListTasks page_num page_size status task_type => ignore (list_tasks jwt req page_num page_size status task_type)
  | PostTask data key => ignore (create_task jwt req data key)
  | GetTask task => ignore (get_task jwt req task)
  | PostConfirm task => ignore (confirm_task jwt req task)
  | PostCancel task => ignore (cancel_task jwt req task)
  | PostServer data => ignore (create_server jwt req data)
  | ListServers page_num page_size agent_status => ignore (list_servers jwt req page_num page_size agent_status)
  | GetServer server => ignore (get_server jwt req server)
  | PostAgentToken server token_name n => ignore (generate_agent_token jwt req server token_name n)
  | ListServices server => ignore (list_services jwt req server)
  | PutWhitelist server service is_whitelisted =>
    ignore (update_service_whitelist jwt req server service is_whitelisted)
  | ListUsers page_num page_size username status => ignore (list_users jwt req page_num page_size username status)
  | PostUser data n => ignore (create_user jwt req data n)
  | GetUser user => ignore (get_user jwt req user)
  | PutUser user data n => ignore (update_user jwt req user data n)
  | DropUser user => delete_user jwt req user
  | ListRoles => ignore (list_roles jwt req)
  | GetLatest server => ignore (get_latest jwt req server)
  | GetHistory server from to page_num page_size =>
    ignore (get_history jwt req server from to page_num page_size)
  | GetSummary server time_range => ignore (get_summary jwt req server time_range)
  | GetAssets server => ignore (get_assets jwt req server)
  | GetOverview => ignore (dashboard_overview jwt req)
  | GetDiscoveryConfig cfg => ignore (get_discovery_config jwt cfg req)
  | ScanNetwork cfg cidr port => ignore (scan_network jwt cfg req cidr port)
  | GetMetrics settings g => ignore (metrics settings req g)
  end.

Definition run_agent (c : agent_call) (req : incoming) (server : Z) : M unit :=
  match c with
  | Heartbeat data => ignore (heartbeat req data server)
  | IngestMetrics data => ignore (ingest_metrics data server)
  | SyncAssets data => ignore (sync_assets data server)
  | SyncServices data => ignore (sync_services data server)
  | FetchTasks => ignore (fetch_pending_tasks server)
  | ReportTask data => ignore (report_task_result data server)
  end.

(** The durable database after an agent's request. *)
Definition after_request {A} (m : session → rstate * outcome A * session) (d : db) (n : nat) : db :=
  durable (m (Session d d n)).2.

(** The outside of a request: the settings of the operation log, the generated
    request id, the texts of exceptions, the status of the route on success
    and the time it took. *)
Record surroundings := Surroundings {
  log_enabled : bool; uuid : string; exc_text : exc → string; ok_status : Z; duration_ms : Z
}.

Definition after_call (w : surroundings) (c : user_call) (req : incoming) (d : db) (n : nat) : db :=
  (serve jwt (uuid w) (exc_text w) (log_enabled w) req (ok_status w) (duration_ms w)
     (run_call c req) d n).1.2.

(** Agents' paths are outside the operation log. *)
Inductive system_step : db → db → Prop :=
  | step_user w c req d n : system_step d (after_call w c req d n)
  | step_agent c req bytes h o d n :
      system_step d (after_request (with_server signing req bytes h o (run_agent c req)) d n)
  | step_rotate key req bytes h o d n :
      system_step d (after_request (with_token signing req bytes h o (rotate_signing_key key)) d n)
  | step_register req data d n : system_step d (run (register req data) d n).1.2
  | step_job j d n : j ∈ job_table jobs → system_step d (run_job (Scheduler.body j) d n).1
  | step_seed up max_attempts salt d n : system_step d (init_seed_data seeds up max_attempts salt d n).1.2.

(** The databases the program reaches from the empty one. *)
Definition system_reachable (d : db) : Prop := rtc system_step empty_db d.
End System.
