(* ===== verification/SystemSim.v ===== *)
(** * The simulation of the whole server

    Every step of the program keeps the constraints of the schema, and is a
    sequence of steps of the task service and a sequence of steps of the alert
    subsystem.  A route is quiet up to the service it calls; what that does is
    a step of the component it belongs to, and for the other component a change
    of foreign tables. *)
From Stdlib Require Import QArith.
From S2P Require Import Prelude.
From S2P Require Export System UserProps Routes.

(** ** Simulation *)

(** A computation that neither writes nor commits anything. *)
Abbreviation Quiet m := (∀ d, Preserves (eq d) m).

Lemma id_set_duration now e : OpsTaskExecution.id (set_duration now e) = OpsTaskExecution.id e.
Proof. unfold set_duration. by case_match. Qed.
#[export] Hint Rewrite id_set_duration : row_ids.

Lemma not_listed (p : tname → bool) ks k : forallb (λ k, negb (p k)) ks = true → p k = true → k ∉ ks.
Proof.
  intros Hks Hk Hin. rewrite forallb_forall in Hks. specialize (Hks k). rewrite Hk in Hks.
  by discriminate Hks; apply list_elem_of_In.
Qed.

(** Tables of neither component. *)
Definition side_table (k : tname) : bool := negb (task_table k) && negb (alert_table k).

Section Simulation.
Context `{E : Env} `{!EnvOk E} `{!Cron}.

Definition simulated (d d' : db) : Prop := (integrity d' ∧ keyed d') ∧ rtc step d d' ∧ rtc alert_step d d'.

Definition SimAt {A} (d : db) (m : M A) : Prop := integrity d → keyed d → ∀ n, simulated d (run m d n).1.2.
Definition Simulated {A} (m : M A) : Prop := ∀ d, SimAt d m.

Lemma simulated_refl d : integrity d → keyed d → simulated d d.
Proof. intros. split_and!; [done|done|apply rtc_refl|apply rtc_refl]. Qed.

Lemma simulated_trans d d1 d2 : simulated d d1 → simulated d1 d2 → simulated d d2.
Proof. intros (_ & H1 & H2) (H3 & H4 & H5). split_and!; [apply H3..| |]; by etransitivity. Qed.

(** ** Quiet computations *)

Lemma quiet_session {A} (m : M A) d n : Quiet m → (m (Session d d n)).2 = Session d d (ticks (m (Session d d n)).2).
Proof. intros Hm. destruct (Hm d (Session d d n)) as [Hw Hd]; [done|]. destruct (m _) as [o [w du t]]. simpl in *. congruence. Qed.

Lemma quiet_run {A} (m : M A) d n : Quiet m → (run m d n).1.2 = d.
Proof. intros Hm. pose proof (quiet_session m d n Hm) as Hs. unfold run. destruct (m _) as [o s']. simpl in *. by rewrite Hs. Qed.

Lemma sim_quiet {A} (m : M A) : Quiet m → Simulated m.
Proof. intros Hm d HI HK n. rewrite quiet_run by done. by apply simulated_refl. Qed.

(** A quiet prefix that establishes [P]. *)
Lemma sim_bind_post {A B} (P : db → A → Prop) (m : M A) (f : A → M B) d :
  Quiet m → (integrity d → keyed d → ∀ n, wp m (λ a _, P d a) any_exc (Session d d n)) →
  (∀ a, P d a → SimAt d (f a)) → SimAt d (m ≫= f).
Proof.
  intros Hm Hp Hf HI HK n. specialize (Hp HI HK n). pose proof (quiet_session m d n Hm) as Hs.
  unfold run, wp, mbind, M_bind in *. destruct (m _) as [[a|e] s']; simpl in *; rewrite Hs.
  - by apply (Hf a Hp HI HK).
  - by apply simulated_refl.
Qed.

Lemma sim_bind {A B} (m : M A) (f : A → M B) : Quiet m → (∀ a, Simulated (f a)) → Simulated (m ≫= f).
Proof.
  intros Hm Hf d. apply (sim_bind_post (λ _ _, True)); [done| |by intros a _; apply Hf].
  intros _ _ n. unfold wp. by destruct (m _) as [[]].
Qed.

Lemma sim_validate {B} (b : bool) (f : () → M B) d : (b = true → SimAt d (f ())) → SimAt d (validate b ≫= f).
Proof.
  intros Hf. apply (sim_bind_post (λ _ _, b = true)); [destruct b; apply _| |by intros []].
  intros _ _ n. unfold validate. by destruct b.
Qed.

(** Dropping the result drops nothing else. *)
Lemma run_ignore {A} (m : M A) d n : (run (ignore m) d n).1.2 = (run m d n).1.2.
Proof. unfold run, ignore, mbind, M_bind. by destruct (m _) as [[a|e] s']. Qed.

Lemma sim_ignore {A} (m : M A) : Simulated m → Simulated (ignore m).
Proof. intros Hm d HI HK n. rewrite run_ignore. by apply Hm. Qed.

(** ** The three kinds of writers *)

Lemma sim_side ks {A} (m : M A) :
  forallb side_table ks = true → Sound m → Confined ks m → Simulated m.
Proof.
  intros Hks Hs Hc d HI HK n. pose proof (run_preserves integrity m d n Hs HI) as HI'.
  destruct (run_confined ks m d n Hc HK) as [HK' Ho].
  assert (∀ k, side_table k = false → (run m d n).1.2 k = d k) as Hk.
  { intros k Hk. apply Ho. intros Hin. rewrite forallb_forall in Hks.
    rewrite (Hks k) in Hk by (by apply list_elem_of_In). done. }
  split_and!; [done|done|apply rtc_once, step_other|apply rtc_once, alert_step_other]; [done| |done| |].
  - intros k Ht. apply Hk. unfold side_table. by rewrite Ht.
  - intros k Ha. apply Hk. unfold side_table. rewrite Ha. apply andb_false_r.
  - intros i s. apply (HK' TServer).
Qed.

Lemma sim_task (op : task_op) {A} (m : M A) :
  op_valid op = true → (∀ d n, (run m d n).1.2 = after op d n) → Simulated m.
Proof.
  intros Hv Hm d HI HK n. rewrite Hm. unfold after.
  assert (Sound (run_op op)) as Hs by (destruct op; apply _).
  assert (Confined [TTask; TTarget; TExec; TTaskLog] (run_op op)) as Hc by (destruct op; apply _).
  pose proof (run_preserves integrity _ d n Hs HI) as HI'. destruct (run_confined _ _ d n Hc HK) as [HK' Ho].
  split_and!; [done|done|by apply rtc_once, step_op|apply rtc_once, alert_step_other; [done| |]].
  - intros k Ha. apply Ho. by apply (not_listed alert_table).
  - intros i s. apply (HK' TServer).
Qed.

Lemma sim_alert (op : alert_op) {A} (m : M A) d :
  alert_op_ok d op → (∀ n, (run m d n).1.2 = alert_after op d n) → SimAt d m.
Proof.
  intros Hop Hm HI HK n. rewrite Hm. unfold alert_after.
  assert (Sound (run_alert op)) as Hs by (destruct op; apply _).
  assert (Confined [TRule; TEvent; TEventLog] (run_alert op)) as Hc by (destruct op; apply _).
  pose proof (run_preserves integrity _ d n Hs HI) as HI'. destruct (run_confined _ _ d n Hc HK) as [HK' Ho].
  split_and!; [done|done|apply rtc_once, step_other; [done|]|by apply rtc_once, alert_step_op].
  intros k Ht. apply Ho. by apply (not_listed task_table).
Qed.

(** ** Seeding

    It writes within one session to tables of several components: every single
    write is simulated. *)

Lemma simulated_write k d0 d d' :
  side_table k = true → simulated d0 d → integrity d' → keyed d' → (∀ k', k ≠ k' → d' k' = d k') → simulated d0 d'.
Proof.
  intros [Ht Ha]%andb_true_iff Hs HI HK Ho. eapply simulated_trans; [exact Hs|]. split_and!; [done|done|..].
  - apply rtc_once, step_other; [done|]. intros k' Hk'. apply Ho. intros ->. by rewrite Hk' in Ht.
  - apply rtc_once, alert_step_other; [done| |intros i s; apply (HK TServer)].
    intros k' Hk'. apply Ho. intros ->. by rewrite Hk' in Ha.
Qed.

Lemma simulated_create k r d0 : side_table k = true → Preserves (simulated d0) (create k r).
Proof.
  intros Hk. apply preserves_create. intros d now Hs r' Ha. pose proof Hs as [[HI HK] _].
  apply (simulated_write k d0 d); [done..|by apply integrity_add_row| |by intros; apply add_row_ne].
  apply keyed_add_row; [done|apply row_id_fresh].
Qed.

Lemma simulated_delete_where k p d0 : side_table k = true → Preserves (simulated d0) (delete_where k p).
Proof.
  intros Hk. apply preserves_delete_where. intros d Hs He. pose proof Hs as [[HI HK] _].
  apply (simulated_write k d0 d); [done..| |by apply keyed_filter_rows|by intros; apply filter_rows_ne].
  apply integrity_filter_rows; [done|]. intros i r Hr Hi%negb_false_iff.
  apply (existsb_referenced _ _ _ _ He), elem_of_matching. by exists r.
Qed.

(** A rule is seeded the way it is created. *)
Lemma seed_rule_create (item : AlertRule) (data : RuleCreate) s :
  new_rule data None = item → RuleCreate.rule_name data = AlertRule.rule_name item →
  ∃ n, (seed_rule item s).2 = Session (work s) (durable s) n ∨
       (seed_rule item s).2 = Session (alert_after (CreateRule data None) (work s) (ticks s)) (durable s) n.
Proof.
  intros <- Hname. unfold alert_after, run, run_alert, AlertService.create_rule, seed_rule, AlertRuleRepository.get_by_name,
    get_by, select_where, create, utcnow, get_work, write, raise, commit, app_error, mret, M_ret, mbind, M_bind.
  rewrite Hname. cbn [work durable ticks tick set_work].
  destruct (head _) as [i|]; [by exists (ticks s); left; destruct s|].
  destruct (admissible _ _ _ _); [|by exists (S (ticks s)); left].
  exists (S (ticks s)). by right.
Qed.
End Simulation.

#[export] Hint Extern 1 (Preserves (simulated _) (create _ _)) =>
  apply simulated_create; reflexivity : typeclass_instances.
#[export] Hint Extern 1 (Preserves (simulated _) (delete_where _ _)) =>
  apply simulated_delete_where; reflexivity : typeclass_instances.

(** ** Every step is simulated *)

Section Props.
Context `{E : Env} `{!EnvOk E} `{!Passwords} `{!Jwt} `{!OAuth2} `{!Secrets} `{!Cron} `{!Ed25519} `{!Sockets} `{R : Redis}.
Context (jwt : jwt_settings) (signing : settings) (jobs : job_settings) (seeds : seed_settings).

(** ** Seeds *)

Lemma seed_rule_simulated item d0 : item ∈ DEFAULT_ALERT_RULES → Preserves (simulated d0) (seed_rule item).
Proof.
  intros Hin.
  assert (∃ data, new_rule data None = item ∧ RuleCreate.rule_name data = AlertRule.rule_name item) as (data & Hnew & Hname).
  { exists (RuleCreate.Mk (AlertRule.rule_name item) (AlertRule.metric_type item) (AlertRule.severity item)
      (AlertRule.operator item) (AlertRule.threshold item) (AlertRule.duration_seconds item) None 1 None).
    split; [|done]. revert item Hin. apply Forall_forall. by repeat constructor. }
  intros s [Hw Hd]. destruct (seed_rule_create item data s Hnew Hname) as [n [->| ->]]; [done|]. split; [|done].
  cbn [work]. eapply simulated_trans; [exact Hw|].
  apply (sim_alert (CreateRule data None) (run_alert (CreateRule data None))); [done|done|apply Hw..].
Qed.

Lemma seed_once_simulated salt d0 : Preserves (simulated d0) (_init_seed_data_once seeds salt).
Proof.
  unfold _init_seed_data_once. apply preserves_bind; [apply _|]. intros created.
  apply preserves_bind; [apply _|]. intros _. apply preserves_bind.
  - apply preserves_for_each_in. intros item. apply seed_rule_simulated.
  - intros _. apply _.
Qed.

Lemma seed_simulated up max_attempts salt d n :
  integrity d → keyed d → simulated d (init_seed_data seeds up max_attempts salt d n).1.2.
Proof.
  intros HI HK. unfold init_seed_data. generalize 1%nat. induction max_attempts as [|left IH]; intros attempt; simpl.
  { by apply simulated_refl. }
  pose proof (run_preserves (simulated d) (_init_seed_data_once seeds salt) d n (seed_once_simulated salt d)
    (simulated_refl d HI HK)) as Hrun.
  destruct (up attempt).
  - by destruct (run _ d n) as [[[[]|e] d'] n'].
  - destruct left; [by apply simulated_refl|apply IH].
Qed.

(** ** Jobs *)

Lemma sim_when (b : bool) (m : M unit) : Simulated m → Simulated (when b m).
Proof. intros Hm. destruct b; [done|]. apply sim_quiet. unfold when. apply _. Qed.

Lemma job_simulated j d n :
  j ∈ job_table jobs → integrity d → keyed d → simulated d (run_job (Scheduler.body j) d n).1.
Proof.
  intros Hj HI HK. assert (Simulated (Scheduler.body j)) as Hs.
  { unfold job_table in Hj. repeat (apply elem_of_cons in Hj as [->|Hj]; [simpl|]); [..|by apply elem_of_nil in Hj].
    - apply (sim_side [TServer]); [done|apply _..].
    - apply (sim_side [TMetric; TMetricDaily]); [done|apply _..].
    - apply sim_when, (sim_task (CleanupHistory (TASK_RETENTION_DAYS jobs))); done.
    - intros d'. by apply (sim_alert EvaluateAll).
    - by apply (sim_task ScanTimeouts).
    - by apply (sim_task (DispatchRetries 50)).
    - by apply (sim_task FireDueCron). }
  specialize (Hs d HI HK n). unfold run_job. by destruct (run (Scheduler.body j) d n) as [[o d'] n'].
Qed.

(** ** Requests of users *)

(** [require_roles] returns a user of the database. *)
Lemma wp_require codes req d n :
  integrity d → keyed d →
  wp (require jwt codes req) (λ i s', durable s' = d ∧ ∃ token u, oauth2_scheme (authorization req) = Some token ∧
      token_user jwt (clock n) token = Some i ∧ users d !! i = Some u ∧ usable u = true ∧ has_role d i codes)
    (λ e s', durable s' = d ∧ refusal e) (Session d d n).
Proof.
  intros HI HK. unfold require, bearer. apply wp_bind. destruct (oauth2_scheme _) as [token|]; [|by apply wp_raise; split; [|left]].
  apply wp_ret. eapply wp_mono; [by apply wp_require_roles| |by intros ? ? (? & ? & ?)].
  intros i s' (Hd & (u & Ht & Hu & Hus)%current_user_iff & Hr). split; [done|]. by exists token, u.
Qed.

(** A route that acts as its user, whose key it passes on. *)
Lemma sim_operator {B} codes req (f : SysUser → M B) :
  (∀ u d, operator_ok d (Some (SysUser.id u)) → SimAt d (f u)) →
  Simulated (i ← require jwt codes req; u ← obj TUser i; f u).
Proof.
  intros Hf d. apply (sim_bind_post (λ d i, is_Some (users d !! i))); [apply _| |].
  { intros HI HK n. eapply wp_mono; [by apply wp_require| |done]. intros i s' (_ & token & u & _ & _ & Hu & _). by exists u. }
  intros i Hi. apply (sim_bind_post (λ d u, operator_ok d (Some (SysUser.id u)))); [apply _| |by intros; apply Hf].
  intros _ HK n. destruct Hi as [u Hu]. apply (wp_obj_ok TUser i u); [done|]. intros x [= <-].
  pose proof (HK TUser i u Hu) as Hid. simpl in Hid. rewrite Hid. by exists u.
Qed.

Lemma after_ignore (op : task_op) {A} (m : M A) :
  run_op op = ignore m → ∀ d n, (run m d n).1.2 = after op d n.
Proof. intros Hop d n. unfold after. by rewrite Hop, run_ignore. Qed.

Lemma alert_after_ignore (op : alert_op) {A} (m : M A) :
  run_alert op = ignore m → ∀ d n, (run m d n).1.2 = alert_after op d n.
Proof. intros Hop d n. unfold alert_after. by rewrite Hop, run_ignore. Qed.

Ltac quiet_route := apply sim_quiet; apply _.
Ltac guarded := apply sim_bind; [apply _|intros ?].
Ltac checked := intros ?; apply sim_validate; intros ?.

(** The users' routes by what they write. *)
Lemma call_simulated c req ctx : Simulated (run_call jwt c req ctx).
Proof.
  destruct c; simpl; try quiet_route; try apply sim_ignore.
  - apply (sim_side [TUser; TLoginLog]); [done|apply _..].
  - apply sim_operator. intros u d Hu. apply (sim_alert (Acknowledge event_id (Some (SysUser.id u)))); [done|].
    by apply alert_after_ignore.
  - apply sim_operator. intros u d Hu. apply (sim_alert (Resolve event_id (Some (SysUser.id u)))); [done|].
    by apply alert_after_ignore.
  - guarded. intros d. apply sim_validate. intros _. revert d. apply sim_bind; [apply _|]. intros u d.
    apply (sim_alert (CreateRule data (Some (SysUser.id u)))); [done|]. by apply alert_after_ignore.
  - guarded. intros d. apply sim_validate. intros _. apply (sim_alert (UpdateRule rule_id data)); [done|].
    by apply alert_after_ignore.
  - guarded. intros d. by apply (sim_alert (DeleteRule rule_id)).
  - guarded. intros d. apply sim_validate. intros [Hv _]%andb_true_iff. revert d. apply sim_bind; [apply _|].
    intros u. apply (sim_task (CreateTask data (SysUser.id u) idempotency_key)); [done|]. by apply after_ignore.
  - guarded. apply sim_bind; [apply _|]. intros u.
    apply (sim_task (ConfirmTask task_id (SysUser.id u))); [done|]. by apply after_ignore.
  - guarded. apply (sim_task (CancelTask task_id)); [done|]. by apply after_ignore.
  - apply (sim_side [TServer]); [done|apply _..].
  - apply (sim_side [TToken]); [done|apply _..].
  - apply (sim_side [TService]); [done|apply _..].
  - apply (sim_side [TUser; TUserRole]); [done|apply _..].
  - apply (sim_side [TUser; TUserRole]); [done|apply _..].
  - apply (sim_side [TUser; TUserRole]); [done|apply _..].
Qed.

Lemma user_simulated w c req d n :
  integrity d → keyed d → simulated d (after_call jwt w c req d n).
Proof.
  intros HI HK. unfold after_call, serve. destruct (run (request_context _ _ _) d n) as [[[ctx|e] d0] n1];
    [|by apply simulated_refl]. unfold dispatch.
  pose proof (call_simulated c req ctx d HI HK n1) as Hs.
  destruct (run (run_call jwt c req ctx) d n1) as [[o d1] n2]. simpl in Hs.
  destruct (_ || _); [done|]. destruct (log_status _ _ _) as [status text].
  pose proof (sim_side [TOperationLog] (_write_log req ctx status (duration_ms w) text) eq_refl _ _ d1) as Hlog.
  destruct Hs as [[HI1 HK1] Hs]. specialize (Hlog HI1 HK1 n2). destruct (run _ d1 n2) as [[o' d2] n3].
  by apply (simulated_trans d d1 d2).
Qed.

(** ** Requests of agents *)

Lemma resolve_session req token h o d n :
  (_resolve_agent signing req token h o (Session d d n)).2 =
  Session d d (ticks (_resolve_agent signing req token h o (Session d d n)).2).
Proof.
  unfold _resolve_agent. pose proof (quiet_session (find_agent token) d n _) as Hs.
  destruct (find_agent token _) as [[[t sv]|e] s']; simpl in Hs; [|done].
  destruct (rows (work s' TToken) !! t), (rows (work s' TServer) !! sv); simpl; try done.
  destruct (_verify_agent_signature _ _ _ _ _ _) as [c [[]|e]]; done.
Qed.

(** A route behind an agent dependency that leaves the session alone. *)
Lemma after_agent_simulated {A} dependency req bytes h o (route : Z → M A) d n :
  (∀ rq token, (dependency rq token h o (Session d d n)).2 = Session d d (ticks (dependency rq token h o (Session d d n)).2)) →
  (∀ i, Simulated (route i)) → integrity d → keyed d →
  simulated d (after_request (after_agent dependency req bytes h o route) d n).
Proof.
  intros Hdep Hroute HI HK. unfold after_request, after_agent.
  destruct (oauth2_scheme _) as [token|]; [|by apply simulated_refl].
  specialize (Hdep (signed_request req bytes) token).
  destruct (dependency _ _ _ _ _) as [[c [i|e]] s']; simpl in *; rewrite Hdep; [|by apply simulated_refl].
  specialize (Hroute i d HI HK (ticks s')). unfold run in Hroute. by destruct (route i _).
Qed.

Lemma agent_call_simulated c req server : Simulated (run_agent c req server).
Proof.
  destruct c; simpl; apply sim_ignore.
  - apply (sim_side [TServer; THeartbeat]); [done|apply _..].
  - apply (sim_side [TMetric]); [done|apply _..].
  - apply (sim_side [TDisk; TNetwork]); [done|apply _..].
  - apply (sim_side [TService]); [done|apply _..].
  - apply (sim_task (FetchPending server)); [done|]. by apply after_ignore.
  - eapply (sim_task (ReportResult server _ _ _ _ _ _ _)); [done|]. by apply after_ignore.
Qed.

(** ** The simulation *)

Lemma system_step_simulated d d' :
  system_step jwt signing jobs seeds d d' → integrity d → keyed d → simulated d d'.
Proof.
  destruct 1 as [w c req d n|c req bytes h o d n|key req bytes h o d n|req data d n|j d n Hj|]; intros HI HK.
  - by apply user_simulated.
  - apply after_agent_simulated; [|by intros; apply agent_call_simulated|done|done].
    intros rq token. unfold get_agent_server. pose proof (resolve_session rq token h o d n) as Hs.
    by destruct (_resolve_agent _ _ _ _ _ _) as [[c' [[t sv]|e]] s'].
  - apply after_agent_simulated; [|intros i; by apply (sim_side [TToken]); [done|apply _..]|done|done].
    intros rq token. unfold get_agent_token. pose proof (resolve_session rq token h o d n) as Hs.
    by destruct (_resolve_agent _ _ _ _ _ _) as [[c' [[t sv]|e]] s'].
  - by apply (sim_side [TServer; TToken; THeartbeat]); [done|apply _|apply _| |].
  - by apply job_simulated.
  - by apply seed_simulated.
Qed.
End Props.
