(* ===== verification/Isolation.v ===== *)
(** * Isolation of agents

    The rows that belong to a server, and the invariant that only the rows of
    one server change.  Everything an authenticated agent can do keeps it. *)
From Stdlib Require Import QArith.
From S2P Require Import Prelude.
From S2P Require Export SystemSim.

(** The server a row belongs to. *)
Definition owner (k : tname) : row k → option Z :=
  match k with
  | TServer => λ r, Some (OpsServer.id r)
  | TToken => λ r, Some (OpsAgentToken.server_id r)
  | THeartbeat => λ r, Some (OpsAgentHeartbeat.server_id r)
  | TService => λ r, Some (OpsServerService.server_id r)
  | TDisk => λ r, Some (OpsServerDisk.server_id r)
  | TNetwork => λ r, Some (OpsServerNetwork.server_id r)
  | TMetric => λ r, Some (MonitorServerMetric.server_id r)
  | TMetricDaily => λ r, Some (MonitorServerMetricDaily.server_id r)
  | TTarget => λ r, Some (OpsTaskTarget.server_id r)
  | TExec => λ r, Some (OpsTaskExecution.server_id r)
  | TEvent => λ r, AlertEvent.server_id r
  | TOperationLog => λ r, SysOperationLog.server_id r
  | TTask | TTaskLog | TRule | TEventLog | TUser | TRole | TUserRole | TLoginLog | TPermission | TRolePermission =>
    λ _, None
  end.

Section Isolation.
Context (sv : Z).

(** A row of another server. *)
Definition foreign (k : tname) (r : row k) : bool :=
  match owner k r with Some j => negb (j =? sv) | None => false end.

Definition same_foreign (d d' : db) : Prop :=
  ∀ k i r, foreign k r = true → rows (d' k) !! i = Some r ↔ rows (d k) !! i = Some r.

Definition apart (d0 d : db) : Prop := integrity d ∧ same_foreign d0 d.

(** The key of a row that is not foreign, if it is one of [d0] at all. *)
Definition mine (d0 : db) (k : tname) (i : Z) : Prop := ∀ r, rows (d0 k) !! i = Some r → foreign k r = false.

Lemma apart_refl d : integrity d → apart d d.
Proof. by split. Qed.

Lemma foreign_row d0 d k i r : apart d0 d → mine d0 k i → rows (d k) !! i = Some r → foreign k r = false.
Proof.
  intros [_ Hs] Hm Hr. destruct (foreign k r) eqn:Hf; [|done]. rewrite <- Hf. apply Hm. by apply Hs.
Qed.

Lemma mine_row d0 d k i r : apart d0 d → rows (d k) !! i = Some r → foreign k r = false → mine d0 k i.
Proof.
  intros [_ Hs] Hr Hf r0 Hr0. destruct (foreign k r0) eqn:Hf0; [|done].
  apply (Hs k i r0 Hf0) in Hr0. pose proof (same_row k Hr Hr0). congruence.
Qed.

Context `{E : Env} `{!EnvOk E} (d0 : db).

(** ** Writes *)

Lemma apart_assign k i f :
  mine d0 k i → (∀ r, owner k (f r) = owner k r) → Preserves (apart d0) (assign k i f).
Proof.
  intros Hm Hf. apply preserves_assign. intros d r HA Hr Ha. pose proof HA as [HI Hs].
  split; [by eapply integrity_put_row|]. intros k' j r' Hf'. table_cases k k'; [|by apply Hs].
  assert (foreign k r = false) as Hr' by by eapply foreign_row.
  destruct (decide (j = i)) as [->|Hne]; [|rewrite lookup_insert_ne by done; by apply Hs].
  rewrite lookup_insert_eq. split.
  - intros [= <-]. unfold foreign in *. rewrite Hf in Hf'. congruence.
  - intros Hr0. specialize (Hm _ Hr0). congruence.
Qed.

Lemma apart_create k r :
  (∀ i now, foreign k (fresh_row k i now r) = false) → Preserves (apart d0) (create k r).
Proof.
  intros Hf. apply preserves_create. intros d now [HI Hs] r' Ha. split; [by apply integrity_add_row|].
  intros k' j r2 Hf2. rewrite <- (Hs k' j r2 Hf2). table_cases k k'; [|done].
  destruct (decide (j = next_id (d k))) as [->|Hne]; [|by rewrite lookup_insert_ne by done].
  rewrite lookup_insert_eq. split.
  - intros [= <-]. unfold r' in Hf2. by rewrite Hf in Hf2.
  - intros Hr2%(integrity_key k HI). lia.
Qed.

Lemma apart_delete_row k i : mine d0 k i → Preserves (apart d0) (delete_row k i).
Proof.
  intros Hm. apply preserves_delete_row. intros d [HI Hs] Hr. split.
  - apply integrity_filter_rows; [done|]. intros j r0 _ Hj. apply negb_false_iff, Z.eqb_eq in Hj. by subst.
  - intros k' j r' Hf'. rewrite <- (Hs k' j r' Hf'). table_cases k k'; [|done].
    rewrite map_lookup_filter_Some. split; [by intros []|]. intros Hj. split; [done|].
    apply negb_true_iff, Z.eqb_neq. intros ->. apply (Hs k i r' Hf') in Hj. specialize (Hm _ Hj). congruence.
Qed.

(** ** Reads that find rows of the server *)

Lemma select_mine k p s :
  (∀ r, p r = true → foreign k r = false) → both (apart d0) s →
  wp (select_where k p) (λ l s', Forall (mine d0 k) l ∧ both (apart d0) s') (λ _ s', both (apart d0) s') s.
Proof.
  intros Hp Hs. apply wp_select_where. split; [|done]. apply Forall_forall. intros i (r & Hr & Hpr)%elem_of_matching.
  apply andb_true_iff in Hpr as [_ Hpr]. apply (mine_row d0 (work s) k i r); [apply Hs|done|by apply Hp].
Qed.

Lemma obj_mine k i s :
  mine d0 k i → both (apart d0) s →
  wp (obj k i) (λ r s', foreign k r = false ∧ both (apart d0) s') (λ _ s', both (apart d0) s') s.
Proof.
  intros Hm Hs. apply wp_obj; [|done]. intros r Hr. split; [|done].
  apply (foreign_row d0 (work s) k i); [apply Hs|done|done].
Qed.

(** Whether a row is the server's own is decided by looking at it. *)
Lemma obj_own k i s :
  both (apart d0) s →
  wp (obj k i) (λ r s', (foreign k r = false → mine d0 k i) ∧ both (apart d0) s') (λ _ s', both (apart d0) s') s.
Proof.
  intros Hs. apply wp_obj; [|done]. intros r Hr. split; [|done]. intros Hf.
  apply (mine_row d0 (work s) k i r); [apply Hs|done|done].
Qed.

Lemma order_mine k le l s :
  Forall (mine d0 k) l → both (apart d0) s →
  wp (order_by k le l) (λ l' s', Forall (mine d0 k) l' ∧ both (apart d0) s') (λ _ s', both (apart d0) s') s.
Proof.
  intros Hl Hs. unfold order_by. apply wp_bind, wp_get_work, wp_ret. split; [|done].
  apply Forall_forall. intros i Hi%elem_of_sort_by. by apply (proj1 (Forall_forall _ _) Hl).
Qed.
End Isolation.

Lemma server_set_duration now e : OpsTaskExecution.server_id (set_duration now e) = OpsTaskExecution.server_id e.
Proof. unfold set_duration. by case_match. Qed.
#[export] Hint Rewrite server_set_duration : row_ids.

(** [mine]: known, or a table without owners. *)
Ltac is_mine := first [assumption|intros ? _; reflexivity].
Ltac own_row := intros ? ?; unfold foreign; cbn; rewrite ?Z.eqb_refl; first [reflexivity|assumption].

#[export] Hint Extern 1 (Preserves (apart _ _) (assign _ _ _)) => apply apart_assign; [is_mine|keeps_id] : typeclass_instances.
#[export] Hint Extern 1 (Preserves (apart _ _) (create _ _)) => apply apart_create; own_row : typeclass_instances.
#[export] Hint Extern 1 (Preserves (apart _ _) (delete_row _ _)) => apply apart_delete_row; is_mine : typeclass_instances.

Section Calls.
Context (sv : Z) `{E : Env} `{!EnvOk E} (d0 : db).

#[local] Abbreviation Apart := (Preserves (apart sv d0)).
#[local] Abbreviation mine := (mine sv d0).
#[local] Abbreviation foreign := (foreign sv).

Lemma obj_bind k i {B} (f : row k → M B) :
  mine k i → (∀ r, foreign k r = false → Apart (f r)) → Apart (obj k i ≫= f).
Proof. intros Hm. apply preserves_bind_post. intros s Hs. by apply obj_mine. Qed.

Lemma select_bind k p {B} (f : list Z → M B) :
  (∀ r, p r = true → foreign k r = false) → (∀ l, Forall (mine k) l → Apart (f l)) → Apart (select_where k p ≫= f).
Proof. intros Hp. apply preserves_bind_post. intros s Hs. by apply select_mine. Qed.

Lemma head_mine k l i : Forall (mine k) l → head l = Some i → mine k i.
Proof. destruct 1; [done|]. by intros [= <-]. Qed.

Lemma member_mine k l i : Forall (mine k) l → i ∈ l → mine k i.
Proof. intros Hl. apply (proj1 (Forall_forall _ _) Hl). Qed.

(** ** Assets, services, heartbeats, metrics *)

Lemma apart_upsert_disk name mount fs total : Apart (DiskRepository.upsert sv name mount fs total).
Proof.
  unfold DiskRepository.upsert. apply select_bind.
  - intros r [[Hr _]%andb_true_iff _]%andb_true_iff. unfold Isolation.foreign. simpl. by rewrite Hr.
  - intros l Hl. destruct (head l) as [i|] eqn:Hi; [|apply _]. pose proof (head_mine _ _ _ Hl Hi). apply _.
Qed.

Lemma apart_upsert_network name mac ip : Apart (NetworkRepository.upsert sv name mac ip).
Proof.
  unfold NetworkRepository.upsert. apply select_bind.
  - intros r [Hr _]%andb_true_iff. unfold Isolation.foreign. simpl. by rewrite Hr.
  - intros l Hl. destruct (head l) as [i|] eqn:Hi; [|apply _]. pose proof (head_mine _ _ _ Hl Hi). apply _.
Qed.

Lemma apart_upsert_status name status : Apart (ServiceRepository.upsert_status sv name status).
Proof.
  unfold ServiceRepository.upsert_status. apply select_bind.
  - intros r [Hr _]%andb_true_iff. unfold Isolation.foreign. simpl. by rewrite Hr.
  - intros l Hl. apply preserves_bind; [apply _|]. intros now.
    destruct (head l) as [i|] eqn:Hi; [|apply _]. pose proof (head_mine _ _ _ Hl Hi). apply _.
Qed.

(** The rows of the server that are not reported any more are removed. *)
Lemma apart_prune k p q :
  (∀ r : row k, p r = true → foreign k r = false) →
  Apart (l ← list_all k p; for_each (λ i, r ← obj k i; when (q r) (delete_row k i)) l).
Proof.
  intros Hp. apply select_bind; [done|]. intros l Hl. apply preserves_for_each_in.
  intros i Hi. pose proof (member_mine _ _ _ Hl Hi). apply _.
Qed.

Lemma id_of_mine s : foreign TServer s = false → OpsServer.id s = sv.
Proof. intros Hf%negb_false_iff%Z.eqb_eq. exact Hf. Qed.

Lemma apart_heartbeat req data : mine TServer sv → Apart (heartbeat req data sv).
Proof.
  intros Hm. unfold heartbeat, AgentService.heartbeat. apply preserves_bind; [apply _|]. intros _.
  apply preserves_bind; [apply _|]. intros _. apply preserves_bind; [apply _|]. intros _.
  apply (obj_bind TServer sv); [done|]. intros s Hs%id_of_mine. rewrite Hs. apply _.
Qed.

Lemma apart_ingest data : mine TServer sv → Apart (ingest_metrics data sv).
Proof.
  intros Hm. unfold ingest_metrics, AgentService.ingest_metrics. apply preserves_bind; [apply _|]. intros _.
  apply preserves_bind; [apply _|]. intros _. apply preserves_bind; [apply _|]. intros at_.
  apply (obj_bind TServer sv); [done|]. intros s Hs%id_of_mine. rewrite Hs. apply _.
Qed.

Lemma apart_services data : mine TServer sv → Apart (sync_services data sv).
Proof.
  intros Hm. unfold sync_services, AgentService.sync_services. apply preserves_bind; [apply _|]. intros _.
  apply preserves_bind; [apply _|]. intros _. apply (obj_bind TServer sv); [done|]. intros s Hs%id_of_mine. rewrite Hs.
  apply preserves_bind; [|apply _]. apply preserves_for_each. intros [name status].
  apply preserves_bind; [apply apart_upsert_status|apply _].
Qed.

Lemma apart_assets data : mine TServer sv → Apart (sync_assets data sv).
Proof.
  intros Hm. unfold sync_assets, AgentService.sync_assets. apply preserves_bind; [apply _|]. intros _.
  apply preserves_bind; [apply _|]. intros _. apply (obj_bind TServer sv); [done|]. intros s Hs%id_of_mine. rewrite Hs.
  apply preserves_bind; [apply preserves_for_each; intros disk; apply preserves_bind; [apply apart_upsert_disk|apply _]|].
  intros _. apply preserves_bind.
  { apply apart_prune. intros r Hr. unfold Isolation.foreign. simpl. by rewrite Hr. }
  intros _. apply preserves_bind.
  { apply preserves_for_each. intros net. apply preserves_bind; [apply apart_upsert_network|apply _]. }
  intros _. apply select_bind.
  { intros r Hr. unfold Isolation.foreign. simpl. by rewrite Hr. }
  intros l Hl. apply preserves_bind; [|apply _]. apply preserves_for_each_in. intros i Hi.
  pose proof (member_mine _ _ _ Hl Hi). apply _.
Qed.

(** ** Tasks *)

Lemma claimable_mine d r : TaskExecutionRepository.claimable d sv r = true → foreign TExec r = false.
Proof. intros [[Hr _]%andb_true_iff _]%andb_true_iff. unfold Isolation.foreign. simpl. by rewrite Hr. Qed.

Lemma apart_fetch : Apart (fetch_pending_tasks sv).
Proof.
  unfold fetch_pending_tasks, fetch_pending. apply (preserves_bind_post _ (Forall (mine TExec))).
  - intros s Hs. unfold TaskExecutionRepository.fetch_pending_by_server. apply wp_bind, wp_get_work, wp_bind.
    eapply wp_mono; [by apply (select_mine sv d0 TExec _ s (claimable_mine (work s)))| |done].
    intros l s1 [Hl Hs1]. apply wp_bind. eapply wp_mono; [by apply order_mine| |done].
    intros l' s2 [Hl' Hs2]. apply wp_ret. split; [by apply Forall_take|done].
  - intros l Hl. apply preserves_bind; [|apply _]. apply preserves_fold_loop_in.
    intros acc i Hi. pose proof (member_mine _ _ _ Hl Hi). apply _.
Qed.

Lemma apart_report data : Apart (report_task_result data sv).
Proof.
  unfold report_task_result, report_result. apply preserves_bind; [apply _|]. intros [i|]; [|apply _].
  apply (preserves_bind_post _ (λ e, foreign TExec e = false → mine TExec i)).
  { intros s Hs. by apply (obj_own sv d0 TExec). }
  intros e He. destruct (negb _) eqn:Hsv; [apply _|].
  assert (mine TExec i) by (by apply He). apply _.
Qed.

(** Whatever an agent calls, only rows of its server change. *)
Lemma apart_call c req : mine TServer sv → Apart (run_agent c req sv).
Proof.
  intros Hm. destruct c; simpl; apply preserves_bind; try (intros; apply _).
  - by apply apart_heartbeat.
  - by apply apart_ingest.
  - by apply apart_assets.
  - by apply apart_services.
  - apply apart_fetch.
  - apply apart_report.
Qed.
End Calls.
