(* ===== verification/SystemSafety.v ===== *)
(** * Theorems about the whole server

    Access control, isolation of the agents, bounds of the metrics, and the
    refinement of the abstract systems, in every reachable database. *)
From Stdlib Require Import QArith.
From S2P Require Import Prelude.
From S2P Require Export Isolation AgentOps.
From S2P Require Import Samples SampleUser SeedProps.
From S2P Require Import Routes.

(** The token of a request is that of a usable user at this time. *)
Definition authenticated `{E : Env} `{!Jwt} `{!OAuth2} (jwt : jwt_settings) (req : incoming) (d : db) (n : nat)
    (i : Z) : Prop :=
  ∃ token u, oauth2_scheme (authorization req) = Some token ∧ token_user jwt (clock n) token = Some i ∧
    users d !! i = Some u ∧ usable u = true.

(** What [access_of] demands of a request. *)
Definition admitted `{E : Env} `{!Jwt} `{!OAuth2} (jwt : jwt_settings) (a : access) (req : incoming) (d : db) (n : nat)
    : Prop :=
  match a with
  | Public => True
  | Authenticated => ∃ i, authenticated jwt req d n i
  | Roles codes => ∃ i, authenticated jwt req d n i ∧ has_role d i codes
  end.

Section Safety.
Context `{E : Env} `{!EnvOk E} `{!Passwords} `{!Jwt} `{!OAuth2} `{!Secrets} `{!Cron} `{!Ed25519} `{!Sockets} `{R : Redis}.
Context (jwt : jwt_settings) (signing : settings) (jobs : job_settings) (seeds : seed_settings).

(** ** Access control *)

(** Admitted, or refused before anything happens. *)
Definition Guarded (a : access) (req : incoming) {A} (m : M A) : Prop := ∀ d n, integrity d → keyed d →
  admitted jwt a req d n ∨ ∃ e n', run m d n = (Raise e, d, n') ∧ refusal e.

Lemma guarded_bind a req {A B} (m : M A) (f : A → M B) : Guarded a req m → Guarded a req (m ≫= f).
Proof.
  intros Hm d n HI HK. destruct (Hm d n HI HK) as [Ha|(e & n' & Hrun & He)]; [by left|right].
  exists e, n'. split; [|done]. revert Hrun. unfold run, mbind, M_bind. destruct (m _) as [[x|e'] s']; [by intros [=]|by intros [= -> <- <-]].
Qed.

Lemma guarded_require codes req : Guarded (Roles codes) req (require jwt codes req).
Proof.
  intros d n HI HK. pose proof (wp_require jwt codes req d n HI HK) as Hwp. unfold wp, run in *.
  destruct (require jwt codes req _) as [[i|e] s'].
  - destruct Hwp as (_ & token & u & Ho & Ht & Hu & Hus & Hr). left. exists i. split; [by exists token, u|done].
  - destruct Hwp as [-> He]. right. by exists e, (ticks s').
Qed.

Lemma guarded_current req : Guarded Authenticated req (current_user_of jwt req).
Proof.
  intros d n HI HK. unfold admitted, authenticated, run, current_user_of, bearer.
  destruct (oauth2_scheme _) as [token|]; [|right; exists (HTTPException 401), n; by split; [|left]].
  enough (wp (get_current_user jwt token) (λ i _, current_user jwt d (clock n) token = Some i)
    (λ e s', durable s' = d ∧ refusal e) (Session d d n)) as Hwp.
  { unfold wp in Hwp. unfold mbind, M_bind, mret, M_ret. destruct (get_current_user jwt token _) as [[i|e] s'].
    - apply current_user_iff in Hwp as (u & Ht & Hu & Hus). left. by exists i, token, u.
    - destruct Hwp as [-> He]. right. by exists e, (ticks s'). }
  apply wp_get_current_user. cbn [work ticks]. destruct (current_user _ _ _ _); [done|].
  intros c m. split; [done|by left].
Qed.

(** C3: a user's request runs only if the access table admits it: otherwise it
    is answered with 401 or 403 and nothing in the database changes.  So tasks
    are only created, confirmed and cancelled and alerts only handled by
    administrators and engineers, and rules, servers, tokens, white lists and
    users only managed by administrators, with usable accounts, at this time. *)
Theorem access_control (c : user_call) (req : incoming) (ctx : context) (d : db) (n : nat) :
  integrity d → keyed d →
  admitted jwt (access_of c) req d n ∨
  ∃ e n', run (run_call jwt c req ctx) d n = (Raise e, d, n') ∧ refusal e.
Proof.
  assert (Guarded (access_of c) req (run_call jwt c req ctx)) as Hc; [|apply Hc].
  destruct c; simpl; unfold ignore; try (intros ????; by left);
    repeat first [apply guarded_require|apply guarded_current|apply guarded_bind].
Qed.

(** ** Isolation of agents *)

(** The bearer token stands for server [sv] at [now]. *)
Definition acts_for (d : db) (now : datetime) (token : string) (sv : Z) : Prop :=
  ∃ i t s, tokens d !! i = Some t ∧ OpsAgentToken.token_hash t = _hash_token token ∧ token_usable t now = true ∧
    OpsAgentToken.server_id t = sv ∧ servers d !! sv = Some s ∧ ServerRepository.enabled s = true.

Lemma wp_agent_server d token n :
  integrity d →
  wp (find_agent token) (λ r s', s' = Session d d (ticks s') ∧ acts_for d (clock n) token r.2)
    (λ _ s', durable s' = d) (Session d d n).
Proof.
  intros HI. apply wp_find_agent; cbn [work durable ticks]; [done| |done].
  intros i t s n' Ht Hh Hu Hs. destruct (ServerRepository.enabled s) eqn:He; [|done].
  split; [done|]. by exists i, t, s.
Qed.


(** ** Invariants of the whole server *)

(** A predicate that every computation of the program preserves holds along
    its steps. *)
Lemma system_step_preserves (I : db → Prop) d d' :
  (∀ c req ctx, Preserves I (run_call jwt c req ctx)) →
  (∀ uuid req ctx status ms e, Preserves I (_write_log req (Context_ uuid ctx) status ms e)) →
  (∀ c req sv, Preserves I (run_agent c req sv)) → (∀ key i, Preserves I (rotate_signing_key key i)) →
  (∀ req data, Preserves I (register req data)) → (∀ j, j ∈ job_table jobs → Preserves I (Scheduler.body j)) →
  (∀ salt, Preserves I (_init_seed_data_once seeds salt)) →
  system_step jwt signing jobs seeds d d' → I d → I d'.
Proof.
  intros Huser Hlog Hagent Hrotate Hregister Hjob Hseed Hstep HI.
  assert (∀ {A} dependency req bytes h o (route : Z → M A) d n,
    (∀ rq token, (dependency rq token h o (Session d d n)).2 = Session d d (ticks (dependency rq token h o (Session d d n)).2)) →
    (∀ i, Preserves I (route i)) → I d → I (after_request (after_agent dependency req bytes h o route) d n)) as Hafter.
  { intros A dependency req bytes h o route d0 n Hdep Hroute HI0. unfold after_request, after_agent.
    destruct (oauth2_scheme _) as [token|]; [|done]. specialize (Hdep (signed_request req bytes) token).
    destruct (dependency _ _ _ _ _) as [[c [i|e]] s']; simpl in *; rewrite Hdep; [|done].
    destruct (Hroute i (Session d0 d0 (ticks s'))) as [_ HI']; [done|]. by destruct (route i _). }
  destruct Hstep as [w c req d n|c req bytes h o d n|key req bytes h o d n|req data d n|j d n Hj|up tries salt d n].
  - unfold after_call, serve. destruct (run (request_context _ _ _) d n) as [[[ctx|e] d0] n1]; [|done]. unfold dispatch.
    pose proof (run_preserves I (run_call jwt c req ctx) d n1 (Huser c req ctx) HI) as Hafter1.
    destruct (run (run_call jwt c req ctx) d n1) as [[o d1] n2]. destruct (_ || _); [done|].
    destruct (log_status _ _ _) as [status text]. destruct ctx as [rid uid].
    pose proof (run_preserves I _ d1 n2 (Hlog rid req uid status (duration_ms w) text) Hafter1) as Hafter2.
    by destruct (run _ d1 n2) as [[o' d2] n3].
  - apply Hafter; [|by intros|done]. intros rq token. unfold get_agent_server.
    pose proof (resolve_session signing rq token h o d n) as Hs.
    by destruct (_resolve_agent _ _ _ _ _ _) as [[c' [[t sv]|e]] s'].
  - apply Hafter; [|by intros|done]. intros rq token. unfold get_agent_token.
    pose proof (resolve_session signing rq token h o d n) as Hs.
    by destruct (_resolve_agent _ _ _ _ _ _) as [[c' [[t sv]|e]] s'].
  - by apply run_preserves.
  - pose proof (run_preserves I _ d n (Hjob j Hj) HI) as Hafter1. unfold run_job.
    by destruct (run (Scheduler.body j) d n) as [[o d'] n'].
  - unfold init_seed_data. generalize 1%nat. induction tries as [|left IH]; intros attempt; simpl; [done|].
    pose proof (run_preserves I _ d n (Hseed salt) HI) as Hafter1.
    destruct (up attempt); [by destruct (run _ d n) as [[[[]|e] d'] n']|]. destruct left; [done|apply IH].
Qed.

(** The bounds of the request model. *)
Definition metric_bounded (m : MonitorServerMetric) : Prop :=
  let percentage o := ∀ x, o = Some x → (0 <= x)%Q ∧ (x <= 100)%Q in
  let amount o := ∀ x, o = Some x → 0 ≤ x in
  let load o := ∀ x, o = Some x → (0 <= x)%Q in
  percentage (MonitorServerMetric.cpu_usage m) ∧ percentage (MonitorServerMetric.memory_usage m) ∧
  percentage (MonitorServerMetric.disk_usage m) ∧ amount (MonitorServerMetric.memory_used_bytes m) ∧
  amount (MonitorServerMetric.network_in_bytes m) ∧ amount (MonitorServerMetric.network_out_bytes m) ∧
  load (MonitorServerMetric.load_1m m) ∧ load (MonitorServerMetric.load_5m m) ∧ load (MonitorServerMetric.load_15m m) ∧
  amount (MonitorServerMetric.tcp_connections m) ∧ amount (MonitorServerMetric.uptime_seconds m).

Lemma valid_metric_bounded data sid at_ i now :
  valid_MetricsRequest data = true → metric_bounded (fresh_row TMetric i now (new_metric sid at_ data)).
Proof.
  unfold valid_MetricsRequest, metric_bounded, opt_check, q_in. simpl. rewrite !andb_true_iff.
  intros Hv. decompose [and] Hv. clear Hv.
  split_and!; intros x Hx; rewrite Hx in *;
    rewrite ?andb_true_iff, ?Qle_bool_iff in *; try (by apply Z.leb_le); naive_solver.
Qed.

Lemma ingest_bounded data sv : Preserves (all_rows TMetric metric_bounded) (ingest_metrics data sv).
Proof.
  unfold ingest_metrics. apply (preserves_bind_post _ (λ _, valid_MetricsRequest data = true)).
  { intros s Hs. unfold validate. by destruct (valid_MetricsRequest data). }
  intros _ Hv. unfold AgentService.ingest_metrics, MetricRepository.record.
  assert (∀ sid at_, Preserves (all_rows TMetric metric_bounded) (create TMetric (new_metric sid at_ data))); [|apply _].
  intros sid at_. apply all_rows_create. intros i now. by apply valid_metric_bounded.
Qed.

(** C25: whatever happens, every metric in the database is within the bounds of
    its kind: percentages between 0 and 100, amounts and loads not negative. *)
Theorem metrics_bounded (d : db) (i : Z) (m : MonitorServerMetric) :
  system_reachable jwt signing jobs seeds d → rows (d TMetric) !! i = Some m → metric_bounded m.
Proof.
  intros Hd. enough (all_rows TMetric metric_bounded d) as Hall by apply Hall.
  unfold system_reachable in Hd. assert (all_rows TMetric metric_bounded empty_db) as Hstart.
  { intros j r. simpl. by rewrite lookup_empty. }
  revert Hstart. induction Hd as [d|d0 d1 d2 Hstep _ IH]; [done|]. intros Hstart. apply IH.
  apply (system_step_preserves _ d0 d1); [..|done|done].
  - intros c req ctx. destruct c; simpl; apply _.
  - intros. apply _.
  - intros c req sv. destruct c; simpl; apply preserves_bind; try (intros; apply _). apply ingest_bounded.
  - intros. apply _.
  - intros. apply _.
  - intros j Hj. unfold job_table in Hj.
    repeat (apply elem_of_cons in Hj as [->|Hj]; [simpl; apply _|]). by apply elem_of_nil in Hj.
  - intros. apply _.
Qed.

(** ** Refinement *)

Lemma system_reachable_simulated d :
  system_reachable jwt signing jobs seeds d → simulated empty_db d.
Proof.
  unfold system_reachable. intros Hd.
  enough (∀ d0, rtc (system_step jwt signing jobs seeds) d0 d → integrity d0 → keyed d0 → simulated d0 d) as Hs.
  { apply Hs; [done|apply integrity_empty|]. intros k i r. simpl. by rewrite lookup_empty. }
  clear Hd. induction 1 as [d0|d0 d1 d2 Hstep _ IH]; intros HI HK; [by apply simulated_refl|].
  pose proof (system_step_simulated _ _ _ _ _ _ Hstep HI HK) as Hs. eapply simulated_trans; [exact Hs|].
  apply IH; apply Hs.
Qed.

(** C1: the server refines its components.  Whatever users, agents, jobs and
    restarts do, in any order, from the empty database on, every database it
    reaches satisfies the schema and is reachable in the abstract systems of
    the task service and of the alert subsystem; and each further step is a
    sequence of their steps. *)
Theorem system_refines (d : db) :
  system_reachable jwt signing jobs seeds d →
  integrity d ∧ reachable d ∧ alert_reachable d ∧
  ∀ d', system_step jwt signing jobs seeds d d' → rtc step d d' ∧ rtc alert_step d d'.
Proof.
  intros Hd. destruct (system_reachable_simulated d Hd) as ([HI HK] & Ht & Ha).
  split_and!; [done|exists empty_db; split; [|done]|exists empty_db; split; [|done]|].
  - split_and!; [apply integrity_empty|done..].
  - split_and!; [apply integrity_empty|done..|]. intros i s. simpl. by rewrite lookup_empty.
  - intros d' Hstep. apply (system_step_simulated jwt signing jobs seeds d d' Hstep HI HK).
Qed.
End Safety.

(** ** Instances

    The web framework reads bearer tokens; the administrator that seeding
    created adds a server. *)
#[export] Instance toy_oauth2 : OAuth2 := λ h, h ≫= after_prefix "Bearer ".

Definition toy_request (method path token : string) : incoming :=
  Incoming method path (Some ("Bearer " +:+ token)) None None None (Some "10.1.1.1") [].

Definition toy_surroundings : surroundings := Surroundings true "uuid-1" (λ _, "error") 200 12.

(** A token for user [i], issued in the first second of the sample clock. *)
Definition toy_token (i : Z) : string := jwt_encode "secret" (Claims (Some (py_str i)) 1700000000 1700007200).

Definition started_db : db := (init_seed_data toy_seed_settings (λ _, true) 10 0 empty_db 0).1.2.

Definition served_db : db :=
  after_call toy_jwt_settings toy_surroundings (PostServer (ServerCreate.Mk "web-1" "web-1" "10.0.0.1" 22 None))
    (toy_request "POST" "/api/v1/servers" (toy_token 1)) started_db 100.

Lemma served_reachable :
  system_reachable toy_jwt_settings (Settings true 300) default_job_settings toy_seed_settings served_db.
Proof.
  apply (rtc_r _ started_db _); [|exact (step_user _ _ _ _ toy_surroundings _ _ started_db 100)].
  apply rtc_once, (step_seed _ _ _ _ (λ _, true) 10 0 empty_db 0).
Qed.

Lemma served_contents :
  size (servers served_db) = 1%nat ∧ size (rules served_db) = 10%nat ∧ size (rows (served_db TOperationLog)) = 1%nat.
Proof. vm_compute. split; [reflexivity|]. split; reflexivity. Qed.

Lemma system_refines_witness :
  reachable served_db ∧ alert_reachable served_db ∧
  size (servers served_db) = 1%nat ∧ size (rules served_db) = 10%nat.
Proof.
  destruct (system_refines toy_jwt_settings (Settings true 300) default_job_settings toy_seed_settings served_db
    served_reachable) as (_ & H1 & H2 & _).
  destruct served_contents as (H3 & H4 & _).
  exact (conj H1 (conj H2 (conj H3 H4))).
Defined.

#[local] Opaque user_db.

(** The disabled account "bob" is refused. *)
Lemma access_control_witness :
  ∃ e n', run (run_call toy_jwt_settings (PostCancel 1) (toy_request "POST" "/api/v1/tasks/1/cancel" (toy_token 3))
            (Context_ "r" None)) user_db 100 = (Raise e, user_db, n') ∧ refusal e.
Proof.
  destruct (access_control toy_jwt_settings (PostCancel 1)
    (toy_request "POST" "/api/v1/tasks/1/cancel" (toy_token 3)) (Context_ "r" None) user_db 100 user_integrity
    sample_keyed) as [(i & (token & u & Ho & Ht & Hu & Hus) & _)|Hr]; [exfalso|exact Hr].
  assert (oauth2_scheme (authorization (toy_request "POST" "/api/v1/tasks/1/cancel" (toy_token 3)))
    = Some (toy_token 3)) as Ho' by (vm_compute; reflexivity).
  rewrite Ho' in Ho. injection Ho as <-.
  assert (token_user toy_jwt_settings (clock 100) (toy_token 3) = Some 3) as Ht' by (vm_compute; reflexivity).
  rewrite Ht' in Ht. injection Ht as <-.
  destruct (user_at user_db 3 "bob" "hash:builder" true 0) as (v & Hv & _ & _ & Hva & Hvs); [vm_compute; reflexivity|].
  pose proof (same_row TUser Hu Hv) as ->. unfold usable in Hus. rewrite Hva, Hvs in Hus. discriminate Hus.
Defined.


(** The administrator issues a token for the new server, whose agent uploads
    a metric. *)
Definition token_db : db :=
  after_call toy_jwt_settings toy_surroundings (PostAgentToken 1 None 1)
    (toy_request "POST" "/api/v1/servers/1/agent-token" (toy_token 1)) served_db 200.

Definition toy_metrics : MetricsRequest :=
  MetricsRequest.Mk (Some 1) (WireTime (seconds 1700000300) (Some 0)) (Some (77 # 2)%Q) (Some 50%Q) (Some 4096) None None
    (Some 12) (Some (3 # 2)%Q) None None (Some 7) None.

Definition metered_db : db :=
  after_request (with_server (Settings false 300) (toy_request "POST" "/api/v1/agent/metrics" "secret-1") "x"
    (Headers None None None None) (Outside 0 ∅ 0 NoFault)
    (run_agent (IngestMetrics toy_metrics) (toy_request "POST" "/api/v1/agent/metrics" "secret-1"))) token_db 300.

Lemma metered_reachable :
  system_reachable toy_jwt_settings (Settings false 300) default_job_settings toy_seed_settings metered_db.
Proof.
  apply (rtc_r _ token_db _); [|exact (step_agent _ _ _ _ _ _ _ _ _ token_db 300)].
  apply (rtc_r _ served_db _); [|exact (step_user _ _ _ _ toy_surroundings _ _ served_db 200)].
  apply (rtc_r _ started_db _); [|exact (step_user _ _ _ _ toy_surroundings _ _ started_db 100)].
  apply rtc_once, (step_seed _ _ _ _ (λ _, true) 10 0 empty_db 0).
Qed.

Lemma metrics_bounded_witness :
  ∃ m, rows (metered_db TMetric) !! 1 = Some m ∧ MonitorServerMetric.cpu_usage m = Some (77 # 2)%Q ∧ metric_bounded m.
Proof.
  assert (MonitorServerMetric.cpu_usage <$> rows (metered_db TMetric) !! 1 = Some (Some (77 # 2)%Q)) as Hm
    by (vm_compute; reflexivity).
  apply fmap_Some in Hm as (m & Hm & Hcpu). exists m. split; [exact Hm|]. split; [symmetry; exact Hcpu|].
  exact (metrics_bounded toy_jwt_settings (Settings false 300) default_job_settings toy_seed_settings metered_db 1 m
    metered_reachable Hm).
Defined.
